(* ===== verification/_CoqProject ===== *)
-Q . S2P
Prelude.v
PyStr.v
Errors.v
Json.v
JsonLoads.v
Url.v
Canonical.v
Dumps.v
Sha256.v
Crypto.v
Credential.v
Revocation.v
Chain.v
Challenge.v
Holder.v
Policy.v
Provenance.v
Tee.v
Sealed.v
Attestation.v
Peer.v
Base64.v
Wire.v
Adapter.v
Response.v
Node.v
Server.v
Client.v
Call.v
Trace.v
Dag.v
Verify.v
Evidence.v
Tpm.v
TpmVerify.v
Tsm.v
SevSnp.v
Tdx.v
Config.v
Manifest.v
Bootstrap.v
SdkBridge.v
Cli.v
Acceptance.v
Benchmarks.v
