(* ===== verification/Prelude.v ===== *)
(** * ca2a: a verification library for the cA2A peer runtime

    cA2A lets one agent delegate a capability to another and lets the callee check,
    before it acts, who delegated what to whom, that the caller is the delegate,
    what the caller is running, and leaves a record of the decision.  This library
    models the runtime under [src/src/ca2a_runtime/] and the offline verifier under
    [src/src/ca2a_verify/] as executable Rocq functions translated from the Python, and
    proves what makes each part correct and how the parts compose: into the inbound
    pipeline, into a call over HTTP from end to end, and into the commands of the
    command line.

    ** How the code is represented

    - A Python [str] is a [pystr], the list of its code points (lone surrogates
      included, as Python allows them); [bytes] is [list byte]; [int] is [Z];
      [frozenset[str]] is stdpp's [gset pystr]; a dict read from or written to JSON
      is an association list in insertion order ([Json.dict]).
    - A function that may raise returns [res A = result exn A].  [Errors.exn] is
      either a [CA2AError] with its class, message, detail, code, HTTP status and
      provenance record, or a Python or library exception with its class and text.
      Messages and details are the code's own strings.
    - Code with visible effects is a computation that records them: the steps of the
      pipeline ([Peer.traced]), the file operations of a report entry ([Tsm.io]), the
      receipts of the acceptance run ([Acceptance.logged]), what a command prints and
      whether it listens ([Cli.Output]).
    - Code the environment supplies is an argument: the clock (a reading per call),
      random bytes and generated keys, the hardware verifier, the attestation
      provider, the file system and the host.  A provider or verifier passed to the
      code is the value it is passed ([Tee.Provider], [Attestation.Verifier]).
    - The standard library is modelled: UTF-8 and UTF-16, decimal and hexadecimal
      text, [repr], [json.loads] and [json.dumps] on text and bytes, base64, the parts of
      [urllib.parse] and [pathlib] the code uses, SHA-256 and HMAC (checked on published
      vectors).  [argparse], sockets and threads are not.
    - No theorem assumes a hash is injective.  Where the code relies on collision
      resistance the theorem exhibits the collision from its data: the bodies of two
      records of the two histories ([Provenance.histories_collide]), the serializations
      of two emitted records ([Dag.collision_within]), the messages two bindings or two
      MACs hash ([Tee.bindings_collide], [Attestation.mac_collision]).  A bare
      "there is a collision" is true of any fixed-length digest and never a conclusion.
    - Arguments of the wrong Python type are outside the model: the runtime's public
      functions are typed, and untrusted input reaches them through the parsers,
      which are modelled on every JSON value.

    ** Interfaces

    Third-party packages, and what of the standard library is data rather than code,
    are type classes.  Laws are separate classes, so each theorem shows what it relies
    on; every class has an executable instance the concrete examples run on.

    - [Crypto.Crypto] (Ed25519, X25519, HKDF, ChaCha20-Poly1305) with [CryptoLaws].
    - [PyStr.Unidata] (the Unicode database that [int()] and [repr()] consult),
      [JsonLoads.FloatText] (the text of a float), [Response.FloatTime] (clock arithmetic),
      [Url.UrlLib] (authority checks and percent escapes), [Wire.ErrorText] (the text of
      the interpreter's TypeErrors).
    - [Policy.Policy] with [PolicyLaws]: what the pipeline asks of a callee policy.  The
      allow set and the Cedar policy (over [Policy.CedarEngine]) are its instances.
    - [Trace.TraceLib] with [TraceLaws]: signing, schema and canonical bytes of TRACE.
    - [Evidence.Evidence], [Tpm.CertStore], [Tpm.Esapi]: certificates, signatures, the
      [agent_manifest] verifiers and the TPM; [EvidenceErrors], [EvidenceLaws] and
      [SnpLaws] are the behaviour some theorems rely on.
    - [Config.YamlLib], [Manifest.ManifestSdk], [SdkBridge.Protobuf] with [ProtobufLaws].

    ** Files

    - [Prelude]: the result monad, its inversion lemmas and tactics, bytes, the
      lexicographic order and sorting by key.
    - [PyStr]: Python text: encodings, decimal and hex, splitting, [int], [repr].
    - [Errors]: [ca2a_runtime/errors.py]; [recordless] and [raises_only], with the lemmas
      and hints that show what a computation's errors carry and which class they have.
    - [Json], [JsonLoads], [Dumps], [Url]: JSON values, dict operations, strict key sets,
      the reader, the writer and their round trip; URLs.
    - [Canonical]: [canonical.py].  Two values have the same canonical bytes exactly
      when they are equal up to key order; the bytes read back as the value; the
      domain is exactly the documented one.
    - [Sha256], [Crypto]: hashing; the interface of the [cryptography] package.
    - [Credential], [Revocation], [Chain]: [delegation/credential.py] and
      [delegation/revocation.py].  The parser accepts exactly the wire forms; signing
      and verifying; snapshots and their lookup; [verify_chain] against the
      specification [Chain.ChainOk]/[NotRevoked], with attenuation, the order of
      faults ([chain_fault], whose every case says what was checked before), and which revocation statements count.  [Benchmarks] ([benchmarks.py])
      shows that honest delegation of any admitted length succeeds.
    - [Challenge]: [challenge.py].  [Holder]: [delegation/holder.py], with the domain
      separation of everything the delegation layer signs.
    - [Policy]: [policy.py] and [cedar.py].
    - [Provenance]: [provenance.py]; records, hashes, [verify_dag] against [DagOk],
      the cross-check with a chain.
    - [Tee]: [tee/base.py], [tee/binding.py], [tee/software.py]; reports, the digest
      that binds role, key and nonce.
    - [Sealed]: [channel/sealed.py].  [Attestation]: [attestation.py]; offers in both
      directions and the proof of possession.
    - [Peer]: [peer.py]; the inbound pipeline as a computation that records the steps
      it takes, so that "the payload is opened last" is a statement about it, against
      the specification of what it accepts.
    - [Base64], [Wire], [Adapter], [Response], [Node], [Server], [Client]: the transport,
      [transport/*.py], [response.py] and [node.py].  The parser's error contract,
      the round trip of requests, one-use response authentication, and handlers that
      answer every refusal.  [Call] composes client and server over an HTTP connection
      assumed for the two requests a call makes ([Call.connected]).
    - [SdkBridge]: [transport/a2a_sdk.py]; cards and messages of the official SDK.
    - [Trace], [Dag]: [trace_binding.py] and [ca2a_verify/dag.py]; what is emitted
      verifies, and the verifier accepts exactly the linked, signed records.
    - [Verify]: [ca2a_verify/verify.py], chains and snapshots from files.
    - [Evidence], [Tsm], [Tpm], [TpmVerify], [SevSnp], [Tdx]: [tee/tsm.py], [tee/tpm.py],
      [tee/sev_snp.py], [tee/tdx.py] and their verifiers in [ca2a_verify/].  Parsers of
      evidence with their bounds, collection in the right order, appraisal against
      its specification, and that what a provider collects a peer accepts.
    - [Config], [Manifest], [Bootstrap]: [config.py], [agent_manifest.py], [bootstrap.py].
      A parsed configuration is a valid one; the node built from it stays within it;
      the software provider is never a fallback.
    - [Cli]: [cli.py]; every command, the meaning of its exit status, and that what it
      prints agrees with it.  [Acceptance]: [hardware_acceptance.py]; receipts, spans and
      the pinned verifier.

    ** Recursion

    Loops over lists are structural.  [PyStr.dec_rev] and [JsonLoads.parse_value] take
    fuel: the number of binary digits bounds the decimal ones, and the length of the
    text bounds the nesting ([loads] passes it); the round-trip theorems show it is
    enough.  [json.loads]'s RecursionError, which depends on the interpreter's stack,
    is not modelled.  The loop that reads a TPM index ([Tpm.tpm.nv_read_loop]) takes fuel
    because the code's may not end: [Tpm.read_nv_complete] shows that it ends and returns
    the whole index, with as many reads as it has chunks, on a device that fails a read
    above the maximum it announces, and [Tpm.read_nv_empty_read_diverges] that it
    never ends when a read returns nothing.

    ** Not modelled

    - [argparse] and [build_parser]'s table: a command starts from its namespace.
    - [hardware_acceptance.ObservedNode.handle] and [run], which wire the modelled node,
      server and client to the receipt log, and the timing of [benchmarks.py].
    - A write to standard output or error that fails, but for the line [ca2a start]
      flushes between binding and serving ([Cli.World.w_announce]).
    - Sockets, threads, the read timeout of the server, and header formatting.
    - [ca2a_verify/tpm_roots.py] (two PEM constants) and the packages' [__init__.py].
    - [examples/], [experiments/], [papers/], [scripts/], [hooks/] and the fuzzers: programs
      that exercise the runtime, documents, and build tooling.

    The manifest's list of components gives the reason for each part left out. *)

From stdpp Require Export base tactics option list gmap sorting strings.
From Stdlib Require Export ZArith NArith Strings.Byte ZifyN ZifyNat.

(** [lia] sees through division and remainder by constants. *)
Ltac Zify.zify_post_hook ::= Z.to_euclidean_division_equations.

(** ** The result monad

    Python code that may raise is a value of [result E A]: [Ok a] when the call
    returns [a], [Err e] when it raises [e].  Sequencing is stdpp's
    [x <- m; k] / [m ;; k]. *)
Inductive result (E A : Type) : Type :=
| Ok (a : A)
| Err (e : E).
Arguments Ok {E A} a.
Arguments Err {E A} e.

#[export] Instance result_ret {E} : MRet (result E) := fun _ a => Ok a.
#[export] Instance result_bind {E} : MBind (result E) :=
  fun _ _ f m => match m with Ok a => f a | Err e => Err e end.

#[export] Instance result_fmap {E} : FMap (result E) :=
  fun _ _ f m => match m with Ok a => Ok (f a) | Err e => Err e end.

#[export] Instance result_eq_dec {E A} `{EqDecision E, EqDecision A} :
  EqDecision (result E A).
Proof. solve_decision. Defined.

(** [if cond: raise e]. *)
Definition raise_if {E} (cond : bool) (e : E) : result E unit :=
  if cond then Err e else Ok tt.

(** [try: body / except sel: handler]; exceptions [sel] does not accept
    propagate. *)
Definition try_except {E A} (body : result E A) (sel : E -> bool)
    (handler : E -> result E A) : result E A :=
  match body with
  | Ok a => Ok a
  | Err e => if sel e then handler e else Err e
  end.

(** [for x in l: f x], collecting the results, stopping at the first raise. *)
Definition mapM_res {E A B} (f : A -> result E B) : list A -> result E (list B) :=
  fix go l :=
    match l with
    | [] => Ok []
    | x :: l => y ← f x; ys ← go l; Ok (y :: ys)
    end.

(** An optional value, or the exception raised in its absence. *)
Definition or_raise {E A} (o : option A) (e : E) : result E A :=
  match o with Some a => Ok a | None => Err e end.

Definition is_ok {E A} (r : result E A) : bool :=
  match r with Ok _ => true | Err _ => false end.

(** The returned value, for fixtures. *)
Definition get_ok {E A} (d : A) (r : result E A) : A :=
  match r with Ok a => a | Err _ => d end.
Lemma get_ok_spec {E A} (d : A) (r : result E A) : is_ok r = true -> r = Ok (get_ok d r).
Proof. by destruct r. Qed.
(** The raised error, for fixtures. *)
Definition get_err {E A} (d : E) (r : result E A) : E :=
  match r with Ok _ => d | Err e => e end.
Lemma get_err_spec {E A} (d : E) (r : result E A) : is_ok r = false -> r = Err (get_err d r).
Proof. by destruct r. Qed.

Section result_lemmas.
Context {E : Type}.

Lemma bind_ok {A B} (m : result E A) (f : A -> result E B) b :
  m ≫= f = Ok b <-> exists a, m = Ok a /\ f a = Ok b.
Proof. destruct m; simpl; naive_solver. Qed.

Lemma bind_err {A B} (m : result E A) (f : A -> result E B) e :
  m ≫= f = Err e <-> m = Err e \/ exists a, m = Ok a /\ f a = Err e.
Proof. destruct m; simpl; naive_solver. Qed.

Lemma fmap_ok {A B} (f : A -> B) (m : result E A) b :
  f <$> m = Ok b <-> exists a, m = Ok a /\ b = f a.
Proof. destruct m; simpl; naive_solver. Qed.

Lemma ok_inj {A} (a b : A) : Ok (E := E) a = Ok b -> a = b.
Proof. by intros [= ->]. Qed.

Lemma fmap_err {A B} (f : A -> B) (m : result E A) e : f <$> m = Err e -> m = Err e.
Proof. by destruct m; simpl; [|intros [= ->]]. Qed.

Lemma raise_if_ok (c : bool) (e : E) u : raise_if c e = Ok u <-> c = false.
Proof. destruct c, u; simpl; naive_solver. Qed.

Lemma raise_if_err (c : bool) (e e' : E) :
  raise_if c e = Err e' <-> c = true /\ e' = e.
Proof. destruct c; simpl; naive_solver. Qed.

Lemma raise_if_false {A} (c : bool) (e : E) (k : unit -> result E A) :
  c = false -> raise_if c e ≫= k = k tt.
Proof. by intros ->. Qed.

Lemma or_raise_ok {A} (o : option A) (e : E) a : or_raise o e = Ok a <-> o = Some a.
Proof. destruct o; simpl; naive_solver. Qed.

Lemma or_raise_err {A} (o : option A) (e e' : E) :
  or_raise o e = Err e' <-> o = None /\ e' = e.
Proof. destruct o; simpl; naive_solver. Qed.

Lemma try_except_ok {A} (m : result E A) sel h a :
  try_except m sel h = Ok a <->
  m = Ok a \/ exists e, m = Err e /\ sel e = true /\ h e = Ok a.
Proof.
  destruct m as [a'|e]; simpl; [naive_solver|]. destruct (sel e) eqn:Hs.
  - split; [intros Hh; right; by exists e | by intros [?|(?&[= <-]&_&?)]].
  - split; [done | intros [?|(?&[= <-]&?&_)]; congruence].
Qed.

(** A handler that always raises never turns a failure into a success. *)
Lemma try_except_raise_ok {A} (m : result E A) sel (g : E -> E) a :
  try_except m sel (fun e => Err (g e)) = Ok a <-> m = Ok a.
Proof. rewrite try_except_ok. naive_solver. Qed.

Lemma mapM_res_ok {A B} (f : A -> result E B) l k :
  mapM_res f l = Ok k <-> Forall2 (fun x y => f x = Ok y) l k.
Proof.
  revert k. induction l as [|x l IH]; intros k.
  - simpl. split; [intros [= <-]; constructor | by inversion 1].
  - change (mapM_res f (x :: l)) with (y ← f x; ys ← mapM_res f l; Ok (y :: ys)).
    rewrite bind_ok. setoid_rewrite bind_ok. setoid_rewrite IH.
    split; [naive_solver | inversion 1; naive_solver].
Qed.

Lemma mapM_res_err {A B} (f : A -> result E B) l e :
  mapM_res f l = Err e -> exists x, x ∈ l /\ f x = Err e.
Proof.
  induction l as [|x l IH]; simpl; [done|]. destruct (f x) as [y|e'] eqn:Hx; simpl.
  - destruct (mapM_res f l) as [ys|e'] eqn:Hl; simpl; [done|]. intros [= <-].
    destruct IH as (z & Hz & Hfz); [done|]. exists z. split; [by right|done].
  - intros [= <-]. exists x. split; [by left|done].
Qed.

Lemma mapM_res_ext {A B} (f g : A -> result E B) l :
  (forall x, x ∈ l -> f x = g x) -> mapM_res f l = mapM_res g l.
Proof.
  induction l as [|x l IH]; intros Hfg; [done|]. simpl.
  rewrite (Hfg x) by (by left). rewrite IH; [done|]. intros y Hy. apply Hfg. by right.
Qed.

Lemma mapM_res_map {A B C} (f : B -> result E C) (g : A -> B) l :
  mapM_res f (map g l) = mapM_res (fun x => f (g x)) l.
Proof. induction l as [|x l IH]; [done|]. simpl. by rewrite IH. Qed.
Lemma guard_ok (P : Prop) `{Decision P} (e : E) u : raise_if (negb (bool_decide P)) e = Ok u <-> P.
Proof. rewrite raise_if_ok, negb_false_iff. apply bool_decide_eq_true. Qed.
Lemma guard_eqb_ok (x y : Z) (e : E) u : raise_if (negb (x =? y)%Z) e = Ok u <-> x = y.
Proof. rewrite raise_if_ok, negb_false_iff. apply Z.eqb_eq. Qed.
Lemma refuse_ok (P : Prop) `{Decision P} (e : E) u : raise_if (bool_decide P) e = Ok u <-> ~ P.
Proof. rewrite raise_if_ok. apply bool_decide_eq_false. Qed.
Lemma refuse_ltb_ok (x y : Z) (e : E) u : raise_if (x <? y)%Z e = Ok u <-> (y <= x)%Z.
Proof. rewrite raise_if_ok. apply Z.ltb_ge. Qed.
Lemma seq_ok {A B} (m : result E A) (k : result E B) b :
  (m;; k) = Ok b <-> (exists a, m = Ok a) /\ k = Ok b.
Proof. rewrite bind_ok. split; [intros (a & ? & ?)|intros [[a ?] ?]]; eauto. Qed.
Lemma ok_unit (P : Prop) (m : result E unit) :
  (forall u, m = Ok u <-> P) -> (exists u, m = Ok u) <-> P.
Proof. intros H. split; [intros [u ?]|intros HP; exists tt]; by eapply H. Qed.

(** A guard that passes, then the rest. *)
Lemma guard_pass {A} (c : bool) (e : E) (k : unit -> result E A) r :
  c = false -> k tt = r -> raise_if c e ≫= k = r.
Proof. by intros -> <-. Qed.
Lemma bind_pass {A B} (m : result E A) (k : A -> result E B) a r :
  m = Ok a -> k a = r -> m ≫= k = r.
Proof. by intros -> <-. Qed.
End result_lemmas.

(** [inv_ok H] turns a hypothesis that a chain of monadic steps returned into
    one hypothesis per step. *)
Ltac inv_ok_step :=
  match goal with
  | H : ?m ≫= _ = Ok _ |- _ =>
      let a := fresh "a" in let H1 := fresh "Hs" in
      apply bind_ok in H; destruct H as (a & H1 & H)
  | H : _ <$> ?m = Ok _ |- _ =>
      let a := fresh "a" in let H1 := fresh "Hs" in
      apply fmap_ok in H; destruct H as (a & H1 & H); try subst
  | H : raise_if _ _ = Ok _ |- _ => apply raise_if_ok in H
  | H : or_raise _ _ = Ok _ |- _ => apply or_raise_ok in H
  | H : try_except _ _ (fun _ => Err _) = Ok _ |- _ => apply try_except_raise_ok in H
  | H : Ok _ = Ok _ |- _ => injection H as H; try subst
  | H : Err _ = Ok _ |- _ => discriminate H
  | H : mret _ = Ok _ |- _ => injection H as H; try subst
  end.
Ltac inv_ok := repeat inv_ok_step.

(** Reduce the monadic steps that have a value, and nothing else. *)
Ltac res_cbn := cbn [negb orb andb raise_if or_raise mbind result_bind fmap result_fmap].
Tactic Notation "res_cbn" "in" hyp(H) :=
  cbn [negb orb andb raise_if or_raise mbind result_bind fmap result_fmap] in H.

(** Boolean conditions to propositions. *)
Ltac bool_to_prop :=
  repeat match goal with
  | H : _ && _ = true |- _ => apply andb_true_iff in H; destruct H
  | H : _ || _ = false |- _ => apply orb_false_iff in H; destruct H
  | H : _ || _ = true |- _ => apply orb_true_iff in H
  | H : _ && _ = false |- _ => apply andb_false_iff in H
  | H : negb _ = true |- _ => apply negb_true_iff in H
  | H : negb _ = false |- _ => apply negb_false_iff in H
  | H : bool_decide _ = true |- _ => apply bool_decide_eq_true in H
  | H : bool_decide _ = false |- _ => apply bool_decide_eq_false in H
  | H : (_ <? _)%Z = true |- _ => apply Z.ltb_lt in H
  | H : (_ <? _)%Z = false |- _ => apply Z.ltb_ge in H
  | H : (_ <=? _)%Z = true |- _ => apply Z.leb_le in H
  | H : (_ <=? _)%Z = false |- _ => apply Z.leb_gt in H
  | H : (_ =? _)%Z = true |- _ => apply Z.eqb_eq in H
  | H : (_ =? _)%Z = false |- _ => apply Z.eqb_neq in H
  | H : (_ <? _)%N = true |- _ => apply N.ltb_lt in H
  | H : (_ <? _)%N = false |- _ => apply N.ltb_ge in H
  | H : (_ <=? _)%N = true |- _ => apply N.leb_le in H
  | H : (_ <=? _)%N = false |- _ => apply N.leb_gt in H
  | H : (_ =? _)%N = true |- _ => apply N.eqb_eq in H
  | H : (_ =? _)%N = false |- _ => apply N.eqb_neq in H
  end.

Lemma forallb_Forall {A} (f : A -> bool) l : forallb f l = true <-> Forall (fun x => f x = true) l.
Proof.
  induction l as [|x l IH]; simpl; [by split|]. rewrite andb_true_iff, Forall_cons, IH. done.
Qed.

(** ** Bytes *)
Notation bytes := (list byte).

#[export] Instance byte_eq_decision : EqDecision byte := Byte.byte_eq_dec.
#[export] Instance byte_inhabited : Inhabited byte := populate x00.

Definition b2n (b : byte) : N := Byte.to_N b.
(** The byte of the low eight bits. *)
Definition n2b (n : N) : byte := default x00 (Byte.of_N (n mod 256)).

Lemma b2n_lt b : (b2n b < 256)%N.
Proof. unfold b2n. pose proof (Byte.to_N_bounded b). lia. Qed.

Lemma b2n_n2b n : b2n (n2b n) = (n mod 256)%N.
Proof.
  unfold b2n, n2b. destruct (Byte.of_N (n mod 256)) as [b|] eqn:E; simpl.
  - by apply Byte.to_of_N.
  - apply Byte.of_N_None_iff in E. pose proof (N.mod_lt n 256). lia.
Qed.

Lemma n2b_b2n b : n2b (b2n b) = b.
Proof.
  unfold n2b, b2n. rewrite N.mod_small by apply b2n_lt. by rewrite Byte.of_to_N.
Qed.

Lemma b2n_n2b_small n : (n < 256)%N -> b2n (n2b n) = n.
Proof. intros. rewrite b2n_n2b. by apply N.mod_small. Qed.

#[export] Instance b2n_inj : Inj (=) (=) b2n.
Proof. intros a b H. by rewrite <-(n2b_b2n a), H, n2b_b2n. Qed.

Lemma n2b_inj m n : (m < 256)%N -> (n < 256)%N -> n2b m = n2b n -> m = n.
Proof. intros Hm Hn H. apply (f_equal b2n) in H. by rewrite !b2n_n2b_small in H. Qed.

#[export] Instance byte_countable : Countable byte :=
  inj_countable' b2n n2b n2b_b2n.

(** ** Lexicographic order on lists of numbers

    The order Python gives to [str] (by code point) and [bytes] values. *)
Fixpoint lex_leb (l k : list N) : bool :=
  match l, k with
  | [], _ => true
  | _ :: _, [] => false
  | x :: l, y :: k => (x <? y)%N || ((x =? y)%N && lex_leb l k)
  end.

Lemma lex_leb_refl l : lex_leb l l = true.
Proof. induction l as [|x l IH]; simpl; [done|]. rewrite N.eqb_refl, IH. by rewrite orb_true_r. Qed.

Lemma lex_leb_total l k : lex_leb l k = true \/ lex_leb k l = true.
Proof.
  revert k. induction l as [|x l IH]; intros [|y k]; simpl; auto.
  destruct (N.lt_trichotomy x y) as [?|[->|?]].
  - left. by apply orb_true_iff; left; apply N.ltb_lt.
  - rewrite N.ltb_irrefl, N.eqb_refl. simpl. apply IH.
  - right. by apply orb_true_iff; left; apply N.ltb_lt.
Qed.

Lemma lex_leb_antisym l k : lex_leb l k = true -> lex_leb k l = true -> l = k.
Proof.
  revert k. induction l as [|x l IH]; intros [|y k]; simpl; try done.
  intros H1 H2. apply orb_true_iff in H1, H2.
  destruct H1 as [H1|H1], H2 as [H2|H2]; bool_to_prop; try lia.
  f_equal; [lia|auto].
Qed.

Lemma lex_leb_trans l k m : lex_leb l k = true -> lex_leb k m = true -> lex_leb l m = true.
Proof.
  revert k m. induction l as [|x l IH]; intros [|y k] [|z m]; simpl; try done.
  intros H1 H2. apply orb_true_iff in H1, H2. apply orb_true_iff.
  destruct H1 as [H1|H1], H2 as [H2|H2]; bool_to_prop.
  - left. apply N.ltb_lt. lia.
  - left. apply N.ltb_lt. lia.
  - left. apply N.ltb_lt. lia.
  - right. apply andb_true_iff. split; [apply N.eqb_eq; lia | eauto].
Qed.

(** ** Sorting by a key *)
Section sort_by.
Context {A : Type} (key : A -> list N).

Definition key_le (x y : A) : Prop := lex_leb (key x) (key y) = true.
#[export] Instance key_le_dec x y : Decision (key_le x y) := decide (_ = true).
(** [sorted(l, key=key)]. *)
Definition sort_by (l : list A) : list A := merge_sort key_le l.

#[local] Instance key_le_total : Total key_le.
Proof. intros x y. apply lex_leb_total. Qed.
#[local] Instance key_le_trans : Transitive key_le.
Proof. intros x y z. apply lex_leb_trans. Qed.

Lemma sort_by_perm l : sort_by l ≡ₚ l.
Proof. apply merge_sort_Permutation. Qed.

Lemma sort_by_sorted l : StronglySorted key_le (sort_by l).
Proof. apply Sorted_StronglySorted; [apply _|]. apply (Sorted_merge_sort key_le). Qed.

(** Sorting is a function of the multiset alone when no two elements of the
    list share a key. *)
Lemma sort_by_unique l k :
  (forall x y, x ∈ l -> y ∈ l -> key x = key y -> x = y) ->
  l ≡ₚ k -> sort_by l = sort_by k.
Proof.
  intros Hinj Hlk. apply (StronglySorted_unique_strong key_le).
  - intros x1 x2 Hx1 Hx2 H12 H21.
    apply Hinj; [by rewrite <-(sort_by_perm l) | |].
    + rewrite Hlk. by rewrite <-(sort_by_perm k).
    + by apply lex_leb_antisym.
  - apply sort_by_sorted.
  - apply sort_by_sorted.
  - by rewrite !sort_by_perm.
Qed.
End sort_by.

(** Sorting commutes with a map that respects the keys. *)
Section sort_by_map.
Context {A B : Type} (keyA : A -> list N) (keyB : B -> list N) (f : A -> B).
Hypothesis Hkey : forall x, keyB (f x) = keyA x.

Lemma list_merge_map l k :
  list_merge (key_le keyB) (map f l) (map f k) = map f (list_merge (key_le keyA) l k).
Proof.
  revert k. induction l as [|x l IHl]; [by intros []|]. induction k as [|y k IHk]; [done|].
  change (map f (x :: l)) with (f x :: map f l) in *.
  change (map f (y :: k)) with (f y :: map f k) in *. rewrite !list_merge_cons.
  assert (key_le keyB (f x) (f y) <-> key_le keyA x y) as Hxy.
  { unfold key_le. by rewrite !Hkey. }
  destruct (decide (key_le keyB (f x) (f y))), (decide (key_le keyA x y)); [|tauto..|]; simpl.
  - f_equal. apply (IHl (y :: k)).
  - f_equal. apply IHk.
Qed.

Lemma merge_sort_aux_map st l :
  merge_sort_aux (key_le keyB) (map (option_map (map f)) st) (map f l)
  = map f (merge_sort_aux (key_le keyA) st l).
Proof.
  revert st. induction l as [|x l IH]; intros st; simpl.
  - induction st as [|[s|] st IH]; simpl; [done| |done]. by rewrite IH, list_merge_map.
  - rewrite <-IH. f_equal. change [f x] with (map f [x]). generalize [x]. clear IH.
    induction st as [|[s|] st IH]; intros k; simpl; [done| |done].
    by rewrite list_merge_map, IH.
Qed.

Lemma sort_by_map l : sort_by keyB (map f l) = map f (sort_by keyA l).
Proof. apply (merge_sort_aux_map []). Qed.
End sort_by_map.

(** Closed decidable facts, by evaluation. *)
Ltac by_decision :=
  match goal with |- ?P => apply (proj1 (bool_decide_eq_true P)); vm_compute; reflexivity end.

(** Membership in a literal list, found syntactically. *)
Ltac list_elem :=
  lazymatch goal with
  | |- ?x ∈ ?x :: _ => left
  | |- _ ∈ _ :: _ => right; list_elem
  end.
