(* ===== verification/PyStr.v ===== *)
(** * Python strings

    A Python [str] is a sequence of code points, lone surrogates included, so
    it is a [list N] here.  This file holds the pieces of the standard library
    the runtime uses on strings: the UTF-8 and UTF-16-BE codecs, decimal and
    hexadecimal text, [bytes.fromhex], [str.split], [str.join], [repr] and the
    [int] constructor, each with the laws the components need.  The Unicode
    database (which code points are printable, spaces or decimal digits) is a
    class, [Unidata]. *)
From S2P Require Export Prelude.

Notation pystr := (list N).

#[local] Open Scope N_scope.

(** A source literal. *)
Definition py (s : string) : pystr := map Ascii.N_of_ascii (String.list_ascii_of_string s).
#[global] Arguments py : simpl never.

(** The Unicode database, for code points above ASCII. *)
Class Unidata := {
  uni_printable : N -> bool;
  uni_space : N -> bool;
  uni_decimal : N -> option N
}.

(** ** UTF-8 *)
Definition is_surrogate (c : N) : bool := (0xD800 <=? c) && (c <=? 0xDFFF).

Definition utf8_char (c : N) : option bytes :=
  if c <? 0x80 then Some [n2b c]
  else if c <? 0x800 then Some [n2b (0xC0 + c / 64); n2b (0x80 + c mod 64)]
  else if is_surrogate c then None
  else if c <? 0x10000 then
    Some [n2b (0xE0 + c / 4096); n2b (0x80 + c / 64 mod 64); n2b (0x80 + c mod 64)]
  else if c <? 0x110000 then
    Some [n2b (0xF0 + c / 262144); n2b (0x80 + c / 4096 mod 64);
          n2b (0x80 + c / 64 mod 64); n2b (0x80 + c mod 64)]
  else None.

(** [s.encode("utf-8")]; [None] is UnicodeEncodeError. *)
Fixpoint utf8_encode (s : pystr) : option bytes :=
  match s with
  | [] => Some []
  | c :: s => b ← utf8_char c; r ← utf8_encode s; Some (b ++ r)
  end.

Definition is_cont (b : byte) : bool := (0x80 <=? b2n b) && (b2n b <? 0xC0).

(** [b.decode("utf-8")]: overlong forms, code points past U+10FFFF and, unless the
    handler is "surrogatepass", surrogates are UnicodeDecodeError ([None]). *)
Fixpoint utf8_decode_with (pass : bool) (bs : bytes) : option pystr :=
  match bs with
  | [] => Some []
  | b0 :: r0 =>
      let n0 := b2n b0 in
      if n0 <? 0x80 then cons n0 <$> utf8_decode_with pass r0
      else if n0 <? 0xC2 then None
      else if n0 <? 0xE0 then
        match r0 with
        | b1 :: r1 =>
            if is_cont b1 then cons ((n0 - 0xC0) * 64 + (b2n b1 - 0x80)) <$> utf8_decode_with pass r1
            else None
        | _ => None
        end
      else if n0 <? 0xF0 then
        match r0 with
        | b1 :: b2 :: r2 =>
            let c := (n0 - 0xE0) * 4096 + (b2n b1 - 0x80) * 64 + (b2n b2 - 0x80) in
            if is_cont b1 && is_cont b2 && (0x800 <=? c) && negb (is_surrogate c)
            then cons c <$> utf8_decode_with pass r2 else None
        | _ => None
        end
      else
        match r0 with
        | b1 :: b2 :: b3 :: r3 =>
            let c := (n0 - 0xF0) * 262144 + (b2n b1 - 0x80) * 4096
                     + (b2n b2 - 0x80) * 64 + (b2n b3 - 0x80) in
            if is_cont b1 && is_cont b2 && is_cont b3 && (0x10000 <=? c) && (c <? 0x110000)
            then cons c <$> utf8_decode_with pass r3 else None
        | _ => None
        end
  end.
Abbreviation utf8_decode := (utf8_decode_with false).

Lemma is_cont_n2b n : n < 64 -> is_cont (n2b (0x80 + n)) = true.
Proof.
  intros. unfold is_cont. rewrite b2n_n2b_small by lia.
  apply andb_true_iff. split; [apply N.leb_le | apply N.ltb_lt]; lia.
Qed.

Ltac decide_N :=
  repeat match goal with
  | |- context [N.ltb ?a ?b] =>
      first [ replace (N.ltb a b) with true by (symmetry; apply N.ltb_lt; lia)
            | replace (N.ltb a b) with false by (symmetry; apply N.ltb_ge; lia) ]
  | |- context [N.leb ?a ?b] =>
      first [ replace (N.leb a b) with true by (symmetry; apply N.leb_le; lia)
            | replace (N.leb a b) with false by (symmetry; apply N.leb_gt; lia) ]
  | |- context [N.eqb ?a ?b] =>
      first [ replace (N.eqb a b) with true by (symmetry; apply N.eqb_eq; lia)
            | replace (N.eqb a b) with false by (symmetry; apply N.eqb_neq; lia) ]
  end.

Lemma utf8_decode_char pass c bs r :
  utf8_char c = Some bs ->
  utf8_decode_with pass (bs ++ r) = cons c <$> utf8_decode_with pass r.
Proof.
  unfold utf8_char. intros H.
  destruct (c <? 0x80) eqn:H1; bool_to_prop; simplify_eq.
  { simpl. rewrite b2n_n2b_small by lia. by decide_N. }
  destruct (c <? 0x800) eqn:H2; bool_to_prop; simplify_eq.
  { simpl. rewrite is_cont_n2b by lia. rewrite !b2n_n2b_small by lia. decide_N.
    f_equal. f_equal. lia. }
  destruct (is_surrogate c) eqn:Hs; [done|].
  destruct (c <? 0x10000) eqn:H3; bool_to_prop; simplify_eq.
  { simpl. rewrite !is_cont_n2b by lia. rewrite !b2n_n2b_small by lia.
    replace ((224 + c / 4096 - 224) * 4096 + (128 + c / 64 mod 64 - 128) * 64 +
             (128 + c mod 64 - 128)) with c by lia.
    rewrite Hs. decide_N. by destruct pass. }
  destruct (c <? 0x110000) eqn:H4; bool_to_prop; simplify_eq.
  simpl. rewrite !is_cont_n2b by lia. rewrite !b2n_n2b_small by lia.
  replace ((240 + c / 262144 - 240) * 262144 + (128 + c / 4096 mod 64 - 128) * 4096 +
           (128 + c / 64 mod 64 - 128) * 64 + (128 + c mod 64 - 128)) with c by lia.
  by decide_N.
Qed.

Lemma utf8_decode_with_encode pass s bs :
  utf8_encode s = Some bs -> utf8_decode_with pass bs = Some s.
Proof.
  revert bs. induction s as [|c s IH]; simpl; intros bs H; [by simplify_eq|].
  destruct (utf8_char c) as [b|] eqn:Hc; simplify_option_eq.
  rewrite (utf8_decode_char _ _ _ _ Hc). by erewrite IH.
Qed.
Lemma utf8_decode_encode s bs : utf8_encode s = Some bs -> utf8_decode bs = Some s.
Proof. apply utf8_decode_with_encode. Qed.

Lemma utf8_encode_inj s1 s2 bs :
  utf8_encode s1 = Some bs -> utf8_encode s2 = Some bs -> s1 = s2.
Proof. intros H1%utf8_decode_encode H2%utf8_decode_encode. congruence. Qed.

Lemma utf8_encode_app s1 s2 :
  utf8_encode (s1 ++ s2) = (b1 ← utf8_encode s1; b2 ← utf8_encode s2; Some (b1 ++ b2)).
Proof.
  induction s1 as [|c s1 IH]; simpl.
  - by destruct (utf8_encode s2).
  - destruct (utf8_char c); simpl; [|done]. rewrite IH.
    destruct (utf8_encode s1); simpl; [|done].
    destruct (utf8_encode s2); simpl; [|done]. by rewrite app_assoc.
Qed.

(** ** UTF-16, big endian *)
Definition be16 (u : N) : bytes := [n2b (u / 256); n2b (u mod 256)].

Definition utf16_char (c : N) : option bytes :=
  if is_surrogate c then None
  else if c <? 0x10000 then Some (be16 c)
  else if c <? 0x110000 then
    Some (be16 (0xD800 + (c - 0x10000) / 1024) ++ be16 (0xDC00 + (c - 0x10000) mod 1024))
  else None.

(** [s.encode("utf-16-be")]. *)
Fixpoint utf16_be (s : pystr) : option bytes :=
  match s with
  | [] => Some []
  | c :: s => b ← utf16_char c; r ← utf16_be s; Some (b ++ r)
  end.

Lemma be16_app_inj u v r1 r2 :
  u < 65536 -> v < 65536 -> be16 u ++ r1 = be16 v ++ r2 -> u = v /\ r1 = r2.
Proof.
  intros Hu Hv [= H1%n2b_inj H2%n2b_inj H3]; try lia. split; [lia|done].
Qed.

#[local] Opaque be16.
Lemma utf16_char_app_inj c1 c2 b1 b2 r1 r2 :
  utf16_char c1 = Some b1 -> utf16_char c2 = Some b2 ->
  b1 ++ r1 = b2 ++ r2 -> c1 = c2 /\ r1 = r2.
Proof.
  unfold utf16_char, is_surrogate. intros H1 H2 H.
  destruct ((0xD800 <=? c1) && (c1 <=? 0xDFFF)) eqn:S1; [done|].
  destruct ((0xD800 <=? c2) && (c2 <=? 0xDFFF)) eqn:S2; [done|].
  apply andb_false_iff in S1, S2. rewrite !N.leb_gt in S1, S2.
  destruct (c1 <? 0x10000) eqn:E1, (c2 <? 0x10000) eqn:E2; bool_to_prop.
  - injection H1 as <-. injection H2 as <-. apply be16_app_inj in H as [? ?]; [done|lia..].
  - destruct (c2 <? 0x110000) eqn:E3; bool_to_prop; [|done].
    injection H1 as <-. injection H2 as <-.
    rewrite <-app_assoc in H. apply be16_app_inj in H as [? _]; lia.
  - destruct (c1 <? 0x110000) eqn:E3; bool_to_prop; [|done].
    injection H1 as <-. injection H2 as <-.
    rewrite <-app_assoc in H. apply be16_app_inj in H as [? _]; lia.
  - destruct (c1 <? 0x110000) eqn:E3, (c2 <? 0x110000) eqn:E4; bool_to_prop; try done.
    injection H1 as <-. injection H2 as <-.
    rewrite <-!app_assoc in H. apply be16_app_inj in H as [? H]; [|lia..].
    apply be16_app_inj in H as [? H]; [|lia..]. split; [lia|done].
Qed.

#[local] Transparent be16.
Lemma utf16_char_nonempty c b : utf16_char c = Some b -> b <> [].
Proof. unfold utf16_char. intros. by repeat case_match; simplify_eq. Qed.

Lemma utf16_be_inj s1 s2 bs :
  utf16_be s1 = Some bs -> utf16_be s2 = Some bs -> s1 = s2.
Proof.
  revert s2 bs. induction s1 as [|c1 s1 IH]; intros [|c2 s2] bs; simpl; intros H1 H2;
    simplify_option_eq; try done.
  - destruct (utf16_char c2) eqn:?, (utf16_be s2); simplify_option_eq.
    exfalso. eapply utf16_char_nonempty; [done|]. by destruct (app_eq_nil _ _ H2).
  - destruct (utf16_char c1) eqn:?, (utf16_be s1); simplify_option_eq.
    exfalso. eapply utf16_char_nonempty; [done|]. by destruct (app_eq_nil _ _ H1).
  - destruct (utf16_char c1) as [b1|] eqn:Hc1, (utf16_be s1) as [r1|] eqn:Hr1,
      (utf16_char c2) as [b2|] eqn:Hc2, (utf16_be s2) as [r2|] eqn:Hr2; simplify_option_eq.
    destruct (utf16_char_app_inj _ _ _ _ _ _ Hc1 Hc2 H1) as [-> ->].
    f_equal. eapply IH; [done|]. by rewrite Hr2.
Qed.

(** ** Decimal text *)
Fixpoint dec_rev (fuel : nat) (n : N) : list N :=
  match fuel with
  | O => []
  | S f => (48 + n mod 10) :: (if n / 10 =? 0 then [] else dec_rev f (n / 10))
  end.
(** [str(n)] of a natural number; a number has no more digits than bits. *)
Definition str_N (n : N) : pystr := rev (dec_rev (S (N.to_nat (N.log2 n))) n).
(** [str(z)]. *)
Definition str_int (z : Z) : pystr :=
  if (z <? 0)%Z then 45 :: str_N (Z.to_N (- z)) else str_N (Z.to_N z).

Definition is_digit (c : N) : bool := (48 <=? c) && (c <=? 57).
(** The value of a run of decimal digits. *)
Definition dec_val (ds : list N) : N := fold_left (fun acc d => acc * 10 + (d - 48)) ds 0.

Lemma dec_val_rev ds : dec_val (rev ds) = fold_right (fun d acc => acc * 10 + (d - 48)) 0 ds.
Proof. unfold dec_val. rewrite <-(rev_involutive ds) at 2. by rewrite fold_left_rev_right. Qed.

Lemma dec_rev_val fuel n :
  n < 2 ^ N.of_nat fuel -> fold_right (fun d acc => acc * 10 + (d - 48)) 0 (dec_rev fuel n) = n.
Proof.
  revert n. induction fuel as [|f IH]; intros n Hn; [simpl in *; lia|].
  rewrite Nat2N.inj_succ, N.pow_succ_r' in Hn. simpl.
  destruct (n / 10 =? 0) eqn:E; bool_to_prop; simpl; [lia|].
  rewrite IH by lia. lia.
Qed.

Lemma str_N_val n : dec_val (str_N n) = n.
Proof.
  unfold str_N. rewrite dec_val_rev. apply dec_rev_val.
  rewrite Nat2N.inj_succ, N2Nat.id. destruct (N.eq_dec n 0) as [->|]; [done|].
  apply N.log2_spec. lia.
Qed.

Lemma dec_rev_digits fuel n : Forall (fun c => is_digit c = true) (dec_rev fuel n).
Proof.
  revert n. induction fuel as [|f IH]; intros n; simpl; constructor.
  - unfold is_digit. apply andb_true_iff. split; apply N.leb_le; lia.
  - case_match; [constructor|apply IH].
Qed.
Lemma str_N_digits n : Forall (fun c => is_digit c = true) (str_N n).
Proof. unfold str_N. apply Forall_rev, dec_rev_digits. Qed.

Lemma dec_rev_last fuel n :
  n <> 0 -> n < 2 ^ N.of_nat fuel -> exists l d, dec_rev fuel n = l ++ [d] /\ d <> 48.
Proof.
  revert n. induction fuel as [|f IH]; intros n Hn Hlt; [simpl in *; lia|].
  rewrite Nat2N.inj_succ, N.pow_succ_r' in Hlt. simpl.
  destruct (n / 10 =? 0) eqn:E; bool_to_prop.
  - exists [], (48 + n mod 10). split; [done|lia].
  - destruct (IH (n / 10)) as (l & d & -> & Hd); [lia..|].
    by exists ((48 + n mod 10) :: l), d.
Qed.

(** The text of a number is "0" or starts with a nonzero digit. *)
Lemma str_N_head n : str_N n = [48] \/ exists d r, str_N n = d :: r /\ is_digit d = true /\ d <> 48.
Proof.
  destruct (N.eq_dec n 0) as [->|Hn]; [by left|]. right.
  pose proof (str_N_digits n) as Hds. unfold str_N in *.
  destruct (dec_rev_last (S (N.to_nat (N.log2 n))) n) as (l & d & Hl & Hd); [done| |].
  { rewrite Nat2N.inj_succ, N2Nat.id. apply N.log2_spec. lia. }
  rewrite Hl, rev_app_distr in *. simpl in *. inversion Hds; subst. by exists d, (rev l).
Qed.

Lemma dec_rev_length fuel n k : n < 10 ^ N.of_nat (S k) -> (length (dec_rev fuel n) <= S k)%nat.
Proof.
  revert n k. induction fuel as [|f IH]; intros n k Hn; [simpl; lia|].
  simpl. destruct (n / 10 =? 0) eqn:E; bool_to_prop; simpl; [lia|].
  rewrite Nat2N.inj_succ, N.pow_succ_r' in Hn.
  destruct k as [|k]; [simpl in Hn; lia|]. specialize (IH (n / 10) k). lia.
Qed.
Lemma str_N_length n k : n < 10 ^ N.of_nat (S k) -> (length (str_N n) <= S k)%nat.
Proof. intros. unfold str_N. rewrite length_rev. by apply dec_rev_length. Qed.

Lemma str_N_inj m n : str_N m = str_N n -> m = n.
Proof. intros H. by rewrite <-(str_N_val m), H, str_N_val. Qed.
Lemma str_N_no_minus n s : str_N n <> 45 :: s.
Proof.
  intros H. pose proof (str_N_digits n) as Hd. rewrite H in Hd. inversion Hd as [|?? Hx]. done.
Qed.
Lemma str_int_inj y z : str_int y = str_int z -> y = z.
Proof.
  unfold str_int. intros H.
  destruct (y <? 0)%Z eqn:Hy, (z <? 0)%Z eqn:Hz; bool_to_prop.
  - injection H as H%str_N_inj. lia.
  - by apply eq_sym, str_N_no_minus in H.
  - by apply str_N_no_minus in H.
  - apply str_N_inj in H. lia.
Qed.

(** ** Hexadecimal text *)
Definition hexdigit (n : N) : N := if n <? 10 then 48 + n else 87 + n.
Definition hexval (c : N) : option N :=
  if is_digit c then Some (c - 48)
  else if (97 <=? c) && (c <=? 102) then Some (c - 87)
  else if (65 <=? c) && (c <=? 70) then Some (c - 55)
  else None.
Definition is_lower_hex (c : N) : bool := is_digit c || ((97 <=? c) && (c <=? 102)).

(** [b.hex()]. *)
Definition hex (bs : bytes) : pystr :=
  concat (map (fun b => [hexdigit (b2n b / 16); hexdigit (b2n b mod 16)]) bs).

Lemma hexval_digit n : n < 16 -> hexval (hexdigit n) = Some n.
Proof.
  intros. unfold hexval, hexdigit, is_digit.
  destruct (n <? 10) eqn:E; bool_to_prop; decide_N; simpl; f_equal; lia.
Qed.
Lemma hexdigit_lower n : n < 16 -> is_lower_hex (hexdigit n) = true.
Proof.
  intros. unfold is_lower_hex, hexdigit, is_digit.
  destruct (n <? 10) eqn:E; bool_to_prop; by decide_N.
Qed.

(** ** [bytes.fromhex] *)

(** ASCII whitespace as C's [isspace] reads it. *)
Definition c_isspace (c : N) : bool := (c =? 32) || ((9 <=? c) && (c <=? 13)).

Definition fromhex_error (pos : nat) : pystr :=
  py "non-hexadecimal number found in fromhex() arg at position " ++ str_N (N.of_nat pos).

(** Pairs of digits, whitespace skipped before each pair; the error is the
    text of the ValueError. *)
Fixpoint fromhex_at (pos : nat) (s : pystr) : result pystr bytes :=
  match s with
  | [] => Ok []
  | c :: s1 =>
      if c_isspace c then fromhex_at (S pos) s1
      else match hexval c with
           | None => Err (fromhex_error pos)
           | Some top =>
               match s1 with
               | [] => Err (fromhex_error (S pos))
               | d :: s2 =>
                   match hexval d with
                   | None => Err (fromhex_error (S pos))
                   | Some bot => r ← fromhex_at (S (S pos)) s2; Ok (n2b (top * 16 + bot) :: r)
                   end
               end
           end
  end.

Definition is_ascii (s : pystr) : bool := forallb (fun c => c <? 128) s.
Fixpoint first_non_ascii (s : pystr) : nat :=
  match s with
  | [] => 0
  | c :: s => if c <? 128 then S (first_non_ascii s) else 0
  end.
(** [bytes.fromhex(s)]. *)
Definition fromhex (s : pystr) : result pystr bytes :=
  if is_ascii s then fromhex_at 0 s else Err (fromhex_error (first_non_ascii s)).

Lemma hexdigit_not_space n : n < 16 -> c_isspace (hexdigit n) = false.
Proof.
  intros. unfold c_isspace, hexdigit. destruct (n <? 10) eqn:E; bool_to_prop; by decide_N.
Qed.

Lemma fromhex_at_hex pos bs : fromhex_at pos (hex bs) = Ok bs.
Proof.
  revert pos. induction bs as [|b bs IH]; intros pos; [done|].
  pose proof (b2n_lt b). unfold hex in *. simpl.
  rewrite hexdigit_not_space, !hexval_digit by lia. rewrite IH. simpl. do 2 f_equal.
  replace (b2n b / 16 * 16 + b2n b mod 16) with (b2n b) by lia. apply n2b_b2n.
Qed.

Lemma hex_lower bs : Forall (fun c => is_lower_hex c = true) (hex bs).
Proof.
  induction bs as [|b bs IH]; [constructor|]. pose proof (b2n_lt b). unfold hex in *. simpl.
  repeat constructor; [by apply hexdigit_lower; lia..|done].
Qed.
Lemma length_hex bs : length (hex bs) = (2 * length bs)%nat.
Proof. induction bs as [|b bs IH]; [done|]. unfold hex in *. simpl. lia. Qed.

Lemma lower_hex_ascii s : Forall (fun c => is_lower_hex c = true) s -> is_ascii s = true.
Proof.
  intros H. apply forallb_forall. intros c Hc. apply list_elem_of_In in Hc.
  eapply Forall_forall in H; [|done]. unfold is_lower_hex, is_digit in H. bool_to_prop.
  apply N.ltb_lt. destruct H; bool_to_prop; lia.
Qed.

Lemma fromhex_hex bs : fromhex (hex bs) = Ok bs.
Proof. unfold fromhex. rewrite lower_hex_ascii by apply hex_lower. apply fromhex_at_hex. Qed.

#[export] Instance hex_inj : Inj (=) (=) hex.
Proof. intros a b H. pose proof (fromhex_hex a) as Ha. rewrite H, fromhex_hex in Ha. congruence. Qed.

(** [re.fullmatch("[0-9a-f]{n}", s)]. *)
Definition fullmatch_hex (n : nat) (s : pystr) : bool :=
  Nat.eqb (length s) n && forallb is_lower_hex s.

Lemma fullmatch_hex_hex n bs : length bs = n -> fullmatch_hex (2 * n) (hex bs) = true.
Proof.
  intros <-. unfold fullmatch_hex. rewrite length_hex, Nat.eqb_refl. simpl.
  apply forallb_forall. intros c Hc. apply list_elem_of_In in Hc.
  exact (proj1 (Forall_forall _ _) (hex_lower bs) c Hc).
Qed.

(** ** Fixed-width hexadecimal, as in [f"{n:04x}"] for [n < 16^w] *)
Fixpoint hex_digits (w : nat) (n : N) : pystr :=
  match w with
  | O => []
  | S w => hexdigit (n / 16 ^ N.of_nat w mod 16) :: hex_digits w n
  end.

(** ** [str.split] on one character and [str.join] *)
Fixpoint split_on (c : N) (s : pystr) : list pystr :=
  match s with
  | [] => [[]]
  | x :: s =>
      if x =? c then [] :: split_on c s
      else match split_on c s with
           | h :: t => (x :: h) :: t
           | [] => [[x]]
           end
  end.

Fixpoint join (sep : pystr) (l : list pystr) : pystr :=
  match l with
  | [] => []
  | [s] => s
  | s :: l => s ++ sep ++ join sep l
  end.

Lemma join_cons sep s t l : join sep (s :: t :: l) = s ++ sep ++ join sep (t :: l).
Proof. done. Qed.

Lemma split_on_ne c s : split_on c s <> [].
Proof. destruct s as [|x s]; simpl; [done|]. repeat case_match; done. Qed.

Lemma split_on_free c p : c ∉ p -> split_on c p = [p].
Proof.
  induction p as [|x p IH]; intros Hc; [done|]. apply not_elem_of_cons in Hc as [Hx Hp]. simpl.
  replace (x =? c) with false by (symmetry; apply N.eqb_neq; congruence). by rewrite IH.
Qed.

Lemma split_on_app c p s : c ∉ p -> split_on c (p ++ c :: s) = p :: split_on c s.
Proof.
  induction p as [|x p IH]; intros Hc; simpl; [by rewrite N.eqb_refl|].
  apply not_elem_of_cons in Hc as [Hx Hp].
  replace (x =? c) with false by (symmetry; apply N.eqb_neq; congruence). by rewrite IH.
Qed.

Lemma split_on_join c s : join [c] (split_on c s) = s.
Proof.
  induction s as [|x s IH]; simpl; [done|].
  destruct (x =? c) eqn:E; bool_to_prop.
  - subst x. destruct (split_on c s) as [|h t] eqn:Hs; [by apply split_on_ne in Hs|].
    rewrite join_cons, IH. done.
  - destruct (split_on c s) as [|h t] eqn:Hs; [by apply split_on_ne in Hs|].
    destruct t as [|h' t]; [simpl in *; congruence|].
    rewrite join_cons in IH |- *. rewrite <-IH. done.
Qed.

Lemma split_on_parts_free c s p : p ∈ split_on c s -> c ∉ p.
Proof.
  revert p. induction s as [|x s IH]; intros p; simpl.
  - intros ->%list_elem_of_singleton. apply not_elem_of_nil.
  - destruct (x =? c) eqn:E; bool_to_prop.
    + intros [->|Hp]%elem_of_cons; [apply not_elem_of_nil|auto].
    + destruct (split_on c s) as [|h t] eqn:Hs; [by apply split_on_ne in Hs|].
      intros [->|Hp]%elem_of_cons.
      * apply not_elem_of_cons. split; [congruence|]. apply IH. by left.
      * apply IH. by right.
Qed.

(** ** [repr] *)
Section repr.
Context `{U : Unidata}.

Definition repr_char (quote c : N) : pystr :=
  if (c =? quote) || (c =? 92) then [92; c]
  else if c =? 9 then py "\t"
  else if c =? 10 then py "\n"
  else if c =? 13 then py "\r"
  else if (c <? 32) || (c =? 127) then py "\x" ++ hex_digits 2 c
  else if c <? 127 then [c]
  else if uni_printable c then [c]
  else if c <=? 0xFF then py "\x" ++ hex_digits 2 c
  else if c <=? 0xFFFF then py "\u" ++ hex_digits 4 c
  else py "\U" ++ hex_digits 8 c.

(** [repr(s)]: single quotes unless the text has one and no double quote. *)
Definition py_repr (s : pystr) : pystr :=
  let quote := if bool_decide (39 ∈ s) && negb (bool_decide (34 ∈ s)) then 34 else 39 in
  [quote] ++ concat (map (repr_char quote) s) ++ [quote].

(** [repr] of a list of strings. *)
Definition repr_list (l : list pystr) : pystr := py "[" ++ join (py ", ") (map py_repr l) ++ py "]".
End repr.

(** ** The [int] constructor on text *)
Section int_text.
Context `{U : Unidata}.

(** CPython first maps other scripts' digits and spaces to ASCII. *)
Definition to_ascii_decimal (c : N) : N :=
  if c <? 127 then c
  else if uni_space c then 32
  else match uni_decimal c with Some d => 48 + d | None => 63 end.

Fixpoint lstrip (sp : N -> bool) (s : pystr) : pystr :=
  match s with
  | [] => []
  | c :: s' => if sp c then lstrip sp s' else s
  end.
Definition strip (sp : N -> bool) (s : pystr) : pystr := rev (lstrip sp (rev (lstrip sp s))).

(** Digits with single underscores between them. *)
Fixpoint dec_digits (after_digit : bool) (s : pystr) : option (list N) :=
  match s with
  | [] => if after_digit then Some [] else None
  | c :: s =>
      if is_digit c then cons c <$> dec_digits true s
      else if (c =? 95) && after_digit then dec_digits false s
      else None
  end.

Definition int_max_str_digits : nat := N.to_nat 4300.

(** [int(s)]; [None] is ValueError. *)
Definition py_int (s : pystr) : option Z :=
  let s := strip c_isspace (map to_ascii_decimal s) in
  let '(neg, s) :=
    match s with
    | c :: s' => if c =? 45 then (true, s') else if c =? 43 then (false, s') else (false, s)
    | [] => (false, s)
    end in
  ds ← dec_digits false s;
  if Nat.ltb int_max_str_digits (length ds) then None
  else Some (if neg then (- Z.of_N (dec_val ds))%Z else Z.of_N (dec_val ds)).

Lemma dec_digits_all s b :
  s <> [] \/ b = true -> Forall (fun c => is_digit c = true) s -> dec_digits b s = Some s.
Proof.
  revert b. induction s as [|c s IH]; intros b Hs Hd; simpl; [by destruct Hs as [?| ->]|].
  inversion Hd as [|?? Hc Hd']; subst. rewrite Hc, IH by auto. done.
Qed.

Lemma is_digit_not_space c : is_digit c = true -> c_isspace c = false.
Proof. unfold is_digit, c_isspace. intros; bool_to_prop. by decide_N. Qed.

Lemma lstrip_id sp s : Forall (fun c => sp c = false) s -> lstrip sp s = s.
Proof. destruct 1 as [|c s Hc]; simpl; [done|]. by rewrite Hc. Qed.
Lemma strip_id sp s : Forall (fun c => sp c = false) s -> strip sp s = s.
Proof.
  intros H. unfold strip. rewrite (lstrip_id sp s H).
  rewrite lstrip_id by (by apply Forall_rev). apply rev_involutive.
Qed.

(** [int()] of ASCII digits: their value, up to the digit limit. *)
Lemma py_int_digits s :
  s <> [] -> Forall (fun c => is_digit c = true) s ->
  py_int s = if Nat.ltb int_max_str_digits (length s) then None else Some (Z.of_N (dec_val s)).
Proof.
  intros Hne Hd. unfold py_int.
  assert (map to_ascii_decimal s = s) as ->.
  { clear Hne. induction Hd as [|c s Hc Hd IH]; [done|]. simpl. rewrite IH. f_equal.
    unfold to_ascii_decimal. unfold is_digit in Hc. bool_to_prop. by decide_N. }
  rewrite strip_id by (eapply Forall_impl; [done|apply is_digit_not_space]).
  destruct s as [|c s]; [done|]. inversion Hd as [|?? Hc _]; subst.
  assert (48 <= c) by (unfold is_digit in Hc; bool_to_prop; lia). decide_N. cbv zeta iota beta.
  by rewrite dec_digits_all by (done || by left).
Qed.

(** [int(str(n)) = n] below the digit limit. *)
Lemma py_int_str_N n : n < 10 ^ N.of_nat int_max_str_digits -> py_int (str_N n) = Some (Z.of_N n).
Proof.
  intros Hn. rewrite py_int_digits; [|by destruct (str_N_head n) as [->|(?&?&->&_)]|apply str_N_digits].
  assert (length (str_N n) <= int_max_str_digits)%nat as Hl.
  { change int_max_str_digits with (S (Nat.pred int_max_str_digits)) in *. by apply str_N_length. }
  by rewrite (proj2 (Nat.ltb_ge _ _) Hl), str_N_val.
Qed.
End int_text.

(** ** Sorted lists of strings *)

(** [sorted(l)] for a list of strings: by code point. *)
Definition sorted_strs (l : list pystr) : list pystr := sort_by (fun s => s) l.
(** [sorted(s)] for a set of strings. *)
Definition sorted_set (s : gset pystr) : list pystr := sorted_strs (elements s).

Lemma elem_of_sorted_set x s : x ∈ sorted_set s <-> x ∈ s.
Proof. unfold sorted_set, sorted_strs. rewrite sort_by_perm. by rewrite elem_of_elements. Qed.
Lemma sorted_set_inj s1 s2 : sorted_set s1 = sorted_set s2 -> s1 = s2.
Proof. intros H. apply set_eq. intros x. by rewrite <-!elem_of_sorted_set, H. Qed.
Lemma NoDup_sorted_set s : NoDup (sorted_set s).
Proof. unfold sorted_set, sorted_strs. rewrite sort_by_perm. apply NoDup_elements. Qed.

Lemma join_single sep s : join sep [s] = s.
Proof. done. Qed.
#[global] Arguments join : simpl never.

(** [len(set(l)) == len(l)]: no duplicates. *)
Lemma size_list_to_set_le (l : list pystr) : (size (list_to_set l : gset pystr) <= length l)%nat.
Proof.
  induction l as [|x l IH]; [done|]. cbn [list_to_set length].
  rewrite size_union_alt. rewrite size_singleton.
  pose proof (subseteq_size (list_to_set l ∖ {[x]}) (list_to_set l : gset pystr) ltac:(set_solver)). lia.
Qed.
Lemma size_list_to_set_NoDup (l : list pystr) :
  size (list_to_set l : gset pystr) = length l <-> NoDup l.
Proof.
  split; [|apply size_list_to_set]. induction l as [|x l IH]; intros H; [constructor|].
  simpl in H. pose proof (size_list_to_set_le l) as Hle.
  destruct (decide (x ∈ l)) as [Hx|Hx].
  - exfalso. rewrite subseteq_union_1 in H by set_solver. lia.
  - constructor; [done|]. apply IH. rewrite size_union in H by set_solver.
    rewrite size_singleton in H. lia.
Qed.

(** A set is listed by [sorted_set] up to order. *)
Lemma sorted_set_perm (l : list pystr) (s : gset pystr) :
  l ≡ₚ sorted_set s <-> NoDup l /\ s = list_to_set l.
Proof.
  split.
  - intros H. split; [rewrite H; apply NoDup_sorted_set|]. apply set_eq. intros x.
    by rewrite elem_of_list_to_set, H, elem_of_sorted_set.
  - intros [Hd ->]. apply NoDup_Permutation; [done|apply NoDup_sorted_set|].
    intros x. by rewrite elem_of_sorted_set, elem_of_list_to_set.
Qed.

(** ** Literals

    Literals stay folded: they compare by [String.eqb]. *)
Lemma py_inj s t : py s = py t -> s = t.
Proof.
  unfold py. revert t. induction s as [|a s IH]; intros [|b t]; simpl; try done.
  intros [= Hab Hst]. f_equal; [|auto].
  by rewrite <-(Ascii.ascii_N_embedding a), Hab, Ascii.ascii_N_embedding.
Qed.
Lemma py_neq s t : String.eqb s t = false -> py s <> py t.
Proof. intros H%String.eqb_neq E. by apply py_inj in E. Qed.
#[global] Opaque py.

(** ** What encodes

    Unicode scalar values: every code point but the surrogates. *)
Definition scalar (c : N) : bool := (c <? 0xD800) || ((0xDFFF <? c) && (c <? 0x110000)).
Definition scalars (s : pystr) : bool := forallb scalar s.

Lemma scalar_spec c : scalar c = true <-> c < 0xD800 \/ (0xDFFF < c /\ c < 0x110000).
Proof. unfold scalar. by rewrite orb_true_iff, andb_true_iff, !N.ltb_lt. Qed.
Lemma surrogate_spec c : is_surrogate c = false <-> c < 0xD800 \/ 0xDFFF < c.
Proof. unfold is_surrogate. by rewrite andb_false_iff, !N.leb_gt. Qed.
Ltac solve_scalar :=
  rewrite scalar_spec; repeat case_match;
  repeat match goal with
  | H : is_surrogate _ = false |- _ => apply surrogate_spec in H
  | H : is_surrogate _ = true |- _ => apply andb_true_iff in H as [? ?]
  end; bool_to_prop;
  split; intros H'; first [by eexists | lia | by destruct H' | exfalso; lia].

Lemma utf8_char_scalar c : is_Some (utf8_char c) <-> scalar c = true.
Proof. unfold utf8_char. solve_scalar. Qed.
Lemma utf16_char_scalar c : is_Some (utf16_char c) <-> scalar c = true.
Proof. unfold utf16_char. solve_scalar. Qed.

Lemma encode_scalars {A} (f : N -> option (list A)) (g : pystr -> option (list A)) s :
  g [] = Some [] -> (forall c s, g (c :: s) = b ← f c; r ← g s; Some (b ++ r)) ->
  (forall c, is_Some (f c) <-> scalar c = true) -> is_Some (g s) <-> scalars s = true.
Proof.
  intros Hn Hc Hf. unfold scalars. induction s as [|c s IH]; simpl.
  - rewrite Hn. split; [done|]. intros _. by eexists.
  - rewrite Hc, andb_true_iff, <-Hf, <-IH.
    assert (forall (X : Type) (x : X), is_Some (Some x)) as HS by (intros; by eexists).
    assert (forall X : Type, ~ is_Some (@None X)) as HN by (by intros ? [? [=]]).
    destruct (f c) as [b|], (g s) as [r|]; simpl; split; intros H;
      try (destruct (HN _ H)); try (destruct H as [H1 H2]); try (destruct (HN _ H1));
      try (destruct (HN _ H2)); auto.
Qed.
Lemma utf8_encode_scalars s : is_Some (utf8_encode s) <-> scalars s = true.
Proof. by apply (encode_scalars utf8_char); [| |apply utf8_char_scalar]. Qed.
Lemma utf16_be_scalars s : is_Some (utf16_be s) <-> scalars s = true.
Proof. by apply (encode_scalars utf16_char); [| |apply utf16_char_scalar]. Qed.

Lemma scalars_app s t : scalars (s ++ t) = scalars s && scalars t.
Proof. apply forallb_app. Qed.
Lemma scalars_cons c s : scalars (c :: s) = scalar c && scalars s.
Proof. done. Qed.
Lemma scalars_join sep l :
  scalars sep = true -> scalars (join sep l) = true <-> Forall (fun s => scalars s = true) l.
Proof.
  intros Hs. induction l as [|s [|t l] IH]; [by split|..].
  - rewrite join_single. by rewrite Forall_singleton.
  - rewrite join_cons, !scalars_app, Hs, !andb_true_iff, IH, (Forall_cons _ s). tauto.
Qed.
