(* ===== verification/Errors.v ===== *)
(** * Errors: the exception classes of [ca2a_runtime.errors]

    A raised exception is a value of [exn]: a [CA2AError] instance with its
    class, message, detail, code, HTTP status and (for refusals) provenance
    record, or an exception of the language or of a library, with its class and
    text.  The provenance record is plain data ([provenance.DelegationRecord])
    that errors carry, so its type is declared here; its operations are in
    [Provenance]. *)
From S2P Require Export PyStr.

(** [provenance.DelegationRecord]'s fields. *)
Record DelegationRecord := {
  record_id : pystr;
  rec_credential_id : pystr;
  rec_subject : pystr;
  rec_scope : gset pystr;
  parent_record_hash : option pystr;
  decision : pystr;
  requested_capability : option pystr;
  rec_effective_scope : option (gset pystr);
  denial_reason : option pystr;
  caller_attestation : pystr
}.

(** The exception classes, by their Python names. *)
Inductive err_class :=
| CA2AError | ConfigError | InvalidCredential | UntrustedDelegationRoot | ScopeEscalation
| BrokenDelegationLink | DelegationDepthExceeded | CredentialReplay | CredentialNotYetValid
| CredentialExpired | CredentialRevoked | RevocationStatusUnknown | InvalidRevocation
| HolderProofInvalid | AttestationUnsupported | AttestationFailed | SealedChannelError
| ProvenanceLinkBroken | TraceDigestUnsupported | ScopeNotPermitted | TransportError
| TraceRecordInvalid | ResponseAuthenticationFailed.

#[export] Instance err_class_eq_dec : EqDecision err_class.
Proof. solve_decision. Defined.

(** The class attributes [code] and [http_status], as the classes set them: first the
    base class and the errors of configuration and delegation, then the others. *)
Definition delegation_attributes (c : err_class) : option (string * Z) :=
  match c with
  | CA2AError => Some ("CA2A_ERROR", 500)
  | ConfigError => Some ("CONFIG_ERROR", 500)
  | InvalidCredential => Some ("INVALID_CREDENTIAL", 400)
  | UntrustedDelegationRoot => Some ("UNTRUSTED_DELEGATION_ROOT", 403)
  | ScopeEscalation => Some ("SCOPE_ESCALATION", 403)
  | BrokenDelegationLink => Some ("BROKEN_DELEGATION_LINK", 409)
  | DelegationDepthExceeded => Some ("DELEGATION_DEPTH_EXCEEDED", 403)
  | CredentialReplay => Some ("CREDENTIAL_REPLAY", 409)
  | CredentialNotYetValid => Some ("CREDENTIAL_NOT_YET_VALID", 403)
  | CredentialExpired => Some ("CREDENTIAL_EXPIRED", 403)
  | CredentialRevoked => Some ("CREDENTIAL_REVOKED", 403)
  | RevocationStatusUnknown => Some ("REVOCATION_STATUS_UNKNOWN", 503)
  | InvalidRevocation => Some ("INVALID_REVOCATION", 400)
  | HolderProofInvalid => Some ("HOLDER_PROOF_INVALID", 401)
  | _ => None
  end%string%Z.
Definition runtime_attributes (c : err_class) : option (string * Z) :=
  match c with
  | AttestationUnsupported => Some ("ATTESTATION_UNSUPPORTED", 500)
  | AttestationFailed => Some ("ATTESTATION_FAILED", 412)
  | SealedChannelError => Some ("SEALED_CHANNEL_ERROR", 500)
  | ProvenanceLinkBroken => Some ("PROVENANCE_LINK_BROKEN", 409)
  | TraceDigestUnsupported => Some ("TRACE_DIGEST_UNSUPPORTED", 501)
  | ScopeNotPermitted => Some ("SCOPE_NOT_PERMITTED", 403)
  | TransportError => Some ("TRANSPORT_ERROR", 400)
  | TraceRecordInvalid => Some ("TRACE_RECORD_INVALID", 422)
  (* the status is inherited from [TransportError] *)
  | ResponseAuthenticationFailed => Some ("RESPONSE_AUTHENTICATION_FAILED", 400)
  | _ => None
  end%string%Z.
Definition class_attributes (c : err_class) : string * Z :=
  match delegation_attributes c, runtime_attributes c with
  | Some a, _ | None, Some a => a
  | None, None => ("CA2A_ERROR"%string, 500%Z)
  end.
(** [cls.code], [cls.http_status] *)
Definition code (c : err_class) : pystr := py (class_attributes c).1.
Definition http_status (c : err_class) : Z := (class_attributes c).2.

(** Every class sets its attributes, and no two classes share a code. *)
Lemma attributes_set c : is_Some (delegation_attributes c) \/ is_Some (runtime_attributes c).
Proof. destruct c; (left; by eexists) || (right; by eexists). Qed.
Lemma code_inj c d : code c = code d -> c = d.
Proof. unfold code. intros H%py_inj. by destruct c, d. Qed.

(** An exception instance: what [CA2AError.__init__] stores, plus the
    attributes an instance may override. *)
Record ca2a_error := {
  err_cls : err_class;
  err_message : pystr;
  err_detail : option pystr;
  err_record : option DelegationRecord;
  err_code : pystr;
  err_http_status : Z
}.

(** Language and library exceptions the code raises or catches. *)
Inductive py_class :=
| ValueError | UnicodeEncodeError | UnicodeDecodeError | JSONDecodeError
| TypeError | KeyError | AttributeError | IndexError | RecursionError | OSError | TimeoutError
| HTTPException | OverflowError | InvalidSignature | InvalidTag | OtherException.

#[export] Instance py_class_eq_dec : EqDecision py_class.
Proof. solve_decision. Defined.

Inductive exn :=
| CA2A (e : ca2a_error)
| PyExc (k : py_class) (msg : pystr).

#[export] Instance record_eq_dec : EqDecision DelegationRecord.
Proof. solve_decision. Defined.
#[export] Instance ca2a_error_eq_dec : EqDecision ca2a_error.
Proof. solve_decision. Defined.
#[export] Instance exn_eq_dec : EqDecision exn.
Proof. solve_decision. Defined.

Abbreviation res A := (result exn A).

(** [cls(message, detail=detail)] *)
Definition mk_err (c : err_class) (message : pystr) (detail : option pystr) : exn :=
  CA2A {| err_cls := c; err_message := message; err_detail := detail; err_record := None;
          err_code := code c; err_http_status := http_status c |}.
Definition err (c : err_class) (message : pystr) : exn := mk_err c message None.
Definition err_d (c : err_class) (message detail : pystr) : exn := mk_err c message (Some detail).
(** [cls(message, detail=detail, record=record)], for the classes that take a record. *)
Definition err_rec (c : err_class) (message : pystr) (detail : option pystr)
    (r : DelegationRecord) : exn :=
  CA2A {| err_cls := c; err_message := message; err_detail := detail; err_record := Some r;
          err_code := code c; err_http_status := http_status c |}.

(** [str(exc)], [exc.detail] *)
Definition exn_str (e : exn) : pystr :=
  match e with CA2A e => err_message e | PyExc _ m => m end.
Definition exn_detail (e : exn) : option pystr :=
  match e with CA2A e => err_detail e | PyExc _ _ => None end.

(** [isinstance(exc, cls)] *)
Definition subclass_of (c d : err_class) : bool :=
  bool_decide (c = d) || bool_decide (d = CA2AError)
  || (bool_decide (c = ResponseAuthenticationFailed) && bool_decide (d = TransportError)).
Definition is_ca2a (d : err_class) (e : exn) : bool :=
  match e with CA2A e => subclass_of (err_cls e) d | PyExc _ _ => false end.
Definition is_value_error (e : exn) : bool :=
  match e with
  | PyExc (ValueError | UnicodeEncodeError | UnicodeDecodeError | JSONDecodeError) _ => true
  | _ => false
  end.
Definition is_py (k : py_class) (e : exn) : bool :=
  match e with PyExc k' _ => bool_decide (k' = k) | CA2A _ => false end.

Definition is_os_error (e : exn) : bool := is_py OSError e || is_py TimeoutError e.

(** The class of a raised [CA2AError], for statements about which error a
    function reports. *)
Definition exn_class (e : exn) : option err_class :=
  match e with CA2A e => Some (err_cls e) | PyExc _ _ => None end.

Definition raises {A} (c : err_class) (r : res A) : bool :=
  match r with Err e => bool_decide (exn_class e = Some c) | Ok _ => false end.
Lemma raises_spec {A} c (r : res A) :
  raises c r = true <-> exists e, r = Err e /\ exn_class e = Some c.
Proof.
  destruct r as [a|e]; simpl; [by split; [|intros (? & ? & _)]|].
  rewrite bool_decide_eq_true. split; [eauto|]. by intros (? & [= <-] & ?).
Qed.

(** A library failure reported as a ValueError with its text. *)
Definition value_error {A} (r : result pystr A) : res A :=
  match r with Ok a => Ok a | Err m => Err (PyExc ValueError m) end.

Lemma value_error_ok {A} (r : result pystr A) a : value_error r = Ok a <-> r = Ok a.
Proof. destruct r; simpl; naive_solver. Qed.

Ltac inv_ok ::=
  repeat first [inv_ok_step | match goal with
    | H : value_error _ = Ok _ |- _ => apply value_error_ok in H
    end].

(** [err_cases] splits a hypothesis that a chain of steps raised by the step
    that did, and reads off the class of each literal [raise]. *)
Ltac err_cases :=
  repeat match goal with
  | H : _ ≫= _ = Err _ |- _ => apply bind_err in H as [H|(? & _ & H)]
  | H : _ <$> _ = Err _ |- _ => apply fmap_err in H
  | H : raise_if _ _ = Err _ |- _ => apply raise_if_err in H as [_ ->]
  | H : or_raise _ _ = Err _ |- _ => apply or_raise_err in H as [_ ->]
  | H : Ok _ = Err _ |- _ => discriminate H
  | H : Err _ = Err _ |- _ => injection H as <-
  | H : (if ?b then _ else _) = Err _ |- _ => destruct b
  | H : match ?o with _ => _ end = Err _ |- _ => destruct o
  end; try done.

(** ** Error contracts

    The computation raises only errors of one class. *)
Definition raises_only {A} (c : err_class) (m : res A) : Prop := forall e, m = Err e -> exn_class e = Some c.

Section raises_only.
Context (c : err_class).
Lemma only_ok {A} (a : A) : raises_only c (Ok a).
Proof. by intros e. Qed.
Lemma only_err {A : Type} (e : exn) : exn_class e = Some c -> raises_only (A := A) c (Err e).
Proof. by intros He ? [= <-]. Qed.
Lemma only_guard {A} (b : bool) x (k : unit -> res A) :
  exn_class x = Some c -> (b = false -> raises_only c (k tt)) -> raises_only c (raise_if b x ≫= k).
Proof. intros Hx Hk e. destruct b; simpl; [by intros [= <-]|by apply Hk]. Qed.
Lemma only_require {A B} (o : option A) x (k : A -> res B) :
  exn_class x = Some c -> (forall a, o = Some a -> raises_only c (k a)) -> raises_only c (or_raise o x ≫= k).
Proof. intros Hx Hk e. destruct o; simpl; [by apply Hk|by intros [= <-]]. Qed.
Lemma only_bind {A B} (m : res A) (k : A -> res B) :
  raises_only c m -> (forall a, m = Ok a -> raises_only c (k a)) -> raises_only c (m ≫= k).
Proof. intros Hm Hk e. destruct m as [a|x]; simpl; [by apply Hk|intros [= ->]; by apply Hm]. Qed.
End raises_only.

(** ** The provenance record an error carries *)
Definition exn_record (e : exn) : option DelegationRecord :=
  match e with CA2A e => err_record e | PyExc _ _ => None end.

(** The computation raises no error that carries a record. *)
Definition recordless {A} (m : res A) : Prop := forall e, m = Err e -> exn_record e = None.

Section recordless.
Lemma recordless_ok {A} (a : A) : recordless (Ok a).
Proof. by intros e. Qed.
Lemma recordless_err {A : Type} (e : exn) : exn_record e = None -> recordless (A := A) (Err e).
Proof. by intros H e' [= <-]. Qed.
Lemma recordless_bind {A B} (m : res A) (f : A -> res B) :
  recordless m -> (forall a, m = Ok a -> recordless (f a)) -> recordless (m ≫= f).
Proof. intros Hm Hf e [?|(a & ? & ?)]%bind_err; [by apply Hm|by eapply Hf]. Qed.
Lemma recordless_fmap {A B} (f : A -> B) (m : res A) : recordless m -> recordless (f <$> m).
Proof. intros Hm e ?%fmap_err. by apply Hm. Qed.
Lemma recordless_raise_if (c : bool) e : exn_record e = None -> recordless (raise_if c e).
Proof. by intros H e' [_ ->]%raise_if_err. Qed.
Lemma recordless_or_raise {A} (x : option A) e : exn_record e = None -> recordless (or_raise x e).
Proof. by intros H e' [_ ->]%or_raise_err. Qed.
Lemma recordless_value_error {A} (r : result pystr A) : recordless (value_error r).
Proof. intros e. destruct r; [done|]. by intros [= <-]. Qed.
Lemma recordless_try_except {A} (m : res A) sel h :
  recordless m -> (forall e, recordless (h e)) -> recordless (try_except m sel h).
Proof.
  intros Hm Hh e. destruct m as [a|e']; simpl; [done|]. destruct (sel e').
  - apply Hh.
  - intros [= <-]. by apply Hm.
Qed.
End recordless.
Create HintDb recordless.
#[export] Hint Resolve recordless_ok recordless_err recordless_bind recordless_fmap
  recordless_raise_if recordless_or_raise recordless_value_error recordless_try_except : recordless.
(** [solve_recordless] walks the code: every literal [raise] has no record. *)
Ltac solve_recordless :=
  repeat match goal with
  | |- recordless (_ ≫= _) => apply recordless_bind; [|intros ? ?]
  | |- recordless (try_except _ _ _) => apply recordless_try_except; [|intros ?]
  | |- recordless (match ?x with _ => _ end) => destruct x
  | |- recordless (let _ := _ in _) => cbv zeta
  | |- recordless _ => solve [eauto with recordless]
  end.

(** Every error raised by [err]/[err_d] carries its class's code and status. *)
Lemma mk_err_attributes c m d :
  exists e, mk_err c m d = CA2A e /\ err_code e = code c /\ err_http_status e = http_status c.
Proof. unfold mk_err. eauto. Qed.
