(* ===== verification/Json.v ===== *)
(** * JSON values, dictionaries and [json.loads]

    The runtime reads and writes JSON through Python's own values.  [json] is
    the type of those values: a float is identified by its [repr], an object is
    a dict, that is an association list in insertion order without repeated
    keys ([wf_json]).  [loads] is [json.loads] with an [object_pairs_hook]. *)
From S2P Require Export Errors.
#[local] Open Scope N_scope.

Inductive json :=
| JNull
| JBool (b : bool)
| JInt (z : Z)
| JFloat (r : pystr)
| JStr (s : pystr)
| JArr (l : list json)
| JObj (kvs : list (pystr * json)).

Section json_ind.
Context (P : json -> Prop)
  (Hnull : P JNull) (Hbool : forall b, P (JBool b)) (Hint : forall z, P (JInt z))
  (Hfloat : forall r, P (JFloat r)) (Hstr : forall s, P (JStr s))
  (Harr : forall l, Forall P l -> P (JArr l))
  (Hobj : forall kvs, Forall (fun kv => P kv.2) kvs -> P (JObj kvs)).
Fixpoint json_ind_strong (v : json) : P v :=
  match v with
  | JNull => Hnull
  | JBool b => Hbool b
  | JInt z => Hint z
  | JFloat r => Hfloat r
  | JStr s => Hstr s
  | JArr l =>
      Harr l ((fix go l : Forall P l :=
        match l with
        | [] => List.Forall_nil _
        | x :: l => List.Forall_cons _ _ _ (json_ind_strong x) (go l)
        end) l)
  | JObj kvs =>
      Hobj kvs ((fix go l : Forall (fun kv => P kv.2) l :=
        match l with
        | [] => List.Forall_nil _
        | (k, x) :: l => List.Forall_cons _ (k, x) _ (json_ind_strong x) (go l)
        end) kvs)
  end.
End json_ind.

#[export] Instance json_eq_dec : EqDecision json.
Proof.
  unfold EqDecision. fix go 1. intros x y.
  pose proof (fun l k : list json => @list_eq_dec _ go l k) as go_list.
  pose proof (fun l k : list (pystr * json) =>
    @list_eq_dec _ (@prod_eq_dec _ _ _ go) l k) as go_dict.
  unfold Decision, EqDecision in *.
  decide equality; first [apply go_list | apply go_dict | apply (decide (_ = _))].
Defined.

(** [type(v).__name__] *)
Definition type_name (v : json) : pystr :=
  py match v with
     | JNull => "NoneType" | JBool _ => "bool" | JInt _ => "int" | JFloat _ => "float"
     | JStr _ => "str" | JArr _ => "list" | JObj _ => "dict"
     end.

(** ** Dictionaries *)
Abbreviation dict := (list (pystr * json)).

(** [v.name] on a value whose type has no such attribute. *)
Definition no_attribute (v : json) (name : string) : exn :=
  PyExc AttributeError (py "'" ++ type_name v ++ py "' object has no attribute '" ++ py name ++ py "'").
(** The receiver of [v.get(key)], for a value that may not be an object. *)
Definition get_attr (v : json) : res dict :=
  match v with JObj d => Ok d | _ => Err (no_attribute v "get") end.

Lemma get_attr_ok v d : get_attr v = Ok d <-> v = JObj d.
Proof. destruct v; simpl; naive_solver. Qed.

(** [bool(v)]; a float is false when it is a zero. *)
Definition truthy (v : json) : bool :=
  match v with
  | JNull => false
  | JBool b => b
  | JInt z => negb (z =? 0)%Z
  | JFloat r => negb (bool_decide (r = py "0.0") || bool_decide (r = py "-0.0"))
  | JStr s => negb (bool_decide (s = []))
  | JArr l => match l with [] => false | _ => true end
  | JObj d => match d with [] => false | _ => true end
  end.

(** [d.get(k)] *)
Fixpoint dget (k : pystr) (d : dict) : option json :=
  match d with
  | [] => None
  | (k', v) :: d => if bool_decide (k' = k) then Some v else dget k d
  end.
(** [k in d] *)
Definition din (k : pystr) (d : dict) : bool := match dget k d with Some _ => true | None => false end.
(** [d[k] = v]: in place for a key already present, at the end otherwise. *)
Fixpoint dset (k : pystr) (v : json) (d : dict) : dict :=
  match d with
  | [] => [(k, v)]
  | (k', v') :: d => if bool_decide (k' = k) then (k, v) :: d else (k', v') :: dset k v d
  end.
(** [d.pop(k, None)] *)
Fixpoint dpop (k : pystr) (d : dict) : dict :=
  match d with
  | [] => []
  | (k', v) :: d => if bool_decide (k' = k) then dpop k d else (k', v) :: dpop k d
  end.
(** [d.update(e)] *)
Definition dupdate (d e : dict) : dict := fold_left (fun d kv => dset kv.1 kv.2 d) e d.
(** [set(d)] *)
Definition dkeys (d : dict) : gset pystr := list_to_set d.*1.
(** [dict(pairs)] *)
Definition dict_of_pairs (l : list (pystr * json)) : dict := dupdate [] l.

(** The dict invariant, recursively: no object repeats a key. *)
Fixpoint wf_json (v : json) : Prop :=
  match v with
  | JArr l => (fix go l := match l with [] => True | x :: l => wf_json x /\ go l end) l
  | JObj kvs =>
      NoDup kvs.*1 /\
      (fix go (l : dict) := match l with [] => True | kv :: l => wf_json kv.2 /\ go l end) kvs
  | _ => True
  end.

Lemma wf_json_arr l : wf_json (JArr l) <-> Forall wf_json l.
Proof. simpl. induction l as [|x l IH]; [by split|]. rewrite IH. by rewrite Forall_cons. Qed.
Lemma wf_json_obj kvs : wf_json (JObj kvs) <-> NoDup kvs.*1 /\ Forall (fun kv => wf_json kv.2) kvs.
Proof.
  simpl. f_equiv. induction kvs as [|x l IH]; [by split|]. rewrite IH. by rewrite Forall_cons.
Qed.

(** The invariant, decided. *)
Fixpoint wf_jsonb (v : json) : bool :=
  match v with
  | JArr l => forallb wf_jsonb l
  | JObj kvs => bool_decide (NoDup kvs.*1) && forallb (fun kv => wf_jsonb kv.2) kvs
  | _ => true
  end.
Lemma wf_jsonb_spec v : wf_jsonb v = true -> wf_json v.
Proof.
  induction v as [| | | | |l IH|kvs IH] using json_ind_strong; try done; cbn [wf_jsonb].
  - rewrite wf_json_arr. induction IH as [|x l Hx _ IHl]; simpl; [constructor|].
    intros [? ?]%andb_true_iff. constructor; auto.
  - rewrite wf_json_obj. intros [Hnd H]%andb_true_iff. apply bool_decide_eq_true in Hnd. split; [done|].
    clear Hnd. induction IH as [|x l Hx _ IHl]; [constructor|].
    simpl in H. apply andb_true_iff in H as [? ?]. constructor; auto.
Qed.

Lemma dget_Some_elem k v d : dget k d = Some v -> (k, v) ∈ d.
Proof.
  induction d as [|[k' v'] d IH]; simpl; [done|]. case_bool_decide.
  - intros [= ->]. subst. by left.
  - intros. right. auto.
Qed.

Lemma dget_elem k v d : NoDup d.*1 -> dget k d = Some v <-> (k, v) ∈ d.
Proof.
  intros Hd. split; [apply dget_Some_elem|]. induction d as [|[k' v'] d IH]; simpl.
  - by intros ?%not_elem_of_nil.
  - inversion Hd as [|?? Hk Hd']; subst. intros [[= -> ->]|Hin]%elem_of_cons.
    + by rewrite bool_decide_true.
    + rewrite bool_decide_false; [auto|]. intros ->. apply Hk.
      apply list_elem_of_fmap. by exists (k, v).
Qed.

Lemma dget_perm k d1 d2 : NoDup d1.*1 -> d1 ≡ₚ d2 -> dget k d1 = dget k d2.
Proof.
  intros Hd Hp. apply option_eq. intros v. rewrite !dget_elem; [by rewrite Hp| |done].
  by rewrite <-Hp.
Qed.

Lemma dget_dset k k' v d : dget k (dset k' v d) = if bool_decide (k' = k) then Some v else dget k d.
Proof.
  induction d as [|[k1 v1] d IH]; simpl; [done|].
  repeat case_bool_decide; simpl; repeat case_bool_decide; try congruence.
Qed.

Lemma dget_dpop k k' d : dget k (dpop k' d) = if bool_decide (k' = k) then None else dget k d.
Proof.
  induction d as [|[k1 v1] d IH]; simpl; [by case_bool_decide|].
  repeat case_bool_decide; simpl; rewrite IH; repeat case_bool_decide; congruence.
Qed.

Lemma dpop_dset k v d : dpop k (dset k v d) = dpop k d.
Proof.
  induction d as [|[k1 v1] d IH]; simpl; [by rewrite bool_decide_true|].
  case_bool_decide; simpl; [by rewrite bool_decide_true|]. by rewrite bool_decide_false, IH.
Qed.
Lemma dset_Forall (P : pystr * json -> Prop) k v d :
  P (k, v) -> Forall P d -> Forall P (dset k v d).
Proof.
  intros Hp. induction 1 as [|[k1 v1] d H1 H2 IH]; simpl; [by constructor|].
  case_bool_decide; by constructor.
Qed.

Lemma dset_keys k v d : (dset k v d).*1 = if din k d then d.*1 else d.*1 ++ [k].
Proof.
  unfold din. induction d as [|[k1 v1] d IH]; csimpl; [done|].
  case_bool_decide; csimpl; [congruence|]. rewrite IH. by destruct (dget k d).
Qed.

Lemma din_false_not_elem k d : din k d = false -> k ∉ d.*1.
Proof.
  unfold din. intros H Hk. apply list_elem_of_fmap in Hk as ([k' v] & -> & Hv).
  induction d as [|[k1 v1] d IH]; simpl in *; [by apply not_elem_of_nil in Hv|].
  case_bool_decide; [done|]. apply elem_of_cons in Hv as [[= -> ->]|]; auto.
Qed.

Lemma dset_NoDup k v d : NoDup d.*1 -> NoDup (dset k v d).*1.
Proof.
  intros Hd. rewrite dset_keys. destruct (din k d) eqn:E; [done|].
  apply NoDup_app. split_and!; [done| |apply NoDup_singleton].
  intros x Hx ->%list_elem_of_singleton. by apply din_false_not_elem in E.
Qed.

Lemma dset_wf k v d : wf_json v -> wf_json (JObj d) -> wf_json (JObj (dset k v d)).
Proof.
  rewrite !wf_json_obj. intros Hv [Hn Hd]. split; [by apply dset_NoDup|by apply dset_Forall].
Qed.

Lemma dict_of_pairs_acc acc l :
  NoDup (acc ++ l).*1 -> fold_left (fun d kv => dset kv.1 kv.2 d) l acc = acc ++ l.
Proof.
  revert acc. induction l as [|[k v] l IH]; intros acc Hd; simpl; [by rewrite app_nil_r|].
  assert (dset k v acc = acc ++ [(k, v)]) as ->.
  { clear IH. rewrite fmap_app in Hd. apply NoDup_app in Hd as (_ & Hd & _).
    assert (k ∉ acc.*1) as Hk by (intros Hk; apply (Hd k Hk); by left). clear Hd.
    induction acc as [|[k1 v1] acc IH]; simpl; [done|].
    apply not_elem_of_cons in Hk as [? Hk]. rewrite bool_decide_false by (simpl in *; congruence).
    by rewrite IH. }
  rewrite IH; rewrite <-app_assoc; done.
Qed.
Lemma dict_of_pairs_id l : NoDup l.*1 -> dict_of_pairs l = l.
Proof. intros. unfold dict_of_pairs, dupdate. by rewrite dict_of_pairs_acc. Qed.

(** ** Strict objects

    The parsers compare the key set of an object with the fields they accept. *)
Definition unknown_keys (known : gset pystr) (d : dict) : gset pystr := dkeys d ∖ known.
Definition missing_keys (required : gset pystr) (d : dict) : gset pystr := required ∖ dkeys d.

Lemma elem_of_dkeys k d : k ∈ dkeys d <-> is_Some (dget k d).
Proof.
  unfold dkeys. rewrite elem_of_list_to_set. split.
  - intros H. destruct (dget k d) as [v|] eqn:E; [by eexists|]. exfalso.
    apply (din_false_not_elem k d); [by unfold din; rewrite E|done].
  - intros [v Hv]. apply dget_Some_elem in Hv. by apply (list_elem_of_fmap_2 fst) in Hv.
Qed.

Lemma not_elem_of_dkeys k d : k ∉ dkeys d <-> dget k d = None.
Proof. rewrite elem_of_dkeys, <-eq_None_not_Some. done. Qed.

(** Two objects agree when they do on the keys either may have. *)
Lemma dict_agree (known : gset pystr) d e :
  unknown_keys known d = ∅ -> unknown_keys known e = ∅ ->
  (forall k, k ∈ known -> dget k d = dget k e) -> forall k, dget k d = dget k e.
Proof.
  unfold unknown_keys. intros Hd He Hk k. destruct (decide (k ∈ known)) as [H|H]; [auto|].
  rewrite (proj1 (not_elem_of_dkeys k d)), (proj1 (not_elem_of_dkeys k e)); set_solver.
Qed.

Lemma missing_keys_present required k d :
  missing_keys required d = ∅ -> k ∈ required -> is_Some (dget k d).
Proof.
  unfold missing_keys. intros Hm Hk. apply elem_of_dkeys.
  destruct (decide (k ∈ dkeys d)) as [H|H]; [done|].
  assert (k ∈ required ∖ dkeys d) as Hd by (by apply elem_of_difference).
  rewrite Hm in Hd. by apply elem_of_empty in Hd.
Qed.

Lemma unknown_keys_absent known k d :
  unknown_keys known d = ∅ -> k ∉ known -> dget k d = None.
Proof.
  unfold unknown_keys. intros Hu Hk. apply not_elem_of_dkeys. intros H.
  assert (k ∈ dkeys d ∖ known) as Hd by (by apply elem_of_difference).
  rewrite Hu in Hd. by apply elem_of_empty in Hd.
Qed.

Lemma dkeys_eq d e : (forall k, is_Some (dget k d) <-> is_Some (dget k e)) -> dkeys d = dkeys e.
Proof. intros H. apply set_eq. intros k. by rewrite !elem_of_dkeys. Qed.

(** Lookups in a concatenation: the first part's entry wins. *)
Lemma dget_app k d e :
  dget k (d ++ e) = match dget k d with Some v => Some v | None => dget k e end.
Proof. induction d as [|[k' v] d IH]; simpl; [done|]. by case_bool_decide. Qed.

(** Lookups of literal keys. *)
Lemma dget_py a b v d :
  dget (py a) ((py b, v) :: d) = if String.eqb b a then Some v else dget (py a) d.
Proof.
  simpl. destruct (String.eqb_spec b a) as [->|Hne].
  - by rewrite bool_decide_true.
  - rewrite bool_decide_false; [done|]. by intros ?%py_inj.
Qed.
Lemma dget_py_dset a b v d :
  dget (py a) (dset (py b) v d) = if String.eqb b a then Some v else dget (py a) d.
Proof.
  rewrite dget_dset. destruct (String.eqb_spec b a) as [->|Hne].
  - by rewrite bool_decide_true.
  - rewrite bool_decide_false; [done|]. by intros ?%py_inj.
Qed.
Ltac dlookup :=
  repeat (first [rewrite dget_py | rewrite dget_py_dset]; cbn [String.eqb Ascii.eqb Bool.eqb]).

#[export] Instance JStr_inj : Inj (=) (=) JStr.
Proof. by intros ?? [= ->]. Qed.

(** Field name sets, and case analysis on a member of one. *)
Definition keys_of (l : list string) : gset pystr := list_to_set (map py l).

Lemma elem_of_keys l k : k ∈ keys_of l <-> exists s, In s l /\ k = py s.
Proof.
  unfold keys_of. rewrite elem_of_list_to_set, list_elem_of_In, in_map_iff. naive_solver.
Qed.
Lemma elem_of_keys_py l s : py s ∈ keys_of l <-> existsb (String.eqb s) l = true.
Proof.
  rewrite elem_of_keys, existsb_exists. split.
  - intros (t & Ht & ->%py_inj). exists t. by rewrite String.eqb_eq.
  - intros (t & Ht & ->%String.eqb_eq). eauto.
Qed.
Lemma keys_of_app l k : keys_of l ∪ keys_of k = keys_of (l ++ k).
Proof. unfold keys_of. by rewrite map_app, list_to_set_app_L. Qed.

(** A concrete object has no unknown or missing keys. *)
Lemma unknown_keys_none l (d : dict) :
  Forall (fun kv => kv.1 ∈ keys_of l) d -> unknown_keys (keys_of l) d = ∅.
Proof.
  intros H. unfold unknown_keys. apply set_eq. intros k.
  rewrite elem_of_difference, elem_of_dkeys. split; [|by intros ?%elem_of_empty].
  intros [[v Hv] Hk]. apply dget_Some_elem in Hv. rewrite Forall_forall in H. by destruct (Hk (H _ Hv)).
Qed.
Lemma missing_keys_none l (d : dict) :
  Forall (fun k => is_Some (dget (py k) d)) l -> missing_keys (keys_of l) d = ∅.
Proof.
  intros H. unfold missing_keys. apply set_eq. intros k.
  rewrite elem_of_difference, elem_of_dkeys, elem_of_keys.
  split; [|by intros ?%elem_of_empty]. intros [(s & Hs & ->) Hk]. destruct Hk.
  rewrite Forall_forall in H. by apply H, list_elem_of_In.
Qed.
(** The key set of a concrete object. *)
Lemma dkeys_keys_of l (d : dict) :
  Forall (fun kv => kv.1 ∈ keys_of l) d -> Forall (fun k => is_Some (dget (py k) d)) l ->
  dkeys d = keys_of l.
Proof.
  rewrite !Forall_forall. intros Hd Hl. apply set_eq. intros k. rewrite elem_of_dkeys. split.
  - intros [v Hv]. apply dget_Some_elem in Hv. by apply (Hd (k, v)).
  - intros (s & Hs & ->)%elem_of_keys. by apply Hl, list_elem_of_In.
Qed.
Lemma unknown_keys_dkeys known d e : dkeys d = dkeys e -> unknown_keys known d = unknown_keys known e.
Proof. unfold unknown_keys. by intros ->. Qed.
Lemma missing_keys_dkeys required d e :
  dkeys d = dkeys e -> missing_keys required d = missing_keys required e.
Proof. unfold missing_keys. by intros ->. Qed.
#[global] Opaque keys_of unknown_keys missing_keys dkeys.

Ltac each_key H :=
  apply elem_of_keys in H as (? & H & ->); cbn [In app] in H;
  repeat (destruct H as [<-|H]); [..|destruct H].

(** The key facts of a concrete object. *)
Ltac solve_keys :=
  repeat (apply List.Forall_cons; [first [by apply elem_of_keys_py | dlookup; by eexists]|]);
  apply List.Forall_nil.

(** ** [repr] of a decoded value *)
Fixpoint json_repr `{U : Unidata} (v : json) : pystr :=
  match v with
  | JNull => py "None"
  | JBool b => if b then py "True" else py "False"
  | JInt z => str_int z
  | JFloat text => text
  | JStr s => py_repr s
  | JArr l => py "[" ++ join (py ", ") (map json_repr l) ++ py "]"
  | JObj kvs =>
      py "{" ++ join (py ", ") (map (fun kv => py_repr kv.1 ++ py ": " ++ json_repr kv.2) kvs)
      ++ py "}"
  end.

(** [str(v)] *)
Definition str_of `{U : Unidata} (v : json) : pystr :=
  match v with JStr s => s | _ => json_repr v end.
