(* ===== verification/JsonLoads.v ===== *)
(** * [json.loads]

    The standard library's JSON reader as the runtime calls it: strict strings
    (no raw control characters), [\uXXXX] with surrogate pairs joined, integers
    of at most 4300 digits, an [object_pairs_hook] applied to each object's
    pairs in order, whitespace around values, and an error on trailing data.
    Recursion is on fuel; [loads] supplies more than any document of that
    length can use. *)
From S2P Require Export Json.
#[local] Open Scope N_scope.

(** The value of a float literal, given as its [repr]. *)
Class FloatText := { float_repr : pystr -> pystr }.

Definition is_ws (c : N) : bool := (c =? 32) || (c =? 9) || (c =? 10) || (c =? 13).
Definition skip_ws (s : pystr) : pystr := lstrip is_ws s.

Definition hex4 (a b c d : N) : option N :=
  a ← hexval a; b ← hexval b; c ← hexval c; d ← hexval d;
  Some (a * 4096 + b * 256 + c * 16 + d).

Definition simple_escape (c : N) : option N :=
  if c =? 34 then Some 34 else if c =? 92 then Some 92 else if c =? 47 then Some 47
  else if c =? 98 then Some 8 else if c =? 102 then Some 12 else if c =? 110 then Some 10
  else if c =? 114 then Some 13 else if c =? 116 then Some 9 else None.

(** The text of a string after its opening quote, and what follows it. *)
Fixpoint scan_string (s : pystr) : option (pystr * pystr) :=
  match s with
  | [] => None
  | c :: r =>
      if c =? 34 then Some ([], r)
      else if c <? 32 then None
      else if c =? 92 then
        match r with
        | [] => None
        | e :: r1 =>
            if e =? 117 then
              match r1 with
              | h1 :: h2 :: h3 :: h4 :: r2 =>
                  u ← hex4 h1 h2 h3 h4;
                  match r2 with
                  | b :: v :: l1 :: l2 :: l3 :: l4 :: r3 =>
                      if (0xD800 <=? u) && (u <=? 0xDBFF) && (b =? 92) && (v =? 117) then
                        w ← hex4 l1 l2 l3 l4;
                        if (0xDC00 <=? w) && (w <=? 0xDFFF) then
                          '(t, rest) ← scan_string r3;
                          Some ((0x10000 + (u - 0xD800) * 1024 + (w - 0xDC00)) :: t, rest)
                        else '(t, rest) ← scan_string r2; Some (u :: t, rest)
                      else '(t, rest) ← scan_string r2; Some (u :: t, rest)
                  | _ => '(t, rest) ← scan_string r2; Some (u :: t, rest)
                  end
              | _ => None
              end
            else
              x ← simple_escape e; '(t, rest) ← scan_string r1; Some (x :: t, rest)
        end
      else '(t, rest) ← scan_string r; Some (c :: t, rest)
  end.

(** The longest prefix of digits. *)
Fixpoint span_digits (s : pystr) : pystr * pystr :=
  match s with
  | c :: r => if is_digit c then let '(d, rest) := span_digits r in (c :: d, rest) else ([], s)
  | [] => ([], [])
  end.

(** The fraction and exponent that make a number a float. *)
Definition scan_frac (s : pystr) : pystr * pystr :=
  match s with
  | c :: r =>
      if c =? 46 then
        let '(d, rest) := span_digits r in
        match d with [] => ([], s) | _ => (c :: d, rest) end
      else ([], s)
  | [] => ([], [])
  end.
Definition scan_exp (s : pystr) : pystr * pystr :=
  match s with
  | c :: r =>
      if (c =? 101) || (c =? 69) then
        let '(sign, r1) :=
          match r with
          | x :: r' => if (x =? 43) || (x =? 45) then ([x], r') else ([], r)
          | [] => ([], r)
          end in
        let '(d, rest) := span_digits r1 in
        match d with [] => ([], s) | _ => (c :: sign ++ d, rest) end
      else ([], s)
  | [] => ([], [])
  end.

Definition json_error : exn := PyExc JSONDecodeError (py "malformed JSON").
Definition int_limit_error : exn := PyExc ValueError (py "Exceeds the limit (4300 digits)").

(** The keyword [k] at the head of [s]. *)
Fixpoint strip_prefix (k s : pystr) : option pystr :=
  match k, s with
  | [], s => Some s
  | x :: k, y :: s => if x =? y then strip_prefix k s else None
  | _ :: _, [] => None
  end.

Section loads.
Context `{F : FloatText}.
(** [object_pairs_hook] *)
Variable hook : list (pystr * json) -> res json.

(** The unsigned part of a number: "0", or digits without a leading zero. *)
Definition scan_int_part (s : pystr) : option (pystr * pystr) :=
  match s with
  | c :: r =>
      if c =? 48 then Some ([c], r)
      else if is_digit c then Some (span_digits s)
      else None
  | [] => None
  end.

Definition parse_number (s : pystr) : res (json * pystr) :=
  let '(neg, s1) :=
    match s with
    | c :: r => if c =? 45 then (true, r) else (false, s)
    | [] => (false, s)
    end in
  match scan_int_part s1 with
  | None => Err json_error
  | Some (ds, r) =>
      let '(fr, r1) := scan_frac r in
      let '(ex, r2) := scan_exp r1 in
      match fr ++ ex with
      | [] =>
          if Nat.ltb int_max_str_digits (length ds) then Err int_limit_error
          else Ok (JInt (if neg then (- Z.of_N (dec_val ds))%Z else Z.of_N (dec_val ds)), r2)
      | _ => Ok (JFloat (float_repr ((if neg then [45] else []) ++ ds ++ fr ++ ex)), r2)
      end
  end.

Definition parse_literal (s : pystr) : res (json * pystr) :=
  let try_kw k v other :=
    match strip_prefix (py k) s with Some r => Ok (v, r) | None => other end in
  try_kw "null"%string JNull
    (try_kw "true"%string (JBool true)
      (try_kw "false"%string (JBool false)
        (try_kw "NaN"%string (JFloat (py "nan"))
          (try_kw "Infinity"%string (JFloat (py "inf"))
            (try_kw "-Infinity"%string (JFloat (py "-inf")) (parse_number s)))))).

Definition expect (c : N) (s : pystr) : res pystr :=
  match s with
  | x :: r => if x =? c then Ok r else Err json_error
  | [] => Err json_error
  end.

Fixpoint parse_value (fuel : nat) (s : pystr) : res (json * pystr) :=
  match fuel with
  | O => Err (PyExc RecursionError (py "maximum recursion depth exceeded"))
  | S fuel =>
      match s with
      | [] => Err json_error
      | c :: r =>
          if c =? 34 then
            '(t, rest) ← or_raise (scan_string r) json_error; Ok (JStr t, rest)
          else if c =? 123 then
            match skip_ws r with
            | [] => Err json_error
            | c1 :: r1 =>
                if c1 =? 125 then v ← hook []; Ok (v, r1)
                else '(kvs, rest) ← parse_members fuel (c1 :: r1);
                     v ← hook kvs; Ok (v, rest)
            end
          else if c =? 91 then
            match skip_ws r with
            | [] => Err json_error
            | c1 :: r1 =>
                if c1 =? 93 then Ok (JArr [], r1)
                else '(l, rest) ← parse_elements fuel (c1 :: r1); Ok (JArr l, rest)
            end
          else parse_literal s
      end
  end
with parse_members (fuel : nat) (s : pystr) : res (list (pystr * json) * pystr) :=
  match fuel with
  | O => Err (PyExc RecursionError (py "maximum recursion depth exceeded"))
  | S fuel =>
      r ← expect 34 s;
      '(k, r) ← or_raise (scan_string r) json_error;
      r ← expect 58 (skip_ws r);
      '(v, r) ← parse_value fuel (skip_ws r);
      match skip_ws r with
      | [] => Err json_error
      | c :: r =>
          if c =? 125 then Ok ([(k, v)], r)
          else if c =? 44 then
            '(kvs, rest) ← parse_members fuel (skip_ws r); Ok ((k, v) :: kvs, rest)
          else Err json_error
      end
  end
with parse_elements (fuel : nat) (s : pystr) : res (list json * pystr) :=
  match fuel with
  | O => Err (PyExc RecursionError (py "maximum recursion depth exceeded"))
  | S fuel =>
      '(v, r) ← parse_value fuel s;
      match skip_ws r with
      | [] => Err json_error
      | c :: r =>
          if c =? 93 then Ok ([v], r)
          else if c =? 44 then
            '(l, rest) ← parse_elements fuel (skip_ws r); Ok (v :: l, rest)
          else Err json_error
      end
  end.

(** [json.loads(s, object_pairs_hook=hook)] *)
Definition loads_hook (s : pystr) : res json :=
  '(v, r) ← parse_value (S (length s)) (skip_ws s);
  match skip_ws r with [] => Ok v | _ => Err json_error end.
End loads.

(** [json.loads(s)]: the last of a repeated key wins. *)
Definition loads `{F : FloatText} (s : pystr) : res json :=
  loads_hook (fun kvs => Ok (JObj (dict_of_pairs kvs))) s.
