(* ===== verification/Url.v ===== *)
(** * URLs ([urllib.parse])

    What the transport uses of the standard library: [urlparse] for the scheme, the
    path and the query, and [parse_qs].  The validation of an authority (bracketed
    hosts, Unicode normalization) and the decoding of percent escapes are an
    interface. *)
From S2P Require Export JsonLoads.
#[local] Open Scope N_scope.

Class UrlLib := {
  check_netloc : pystr -> res unit;      (* raises ValueError *)
  unquote_percent : pystr -> pystr       (* [unquote] of text with a percent sign *)
}.

Module url.
(** [s.split(c, 1)], when [c] occurs. *)
Fixpoint split1 (c : N) (s : pystr) : option (pystr * pystr) :=
  match s with
  | [] => None
  | x :: s => if x =? c then Some ([], s) else '(p, r) ← split1 c s; Some (x :: p, r)
  end.

(** The longest prefix without a stop character, and the rest. *)
Fixpoint span_until (stop : N -> bool) (s : pystr) : pystr * pystr :=
  match s with
  | [] => ([], [])
  | x :: r => if stop x then ([], s) else let '(p, q) := span_until stop r in (x :: p, q)
  end.

Definition is_alpha (c : N) : bool := ((65 <=? c) && (c <=? 90)) || ((97 <=? c) && (c <=? 122)).
Definition scheme_char (c : N) : bool :=
  is_alpha c || is_digit c || (c =? 43) || (c =? 45) || (c =? 46).
Definition lower_ascii (c : N) : N := if (65 <=? c) && (c <=? 90) then c + 32 else c.

(** The scheme, lower case, and what follows its colon. *)
Definition split_scheme (s : pystr) : pystr * pystr :=
  match split1 58 s with
  | Some ((c :: _) as p, r) =>
      if is_alpha c && forallb scheme_char p then (map lower_ascii p, r) else ([], s)
  | _ => ([], s)
  end.

Definition uses_params : list pystr :=
  map py [""; "ftp"; "hdl"; "prospero"; "http"; "imap"; "https"; "shttp"; "rtsp"; "rtsps"; "rtspu";
          "sip"; "sips"; "mms"; "sftp"; "tel"]%string.

(** The path up to a semicolon in its last segment. *)
Definition drop_params (path : pystr) : pystr :=
  let '(last, before) := span_until (fun c => c =? 47) (rev path) in
  rev before ++ (span_until (fun c => c =? 59) (rev last)).1.

Record ParseResult := { scheme : pystr; path : pystr; query : pystr }.

Section urlparse.
Context `{L : UrlLib}.

Definition urlparse (s : pystr) : res ParseResult :=
  let s := lstrip (fun c => c <=? 32) s in
  let s := List.filter (fun c => negb ((c =? 9) || (c =? 10) || (c =? 13))) s in
  let '(scheme, s) := split_scheme s in
  s ← match strip_prefix [47; 47] s with
      | Some r =>
          let '(netloc, r) := span_until (fun c => (c =? 47) || (c =? 63) || (c =? 35)) r in
          check_netloc netloc;; Ok r
      | None => Ok s
      end;
  let s := match split1 35 s with Some (p, _) => p | None => s end in
  let '(s, query) := match split1 63 s with Some (p, q) => (p, q) | None => (s, []) end in
  Ok {| scheme := scheme;
        path := if bool_decide (scheme ∈ uses_params) then drop_params s else s;
        query := query |}.

Definition unquote (s : pystr) : pystr := if bool_decide (37 ∈ s) then unquote_percent s else s.
Definition unquote_plus (s : pystr) : pystr := unquote (map (fun c => if c =? 43 then 32 else c) s).

(** [parse_qs(qs, max_num_fields=max_num_fields).get(name, [])] *)
Definition parse_qs_get (qs : pystr) (max_num_fields : nat) (name : pystr) : res (list pystr) :=
  raise_if (Nat.ltb max_num_fields (length (split_on 38 qs)))
    (PyExc ValueError (py "Max number of fields exceeded"));;
  Ok (omap (fun name_value =>
        '(n, v) ← split1 61 name_value;
        if bool_decide (v = []) then None
        else if bool_decide (unquote_plus n = name) then Some (unquote_plus v) else None)
      (split_on 38 qs)).
End urlparse.
End url.
Import url.

Lemma split1_app c p s : c ∉ p -> split1 c (p ++ c :: s) = Some (p, s).
Proof.
  induction p as [|x p IH]; simpl; [by rewrite N.eqb_refl|].
  intros [Hne Hp]%not_elem_of_cons. rewrite (proj2 (N.eqb_neq x c)) by done. by rewrite IH.
Qed.
Lemma split1_free c s : c ∉ s -> split1 c s = None.
Proof.
  induction s as [|x s IH]; simpl; [done|].
  intros [Hne Hp]%not_elem_of_cons. rewrite (proj2 (N.eqb_neq x c)) by done. by rewrite IH.
Qed.
Lemma span_until_free stop s : Forall (fun c => stop c = false) s -> span_until stop s = (s, []).
Proof. induction 1 as [|x s Hx _ IH]; [done|]. simpl. by rewrite Hx, IH. Qed.
Lemma filter_all {A} (f : A -> bool) l : Forall (fun x => f x = true) l -> List.filter f l = l.
Proof. induction 1 as [|x l Hx _ IH]; [done|]. simpl. by rewrite Hx, IH. Qed.

(** A plain target: an absolute path and a query, both of unreserved characters. *)
Definition plain_char (c : N) : bool := is_alpha c || is_digit c || (c =? 45) || (c =? 46) || (c =? 95).
Definition path_char (c : N) : bool := plain_char c || (c =? 47).
Definition query_char (c : N) : bool := plain_char c || (c =? 61).

Lemma Forall_not_elem {A} (f : A -> bool) (x : A) l :
  Forall (fun y => f y = true) l -> f x = false -> x ∉ l.
Proof. rewrite Forall_forall. intros H Hx Hin%H. congruence. Qed.

Lemma drop_params_free p : 59 ∉ p -> drop_params p = p.
Proof.
  intros H. unfold drop_params.
  assert (forall l, (span_until (fun c => c =? 47) l).1 ++ (span_until (fun c => c =? 47) l).2 = l) as Hs.
  { induction l as [|x l IH]; [done|]. simpl. destruct (x =? 47); [done|].
    destruct (span_until _ l) eqn:E. simpl in *. by rewrite IH. }
  specialize (Hs (rev p)). destruct (span_until (fun c => c =? 47) (rev p)) as [last before]. simpl in Hs.
  rewrite span_until_free.
  - cbn [fst]. rewrite <-rev_app_distr, Hs. apply rev_involutive.
  - apply Forall_forall. intros c Hc. apply N.eqb_neq. intros ->. apply H.
    rewrite <-(rev_involutive p), <-Hs, rev_app_distr. apply elem_of_app. by right.
Qed.

Lemma urlparse_target `{L : UrlLib} p q :
  Forall (fun c => path_char c = true) (47 :: p) -> Forall (fun c => query_char c = true) q ->
  (match p with c :: _ => c <> 47 | [] => True end) ->
  urlparse (47 :: p ++ 63 :: q) = Ok {| scheme := []; path := 47 :: p; query := q |}.
Proof.
  intros Hp Hq Hs. unfold urlparse.
  assert (forall c, path_char c = true \/ query_char c = true \/ c = 63 ->
    negb ((c =? 9) || (c =? 10) || (c =? 13)) = true /\ c <> 58 /\ c <> 35 /\ c <> 59) as Hchars.
  { intros c Hc. unfold path_char, query_char, plain_char, is_alpha, is_digit in Hc.
    rewrite !orb_true_iff, !andb_true_iff, !N.leb_le, !N.eqb_eq in Hc.
    rewrite negb_true_iff, !orb_false_iff, !N.eqb_neq. lia. }
  set (s := 47 :: p ++ 63 :: q).
  assert (Forall (fun c => path_char c = true \/ query_char c = true \/ c = 63) s) as Hall.
  { unfold s. change (47 :: p ++ 63 :: q) with ((47 :: p) ++ 63 :: q). apply Forall_app. split.
    - eapply Forall_impl; [exact Hp|]. auto.
    - constructor; [auto|]. eapply Forall_impl; [exact Hq|]. auto. }
  assert (lstrip (fun c => c <=? 32) s = s) as -> by done.
  rewrite filter_all by (eapply Forall_impl; [exact Hall|]; intros c Hc; by apply Hchars).
  assert (forall c, (c = 58 \/ c = 35) -> c ∉ s) as Hfree.
  { intros c Hc Hin. rewrite Forall_forall in Hall. destruct (Hchars _ (Hall _ Hin)) as (_ & ? & ? & _).
    destruct Hc; congruence. }
  unfold split_scheme. rewrite (split1_free 58 s) by (apply Hfree; auto).
  assert (strip_prefix [47; 47] s = None) as E.
  { unfold s. destruct p as [|c p]; [done|]. cbn -[N.eqb]. rewrite N.eqb_refl. by rewrite (proj2 (N.eqb_neq 47 c)) by congruence. }
  rewrite E. cbn [mbind result_bind]. rewrite (split1_free 35 s) by (apply Hfree; auto).
  unfold s. change (47 :: p ++ 63 :: q) with ((47 :: p) ++ 63 :: q).
  rewrite split1_app by (eapply Forall_not_elem; [exact Hp|done]).
  rewrite bool_decide_true by (apply list_elem_of_fmap; exists ""%string; split; [done|left]).
  rewrite drop_params_free; [done|]. intros Hin.
  rewrite Forall_forall in Hp. apply Hp in Hin. done.
Qed.
