(* ===== verification/Canonical.v ===== *)
(** * Canonical JSON ([ca2a_runtime.canonical])

    [_escape_string], [_serialize] and [canonicalize], and what every signature
    in the runtime rests on: the canonical bytes are a lossless encoding
    (reading them back gives the value, keys sorted), so two values with the
    same bytes are the same value up to the order of object keys; and that
    order never changes the bytes. *)
From S2P Require Export JsonLoads.
#[local] Open Scope N_scope.
#[local] Transparent py.

(** ** The encoder *)

Definition _MAX_SAFE_INTEGER : Z := 9007199254740991.

Definition _SHORT_ESCAPES (c : N) : option pystr :=
  if c =? 0x08 then Some (py "\b")
  else if c =? 0x09 then Some (py "\t")
  else if c =? 0x0A then Some (py "\n")
  else if c =? 0x0C then Some (py "\f")
  else if c =? 0x0D then Some (py "\r")
  else if c =? 0x22 then Some [92; 34]
  else if c =? 0x5C then Some [92; 92]
  else None.

Definition escape_char (c : N) : pystr :=
  match _SHORT_ESCAPES c with
  | Some e => e
  | None => if c <? 0x20 then py "\u" ++ hex_digits 4 c else [c]
  end.
Definition _escape_string (s : pystr) : pystr := [34] ++ concat (map escape_char s) ++ [34].

(** UnicodeEncodeError as CPython words it: UTF-8 reports the whole run of
    surrogates, UTF-16 the first. *)
Fixpoint first_surrogate (s : pystr) : nat :=
  match s with
  | [] => 0
  | c :: s => if is_surrogate c then 0 else S (first_surrogate s)
  end.
Fixpoint surrogate_run (s : pystr) : nat :=
  match s with
  | c :: s => if is_surrogate c then S (surrogate_run s) else 0
  | [] => 0
  end.
Definition encode_error (codec : string) (run : bool) (s : pystr) : exn :=
  let pos := first_surrogate s in
  let n := if run then surrogate_run (drop pos s) else 1%nat in
  let at_ := str_N (N.of_nat pos) in
  PyExc UnicodeEncodeError
    (py "'" ++ py codec ++ py "' codec can't encode " ++
     (if Nat.leb n 1
      then py "character '\u" ++ hex_digits 4 (default 0 (s !! pos)) ++ py "' in position " ++ at_
      else py "characters in position " ++ at_ ++ py "-" ++ str_N (N.of_nat (pos + n - 1))) ++
     py ": surrogates not allowed").

Definition encode_utf8 (s : pystr) : res bytes :=
  or_raise (utf8_encode s) (encode_error "utf-8" true s).
Definition encode_utf16_be (s : pystr) : res bytes :=
  or_raise (utf16_be s) (encode_error "utf-16-be" false s).

Definition int_domain_error (z : Z) : exn :=
  PyExc ValueError
    (py "integer " ++ str_int z ++ py " is outside the safe integer domain RFC 8785 can " ++
     py "serialize (+/-" ++ str_int _MAX_SAFE_INTEGER ++ py "); emitting it verbatim would " ++
     py "diverge from a conforming verifier, and a verifier that applies " ++
     py "the ECMAScript conversion would accept one signature for two " ++
     py "distinct values").

(** [sorted(items, key=lambda kv: kv[0].encode("utf-16-be"))]: the sort keys are
    all computed first, so a key that does not encode raises before any value
    is serialized. *)
Definition sort_items {A} (items : list (pystr * A)) : res (list (pystr * A)) :=
  decorated ← mapM_res (fun kv => k ← encode_utf16_be kv.1; Ok (map b2n k, kv)) items;
  Ok (map snd (sort_by fst decorated)).

Fixpoint _serialize (value : json) : res pystr :=
  match value with
  | JNull => Ok (py "null")
  | JBool true => Ok (py "true")
  | JBool false => Ok (py "false")
  | JStr s => Ok (_escape_string s)
  | JInt z =>
      if ((- _MAX_SAFE_INTEGER <=? z) && (z <=? _MAX_SAFE_INTEGER))%Z
      then Ok (str_int z) else Err (int_domain_error z)
  | JFloat _ =>
      Err (PyExc TypeError (py "RFC 8785 canonicalization of floats is not supported in cA2A"))
  | JArr l =>
      parts ← mapM_res _serialize l;
      Ok ([91] ++ join [44] parts ++ [93])
  | JObj kvs =>
      items ← sort_items (map (fun '(k, v) => (k, _serialize v)) kvs);
      parts ← mapM_res (fun '(k, v) => s ← v; Ok (_escape_string k ++ [58] ++ s)) items;
      Ok ([123] ++ join [44] parts ++ [125])
  end.

(** [canonicalize(value)] *)
Definition canonicalize (value : json) : res bytes := s ← _serialize value; encode_utf8 s.

(** ** Equality of values up to key order *)

(** Keys sorted throughout: the value the canonical text denotes. *)
Definition key16 (k : pystr) : list N := from_option (map b2n) [] (utf16_be k).
Fixpoint norm (v : json) : json :=
  match v with
  | JArr l => JArr (map norm l)
  | JObj kvs => JObj (sort_by (fun kv => key16 kv.1) (map (fun kv => (kv.1, norm kv.2)) kvs))
  | v => v
  end.

(** The same JSON value: objects compare as dicts, whatever their order. *)
Inductive json_equiv : json -> json -> Prop :=
| eq_refl_j v : json_equiv v v
| eq_arr l k : Forall2 json_equiv l k -> json_equiv (JArr l) (JArr k)
| eq_obj d e e' :
    Forall2 (fun x y => x.1 = y.1 /\ json_equiv x.2 y.2) d e' -> e' ≡ₚ e ->
    json_equiv (JObj d) (JObj e).

(** ** Reading canonical text back *)

(** What may follow a value inside canonical text. *)
Definition delim (r : pystr) : Prop :=
  match r with [] => True | c :: _ => c = 44 \/ c = 93 \/ c = 125 end.

Lemma delim_not_digit r : delim r -> match r with [] => True | c :: _ => is_digit c = false end.
Proof. destruct r; simpl; [done|]. by intros [->|[-> | ->]]. Qed.

Lemma span_digits_app ds r :
  Forall (fun c => is_digit c = true) ds -> delim r -> span_digits (ds ++ r) = (ds, r).
Proof.
  intros Hd Hr%delim_not_digit. induction Hd as [|c ds Hc Hd IH]; simpl.
  - destruct r as [|c r]; simpl; [done|]. by rewrite Hr.
  - by rewrite Hc, IH.
Qed.

Lemma scan_frac_delim r : delim r -> scan_frac r = ([], r).
Proof. destruct r; simpl; [done|]. by intros [->|[-> | ->]]. Qed.
Lemma scan_exp_delim r : delim r -> scan_exp r = ([], r).
Proof. destruct r; simpl; [done|]. by intros [->|[-> | ->]]. Qed.

Lemma scan_int_part_str_N n r : delim r -> scan_int_part (str_N n ++ r) = Some (str_N n, r).
Proof.
  intros Hr. pose proof (str_N_digits n) as Hd.
  destruct (str_N_head n) as [E|(d & s & E & Hc & Hne)]; rewrite E in *; [done|].
  simpl app. unfold scan_int_part. rewrite (proj2 (N.eqb_neq d 48) Hne), Hc.
  change (d :: s ++ r) with ((d :: s) ++ r). by rewrite span_digits_app.
Qed.

Section loads_text.
Context `{F : FloatText}.

Lemma parse_number_str_int z r :
  (- _MAX_SAFE_INTEGER <= z <= _MAX_SAFE_INTEGER)%Z -> delim r ->
  parse_number (str_int z ++ r) = Ok (JInt z, r).
Proof.
  intros Hz Hr. unfold parse_number.
  assert (forall n, (Z.of_N n <= _MAX_SAFE_INTEGER)%Z ->
    Nat.ltb int_max_str_digits (length (str_N n)) = false) as Hlen.
  { intros n Hn. apply Nat.ltb_ge. etrans; [apply (str_N_length n 15)|].
    - unfold _MAX_SAFE_INTEGER in Hn. change (10 ^ N.of_nat 16) with 10000000000000000. lia.
    - unfold int_max_str_digits. apply Nat.leb_le. vm_compute. reflexivity. }
  unfold str_int. destruct (z <? 0)%Z eqn:E; bool_to_prop.
  - simpl app. cbv beta iota. rewrite N.eqb_refl, scan_int_part_str_N by done.
    rewrite scan_frac_delim, scan_exp_delim by done. simpl.
    rewrite Hlen by lia. rewrite str_N_val. do 3 f_equal. lia.
  - assert (match str_N (Z.to_N z) ++ r with
            | c :: r0 => if c =? 45 then (true, r0) else (false, str_N (Z.to_N z) ++ r)
            | [] => (false, str_N (Z.to_N z) ++ r)
            end = (false, str_N (Z.to_N z) ++ r)) as ->.
    { destruct (str_N (Z.to_N z)) as [|c s] eqn:Es; simpl.
      - destruct r as [|c r]; [done|]. destruct Hr as [->|[-> | ->]]; done.
      - destruct (N.eqb_spec c 45) as [->|]; [|done]. by apply str_N_no_minus in Es. }
    rewrite scan_int_part_str_N by done.
    rewrite scan_frac_delim, scan_exp_delim by done. simpl.
    rewrite Hlen by lia. rewrite str_N_val. do 3 f_equal. lia.
Qed.

(** The first character of an integer's text is a digit or a minus sign
    followed by a digit. *)
Lemma str_int_head z :
  exists c s, str_int z = c :: s /\
    (is_digit c = true \/ c = 45 /\ exists d s', s = d :: s' /\ is_digit d = true).
Proof.
  unfold str_int. destruct (z <? 0)%Z.
  - eexists 45, _. split; [done|]. right. split; [done|].
    destruct (str_N_head (Z.to_N (- z))) as [->|(d & s & -> & ? & _)]; by eexists _, _.
  - destruct (str_N_head (Z.to_N z)) as [->|(d & s & -> & ? & _)]; eexists _, _; split; eauto.
Qed.

Lemma strip_prefix_neq x k c s : x <> c -> strip_prefix (x :: k) (c :: s) = None.
Proof. intros. simpl. by rewrite (proj2 (N.eqb_neq x c)). Qed.

Lemma strip_prefix_eq x k s : strip_prefix (x :: k) (x :: s) = strip_prefix k s.
Proof. simpl. by rewrite N.eqb_refl. Qed.

Lemma parse_literal_str_int z r :
  (- _MAX_SAFE_INTEGER <= z <= _MAX_SAFE_INTEGER)%Z -> delim r ->
  parse_literal (str_int z ++ r) = Ok (JInt z, r).
Proof.
  intros Hz Hr. rewrite <-(parse_number_str_int z r) by done. unfold parse_literal.
  destruct (str_int_head z) as (c & s & -> & Hc). simpl app.
  assert (c <> 110 /\ c <> 116 /\ c <> 102 /\ c <> 78 /\ c <> 73) as (?&?&?&?&?).
  { destruct Hc as [Hc|[-> _]]; [unfold is_digit in Hc; bool_to_prop; lia|lia]. }
  change (py "null") with (110 :: py "ull"). change (py "true") with (116 :: py "rue").
  change (py "false") with (102 :: py "alse"). change (py "NaN") with (78 :: py "aN").
  change (py "Infinity") with (73 :: py "nfinity").
  change (py "-Infinity") with (45 :: 73 :: py "nfinity").
  rewrite !strip_prefix_neq by congruence.
  destruct Hc as [Hc|(-> & d & s' & -> & Hd)].
  - rewrite strip_prefix_neq; [done|]. intros <-. done.
  - simpl app. rewrite strip_prefix_eq, strip_prefix_neq; [done|]. intros <-. done.
Qed.

(** *** Strings *)
Lemma hex4_control c : c < 32 ->
  hex_digits 4 c = [48; 48; hexdigit (c / 16); hexdigit (c mod 16)] /\
  hex4 48 48 (hexdigit (c / 16)) (hexdigit (c mod 16)) = Some c.
Proof.
  intros Hc. split.
  - cbn [hex_digits]. change (16 ^ N.of_nat 3) with 4096. change (16 ^ N.of_nat 2) with 256.
    change (16 ^ N.of_nat 1) with 16. change (16 ^ N.of_nat 0) with 1.
    rewrite N.div_1_r. replace (c / 4096 mod 16) with 0 by lia.
    replace (c / 256 mod 16) with 0 by lia. replace (c / 16 mod 16) with (c / 16) by lia. done.
  - unfold hex4. rewrite !hexval_digit by lia. simpl. f_equal. lia.
Qed.

Lemma scan_string_char c r :
  scan_string (escape_char c ++ r) = ('(t, rest) ← scan_string r; Some (c :: t, rest)).
Proof.
  unfold escape_char, _SHORT_ESCAPES.
  repeat match goal with
  | |- context [if c =? ?k then _ else _] =>
      destruct (N.eqb_spec c k) as [->|]; [reflexivity|]
  end.
  destruct (c <? 32) eqn:E; bool_to_prop.
  - destruct (hex4_control c E) as [-> Hh]. simpl app. cbn -[hex4]. rewrite Hh. simpl mbind.
    replace ((0xD800 <=? c) && (c <=? 0xDBFF)) with false by (symmetry; decide_N; done).
    do 6 (destruct r as [|? r]; [done|]). done.
  - simpl app. cbn. by decide_N.
Qed.

Lemma scan_string_escaped s r : scan_string (concat (map escape_char s) ++ 34 :: r) = Some (s, r).
Proof.
  induction s as [|c s IH]; [done|]. simpl. rewrite <-app_assoc, scan_string_char, IH. done.
Qed.
End loads_text.

(** *** Items in canonical order *)
Abbreviation item_key := (fun kv => key16 kv.1).

Lemma encode_utf16_be_ok s b : encode_utf16_be s = Ok b -> map b2n b = key16 s.
Proof. unfold encode_utf16_be, key16. intros ->%or_raise_ok. done. Qed.

Lemma key16_inj s1 s2 b1 b2 :
  encode_utf16_be s1 = Ok b1 -> encode_utf16_be s2 = Ok b2 -> key16 s1 = key16 s2 -> s1 = s2.
Proof.
  unfold encode_utf16_be, key16. intros H1%or_raise_ok H2%or_raise_ok.
  rewrite H1, H2. simpl. intros H. apply (inj (map b2n)) in H. subst. by eapply utf16_be_inj.
Qed.

Lemma sort_items_ok {A} (items sorted : list (pystr * A)) :
  sort_items items = Ok sorted <->
  Forall (fun kv => is_ok (encode_utf16_be kv.1) = true) items /\ sorted = sort_by item_key items.
Proof.
  unfold sort_items. rewrite bind_ok. setoid_rewrite mapM_res_ok.
  set (dec := fun kv : pystr * A => (key16 kv.1, kv)).
  assert (forall l : list (pystr * A), map snd (sort_by fst (map dec l)) = sort_by item_key l) as Hs.
  { intros l. rewrite (sort_by_map item_key fst dec) by done. rewrite map_map. by apply map_id. }
  split.
  - intros (ds & Hds & [= <-]). assert (ds = map dec items) as ->.
    { clear -Hds. induction Hds as [|[k v] d items ds H _ IH]; [done|]. inv_ok. simpl. f_equal.
      unfold dec. simpl. f_equal. by apply encode_utf16_be_ok. }
    split; [|done]. clear -Hds.
    induction items as [|kv items IH]; [constructor|].
    inversion Hds as [|? d ? ds' H Hds' Heq]; subst.
    constructor; [|by apply IH]. inv_ok. by rewrite Hs.
  - intros [Hok ->]. exists (map dec items). split; [|by rewrite Hs].
    clear Hs. induction Hok as [|[k v] items H Hok IH]; simpl; [constructor|constructor; [|done]].
    simpl in *. destruct (encode_utf16_be k) as [b|] eqn:E; [|done]. simpl.
    unfold dec. simpl. by rewrite (encode_utf16_be_ok _ _ E).
Qed.

Definition serialize_item (kv : pystr * res pystr) : res pystr :=
  s ← kv.2; Ok (_escape_string kv.1 ++ [58] ++ s).

(** What a serialized object consists of. *)
Lemma serialize_obj_ok kvs s :
  _serialize (JObj kvs) = Ok s <->
  Forall (fun kv => is_ok (encode_utf16_be kv.1) = true) kvs /\
  exists parts,
    Forall2 (fun kv p => exists t, _serialize kv.2 = Ok t /\ p = _escape_string kv.1 ++ [58] ++ t)
      (sort_by item_key kvs) parts /\
    s = [123] ++ join [44] parts ++ [125].
Proof.
  cbn [_serialize].
  set (ser := fun '(k, v) => (k, _serialize v)).
  assert (forall kv, (ser kv).1 = kv.1) as Hser by (by intros []).
  assert (Forall (fun kv => is_ok (encode_utf16_be kv.1) = true) (map ser kvs) <->
          Forall (fun kv => is_ok (encode_utf16_be kv.1) = true) kvs) as Hf.
  { rewrite Forall_map. apply Forall_iff. intros kv. by rewrite Hser. }
  assert (sort_by item_key (map ser kvs) = map ser (sort_by item_key kvs)) as Hsort.
  { apply sort_by_map. intros kv. by rewrite Hser. }
  assert (forall l parts,
    Forall2 (fun x y => (let '(k, v) := x in s ← v; Ok (_escape_string k ++ [58] ++ s)) = Ok y)
      (map ser l) parts <->
    Forall2 (fun kv p => exists t, _serialize kv.2 = Ok t /\ p = _escape_string kv.1 ++ [58] ++ t)
      l parts) as Hp.
  { intros l parts. rewrite Forall2_fmap_l.
    split; intros HF; (eapply Forall2_impl; [exact HF|]); intros [k v] p; simpl;
      rewrite bind_ok; naive_solver. }
  split.
  - intros (items & [Hok ->]%sort_items_ok & (parts & Hparts%mapM_res_ok & [= <-])%bind_ok)%bind_ok.
    split; [by apply Hf|]. exists parts. rewrite Hsort, Hp in Hparts. done.
  - intros [Hok (parts & Hparts & ->)]. apply bind_ok. exists (sort_by item_key (map ser kvs)).
    split; [apply sort_items_ok; by rewrite Hf|]. apply bind_ok. exists parts. split; [|done].
    apply mapM_res_ok. by rewrite Hsort, Hp.
Qed.

Lemma serialize_arr_ok l s :
  _serialize (JArr l) = Ok s <->
  exists parts, Forall2 (fun v p => _serialize v = Ok p) l parts /\
    s = [91] ++ join [44] parts ++ [93].
Proof.
  cbn [_serialize]. rewrite bind_ok. setoid_rewrite mapM_res_ok. naive_solver.
Qed.

Lemma norm_obj kvs :
  norm (JObj kvs) = JObj (map (fun kv => (kv.1, norm kv.2)) (sort_by item_key kvs)).
Proof. cbn [norm]. f_equal. by apply sort_by_map. Qed.

Lemma map_norm_keys (d : dict) : (map (fun kv => (kv.1, norm kv.2)) d).*1 = d.*1.
Proof. induction d as [|kv d IH]; csimpl; [done|]. by rewrite IH. Qed.

(** The first character of a value's text. *)
Lemma serialize_head v s :
  _serialize v = Ok s ->
  exists c s', s = c :: s' /\ is_ws c = false /\ c <> 93 /\ c <> 125.
Proof.
  destruct v; intros H.
  - injection H as <-. by eexists _, _.
  - destruct b; injection H as <-; by eexists _, _.
  - cbn [_serialize] in H. case_match; [|done]. injection H as <-.
    destruct (str_int_head z) as (c & t & -> & Hc). exists c, t. split; [done|].
    destruct Hc as [Hc|[-> _]]; [|done].
    unfold is_digit in Hc. bool_to_prop. unfold is_ws. decide_N. lia.
  - done.
  - injection H as <-. by eexists _, _.
  - apply serialize_arr_ok in H as (? & _ & ->). by eexists _, _.
  - apply serialize_obj_ok in H as (_ & ? & _ & ->). by eexists _, _.
Qed.

Lemma skip_ws_head c s : is_ws c = false -> skip_ws (c :: s) = c :: s.
Proof. intros H. unfold skip_ws. simpl. by rewrite H. Qed.
Lemma skip_ws_delim r : delim r -> skip_ws r = r.
Proof. destruct r; [done|]. by intros [->|[-> | ->]]. Qed.

(** Fuel a value needs: one for each of its values, plus one for each element. *)
Fixpoint jsize (v : json) : nat :=
  match v with
  | JArr l => S (sum_list_with (fun v => S (jsize v)) l)
  | JObj kvs => S (sum_list_with (fun kv => S (jsize kv.2)) kvs)
  | _ => 1
  end.

(** *** The round trip *)
Section round_trip.
Context `{F : FloatText}.
Variable hook : list (pystr * json) -> res json.
(** A hook that accepts objects without repeated keys as they are, as [dict]
    and the duplicate-rejecting hook of [response.decode] do. *)
Hypothesis hook_id : forall kvs, NoDup kvs.*1 -> hook kvs = Ok (JObj kvs).

Let reads_back (v : json) : Prop := forall s fuel r,
  wf_json v -> _serialize v = Ok s -> (jsize v <= fuel)%nat -> delim r ->
  parse_value hook fuel (s ++ r) = Ok (norm v, r).

Lemma expect_head c s : expect c (c :: s) = Ok s.
Proof. simpl. by rewrite N.eqb_refl. Qed.

Lemma parse_elements_S fuel s :
  parse_elements hook (S fuel) s =
  ('(v, r) ← parse_value hook fuel s;
   match skip_ws r with
   | [] => Err json_error
   | c :: r =>
       if c =? 93 then Ok ([v], r)
       else if c =? 44 then
         '(l, rest) ← parse_elements hook fuel (skip_ws r); Ok (v :: l, rest)
       else Err json_error
   end).
Proof. done. Qed.

Lemma parse_members_S fuel s :
  parse_members hook (S fuel) s =
  (r ← expect 34 s;
   '(k, r) ← or_raise (scan_string r) json_error;
   r ← expect 58 (skip_ws r);
   '(v, r) ← parse_value hook fuel (skip_ws r);
   match skip_ws r with
   | [] => Err json_error
   | c :: r =>
       if c =? 125 then Ok ([(k, v)], r)
       else if c =? 44 then
         '(kvs, rest) ← parse_members hook fuel (skip_ws r); Ok ((k, v) :: kvs, rest)
       else Err json_error
   end).
Proof. done. Qed.

Lemma parse_elements_join l parts fuel r :
  Forall2 (fun v p => _serialize v = Ok p) l parts -> l <> [] ->
  Forall reads_back l -> Forall wf_json l ->
  (sum_list_with (fun v => S (jsize v)) l <= fuel)%nat ->
  parse_elements hook fuel (join [44] parts ++ 93 :: r) = Ok (map norm l, r).
Proof.
  intros Hp. revert fuel. induction Hp as [|v p l parts Hv Hp IH]; [done|].
  intros [|fuel] _ Hrb Hwf Hf; [simpl in Hf; lia|].
  inversion Hrb as [|?? Hv_rb Hrb']; inversion Hwf as [|?? Hv_wf Hwf']; subst. simpl in Hf.
  rewrite parse_elements_S. destruct Hp as [|w q l parts Hw Hp].
  - rewrite join_single, Hv_rb by (done || lia || (simpl; auto)). done.
  - rewrite join_cons, <-!app_assoc. rewrite Hv_rb by (done || lia || (simpl; auto)).
    simpl mbind. simpl app.
    destruct (serialize_head _ _ Hw) as (c & t & -> & Hc & _).
    match goal with |- context [skip_ws ?x] => assert (skip_ws x = x) as -> end.
    { destruct parts; rewrite ?join_single, ?join_cons; simpl app; by rewrite skip_ws_head. }
    rewrite IH by (done || lia). done.
Qed.

Lemma parse_members_join (kvs : dict) parts fuel r :
  Forall2 (fun kv p => exists t, _serialize kv.2 = Ok t /\ p = _escape_string kv.1 ++ [58] ++ t)
    kvs parts -> kvs <> [] ->
  Forall (fun kv => reads_back kv.2) kvs -> Forall (fun kv => wf_json kv.2) kvs ->
  (sum_list_with (fun kv => S (jsize kv.2)) kvs <= fuel)%nat ->
  parse_members hook fuel (join [44] parts ++ 125 :: r)
  = Ok (map (fun kv => (kv.1, norm kv.2)) kvs, r).
Proof.
  intros Hp. revert fuel. induction Hp as [|[k v] p l parts (t & Hv & ->) Hp IH]; [done|].
  intros [|fuel] _ Hrb Hwf Hf; [simpl in Hf; lia|].
  inversion Hrb as [|?? Hv_rb Hrb']; inversion Hwf as [|?? Hv_wf Hwf']; subst.
  simpl in Hf, Hv, Hv_rb, Hv_wf. simpl fst.
  assert (forall rest, parse_members hook (S fuel) ((_escape_string k ++ [58] ++ t) ++ rest) =
    ('(v, r) ← parse_value hook fuel (t ++ rest);
     match skip_ws r with
     | [] => Err json_error
     | c :: r =>
         if c =? 125 then Ok ([(k, v)], r)
         else if c =? 44 then
           '(kvs, rest) ← parse_members hook fuel (skip_ws r); Ok ((k, v) :: kvs, rest)
         else Err json_error
     end)) as Hstep.
  { intros rest. rewrite parse_members_S. unfold _escape_string. rewrite <-!app_assoc.
    simpl app. rewrite expect_head. simpl mbind.
    rewrite scan_string_escaped. simpl mbind.
    destruct (serialize_head _ _ Hv) as (c & t' & -> & Hc & _). simpl app.
    by rewrite skip_ws_head. }
  destruct Hp as [|[k' w] q l parts (t' & Hw & ->) Hp].
  - rewrite join_single, Hstep. rewrite Hv_rb by (done || lia || (simpl; auto)). done.
  - rewrite join_cons, <-app_assoc, Hstep.
    rewrite Hv_rb by (done || lia || (simpl; auto)). simpl mbind. simpl app.
    match goal with |- context [skip_ws ?x] => assert (skip_ws x = x) as -> end.
    { destruct parts; rewrite ?join_single, ?join_cons; unfold _escape_string; simpl app;
        by rewrite skip_ws_head. }
    rewrite IH by (done || (simpl in *; lia)). done.
Qed.

Lemma app_head {A} (x : A) l : [x] ++ l = x :: l.
Proof. done. Qed.
Lemma parse_value_arr fuel r :
  parse_value hook (S fuel) (91 :: r) =
  match skip_ws r with
  | [] => Err json_error
  | c1 :: r1 =>
      if c1 =? 93 then Ok (JArr [], r1)
      else '(l, rest) ← parse_elements hook fuel (c1 :: r1); Ok (JArr l, rest)
  end.
Proof. done. Qed.
Lemma parse_value_obj fuel r :
  parse_value hook (S fuel) (123 :: r) =
  match skip_ws r with
  | [] => Err json_error
  | c1 :: r1 =>
      if c1 =? 125 then v ← hook []; Ok (v, r1)
      else '(kvs, rest) ← parse_members hook fuel (c1 :: r1); v ← hook kvs; Ok (v, rest)
  end.
Proof. done. Qed.

Lemma sorted_items_perm {A} (kvs : list (pystr * A)) : sort_by item_key kvs ≡ₚ kvs.
Proof. apply sort_by_perm. Qed.

Lemma parse_value_serialize v s fuel r :
  wf_json v -> _serialize v = Ok s -> (jsize v <= fuel)%nat -> delim r ->
  parse_value hook fuel (s ++ r) = Ok (norm v, r).
Proof.
  revert s fuel r. induction v as [| b | z | f | t | l IH | kvs IH] using json_ind_strong;
    intros s [|fuel] r Hwf Hs Hf Hr; try (simpl in Hf; lia).
  - by injection Hs as <-.
  - by destruct b; injection Hs as <-.
  - cbn [_serialize] in Hs. case_match eqn:Hz; [|done]. injection Hs as <-.
    bool_to_prop. destruct (str_int_head z) as (c & t & E & Hc).
    pose proof (parse_literal_str_int z r) as Hp. rewrite E in *. simpl app in *.
    assert (c <> 34 /\ c <> 123 /\ c <> 91) as (?&?&?).
    { destruct Hc as [Hc|[-> _]]; [unfold is_digit in Hc; bool_to_prop; lia|lia]. }
    simpl. rewrite !(proj2 (N.eqb_neq c _)) by done. by apply Hp.
  - done.
  - injection Hs as <-. unfold _escape_string. rewrite <-!app_assoc. simpl app. simpl.
    by rewrite scan_string_escaped.
  - apply serialize_arr_ok in Hs as (parts & Hp & ->). apply wf_json_arr in Hwf.
    simpl jsize in Hf. rewrite <-!app_assoc. destruct Hp as [|v q l parts Hv Hp]; [done|].
    destruct (serialize_head _ _ Hv) as (c & t & E & Hc & Hne & _).
    pose proof (parse_elements_join (v :: l) (q :: parts) fuel r) as Hj.
    destruct (join [44] (q :: parts) ++ 93 :: r) as [|c' rest] eqn:Ej.
    { by destruct (app_eq_nil _ _ Ej) as [_ ?]. }
    assert (c' = c) as ->.
    { destruct parts; rewrite ?join_single, ?join_cons, E in Ej; simpl in Ej; congruence. }
    rewrite app_head. rewrite parse_value_arr. change ([93] ++ r) with (93 :: r).
    rewrite Ej, skip_ws_head by done. rewrite (proj2 (N.eqb_neq c 93) Hne).
    rewrite Hj by (by auto using List.Forall2_cons || lia). done.
  - apply wf_json_obj in Hwf as [Hnd Hwf].
    apply serialize_obj_ok in Hs as (_ & parts & Hp & ->). rewrite norm_obj.
    simpl jsize in Hf. rewrite <-(sorted_items_perm kvs) in Hnd, Hwf, IH, Hf.
    revert Hp Hnd Hwf IH Hf. generalize (sort_by item_key kvs) as d. clear kvs.
    intros d Hp Hnd Hwf IH Hf. rewrite <-!app_assoc.
    destruct Hp as [|[k v] q d parts (t & Hv & ->) Hp].
    { simpl. by rewrite hook_id by constructor. }
    pose proof (parse_members_join ((k, v) :: d)
      ((_escape_string k ++ [58] ++ t) :: parts) fuel r) as Hj. simpl fst in *.
    destruct (join [44] ((_escape_string k ++ [58] ++ t) :: parts) ++ 125 :: r) as [|c rest] eqn:Ej.
    { by destruct (app_eq_nil _ _ Ej) as [_ ?]. }
    assert (c = 34) as ->.
    { destruct parts; rewrite ?join_single, ?join_cons in Ej; unfold _escape_string in Ej;
        simpl in Ej; congruence. }
    rewrite app_head, parse_value_obj. change ([125] ++ r) with (125 :: r).
    rewrite Ej, skip_ws_head by done. simpl (_ =? _). cbv iota.
    rewrite Hj by (by eauto using List.Forall2_cons || lia). simpl mbind. rewrite hook_id; [done|].
    rewrite <-(map_norm_keys ((k, v) :: d)) in Hnd. done.
Qed.
End round_trip.

(** *** Enough fuel *)
Lemma length_join c parts : parts <> [] ->
  S (length (join [c] parts)) = sum_list_with (fun p => S (length p)) parts.
Proof.
  induction parts as [|p parts IH]; [done|]. intros _. destruct parts as [|q parts].
  - rewrite join_single. simpl. lia.
  - rewrite join_cons, !length_app. simpl. simpl in IH. rewrite <-IH by done. simpl. lia.
Qed.

Lemma item_length k (t : pystr) :
  Nat.le (S (length t)) (length (_escape_string k ++ [58] ++ t)).
Proof. rewrite !length_app. simpl. lia. Qed.

Lemma jsize_length v s : _serialize v = Ok s -> (jsize v <= length s)%nat.
Proof.
  revert s. induction v as [| b | z | f | t | l IH | kvs IH] using json_ind_strong; intros s Hs.
  1-5: destruct (serialize_head _ _ Hs) as (c & s' & -> & _); simpl; lia.
  - apply serialize_arr_ok in Hs as (parts & Hp & ->). simpl jsize.
    assert (sum_list_with (fun v => S (jsize v)) l <= sum_list_with (fun p => S (length p)) parts)%nat.
    { clear -IH Hp. induction Hp as [|v p l parts Hv Hp IHp]; simpl; [lia|].
      inversion IH as [|?? Hv' IH']; subst. specialize (Hv' _ Hv). specialize (IHp IH'). lia. }
    rewrite !length_app. simpl. destruct parts as [|p parts]; [simpl in *; lia|].
    pose proof (length_join 44 (p :: parts)) as Hj. rewrite <-Hj in *; [lia|done].
  - apply serialize_obj_ok in Hs as (_ & parts & Hp & ->). simpl jsize.
    rewrite <-(sorted_items_perm kvs) in IH |- *. revert Hp IH.
    generalize (sort_by item_key kvs) as d. clear kvs. intros d Hp IH.
    assert (sum_list_with (fun kv => S (jsize kv.2)) d <= sum_list_with (fun p => S (length p)) parts)%nat.
    { clear -IH Hp. induction Hp as [|[k v] p l parts (t & Hv & ->) Hp IHp]; cbn [sum_list_with]; [lia|].
      inversion IH as [|?? Hv' IH']; subst. specialize (Hv' _ Hv). specialize (IHp IH').
      simpl snd in *. simpl fst in *. pose proof (item_length k t). lia. }
    rewrite !length_app. simpl. destruct parts as [|p parts]; [simpl in *; lia|].
    pose proof (length_join 44 (p :: parts)) as Hj. rewrite <-Hj in *; [lia|done].
Qed.

(** [json.loads] reads canonical text back to the value, keys sorted. *)
Lemma loads_hook_serialize `{F : FloatText} hook v s :
  (forall kvs, NoDup kvs.*1 -> hook kvs = Ok (JObj kvs)) ->
  wf_json v -> _serialize v = Ok s -> loads_hook hook s = Ok (norm v).
Proof.
  intros Hhook Hwf Hs. unfold loads_hook. pose proof (jsize_length _ _ Hs) as Hsize.
  destruct (serialize_head _ _ Hs) as (c & t & E & Hc & _).
  assert (skip_ws s = s) as -> by (rewrite E; by apply skip_ws_head).
  rewrite <-(app_nil_r s) at 2.
  rewrite (parse_value_serialize hook Hhook v s (S (length s)) []) by (done || lia). done.
Qed.

Lemma loads_serialize `{F : FloatText} v s :
  wf_json v -> _serialize v = Ok s -> loads s = Ok (norm v).
Proof.
  intros. apply loads_hook_serialize; [|done..]. intros kvs Hnd. by rewrite dict_of_pairs_id.
Qed.

(** ** Canonical bytes and values *)
Lemma canonicalize_ok v b :
  canonicalize v = Ok b <-> exists s, _serialize v = Ok s /\ utf8_encode s = Some b.
Proof.
  unfold canonicalize, encode_utf8. rewrite bind_ok.
  split; intros (s & Hs & H); exists s; (split; [done|]).
  - by apply or_raise_ok in H.
  - by apply or_raise_ok.
Qed.

Lemma canonicalize_norm_inj v w b :
  wf_json v -> wf_json w -> canonicalize v = Ok b -> canonicalize w = Ok b -> norm v = norm w.
Proof.
  intros Hv Hw (s & Hs & Eb)%canonicalize_ok (t & Ht & Eb')%canonicalize_ok.
  assert (s = t) as <- by (by eapply utf8_encode_inj).
  pose (F := {| float_repr := fun s => s |}).
  apply (loads_serialize (F := F)) in Hs; [|done]. apply (loads_serialize (F := F)) in Ht; [|done].
  congruence.
Qed.

(** Equal normal forms are the same value up to key order. *)
Lemma norm_eq_equiv v w : norm v = norm w -> json_equiv v w.
Proof.
  revert w. induction v as [| b | z | f | t | l IH | kvs IH] using json_ind_strong; intros w Hw.
  1-5: destruct w; try discriminate Hw; simpl in Hw; simplify_eq; constructor.
  - destruct w as [| | | | |k|]; try discriminate Hw. injection Hw as Hw. constructor.
    revert k Hw. induction IH as [|v l Hv IH IHl]; intros [|w k]; try done.
    simpl. intros [= Hv' Hl]. constructor; auto.
  - destruct w as [| | | | | |e]; try discriminate Hw. cbn [norm] in Hw. injection Hw as Hw.
    set (f := fun kv : pystr * json => (kv.1, norm kv.2)) in *.
    assert (map f kvs ≡ₚ map f e) as Hperm.
    { rewrite <-(sort_by_perm item_key (map f kvs)), Hw. apply sort_by_perm. }
    apply Permutation_map_inv in Hperm as (e' & He & Hp).
    apply eq_obj with e'; [|by symmetry]. clear Hw Hp e.
    revert e' He. induction IH as [|[k v] l Hv IH IHl]; intros [|[k' w] e']; try done.
    simpl. intros [= -> Hv' Hl]. constructor; [split; [done|by apply Hv]|auto].
Qed.


(** Rows of two dicts that hold the same key and equal values. *)
Definition same_item (x y : pystr * json) : Prop := x.1 = y.1 /\ json_equiv x.2 y.2.

Lemma same_items_keys d e : Forall2 same_item d e -> d.*1 = e.*1.
Proof. induction 1 as [|x y d e [? _] _ IHe]; csimpl; congruence. Qed.

Lemma sorted_by_keys {A B} (d : list (pystr * A)) (e : list (pystr * B)) :
  d.*1 = e.*1 -> StronglySorted (key_le item_key) d -> StronglySorted (key_le item_key) e.
Proof.
  intros H Hd. revert e H. induction Hd as [|x d Hd IH Hx]; intros [|y e]; csimpl; try done.
  { constructor. }
  intros [= Hxy H]. constructor; [by apply IH|]. clear IH Hd.
  revert e H. induction Hx as [|z d Hz Hx IH]; intros [|z' e]; csimpl; try done.
  intros [= Hz' H]. constructor; [|by apply IH]. unfold key_le in *. congruence.
Qed.

Definition encodable_keys {A} (d : list (pystr * A)) : Prop :=
  Forall (fun kv => is_ok (encode_utf16_be kv.1) = true) d.

Lemma encodable_keys_fst {A B} (d : list (pystr * A)) (e : list (pystr * B)) :
  d.*1 = e.*1 -> encodable_keys d -> encodable_keys e.
Proof.
  intros H Hd. revert e H. induction Hd as [|x d Hx Hd IH]; intros [|y e]; csimpl; try done.
  { constructor. }
  intros [= Hk H]. constructor; [by rewrite <-Hk|by apply IH].
Qed.

(** Sorting a dict with distinct encodable keys has one outcome. *)
Lemma sorted_items_unique {A} (d e : list (pystr * A)) :
  NoDup e.*1 -> encodable_keys e -> StronglySorted (key_le item_key) d -> d ≡ₚ e ->
  d = sort_by item_key e.
Proof.
  intros Hnd Henc Hd Hp.
  apply (StronglySorted_unique_strong (key_le item_key)); [|done|apply sort_by_sorted|].
  - intros [k1 v1] [k2 v2] H1 H2 H12 H21. rewrite Hp in H1. rewrite sort_by_perm in H2.
    assert (k1 = k2) as <-.
    { pose proof (proj1 (Forall_forall _ _) Henc _ H1) as E1.
      pose proof (proj1 (Forall_forall _ _) Henc _ H2) as E2. simpl in E1, E2.
      destruct (encode_utf16_be k1) eqn:?, (encode_utf16_be k2) eqn:?; try done.
      eapply key16_inj; [done|done|]. by apply lex_leb_antisym. }
    f_equal. clear -Hnd H1 H2. induction e as [|[k v] e IH]; [by apply not_elem_of_nil in H1|].
    csimpl in Hnd. apply NoDup_cons in Hnd as [Hk Hnd].
    assert (forall w, (k, w) ∈ e -> False) as Hno.
    { intros w Hw. apply Hk. apply list_elem_of_fmap. by exists (k, w). }
    apply elem_of_cons in H1 as [H1|H1], H2 as [H2|H2]; simplify_eq; naive_solver.
  - by rewrite sort_by_perm.
Qed.

(** Values equal up to key order have the same text. *)
Lemma serialize_equiv v w s :
  json_equiv v w -> wf_json v -> _serialize v = Ok s -> _serialize w = Ok s.
Proof.
  revert w s. induction v as [| b | z | f | t | l IH | kvs IH] using json_ind_strong;
    intros w s Hvw Hwf Hs; inversion Hvw as [|? k Hlk|? e e' He Hp]; subst; try done.
  - apply serialize_arr_ok in Hs as (parts & Hp & ->). apply serialize_arr_ok.
    exists parts. split; [|done]. apply wf_json_arr in Hwf. clear Hvw.
    revert parts Hp. induction Hlk as [|x y l k Hxy Hlk IHlk]; intros parts Hp.
    + by inversion Hp.
    + inversion Hp as [|? p ? parts' Hx Hp']; subst.
      inversion IH as [|?? IHx IHl]; inversion Hwf as [|?? Hx_wf Hl_wf]; subst.
      constructor; [by eapply IHx|auto].
  - apply wf_json_obj in Hwf as [Hnd Hwf].
    apply serialize_obj_ok in Hs as (Henc & parts & Hparts & ->). apply serialize_obj_ok.
    fold (encodable_keys kvs) in Henc. pose proof (same_items_keys _ _ He) as Hkeys.
    pose proof (encodable_keys_fst _ _ Hkeys Henc) as Henc'.
    split; [by rewrite <-Hp|]. exists parts. split; [|done].
    destruct (Permutation_Forall2 (symmetry (sort_by_perm item_key kvs)) He) as (e1 & Hp1 & He1).
    assert (e1 = sort_by item_key e) as <-.
    { apply sorted_items_unique.
      - rewrite <-Hp, <-Hkeys. done.
      - unfold encodable_keys. by rewrite <-Hp.
      - eapply sorted_by_keys; [by apply same_items_keys|apply sort_by_sorted].
      - by rewrite <-Hp1. }
    rewrite <-(sort_by_perm item_key kvs) in IH, Hwf. clear -IH Hwf Hparts He1.
    revert parts Hparts. induction He1 as [|x y d e [Hk Hv] He IHe]; intros parts Hparts.
    + by inversion Hparts.
    + inversion Hparts as [|? p ? parts' (t & Ht & ->) Hp']; subst.
      inversion IH as [|?? IHx IHl]; inversion Hwf as [|?? Hx_wf Hl_wf]; subst.
      constructor; [|auto]. exists t. rewrite Hk. split; [by eapply IHx|done].
Qed.

Lemma canonicalize_equiv v w b :
  json_equiv v w -> wf_json v -> canonicalize v = Ok b -> canonicalize w = Ok b.
Proof.
  intros He Hwf (s & Hs & Hb)%canonicalize_ok. apply canonicalize_ok.
  exists s. split; [by eapply serialize_equiv|done].
Qed.

(** ** Canonical bytes of the runtime's flat objects

    Every signed or hashed object of the runtime is an object whose values hold
    no further object, so its canonical bytes determine each of its fields. *)
Fixpoint is_flat (v : json) : bool :=
  match v with
  | JArr l => forallb is_flat l
  | JObj _ => false
  | _ => true
  end.
Definition flat_dict (d : dict) : Prop :=
  NoDup d.*1 /\ forallb (fun kv => is_flat kv.2) d = true.

Lemma is_flat_wf v : is_flat v = true -> wf_json v.
Proof.
  induction v as [| | | | |l IH|] using json_ind_strong; try done. simpl is_flat. intros Hl.
  apply wf_json_arr. rewrite forallb_forall in Hl. rewrite Forall_forall in IH |- *.
  intros x Hx. apply IH; [done|]. apply Hl. by apply list_elem_of_In.
Qed.

Lemma flat_dict_wf d : flat_dict d -> wf_json (JObj d).
Proof.
  intros [Hnd Hfl]. apply wf_json_obj. split; [done|]. apply Forall_forall. intros kv Hkv.
  rewrite forallb_forall in Hfl. apply is_flat_wf, Hfl. by apply list_elem_of_In.
Qed.

Lemma json_equiv_flat v w : is_flat v = true -> json_equiv v w -> w = v.
Proof.
  revert w. induction v as [| | | | |l IH|] using json_ind_strong; intros w Hf Hw;
    inversion Hw as [|? k Hlk|]; subst; try done.
  f_equal. clear Hw. simpl in Hf. revert Hf. induction Hlk as [|x y l k Hxy Hlk IHl]; [done|].
  simpl. intros [Hx Hl]%andb_true_iff. inversion IH as [|?? IHx IHl']; subst.
  f_equal; [by apply IHx|by apply IHl].
Qed.

Lemma same_items_dget d e k :
  Forall2 same_item d e ->
  match dget k d, dget k e with
  | Some v, Some w => json_equiv v w
  | None, None => True
  | _, _ => False
  end.
Proof.
  induction 1 as [|[k1 v1] [k2 v2] d e [Hk Hv] _ IH]; simpl; [done|]. simpl in Hk, Hv. subst k2.
  by case_bool_decide.
Qed.

Lemma canonical_flat_lookup d e b :
  flat_dict d -> flat_dict e ->
  canonicalize (JObj d) = Ok b -> canonicalize (JObj e) = Ok b ->
  forall k, dget k d = dget k e.
Proof.
  intros Hd He Hb Hb' k.
  assert (json_equiv (JObj d) (JObj e)) as Heq.
  { apply norm_eq_equiv. eapply canonicalize_norm_inj; eauto using flat_dict_wf. }
  inversion Heq as [| |? ? e' Hde Hp]; subst; [done|].
  rewrite <-(dget_perm k e' e); [|rewrite Hp; apply He|done].
  pose proof (same_items_dget _ _ k Hde) as Hk.
  destruct (dget k d) as [v|] eqn:Ev, (dget k e') as [w|]; try done. f_equal. symmetry.
  apply json_equiv_flat; [|done]. destruct Hd as [_ Hfl]. rewrite forallb_forall in Hfl.
  apply dget_Some_elem in Ev. apply (Hfl (k, v)). by apply list_elem_of_In.
Qed.

(** Key sets of literal dicts are decided by evaluation. *)
Ltac solve_flat :=
  split; [apply (bool_decide_unpack _); vm_compute; exact I | vm_compute; reflexivity].

Lemma is_flat_strs l : forallb is_flat (map JStr l) = true.
Proof. by induction l. Qed.

(** ** What does not encode

    Without floats, the only failure is a ValueError: an integer outside the
    safe range, or a surrogate. *)
Fixpoint no_float (v : json) : bool :=
  match v with
  | JFloat _ => false
  | JArr l => forallb no_float l
  | JObj kvs => forallb (fun kv => no_float kv.2) kvs
  | _ => true
  end.

(** Only a TypeError, for a float, or a ValueError. *)
Definition py_exception (e : exn) : Prop := is_py TypeError e = true \/ is_value_error e = true.

Lemma serialize_error v e :
  _serialize v = Err e -> py_exception e /\ (no_float v = true -> is_value_error e = true).
Proof.
  revert e. induction v as [| b | z | f | t | l IH | kvs IH] using json_ind_strong;
    intros e He; try done.
  - by destruct b.
  - cbn [_serialize] in He. case_match; [done|]. injection He as <-. split; [first [left; reflexivity|right; reflexivity]|done].
  - injection He as <-. split; [first [left; reflexivity|right; reflexivity]|done].
  - cbn [_serialize] in He. apply bind_err in He as [He|(? & _ & [=])].
    apply mapM_res_err in He as (x & Hx & He). rewrite Forall_forall in IH.
    destruct (IH x Hx e He) as [Hp Hv]. split; [done|]. intros Hnf. apply Hv.
    simpl in Hnf. rewrite forallb_forall in Hnf. apply Hnf. by apply list_elem_of_In.
  - cbn [_serialize] in He. apply bind_err in He as [He|(items & Hitems & He)].
    + unfold sort_items in He. apply bind_err in He as [He|(? & _ & [=])].
      apply mapM_res_err in He as (x & _ & He). apply bind_err in He as [He|(? & _ & [=])].
      unfold encode_utf16_be in He. apply or_raise_err in He as [_ ->]. split; [first [left; reflexivity|right; reflexivity]|done].
    + apply bind_err in He as [He|(? & _ & [=])].
      apply mapM_res_err in He as ([k r] & Hx & He). apply bind_err in He as [->|(? & _ & [=])].
      apply sort_items_ok in Hitems as [_ ->]. rewrite sort_by_perm in Hx.
      apply list_elem_of_In, in_map_iff in Hx as ([k' v] & [= <- Hv] & Hin).
      apply list_elem_of_In in Hin. rewrite Forall_forall in IH.
      destruct (IH (k', v) Hin e Hv) as [Hp Hve]. split; [done|]. intros Hnf. apply Hve.
      simpl in Hnf. rewrite forallb_forall in Hnf. apply (Hnf (k', v)). by apply list_elem_of_In.
Qed.

Lemma canonicalize_error v e :
  canonicalize v = Err e -> py_exception e /\ (no_float v = true -> is_value_error e = true).
Proof.
  intros He. unfold canonicalize in He. apply bind_err in He as [He|(s & _ & He)].
  - by apply serialize_error.
  - unfold encode_utf8 in He. apply or_raise_err in He as [_ ->]. split; [first [left; reflexivity|right; reflexivity]|done].
Qed.
Lemma canonicalize_value_error v e :
  no_float v = true -> canonicalize v = Err e -> is_value_error e = true.
Proof. intros Hnf He. by apply (canonicalize_error v e). Qed.
Lemma canonicalize_error_kind v e : canonicalize v = Err e -> py_exception e.
Proof. intros H. by apply canonicalize_error in H as [? _]. Qed.
Lemma recordless_canonicalize v : recordless (canonicalize v).
Proof. intros e [H _]%canonicalize_error. by destruct e; [destruct H|]. Qed.
Lemma recordless_encode_utf8 s : recordless (encode_utf8 s).
Proof. by apply recordless_or_raise. Qed.
#[export] Hint Resolve recordless_canonicalize recordless_encode_utf8 : recordless.

Lemma no_float_strs l : forallb no_float (map JStr l) = true.
Proof. by induction l. Qed.

(** ** The domain *)

(** The values that canonicalize: integers of the safe range, text without
    surrogates, no floats, anywhere. *)
Fixpoint in_domain (v : json) : bool :=
  match v with
  | JNull | JBool _ => true
  | JInt z => (- _MAX_SAFE_INTEGER <=? z)%Z && (z <=? _MAX_SAFE_INTEGER)%Z
  | JFloat _ => false
  | JStr s => scalars s
  | JArr l => forallb in_domain l
  | JObj kvs => forallb (fun kv => scalars kv.1 && in_domain kv.2) kvs
  end.

Lemma scalars_hex_digits w n : scalars (hex_digits w n) = true.
Proof.
  induction w as [|w IH]; [done|]. cbn [hex_digits].
  rewrite scalars_cons, IH, andb_true_r. apply scalar_spec. left.
  pose proof (N.mod_lt (n / 16 ^ N.of_nat w) 16 ltac:(lia)).
  unfold hexdigit. case_match; bool_to_prop; lia.
Qed.

Lemma scalars_escape_char c : scalars (escape_char c) = scalar c.
Proof.
  unfold escape_char, _SHORT_ESCAPES.
  repeat case_match; bool_to_prop; subst; try done; simplify_eq; try done.
  - rewrite scalars_app, scalars_hex_digits. symmetry. apply scalar_spec. lia.
  - unfold scalars. simpl. by rewrite andb_true_r.
Qed.

Lemma scalars_escape s : scalars (_escape_string s) = scalars s.
Proof.
  unfold _escape_string. rewrite !scalars_app. simpl. rewrite andb_true_r.
  induction s as [|c s IH]; [done|]. simpl. by rewrite scalars_app, scalars_escape_char, IH.
Qed.

Lemma scalars_digits s : Forall (fun c => is_digit c = true) s -> scalars s = true.
Proof.
  unfold scalars. induction 1 as [|c s Hc _ IH]; [done|]. simpl. rewrite IH, andb_true_r.
  unfold is_digit in Hc. bool_to_prop. apply scalar_spec. lia.
Qed.
Lemma scalars_str_int z : scalars (str_int z) = true.
Proof.
  unfold str_int. case_match; [rewrite scalars_cons; simpl|]; apply scalars_digits, str_N_digits.
Qed.

(** [v] serializes to encodable text. *)
Definition encodes (v : json) : Prop := exists s, _serialize v = Ok s /\ scalars s = true.

Lemma encodes_int z : encodes (JInt z) <-> in_domain (JInt z) = true.
Proof.
  unfold encodes. cbn [_serialize in_domain]. destruct (_ && _) eqn:E.
  - split; [done|]. intros _. eexists. split; [done|]. apply scalars_str_int.
  - split; [by intros (? & ? & _)|done].
Qed.

Lemma encodes_arr l : encodes (JArr l) <-> Forall encodes l.
Proof.
  unfold encodes. split.
  - intros (s & Hs & Hsc). apply serialize_arr_ok in Hs as (parts & Hp & ->).
    rewrite !scalars_app in Hsc. simpl in Hsc. rewrite andb_true_r in Hsc.
    apply scalars_join in Hsc; [|done].
    revert Hsc. induction Hp as [|v p l parts Hv _ IH]; [constructor|].
    rewrite Forall_cons. intros [? ?]. constructor; eauto.
  - intros H. assert (exists parts, Forall2 (fun v p => _serialize v = Ok p) l parts /\
      Forall (fun s => scalars s = true) parts) as (parts & Hp & Hsc).
    { induction H as [|v l (s & ? & ?) _ (parts & ? & ?)]; [by exists []|].
      exists (s :: parts). by split; constructor. }
    eexists. split; [apply serialize_arr_ok; by exists parts|].
    rewrite !scalars_app. simpl. rewrite andb_true_r. by apply scalars_join.
Qed.

Lemma encodes_obj kvs :
  encodes (JObj kvs) <-> Forall (fun kv => scalars kv.1 = true /\ encodes kv.2) kvs.
Proof.
  unfold encodes. split.
  - intros (s & Hs & Hsc). apply serialize_obj_ok in Hs as (_ & parts & Hp & ->).
    rewrite !scalars_app in Hsc. simpl in Hsc. rewrite andb_true_r in Hsc.
    apply scalars_join in Hsc; [|done]. rewrite <-(sort_by_perm item_key kvs).
    revert Hsc. induction Hp as [|kv p l parts (t & Ht & ->) _ IH]; [constructor|].
    rewrite Forall_cons. intros [Hp ?]. rewrite !scalars_app, scalars_escape in Hp.
    apply andb_true_iff in Hp as [? Hp]. simpl in Hp. constructor; eauto.
  - intros H. assert (exists parts,
      Forall2 (fun kv p => exists t, _serialize kv.2 = Ok t /\ p = _escape_string kv.1 ++ [58] ++ t)
        (sort_by item_key kvs) parts /\ Forall (fun s => scalars s = true) parts)
      as (parts & Hp & Hsc).
    { rewrite <-(sort_by_perm item_key kvs) in H.
      induction H as [|kv l [Hk (s & ? & ?)] _ (parts & ? & ?)]; [by exists []|].
      exists ((_escape_string kv.1 ++ [58] ++ s) :: parts). split; constructor; eauto.
      by rewrite !scalars_app, scalars_escape, Hk. }
    eexists. split.
    + apply serialize_obj_ok. split; [|by exists parts].
      eapply Forall_impl; [exact H|]. intros kv [Hk _]. unfold encode_utf16_be.
      by destruct (proj2 (utf16_be_scalars _) Hk) as [b ->].
    + rewrite !scalars_app. simpl. rewrite andb_true_r. by apply scalars_join.
Qed.

Lemma encodes_in_domain v : encodes v <-> in_domain v = true.
Proof.
  induction v as [|b|z|f|t|l IH|kvs IH] using json_ind_strong.
  - split; [done|]. intros _. by eexists.
  - split; [done|]. intros _. destruct b; by eexists.
  - apply encodes_int.
  - split; [by intros (? & ? & _)|done].
  - unfold encodes. cbn [_serialize in_domain]. rewrite <-scalars_escape.
    split; [by intros (? & [= <-] & ?)|eauto].
  - rewrite encodes_arr. cbn [in_domain]. induction IH as [|v l Hv _ IHl]; [by split|].
    rewrite Forall_cons, IHl, Hv. simpl. by rewrite andb_true_iff.
  - rewrite encodes_obj. cbn [in_domain]. induction IH as [|v l Hv _ IHl]; [by split|].
    rewrite Forall_cons, IHl, Hv. simpl. by rewrite !andb_true_iff.
Qed.

Lemma canonicalize_in_domain v : (exists b, canonicalize v = Ok b) <-> in_domain v = true.
Proof.
  rewrite <-encodes_in_domain. unfold encodes. split.
  - intros (b & (s & Hs & Hb)%canonicalize_ok). exists s. split; [done|].
    apply utf8_encode_scalars. by eexists.
  - intros (s & Hs & [b Hb]%utf8_encode_scalars). exists b. apply canonicalize_ok. by exists s.
Qed.

Lemma json_equiv_norm v : json_equiv v (norm v).
Proof.
  induction v as [|b|z|f|t|l IH|kvs IH] using json_ind_strong; try apply eq_refl_j.
  - cbn [norm]. apply eq_arr. induction IH; constructor; auto.
  - cbn [norm]. apply eq_obj with (map (fun kv => (kv.1, norm kv.2)) kvs).
    + induction IH; constructor; auto.
    + symmetry. apply sort_by_perm.
Qed.

Lemma norm_wf v : wf_json v -> wf_json (norm v).
Proof.
  induction v as [|b|z|f|t|l IH|kvs IH] using json_ind_strong; try done.
  - cbn [norm]. rewrite !wf_json_arr, Forall_map. intros H.
    induction H; inversion IH; subst; constructor; auto.
  - rewrite norm_obj, !wf_json_obj. intros [Hnd Hf]. split; [by rewrite map_norm_keys, sort_by_perm|].
    rewrite Forall_map, sort_by_perm. clear Hnd.
    induction Hf; inversion IH; subst; constructor; auto.
Qed.

(** ** Properties *)

(** C22: canonicalization is lossless: two values have the same canonical bytes
    exactly when they are the same JSON value up to the order of object keys. *)
Theorem canonicalize_lossless v w b
    (Hv : wf_json v) (Hw : wf_json w) (Hb : canonicalize v = Ok b) :
  canonicalize w = Ok b <-> json_equiv v w.
Proof.
  split; intros H; [|by eapply canonicalize_equiv].
  eapply norm_eq_equiv, canonicalize_norm_inj; eauto.
Qed.

(** [canonicalize] and [json.loads] are inverse: the bytes decode to the value
    with its keys in canonical order, and that value has the same bytes. *)
Theorem canonicalize_loads `{F : FloatText} v b (Hv : wf_json v) (Hb : canonicalize v = Ok b) :
  exists s, utf8_decode b = Some s /\ loads s = Ok (norm v) /\ canonicalize (norm v) = Ok b.
Proof.
  pose proof Hb as (s & Hs & Hu)%canonicalize_ok. exists s. split_and!.
  - by apply utf8_decode_encode.
  - by apply loads_serialize.
  - by apply (canonicalize_equiv v); [apply json_equiv_norm| |].
Qed.

(** [canonicalize] encodes exactly the values of its domain: every integer
    within +/-(2^53 - 1), no float, and no surrogate in any string or key. *)
Theorem canonicalize_domain v : is_ok (canonicalize v) = in_domain v.
Proof.
  apply eq_true_iff_eq. rewrite <-canonicalize_in_domain.
  destruct (canonicalize v); simpl; split; [eauto|done|done|by intros (? & ?)].
Qed.

(** A value and a reordering of it. *)
Module CanonicalExample.
Definition one : json :=
  JObj [(py "b", JArr [JInt (-5); JBool true; JNull]); (py "a", JStr [120; 10; 0x20AC])].
Definition two : json :=
  JObj [(py "a", JStr [120; 10; 0x20AC]); (py "b", JArr [JInt (-5); JBool true; JNull])].
Definition bytes_of_one : bytes := get_ok [] (canonicalize one).
Lemma one_wf : wf_json one.
Proof. apply flat_dict_wf. solve_flat. Qed.
Lemma two_wf : wf_json two.
Proof. apply flat_dict_wf. solve_flat. Qed.
Lemma one_bytes : canonicalize one = Ok bytes_of_one.
Proof. vm_compute. reflexivity. Qed.
Lemma canonicalize_lossless_witness : canonicalize two = Ok bytes_of_one /\ json_equiv one two.
Proof.
  assert (canonicalize two = Ok bytes_of_one) as H by (vm_compute; reflexivity).
  split; [exact H|]. apply (canonicalize_lossless one two bytes_of_one one_wf two_wf one_bytes).
  exact H.
Defined.

#[local] Instance plain_floats : FloatText := {| float_repr := fun s => s |}.
Lemma canonicalize_loads_witness :
  exists s, utf8_decode bytes_of_one = Some s /\ loads s = Ok (norm one).
Proof.
  destruct (canonicalize_loads one bytes_of_one one_wf one_bytes) as (s & H1 & H2 & _).
  exists s. split; [exact H1|exact H2].
Defined.
End CanonicalExample.
