(* ===== verification/Dumps.v ===== *)
(** * [json.dumps] and [json.loads] on bytes

    The standard library's writer with its default arguments (ASCII output, ", " and
    ": " separators, keys in insertion order), the encoding detection [json.loads]
    applies to bytes, and the round trip between the two. *)
From S2P Require Export Canonical.
#[local] Open Scope N_scope.
#[local] Transparent py.

(** ** The writer *)

(** [ensure_ascii]: a short escape, printable ASCII as it is, or the UTF-16 units. *)
Definition u_escape (u : N) : pystr := 92 :: 117 :: hex_digits 4 u.
Definition escape_ascii (c : N) : pystr :=
  if c =? 34 then [92; 34] else if c =? 92 then [92; 92]
  else if c =? 10 then [92; 110] else if c =? 13 then [92; 114] else if c =? 9 then [92; 116]
  else if c =? 12 then [92; 102] else if c =? 8 then [92; 98]
  else if (32 <=? c) && (c <=? 126) then [c]
  else if c <? 0x10000 then u_escape c
  else let v := c - 0x10000 in u_escape (0xD800 + v / 1024) ++ u_escape (0xDC00 + v mod 1024).
Definition dumps_string (s : pystr) : pystr := [34] ++ concat (map escape_ascii s) ++ [34].

Definition dumps_float (r : pystr) : pystr :=
  if bool_decide (r = py "nan") then py "NaN"
  else if bool_decide (r = py "inf") then py "Infinity"
  else if bool_decide (r = py "-inf") then py "-Infinity" else r.

(** [json.dumps(v)]; an integer of more than 4300 digits has no text. *)
Fixpoint dumps (v : json) : res pystr :=
  match v with
  | JNull => Ok (py "null")
  | JBool b => Ok (if b then py "true" else py "false")
  | JInt z =>
      raise_if (Nat.ltb int_max_str_digits (length (str_N (Z.abs_N z)))) int_limit_error;;
      Ok (str_int z)
  | JFloat r => Ok (dumps_float r)
  | JStr s => Ok (dumps_string s)
  | JArr l => parts ← mapM_res dumps l; Ok ([91] ++ join [44; 32] parts ++ [93])
  | JObj kvs =>
      parts ← mapM_res (fun kv => p ← dumps kv.2; Ok (dumps_string kv.1 ++ [58; 32] ++ p)) kvs;
      Ok ([123] ++ join [44; 32] parts ++ [125])
  end.

(** [json.dumps(v).encode("utf-8")] *)
Definition dumps_bytes (v : json) : res bytes := text ← dumps v; encode_utf8 text.

(** ** The reader on bytes *)
Inductive json_encoding := Utf8 | Utf8Sig | Utf16 (big : bool) (bom : bool) | Utf32 (big : bool) (bom : bool).

Definition zero (b : byte) : bool := b2n b =? 0.
(** [json.detect_encoding(b)]: a byte order mark, or the zeros of the first bytes. *)
Definition startswith (p b : bytes) : bool := bool_decide (take (length p) b = p).
Definition detect_encoding (b : bytes) : json_encoding :=
  if startswith [x00; x00; xfe; xff] b then Utf32 true true
  else if startswith [xff; xfe; x00; x00] b then Utf32 false true
  else if startswith [xfe; xff] b then Utf16 true true
  else if startswith [xff; xfe] b then Utf16 false true
  else if startswith [xef; xbb; xbf] b then Utf8Sig
  else
    match b with
    | b0 :: b1 :: b2 :: b3 :: _ =>
        if zero b0 then (if zero b1 then Utf32 true false else Utf16 true false)
        else if zero b1 then (if zero b2 && zero b3 then Utf32 false false else Utf16 false false)
        else Utf8
    | [b0; b1] =>
        if zero b0 then Utf16 true false else if zero b1 then Utf16 false false else Utf8
    | _ => Utf8
    end.

(** Code units, whole ones only. *)
Fixpoint units16 (big : bool) (bs : bytes) : option (list N) :=
  match bs with
  | [] => Some []
  | a :: b :: bs =>
      us ← units16 big bs;
      Some ((if big then b2n a * 256 + b2n b else b2n b * 256 + b2n a) :: us)
  | _ => None
  end.
Fixpoint units32 (big : bool) (bs : bytes) : option (list N) :=
  match bs with
  | [] => Some []
  | a :: b :: c :: d :: bs =>
      us ← units32 big bs;
      Some ((if big then ((b2n a * 256 + b2n b) * 256 + b2n c) * 256 + b2n d
             else ((b2n d * 256 + b2n c) * 256 + b2n b) * 256 + b2n a) :: us)
  | _ => None
  end.
(** Surrogate pairs joined, lone surrogates passed. *)
Fixpoint join_surrogates (us : list N) : pystr :=
  match us with
  | u :: ((w :: us) as rest) =>
      if (0xD800 <=? u) && (u <=? 0xDBFF) && (0xDC00 <=? w) && (w <=? 0xDFFF)
      then (0x10000 + (u - 0xD800) * 1024 + (w - 0xDC00)) :: join_surrogates us
      else u :: join_surrogates rest
  | us => us
  end.

(** [b.decode(detect_encoding(b), "surrogatepass")] *)
Definition decode_json_bytes (b : bytes) : option pystr :=
  match detect_encoding b with
  | Utf8 => utf8_decode_with true b
  | Utf8Sig => utf8_decode_with true (drop 3 b)
  | Utf16 big bom => join_surrogates <$> units16 big (if bom then drop 2 b else b)
  | Utf32 big bom =>
      us ← units32 big (if bom then drop 4 b else b);
      if forallb (fun c => c <? 0x110000) us then Some us else None
  end.

(** [json.loads(b)] *)
Definition loads_bytes `{F : FloatText} (b : bytes) : res json :=
  text ← or_raise (decode_json_bytes b) (PyExc UnicodeDecodeError (py "cannot decode JSON bytes"));
  loads text.

(** ** Round trip *)
Lemma hex4_digits u : u < 0x10000 ->
  exists a b c d, hex_digits 4 u = [a; b; c; d] /\ hex4 a b c d = Some u.
Proof.
  intros Hu. do 4 eexists. split; [cbn [hex_digits]; reflexivity|].
  change (16 ^ N.of_nat 3) with 4096. change (16 ^ N.of_nat 2) with 256.
  change (16 ^ N.of_nat 1) with 16. change (16 ^ N.of_nat 0) with 1.
  unfold hex4. rewrite !hexval_digit by (apply N.mod_lt; lia). cbn. f_equal. lia.
Qed.

Lemma scan_u_escape u r :
  u < 0x10000 -> ~ (0xD800 <= u <= 0xDBFF) ->
  scan_string (u_escape u ++ r) = ('(t, rest) ← scan_string r; Some (u :: t, rest)).
Proof.
  intros Hu Hs. unfold u_escape. destruct (hex4_digits u Hu) as (a & b & c & d & -> & Hh).
  simpl app. cbn -[hex4]. rewrite Hh. simpl mbind.
  replace ((0xD800 <=? u) && (u <=? 0xDBFF)) with false
    by (symmetry; apply andb_false_iff; rewrite !N.leb_gt; lia).
  do 6 (destruct r as [|? r]; [done|]). done.
Qed.

Lemma scan_surrogates v r :
  v < 0x100000 ->
  scan_string (u_escape (0xD800 + v / 1024) ++ u_escape (0xDC00 + v mod 1024) ++ r) =
  ('(t, rest) ← scan_string r; Some ((0x10000 + v) :: t, rest)).
Proof.
  intros Hv. unfold u_escape.
  destruct (hex4_digits (0xD800 + v / 1024) ltac:(lia)) as (a & b & c & d & -> & Hh).
  destruct (hex4_digits (0xDC00 + v mod 1024) ltac:(lia)) as (a' & b' & c' & d' & -> & Hl).
  simpl app. cbn -[hex4]. rewrite Hh. simpl mbind. rewrite Hl. simpl mbind.
  decide_N. cbn [andb]. destruct (scan_string r) as [[t rest]|]; [|done]. simpl. do 3 f_equal. lia.
Qed.

Lemma scan_escape_ascii c r :
  scalar c = true ->
  scan_string (escape_ascii c ++ r) = ('(t, rest) ← scan_string r; Some (c :: t, rest)).
Proof.
  intros Hc%scalar_spec. unfold escape_ascii.
  repeat match goal with
  | |- context [if c =? ?k then _ else _] =>
      destruct (N.eqb_spec c k) as [->|]; [reflexivity|]
  end.
  destruct ((32 <=? c) && (c <=? 126)) eqn:E; bool_to_prop.
  - simpl app. cbn. by decide_N.
  - destruct (c <? 0x10000) eqn:E2; bool_to_prop; [apply scan_u_escape; lia|].
    rewrite <-app_assoc, scan_surrogates by lia. by replace (0x10000 + (c - 0x10000)) with c by lia.
Qed.

Lemma scan_dumps_string s r :
  scalars s = true -> scan_string (concat (map escape_ascii s) ++ 34 :: r) = Some (s, r).
Proof.
  induction s as [|c s IH]; [done|]. rewrite scalars_cons. intros [Hc Hs]%andb_true_iff. simpl.
  by rewrite <-app_assoc, scan_escape_ascii, IH by done.
Qed.

Lemma dumps_arr_ok l s :
  dumps (JArr l) = Ok s <->
  exists parts, Forall2 (fun v p => dumps v = Ok p) l parts /\ s = [91] ++ join [44; 32] parts ++ [93].
Proof. cbn [dumps]. rewrite bind_ok. setoid_rewrite mapM_res_ok. naive_solver. Qed.

Lemma dumps_obj_ok kvs s :
  dumps (JObj kvs) = Ok s <->
  exists parts,
    Forall2 (fun kv p => exists t, dumps kv.2 = Ok t /\ p = dumps_string kv.1 ++ [58; 32] ++ t) kvs parts /\
    s = [123] ++ join [44; 32] parts ++ [125].
Proof.
  cbn [dumps]. rewrite bind_ok.
  split; intros (parts & Hp & H); exists parts.
  - apply mapM_res_ok in Hp. apply ok_inj in H as <-. split; [|done].
    eapply Forall2_impl; [exact Hp|]. intros kv p (t & Ht & <-%ok_inj)%bind_ok. eauto.
  - subst. split; [|done]. apply mapM_res_ok. eapply Forall2_impl; [exact Hp|].
    intros kv p (t & Ht & ->). rewrite bind_ok. eauto.
Qed.

Lemma dumps_head v s :
  in_domain v = true -> dumps v = Ok s ->
  exists c s', s = c :: s' /\ is_ws c = false /\ c <> 93 /\ c <> 125.
Proof.
  intros Hv H. destruct v.
  - injection H as <-. by eexists _, _.
  - destruct b; injection H as <-; by eexists _, _.
  - cbn [dumps] in H. inv_ok. destruct (str_int_head z) as (c & t & -> & Hc). exists c, t. split; [done|].
    unfold is_ws. destruct Hc as [Hc|[-> _]]; [unfold is_digit in Hc; bool_to_prop|split_and!; [reflexivity|lia..]].
    split_and!; [|lia..]. by decide_N.
  - done.
  - injection H as <-. by eexists _, _.
  - apply dumps_arr_ok in H as (? & _ & ->). by eexists _, _.
  - apply dumps_obj_ok in H as (? & _ & ->). by eexists _, _.
Qed.

Lemma join2_head p parts c t : p = c :: t -> exists t', join [44; 32] (p :: parts) = c :: t'.
Proof.
  intros ->. destruct parts; [rewrite join_single; eauto|]. rewrite join_cons. simpl. eauto.
Qed.

Section round_trip.
Context `{F : FloatText} (hook : list (pystr * json) -> res json).
Hypothesis hook_id : forall kvs, NoDup kvs.*1 -> hook kvs = Ok (JObj kvs).

Let reads_back (v : json) : Prop := forall s fuel r,
  wf_json v -> in_domain v = true -> dumps v = Ok s -> (jsize v <= fuel)%nat -> delim r ->
  parse_value hook fuel (s ++ r) = Ok (v, r).

Lemma skip_sep c t : is_ws c = false -> skip_ws (32 :: c :: t) = c :: t.
Proof. intros H. unfold skip_ws. simpl. by rewrite H. Qed.

Lemma parse_dumps_elements l parts fuel r :
  Forall2 (fun v p => dumps v = Ok p) l parts -> l <> [] ->
  Forall reads_back l -> Forall wf_json l -> forallb in_domain l = true ->
  (sum_list_with (fun v => S (jsize v)) l <= fuel)%nat ->
  parse_elements hook fuel (join [44; 32] parts ++ 93 :: r) = Ok (l, r).
Proof.
  intros Hp. revert fuel. induction Hp as [|v p l parts Hv Hp IH]; [done|].
  intros [|fuel] _ Hrb Hwf Hd Hf; [simpl in Hf; lia|].
  inversion Hrb as [|?? Hv_rb Hrb']; inversion Hwf as [|?? Hv_wf Hwf']; subst. simpl in Hf, Hd.
  apply andb_true_iff in Hd as [Hd Hd'].
  rewrite parse_elements_S. destruct Hp as [|w q l parts Hw Hp].
  - rewrite join_single, Hv_rb by (done || lia || (simpl; auto)). done.
  - rewrite join_cons, <-!app_assoc. rewrite Hv_rb by (done || lia || (simpl; auto)).
    simpl mbind. simpl app.
    destruct (dumps_head w q) as (c & t & Ht & Hc & _); [by simpl in Hd'; apply andb_true_iff in Hd' as []|done|].
    destruct (join2_head q parts c t Ht) as [t' Et].
    match goal with |- context [skip_ws ?x] => assert (skip_ws x = join [44; 32] (q :: parts) ++ 93 :: r) as -> end.
    { rewrite Et. simpl app. by apply skip_sep. }
    rewrite IH by (done || lia). done.
Qed.

Lemma parse_dumps_members (kvs : dict) parts fuel r :
  Forall2 (fun kv p => exists t, dumps kv.2 = Ok t /\ p = dumps_string kv.1 ++ [58; 32] ++ t) kvs parts ->
  kvs <> [] ->
  Forall (fun kv => reads_back kv.2) kvs -> Forall (fun kv => wf_json kv.2) kvs ->
  forallb (fun kv => scalars kv.1 && in_domain kv.2) kvs = true ->
  (sum_list_with (fun kv => S (jsize kv.2)) kvs <= fuel)%nat ->
  parse_members hook fuel (join [44; 32] parts ++ 125 :: r) = Ok (kvs, r).
Proof.
  intros Hp. revert fuel. induction Hp as [|[k v] p l parts (t & Hv & ->) Hp IH]; [done|].
  intros [|fuel] _ Hrb Hwf Hd Hf; [simpl in Hf; lia|].
  inversion Hrb as [|?? Hv_rb Hrb']; inversion Hwf as [|?? Hv_wf Hwf']; subst.
  simpl in Hf, Hv, Hv_rb, Hv_wf, Hd. simpl fst.
  apply andb_true_iff in Hd as [[Hk Hd]%andb_true_iff Hd'].
  assert (forall rest, parse_members hook (S fuel) ((dumps_string k ++ [58; 32] ++ t) ++ rest) =
    ('(v, r) ← parse_value hook fuel (t ++ rest);
     match skip_ws r with
     | [] => Err json_error
     | c :: r =>
         if c =? 125 then Ok ([(k, v)], r)
         else if c =? 44 then
           '(kvs, rest) ← parse_members hook fuel (skip_ws r); Ok ((k, v) :: kvs, rest)
         else Err json_error
     end)) as Hstep.
  { intros rest. rewrite parse_members_S. unfold dumps_string. rewrite <-!app_assoc.
    simpl app. rewrite expect_head. simpl mbind.
    rewrite scan_dumps_string by done. simpl mbind.
    destruct (dumps_head _ _ Hd Hv) as (c & t' & -> & Hc & _). simpl app.
    by rewrite skip_sep. }
  destruct Hp as [|[k' w] q l parts (t' & Hw & ->) Hp].
  - rewrite join_single, Hstep. rewrite Hv_rb by (done || lia || (simpl; auto)). done.
  - rewrite join_cons, <-app_assoc, Hstep.
    rewrite Hv_rb by (done || lia || (simpl; auto)). simpl mbind. simpl app.
    destruct (join2_head (dumps_string k' ++ [58; 32] ++ t') parts 34
      (concat (map escape_ascii k') ++ [34] ++ [58; 32] ++ t')) as [t2 Et].
    { unfold dumps_string. by rewrite <-!app_assoc. }
    match goal with |- context [skip_ws ?x] =>
      assert (skip_ws x = join [44; 32] ((dumps_string k' ++ [58; 32] ++ t') :: parts) ++ 125 :: r) as -> end.
    { simpl in Et |- *. rewrite Et. simpl app. by apply skip_sep. }
    rewrite IH by (done || (simpl in *; lia)). done.
Qed.

Lemma parse_value_dumps v s fuel r :
  wf_json v -> in_domain v = true -> dumps v = Ok s -> (jsize v <= fuel)%nat -> delim r ->
  parse_value hook fuel (s ++ r) = Ok (v, r).
Proof.
  revert s fuel r. induction v as [| b | z | f | t | l IH | kvs IH] using json_ind_strong;
    intros s [|fuel] r Hwf Hd Hs Hf Hr; try (simpl in Hf; lia).
  - by injection Hs as <-.
  - by destruct b; injection Hs as <-.
  - cbn [dumps] in Hs. inv_ok. cbn [in_domain] in Hd.
    destruct (str_int_head z) as (c & t & E & Hc). bool_to_prop.
    pose proof (parse_literal_str_int z r) as Hp. rewrite E in *. simpl app in *.
    assert (c <> 34 /\ c <> 123 /\ c <> 91) as (?&?&?).
    { destruct Hc as [Hc|[-> _]]; [unfold is_digit in Hc; bool_to_prop; lia|lia]. }
    simpl. rewrite !(proj2 (N.eqb_neq c _)) by done. by apply Hp.
  - done.
  - injection Hs as <-. unfold dumps_string. rewrite <-!app_assoc. simpl app. simpl.
    by rewrite scan_dumps_string.
  - apply dumps_arr_ok in Hs as (parts & Hp & ->). apply wf_json_arr in Hwf. cbn [in_domain] in Hd.
    simpl jsize in Hf. rewrite <-!app_assoc. destruct Hp as [|v q l parts Hv Hp]; [done|].
    assert (in_domain v = true) as Hdv by (by simpl in Hd; apply andb_true_iff in Hd as []).
    destruct (dumps_head _ _ Hdv Hv) as (c & t & E & Hc & Hne & _).
    destruct (join2_head q parts c t E) as [t' Et].
    pose proof (parse_dumps_elements (v :: l) (q :: parts) fuel r) as Hj.
    rewrite app_head, parse_value_arr. change ([93] ++ r) with (93 :: r).
    rewrite Et in *. simpl app in *. rewrite skip_ws_head by done. rewrite (proj2 (N.eqb_neq c 93) Hne).
    rewrite Hj by (by auto using List.Forall2_cons || lia). done.
  - apply wf_json_obj in Hwf as [Hnd Hwf]. cbn [in_domain] in Hd.
    apply dumps_obj_ok in Hs as (parts & Hp & ->).
    simpl jsize in Hf. rewrite <-!app_assoc.
    destruct Hp as [|[k v] q d parts (t & Hv & ->) Hp].
    { simpl. by rewrite hook_id by constructor. }
    pose proof (parse_dumps_members ((k, v) :: d)
      ((dumps_string k ++ [58; 32] ++ t) :: parts) fuel r) as Hj. simpl fst in *.
    destruct (join2_head (dumps_string k ++ [58; 32] ++ t) parts 34
      (concat (map escape_ascii k) ++ [34] ++ [58; 32] ++ t)) as [t2 Et].
    { unfold dumps_string. by rewrite <-!app_assoc. }
    rewrite app_head, parse_value_obj. change ([125] ++ r) with (125 :: r).
    rewrite Et in *. simpl app in *. rewrite skip_ws_head by done. simpl (_ =? _). cbv iota.
    rewrite Hj by (by eauto using List.Forall2_cons || lia). simpl mbind. by rewrite hook_id.
Qed.
End round_trip.

(** *** Enough fuel *)
Lemma length_join2 parts : parts <> [] ->
  (sum_list_with (fun p : pystr => S (length p)) parts <= S (length (join [44; 32]%N parts)))%nat.
Proof.
  induction parts as [|p parts IH]; [done|]. intros _. destruct parts as [|q parts].
  - rewrite join_single. simpl. lia.
  - rewrite join_cons, !length_app. cbn [sum_list_with length] in IH |- *.
    specialize (IH ltac:(done)). lia.
Qed.

Lemma sum_list_le {A B} (f : A -> nat) (g : B -> nat) l k :
  Forall2 (fun x y => f x <= g y)%nat l k -> (sum_list_with f l <= sum_list_with g k)%nat.
Proof. induction 1; simpl; lia. Qed.

Lemma dumps_jsize v s : in_domain v = true -> dumps v = Ok s -> (jsize v <= length s)%nat.
Proof.
  revert s. induction v as [| b | z | f | t | l IH | kvs IH] using json_ind_strong; intros s Hd Hs.
  1-5: destruct (dumps_head _ _ Hd Hs) as (c & s' & -> & _); simpl; lia.
  - apply dumps_arr_ok in Hs as (parts & Hp & ->). cbn [in_domain] in Hd. apply forallb_Forall in Hd.
    assert (sum_list_with (fun v => S (jsize v)) l <= sum_list_with (fun p => S (length p)) parts)%nat.
    { apply sum_list_le. clear -IH Hd Hp. induction Hp as [|v p l parts Hv Hp IHp]; constructor.
      - inversion IH as [|?? Hv' _]; inversion Hd as [|?? Hd' _]; subst.
        specialize (Hv' p Hd' Hv). lia.
      - inversion IH; inversion Hd; subst. auto. }
    cbn [jsize]. rewrite !length_app. cbn [length]. destruct parts as [|p parts]; [simpl in *; lia|].
    pose proof (length_join2 (p :: parts) ltac:(done)). lia.
  - apply dumps_obj_ok in Hs as (parts & Hp & ->). cbn [in_domain] in Hd. apply forallb_Forall in Hd.
    assert (sum_list_with (fun kv => S (jsize kv.2)) kvs <= sum_list_with (fun p => S (length p)) parts)%nat.
    { apply sum_list_le. clear -IH Hd Hp.
      induction Hp as [|kv p l parts (t & Hv & ->) Hp IHp]; constructor.
      - inversion IH as [|?? Hv' _]; inversion Hd as [|?? Hd' _]; subst.
        apply andb_true_iff in Hd' as [_ Hd'].
        specialize (Hv' t Hd' Hv). rewrite !length_app. lia.
      - inversion IH; inversion Hd; subst. auto. }
    cbn [jsize]. rewrite !length_app. cbn [length]. destruct parts as [|p parts]; [simpl in *; lia|].
    pose proof (length_join2 (p :: parts) ltac:(done)). lia.
Qed.

(** [json.loads(json.dumps(v)) == v], key order included. *)
Lemma loads_hook_dumps `{F : FloatText} hook v s :
  (forall kvs, NoDup kvs.*1 -> hook kvs = Ok (JObj kvs)) ->
  wf_json v -> in_domain v = true -> dumps v = Ok s -> loads_hook hook s = Ok v.
Proof.
  intros Hhook Hwf Hd Hs. unfold loads_hook. pose proof (dumps_jsize _ _ Hd Hs) as Hsize.
  destruct (dumps_head _ _ Hd Hs) as (c & t & E & Hc & _).
  assert (skip_ws s = s) as -> by (rewrite E; by apply skip_ws_head).
  rewrite <-(app_nil_r s) at 2.
  rewrite (parse_value_dumps hook Hhook v s (S (length s)) []) by (done || lia). done.
Qed.
Lemma loads_dumps `{F : FloatText} v s :
  wf_json v -> in_domain v = true -> dumps v = Ok s -> loads s = Ok v.
Proof. intros. apply loads_hook_dumps; [|done..]. intros kvs Hnd. by rewrite dict_of_pairs_id. Qed.

(** *** The text is ASCII, so it is read as UTF-8 *)
Definition ascii_text (s : pystr) : Prop := Forall (fun c => 0 < c < 128) s.

Lemma ascii_text_app s t : ascii_text (s ++ t) <-> ascii_text s /\ ascii_text t.
Proof. apply Forall_app. Qed.
Lemma ascii_text_join sep l : ascii_text sep -> Forall ascii_text l -> ascii_text (join sep l).
Proof.
  intros Hs. induction l as [|x l IH]; intros H; [constructor|]. inversion H; subst.
  destruct l as [|y l]; [by rewrite join_single|]. rewrite join_cons. apply ascii_text_app. split; [done|].
  apply ascii_text_app. auto.
Qed.
Lemma ascii_text_py s : forallb (fun c => (0 <? c) && (c <? 128)) (py s) = true -> ascii_text (py s).
Proof.
  intros H. apply Forall_forall. intros c Hc. rewrite forallb_forall in H.
  apply list_elem_of_In, H in Hc. bool_to_prop. lia.
Qed.

Lemma hexdigit_ascii n : n < 16 -> 0 < hexdigit n < 128.
Proof. intros. unfold hexdigit. case_match; bool_to_prop; lia. Qed.
Lemma u_escape_ascii u : ascii_text (u_escape u).
Proof.
  unfold u_escape. cbn [hex_digits].
  repeat (apply List.Forall_cons; [first [lia|apply hexdigit_ascii, N.mod_lt; lia]|]). constructor.
Qed.
Lemma escape_ascii_ascii c : ascii_text (escape_ascii c).
Proof.
  unfold escape_ascii.
  repeat match goal with
  | |- context [if c =? ?k then _ else _] => destruct (N.eqb_spec c k) as [->|]; [repeat constructor; lia|]
  end.
  destruct ((32 <=? c) && (c <=? 126)) eqn:E; bool_to_prop; [repeat constructor; lia|].
  destruct (c <? 0x10000); [apply u_escape_ascii|]. apply ascii_text_app. split; apply u_escape_ascii.
Qed.
Lemma dumps_string_ascii s : ascii_text (dumps_string s).
Proof.
  unfold dumps_string. rewrite !ascii_text_app. split_and!; [repeat constructor; lia| |repeat constructor; lia].
  induction s; simpl; [constructor|]. apply ascii_text_app. split; [apply escape_ascii_ascii|done].
Qed.
Lemma str_int_ascii z : ascii_text (str_int z).
Proof.
  assert (forall n, ascii_text (str_N n)) as Hn.
  { intros n. eapply Forall_impl; [apply str_N_digits|]. intros c Hc. unfold is_digit in Hc. bool_to_prop. lia. }
  unfold str_int. case_match; [|done]. apply List.Forall_cons; [lia|apply Hn].
Qed.

Lemma dumps_ascii v s : in_domain v = true -> dumps v = Ok s -> ascii_text s.
Proof.
  revert s. induction v as [| b | z | f | t | l IH | kvs IH] using json_ind_strong; intros s Hd Hs.
  - injection Hs as <-. by apply ascii_text_py.
  - destruct b; injection Hs as <-; by apply ascii_text_py.
  - cbn [dumps] in Hs. inv_ok. apply str_int_ascii.
  - done.
  - injection Hs as <-. apply dumps_string_ascii.
  - apply dumps_arr_ok in Hs as (parts & Hp & ->). rewrite !ascii_text_app.
    split_and!; [repeat constructor; lia| |repeat constructor; lia].
    apply ascii_text_join; [repeat constructor; lia|]. cbn [in_domain] in Hd. apply forallb_Forall in Hd.
    induction Hp as [|v p l parts Hv Hp IHp]; [constructor|]. inversion IH; inversion Hd; subst.
    constructor; auto.
  - apply dumps_obj_ok in Hs as (parts & Hp & ->). rewrite !ascii_text_app.
    split_and!; [repeat constructor; lia| |repeat constructor; lia].
    apply ascii_text_join; [repeat constructor; lia|]. cbn [in_domain] in Hd. apply forallb_Forall in Hd.
    induction Hp as [|kv p l parts (t & Hv & ->) Hp IHp]; [constructor|].
    inversion IH as [|?? Hkv IH']; inversion Hd as [|?? Hd1 Hd']; subst.
    apply andb_true_iff in Hd1 as [_ Hd1]. constructor; [|auto].
    rewrite !ascii_text_app. split_and!; [apply dumps_string_ascii|repeat constructor; lia|by apply Hkv].
Qed.

Lemma ascii_utf8 s : ascii_text s -> utf8_encode s = Some (map n2b s).
Proof.
  induction 1 as [|c s Hc Hs IH]; [done|]. simpl. unfold utf8_char. rewrite IH. by decide_N.
Qed.

Lemma startswith_head x y p b : x <> y -> startswith (x :: p) (y :: b) = false.
Proof. intros H. unfold startswith. apply bool_decide_eq_false. cbn. congruence. Qed.

Lemma ascii_detect s : ascii_text s -> detect_encoding (map n2b s) = Utf8.
Proof.
  intros H. destruct H as [|a s Ha Hs]; [done|]. unfold detect_encoding. cbn [map].
  assert (forall c, 0 < c < 128 -> zero (n2b c) = false) as Hz.
  { intros c Hc. unfold zero. rewrite b2n_n2b_small by lia. by decide_N. }
  assert (forall x, b2n x = 0 \/ 128 <= b2n x -> x <> n2b a) as Hx.
  { intros x Hb ->. rewrite b2n_n2b_small in Hb by lia. lia. }
  rewrite !startswith_head by (apply Hx; vm_compute; auto || (right; discriminate)).
  destruct Hs as [|b s Hb Hs]; [done|]. cbn [map]. rewrite !Hz by done.
  by destruct Hs as [|? ? ? [|? ? ?]].
Qed.

(** What the writer puts on the wire, the reader gives back. *)
Lemma loads_dumps_bytes `{F : FloatText} v b :
  wf_json v -> in_domain v = true -> dumps_bytes v = Ok b -> loads_bytes b = Ok v.
Proof.
  intros Hwf Hd (s & Hs & He)%bind_ok. pose proof (dumps_ascii _ _ Hd Hs) as Ha.
  unfold encode_utf8 in He. rewrite (ascii_utf8 _ Ha) in He. injection He as <-.
  unfold loads_bytes, decode_json_bytes. rewrite (ascii_detect _ Ha).
  rewrite (utf8_decode_with_encode true s _ (ascii_utf8 _ Ha)). simpl. by apply loads_dumps.
Qed.

(** Every value in the domain can be written. *)
Lemma dumps_total v : in_domain v = true -> exists b, dumps_bytes v = Ok b.
Proof.
  intros Hd. assert (exists s, dumps v = Ok s) as [s Hs].
  { revert Hd. induction v as [| b | z | f | t | l IH | kvs IH] using json_ind_strong; intros Hd;
      try (by eexists).
    - cbn [dumps]. cbn [in_domain] in Hd. bool_to_prop. eexists. apply guard_pass; [|done].
      apply Nat.ltb_ge. etrans; [apply (str_N_length _ 15)|].
      + change (10 ^ N.of_nat 16) with 10000000000000000. unfold _MAX_SAFE_INTEGER in *. lia.
      + unfold int_max_str_digits. apply Nat.leb_le. vm_compute. reflexivity.
    - cbn [in_domain] in Hd. apply forallb_Forall in Hd.
      assert (exists parts, Forall2 (fun v p => dumps v = Ok p) l parts) as [parts Hp].
      { induction IH as [|v l Hv _ IHl]; [eexists; constructor|]. inversion Hd as [|?? Hd1 Hd2]; subst.
        destruct (Hv Hd1) as [p Hp]. destruct (IHl Hd2) as [ps Hps].
        exists (p :: ps). by constructor. }
      eexists. apply dumps_arr_ok. eauto.
    - cbn [in_domain] in Hd. apply forallb_Forall in Hd.
      assert (exists parts, Forall2 (fun kv p => exists t, dumps kv.2 = Ok t /\
        p = dumps_string kv.1 ++ [58; 32] ++ t) kvs parts) as [parts Hp].
      { induction IH as [|v l Hv _ IHl]; [eexists; constructor|]. inversion Hd as [|?? Hd1 Hd2]; subst.
        apply andb_true_iff in Hd1 as [_ Hd1].
        destruct (Hv Hd1) as [p Hp]. destruct (IHl Hd2) as [ps Hps].
        eexists (_ :: ps). constructor; [by exists p|done]. }
      eexists. apply dumps_obj_ok. eauto. }
  exists (map n2b s). unfold dumps_bytes. rewrite Hs. simpl. unfold encode_utf8.
  by rewrite (ascii_utf8 _ (dumps_ascii _ _ Hd Hs)).
Qed.

(** A value that fits in one message of the transport: at most a mebibyte. *)
Definition on_wire (v : json) : Prop :=
  wf_json v /\ in_domain v = true /\ forall b, dumps_bytes v = Ok b -> N.of_nat (length b) <= 1048576.
Lemma on_wire_bytes `{F : FloatText} v :
  on_wire v -> exists b, dumps_bytes v = Ok b /\ N.of_nat (length b) <= 1048576 /\ loads_bytes b = Ok v.
Proof.
  intros (Hwf & Hd & Hl). destruct (dumps_total v Hd) as [b Hb]. exists b. split_and!; auto.
  by apply loads_dumps_bytes.
Qed.
Lemma dumps_bytes_nonempty v b : in_domain v = true -> dumps_bytes v = Ok b -> b <> [].
Proof.
  intros Hd (s & Hs & He)%bind_ok ->. pose proof (dumps_ascii _ _ Hd Hs) as Ha.
  destruct (dumps_head _ _ Hd Hs) as (c & t & -> & _). unfold encode_utf8 in He.
  rewrite (ascii_utf8 _ Ha) in He. discriminate He.
Qed.
(** Decided, for a concrete value. *)
Definition on_wireb (v : json) : bool :=
  wf_jsonb v && in_domain v &&
  match dumps_bytes v with Ok b => N.of_nat (length b) <=? 1048576 | Err _ => true end.
Lemma on_wireb_spec v : on_wireb v = true -> on_wire v.
Proof.
  unfold on_wireb. intros [[Hw Hd]%andb_true_iff Hl]%andb_true_iff.
  split; [by apply wf_jsonb_spec|]. split; [done|]. intros b Hb. rewrite Hb in Hl. by apply N.leb_le.
Qed.
