(* ===== verification/Sha256.v ===== *)
(** * SHA-256 and HMAC-SHA-256

    [hashlib.sha256] and [hmac.new(key, msg, sha256)] of the standard library,
    executable, on 32-bit words kept as numbers below [2^32].  The development
    uses three facts of them: digests are 32 bytes long, they are functions of
    their input, and equal digests of different inputs are a collision
    ([collides]). *)
From S2P Require Export PyStr.
#[local] Open Scope N_scope.

Definition w32 (n : N) : N := N.land n 4294967295.
Definition rotr (k n : N) : N := w32 (N.lor (N.shiftr n k) (N.shiftl n (32 - k))).
Definition not32 (n : N) : N := 4294967295 - n.

Definition Ch x y z := N.lxor (N.land x y) (N.land (not32 x) z).
Definition Maj x y z := N.lxor (N.lxor (N.land x y) (N.land x z)) (N.land y z).
Definition Sigma0 x := N.lxor (N.lxor (rotr 2 x) (rotr 13 x)) (rotr 22 x).
Definition Sigma1 x := N.lxor (N.lxor (rotr 6 x) (rotr 11 x)) (rotr 25 x).
Definition sigma0 x := N.lxor (N.lxor (rotr 7 x) (rotr 18 x)) (N.shiftr x 3).
Definition sigma1 x := N.lxor (N.lxor (rotr 17 x) (rotr 19 x)) (N.shiftr x 10).

(** The round constants: the first 32 bits of the fractional parts of the cube
    roots of the first 64 primes, computed from that definition. *)
Definition primes : list N :=
  List.filter (fun p => forallb (fun d => (p <=? d) || negb (p mod d =? 0)) (map N.of_nat (seq 2 310)))
    (map N.of_nat (seq 2 310)).
Fixpoint cube_root (bits : nat) (acc n : N) : N :=
  match bits with
  | O => acc
  | S bits =>
      let t := acc + 2 ^ N.of_nat bits in
      cube_root bits (if t * t * t <=? n then t else acc) n
  end.
Definition K256 : list N :=
  Eval vm_compute in map (fun p => w32 (cube_root 35 0 (p * 2 ^ 96))) primes.

Record hash_state := HS { ha : N; hb : N; hc : N; hd : N; he : N; hf : N; hg : N; hh : N }.
Definition H256 : hash_state :=
  HS 0x6a09e667 0xbb67ae85 0x3c6ef372 0xa54ff53a 0x510e527f 0x9b05688c 0x1f83d9ab 0x5be0cd19.

Definition sha_round (s : hash_state) (kw : N * N) : hash_state :=
  let t1 := w32 (hh s + Sigma1 (he s) + Ch (he s) (hf s) (hg s) + kw.1 + kw.2) in
  let t2 := w32 (Sigma0 (ha s) + Maj (ha s) (hb s) (hc s)) in
  HS (w32 (t1 + t2)) (ha s) (hb s) (hc s) (w32 (hd s + t1)) (he s) (hf s) (hg s).

(** The message schedule, latest word first. *)
Fixpoint extend_schedule (n : nat) (ws : list N) : list N :=
  match n with
  | O => ws
  | S n =>
      let w i := nth i ws 0 in
      extend_schedule n (w32 (sigma1 (w 1%nat) + w 6%nat + sigma0 (w 14%nat) + w 15%nat) :: ws)
  end.

(** Big-endian words of a block. *)
Fixpoint be_words (bs : bytes) : list N :=
  match bs with
  | a :: b :: c :: d :: r =>
      (b2n a * 16777216 + b2n b * 65536 + b2n c * 256 + b2n d) :: be_words r
  | _ => []
  end.

Definition compress (s : hash_state) (block : bytes) : hash_state :=
  let ws := rev (extend_schedule 48 (rev (be_words block))) in
  let t := fold_left sha_round (combine K256 ws) s in
  HS (w32 (ha s + ha t)) (w32 (hb s + hb t)) (w32 (hc s + hc t)) (w32 (hd s + hd t))
     (w32 (he s + he t)) (w32 (hf s + hf t)) (w32 (hg s + hg t)) (w32 (hh s + hh t)).

(** The [w]-byte big-endian encoding, [n.to_bytes(w, "big")] for [n < 256^w]. *)
Fixpoint be_bytes (w : nat) (n : N) : bytes :=
  match w with
  | O => []
  | S w => n2b (n / 256 ^ N.of_nat w) :: be_bytes w n
  end.

Definition sha_pad (m : bytes) : bytes :=
  let len := N.of_nat (length m) in
  m ++ [x80] ++ repeat x00 (N.to_nat ((119 - len mod 64) mod 64)) ++ be_bytes 8 (len * 8).

Fixpoint sha_blocks (fuel : nat) (s : hash_state) (m : bytes) : hash_state :=
  match fuel, m with
  | S fuel, _ :: _ => sha_blocks fuel (compress s (take 64 m)) (drop 64 m)
  | _, _ => s
  end.

(** [hashlib.sha256(m).digest()] *)
Definition sha256 (m : bytes) : bytes :=
  let p := sha_pad m in
  let s := sha_blocks (length p) H256 p in
  concat (map (be_bytes 4) [ha s; hb s; hc s; hd s; he s; hf s; hg s; hh s]).
(** [hashlib.sha256(m).hexdigest()] *)
Definition sha256_hex (m : bytes) : pystr := hex (sha256 m).

Definition xor_byte (k : N) (b : byte) : byte := n2b (N.lxor k (b2n b)).

(** [hmac.new(key, msg, sha256).digest()] *)
Definition hmac_sha256 (key msg : bytes) : bytes :=
  let k0 := if Nat.ltb 64 (length key) then sha256 key else key in
  let k := k0 ++ repeat x00 (64 - length k0) in
  sha256 (map (xor_byte 0x5c) k ++ sha256 (map (xor_byte 0x36) k ++ msg)).

Lemma length_be_bytes w n : length (be_bytes w n) = w.
Proof. induction w; simpl; congruence. Qed.

(** ** Big-endian integers: [int.from_bytes(b, "big")] *)
Definition be_int (b : bytes) : N := fold_left (fun acc x => acc * 256 + b2n x) b 0.
Definition len (b : bytes) : N := N.of_nat (length b).

Lemma fold_be_acc b acc : fold_left (fun a x => a * 256 + b2n x) b acc = acc * 256 ^ len b + be_int b.
Proof.
  unfold be_int, len. revert acc. induction b as [|x b IH]; intros acc.
  { simpl. rewrite N.mul_1_r. lia. }
  cbn [fold_left length]. rewrite (IH (acc * 256 + b2n x)), (IH (0 * 256 + b2n x)).
  rewrite Nat2N.inj_succ, N.pow_succ_r'. lia.
Qed.
Lemma be_int_cons x b : be_int (x :: b) = b2n x * 256 ^ len b + be_int b.
Proof. unfold be_int at 1. cbn [fold_left]. rewrite fold_be_acc. lia. Qed.
Lemma be_int_bound b : be_int b < 256 ^ len b.
Proof.
  induction b as [|x b IH]; [done|]. rewrite be_int_cons. unfold len in *. cbn [length].
  rewrite Nat2N.inj_succ, N.pow_succ_r'. pose proof (b2n_lt x). nia.
Qed.

Lemma be_bytes_int w n : be_int (be_bytes w n) = n mod 256 ^ N.of_nat w.
Proof.
  induction w as [|w IH]; [by rewrite N.mod_1_r|]. cbn [be_bytes]. rewrite be_int_cons, IH.
  unfold len. rewrite length_be_bytes, Nat2N.inj_succ, N.pow_succ_r'.
  rewrite b2n_n2b. rewrite (N.mul_comm 256). rewrite N.Div0.mod_mul_r. lia.
Qed.
Lemma be_int_be_bytes w n : n < 256 ^ N.of_nat w -> be_int (be_bytes w n) = n.
Proof. intros H. rewrite be_bytes_int. by apply N.mod_small. Qed.

Lemma be_bytes_inj w m n :
  m < 256 ^ N.of_nat w -> n < 256 ^ N.of_nat w -> be_bytes w m = be_bytes w n -> m = n.
Proof. intros Hm Hn H%(f_equal be_int). by rewrite !be_int_be_bytes in H. Qed.

Lemma length_sha256 m : length (sha256 m) = 32%nat.
Proof. reflexivity. Qed.
Lemma length_sha256_hex m : length (sha256_hex m) = 64%nat.
Proof. unfold sha256_hex. by rewrite length_hex, length_sha256. Qed.
#[global] Opaque sha256.
Lemma length_hmac_sha256 k m : length (hmac_sha256 k m) = 32%nat.
Proof. apply length_sha256. Qed.

(** Two different messages with one digest. *)
Definition collides (x y : bytes) : Prop := x <> y /\ sha256 x = sha256 y.

Lemma sha256_eq x y : sha256 x = sha256 y -> x = y \/ collides x y.
Proof. intros H. destruct (decide (x = y)); [by left|by right]. Qed.
Lemma sha256_hex_eq x y : sha256_hex x = sha256_hex y -> x = y \/ collides x y.
Proof. unfold sha256_hex. intros H%(inj hex). by apply sha256_eq. Qed.

(** The key block of HMAC is 64 bytes whatever the key. *)
Lemma length_key_block (k : bytes) (f : byte -> byte) :
  let k0 := if Nat.ltb 64 (length k) then sha256 k else k in
  length (map f (k0 ++ repeat x00 (64 - length k0))) = 64%nat.
Proof.
  cbv zeta. rewrite length_map, length_app, repeat_length.
  destruct (Nat.ltb_spec 64 (length k)); [rewrite length_sha256|]; lia.
Qed.
(** The two messages HMAC hashes. *)
Definition hmac_pad (mask : N) (key : bytes) : bytes :=
  let k0 := if Nat.ltb 64 (length key) then sha256 key else key in
  map (xor_byte mask) (k0 ++ repeat x00 (64 - length k0)).
Definition hmac_inner (key msg : bytes) : bytes := hmac_pad 0x36 key ++ msg.
Definition hmac_outer (key msg : bytes) : bytes := hmac_pad 0x5c key ++ sha256 (hmac_inner key msg).
Lemma hmac_sha256_outer key msg : hmac_sha256 key msg = sha256 (hmac_outer key msg).
Proof. reflexivity. Qed.

(** Two keyed messages whose MACs coincide by a collision, of the messages HMAC
    hashes first or of those it hashes last. *)
Definition hmac_collides (k1 m1 k2 m2 : bytes) : Prop :=
  collides (hmac_inner k1 m1) (hmac_inner k2 m2) \/ collides (hmac_outer k1 m1) (hmac_outer k2 m2).

(** Equal MACs, even under different keys, are of equal messages. *)
Lemma hmac_sha256_eq k1 m1 k2 m2 :
  hmac_sha256 k1 m1 = hmac_sha256 k2 m2 -> m1 = m2 \/ hmac_collides k1 m1 k2 m2.
Proof.
  rewrite !hmac_sha256_outer. intros [H|H]%sha256_eq; [|by right; right].
  apply app_inj_1 in H as [_ H]; [|by unfold hmac_pad; rewrite !length_key_block].
  apply sha256_eq in H as [H|H]; [|by right; left].
  apply app_inj_1 in H as [_ H]; [by left|by unfold hmac_pad; rewrite !length_key_block].
Qed.

(** Digest equality of optional byte strings. *)
Lemma opt_sha256_eq (p1 p2 : option bytes) :
  sha256_hex <$> p1 = sha256_hex <$> p2 ->
  p1 = p2 \/ exists x y, p1 = Some x /\ p2 = Some y /\ collides x y.
Proof.
  destruct p1 as [x|], p2 as [y|]; simpl; try done; [|by left].
  intros H%(inj Some). apply sha256_hex_eq in H as [->|H]; [by left|right; eauto].
Qed.
#[global] Opaque hmac_sha256.

Definition ascii_bytes (s : string) : bytes := map n2b (py s).

(** FIPS 180-4 and RFC 4231 test vectors. *)
Example sha256_abc :
  sha256_hex (ascii_bytes "abc") = py "ba7816bf8f01cfea414140de5dae2223b00361a396177a9cb410ff61f20015ad".
Proof. vm_compute. reflexivity. Qed.
Example sha256_two_blocks :
  sha256_hex (ascii_bytes "abcdbcdecdefdefgefghfghighijhijkijkljklmklmnlmnomnopnopq")
  = py "248d6a61d20638b8e5c026930c3e6039a33ce45964ff2167f6ecedd419db06c1".
Proof. vm_compute. reflexivity. Qed.
Example hmac_rfc4231_2 :
  hex (hmac_sha256 (ascii_bytes "Jefe") (ascii_bytes "what do ya want for nothing?"))
  = py "5bdcc146bf60754e6a042426089575c75a003f089d2739839dec58b964ec3843".
Proof. vm_compute. reflexivity. Qed.
