(* ===== verification/Crypto.v ===== *)
(** * The [cryptography] package

    Ed25519, X25519, HKDF-SHA256 and ChaCha20-Poly1305 come from a third-party
    package, so they are an interface: [Crypto] has its operations as the
    runtime calls them, [CryptoLaws] the documented behaviour some theorems
    rely on (key and signature lengths, signatures verify, key agreement agrees,
    decryption inverts encryption).  [Toy] is an executable instance used to
    evaluate the development on concrete inputs; it offers no security. *)
From S2P Require Export Sha256 Canonical.

Class Crypto := {
  (** Ed25519: private keys, [public_key().public_bytes_raw()], [sign],
      [Ed25519PublicKey.from_public_bytes] (the text of its ValueError) and
      [verify] (false is InvalidSignature). *)
  ed_priv : Type;
  ed_public : ed_priv -> bytes;
  ed_sign : ed_priv -> bytes -> bytes;
  ed_load_public : bytes -> result pystr unit;
  ed_verify : bytes -> bytes -> bytes -> bool;
  (** X25519: likewise, and [exchange] (the text of its ValueError). *)
  x_priv : Type;
  x_public : x_priv -> bytes;
  x_load_public : bytes -> result pystr unit;
  x_exchange : x_priv -> bytes -> result pystr bytes;
  (** [HKDF(SHA256, 32, salt, info).derive(ikm)]: salt, info, ikm *)
  hkdf_sha256 : option bytes -> bytes -> bytes -> bytes;
  (** [ChaCha20Poly1305(key).encrypt/.decrypt(nonce, data, aad)]; [None] is
      InvalidTag. *)
  chacha_encrypt : bytes -> bytes -> bytes -> bytes -> bytes;
  chacha_decrypt : bytes -> bytes -> bytes -> bytes -> option bytes
}.

Class CryptoLaws (C : Crypto) := {
  ed_public_length k : length (ed_public k) = 32;
  ed_sign_length k m : length (ed_sign k m) = 64;
  ed_load_public_ok p : length p = 32 -> ed_load_public p = Ok tt;
  ed_verify_sign k m : ed_verify (ed_public k) (ed_sign k m) m = true;
  x_public_length k : length (x_public k) = 32;
  x_load_public_ok p : length p = 32 -> x_load_public p = Ok tt;
  x_exchange_agree a b : exists shared,
    x_exchange a (x_public b) = Ok shared /\ x_exchange b (x_public a) = Ok shared;
  chacha_decrypt_encrypt key nonce data aad :
    chacha_decrypt key nonce (chacha_encrypt key nonce data aad) aad = Some data
}.

Section calls.
Context `{C : Crypto}.

(** [public_key().public_bytes_raw().hex()] *)
Definition ed_public_hex (k : ed_priv) : pystr := hex (ed_public k).
Definition x_public_hex (k : x_priv) : pystr := hex (x_public k).

(** [Ed25519PublicKey.from_public_bytes(bytes.fromhex(s))], as raw bytes. *)
Definition ed_public_of_hex (s : pystr) : res bytes :=
  raw ← value_error (fromhex s);
  value_error (ed_load_public raw);;
  Ok raw.
(** [pub.verify(signature, message)] *)
Definition ed_check (pub signature message : bytes) : res unit :=
  raise_if (negb (ed_verify pub signature message)) (PyExc InvalidSignature []).

Lemma ed_public_of_hex_hex `{!CryptoLaws C} k : ed_public_of_hex (ed_public_hex k) = Ok (ed_public k).
Proof.
  unfold ed_public_of_hex, ed_public_hex. rewrite fromhex_hex. simpl.
  by rewrite ed_load_public_ok by apply ed_public_length.
Qed.
Lemma ed_check_sign `{!CryptoLaws C} k m : ed_check (ed_public k) (ed_sign k m) m = Ok tt.
Proof. unfold ed_check. by rewrite ed_verify_sign. Qed.
Lemma ed_public_hex_shape `{!CryptoLaws C} k : fullmatch_hex 64 (ed_public_hex k) = true.
Proof. apply (fullmatch_hex_hex 32), ed_public_length. Qed.
End calls.

(** ** An executable instance *)
Module Toy.
Definition key (n : N) : bytes := be_bytes 32 n.
Definition checksum (w : nat) (m : bytes) : bytes :=
  be_bytes w (fold_left (fun acc b => N.land (acc * 31 + b2n b) 0xFFFFFFFF)%N m 7%N).
Definition tag (k n a d : bytes) : bytes := checksum 16 (k ++ n ++ a ++ d).
Definition toy_sign (p m : bytes) : bytes := checksum 64 (p ++ m).
Fixpoint xor_bytes (x y : bytes) : bytes :=
  match x, y with
  | a :: x, b :: y => n2b (N.lxor (b2n a) (b2n b)) :: xor_bytes x y
  | _, _ => []
  end.

Definition load32 (p : bytes) : result pystr unit :=
  if Nat.eqb (length p) 32 then Ok tt else Err (py "a public key is 32 bytes long").

#[export] Instance toy : Crypto := {|
  ed_priv := N;
  ed_public := key;
  ed_sign k m := toy_sign (key k) m;
  ed_load_public := load32;
  ed_verify p s m := bool_decide (s = toy_sign p m);
  x_priv := N;
  x_public := key;
  x_load_public := load32;
  x_exchange k p := Ok (xor_bytes (key k) p);
  hkdf_sha256 salt info ikm := checksum 32 (default [] salt ++ info ++ ikm);
  chacha_encrypt k n d a := d ++ tag k n a d;
  chacha_decrypt k n c a :=
    let d := take (length c - 16) c in
    if bool_decide (drop (length c - 16) c = tag k n a d) then Some d else None
|}.

Lemma xor_bytes_comm x y : xor_bytes x y = xor_bytes y x.
Proof. revert y. induction x as [|a x IH]; intros [|b y]; simpl; [done..|]. by rewrite N.lxor_comm, IH. Qed.

#[export] Instance toy_laws : CryptoLaws toy.
Proof.
  split; simpl.
  - intros k. exact (length_be_bytes 32 k).
  - intros. done.
  - intros p Hp. unfold load32. by rewrite Hp.
  - intros. by apply bool_decide_eq_true.
  - intros k. exact (length_be_bytes 32 k).
  - intros p Hp. unfold load32. by rewrite Hp.
  - intros a b. exists (xor_bytes (key a) (key b)). split; [done|].
    exact (f_equal Ok (xor_bytes_comm (key b) (key a))).
  - intros k n d a. assert (length (tag k n a d) = 16) as Ht.
    { exact (length_be_bytes 16 _). }
    rewrite length_app, Ht, Nat.add_sub. rewrite take_app_length, drop_app_length.
    by rewrite bool_decide_true.
Qed.
End Toy.

(** An ASCII-only Unicode database, for evaluation. *)
Module AsciiOnly.
#[export] Instance ascii_unidata : Unidata :=
  {| uni_printable := fun _ => true; uni_space := fun _ => false; uni_decimal := fun _ => None |}.
#[export] Instance literal_floats : FloatText := {| float_repr := fun s => s |}.
End AsciiOnly.
