(* ===== verification/Credential.v ===== *)
(** * Delegation credentials ([ca2a_runtime.delegation.credential])

    [DelegationCredential]: construction, the signed body, signing, signature
    verification, the strict wire parser [from_dict] and the wire form.
    [Chain] verifies chains of them. *)
From S2P Require Export Crypto.

(** ** Reading fields of a JSON object *)

(** [data[k]], for a key known to be present; [data.get(k)] otherwise. *)
Definition field (k : string) (d : dict) : json := default JNull (dget (py k) d).

Definition nonempty_str (v : json) : option pystr :=
  match v with JStr (c :: s) => Some (c :: s) | _ => None end.
(** A [str], a [list] ([isinstance]). *)
Definition any_str (v : json) : option pystr := match v with JStr s => Some s | _ => None end.
Definition any_list (v : json) : option (list json) := match v with JArr l => Some l | _ => None end.
(** A string that fully matches [[0-9a-f]{n}]. *)
Definition hex_str (n : nat) (v : json) : option pystr :=
  match v with JStr s => if fullmatch_hex n s then Some s else None | _ => None end.
(** An [int] that is not a [bool] and not negative. *)
Definition non_negative_int (v : json) : option Z :=
  match v with JInt z => if (0 <=? z)%Z then Some z else None | _ => None end.
Definition opt_str (o : option pystr) : json := from_option JStr JNull o.

Lemma nonempty_str_Some v s : nonempty_str v = Some s <-> v = JStr s /\ s <> [].
Proof. destruct v as [| | | |[]| |]; simpl; naive_solver. Qed.
Lemma any_str_Some v s : any_str v = Some s <-> v = JStr s.
Proof. destruct v; simpl; split; congruence. Qed.
Lemma any_list_Some v l : any_list v = Some l <-> v = JArr l.
Proof. destruct v; simpl; split; congruence. Qed.
Lemma hex_str_Some n v s : hex_str n v = Some s <-> v = JStr s /\ fullmatch_hex n s = true.
Proof.
  split.
  - destruct v; simpl; try done. destruct (fullmatch_hex n s0) eqn:E; [|done]. by intros [= <-].
  - intros [-> H]. simpl. by rewrite H.
Qed.
Lemma non_negative_int_Some v z : non_negative_int v = Some z <-> v = JInt z /\ (0 <= z)%Z.
Proof.
  split.
  - destruct v as [| |y| | | |]; simpl; try done. destruct (0 <=? y)%Z eqn:E; [|done].
    intros [= <-]. by apply Z.leb_le in E.
  - intros [-> H%Z.leb_le]. simpl. by rewrite H.
Qed.

Lemma field_present (required : gset pystr) k d :
  missing_keys required d = ∅ -> py k ∈ required -> dget (py k) d = Some (field k d).
Proof.
  intros Hm Hk. destruct (missing_keys_present _ _ _ Hm Hk) as [v Hv].
  unfold field. by rewrite Hv.
Qed.
Lemma field_get k d v : dget (py k) d = Some v -> field k d = v.
Proof. unfold field. by intros ->. Qed.

Module credential.

Record DelegationCredential := {
  credential_id : pystr;
  issuer : pystr;
  subject : pystr;
  scope : gset pystr;
  depth : Z;
  parent_id : option pystr;
  signature : pystr;
  not_before : option Z;
  not_after : option Z
}.

#[export] Instance credential_eq_dec : EqDecision DelegationCredential.
Proof. solve_decision. Defined.

(** The keys of [_REQUIRED_CREDENTIAL_FIELDS] and [_OPTIONAL_CREDENTIAL_FIELDS]. *)
Definition _REQUIRED_CREDENTIAL_FIELDS : gset pystr :=
  keys_of ["credential_id"; "issuer"; "subject"; "scope"; "depth"; "parent_id";
                       "signature"]%string.
Definition _OPTIONAL_CREDENTIAL_FIELDS : gset pystr :=
  keys_of ["not_before"; "not_after"]%string.

Definition bound_error (name : string) : exn :=
  err InvalidCredential (py name ++ py " must be a non-negative integer when present").
Definition inverted_error (nb na : Z) : exn :=
  err_d InvalidCredential (py "validity window is inverted")
    (py "not_before=" ++ str_int nb ++ py " > not_after=" ++ str_int na).

Definition negative (bound : option Z) : bool :=
  match bound with Some z => (z <? 0)%Z | None => false end.
Definition inverted (nb na : option Z) : option (Z * Z) :=
  match nb, na with
  | Some b, Some a => if (a <? b)%Z then Some (b, a) else None
  | _, _ => None
  end.
Definition check_inverted (nb na : option Z) : res unit :=
  match inverted nb na with Some (b, a) => Err (inverted_error b a) | None => Ok tt end.

(** [__post_init__]: what every construction, [replace] included, checks. *)
Definition post_init (c : DelegationCredential) : res DelegationCredential :=
  raise_if (negative (not_before c)) (bound_error "not_before");;
  raise_if (negative (not_after c)) (bound_error "not_after");;
  check_inverted (not_before c) (not_after c);;
  Ok c.

(** [body()]: the signed portion; absent bounds are omitted. *)
Definition body (c : DelegationCredential) : dict :=
  [(py "credential_id", JStr (credential_id c));
   (py "issuer", JStr (issuer c));
   (py "subject", JStr (subject c));
   (py "scope", JArr (map JStr (sorted_set (scope c))));
   (py "depth", JInt (depth c));
   (py "parent_id", opt_str (parent_id c))] ++
  match not_before c with Some z => [(py "not_before", JInt z)] | None => [] end ++
  match not_after c with Some z => [(py "not_after", JInt z)] | None => [] end.

(** [canonical_bytes(payload)] *)
Definition canonical_bytes (payload : dict) : res bytes := canonicalize (JObj payload).

(** [dataclasses.replace(c, signature=s)], before [__post_init__]. *)
Definition with_signature (s : pystr) (c : DelegationCredential) : DelegationCredential :=
  {| credential_id := credential_id c; issuer := issuer c; subject := subject c;
     scope := scope c; depth := depth c; parent_id := parent_id c; signature := s;
     not_before := not_before c; not_after := not_after c |}.

Section operations.
Context `{U : Unidata, C : Crypto}.

Definition sign (c : DelegationCredential) (private_key : ed_priv) : res DelegationCredential :=
  let expected := ed_public_hex private_key in
  raise_if (negb (bool_decide (expected = issuer c)))
    (err_d InvalidCredential (py "signing key does not match credential issuer")
       (py "issuer=" ++ issuer c ++ py " key=" ++ expected));;
  message ← canonical_bytes (body c);
  post_init (with_signature (hex (ed_sign private_key message)) c).

(** [verify_signature()] *)
Definition verify_signature (c : DelegationCredential) : res unit :=
  raise_if (bool_decide (signature c = [])) (err InvalidCredential (py "credential is unsigned"));;
  try_except
    (pub ← ed_public_of_hex (issuer c);
     sig ← value_error (fromhex (signature c));
     message ← canonical_bytes (body c);
     ed_check pub sig message)
    (fun exc => is_py InvalidSignature exc || is_value_error exc)
    (fun exc => Err (err_d InvalidCredential (py "credential signature failed to verify")
                       (exn_str exc))).

(** A [scope] array of unique non-empty strings. *)
Definition scope_strs (v : json) : option (list pystr) :=
  match v with
  | JArr (x :: l) =>
      items ← mapM nonempty_str (x :: l);
      if Nat.eqb (size (list_to_set items : gset pystr)) (length items) then Some items else None
  | _ => None
  end.
(** [None], or a non-empty string. *)
Definition parent_str (v : json) : option (option pystr) :=
  match v with JNull => Some None | _ => Some <$> nonempty_str v end.
(** A validity bound: absent, or present and a non-negative integer. *)
Definition bound_field (name : string) (d : dict) : res (option Z) :=
  if din (py name) d
  then Some <$> or_raise (non_negative_int (field name d)) (bound_error name)
  else Ok None.

(** [from_dict(data)] *)
Definition from_dict (data : json) : res DelegationCredential :=
  match data with
  | JObj d =>
      let unknown := unknown_keys (_REQUIRED_CREDENTIAL_FIELDS ∪ _OPTIONAL_CREDENTIAL_FIELDS) d in
      let missing := missing_keys _REQUIRED_CREDENTIAL_FIELDS d in
      raise_if (negb (bool_decide (unknown = ∅)) || negb (bool_decide (missing = ∅)))
        (err_d InvalidCredential (py "malformed credential fields")
           (py "missing=" ++ repr_list (sorted_set missing) ++
            py " unknown=" ++ repr_list (sorted_set unknown)));;
      credential_id ← or_raise (nonempty_str (field "credential_id" d))
        (err InvalidCredential (py "credential_id must be a non-empty string"));
      issuer ← or_raise (hex_str 64 (field "issuer" d))
        (err InvalidCredential (py "issuer must be a lowercase 32-byte Ed25519 key in hex"));
      subject ← or_raise (hex_str 64 (field "subject" d))
        (err InvalidCredential (py "subject must be a lowercase 32-byte Ed25519 key in hex"));
      scope ← or_raise (scope_strs (field "scope" d))
        (err InvalidCredential
           (py "scope must be a non-empty array of unique non-empty strings"));
      depth ← or_raise (non_negative_int (field "depth" d))
        (err InvalidCredential (py "depth must be a non-negative integer"));
      parent_id ← or_raise (parent_str (field "parent_id" d))
        (err InvalidCredential (py "parent_id must be a non-empty string or null"));
      signature ← or_raise (hex_str 128 (field "signature" d))
        (err InvalidCredential
           (py "signature must be a lowercase 64-byte Ed25519 signature in hex"));
      not_before ← bound_field "not_before" d;
      not_after ← bound_field "not_after" d;
      check_inverted not_before not_after;;
      post_init {| credential_id := credential_id; issuer := issuer; subject := subject;
                   scope := list_to_set scope; depth := depth; parent_id := parent_id;
                   signature := signature; not_before := not_before; not_after := not_after |}
  | _ =>
      Err (err_d InvalidCredential (py "credential must be a JSON object")
             (py "got " ++ type_name data))
  end.
End operations.

(** The wire form: the body with the signature ([a2a_adapter._credential_to_dict]). *)
Definition _credential_to_dict (c : DelegationCredential) : dict :=
  dset (py "signature") (JStr (signature c)) (body c).

End credential.
Export credential.

(** ** Laws *)
Section credential_laws.
Context `{U : Unidata, C : Crypto}.
Implicit Types c : DelegationCredential.

Lemma body_flat c : flat_dict (body c).
Proof.
  unfold body. split.
  - destruct (not_before c), (not_after c); apply (bool_decide_unpack _); vm_compute; exact I.
  - assert (is_flat (opt_str (parent_id c)) = true) by (by destruct (parent_id c)).
    destruct (not_before c), (not_after c); simpl;
      rewrite is_flat_strs; simpl; by rewrite andb_true_r.
Qed.

Lemma body_lookups c :
  dget (py "credential_id") (body c) = Some (JStr (credential_id c)) /\
  dget (py "issuer") (body c) = Some (JStr (issuer c)) /\
  dget (py "subject") (body c) = Some (JStr (subject c)) /\
  dget (py "scope") (body c) = Some (JArr (map JStr (sorted_set (scope c)))) /\
  dget (py "depth") (body c) = Some (JInt (depth c)) /\
  dget (py "parent_id") (body c) = Some (opt_str (parent_id c)) /\
  dget (py "not_before") (body c) = JInt <$> not_before c /\
  dget (py "not_after") (body c) = JInt <$> not_after c.
Proof. unfold body. destruct (not_before c), (not_after c); repeat split. Qed.

Lemma opt_str_inj o1 o2 : opt_str o1 = opt_str o2 -> o1 = o2.
Proof. destruct o1, o2; simpl; congruence. Qed.
Lemma map_JStr_inj l1 l2 : map JStr l1 = map JStr l2 -> l1 = l2.
Proof.
  revert l2. induction l1 as [|x l1 IH]; intros [|y l2]; try done. intros [= -> H].
  f_equal. auto.
Qed.
Lemma strs_set_inj (s1 s2 : gset pystr) :
  JArr (map JStr (sorted_set s1)) = JArr (map JStr (sorted_set s2)) -> s1 = s2.
Proof. intros [= H]. by apply sorted_set_inj, map_JStr_inj. Qed.
Lemma opt_int_inj (o1 o2 : option Z) : JInt <$> o1 = JInt <$> o2 -> o1 = o2.
Proof. destruct o1, o2; simpl; congruence. Qed.

(** The signed bytes determine every field but the signature. *)
Lemma body_canonical_inj c1 c2 b :
  canonical_bytes (body c1) = Ok b -> canonical_bytes (body c2) = Ok b ->
  with_signature [] c1 = with_signature [] c2.
Proof.
  intros H1 H2.
  pose proof (canonical_flat_lookup _ _ _ (body_flat c1) (body_flat c2) H1 H2) as Hl.
  destruct (body_lookups c1) as (I1 & I2 & I3 & I4 & I5 & I6 & I7 & I8).
  destruct (body_lookups c2) as (J1 & J2 & J3 & J4 & J5 & J6 & J7 & J8).
  rewrite Hl in I1, I2, I3, I4, I5, I6, I7, I8.
  rewrite I1 in J1. rewrite I2 in J2. rewrite I3 in J3. rewrite I4 in J4.
  rewrite I5 in J5. rewrite I6 in J6. rewrite I7 in J7. rewrite I8 in J8.
  assert (scope c1 = scope c2) as Es by (apply strs_set_inj; congruence).
  assert (parent_id c1 = parent_id c2) as Ep by (apply opt_str_inj; congruence).
  apply opt_int_inj in J7, J8. unfold with_signature. congruence.
Qed.

(** ** Construction *)
Definition window_ok c : Prop :=
  (forall z, not_before c = Some z -> Z.le 0 z) /\
  (forall z, not_after c = Some z -> Z.le 0 z) /\
  (forall b a, not_before c = Some b -> not_after c = Some a -> Z.le b a).

Lemma negative_false o : negative o = false <-> (forall z, o = Some z -> Z.le 0 z).
Proof.
  destruct o as [z|]; simpl; [|done]. rewrite Z.ltb_ge. naive_solver.
Qed.

Lemma check_inverted_ok nb na u :
  check_inverted nb na = Ok u <-> (forall b a, nb = Some b -> na = Some a -> Z.le b a).
Proof.
  unfold check_inverted, inverted. destruct u, nb as [b|], na as [a|]; simpl; try done.
  destruct (a <? b)%Z eqn:E; bool_to_prop; split; try done.
  - intros H. specialize (H b a eq_refl eq_refl). lia.
  - intros _ ?? [= <-] [= <-]. lia.
Qed.

Lemma post_init_ok c c' : post_init c = Ok c' <-> c' = c /\ window_ok c.
Proof.
  unfold post_init, window_ok. rewrite <-!negative_false, <-(check_inverted_ok _ _ tt). split.
  - intros H. inv_ok. split; [done|]. by destruct a1.
  - intros (-> & -> & -> & ->). done.
Qed.

(** ** Signatures *)

(** The signature check alone: the issuer's key verifies the signature over
    the canonical body. *)
Definition signature_verifies c : Prop :=
  exists pub sig message,
    ed_public_of_hex (issuer c) = Ok pub /\ fromhex (signature c) = Ok sig /\
    canonical_bytes (body c) = Ok message /\ ed_verify pub sig message = true.

Lemma verify_signature_ok c :
  verify_signature c = Ok tt <-> signature c <> [] /\ signature_verifies c.
Proof.
  unfold verify_signature, signature_verifies, ed_check. split.
  - intros H. inv_ok. bool_to_prop. split; [done|]. by repeat eexists.
  - intros (Hne & pub & sig & m & -> & -> & -> & Hv).
    rewrite bool_decide_false by done. simpl. by rewrite Hv.
Qed.

Lemma body_no_float c : no_float (JObj (body c)) = true.
Proof.
  unfold body. assert (no_float (opt_str (parent_id c)) = true) by (by destruct (parent_id c)).
  destruct (not_before c), (not_after c); simpl;
    rewrite no_float_strs; simpl; by rewrite andb_true_r.
Qed.

(** The guarded signature check the signed objects share: whatever fails in
    it is one of the exceptions its handler catches. *)
Lemma signature_check_err (key sighex : pystr) (message : res bytes) f e :
  (forall e, message = Err e -> is_value_error e = true) ->
  (forall e, exn_class (f e) = exn_class (f json_error)) ->
  try_except
    (pub ← ed_public_of_hex key; sig ← value_error (fromhex sighex);
     m ← message; ed_check pub sig m)
    (fun exc => is_py InvalidSignature exc || is_value_error exc)
    (fun exc => Err (f exc)) = Err e -> exn_class e = exn_class (f json_error).
Proof.
  intros Hmsg Hf He. unfold try_except in He. case_match eqn:Hb; [done|].
  case_match eqn:Hsel; [injection He as <-; apply Hf|]. exfalso. injection He as ->.
  apply orb_false_iff in Hsel as [Hs1 Hs2].
  apply bind_err in Hb as [Hb|(pub & _ & [Hb|(sig & _ & [Hb|(m & _ & Hb)]%bind_err)]%bind_err)].
  - unfold ed_public_of_hex in Hb. destruct (fromhex key) as [p|]; simpl in Hb; [|by simplify_eq].
    destruct (ed_load_public p); simpl in Hb; by simplify_eq.
  - destruct (fromhex sighex); simpl in Hb; by simplify_eq.
  - by rewrite (Hmsg _ Hb) in Hs2.
  - unfold ed_check in Hb. by apply raise_if_err in Hb as [_ ->].
Qed.

(** A failed check is always an [InvalidCredential]. *)
Lemma verify_signature_err c e :
  verify_signature c = Err e -> exn_class e = Some InvalidCredential.
Proof.
  unfold verify_signature. intros [He|(_ & _ & He)]%bind_err.
  { by apply raise_if_err in He as [_ ->]. }
  by apply signature_check_err in He; [|intros ?; apply canonicalize_value_error, body_no_float|].
Qed.

(** Signing with the issuer's key gives a credential that verifies. *)
Lemma sign_verifies `{!CryptoLaws C} c k c' :
  sign c k = Ok c' ->
  c' = with_signature (signature c') c /\ issuer c = ed_public_hex k /\
  fullmatch_hex 128 (signature c') = true /\ verify_signature c' = Ok tt.
Proof.
  unfold sign. intros H. inv_ok. bool_to_prop. rename a0 into m.
  apply post_init_ok in H as [-> _]. simpl. split_and!; [done|done| |].
  { apply (fullmatch_hex_hex 64), ed_sign_length. }
  apply verify_signature_ok. split.
  { simpl. intros H. apply (f_equal length) in H. rewrite length_hex, ed_sign_length in H. done. }
  exists (ed_public k), (ed_sign k m), m. simpl. rewrite <-Hs.
  split_and!; [apply ed_public_of_hex_hex|apply fromhex_hex|done|apply ed_verify_sign].
Qed.
End credential_laws.

(** ** The wire form *)

(** What the parser establishes of the fields. *)
Record wf_credential (c : DelegationCredential) : Prop := {
  wf_credential_id : credential_id c <> [];
  wf_issuer : fullmatch_hex 64 (issuer c) = true;
  wf_subject : fullmatch_hex 64 (subject c) = true;
  wf_scope : scope c <> ∅ /\ [] ∉ scope c;
  wf_depth : (0 <= depth c)%Z;
  wf_parent : parent_id c <> Some [];
  wf_signature : fullmatch_hex 128 (signature c) = true;
  wf_window : window_ok c
}.

(** [d] carries the credential: the fields of its dict in any order, the scope
    as an array in any order. *)
Definition wire_form (c : DelegationCredential) (d : dict) : Prop :=
  (exists l, dget (py "scope") d = Some (JArr (map JStr l)) /\ l ≡ₚ sorted_set (scope c)) /\
  forall k, k <> py "scope" -> dget k d = dget k (_credential_to_dict c).

Section wire_laws.
Context `{U : Unidata}.
Implicit Types c : DelegationCredential.

Lemma mapM_nonempty_str vs l :
  mapM nonempty_str vs = Some l <-> vs = map JStr l /\ [] ∉ l.
Proof.
  rewrite mapM_Some. split.
  - induction 1 as [|v s vs l Hv _ [-> IH]]; [split; [done|apply not_elem_of_nil]|].
    apply nonempty_str_Some in Hv as [-> ?]. by rewrite not_elem_of_cons.
  - intros [-> Hl]. induction l as [|s l IH]; [constructor|].
    apply not_elem_of_cons in Hl as [? Hl]. constructor; [|auto].
    apply nonempty_str_Some. auto.
Qed.

Lemma scope_strs_Some v l :
  scope_strs v = Some l <-> v = JArr (map JStr l) /\ l <> [] /\ [] ∉ l /\ NoDup l.
Proof.
  split.
  - destruct v as [| | | | |[|x vs]|]; simpl; try done. intros H.
    apply bind_Some in H as (items & Hm & H). case_match eqn:Hsz; [|done].
    injection H as ->. apply Nat.eqb_eq, size_list_to_set_NoDup in Hsz.
    apply (mapM_nonempty_str (x :: vs)) in Hm as [Heq Hl].
    rewrite Heq. split_and!; try done. by destruct l.
  - intros (-> & Hne & Hl & Hd). destruct l as [|s l]; [done|].
    pose proof (proj2 (mapM_nonempty_str (map JStr (s :: l)) (s :: l)) (conj eq_refl Hl)) as Hm.
    change (map JStr (s :: l)) with (JStr s :: map JStr l) in *.
    unfold scope_strs. rewrite Hm. cbn [mbind option_bind]. apply size_list_to_set_NoDup, Nat.eqb_eq in Hd. by rewrite Hd.
Qed.

Lemma parent_str_Some v o :
  parent_str v = Some o <-> v = opt_str o /\ o <> Some [].
Proof.
  split.
  - destruct v; simpl; try done; [by intros [= <-]|].
    destruct s; simpl; [done|]. by intros [= <-].
  - intros [-> H]. by destruct o as [[|]|].
Qed.

Lemma bound_field_ok name d o :
  bound_field name d = Ok o <->
  dget (py name) d = JInt <$> o /\ (forall z, o = Some z -> Z.le 0 z).
Proof.
  unfold bound_field, din, field. destruct (dget (py name) d) as [v|]; simpl.
  - split.
    + intros H. inv_ok. subst. apply non_negative_int_Some in Hs as [-> ?].
      split; [done|]. by intros ? [= <-].
    + intros [H Hz]. destruct o as [z|]; simpl in H; [|done]. injection H as ->.
      rewrite (proj2 (non_negative_int_Some (JInt z) z)); [done|]. auto.
  - split; [by intros [= <-]|]. intros [H _]. by destruct o.
Qed.

Lemma to_dict_lookups c :
  let d := _credential_to_dict c in
  dget (py "credential_id") d = Some (JStr (credential_id c)) /\
  dget (py "issuer") d = Some (JStr (issuer c)) /\
  dget (py "subject") d = Some (JStr (subject c)) /\
  dget (py "scope") d = Some (JArr (map JStr (sorted_set (scope c)))) /\
  dget (py "depth") d = Some (JInt (depth c)) /\
  dget (py "parent_id") d = Some (opt_str (parent_id c)) /\
  dget (py "signature") d = Some (JStr (signature c)) /\
  dget (py "not_before") d = JInt <$> not_before c /\
  dget (py "not_after") d = JInt <$> not_after c.
Proof.
  unfold _credential_to_dict, body. destruct (not_before c), (not_after c); simpl app;
    split_and!; by dlookup.
Qed.

(** The fields either form may carry, apart from the scope. *)
Lemma to_dict_known c :
  unknown_keys (_REQUIRED_CREDENTIAL_FIELDS ∪ _OPTIONAL_CREDENTIAL_FIELDS)
    (_credential_to_dict c) = ∅ /\
  missing_keys _REQUIRED_CREDENTIAL_FIELDS (_credential_to_dict c) = ∅.
Proof.
  unfold _REQUIRED_CREDENTIAL_FIELDS, _OPTIONAL_CREDENTIAL_FIELDS. rewrite keys_of_app.
  unfold _credential_to_dict, body. split.
  - apply unknown_keys_none. destruct (not_before c), (not_after c); simpl; solve_keys.
  - apply missing_keys_none. solve_keys.
Qed.
Ltac field_laws :=
  repeat match goal with
  | H : nonempty_str _ = Some _ |- _ => apply nonempty_str_Some in H as [? ?]
  | H : hex_str _ _ = Some _ |- _ => apply hex_str_Some in H as [? ?]
  | H : non_negative_int _ = Some _ |- _ => apply non_negative_int_Some in H as [? ?]
  | H : scope_strs _ = Some _ |- _ => apply scope_strs_Some in H as (? & ? & ? & ?)
  | H : parent_str _ = Some _ |- _ => apply parent_str_Some in H as [? ?]
  | H : bound_field _ _ = Ok _ |- _ => apply bound_field_ok in H as [? ?]
  end.

Lemma from_dict_sound d c :
  from_dict (JObj d) = Ok c -> wf_credential c /\ wire_form c d.
Proof.
  unfold from_dict. intros H. inv_ok. bool_to_prop.
  apply post_init_ok in H as [-> Hwin]. field_laws.
  split.
  { constructor; simpl; try done. split; [|by rewrite elem_of_list_to_set].
    match goal with H : ?l <> [] |- list_to_set ?l <> _ => destruct l; [done|set_solver] end. }
  assert (forall k, py k ∈ _REQUIRED_CREDENTIAL_FIELDS -> dget (py k) d = Some (field k d)) as Hf.
  { intros k. by apply field_present. }
  split; [eexists; split|].
  - rewrite Hf by (by apply elem_of_keys_py). by f_equal.
  - by apply sorted_set_perm.
  - match goal with |- context [_credential_to_dict ?c] => pose proof (to_dict_known c) as [Hk _];
      pose proof (to_dict_lookups c) as L end.
    intros k Hne. destruct L as (L1 & L2 & L3 & _ & L5 & L6 & L7 & L8 & L9).
    destruct (decide (k ∈ _REQUIRED_CREDENTIAL_FIELDS ∪ _OPTIONAL_CREDENTIAL_FIELDS)) as [Hin|Hin].
    + apply elem_of_union in Hin as [Hin|Hin].
      * pose proof Hin as Hreq. each_key Hin; rewrite Hf by done;
          [rewrite L1|rewrite L2|rewrite L3|done|rewrite L5|rewrite L6|rewrite L7]; simpl; congruence.
      * each_key Hin; [rewrite L8|rewrite L9]; done.
    + rewrite (unknown_keys_absent _ k _ Hk) by done. by eapply unknown_keys_absent.
Qed.
Lemma wire_form_keys c d : wire_form c d -> dkeys d = dkeys (_credential_to_dict c).
Proof.
  intros [(l & Hl & _) Hd]. pose proof (to_dict_lookups c) as (_ & _ & _ & L & _).
  apply dkeys_eq. intros k. destruct (decide (k = py "scope")) as [->|Hne].
  - rewrite Hl, L. split; intros; by eexists.
  - by rewrite Hd.
Qed.

Lemma from_dict_complete d c :
  wf_credential c -> wire_form c d -> from_dict (JObj d) = Ok c.
Proof.
  intros [W1 W2 W3 [W4 W5] W6 W7 W8 W9] Hw. pose proof (wire_form_keys _ _ Hw) as Hkeys.
  destruct Hw as [(l & Hl & Hp) Hd].
  pose proof (to_dict_known c) as [Hu Hm].
  pose proof (to_dict_lookups c) as (L1 & L2 & L3 & _ & L5 & L6 & L7 & L8 & L9).
  rewrite <-Hd in L1, L2, L3, L5, L6, L7, L8, L9 by (by apply py_neq).
  apply field_get in L1, L2, L3, L5, L6, L7, Hl. apply sorted_set_perm in Hp as [Hnd Hsc].
  unfold from_dict. rewrite (unknown_keys_dkeys _ _ _ Hkeys), (missing_keys_dkeys _ _ _ Hkeys), Hu, Hm.
  rewrite !bool_decide_true by done. cbn [negb orb raise_if mbind result_bind].
  rewrite L1, (proj2 (nonempty_str_Some _ _)) by done. cbn [or_raise mbind result_bind].
  rewrite L2, (proj2 (hex_str_Some 64 (JStr (issuer c)) _)) by done. cbn [or_raise mbind result_bind].
      rewrite L3, (proj2 (hex_str_Some 64 (JStr (subject c)) _)) by done. cbn [or_raise mbind result_bind].
  rewrite Hl, (proj2 (scope_strs_Some _ l)).
  2:{ split_and!; [done| |rewrite Hsc, elem_of_list_to_set in W5; done|done].
      intros ->. by rewrite Hsc in W4. }
  cbn [or_raise mbind result_bind].
  rewrite L5, (proj2 (non_negative_int_Some _ _)) by done. cbn [or_raise mbind result_bind].
  rewrite L6, (proj2 (parent_str_Some _ _)) by done. cbn [or_raise mbind result_bind].
  rewrite L7, (proj2 (hex_str_Some 128 _ _)) by done. cbn [or_raise mbind result_bind].
  destruct W9 as (B1 & B2 & B3).
  rewrite (proj2 (bound_field_ok _ _ _) (conj L8 B1)). cbn [mbind result_bind].
  rewrite (proj2 (bound_field_ok _ _ _) (conj L9 B2)). cbn [mbind result_bind].
  rewrite (proj2 (check_inverted_ok _ _ tt) B3). cbn [mbind result_bind].
  apply post_init_ok. rewrite <-Hsc. destruct c; simpl. split; [done|]. by split_and!.
Qed.

Lemma wire_form_self c : wire_form c (_credential_to_dict c).
Proof.
  split; [|done]. exists (sorted_set (scope c)).
  by pose proof (to_dict_lookups c) as (_ & _ & _ & L & _).
Qed.

(** A signed, well-formed credential survives its wire form. *)
Lemma from_to_dict c : wf_credential c -> from_dict (JObj (_credential_to_dict c)) = Ok c.
Proof. intros. apply from_dict_complete; [done|apply wire_form_self]. Qed.

(** What [from_dict] raises is a [CA2AError]. *)
Lemma from_dict_err v e : from_dict v = Err e -> exn_class e = Some InvalidCredential.
Proof.
  unfold from_dict, post_init, check_inverted, bound_field. destruct v; try by intros [= <-].
  intros H. err_cases.
Qed.
End wire_laws.

(** ** Properties *)
Section properties.
Context `{U : Unidata, C : Crypto}.

(** C23: the credential parser is exact.  [from_dict] returns [c] for an object
    precisely when [c]'s fields are well formed (non-empty id, lowercase 32-byte
    keys, a non-empty scope of non-empty strings, a non-negative depth, a parent
    id that is null or non-empty, a lowercase 64-byte signature, bounds that are
    not negative and not inverted) and the object is [c]'s wire form: the same
    members in any order, none missing or unknown, no null bound, the scope
    without duplicates in any order. *)
Theorem from_dict_exact d c :
  from_dict (JObj d) = Ok c <-> wf_credential c /\ wire_form c d.
Proof. split; [apply from_dict_sound|intros [? ?]; by apply from_dict_complete]. Qed.

(** Signing with the issuer's key yields a credential that verifies and that
    differs from the input in its signature only; with any other key [sign]
    raises [InvalidCredential] and produces nothing. *)
Theorem sign_verify `{!CryptoLaws C} c k (Hwin : window_ok c)
    (Hdom : in_domain (JObj (body c)) = true) :
  if bool_decide (ed_public_hex k = issuer c)
  then exists c', sign c k = Ok c' /\ verify_signature c' = Ok tt /\
         with_signature [] c' = with_signature [] c
  else raises InvalidCredential (sign c k) = true.
Proof.
  case_bool_decide as Hk.
  - apply canonicalize_in_domain in Hdom as [m Hm].
    assert (sign c k = Ok (with_signature (hex (ed_sign k m)) c)) as Hs.
    { unfold sign, canonical_bytes. rewrite bool_decide_true by done. simpl. rewrite Hm. simpl.
      by apply post_init_ok. }
    eexists. split; [exact Hs|]. by apply sign_verifies in Hs as (_ & _ & _ & ?).
  - unfold sign. by rewrite bool_decide_false.
Qed.

(** No field of a signed credential can be changed under its signature: two
    credentials whose signed bytes are the same agree on every field but the
    signature, validity bounds (present or absent) included. *)
Theorem signed_body_binds c1 c2 b
    (H1 : canonical_bytes (body c1) = Ok b) (H2 : canonical_bytes (body c2) = Ok b) :
  credential_id c1 = credential_id c2 /\ issuer c1 = issuer c2 /\ subject c1 = subject c2 /\
  scope c1 = scope c2 /\ depth c1 = depth c2 /\ parent_id c1 = parent_id c2 /\
  not_before c1 = not_before c2 /\ not_after c1 = not_after c2.
Proof.
  pose proof (body_canonical_inj _ _ _ H1 H2) as E. unfold with_signature in E.
  injection E as -> -> -> -> -> -> -> ->. by split_and!.
Qed.
End properties.

(** ** A concrete credential *)
Module CredentialExample.
Import AsciiOnly Toy.
Definition cred : DelegationCredential :=
  {| credential_id := py "root"; issuer := ed_public_hex 1%N; subject := ed_public_hex 2%N;
     scope := keys_of ["read"; "write"]%string; depth := 0; parent_id := None; signature := [];
     not_before := None; not_after := Some 200%Z |}.
Lemma cred_window : window_ok cred.
Proof.
  split; [intros z [=]|]. split; [intros z [= <-]; lia|]. intros b a [=].
Qed.

Lemma sign_verify_witness :
  exists c', sign cred 1%N = Ok c' /\ verify_signature c' = Ok tt.
Proof.
  pose proof (sign_verify cred 1%N cred_window ltac:(vm_compute; reflexivity)) as H.
  rewrite bool_decide_true in H by reflexivity. destruct H as (c' & H1 & H2 & _).
  exists c'. split; [exact H1|exact H2].
Defined.

Definition cred_bytes : bytes := get_ok [] (canonical_bytes (body cred)).
Lemma cred_bytes_ok : canonical_bytes (body cred) = Ok cred_bytes.
Proof. vm_compute. reflexivity. Qed.
Lemma signed_bytes_ok : canonical_bytes (body (with_signature (py "00") cred)) = Ok cred_bytes.
Proof. vm_compute. reflexivity. Qed.

Lemma signed_body_binds_witness :
  issuer (with_signature (py "00") cred) = issuer cred.
Proof.
  destruct (signed_body_binds _ _ _ signed_bytes_ok cred_bytes_ok) as (_ & H & _). exact H.
Defined.
End CredentialExample.
