(* ===== verification/Revocation.v ===== *)
(** * Revocation ([ca2a_runtime.delegation.revocation])

    Signed revocation statements, the snapshots that index them, and the lookup
    a chain verification makes.  [Chain] decides what a statement means for a
    chain of credentials. *)
From S2P Require Export Credential.

(** [_DIGEST_RE.fullmatch]: [sha256:] and 64 lowercase hex digits. *)
Definition fullmatch_digest (s : pystr) : bool :=
  match strip_prefix (py "sha256:") s with Some r => fullmatch_hex 64 r | None => false end.

(** [credential_digest(credential)] *)
Definition credential_digest (c : DelegationCredential) : res pystr :=
  message ← canonical_bytes (body c);
  Ok (py "sha256:" ++ sha256_hex message).

Definition REVOCATION_TYPE : pystr := py "ca2a.delegation-revocation.v1".

Module revocation.

Record RevocationStatement := {
  revoked_digest : pystr;
  revoker : pystr;
  issued_at : Z;
  signature : pystr
}.
#[export] Instance statement_eq_dec : EqDecision RevocationStatement.
Proof. solve_decision. Defined.

Definition _STATEMENT_FIELDS : gset pystr :=
  keys_of ["type"; "revoked_digest"; "revoker"; "issued_at"; "signature"]%string.
Definition _SNAPSHOT_FIELDS : gset pystr := keys_of ["as_of"; "revocations"]%string.

Definition digest_str (v : json) : option pystr :=
  match v with JStr s => if fullmatch_digest s then Some s else None | _ => None end.

(** The constructor with [__post_init__], which checks values of any type. *)
Definition new_statement (revoked_digest revoker issued_at : json) (signature : pystr) :
    res RevocationStatement :=
  revoked_digest ← or_raise (digest_str revoked_digest)
    (err InvalidRevocation (py "revoked_digest must be sha256: followed by 64 lowercase hex"));
  revoker ← or_raise (hex_str 64 revoker)
    (err InvalidRevocation (py "revoker must be a lowercase 32-byte Ed25519 key in hex"));
  issued_at ← or_raise (non_negative_int issued_at)
    (err InvalidRevocation (py "issued_at must be a non-negative integer"));
  Ok {| revoked_digest := revoked_digest; revoker := revoker; issued_at := issued_at;
        signature := signature |}.

(** [replace(s, signature=sig)] *)
Definition with_signature (sig : pystr) (s : RevocationStatement) : res RevocationStatement :=
  new_statement (JStr (revoked_digest s)) (JStr (revoker s)) (JInt (issued_at s)) sig.

Definition body (s : RevocationStatement) : dict :=
  [(py "type", JStr REVOCATION_TYPE);
   (py "revoked_digest", JStr (revoked_digest s));
   (py "revoker", JStr (revoker s));
   (py "issued_at", JInt (issued_at s))].

Definition to_dict (s : RevocationStatement) : dict :=
  body s ++ [(py "signature", JStr (signature s))].

Section operations.
Context `{U : Unidata, C : Crypto}.

Definition sign (s : RevocationStatement) (private_key : ed_priv) : res RevocationStatement :=
  let expected := ed_public_hex private_key in
  raise_if (negb (bool_decide (expected = revoker s)))
    (err_d InvalidRevocation (py "signing key does not match revoker")
       (py "revoker=" ++ revoker s ++ py " key=" ++ expected));;
  message ← canonicalize (JObj (body s));
  with_signature (hex (ed_sign private_key message)) s.

Definition verify_signature (s : RevocationStatement) : res unit :=
  raise_if (bool_decide (signature s = []))
    (err InvalidRevocation (py "revocation statement is unsigned"));;
  raise_if (negb (fullmatch_hex 128 (signature s)))
    (err InvalidRevocation (py "signature must be a lowercase 64-byte Ed25519 signature in hex"));;
  try_except
    (pub ← ed_public_of_hex (revoker s);
     sig ← value_error (fromhex (signature s));
     message ← canonicalize (JObj (body s));
     ed_check pub sig message)
    (fun exc => is_py InvalidSignature exc || is_value_error exc)
    (fun exc => Err (err_d InvalidRevocation (py "revocation signature failed to verify")
                       (exn_str exc))).

(** [RevocationStatement.from_dict(data)] *)
Definition from_dict (data : json) : res RevocationStatement :=
  match data with
  | JObj d =>
      let unknown := unknown_keys _STATEMENT_FIELDS d in
      let missing := missing_keys _STATEMENT_FIELDS d in
      raise_if (negb (bool_decide (unknown = ∅)) || negb (bool_decide (missing = ∅)))
        (err_d InvalidRevocation (py "malformed revocation fields")
           (py "missing=" ++ repr_list (sorted_set missing) ++
            py " unknown=" ++ repr_list (sorted_set unknown)));;
      raise_if (negb (bool_decide (field "type" d = JStr REVOCATION_TYPE)))
        (err_d InvalidRevocation (py "unsupported revocation type")
           (py "type=" ++ json_repr (field "type" d)));;
      signature ← or_raise (any_str (field "signature" d))
        (err InvalidRevocation (py "signature must be a string"));
      new_statement (field "revoked_digest" d) (field "revoker" d) (field "issued_at" d) signature
  | _ => Err (err InvalidRevocation (py "revocation statement must be a JSON object"))
  end.

(** [revoke(credential, private_key, issued_at)]; [now] is [int(time.time())]. *)
Definition revoke (now : Z) (credential : DelegationCredential) (private_key : ed_priv)
    (issued_at : option Z) : res RevocationStatement :=
  digest ← credential_digest credential;
  s ← new_statement (JStr digest) (JStr (ed_public_hex private_key))
        (JInt (default now issued_at)) [];
  sign s private_key.
End operations.

(** ** Snapshots *)
Record RevocationSnapshot := {
  as_of : Z;
  statements : list RevocationStatement;
  _by_digest : gmap pystr (list RevocationStatement)
}.

(** [index.setdefault(d, []).append(s)] *)
Definition index_add (index : gmap pystr (list RevocationStatement)) (s : RevocationStatement) :
    gmap pystr (list RevocationStatement) :=
  <[revoked_digest s := default [] (index !! revoked_digest s) ++ [s]]> index.

Section snapshot.
Context `{U : Unidata, C : Crypto}.

(** The loop of [__post_init__], at statement number [i]. *)
Fixpoint index_statements (i : N) (index : gmap pystr (list RevocationStatement))
    (l : list RevocationStatement) : res (gmap pystr (list RevocationStatement)) :=
  match l with
  | [] => Ok index
  | s :: l =>
      try_except (verify_signature s) (is_ca2a InvalidRevocation)
        (fun exc => Err (err_d InvalidRevocation
           (py "revocation " ++ str_N i ++
            py " does not verify; the snapshot is refused as a whole")
           match exn_detail exc with
           | None => exn_str exc
           | Some detail => exn_str exc ++ py ": " ++ detail
           end));;
      index_statements (i + 1) (index_add index s) l
  end.

(** The constructor with [__post_init__]. *)
Definition new_snapshot (as_of : json) (statements : list RevocationStatement) :
    res RevocationSnapshot :=
  as_of ← or_raise (non_negative_int as_of)
    (err InvalidRevocation (py "as_of must be a non-negative integer"));
  index ← index_statements 0 ∅ statements;
  Ok {| as_of := as_of; statements := statements; _by_digest := index |}.

(** [RevocationSnapshot.from_dict(data)] *)
Definition snapshot_from_dict (data : json) : res RevocationSnapshot :=
  match data with
  | JObj d =>
      let unknown := unknown_keys _SNAPSHOT_FIELDS d in
      let missing := missing_keys _SNAPSHOT_FIELDS d in
      raise_if (negb (bool_decide (unknown = ∅)) || negb (bool_decide (missing = ∅)))
        (err_d InvalidRevocation (py "malformed revocation snapshot fields")
           (py "missing=" ++ repr_list (sorted_set missing) ++
            py " unknown=" ++ repr_list (sorted_set unknown)));;
      items ← or_raise (any_list (field "revocations" d))
        (err InvalidRevocation (py "revocations must be an array"));
      statements ← mapM_res from_dict items;
      new_snapshot (field "as_of" d) statements
  | _ => Err (err InvalidRevocation (py "revocation snapshot must be a JSON object"))
  end.
End snapshot.

Definition snapshot_to_dict (s : RevocationSnapshot) : dict :=
  [(py "as_of", JInt (as_of s));
   (py "revocations", JArr (map (fun st => JObj (to_dict st)) (statements s)))].

(** A statement counts under an authority, at an audited time if there is one. *)
Definition in_force (authorized : gset pystr) (at_time : option Z) (s : RevocationStatement) : bool :=
  bool_decide (revoker s ∈ authorized)
  && match at_time with Some t => negb (t <? issued_at s)%Z | None => true end.

(** [effective_revocation(digest, authorized_revokers, at_time)] *)
Definition effective_revocation (s : RevocationSnapshot) (digest : pystr)
    (authorized : gset pystr) (at_time : option Z) : option RevocationStatement :=
  List.find (in_force authorized at_time) (default [] (_by_digest s !! digest)).

Record RevocationStatus := { checked : bool; status_as_of : option Z }.
Definition REVOCATION_NOT_CHECKED : RevocationStatus := {| checked := false; status_as_of := None |}.
Definition state (s : RevocationStatus) : pystr :=
  if checked s then py "not_revoked" else py "not_checked".

End revocation.

(** ** Laws *)
Import revocation.

Section statement_laws.
Context `{U : Unidata, C : Crypto}.
Implicit Types s : RevocationStatement.

Record wf_statement s : Prop := {
  wf_digest : fullmatch_digest (revoked_digest s) = true;
  wf_revoker : fullmatch_hex 64 (revoker s) = true;
  wf_issued_at : (0 <= issued_at s)%Z
}.

Lemma digest_str_Some v t : digest_str v = Some t <-> v = JStr t /\ fullmatch_digest t = true.
Proof.
  split.
  - destruct v as [| | | |t'| |]; simpl; try done.
    destruct (fullmatch_digest t') eqn:E; [|done]. by intros [= <-].
  - intros [-> H]. simpl. by rewrite H.
Qed.

Lemma new_statement_ok d r t sig s :
  new_statement d r t sig = Ok s <->
  wf_statement s /\ d = JStr (revoked_digest s) /\ r = JStr (revoker s) /\
  t = JInt (issued_at s) /\ sig = signature s.
Proof.
  unfold new_statement. split.
  - intros H. inv_ok. apply digest_str_Some in Hs as [-> ?]. apply hex_str_Some in Hs0 as [-> ?].
    apply non_negative_int_Some in Hs1 as [-> ?]. by split_and!.
  - intros ([W1 W2 W3] & -> & -> & -> & ->). simpl. rewrite W1, W2. simpl.
    rewrite (proj2 (Z.leb_le _ _)) by done. by destruct s.
Qed.

Lemma statement_to_dict_keys s :
  unknown_keys _STATEMENT_FIELDS (to_dict s) = ∅ /\ missing_keys _STATEMENT_FIELDS (to_dict s) = ∅.
Proof.
  split; [apply unknown_keys_none|apply missing_keys_none]; unfold to_dict, body; simpl app; solve_keys.
Qed.

(** The statement parser accepts exactly the well-formed wire form, in any key order. *)
Lemma statement_from_dict_spec d s :
  from_dict (JObj d) = Ok s <-> wf_statement s /\ forall k, dget k d = dget k (to_dict s).
Proof.
  pose proof (statement_to_dict_keys s) as [Hu Hm]. unfold from_dict. split.
  - intros H. inv_ok. bool_to_prop.
    apply new_statement_ok in H as (W & E1 & E2 & E3 & E4). split; [done|].
    match goal with H : any_str _ = _ |- _ => apply any_str_Some in H as Esig end.
    match goal with H : field "type" d = _ |- _ => rename H into Etype end.
    eapply dict_agree; [done|done|]. intros k Hk. pose proof Hk as Hreq.
    each_key Hk; erewrite field_present by done;
      [rewrite Etype|rewrite E1|rewrite E2|rewrite E3|rewrite Esig, E4]; reflexivity.
  - intros [W Hd]. assert (dkeys d = dkeys (to_dict s)) as Hk by (apply dkeys_eq; intros; by rewrite Hd).
    rewrite (unknown_keys_dkeys _ _ _ Hk), (missing_keys_dkeys _ _ _ Hk), Hu, Hm, (bool_decide_true (∅ = ∅)) by done.
    cbn [negb orb raise_if mbind result_bind].
    rewrite (field_get "type" d (JStr REVOCATION_TYPE)) by (by rewrite Hd).
    rewrite bool_decide_true by done. cbn [negb orb raise_if mbind result_bind].
    rewrite (field_get "signature" d (JStr (signature s))) by (by rewrite Hd).
    cbn [or_raise mbind result_bind]. apply new_statement_ok.
    split_and!; [done|..|done]; apply field_get; by rewrite Hd.
Qed.

Lemma statement_from_to_dict s : wf_statement s -> from_dict (JObj (to_dict s)) = Ok s.
Proof. intros. by apply statement_from_dict_spec. Qed.

Lemma statement_body_flat s : flat_dict (revocation.body s).
Proof. solve_flat. Qed.

(** The signed bytes determine the statement but for its signature. *)
Lemma statement_body_inj s1 s2 b :
  canonicalize (JObj (revocation.body s1)) = Ok b -> canonicalize (JObj (revocation.body s2)) = Ok b ->
  revoked_digest s1 = revoked_digest s2 /\ revoker s1 = revoker s2 /\ issued_at s1 = issued_at s2.
Proof.
  intros H1 H2.
  pose proof (canonical_flat_lookup _ _ _ (statement_body_flat s1) (statement_body_flat s2) H1 H2) as Hl.
  assert (Some (JStr (revoked_digest s1)) = Some (JStr (revoked_digest s2)))
    by exact (Hl (py "revoked_digest")).
  assert (Some (JStr (revoker s1)) = Some (JStr (revoker s2))) by exact (Hl (py "revoker")).
  assert (Some (JInt (issued_at s1)) = Some (JInt (issued_at s2))) by exact (Hl (py "issued_at")).
  split_and!; congruence.
Qed.

Definition statement_signature_verifies s : Prop :=
  exists pub sig message,
    ed_public_of_hex (revoker s) = Ok pub /\ fromhex (signature s) = Ok sig /\
    canonicalize (JObj (revocation.body s)) = Ok message /\ ed_verify pub sig message = true.

Lemma statement_verify_ok s u :
  verify_signature s = Ok u <->
  fullmatch_hex 128 (signature s) = true /\ statement_signature_verifies s.
Proof.
  destruct u. unfold verify_signature, statement_signature_verifies, ed_check. split.
  - intros H. inv_ok. bool_to_prop. split; [done|]. by repeat eexists.
  - intros (Hhex & pub & sig & m & -> & -> & -> & Hv). rewrite Hhex.
    rewrite bool_decide_false by (intros E; by rewrite E in Hhex). simpl. by rewrite Hv.
Qed.

Lemma statement_body_no_float s : no_float (JObj (revocation.body s)) = true.
Proof. reflexivity. Qed.

Lemma statement_verify_err s e :
  verify_signature s = Err e -> exn_class e = Some InvalidRevocation.
Proof.
  unfold verify_signature. intros [He|(_ & _ & [He|(_ & _ & He)]%bind_err)]%bind_err.
  { by apply raise_if_err in He as [_ ->]. }
  { by apply raise_if_err in He as [_ ->]. }
  by apply signature_check_err in He; [|intros ?; apply canonicalize_value_error, statement_body_no_float|].
Qed.

Lemma sign_ok s k s' :
  sign s k = Ok s' ->
  wf_statement s' /\ revoker s' = ed_public_hex k /\ revoked_digest s' = revoked_digest s /\
  issued_at s' = issued_at s /\
  exists m, canonicalize (JObj (revocation.body s')) = Ok m /\ signature s' = hex (ed_sign k m).
Proof.
  unfold sign. intros H. inv_ok. bool_to_prop.
  unfold with_signature in H. apply new_statement_ok in H as (W & E1 & E2 & E3 & E4).
  assert (revoked_digest s = revoked_digest s') as F1 by congruence.
  assert (revoker s = revoker s') as F2 by congruence.
  assert (issued_at s = issued_at s') as F3 by congruence.
  split_and!; try done; [congruence|]. eexists. split; [|done].
  match goal with H : canonicalize _ = Ok _ |- _ => rewrite <-H end.
  unfold body. by rewrite F1, F2, F3.
Qed.

(** A statement from [revoke] names the credential's digest and the key's
    owner, verifies, and is well formed. *)
Lemma revoke_verifies `{!CryptoLaws C} now c k issued s :
  revoke now c k issued = Ok s ->
  credential_digest c = Ok (revoked_digest s) /\ revoker s = ed_public_hex k /\
  issued_at s = default now issued /\ wf_statement s /\ verify_signature s = Ok tt.
Proof.
  unfold revoke. intros H. inv_ok. apply new_statement_ok in Hs0 as (_ & E1 & E2 & E3 & _).
  apply sign_ok in H as (W & F1 & F2 & F3 & m & Hm & Hsig). split_and!; [congruence..|done|].
  apply statement_verify_ok. rewrite Hsig. split; [apply (fullmatch_hex_hex 64), ed_sign_length|].
  exists (ed_public k), (ed_sign k m), m. rewrite F1, Hsig, fromhex_hex, Hm.
  split_and!; [apply ed_public_of_hex_hex|done|done|apply ed_verify_sign].
Qed.
End statement_laws.

(** ** Snapshots *)
Section snapshot_laws.
Context `{U : Unidata, C : Crypto}.
Implicit Types (s : RevocationStatement) (snap : RevocationSnapshot).

(** The index files each statement under its digest, in order. *)
Definition with_digest (d : pystr) (s : RevocationStatement) : bool :=
  bool_decide (revoked_digest s = d).

Lemma index_add_lookup index s d :
  default [] (index_add index s !! d) =
  default [] (index !! d) ++ List.filter (with_digest d) [s].
Proof.
  unfold index_add, with_digest. simpl. case_bool_decide as H.
  - subst. by rewrite lookup_insert_eq.
  - rewrite lookup_insert_ne by done. by rewrite app_nil_r.
Qed.

Lemma index_statements_ok i index l index' :
  index_statements i index l = Ok index' <->
  Forall (fun s => verify_signature s = Ok tt) l /\ index' = fold_left index_add l index.
Proof.
  revert i index. induction l as [|s l IH]; intros i index; simpl.
  - split; [by intros [= <-]|by intros [_ ->]].
  - rewrite bind_ok. setoid_rewrite try_except_raise_ok. setoid_rewrite IH.
    rewrite Forall_cons. split; [intros ([] & ? & ? & ?); auto|].
    intros [[? ?] ?]. by exists tt.
Qed.

Lemma fold_index_lookup l index d :
  default [] (fold_left index_add l index !! d) =
  default [] (index !! d) ++ List.filter (with_digest d) l.
Proof.
  revert index. induction l as [|s l IH]; intros index; simpl; [by rewrite app_nil_r|].
  rewrite IH, index_add_lookup, <-app_assoc. simpl. by destruct (with_digest d s).
Qed.

(** A snapshot the constructor built: its statements verify and the index is theirs. *)
Definition valid_snapshot snap : Prop :=
  (0 <= as_of snap)%Z /\
  Forall (fun s => verify_signature s = Ok tt) (statements snap) /\
  _by_digest snap = fold_left index_add (statements snap) ∅.

(** The constructor accepts exactly statements that all verify. *)
Lemma new_snapshot_ok v l snap :
  new_snapshot v l = Ok snap <-> valid_snapshot snap /\ v = JInt (as_of snap) /\ l = statements snap.
Proof.
  unfold new_snapshot, valid_snapshot. split.
  - intros H. inv_ok. apply non_negative_int_Some in Hs as [-> ?].
    by apply index_statements_ok in Hs0 as [? ->].
  - intros ((? & Hv & Hi) & -> & ->). rewrite (proj2 (non_negative_int_Some _ (as_of snap))) by done.
    simpl. rewrite (proj2 (index_statements_ok 0 ∅ _ (_by_digest snap))) by done.
    by destruct snap.
Qed.

(** The indexed lookup is the first statement, in snapshot order, that names
    the digest and is in force. *)
Lemma effective_revocation_find snap digest auth t :
  valid_snapshot snap ->
  effective_revocation snap digest auth t =
  List.find (fun s => with_digest digest s && in_force auth t s) (statements snap).
Proof.
  intros (_ & _ & Hi). unfold effective_revocation. rewrite Hi, fold_index_lookup, lookup_empty.
  simpl. clear Hi. induction (statements snap) as [|s l IH]; simpl; [done|].
  destruct (with_digest digest s); simpl; [|done]. by destruct (in_force auth t s).
Qed.

(** [s] revokes [digest] under [auth] at [t]. *)
Definition revokes (s : RevocationStatement) (digest : pystr) (auth : gset pystr)
    (t : option Z) : Prop :=
  revoked_digest s = digest /\ revoker s ∈ auth /\
  forall at_time, t = Some at_time -> (issued_at s <= at_time)%Z.

Lemma in_force_spec s digest auth t :
  with_digest digest s && in_force auth t s = true <-> revokes s digest auth t.
Proof.
  unfold with_digest, in_force, revokes. rewrite !andb_true_iff, !bool_decide_eq_true.
  destruct t as [a|]; [rewrite negb_true_iff, Z.ltb_ge|]; split.
  - intros (? & ? & ?). split_and!; try done. by intros ? [= <-].
  - intros (? & ? & H). auto.
  - intros (? & ? & ?). by split_and!.
  - by intros (? & ? & ?).
Qed.

Lemma effective_revocation_Some snap digest auth t s :
  valid_snapshot snap -> effective_revocation snap digest auth t = Some s ->
  s ∈ statements snap /\ revokes s digest auth t.
Proof.
  intros Hv. rewrite effective_revocation_find by done. intros [Hin Hf]%find_some.
  by rewrite <-in_force_spec, list_elem_of_In.
Qed.

Lemma effective_revocation_None snap digest auth t :
  valid_snapshot snap ->
  effective_revocation snap digest auth t = None <->
  (forall s, s ∈ statements snap -> ~ revokes s digest auth t).
Proof.
  intros Hv. rewrite effective_revocation_find by done. split.
  - intros Hf s Hs%list_elem_of_In Hr%in_force_spec. pose proof (find_none _ _ Hf _ Hs). congruence.
  - intros Hn. destruct (List.find _ _) as [s|] eqn:Hf; [|done]. exfalso.
    apply find_some in Hf as [Hin Hf%in_force_spec]. apply (Hn s); [by apply list_elem_of_In|done].
Qed.

(** More statements, more authority or a later audit never revive a grant. *)
Lemma effective_revocation_mono snap1 snap2 digest auth1 auth2 t :
  valid_snapshot snap1 -> valid_snapshot snap2 ->
  (forall s, s ∈ statements snap1 -> s ∈ statements snap2) -> auth1 ⊆ auth2 ->
  is_Some (effective_revocation snap1 digest auth1 t) ->
  is_Some (effective_revocation snap2 digest auth2 t).
Proof.
  intros Hv1 Hv2 Hin Ha [s Hs].
  apply effective_revocation_Some in Hs as (Hs & Hd & Hr & Ht); [|done].
  destruct (effective_revocation snap2 digest auth2 t) as [s'|] eqn:E; [by eexists|].
  exfalso. apply (proj1 (effective_revocation_None _ _ _ _ Hv2) E s); [auto|].
  split_and!; auto.
Qed.

(** Snapshots survive their wire form. *)
Lemma snapshot_from_to_dict snap :
  valid_snapshot snap -> Forall wf_statement (statements snap) ->
  snapshot_from_dict (JObj (snapshot_to_dict snap)) = Ok snap.
Proof.
  intros Hv Hwf. unfold snapshot_from_dict.
  assert (unknown_keys _SNAPSHOT_FIELDS (snapshot_to_dict snap) = ∅) as ->.
  { apply unknown_keys_none. unfold snapshot_to_dict. solve_keys. }
  assert (missing_keys _SNAPSHOT_FIELDS (snapshot_to_dict snap) = ∅) as ->.
  { apply missing_keys_none. unfold snapshot_to_dict. solve_keys. }
  rewrite (bool_decide_true (∅ = ∅)) by done. cbn [negb orb raise_if mbind result_bind].
  rewrite (field_get "revocations" _ (JArr (map (fun st => JObj (to_dict st)) (statements snap))))
    by (unfold snapshot_to_dict; by dlookup).
  cbn [any_list or_raise mbind result_bind].
  rewrite mapM_res_map, (proj2 (mapM_res_ok _ _ (statements snap))).
  - cbn [mbind result_bind]. rewrite (field_get "as_of" _ (JInt (as_of snap)))
      by (unfold snapshot_to_dict; by dlookup). by apply new_snapshot_ok.
  - apply Forall_Forall2_diag. eapply Forall_impl; [done|apply statement_from_to_dict].
Qed.
End snapshot_laws.

(** ** Properties *)
Section properties.
Context `{U : Unidata, C : Crypto}.

(** A digest names one grant.  Two credentials with the same digest have the
    same signed fields, or the two canonical bodies exhibited are a SHA-256
    collision. *)
Theorem digest_identifies c1 c2 digest
    (H1 : credential_digest c1 = Ok digest) (H2 : credential_digest c2 = Ok digest) :
  Credential.credential.with_signature [] c1 = Credential.credential.with_signature [] c2 \/
  exists m1 m2, canonical_bytes (Credential.credential.body c1) = Ok m1 /\
    canonical_bytes (Credential.credential.body c2) = Ok m2 /\ collides m1 m2.
Proof.
  unfold credential_digest in *.
  apply bind_ok in H1 as (m1 & Hm1 & E1). apply bind_ok in H2 as (m2 & Hm2 & E).
  rewrite <-E1 in E. apply ok_inj, app_inv_head in E. symmetry in E. apply sha256_hex_eq in E as [<-|E].
  - left. by eapply body_canonical_inj.
  - right. by exists m1, m2.
Qed.

(** What [revoke] signs is in force.  The statement it returns names the
    credential's digest, speaks for the signing key, verifies, and a snapshot
    holding it alone reports the credential revoked to every verifier that
    accepts that key as an authority at or after its issue time. *)
Theorem revoke_in_force `{!CryptoLaws C} now c k issued s snap digest auth at_time
    (Hrev : revoke now c k issued = Ok s)
    (Hsnap : new_snapshot (JInt now) [s] = Ok snap)
    (Hdig : credential_digest c = Ok digest) (Hauth : ed_public_hex k ∈ auth)
    (Ht : forall t, at_time = Some t -> Z.le (issued_at s) t) :
  revocation.verify_signature s = Ok tt /\ issued_at s = default now issued /\
  effective_revocation snap digest auth at_time = Some s.
Proof.
  apply revoke_verifies in Hrev as (Hd & Hr & Hi & _ & Hv). split_and!; [done|done|].
  apply new_snapshot_ok in Hsnap as (Hval & _ & Hst).
  rewrite Hdig in Hd. injection Hd as ->.
  rewrite effective_revocation_find by done. rewrite <-Hst. simpl.
  assert (revokes s (revoked_digest s) auth at_time) as Hrs by (split_and!; congruence || done).
  apply in_force_spec in Hrs. by rewrite Hrs.
Qed.

(** The snapshot constructor is fail closed.  It accepts a list of statements
    exactly when every one of them verifies (one forged or unsigned statement
    refuses the whole snapshot, always with [InvalidRevocation]), and the lookup
    through its index is the first statement in snapshot order that names the
    digest and is in force, so no statement is lost or invented by the index. *)
Theorem snapshot_fail_closed as_of l (Has : (0 <= as_of)%Z) :
  match new_snapshot (JInt as_of) l with
  | Ok snap =>
      Forall (fun s => revocation.verify_signature s = Ok tt) l /\ statements snap = l /\
      forall digest auth t, effective_revocation snap digest auth t =
        List.find (fun s => with_digest digest s && in_force auth t s) l
  | Err e =>
      exn_class e = Some InvalidRevocation /\
      Exists (fun s => revocation.verify_signature s <> Ok tt) l
  end.
Proof.
  destruct (new_snapshot (JInt as_of) l) as [snap|e] eqn:E.
  - apply new_snapshot_ok in E as (Hv & _ & ->). split_and!; [apply Hv|done|].
    intros. by apply effective_revocation_find.
  - unfold new_snapshot in E. rewrite (proj2 (non_negative_int_Some (JInt as_of) as_of)) in E by done.
    cbn [or_raise mbind result_bind] in E. apply bind_err in E as [E|(? & _ & E)]; [|done].
    revert E. generalize 0%N, (∅ : gmap pystr (list RevocationStatement)).
    induction l as [|s l IH]; intros i index; cbn [index_statements]; [done|].
    intros [E|([] & Hs & E)]%bind_err.
    + unfold try_except in E. destruct (revocation.verify_signature s) as [[]|x] eqn:Hv; [done|].
      split; [|by left; rewrite Hv]. apply statement_verify_err in Hv.
      destruct x as [x|]; [|done]. simpl in Hv. injection Hv as Hv. simpl in E.
      unfold subclass_of in E. rewrite Hv in E. by injection E as <-.
    + destruct (IH _ _ E) as [? ?]. split; [done|by right].
Qed.

(** Revocation is monotonic.  Going to a snapshot with more statements, or
    widening the authority, never turns a revoked credential back into one that
    is not. *)
Theorem revocation_monotonic snap1 snap2 digest auth1 auth2 t
    (H1 : valid_snapshot snap1) (H2 : valid_snapshot snap2)
    (Hin : forall s, s ∈ statements snap1 -> s ∈ statements snap2) (Ha : auth1 ⊆ auth2) :
  is_Some (effective_revocation snap1 digest auth1 t) ->
  is_Some (effective_revocation snap2 digest auth2 t).
Proof. by apply effective_revocation_mono. Qed.

(** Revocation data round-trips: parsing the wire form of a snapshot the
    constructor accepted, whose statements are well formed, gives it back. *)
Theorem snapshot_round_trip snap
    (Hv : valid_snapshot snap) (Hwf : Forall wf_statement (statements snap)) :
  snapshot_from_dict (JObj (snapshot_to_dict snap)) = Ok snap.
Proof. by apply snapshot_from_to_dict. Qed.
End properties.

(** ** A concrete revocation *)
Module RevocationExample.
Import AsciiOnly Toy CredentialExample.
Definition no_statement : RevocationStatement :=
  {| revoked_digest := []; revoker := []; issued_at := 0; signature := [] |}.
Definition no_snapshot : RevocationSnapshot :=
  {| as_of := 0; statements := []; _by_digest := ∅ |}.
Definition demo_statement : RevocationStatement :=
  get_ok no_statement (revoke 120 cred 1%N (Some 110%Z)).
Definition demo_snapshot : RevocationSnapshot :=
  get_ok no_snapshot (new_snapshot (JInt 120) [demo_statement]).
Definition demo_digest : pystr := get_ok [] (credential_digest cred).
Lemma demo_statement_ok : revoke 120 cred 1%N (Some 110%Z) = Ok demo_statement.
Proof. apply get_ok_spec. vm_compute. reflexivity. Qed.
Lemma demo_snapshot_ok : new_snapshot (JInt 120) [demo_statement] = Ok demo_snapshot.
Proof. apply get_ok_spec. vm_compute. reflexivity. Qed.
Lemma demo_digest_ok : credential_digest cred = Ok demo_digest.
Proof. apply get_ok_spec. vm_compute. reflexivity. Qed.
Definition demo_key : pystr := ed_public_hex (C := toy) 1%N.
Definition demo_key2 : pystr := ed_public_hex (C := toy) 2%N.
#[local] Opaque demo_key demo_key2.
#[local] Opaque demo_statement demo_snapshot demo_digest cred.
Lemma demo_digest_signed :
  credential_digest (Credential.credential.with_signature (py "00") cred) = Ok demo_digest.
Proof. by_decision. Qed.
Lemma demo_statement_time : issued_at demo_statement = 110%Z.
Proof. by_decision. Qed.
Lemma demo_valid : valid_snapshot demo_snapshot /\ [demo_statement] = statements demo_snapshot.
Proof.
  destruct (proj1 (new_snapshot_ok _ _ _) demo_snapshot_ok) as (H & _ & E). split; [exact H|exact E].
Qed.

Lemma digest_identifies_witness :
  Credential.credential.with_signature [] cred =
  Credential.credential.with_signature [] (Credential.credential.with_signature (py "00") cred) \/
  exists m1 m2, canonical_bytes (Credential.credential.body cred) = Ok m1 /\
    canonical_bytes (Credential.credential.body (Credential.credential.with_signature (py "00") cred)) = Ok m2 /\
    collides m1 m2.
Proof. exact (digest_identifies _ _ _ demo_digest_ok demo_digest_signed). Defined.

Lemma revoke_in_force_witness :
  effective_revocation demo_snapshot demo_digest {[demo_key]} (Some 115%Z)
  = Some demo_statement.
Proof.
  destruct (revoke_in_force (C := toy) 120 cred 1%N (Some 110%Z) demo_statement demo_snapshot demo_digest
    {[demo_key]} (Some 115%Z) demo_statement_ok demo_snapshot_ok demo_digest_ok)
    as (_ & _ & H).
  - apply elem_of_singleton. vm_compute. reflexivity.
  - intros t Ht. injection Ht as <-. rewrite demo_statement_time. lia.
  - exact H.
Defined.

Lemma snapshot_fail_closed_witness :
  Forall (fun s => revocation.verify_signature s = Ok tt) [demo_statement].
Proof.
  pose proof (snapshot_fail_closed 120 [demo_statement] ltac:(lia)) as H.
  rewrite demo_snapshot_ok in H. destruct H as [H _]. exact H.
Defined.

Lemma demo_revoked :
  is_Some (effective_revocation demo_snapshot demo_digest {[demo_key]} None).
Proof. by_decision. Qed.

Lemma revocation_monotonic_witness :
  is_Some (effective_revocation demo_snapshot demo_digest
    {[demo_key; demo_key2]} None).
Proof.
  apply (revocation_monotonic demo_snapshot demo_snapshot demo_digest {[demo_key]}).
  - exact (proj1 demo_valid).
  - exact (proj1 demo_valid).
  - intros s Hs. exact Hs.
  - apply union_subseteq_l.
  - exact demo_revoked.
Defined.

Lemma demo_statement_wf : Forall wf_statement (statements demo_snapshot).
Proof.
  rewrite <-(proj2 demo_valid). constructor; [|constructor].
  split; [vm_compute; reflexivity..|]. rewrite demo_statement_time. lia.
Qed.
Lemma snapshot_round_trip_witness :
  snapshot_from_dict (JObj (snapshot_to_dict demo_snapshot)) = Ok demo_snapshot.
Proof. exact (snapshot_round_trip demo_snapshot (proj1 demo_valid) demo_statement_wf). Defined.
End RevocationExample.
