(* ===== verification/Chain.v ===== *)
(** * Chain verification ([ca2a_runtime.delegation.credential.verify_chain])

    The loop over the hops, the revocation pass, and their specification:
    [ChainOk] says what a verified chain is, [NotRevoked] what revocation data
    must not contain. *)
From S2P Require Export Revocation.

(** [not_before=... at_time=...], for a bound that is present. *)
Definition bound_detail (name : string) (bound now : Z) : pystr :=
  py name ++ py "=" ++ str_int bound ++ py " at_time=" ++ str_int now.

Definition hop_msg (i : N) (text : string) : pystr := py "hop " ++ str_N i ++ py text.

Section chain.
Context `{U : Unidata, C : Crypto}.

(** The validity window, after the signature. *)
Definition check_window (now : Z) (i : N) (cred : DelegationCredential) : res unit :=
  match not_before cred with
  | Some b => raise_if (now <? b)%Z
      (err_d CredentialNotYetValid (hop_msg i " credential is not yet valid")
         (bound_detail "not_before" b now))
  | None => Ok tt
  end;;
  match not_after cred with
  | Some a => raise_if (a <? now)%Z
      (err_d CredentialExpired (hop_msg i " credential has expired")
         (bound_detail "not_after" a now))
  | None => Ok tt
  end.

(** The link to the previous hop, or the shape of a root. *)
Definition check_link (i : N) (prev : option DelegationCredential)
    (cred : DelegationCredential) : res unit :=
  match prev with
  | None =>
      raise_if (negb (bool_decide (parent_id cred = None)))
        (err BrokenDelegationLink (py "root credential must not name a parent"));;
      raise_if (negb (depth cred =? 0)%Z)
        (err BrokenDelegationLink (py "root credential must have depth 0"))
  | Some prev =>
      raise_if (negb (bool_decide (parent_id cred = Some (credential_id prev))))
        (err BrokenDelegationLink
           (hop_msg i " parent_id does not match previous credential_id"));;
      raise_if (negb (bool_decide (issuer cred = subject prev)))
        (err BrokenDelegationLink (hop_msg i " issuer is not the previous hop's subject"));;
      raise_if (negb (depth cred =? depth prev + 1)%Z)
        (err BrokenDelegationLink (hop_msg i " depth is not previous + 1"));;
      raise_if (negb (bool_decide (scope cred ⊆ scope prev)))
        (err_d ScopeEscalation (hop_msg i " scope exceeds parent grant")
           (py "added: " ++ repr_list (sorted_set (scope cred ∖ scope prev))))
  end.

(** One turn of the loop. *)
Definition check_hop (now max_depth : Z) (i : N) (seen_ids : gset pystr)
    (prev : option DelegationCredential) (cred : DelegationCredential) : res unit :=
  verify_signature cred;;
  check_window now i cred;;
  raise_if (bool_decide (credential_id cred ∈ seen_ids))
    (err CredentialReplay
       (py "duplicate credential_id at hop " ++ str_N i ++ py ": " ++ credential_id cred));;
  raise_if (max_depth <? depth cred)%Z
    (err DelegationDepthExceeded
       (hop_msg i " depth " ++ str_int (depth cred) ++ py " exceeds max " ++ str_int max_depth));;
  check_link i prev cred.

(** [for i, cred in enumerate(chain)] *)
Fixpoint check_hops (now max_depth : Z) (i : N) (seen_ids : gset pystr)
    (prev : option DelegationCredential) (chain : list DelegationCredential) : res unit :=
  match chain with
  | [] => Ok tt
  | cred :: chain =>
      check_hop now max_depth i seen_ids prev cred;;
      check_hops now max_depth (i + 1) ({[credential_id cred]} ∪ seen_ids) (Some cred) chain
  end.

(** The lookup loop of [_check_revocation]: no hop is revoked by its issuer
    or one above it. *)
Fixpoint check_revoked (revocations : revocation.RevocationSnapshot) (at_time : option Z) (i : N)
    (authorities : gset pystr) (chain : list DelegationCredential) : res unit :=
  match chain with
  | [] => Ok tt
  | cred :: chain =>
      let authorities := {[issuer cred]} ∪ authorities in
      digest ← credential_digest cred;
      match revocation.effective_revocation revocations digest authorities at_time with
      | Some stmt =>
          Err (err_d CredentialRevoked (hop_msg i " credential has been revoked")
                 (py "credential_id=" ++ credential_id cred ++ py " digest=" ++ digest ++
                  py " revoker=" ++ revocation.revoker stmt ++
                  py " issued_at=" ++ str_int (revocation.issued_at stmt)))
      | None => check_revoked revocations at_time (i + 1) authorities chain
      end
  end.

Definition _check_revocation (chain : list DelegationCredential)
    (revocations : option revocation.RevocationSnapshot) (at_time : option Z) (now : Z)
    (max_staleness : option Z) : res revocation.RevocationStatus :=
  match revocations with
  | None =>
      match max_staleness with
      | Some m => Err (err_d RevocationStatusUnknown
          (py "revocation status is required but no revocation snapshot was supplied")
          (py "max_revocation_staleness=" ++ str_int m))
      | None => Ok revocation.REVOCATION_NOT_CHECKED
      end
  | Some snap =>
      check_revoked snap at_time 0 ∅ chain;;
      match max_staleness with
      | Some m => raise_if (m <? now - revocation.as_of snap)%Z
          (err_d RevocationStatusUnknown
             (py "revocation snapshot is older than this verifier accepts")
             (py "as_of=" ++ str_int (revocation.as_of snap) ++
              py " at_time=" ++ str_int now ++
              py " max_revocation_staleness=" ++ str_int m))
      | None => Ok tt
      end;;
      Ok {| revocation.checked := true;
            revocation.status_as_of := Some (revocation.as_of snap) |}
  end.

(** [verify_chain]; [clock] is [int(time.time())]. *)
Definition verify_chain (clock : Z) (chain : list DelegationCredential) (max_depth : Z)
    (trusted_root_issuers : gset pystr) (at_time : option Z)
    (revocations : option revocation.RevocationSnapshot)
    (max_revocation_staleness : option Z) : res revocation.RevocationStatus :=
  raise_if (negative at_time)
    (PyExc ValueError (py "at_time must be a non-negative integer or None"));;
  raise_if (negative max_revocation_staleness)
    (PyExc ValueError (py "max_revocation_staleness must be a non-negative integer or None"));;
  match chain with
  | [] => Err (err BrokenDelegationLink (py "empty delegation chain"))
  | root :: _ =>
      raise_if (negb (bool_decide (issuer root ∈ trusted_root_issuers)))
        (err_d UntrustedDelegationRoot
           (py "delegation root issuer is not trusted by this peer")
           (py "root_issuer=" ++ issuer root));;
      let now := default clock at_time in
      check_hops now max_depth 0 ∅ None chain;;
      _check_revocation chain revocations at_time now max_revocation_staleness
  end.
End chain.

(** ** Specification *)
Section spec.
Context `{U : Unidata, C : Crypto}.
Implicit Types (c d : DelegationCredential) (chain : list DelegationCredential).

(** The window contains [now]. *)
Definition in_window (now : Z) c : Prop :=
  (forall b, not_before c = Some b -> Z.le b now) /\
  (forall a, not_after c = Some a -> Z.le now a).

(** The five invariants of a chain. *)
Record ChainOk (now max_depth : Z) chain : Prop := {
  ok_signature : forall c, c ∈ chain -> verify_signature c = Ok tt;
  ok_window : forall c, c ∈ chain -> in_window now c;
  ok_unique : NoDup (credential_id <$> chain);
  ok_depth : forall i c, chain !! i = Some c -> depth c = Z.of_nat i /\ (depth c <= max_depth)%Z;
  ok_root : forall c, chain !! 0%nat = Some c -> parent_id c = None;
  ok_link : forall i c d, chain !! i = Some c -> chain !! S i = Some d ->
    parent_id d = Some (credential_id c) /\ issuer d = subject c /\ scope d ⊆ scope c
}.

(** The issuers with authority over hop [i]. *)
Definition authorities_at chain (i : nat) : gset pystr := list_to_set (issuer <$> take (S i) chain).

(** No statement of the snapshot, issued by an authority over a hop and in
    force at the time, names that hop's digest. *)
Definition NotRevoked (snap : revocation.RevocationSnapshot) (at_time : option Z) chain : Prop :=
  forall i c digest s, chain !! i = Some c -> credential_digest c = Ok digest ->
    s ∈ revocation.statements snap -> ~ revokes s digest (authorities_at chain i) at_time.

(** The staleness policy. *)
Definition FreshEnough (snap : revocation.RevocationSnapshot) (now : Z) (max_staleness : option Z) : Prop :=
  forall m, max_staleness = Some m -> (now - revocation.as_of snap <= m)%Z.
End spec.

(** ** The hop loop *)
Section loop_laws.
Context `{U : Unidata, C : Crypto}.
Implicit Types (c d : DelegationCredential) (chain pre : list DelegationCredential).

Definition link_ok (prev : option DelegationCredential) c : Prop :=
  match prev with
  | None => parent_id c = None /\ depth c = 0%Z
  | Some p =>
      parent_id c = Some (credential_id p) /\ issuer c = subject p /\
      depth c = (depth p + 1)%Z /\ scope c ⊆ scope p
  end.

Lemma check_window_ok now i c u : check_window now i c = Ok u <-> in_window now c.
Proof.
  unfold check_window, in_window. rewrite bind_ok. destruct u. split.
  - intros ([] & H1 & H2). split.
    + intros b Hb. rewrite Hb in H1. inv_ok. by bool_to_prop.
    + intros a Ha. rewrite Ha in H2. inv_ok. by bool_to_prop.
  - intros [H1 H2]. exists tt. split.
    + destruct (not_before c); [|done]. apply raise_if_ok, Z.ltb_ge. auto.
    + destruct (not_after c); [|done]. apply raise_if_ok, Z.ltb_ge. auto.
Qed.

Lemma check_link_ok i prev c u : check_link i prev c = Ok u <-> link_ok prev c.
Proof.
  unfold check_link, link_ok. destruct prev as [p|].
  - rewrite !seq_ok, guard_ok, !(ok_unit _ _ (guard_ok _ _)), (ok_unit _ _ (guard_eqb_ok _ _ _)).
    done.
  - rewrite seq_ok, guard_eqb_ok, (ok_unit _ _ (guard_ok _ _)). done.
Qed.

Lemma check_hop_ok now max_depth i seen prev c u :
  check_hop now max_depth i seen prev c = Ok u <->
  verify_signature c = Ok tt /\ in_window now c /\ credential_id c ∉ seen /\
  (depth c <= max_depth)%Z /\ link_ok prev c.
Proof.
  unfold check_hop. rewrite !seq_ok, check_link_ok, (ok_unit _ _ (check_window_ok _ _ _)).
  rewrite (ok_unit _ _ (refuse_ok _ _)), (ok_unit _ _ (refuse_ltb_ok _ _ _)).
  rewrite (ok_unit (verify_signature c = Ok tt)) by (by intros []). done.
Qed.

Lemma last_lookup_Some pre c : last pre = Some c <-> exists p, pre = p ++ [c].
Proof. apply last_Some. Qed.

(** A chain is well formed hop by hop. *)
Lemma ChainOk_nil now max_depth : ChainOk now max_depth [].
Proof.
  split; try (by intros ? ?%elem_of_nil); try (by intros ? ? [=]); try done. constructor.
Qed.

Lemma ChainOk_snoc now max_depth pre c :
  ChainOk now max_depth (pre ++ [c]) <->
  ChainOk now max_depth pre /\
  verify_signature c = Ok tt /\ in_window now c /\
  credential_id c ∉ (list_to_set (credential_id <$> pre) : gset pystr) /\
  (depth c <= max_depth)%Z /\ link_ok (last pre) c.
Proof.
  split.
  - intros [Hs Hw Hu Hd Hr Hl]. rewrite fmap_app in Hu. apply NoDup_app in Hu as (Hu & Hn & _).
    assert ((pre ++ [c]) !! length pre = Some c) as Hc by (rewrite lookup_app_r, Nat.sub_diag; done).
    split; [|split_and!].
    + split.
      * intros d Hin. apply Hs. apply elem_of_app. auto.
      * intros d Hin. apply Hw. apply elem_of_app. auto.
      * done.
      * intros i d Hi. apply Hd. by apply lookup_app_l_Some.
      * intros d Hi. apply Hr. by apply lookup_app_l_Some.
      * intros i d e Hi He. apply (Hl i); by apply lookup_app_l_Some.
    + apply Hs, elem_of_app. right. by apply list_elem_of_singleton.
    + apply Hw, elem_of_app. right. by apply list_elem_of_singleton.
    + rewrite elem_of_list_to_set. intros Hin. apply (Hn _ Hin). by apply list_elem_of_singleton.
    + by destruct (Hd _ _ Hc).
    + pose proof (Hd _ _ Hc) as [Hdc _]. destruct (last pre) as [p|] eqn:El.
      * apply last_Some in El as [q ->]. rewrite length_app in *. simpl in *.
        rewrite Nat.add_1_r in *.
        assert (((q ++ [p]) ++ [c]) !! length q = Some p) as Hp.
        { rewrite <-app_assoc. by rewrite lookup_app_r, Nat.sub_diag. }
        destruct (Hl _ _ _ Hp Hc) as (? & ? & ?). split_and!; try done.
        destruct (Hd _ _ Hp) as [-> _]. rewrite Hdc. lia.
      * apply last_None in El as ->. simpl in *. split; [by apply Hr|done].
  - intros ([Hs Hw Hu Hd Hr Hl] & Hsc & Hwc & Hidc & Hdc & Hlc).
    assert (forall i d, (pre ++ [c]) !! i = Some d ->
      pre !! i = Some d \/ (i = length pre /\ d = c)) as Hlk.
    { intros i d [?|[? Hi]]%lookup_app_Some; [auto|right]. apply list_lookup_singleton_Some in Hi.
      destruct Hi. split; [lia|done]. }
    assert (depth c = Z.of_nat (length pre)) as Hdep.
    { destruct (last pre) as [p|] eqn:El; simpl in Hlc.
      - apply last_Some in El as [q ->]. destruct (Hd (length q) p) as [Hp _].
        { by rewrite lookup_app_r, Nat.sub_diag. }
        rewrite length_app. simpl. destruct Hlc as (_ & _ & -> & _). rewrite Hp. lia.
      - apply last_None in El as ->. by destruct Hlc. }
    split.
    + intros d [?| ->%list_elem_of_singleton]%elem_of_app; auto.
    + intros d [?| ->%list_elem_of_singleton]%elem_of_app; auto.
    + rewrite fmap_app. apply NoDup_app. split_and!; [done| |apply NoDup_singleton].
      intros x Hx ->%list_elem_of_singleton. by rewrite elem_of_list_to_set in Hidc.
    + intros i d [?|[-> ->]]%Hlk; auto.
    + intros d [?|[Hi ->]]%Hlk; auto. symmetry in Hi. apply nil_length_inv in Hi as ->. by destruct Hlc.
    + intros i d e Hi He. apply Hlk in He as [He|[He ->]].
      * apply Hlk in Hi as [Hi|[-> ->]]; [by eapply Hl|].
        apply lookup_lt_Some in He. lia.
      * apply Hlk in Hi as [Hi|[-> ->]]; [|lia].
        rewrite last_lookup, <-He in Hlc. simpl in Hlc. rewrite Hi in Hlc.
        by destruct Hlc as (? & ? & _ & ?).
Qed.

Lemma ChainOk_prefix now max_depth pre chain :
  ChainOk now max_depth (pre ++ chain) -> ChainOk now max_depth pre.
Proof.
  revert pre. induction chain as [|c chain IH]; intros pre H; [by rewrite app_nil_r in H|].
  apply (ChainOk_snoc _ _ pre c). apply IH. by rewrite <-app_assoc.
Qed.

(** The loop, from any checked prefix. *)
Lemma check_hops_ok now max_depth pre chain u :
  ChainOk now max_depth pre ->
  check_hops now max_depth (N.of_nat (length pre)) (list_to_set (credential_id <$> pre))
    (last pre) chain = Ok u <-> ChainOk now max_depth (pre ++ chain).
Proof.
  revert pre. induction chain as [|c chain IH]; intros pre Hpre; cbn [check_hops].
  { rewrite app_nil_r. destruct u. done. }
  rewrite seq_ok, (ok_unit _ _ (check_hop_ok _ _ _ _ _ _)).
  rewrite (cons_middle c pre chain), app_assoc.
  assert (check_hops now max_depth (N.of_nat (length pre) + 1)
            ({[credential_id c]} ∪ list_to_set (credential_id <$> pre)) (Some c) chain =
          check_hops now max_depth (N.of_nat (length (pre ++ [c])))
            (list_to_set (credential_id <$> (pre ++ [c]))) (last (pre ++ [c])) chain) as ->.
  { rewrite last_snoc, length_app, fmap_app, list_to_set_app_L. simpl.
    f_equal; [lia|]. rewrite union_empty_r_L. apply union_comm_L. }
  split.
  - intros [Hc Hr]. apply IH; [|done]. apply ChainOk_snoc. auto.
  - intros H. pose proof (ChainOk_prefix _ _ _ _ H) as Hsn.
    split; [by apply ChainOk_snoc in Hsn as [_ ?]|by apply IH].
Qed.

(** The error is that of the first bad hop: everything before it is in order. *)
Lemma check_hops_err now max_depth pre chain e :
  ChainOk now max_depth pre ->
  check_hops now max_depth (N.of_nat (length pre)) (list_to_set (credential_id <$> pre))
    (last pre) chain = Err e ->
  exists k c, chain !! k = Some c /\ ChainOk now max_depth (pre ++ take k chain) /\
    check_hop now max_depth (N.of_nat (length pre + k))
      (list_to_set (credential_id <$> (pre ++ take k chain))) (last (pre ++ take k chain)) c = Err e.
Proof.
  revert pre. induction chain as [|c chain IH]; intros pre Hpre; cbn [check_hops]; [done|].
  intros [He|([] & Hc & He)]%bind_err.
  - exists 0%nat, c. cbn [take lookup]. rewrite app_nil_r, Nat.add_0_r. done.
  - apply check_hop_ok in Hc.
    assert (ChainOk now max_depth (pre ++ [c])) as Hsn by (by apply ChainOk_snoc).
    destruct (IH (pre ++ [c]) Hsn) as (k & d & Hd & Hok & Hk).
    + rewrite last_snoc, length_app, fmap_app, list_to_set_app_L. simpl.
      rewrite union_empty_r_L, (union_comm_L (list_to_set _)).
      replace (N.of_nat (length pre + 1)) with (N.of_nat (length pre) + 1)%N by lia. done.
    + exists (S k), d. cbn [take]. rewrite (cons_middle c pre), app_assoc.
      split_and!; [done|done|]. rewrite length_app in Hk. simpl in Hk.
      by replace (length pre + S k) with (length pre + 1 + k) by lia.
Qed.
End loop_laws.

(** ** The revocation pass *)
Section revocation_laws.
Context `{U : Unidata, C : Crypto}.
Implicit Types (c d : DelegationCredential) (chain : list DelegationCredential)
  (snap : revocation.RevocationSnapshot).

(** A verified credential has a digest. *)
Lemma verified_digest c : verify_signature c = Ok tt -> exists digest, credential_digest c = Ok digest.
Proof.
  intros (_ & pub & sig & m & _ & _ & Hm & _)%verify_signature_ok.
  unfold credential_digest. rewrite Hm. by eexists.
Qed.

Lemma check_revoked_ok snap t i auth chain u :
  check_revoked snap t i auth chain = Ok u <->
  (forall k c, chain !! k = Some c -> exists digest, credential_digest c = Ok digest /\
     revocation.effective_revocation snap digest
       (auth ∪ list_to_set (issuer <$> take (S k) chain)) t = None).
Proof.
  revert i auth. induction chain as [|c chain IH]; intros i auth; cbn [check_revoked].
  { destruct u. split; [by intros _ ??|done]. }
  split.
  - intros H. apply bind_ok in H as (digest & Hd & H). case_match eqn:He; [done|].
    intros [|k] d; [intros [= <-]|intros Hk].
    + exists digest. split; [done|]. simpl. by rewrite union_empty_r_L, union_comm_L.
    + destruct (proj1 (IH _ _) H k d Hk) as (dg & ? & Hnone). exists dg. split; [done|].
      rewrite <-Hnone. f_equal. simpl. set_solver.
  - intros H. destruct (H 0%nat c eq_refl) as (digest & -> & He). cbn [mbind result_bind].
    simpl in He. rewrite union_empty_r_L, union_comm_L in He. rewrite He. apply IH.
    intros k d Hk. destruct (H (S k) d Hk) as (dg & ? & Hnone). exists dg. split; [done|].
    rewrite <-Hnone. f_equal. simpl. set_solver.
Qed.

Lemma NotRevoked_spec snap t chain :
  valid_snapshot snap -> (forall c, c ∈ chain -> verify_signature c = Ok tt) ->
  check_revoked snap t 0 ∅ chain = Ok tt <-> NotRevoked snap t chain.
Proof.
  intros Hv Hs. rewrite check_revoked_ok. unfold NotRevoked, authorities_at. split.
  - intros H k c digest s Hk Hd Hin. destruct (H k c Hk) as (dg & Hdg & Hn).
    rewrite Hd in Hdg. injection Hdg as <-. rewrite union_empty_l_L in Hn.
    by apply (proj1 (effective_revocation_None _ _ _ _ Hv) Hn).
  - intros H k c Hk. destruct (verified_digest c) as [digest Hd].
    { by apply Hs, (list_elem_of_lookup_2 _ k). }
    exists digest. split; [done|]. rewrite union_empty_l_L.
    apply effective_revocation_None; [done|]. intros s Hin. by eapply H.
Qed.

(** The pass fails only by naming a revoked hop. *)
Lemma check_revoked_err snap t i auth chain e :
  (forall c, c ∈ chain -> verify_signature c = Ok tt) ->
  check_revoked snap t i auth chain = Err e -> exn_class e = Some CredentialRevoked.
Proof.
  revert i auth. induction chain as [|c chain IH]; intros i auth Hs; cbn [check_revoked]; [done|].
  destruct (verified_digest c) as [digest ->]; [apply Hs; by left|]. cbn [mbind result_bind].
  case_match; [by intros [= <-]|]. apply IH. intros d Hd. apply Hs. by right.
Qed.

(** What each data point of the revocation policy establishes. *)
Definition revocation_outcome (now : Z) (at_time : option Z)
    (revocations : option revocation.RevocationSnapshot) (max_staleness : option Z)
    (st : revocation.RevocationStatus) chain : Prop :=
  match revocations with
  | None => max_staleness = None /\ st = revocation.REVOCATION_NOT_CHECKED
  | Some snap =>
      NotRevoked snap at_time chain /\ FreshEnough snap now max_staleness /\
      st = {| revocation.checked := true;
              revocation.status_as_of := Some (revocation.as_of snap) |}
  end.

Lemma check_revocation_ok chain revocations t now max_staleness st :
  (forall snap, revocations = Some snap -> valid_snapshot snap) ->
  (forall c, c ∈ chain -> verify_signature c = Ok tt) ->
  _check_revocation chain revocations t now max_staleness = Ok st <->
  revocation_outcome now t revocations max_staleness st chain.
Proof.
  intros Hv Hs. unfold _check_revocation, revocation_outcome, FreshEnough.
  destruct revocations as [snap|].
  - rewrite !seq_ok. setoid_rewrite <-(NotRevoked_spec snap t chain); [|auto|done].
    split.
    + intros ([[] Hr] & [[] Hm] & [= <-]). split_and!; [done| |done].
      intros m ->. by apply refuse_ltb_ok in Hm.
    + intros (Hr & Hf & ->). split_and!; [by exists tt| |done].
      destruct max_staleness as [m|]; exists tt; [|done]. apply refuse_ltb_ok. auto.
  - destruct max_staleness as [m|]; split; try done.
    + by intros [? _].
    + by intros [= <-].
    + by intros [_ ->].
Qed.
End revocation_laws.

(** ** [verify_chain] *)
Section verify_laws.
Context `{U : Unidata, C : Crypto}.
Implicit Types (c d root : DelegationCredential) (chain : list DelegationCredential)
  (snap : revocation.RevocationSnapshot).

Definition args_ok (at_time max_staleness : option Z) : Prop :=
  (forall z, at_time = Some z -> Z.le 0 z) /\ (forall z, max_staleness = Some z -> Z.le 0 z).

Lemma negative_refuse (o : option Z) (e : exn) u :
  raise_if (negative o) e = Ok u <-> (forall z, o = Some z -> Z.le 0 z).
Proof. rewrite raise_if_ok. apply negative_false. Qed.

Lemma verify_chain_ok clock chain max_depth trusted at_time revocations max_staleness st :
  (forall snap, revocations = Some snap -> valid_snapshot snap) ->
  let now := default clock at_time in
  verify_chain clock chain max_depth trusted at_time revocations max_staleness = Ok st <->
  args_ok at_time max_staleness /\
  (exists root rest, chain = root :: rest /\ issuer root ∈ trusted) /\
  ChainOk now max_depth chain /\
  revocation_outcome now at_time revocations max_staleness st chain.
Proof.
  intros Hv now. unfold verify_chain, args_ok.
  rewrite !seq_ok, !(ok_unit _ _ (negative_refuse _ _)).
  assert (forall A B X Y : Prop, (X <-> Y) -> A /\ B /\ X <-> (A /\ B) /\ Y) as Ha by tauto.
  apply Ha. clear Ha.
  destruct chain as [|root rest].
  { split; [done|]. by intros ((? & ? & ? & _) & _). }
  rewrite !seq_ok, (ok_unit _ _ (guard_ok _ _)). fold now.
  pose proof (check_hops_ok now max_depth [] (root :: rest)) as Hh. simpl in Hh.
  rewrite (ok_unit _ _ (fun u => Hh u (ChainOk_nil _ _))). split.
  - intros (Ht & Hc & Hr). split_and!; [by exists root, rest|done|].
    apply check_revocation_ok in Hr; [done..|]. apply Hc.
  - intros ((r & rs & [= <- <-] & Ht) & Hc & Hr). split_and!; [done|done|].
    apply check_revocation_ok; [done| |done]. apply Hc.
Qed.

(** No verification failure carries a provenance record. *)
Lemma verify_chain_recordless clock chain max_depth trusted at_time revocations max_staleness :
  recordless (verify_chain clock chain max_depth trusted at_time revocations max_staleness).
Proof.
  unfold verify_chain, _check_revocation. solve_recordless.
  - generalize (0%N) (∅ : gset pystr) (@None DelegationCredential) (d :: chain).
    intros i seen prev l. revert i seen prev.
    induction l as [|c l IH]; intros i seen prev; simpl; [apply recordless_ok|].
    unfold check_hop, verify_signature, ed_public_of_hex, ed_check, check_window, check_link, canonical_bytes.
    solve_recordless.
  - generalize (0%N) (∅ : gset pystr) (d :: chain). intros i auth l. revert i auth.
    induction l as [|c l IH]; intros i auth; simpl; [apply recordless_ok|].
    unfold credential_digest, canonical_bytes. solve_recordless.
Qed.

(** Whatever the revocation data, an accepted chain is in order and its root
    trusted. *)
Lemma verify_chain_hops clock chain max_depth trusted at_time revocations max_staleness st :
  verify_chain clock chain max_depth trusted at_time revocations max_staleness = Ok st ->
  (exists root rest, chain = root :: rest /\ issuer root ∈ trusted) /\
  ChainOk (default clock at_time) max_depth chain.
Proof.
  unfold verify_chain. intros (_ & _ & (_ & _ & H)%bind_ok)%bind_ok.
  destruct chain as [|root rest]; [done|]. apply bind_ok in H as ([] & Ht & H).
  apply guard_ok in Ht. apply bind_ok in H as ([] & Hh & _). split; [by exists root, rest|].
  by apply (check_hops_ok _ _ [] (root :: rest) _ (ChainOk_nil _ _)) in Hh.
Qed.

(** Attenuation, transitively: scope only shrinks down the chain. *)
Lemma ChainOk_attenuates now max_depth chain i j c d :
  ChainOk now max_depth chain -> i <= j -> chain !! i = Some c -> chain !! j = Some d ->
  scope d ⊆ scope c.
Proof.
  intros Hok Hij Hc. revert d. induction Hij as [|j Hij IH]; intros d Hd.
  - rewrite Hc in Hd. by injection Hd as ->.
  - destruct (lookup_lt_is_Some_2 chain j) as [e He].
    { apply lookup_lt_Some in Hd. lia. }
    destruct (ok_link _ _ _ Hok _ _ _ He Hd) as (_ & _ & Hs). etrans; [done|]. by apply IH.
Qed.

(** The number of hops is bounded by the depth limit. *)
Lemma ChainOk_length now max_depth chain :
  ChainOk now max_depth chain -> (Z.of_nat (length chain) <= Z.max 0 (max_depth + 1))%Z.
Proof.
  intros Hok. destruct (last chain) as [c|] eqn:El.
  - rewrite last_lookup in El. destruct (ok_depth _ _ _ Hok _ _ El) as [Hd Hm].
    apply lookup_lt_Some in El. lia.
  - apply last_None in El as ->. simpl. lia.
Qed.
End verify_laws.

(** ** The order of faults

    The error a refusal reports, with everything the code checks before it. *)
Section faults.
Context `{U : Unidata, C : Crypto}.
Implicit Types (c d root : DelegationCredential) (chain : list DelegationCredential)
  (snap : revocation.RevocationSnapshot).

(** The link to the previous hop, its scope aside. *)
Definition linked_to (prev : option DelegationCredential) c : Prop :=
  match prev with
  | None => parent_id c = None /\ depth c = 0%Z
  | Some p => parent_id c = Some (credential_id p) /\ issuer c = subject p /\
              depth c = (depth p + 1)%Z
  end.

(** One hop, after the ids [seen] and the hop [prev]. *)
Inductive hop_fault (now max_depth : Z) (seen : gset pystr) (prev : option DelegationCredential) c (e : exn) : Prop :=
| fault_signature :
    verify_signature c = Err e -> hop_fault now max_depth seen prev c e
| fault_early b :
    verify_signature c = Ok tt -> not_before c = Some b -> (now < b)%Z ->
    exn_class e = Some CredentialNotYetValid -> hop_fault now max_depth seen prev c e
| fault_late a :
    verify_signature c = Ok tt -> (forall b, not_before c = Some b -> (b <= now)%Z) ->
    not_after c = Some a -> (a < now)%Z ->
    exn_class e = Some CredentialExpired -> hop_fault now max_depth seen prev c e
| fault_replay :
    verify_signature c = Ok tt -> in_window now c -> credential_id c ∈ seen ->
    exn_class e = Some CredentialReplay -> hop_fault now max_depth seen prev c e
| fault_depth :
    verify_signature c = Ok tt -> in_window now c -> credential_id c ∉ seen -> (max_depth < depth c)%Z ->
    exn_class e = Some DelegationDepthExceeded -> hop_fault now max_depth seen prev c e
| fault_link :
    verify_signature c = Ok tt -> in_window now c -> credential_id c ∉ seen -> (depth c <= max_depth)%Z ->
    ~ linked_to prev c ->
    exn_class e = Some BrokenDelegationLink -> hop_fault now max_depth seen prev c e
| fault_scope p :
    verify_signature c = Ok tt -> in_window now c -> credential_id c ∉ seen -> (depth c <= max_depth)%Z ->
    linked_to prev c -> prev = Some p -> ~ scope c ⊆ scope p ->
    exn_class e = Some ScopeEscalation -> hop_fault now max_depth seen prev c e.

(** The revocation pass over a chain in order. *)
Inductive revocation_fault (now : Z) (at_time : option Z) (revocations : option revocation.RevocationSnapshot)
    (max_staleness : option Z) chain (e : exn) : Prop :=
| fault_no_snapshot m :
    revocations = None -> max_staleness = Some m ->
    exn_class e = Some RevocationStatusUnknown ->
    revocation_fault now at_time revocations max_staleness chain e
| fault_revoked snap :
    revocations = Some snap -> ~ NotRevoked snap at_time chain ->
    exn_class e = Some CredentialRevoked ->
    revocation_fault now at_time revocations max_staleness chain e
| fault_stale snap m :
    revocations = Some snap -> NotRevoked snap at_time chain ->
    max_staleness = Some m -> (m < now - revocation.as_of snap)%Z ->
    exn_class e = Some RevocationStatusUnknown ->
    revocation_fault now at_time revocations max_staleness chain e.

(** The whole of [verify_chain]. *)
Inductive chain_fault (now max_depth : Z) (trusted : gset pystr) (at_time : option Z)
    (revocations : option revocation.RevocationSnapshot) (max_staleness : option Z) chain (e : exn) : Prop :=
| fault_time :
    negative at_time = true -> is_py ValueError e = true ->
    chain_fault now max_depth trusted at_time revocations max_staleness chain e
| fault_staleness :
    negative at_time = false -> negative max_staleness = true -> is_py ValueError e = true ->
    chain_fault now max_depth trusted at_time revocations max_staleness chain e
| fault_empty :
    args_ok at_time max_staleness -> chain = [] -> exn_class e = Some BrokenDelegationLink ->
    chain_fault now max_depth trusted at_time revocations max_staleness chain e
| fault_root root rest :
    args_ok at_time max_staleness -> chain = root :: rest -> issuer root ∉ trusted ->
    exn_class e = Some UntrustedDelegationRoot ->
    chain_fault now max_depth trusted at_time revocations max_staleness chain e
| fault_hop root rest k c :
    args_ok at_time max_staleness -> chain = root :: rest -> issuer root ∈ trusted ->
    chain !! k = Some c -> ChainOk now max_depth (take k chain) ->
    hop_fault now max_depth (list_to_set (credential_id <$> take k chain)) (last (take k chain)) c e ->
    chain_fault now max_depth trusted at_time revocations max_staleness chain e
| fault_revocation root rest :
    args_ok at_time max_staleness -> chain = root :: rest -> issuer root ∈ trusted ->
    ChainOk now max_depth chain ->
    revocation_fault now at_time revocations max_staleness chain e ->
    chain_fault now max_depth trusted at_time revocations max_staleness chain e.

Lemma check_window_fault now max_depth i seen prev c e :
  verify_signature c = Ok tt -> check_window now i c = Err e -> hop_fault now max_depth seen prev c e.
Proof.
  intros Hs. unfold check_window. intros [He|([] & Hb & He)]%bind_err.
  - destruct (not_before c) as [b|] eqn:Eb; [|done]. apply raise_if_err in He as [Hn ->].
    apply Z.ltb_lt in Hn. by eapply fault_early.
  - destruct (not_after c) as [a|] eqn:Ea; [|done]. apply raise_if_err in He as [Hn ->].
    apply Z.ltb_lt in Hn. eapply fault_late; [done| |done..].
    intros b Eb. rewrite Eb in Hb. by apply refuse_ltb_ok in Hb.
Qed.

Lemma check_link_fault i prev c e :
  check_link i prev c = Err e ->
  (~ linked_to prev c /\ exn_class e = Some BrokenDelegationLink) \/
  (exists p, prev = Some p /\ linked_to prev c /\ ~ scope c ⊆ scope p /\ exn_class e = Some ScopeEscalation).
Proof.
  unfold check_link, linked_to. destruct prev as [p|].
  - intros [[Hn ->]%raise_if_err|([] & H1%guard_ok & He)]%bind_err; [left; bool_to_prop; split; [tauto|done]|].
    apply bind_err in He as [[Hn ->]%raise_if_err|([] & H2%guard_ok & He)]; [left; bool_to_prop; split; [tauto|done]|].
    apply bind_err in He as [[Hn ->]%raise_if_err|([] & H3%guard_eqb_ok & He)].
    { left. bool_to_prop. split; [|done]. lia. }
    apply raise_if_err in He as [Hn ->]. bool_to_prop. right. by exists p.
  - intros [[Hn ->]%raise_if_err|([] & H1%guard_ok & He)]%bind_err; [left; bool_to_prop; split; [tauto|done]|].
    apply raise_if_err in He as [Hn ->]. left. bool_to_prop. split; [tauto|done].
Qed.

Lemma check_hop_fault now max_depth i seen prev c e :
  check_hop now max_depth i seen prev c = Err e -> hop_fault now max_depth seen prev c e.
Proof.
  unfold check_hop. intros [He|([] & Hs & He)]%bind_err; [by apply fault_signature|].
  apply bind_err in He as [He|([] & Hw%check_window_ok & He)]; [by eapply check_window_fault|].
  apply bind_err in He as [[Hn ->]%raise_if_err|([] & Hi%refuse_ok & He)]; [bool_to_prop; by apply fault_replay|].
  apply bind_err in He as [[Hn ->]%raise_if_err|([] & Hd%refuse_ltb_ok & He)]; [bool_to_prop; by apply fault_depth|].
  apply check_link_fault in He as [[? ?]|(p & ? & ? & ? & ?)]; [by apply fault_link|by apply (fault_scope _ _ _ _ _ _ p)].
Qed.

Lemma check_revocation_fault chain revocations t now max_staleness e :
  (forall snap, revocations = Some snap -> valid_snapshot snap) ->
  (forall c, c ∈ chain -> verify_signature c = Ok tt) ->
  _check_revocation chain revocations t now max_staleness = Err e ->
  revocation_fault now t revocations max_staleness chain e.
Proof.
  intros Hv Hs. unfold _check_revocation. destruct revocations as [snap|].
  - intros [He|([] & Hr & He)]%bind_err.
    + apply (fault_revoked _ _ _ _ _ _ snap); [done| |by eapply check_revoked_err].
      rewrite <-NotRevoked_spec; [|by apply Hv|done]. by rewrite He.
    + apply NotRevoked_spec in Hr; [|by apply Hv|done].
      destruct max_staleness as [m|]; [|done]. apply bind_err in He as [[Hn ->]%raise_if_err|(? & _ & ?)]; [|done].
      apply Z.ltb_lt in Hn. by apply (fault_stale _ _ _ _ _ _ snap m).
  - destruct max_staleness as [m|]; [|done]. intros [= <-]. by apply (fault_no_snapshot _ _ _ _ _ _ m).
Qed.
End faults.

Section no_effect.
Context `{U : Unidata, C : Crypto}.
Implicit Types (c d : DelegationCredential) (chain : list DelegationCredential).

Lemma check_revoked_ext snap1 snap2 t i auth chain :
  (forall k c digest, chain !! k = Some c -> credential_digest c = Ok digest ->
     let authorities := auth ∪ list_to_set (issuer <$> take (S k) chain) in
     revocation.effective_revocation snap1 digest authorities t =
     revocation.effective_revocation snap2 digest authorities t) ->
  check_revoked snap1 t i auth chain = check_revoked snap2 t i auth chain.
Proof.
  revert i auth. induction chain as [|c chain IH]; intros i auth H; cbn [check_revoked]; [done|].
  destruct (credential_digest c) as [digest|] eqn:Hd; [|done]. cbn [mbind result_bind].
  pose proof (H 0%nat c digest eq_refl Hd) as H0. simpl in H0.
  rewrite union_empty_r_L, union_comm_L in H0. rewrite H0. case_match; [done|].
  apply IH. intros k d dg Hk Hdg. pose proof (H (S k) d dg Hk Hdg) as Hk1. simpl in *.
  assert ({[issuer c]} ∪ auth ∪ list_to_set (issuer <$> take (S k) chain) =
          auth ∪ ({[issuer c]} ∪ list_to_set (issuer <$> take (S k) chain) : gset pystr)) as ->
    by set_solver.
  exact Hk1.
Qed.

Lemma effective_revocation_skip snap1 snap2 l1 s l2 digest auth t :
  valid_snapshot snap1 -> valid_snapshot snap2 ->
  revocation.statements snap1 = l1 ++ l2 -> revocation.statements snap2 = l1 ++ s :: l2 ->
  ~ revokes s digest auth t ->
  revocation.effective_revocation snap2 digest auth t =
  revocation.effective_revocation snap1 digest auth t.
Proof.
  intros Hv1 Hv2 E1 E2 Hs. rewrite !effective_revocation_find, E1, E2 by done.
  rewrite <-in_force_spec in Hs. apply not_true_is_false in Hs.
  clear E1 E2. induction l1 as [|x l1 IH]; simpl; [by rewrite Hs|]. case_match; [done|exact IH].
Qed.
End no_effect.

(** ** Properties *)
Section properties.
Context `{U : Unidata, C : Crypto}.
Implicit Types (c d : DelegationCredential) (chain : list DelegationCredential).

(** C7: [verify_chain] returns exactly for the chains its specification admits:
    non-negative evaluation parameters, a root issuer this peer trusts, every
    signature valid, every window containing the evaluation time, distinct ids,
    depths counting up from 0 within the limit, continuous links with shrinking
    scope, and, with a snapshot, no hop revoked by an authority over it and a
    fresh enough snapshot; and it returns the revocation status that was
    established, [not_checked] when there was no snapshot. *)
Theorem verify_chain_spec clock chain max_depth trusted at_time revocations max_staleness st
    (Hsnap : forall snap, revocations = Some snap -> valid_snapshot snap) :
  verify_chain clock chain max_depth trusted at_time revocations max_staleness = Ok st <->
  args_ok at_time max_staleness /\
  (exists root rest, chain = root :: rest /\ issuer root ∈ trusted) /\
  ChainOk (default clock at_time) max_depth chain /\
  revocation_outcome (default clock at_time) at_time revocations max_staleness st chain.
Proof. by apply verify_chain_ok. Qed.

(** C8: in an accepted chain authority only narrows and its line is unbroken:
    every capability a hop carries was carried by every hop above it, each hop
    was issued (and signed) by the subject of the hop above, the ids are
    distinct, and there are at most [max_depth + 1] hops. *)
Theorem verify_chain_attenuates clock chain max_depth trusted at_time revocations max_staleness st
    (Hsnap : forall snap, revocations = Some snap -> valid_snapshot snap)
    (Hok : verify_chain clock chain max_depth trusted at_time revocations max_staleness = Ok st) :
  (forall i j c d, i <= j -> chain !! i = Some c -> chain !! j = Some d -> scope d ⊆ scope c) /\
  (forall i c d, chain !! i = Some c -> chain !! S i = Some d -> issuer d = subject c) /\
  (forall c, c ∈ chain -> signature_verifies c) /\
  NoDup (credential_id <$> chain) /\
  (1 <= Z.of_nat (length chain) <= max_depth + 1)%Z.
Proof.
  apply verify_chain_ok in Hok as (_ & (r & rs & -> & _) & Hc & _); [|done]. split_and!.
  - intros i j c d Hij Hi Hj. by eapply ChainOk_attenuates.
  - intros i c d Hi Hj. by destruct (ok_link _ _ _ Hc _ _ _ Hi Hj) as (_ & ? & _).
  - intros c Hin. by apply verify_signature_ok, (ok_signature _ _ _ Hc).
  - apply Hc.
  - simpl. lia.
  - pose proof (ChainOk_length _ _ _ Hc). simpl in *. lia.
Qed.

(** C9: a refusal is the first fault in the documented order.  The error is bad
    evaluation parameters first ([at_time] before the staleness bound); only with good
    ones an empty chain; only then an untrusted root, before any signature of the
    chain is looked at; only under a trusted root the first hop that fails a check,
    with all hops before it in order, and of that hop's checks (signature, window,
    replay, depth, link, scope) the first that fails; only for a chain wholly in order
    a revoked hop or a missing snapshot; and a stale snapshot only when it revokes
    nothing. *)
Theorem verify_chain_first_fault clock chain max_depth trusted at_time revocations max_staleness e
    (Hsnap : forall snap, revocations = Some snap -> valid_snapshot snap)
    (Herr : verify_chain clock chain max_depth trusted at_time revocations max_staleness = Err e) :
  chain_fault (default clock at_time) max_depth trusted at_time revocations max_staleness chain e.
Proof.
  unfold verify_chain in Herr.
  apply bind_err in Herr as [[Hn ->]%raise_if_err|([] & Ha1 & Herr)]; [by apply fault_time|].
  apply raise_if_ok in Ha1.
  apply bind_err in Herr as [[Hn ->]%raise_if_err|([] & Ha2 & Herr)]; [by apply fault_staleness|].
  apply raise_if_ok in Ha2.
  assert (args_ok at_time max_staleness) as Hargs by (by split; apply negative_false).
  destruct chain as [|root rest]; [injection Herr as <-; by apply fault_empty|].
  apply bind_err in Herr as [[Hn ->]%raise_if_err|([] & Ht & Herr)].
  { bool_to_prop. by apply (fault_root _ _ _ _ _ _ _ _ root rest). }
  apply guard_ok in Ht. apply bind_err in Herr as [He|([] & Hh & Herr)].
  - apply (check_hops_err _ _ [] _ _ (ChainOk_nil _ _)) in He as (k & c & Hk & Hok & Hc).
    by apply (fault_hop _ _ _ _ _ _ _ _ root rest k c); [..|eapply check_hop_fault].
  - apply (check_hops_ok _ max_depth [] _ tt (ChainOk_nil _ _)) in Hh.
    apply (fault_revocation _ _ _ _ _ _ _ _ root rest); try done.
    by eapply check_revocation_fault; [| |exact Herr]; [done|apply Hh].
Qed.

(** C10: revoking a hop refuses every chain that contains it.  If the snapshot
    holds a statement naming hop [i]'s digest, signed by the issuer of hop [i]
    or of any hop above it and issued by the audited time, the chain is refused
    whatever follows the hop, and with [CredentialRevoked] when the chain is
    otherwise in order. *)
Theorem revoked_hop_refused clock chain max_depth trusted at_time snap max_staleness i j c d s
    (Hsnap : valid_snapshot snap)
    (Hc : chain !! i = Some c) (Hd : chain !! j = Some d) (Hji : j <= i)
    (Hs : s ∈ revocation.statements snap)
    (Hdig : credential_digest c = Ok (revocation.revoked_digest s))
    (Hrev : revocation.revoker s = issuer d)
    (Ht : forall t, at_time = Some t -> Z.le (revocation.issued_at s) t) :
  exists e, verify_chain clock chain max_depth trusted at_time (Some snap) max_staleness = Err e /\
    (args_ok at_time max_staleness ->
     (exists root rest, chain = root :: rest /\ issuer root ∈ trusted) ->
     ChainOk (default clock at_time) max_depth chain ->
     exn_class e = Some CredentialRevoked).
Proof.
  assert (revokes s (revocation.revoked_digest s) (authorities_at chain i) at_time) as Hr.
  { split_and!; [done| |done]. unfold authorities_at. rewrite elem_of_list_to_set, Hrev.
    apply list_elem_of_fmap_2, (list_elem_of_lookup_2 _ j). rewrite lookup_take_lt by lia; done. }
  destruct (verify_chain _ _ _ _ _ _ _) as [st|e] eqn:Hv.
  { exfalso. apply verify_chain_ok in Hv as (_ & _ & _ & Hn & _); [|by intros ? [= <-]].
    by apply (Hn i c _ s Hc Hdig Hs). }
  exists e. split; [done|]. intros [Ha1 Ha2] (root & rest & -> & Htr) Hok.
  unfold verify_chain in Hv. apply negative_false in Ha1, Ha2. rewrite Ha1, Ha2 in Hv.
  rewrite bool_decide_true in Hv by done. cbn [negb raise_if mbind result_bind] in Hv.
  rewrite (proj2 (check_hops_ok _ max_depth [] (root :: rest) tt (ChainOk_nil _ _)) Hok) in Hv.
  cbn [mbind result_bind _check_revocation] in Hv.
  apply bind_err in Hv as [Hv|([] & Hv & _)].
  - eapply check_revoked_err; [apply Hok|done].
  - exfalso. apply NotRevoked_spec in Hv; [|done|apply Hok]. by apply (Hv i c _ s Hc Hdig Hs).
Qed.

(** C11: a statement from a key with no authority over the hop it names (the
    hop's own subject, a delegate further down, a stranger) changes nothing:
    verification gives the same result with and without it, on every branch. *)
Theorem unauthorized_statement_ignored clock chain max_depth trusted at_time max_staleness
    snap snap' l1 s l2
    (Hv : valid_snapshot snap) (Hv' : valid_snapshot snap')
    (Hl : revocation.statements snap = l1 ++ l2)
    (Hl' : revocation.statements snap' = l1 ++ s :: l2)
    (Has : revocation.as_of snap' = revocation.as_of snap)
    (Hno : forall i c, chain !! i = Some c -> credential_digest c = Ok (revocation.revoked_digest s) ->
       revocation.revoker s ∉ authorities_at chain i) :
  verify_chain clock chain max_depth trusted at_time (Some snap') max_staleness =
  verify_chain clock chain max_depth trusted at_time (Some snap) max_staleness.
Proof.
  unfold verify_chain, _check_revocation. rewrite Has.
  assert (check_revoked snap' at_time 0 ∅ chain = check_revoked snap at_time 0 ∅ chain) as E.
  { apply check_revoked_ext. intros k c digest Hk Hd. cbv zeta. rewrite union_empty_l_L.
    apply (effective_revocation_skip snap snap' l1 s l2); try done.
    intros (<- & Hr & _). by apply (Hno k c Hk Hd). }
  destruct chain; [done|]. by rewrite E.
Qed.
End properties.

(** ** A concrete chain

    Two hops, windows and a snapshot, signed with the toy keys. *)
Module ChainExample.
Import AsciiOnly Toy.

Definition pub (k : N) : pystr := ed_public_hex k.
Definition unsigned (id : string) (iss sub : N) (caps : list string) (d : Z)
    (parent : option pystr) : DelegationCredential :=
  {| credential_id := py id; issuer := pub iss; subject := pub sub; scope := keys_of caps;
     depth := d; parent_id := parent; signature := []; not_before := Some 100%Z;
     not_after := Some 200%Z |}.
Definition signed (k : N) (c : DelegationCredential) : DelegationCredential :=
  get_ok c (sign c k).
Definition root : DelegationCredential :=
  signed 1 (unsigned "root" 1 2 ["read"; "write"]%string 0 None).
Definition leaf : DelegationCredential :=
  signed 2 (unsigned "leaf" 2 3 ["read"]%string 1 (Some (py "root"))).
Definition demo_chain : list DelegationCredential := [root; leaf].

Import RevocationExample.
Definition statement (c : DelegationCredential) (k : N) (at_ : Z) : revocation.RevocationStatement :=
  get_ok no_statement (revocation.revoke 0 c k (Some at_)).
Definition snapshot (l : list revocation.RevocationStatement) : revocation.RevocationSnapshot :=
  get_ok no_snapshot (revocation.new_snapshot (JInt 120) l).
(** The leaf's own subject cannot revoke it; the root's issuer can. *)
Definition by_delegate := statement leaf 3 110.
Definition by_root := statement leaf 1 140.

Lemma snapshot_valid l :
  is_ok (revocation.new_snapshot (JInt 120) l) = true -> valid_snapshot (snapshot l) /\
  revocation.statements (snapshot l) = l /\ revocation.as_of (snapshot l) = 120%Z.
Proof.
  unfold snapshot. intros H. pose proof (get_ok_spec no_snapshot _ H) as E.
  destruct (proj1 (new_snapshot_ok _ _ _) E) as (Hv & Ea & El).
  injection Ea as Ea. by rewrite <-El, <-Ea.
Qed.

Definition verify (l : list revocation.RevocationStatement) (at_time : option Z) :=
  verify_chain 150 demo_chain 8 {[pub 1]} at_time (Some (snapshot l)) (Some 60%Z).

Lemma verify_clean : verify [by_delegate] None =
  Ok {| revocation.checked := true; revocation.status_as_of := Some 120%Z |}.
Proof. vm_compute. reflexivity. Qed.

Lemma demo_chain_ok : ChainOk 150 8 demo_chain.
Proof.
  apply (proj1 (verify_chain_ok 150 demo_chain 8 {[pub 1]} None None None
    revocation.REVOCATION_NOT_CHECKED (fun _ H => ltac:(discriminate H)))).
  vm_compute. reflexivity.
Qed.

Lemma only_snapshot snap : valid_snapshot snap -> forall s, Some snap = Some s -> valid_snapshot s.
Proof. by intros ? ? [= <-]. Qed.
#[local] Opaque snapshot statement root leaf by_root by_delegate verify_chain.

Lemma verify_chain_spec_witness :
  verify_chain 150 demo_chain 8 {[pub 1]} None (Some (snapshot [by_delegate])) (Some 60%Z) =
    Ok {| revocation.checked := true; revocation.status_as_of := Some 120%Z |} /\
  NotRevoked (snapshot [by_delegate]) None demo_chain.
Proof.
  assert (verify [by_delegate] None =
    Ok {| revocation.checked := true; revocation.status_as_of := Some 120%Z |}) as H
    by exact verify_clean.
  split; [exact H|]. apply verify_chain_spec in H; [apply H|].
  apply only_snapshot, snapshot_valid. vm_compute. reflexivity.
Defined.

Lemma verify_chain_attenuates_witness :
  scope leaf ⊆ scope root /\ NoDup (credential_id <$> demo_chain).
Proof.
  destruct (verify_chain_attenuates 150 demo_chain 8 {[pub 1]} None None None
    revocation.REVOCATION_NOT_CHECKED) as (H & _ & _ & Hn & _).
  - intros snap [=].
  - vm_compute. reflexivity.
  - split; [|exact Hn]. apply (H 0 1); [lia|reflexivity|reflexivity].
Defined.

Lemma verify_expired :
  raises CredentialExpired (verify_chain 250 demo_chain 8 {[pub 1]} None None None) = true.
Proof. vm_compute. reflexivity. Qed.
Lemma root_trusted : issuer root ∈ ({[pub 1]} : gset pystr).
Proof. by_decision. Qed.
Lemma root_not_after : not_after root = Some 200%Z.
Proof. vm_compute. reflexivity. Qed.

Lemma without_snapshot snap : None = Some snap -> valid_snapshot snap.
Proof. intros [=]. Qed.

Lemma verify_chain_first_fault_witness :
  exists e, verify_chain 250 demo_chain 8 {[pub 1]} None None None = Err e /\
    exists k c, demo_chain !! k = Some c /\ ChainOk 250 8 (take k demo_chain) /\
      hop_fault 250 8 (list_to_set (credential_id <$> take k demo_chain)) (last (take k demo_chain)) c e.
Proof.
  destruct (proj1 (raises_spec _ _) verify_expired) as (e & E & _).
  exists e. split; [exact E|].
  destruct (verify_chain_first_fault _ _ _ _ _ _ _ _ without_snapshot E)
    as [H _|_ H _|_ H _|r rs _ Hr H _|r rs k c _ _ _ Hk H1 H2|r rs _ _ _ H _].
  - discriminate H.
  - discriminate H.
  - discriminate H.
  - exfalso. apply (f_equal head) in Hr. apply (inj Some) in Hr.
    rewrite <-Hr in H. exact (H root_trusted).
  - exists k, c. split; [exact Hk|]. split; [exact H1|exact H2].
  - exfalso. destruct (ok_window _ _ _ H root) as [_ Ha]; [left|].
    specialize (Ha 200%Z root_not_after). exact (Ha eq_refl).
Defined.

Lemma by_root_digest : credential_digest leaf = Ok (revocation.revoked_digest by_root).
Proof. vm_compute. reflexivity. Qed.
Lemma by_root_issuer : revocation.revoker by_root = issuer root.
Proof. vm_compute. reflexivity. Qed.
Lemma by_root_snapshot : is_ok (revocation.new_snapshot (JInt 120) [by_root]) = true.
Proof. vm_compute. reflexivity. Qed.

Lemma revoked_hop_refused_witness :
  exists e, verify [by_root] None = Err e /\ exn_class e = Some CredentialRevoked.
Proof.
  destruct (snapshot_valid [by_root] by_root_snapshot) as (Hv & Hs & _).
  destruct (revoked_hop_refused 150 demo_chain 8 {[pub 1]} None (snapshot [by_root])
    (Some 60%Z) 1 0 leaf root by_root Hv eq_refl eq_refl) as (e & He & Hcls).
  - lia.
  - rewrite Hs. left.
  - exact by_root_digest.
  - exact by_root_issuer.
  - intros t Ht. discriminate Ht.
  - exists e. split; [exact He|]. apply Hcls.
    + split; intros z Hz; [discriminate Hz|]. injection Hz as <-. lia.
    + exists root, [leaf]. split; [reflexivity|exact root_trusted].
    + exact demo_chain_ok.
Defined.

Lemma by_delegate_snapshot : is_ok (revocation.new_snapshot (JInt 120) [by_delegate]) = true.
Proof. vm_compute. reflexivity. Qed.
Lemma root_not_named :
  bool_decide (credential_digest root = Ok (revocation.revoked_digest by_delegate)) = false.
Proof. vm_compute. reflexivity. Qed.
Lemma delegate_not_authority : revocation.revoker by_delegate ∉ authorities_at demo_chain 1.
Proof. by_decision. Qed.
Lemma unauthorized_statement_ignored_witness :
  verify [by_delegate] None = verify [] None.
Proof.
  destruct (snapshot_valid [by_delegate] by_delegate_snapshot) as (Hv & Hs & Ha).
  destruct (snapshot_valid [] eq_refl) as (Hv0 & Hs0 & Ha0).
  unfold verify. apply (unauthorized_statement_ignored 150 demo_chain 8 {[pub 1]} None (Some 60%Z)
    (snapshot []) (snapshot [by_delegate]) [] by_delegate []).
  - exact Hv0.
  - exact Hv.
  - exact Hs0.
  - exact Hs.
  - rewrite Ha, Ha0. reflexivity.
  - intros [|[|i]] c Hc Hd.
    + apply (inj Some) in Hc. rewrite <-Hc in Hd. exfalso.
      pose proof root_not_named as Hn. apply bool_decide_eq_false in Hn. exact (Hn Hd).
    + exact delegate_not_authority.
    + discriminate Hc.
Defined.
End ChainExample.
