(* ===== verification/Challenge.v ===== *)
(** * Challenges ([ca2a_runtime.challenge])

    Stateless challenges: [v1.<expiry>.<random>.<mac>] with the MAC taken over
    the first three parts under the server's secret. *)
From S2P Require Export Credential.

Module challenge.

Definition DEFAULT_TTL_SECONDS : Z := 60.
Definition _PREFIX : pystr := py "v1".
Definition _RANDOM_BYTES : nat := 16.

(** [".".join] of the parts. *)
Definition dot : N := 46.
Definition dotted (parts : list pystr) : pystr := join [dot] parts.

(** [f"{_PREFIX}.{expiry}.{rand}"] *)
Definition mac_text (expiry : Z) (rand : pystr) : pystr := dotted [_PREFIX; str_int expiry; rand].

Definition _mac (secret : bytes) (expiry : Z) (rand : pystr) : res pystr :=
  message ← encode_utf8 (mac_text expiry rand);
  Ok (hex (hmac_sha256 secret message)).

(** [issue_challenge(secret, ttl_seconds)] at clock [time_]; [token] is the text
    of [secrets.token_hex(_RANDOM_BYTES)]. *)
Definition issue_challenge (time_ : Z) (token : pystr) (secret : bytes) (ttl_seconds : Z) :
    res pystr :=
  raise_if (ttl_seconds <=? 0)%Z
    (PyExc ValueError
       (py "ttl_seconds must be positive; a challenge that never validates is not a challenge"));;
  let expiry := (time_ + ttl_seconds)%Z in
  mac ← _mac secret expiry token;
  Ok (dotted [_PREFIX; str_int expiry; token; mac]).

Definition expired_error : exn :=
  err_d AttestationFailed (py "challenge has expired")
    (py "challenges are valid for a bounded window; this is a stateless " ++
     py "scheme, so the window is the only replay bound there is").

Section verify.
Context `{U : Unidata}.

(** [verify_challenge(secret, challenge, now)]; [clock] is [int(time.time())]. *)
Definition verify_challenge (clock : Z) (secret : bytes) (challenge : pystr) (now : option Z) :
    res unit :=
  match split_on dot challenge with
  | [prefix; expiry_str; rand; mac] =>
      raise_if (negb (bool_decide (prefix = _PREFIX)))
        (err_d AttestationFailed (py "challenge is malformed")
           (py "expected v1.<expiry>.<random>.<mac>"));;
      raise_if (negb (fullmatch_hex 64 mac))
        (err_d AttestationFailed (py "challenge is malformed")
           (py "the MAC is not 64 lowercase hex characters"));;
      expiry ← or_raise (py_int expiry_str)
        (err AttestationFailed (py "challenge expiry is not an integer"));
      expected ← _mac secret expiry rand;
      raise_if (negb (bool_decide (mac = expected)))
        (err_d AttestationFailed (py "challenge was not issued by this peer")
           (py "the MAC does not verify under this peer's challenge secret"));;
      raise_if (expiry <=? default clock now)%Z expired_error
  | _ =>
      Err (err_d AttestationFailed (py "challenge is malformed")
             (py "expected v1.<expiry>.<random>.<mac>"))
  end.
End verify.

End challenge.
Import challenge.

(** ** Laws *)

Lemma dotted4 a b c d : dotted [a; b; c; d] = a ++ dot :: b ++ dot :: c ++ dot :: d.
Proof. unfold dotted. by rewrite !join_cons, join_single. Qed.

Lemma dotted4_last a b c d e : dotted [a; b; c; d] = dotted [a; b; c; e] -> d = e.
Proof.
  rewrite !dotted4. intros H. apply app_inv_head in H. injection H as H.
  apply app_inv_head in H. injection H as H. apply app_inv_head in H. by injection H as H.
Qed.

Lemma split_dotted4 a b c d :
  dot ∉ a -> dot ∉ b -> dot ∉ c -> dot ∉ d -> split_on dot (dotted [a; b; c; d]) = [a; b; c; d].
Proof. intros. rewrite dotted4, !split_on_app, split_on_free; done. Qed.

Lemma digits_no_dot s : Forall (fun c => is_digit c = true) s -> dot ∉ s.
Proof.
  intros H Hin. rewrite Forall_forall in H. apply H in Hin. by vm_compute in Hin.
Qed.
Lemma str_int_no_dot z : dot ∉ str_int z.
Proof.
  unfold str_int. case_match; [apply not_elem_of_cons; split; [done|]|];
    apply digits_no_dot, str_N_digits.
Qed.
Lemma lower_hex_no_dot s : Forall (fun c => is_lower_hex c = true) s -> dot ∉ s.
Proof. intros H Hin. rewrite Forall_forall in H. apply H in Hin. by vm_compute in Hin. Qed.
Lemma prefix_no_dot : dot ∉ _PREFIX.
Proof. by_decision. Qed.

Section laws.
Context `{U : Unidata}.

(** A challenge this secret authenticates, with the expiry it carries. *)
Definition authentic (secret : bytes) (ch : pystr) (expiry : Z) : Prop :=
  exists expiry_str rand message,
    ch = dotted [_PREFIX; expiry_str; rand; hex (hmac_sha256 secret message)] /\
    dot ∉ expiry_str /\ dot ∉ rand /\ py_int expiry_str = Some expiry /\
    utf8_encode (mac_text expiry rand) = Some message.

Lemma encode_utf8_ok s b : encode_utf8 s = Ok b <-> utf8_encode s = Some b.
Proof. apply or_raise_ok. Qed.

Lemma _mac_ok secret expiry rand m :
  _mac secret expiry rand = Ok m <->
  exists message, utf8_encode (mac_text expiry rand) = Some message /\ m = hex (hmac_sha256 secret message).
Proof.
  unfold _mac. rewrite bind_ok. setoid_rewrite encode_utf8_ok.
  split; intros (x & H & E); exists x; (split; [done|]).
  - by apply ok_inj in E.
  - by subst.
Qed.

Lemma hmac_hex_shape secret message : fullmatch_hex 64 (hex (hmac_sha256 secret message)) = true.
Proof. apply (fullmatch_hex_hex 32), length_hmac_sha256. Qed.

Lemma verify_challenge_sound clock secret ch now u :
  verify_challenge clock secret ch now = Ok u ->
  exists expiry, authentic secret ch expiry /\ (default clock now < expiry)%Z.
Proof.
  unfold verify_challenge, authentic.
  destruct (split_on dot ch) as [|a [|b [|c [|d [|]]]]] eqn:Hs; try discriminate. intros H.
  inv_ok. bool_to_prop. pose proof (split_on_join dot ch) as Hj. rewrite Hs in Hj.
  match goal with H : _mac _ _ _ = Ok _ |- _ => apply _mac_ok in H as (m & Hm & Hmac) end.
  assert (forall p, p ∈ [a; b; c; d] -> dot ∉ p) as Hfree.
  { intros p Hp. rewrite <-Hs in Hp. by eapply split_on_parts_free. }
  eexists. split; [|eassumption]. exists b, c, m. split; [|split; [|split; [|split]]].
  - rewrite <-Hj. unfold dotted. congruence.
  - apply Hfree. set_solver.
  - apply Hfree. set_solver.
  - assumption.
  - assumption.
Qed.

Lemma verify_challenge_complete clock secret ch now expiry :
  authentic secret ch expiry -> (default clock now < expiry)%Z ->
  verify_challenge clock secret ch now = Ok tt.
Proof.
  intros (es & rand & m & -> & He & Hr & Hi & Hm) Hlt. unfold verify_challenge.
  rewrite split_dotted4; [|apply prefix_no_dot|done|done|apply lower_hex_no_dot, hex_lower].
  apply guard_pass; [by rewrite bool_decide_true|].
  apply guard_pass; [by rewrite hmac_hex_shape|].
  apply (bind_pass _ _ expiry); [by rewrite Hi|].
  eapply bind_pass; [by apply _mac_ok; eauto|].
  apply guard_pass; [by rewrite bool_decide_true|].
  by apply raise_if_ok, Z.leb_gt.
Qed.

Lemma verify_challenge_ok clock secret ch now u :
  verify_challenge clock secret ch now = Ok u <->
  exists expiry, authentic secret ch expiry /\ (default clock now < expiry)%Z.
Proof.
  split; [apply verify_challenge_sound|]. destruct u. intros (? & ? & ?).
  by eapply verify_challenge_complete.
Qed.

(** The integer text [issue_challenge] writes reads back. *)
Definition int_text_bound : Z := 10 ^ 4300.
Lemma py_int_str_int z : (0 <= z < int_text_bound)%Z -> py_int (str_int z) = Some z.
Proof.
  unfold int_text_bound. intros [Hz Hb]. unfold str_int.
  rewrite (proj2 (Z.ltb_ge z 0)) by done.
  rewrite py_int_str_N; [by rewrite Z2N.id|].
  apply N2Z.inj_lt. rewrite Z2N.id by done. rewrite N2Z.inj_pow.
  unfold int_max_str_digits. rewrite N2Nat.id. exact Hb.
Qed.

Lemma issue_challenge_ok time_ token secret ttl ch :
  issue_challenge time_ token secret ttl = Ok ch <->
  (0 < ttl)%Z /\ exists message, utf8_encode (mac_text (time_ + ttl) token) = Some message /\
    ch = dotted [_PREFIX; str_int (time_ + ttl); token; hex (hmac_sha256 secret message)].
Proof.
  unfold issue_challenge. split.
  - intros H. inv_ok. bool_to_prop. split; [done|].
    match goal with H : _mac _ _ _ = Ok _ |- _ => apply _mac_ok in H as (m & Hm & ->) end. eauto.
  - intros (Ht & m & Hm & ->). rewrite (proj2 (Z.leb_gt _ _)) by done. simpl.
    by rewrite (proj2 (_mac_ok _ _ _ _) (ex_intro _ m (conj Hm eq_refl))).
Qed.
End laws.

(** ** Properties *)
Section properties.
Context `{U : Unidata}.

Lemma issued_authentic time_ rnd secret ttl ch :
  issue_challenge time_ (hex rnd) secret ttl = Ok ch ->
  (0 <= time_)%Z -> (time_ + ttl < int_text_bound)%Z -> authentic secret ch (time_ + ttl).
Proof.
  intros (Ht & m & Hm & ->)%issue_challenge_ok Hz Hb.
  exists (str_int (time_ + ttl)), (hex rnd), m. split_and!; try done.
  - apply str_int_no_dot.
  - apply lower_hex_no_dot, hex_lower.
  - apply py_int_str_int. lia.
Qed.

Lemma authentic_outcome clock secret ch now expiry :
  authentic secret ch expiry ->
  verify_challenge clock secret ch now =
  if (default clock now <? expiry)%Z then Ok tt else Err expired_error.
Proof.
  intros Ha. destruct (default clock now <? expiry)%Z eqn:E; bool_to_prop.
  { by eapply verify_challenge_complete. }
  destruct Ha as (es & rand & m & -> & He & Hr & Hi & Hm). unfold verify_challenge.
  rewrite split_dotted4; [|apply prefix_no_dot|done|done|apply lower_hex_no_dot, hex_lower].
  apply guard_pass; [by rewrite bool_decide_true|].
  apply guard_pass; [by rewrite hmac_hex_shape|].
  apply (bind_pass _ _ expiry); [by rewrite Hi|].
  eapply bind_pass; [by apply _mac_ok; eauto|].
  apply guard_pass; [by rewrite bool_decide_true|].
  by rewrite (proj2 (Z.leb_le _ _)).
Qed.

(** An issued challenge is accepted by its issuer exactly while its window
    lasts: until [time + ttl], and from then on it is refused as expired. *)
Theorem challenge_lifecycle time_ rnd secret ttl ch clock now
    (Hissue : issue_challenge time_ (hex rnd) secret ttl = Ok ch)
    (Htime : (0 <= time_)%Z) (Hbound : (time_ + ttl < int_text_bound)%Z) :
  verify_challenge clock secret ch now =
  if (default clock now <? time_ + ttl)%Z then Ok tt else Err expired_error.
Proof. by apply authentic_outcome, (issued_authentic _ rnd). Qed.

(** A challenge is accepted exactly when it has the four parts, its MAC is the
    HMAC-SHA256 under this secret of the very expiry and random it is judged on,
    and that expiry lies ahead; and "expired" is never said of a challenge whose
    MAC does not verify, whatever the clock. *)
Theorem challenge_authenticated clock secret ch now :
  (verify_challenge clock secret ch now = Ok tt <->
   exists expiry, authentic secret ch expiry /\ (default clock now < expiry)%Z) /\
  (verify_challenge clock secret ch now = Err expired_error ->
   exists expiry, authentic secret ch expiry /\ (expiry <= default clock now)%Z).
Proof.
  split; [apply verify_challenge_ok|]. intros H. unfold verify_challenge in H.
  destruct (split_on dot ch) as [|a [|b [|c [|d [|]]]]] eqn:Hs; try discriminate H.
  apply bind_err in H as [H|([] & Hg1 & H)]; [apply raise_if_err in H as [_ H]; discriminate H|].
  apply bind_err in H as [H|([] & Hg2 & H)]; [apply raise_if_err in H as [_ H]; discriminate H|].
  apply bind_err in H as [H|(expiry & Hg3 & H)]; [apply or_raise_err in H as [_ H]; discriminate H|].
  apply bind_err in H as [H|(m & Hg4 & H)].
  { unfold _mac, encode_utf8 in H. apply bind_err in H as [H|(? & _ & H)]; [|discriminate H].
    apply or_raise_err in H as [_ H]. discriminate H. }
  apply bind_err in H as [H|([] & Hg5 & H)]; [apply raise_if_err in H as [_ H]; discriminate H|].
  apply raise_if_err in H as [H _]. apply Z.leb_le in H. exists expiry. split; [|done].
  destruct (verify_challenge_sound (expiry - 1) secret ch None tt) as (x & Hx & _).
  { unfold verify_challenge. rewrite Hs. cbn [default]. rewrite Hg1. cbn [mbind result_bind].
    rewrite Hg2. cbn [mbind result_bind]. rewrite Hg3. cbn [mbind result_bind].
    rewrite Hg4. cbn [mbind result_bind]. rewrite Hg5. cbn [mbind result_bind].
    apply raise_if_ok, Z.leb_gt. lia. }
  pose proof Hx as (es & rand & msg & Hch & He & Hr & Hi & Hm).
  rewrite Hch, split_dotted4 in Hs;
    [|apply prefix_no_dot|done|done|apply lower_hex_no_dot, hex_lower].
  injection Hs as _ <- _ _. apply or_raise_ok in Hg3. congruence.
Qed.

(** The MAC covers the normalised number, not its text: a challenge whose
    expiry is rewritten as another spelling of the same integer is accepted just
    like the one issued, so acceptance means "authenticated and unexpired" and not
    "textually issued by this peer". *)
Theorem challenge_respelled time_ rnd secret ttl ch mac clock now
    (Hissue : issue_challenge time_ (hex rnd) secret ttl = Ok ch)
    (Htime : (0 <= time_)%Z) (Hbound : (time_ + ttl < int_text_bound)%Z)
    (Hch : ch = dotted [_PREFIX; str_int (time_ + ttl); hex rnd; mac]) spelling
    (Hspell : py_int spelling = Some (time_ + ttl)%Z) (Hdot : dot ∉ spelling) :
  verify_challenge clock secret (dotted [_PREFIX; spelling; hex rnd; mac]) now =
  verify_challenge clock secret ch now.
Proof.
  rewrite (authentic_outcome _ _ ch _ (time_ + ttl)) by (by eapply issued_authentic).
  apply authentic_outcome. apply issue_challenge_ok in Hissue as (_ & m & Hm & E).
  rewrite Hch in E. apply dotted4_last in E as ->.
  exists spelling, (hex rnd), m. split_and!; try done. apply lower_hex_no_dot, hex_lower.
Qed.

(** A lone surrogate in the random part makes [verify_challenge] raise
    UnicodeEncodeError, outside its documented [AttestationFailed] contract. *)
Theorem challenge_surrogate_escapes clock secret mac now (Hmac : fullmatch_hex 64 mac = true) :
  exists msg, verify_challenge clock secret (dotted [_PREFIX; py "0"; [0xD800%N]; mac]) now =
    Err (PyExc UnicodeEncodeError msg).
Proof.
  assert (Forall (fun c => is_lower_hex c = true) mac) as Hh.
  { unfold fullmatch_hex in Hmac. apply andb_true_iff in Hmac as [_ Hmac].
    rewrite forallb_forall in Hmac. apply Forall_forall. intros c Hc.
    by apply Hmac, list_elem_of_In. }
  eexists. unfold verify_challenge.
  rewrite split_dotted4; [|apply prefix_no_dot|by_decision|by_decision|by apply lower_hex_no_dot].
  apply guard_pass; [by rewrite bool_decide_true|].
  apply guard_pass; [by rewrite Hmac|].
  apply (bind_pass _ _ 0%Z); [vm_compute; reflexivity|].
  assert (utf8_encode (mac_text 0 [0xD800%N]) = None) as Hn by (vm_compute; reflexivity).
  unfold _mac, encode_utf8. rewrite Hn. reflexivity.
Qed.
End properties.

(** ** A concrete challenge *)
Module ChallengeExample.
Import AsciiOnly.
Definition secret : bytes := ascii_bytes "server secret".
Definition random_ : bytes := ascii_bytes "0123456789abcdef".
Definition issued : pystr := get_ok [] (issue_challenge 100 (hex random_) secret 60).
Lemma issued_ok : issue_challenge 100 (hex random_) secret 60 = Ok issued.
Proof. apply get_ok_spec. vm_compute. reflexivity. Qed.
Lemma bound_ok : (100 + 60 < int_text_bound)%Z.
Proof. vm_compute. reflexivity. Qed.
Definition issued_mac : pystr := drop 40 issued.
Lemma issued_parts : issued = dotted [_PREFIX; str_int (100 + 60); hex random_; issued_mac].
Proof. by_decision. Qed.

#[local] Opaque issued issued_mac int_text_bound.

Lemma challenge_lifecycle_witness :
  verify_challenge 0 secret issued (Some 159%Z) = Ok tt /\
  verify_challenge 0 secret issued (Some 160%Z) = Err expired_error.
Proof.
  assert (0 <= 100)%Z as H0 by lia.
  split.
  - etransitivity; [exact (challenge_lifecycle 100 random_ secret 60 issued 0 (Some 159%Z)
      issued_ok H0 bound_ok)|reflexivity].
  - etransitivity; [exact (challenge_lifecycle 100 random_ secret 60 issued 0 (Some 160%Z)
      issued_ok H0 bound_ok)|reflexivity].
Defined.

Lemma challenge_respelled_witness :
  verify_challenge 0 secret (dotted [_PREFIX; py "+1_60"; hex random_; issued_mac]) (Some 159%Z) =
  verify_challenge 0 secret issued (Some 159%Z).
Proof.
  apply (challenge_respelled 100 random_ secret 60 issued issued_mac 0 (Some 159%Z) issued_ok).
  - lia.
  - exact bound_ok.
  - exact issued_parts.
  - vm_compute. reflexivity.
  - by_decision.
Defined.

Lemma challenge_surrogate_escapes_witness :
  exists msg, verify_challenge 0 secret (dotted [_PREFIX; py "0"; [0xD800%N]; issued_mac]) None =
    Err (PyExc UnicodeEncodeError msg).
Proof.
  apply challenge_surrogate_escapes. vm_compute. reflexivity.
Defined.
End ChallengeExample.
