(* ===== verification/Holder.v ===== *)
(** * Holder proofs ([ca2a_runtime.delegation.holder])

    The delegate's signature over the request it presents a chain with. *)
From S2P Require Export Challenge Revocation.

Definition PROOF_DOMAIN : pystr := py "ca2a-holder-proof-v1".

Module holder.

(** The arguments of [proof_body]. *)
Record proof_fields := {
  audience : pystr;
  challenge : pystr;
  proof_credential_id : pystr;
  proof_subject : pystr;
  requested : pystr;
  proof_record_id : pystr;
  sealed_payload : option bytes;
  caller_channel_key : option pystr;
  proof_parent_hash : option pystr
}.

Definition payload_sha256 (p : option bytes) : option pystr := sha256_hex <$> p.

Definition proof_body (f : proof_fields) : dict :=
  [(py "domain", JStr PROOF_DOMAIN);
   (py "audience", JStr (audience f));
   (py "challenge", JStr (challenge f));
   (py "credential_id", JStr (proof_credential_id f));
   (py "subject", JStr (proof_subject f));
   (py "requested_capability", JStr (requested f));
   (py "record_id", JStr (proof_record_id f));
   (py "payload_sha256", opt_str (payload_sha256 (sealed_payload f)));
   (py "caller_channel_key", opt_str (caller_channel_key f));
   (py "parent_record_hash", opt_str (proof_parent_hash f))].

Record HolderProof := { proof_challenge : pystr; proof_signature : pystr }.

Definition to_dict (p : HolderProof) : dict :=
  [(py "challenge", JStr (proof_challenge p)); (py "signature", JStr (proof_signature p))].

Definition from_dict (data : json) : res HolderProof :=
  match data with
  | JObj d =>
      challenge ← or_raise (nonempty_str (field "challenge" d))
        (err HolderProofInvalid (py "holder_proof.challenge must be a non-empty string"));
      signature ← or_raise (nonempty_str (field "signature" d))
        (err HolderProofInvalid (py "holder_proof.signature must be a non-empty string"));
      Ok {| proof_challenge := challenge; proof_signature := signature |}
  | _ => Err (err_d HolderProofInvalid (py "holder_proof must be an object")
                (py "got " ++ type_name data))
  end.

(** What the request commits to besides the leaf and the challenge. *)
Record request_terms := {
  term_audience : pystr;
  term_capability : pystr;
  term_record_id : pystr;
  term_payload : option bytes;
  term_channel_key : option pystr;
  term_parent_hash : option pystr
}.

(** The call to [proof_body] both sides make. *)
Definition proof_fields_for (leaf : DelegationCredential) (ch : pystr) (t : request_terms) :
    proof_fields :=
  {| audience := term_audience t; challenge := ch; proof_credential_id := credential_id leaf;
     proof_subject := subject leaf; requested := term_capability t;
     proof_record_id := term_record_id t; sealed_payload := term_payload t;
     caller_channel_key := term_channel_key t; proof_parent_hash := term_parent_hash t |}.

Section operations.
Context `{U : Unidata, C : Crypto}.

Definition build_holder_proof (private_key : ed_priv) (leaf : DelegationCredential)
    (ch : pystr) (t : request_terms) : res HolderProof :=
  let expected := ed_public_hex private_key in
  raise_if (negb (bool_decide (expected = subject leaf)))
    (err_d HolderProofInvalid (py "signing key does not match the leaf credential subject")
       (py "subject=" ++ subject leaf ++ py " key=" ++ expected));;
  message ← canonicalize (JObj (proof_body (proof_fields_for leaf ch t)));
  Ok {| proof_challenge := ch; proof_signature := hex (ed_sign private_key message) |}.

(** [verify_holder_proof]; [clock] is [int(time.time())]. *)
Definition verify_holder_proof (clock : Z) (proof : HolderProof) (leaf : DelegationCredential)
    (challenge_secret : bytes) (t : request_terms) : res unit :=
  try_except (challenge.verify_challenge clock challenge_secret (proof_challenge proof) None)
    (is_ca2a AttestationFailed)
    (fun exc => Err (mk_err HolderProofInvalid
       (py "holder proof challenge is not usable: " ++ exn_str exc) (exn_detail exc)));;
  try_except
    (pub ← ed_public_of_hex (subject leaf);
     sig ← value_error (fromhex (proof_signature proof));
     message ← canonicalize (JObj (proof_body (proof_fields_for leaf (proof_challenge proof) t)));
     ed_check pub sig message)
    (fun exc => is_py InvalidSignature exc || is_value_error exc)
    (fun _ => Err (err_d HolderProofInvalid
       (py "holder proof signature failed to verify against the leaf subject")
       (py "the presenter does not hold the delegated key"))).
End operations.

End holder.
Import holder.

(** ** Laws *)
Section laws.
Context `{U : Unidata, C : Crypto}.

Lemma proof_body_flat f : flat_dict (proof_body f).
Proof.
  split; [apply (bool_decide_unpack _); vm_compute; exact I|].
  unfold proof_body. cbn [forallb snd is_flat].
  by destruct (payload_sha256 _), (caller_channel_key f), (proof_parent_hash f).
Qed.

Lemma proof_body_lookups f :
  dget (py "audience") (proof_body f) = Some (JStr (audience f)) /\
  dget (py "challenge") (proof_body f) = Some (JStr (challenge f)) /\
  dget (py "credential_id") (proof_body f) = Some (JStr (proof_credential_id f)) /\
  dget (py "subject") (proof_body f) = Some (JStr (proof_subject f)) /\
  dget (py "requested_capability") (proof_body f) = Some (JStr (requested f)) /\
  dget (py "record_id") (proof_body f) = Some (JStr (proof_record_id f)) /\
  dget (py "payload_sha256") (proof_body f) = Some (opt_str (payload_sha256 (sealed_payload f))) /\
  dget (py "caller_channel_key") (proof_body f) = Some (opt_str (caller_channel_key f)) /\
  dget (py "parent_record_hash") (proof_body f) = Some (opt_str (proof_parent_hash f)).
Proof. unfold proof_body. split_and!; by dlookup. Qed.

(** Digest equality of optional payloads, up to a collision. *)
Lemma payload_sha256_eq p1 p2 :
  payload_sha256 p1 = payload_sha256 p2 ->
  p1 = p2 \/ exists x y, p1 = Some x /\ p2 = Some y /\ collides x y.
Proof. apply opt_sha256_eq. Qed.

(** The signed body fixes every term. *)
Lemma proof_body_inj f1 f2 b :
  canonicalize (JObj (proof_body f1)) = Ok b -> canonicalize (JObj (proof_body f2)) = Ok b ->
  audience f1 = audience f2 /\ challenge f1 = challenge f2 /\
  proof_credential_id f1 = proof_credential_id f2 /\ proof_subject f1 = proof_subject f2 /\
  requested f1 = requested f2 /\ proof_record_id f1 = proof_record_id f2 /\
  caller_channel_key f1 = caller_channel_key f2 /\ proof_parent_hash f1 = proof_parent_hash f2 /\
  payload_sha256 (sealed_payload f1) = payload_sha256 (sealed_payload f2).
Proof.
  intros H1 H2.
  pose proof (canonical_flat_lookup _ _ _ (proof_body_flat f1) (proof_body_flat f2) H1 H2) as Hl.
  destruct (proof_body_lookups f1) as (A1 & A2 & A3 & A4 & A5 & A6 & A7 & A8 & A9).
  destruct (proof_body_lookups f2) as (B1 & B2 & B3 & B4 & B5 & B6 & B7 & B8 & B9).
  rewrite Hl, B1 in A1. rewrite Hl, B2 in A2. rewrite Hl, B3 in A3. rewrite Hl, B4 in A4.
  rewrite Hl, B5 in A5. rewrite Hl, B6 in A6. rewrite Hl, B7 in A7. rewrite Hl, B8 in A8.
  rewrite Hl, B9 in A9.
  apply (inj Some), opt_str_inj in A7, A8, A9. split_and!; congruence.
Qed.

Lemma proof_body_no_float f : no_float (JObj (proof_body f)) = true.
Proof.
  unfold proof_body. simpl.
  by destruct (payload_sha256 _), (caller_channel_key f), (proof_parent_hash f).
Qed.

(** The delegate's signature over the request. *)
Definition holder_signature_ok (proof : HolderProof) (leaf : DelegationCredential)
    (t : request_terms) : Prop :=
  exists pub sig message,
    ed_public_of_hex (subject leaf) = Ok pub /\ fromhex (proof_signature proof) = Ok sig /\
    canonicalize (JObj (proof_body (proof_fields_for leaf (proof_challenge proof) t))) = Ok message /\
    ed_verify pub sig message = true.

Lemma verify_holder_proof_ok clock proof leaf secret t u :
  verify_holder_proof clock proof leaf secret t = Ok u <->
  (exists expiry, authentic secret (proof_challenge proof) expiry /\ (clock < expiry)%Z) /\
  holder_signature_ok proof leaf t.
Proof.
  destruct u. unfold verify_holder_proof. rewrite seq_ok.
  assert (forall P Q R S : Prop, (P <-> R) -> (Q <-> S) -> (P /\ Q <-> R /\ S)) as Hand by tauto.
  apply Hand; clear Hand.
  - setoid_rewrite try_except_raise_ok. setoid_rewrite verify_challenge_ok. cbn [default].
    split; [by intros [_ ?]|]. intros ?. by exists tt.
  - rewrite try_except_ok. unfold holder_signature_ok, ed_check. split.
    + intros [H|(? & _ & _ & H)]; [|discriminate H]. inv_ok. bool_to_prop. by repeat eexists.
    + intros (pub & sig & m & H1 & H2 & H3 & H4). left.
      apply (bind_pass _ _ pub); [exact H1|].
      apply (bind_pass _ _ sig); [by apply value_error_ok|].
      apply (bind_pass _ _ m); [exact H3|]. by rewrite H4.
Qed.

Lemma build_holder_proof_ok k leaf ch t p :
  build_holder_proof k leaf ch t = Ok p <->
  ed_public_hex k = subject leaf /\
  exists m, canonicalize (JObj (proof_body (proof_fields_for leaf ch t))) = Ok m /\
    p = {| proof_challenge := ch; proof_signature := hex (ed_sign k m) |}.
Proof.
  unfold build_holder_proof. rewrite seq_ok, (ok_unit _ _ (guard_ok _ _)), bind_ok.
  f_equiv. split; intros (m & ? & H); exists m; (split; [done|]).
  - by apply ok_inj in H.
  - by subst.
Qed.

Lemma holder_from_to_dict p :
  proof_challenge p <> [] -> proof_signature p <> [] -> from_dict (JObj (to_dict p)) = Ok p.
Proof.
  intros H1 H2. unfold from_dict.
  rewrite (field_get "challenge" _ (JStr (proof_challenge p))) by (unfold to_dict; by dlookup).
  rewrite (field_get "signature" _ (JStr (proof_signature p))) by (unfold to_dict; by dlookup).
  eapply bind_pass; [by apply or_raise_ok, nonempty_str_Some|].
  eapply bind_pass; [by apply or_raise_ok, nonempty_str_Some|]. by destruct p.
Qed.
End laws.

(** ** Domain separation

    No two of the bodies the delegation layer signs share their bytes. *)
Section domains.
Context `{C : Crypto}.

Lemma distinct_field (k : string) d e b v w :
  flat_dict d -> flat_dict e -> dget (py k) d = v -> dget (py k) e = w -> v <> w ->
  canonicalize (JObj d) = Ok b -> canonicalize (JObj e) = Ok b -> False.
Proof.
  intros Hd He Hv Hw Hne Hb Hb'. apply Hne. rewrite <-Hv, <-Hw.
  by apply (canonical_flat_lookup d e b).
Qed.

Lemma body_no_key c k :
  existsb (String.eqb k) ["credential_id"; "issuer"; "subject"; "scope"; "depth"; "parent_id";
    "not_before"; "not_after"]%string = false -> dget (py k) (body c) = None.
Proof.
  intros H. simpl in H. bool_to_prop. unfold body.
  repeat match goal with E : String.eqb k _ = false |- _ => rewrite String.eqb_sym in E end.
  destruct (not_before c), (not_after c); cbn [app]; rewrite !dget_py;
    repeat match goal with E : String.eqb _ k = false |- _ => rewrite E end; done.
Qed.

Lemma credential_not_holder c f b :
  canonical_bytes (body c) = Ok b -> canonicalize (JObj (proof_body f)) = Ok b -> False.
Proof.
  apply (distinct_field "domain" _ _ _ None (Some (JStr PROOF_DOMAIN)));
    [apply body_flat|apply proof_body_flat|by apply body_no_key|by unfold proof_body; dlookup|done].
Qed.
Lemma credential_not_revocation c s b :
  canonical_bytes (body c) = Ok b -> canonicalize (JObj (revocation.body s)) = Ok b -> False.
Proof.
  apply (distinct_field "type" _ _ _ None (Some (JStr REVOCATION_TYPE)));
    [apply body_flat|apply statement_body_flat|by apply body_no_key|
     by unfold revocation.body; dlookup|done].
Qed.
Lemma revocation_not_holder s f b :
  canonicalize (JObj (revocation.body s)) = Ok b -> canonicalize (JObj (proof_body f)) = Ok b -> False.
Proof.
  apply (distinct_field "type" _ _ _ (Some (JStr REVOCATION_TYPE)) None);
    [apply statement_body_flat|apply proof_body_flat|by unfold revocation.body; dlookup|
     by unfold proof_body; dlookup|done].
Qed.
End domains.

(** ** Properties *)
Section properties.
Context `{U : Unidata, C : Crypto}.

(** A holder proof the delegate builds for a request is accepted for that
    request while its challenge is unexpired, and building one with any key but
    the leaf subject's is refused. *)
Theorem holder_proof_round_trip `{!CryptoLaws C} k leaf ch t clock secret expiry
    (Hch : authentic secret ch expiry) (Hclock : (clock < expiry)%Z)
    (Hdom : in_domain (JObj (proof_body (proof_fields_for leaf ch t))) = true) :
  if bool_decide (ed_public_hex k = subject leaf)
  then exists p, build_holder_proof k leaf ch t = Ok p /\
         verify_holder_proof clock p leaf secret t = Ok tt
  else raises HolderProofInvalid (build_holder_proof k leaf ch t) = true.
Proof.
  case_bool_decide as Hk.
  - apply canonicalize_in_domain in Hdom as [m Hm]. eexists. split.
    { apply build_holder_proof_ok. split; [done|]. by exists m. }
    apply verify_holder_proof_ok. split; [by exists expiry|].
    exists (ed_public k), (ed_sign k m), m. rewrite <-Hk. split_and!.
    + apply ed_public_of_hex_hex.
    + apply fromhex_hex.
    + done.
    + apply ed_verify_sign.
  - unfold build_holder_proof. by rewrite bool_decide_false.
Qed.

(** A holder proof is accepted exactly when its challenge is one this callee's
    secret authenticates and is unexpired, and its signature verifies under the
    leaf's subject over the canonical body of this very request. *)
Theorem holder_proof_spec clock proof leaf secret t :
  verify_holder_proof clock proof leaf secret t = Ok tt <->
  (exists expiry, authentic secret (proof_challenge proof) expiry /\ (clock < expiry)%Z) /\
  holder_signature_ok proof leaf t.
Proof. apply verify_holder_proof_ok. Qed.

(** C25: a proof cannot be lifted onto another request.  If two requests have the
    same signed bytes they agree on the audience, the challenge, the credential,
    the subject, the capability, the record id, the parent hash and the caller's
    channel key (present or absent), and on the sealed payload up to an exhibited
    SHA-256 collision. *)
Theorem holder_proof_binds leaf1 leaf2 ch1 ch2 t1 t2 m
    (H1 : canonicalize (JObj (proof_body (proof_fields_for leaf1 ch1 t1))) = Ok m)
    (H2 : canonicalize (JObj (proof_body (proof_fields_for leaf2 ch2 t2))) = Ok m) :
  ch1 = ch2 /\ credential_id leaf1 = credential_id leaf2 /\ subject leaf1 = subject leaf2 /\
  term_audience t1 = term_audience t2 /\ term_capability t1 = term_capability t2 /\
  term_record_id t1 = term_record_id t2 /\ term_parent_hash t1 = term_parent_hash t2 /\
  term_channel_key t1 = term_channel_key t2 /\
  (term_payload t1 = term_payload t2 \/
   exists x y, term_payload t1 = Some x /\ term_payload t2 = Some y /\ collides x y).
Proof.
  destruct (proof_body_inj _ _ _ H1 H2) as (? & ? & ? & ? & ? & ? & ? & ? & Hp).
  simpl in *. split_and!; try done. by apply payload_sha256_eq.
Qed.

(** The delegation layer's signatures are domain separated: no byte string is
    the signed body of both a credential and a revocation, a credential and a
    holder proof, or a revocation and a holder proof. *)
Theorem signed_domains_disjoint b :
  ~ ((exists c, canonical_bytes (body c) = Ok b) /\
     (exists f, canonicalize (JObj (proof_body f)) = Ok b)) /\
  ~ ((exists c, canonical_bytes (body c) = Ok b) /\
     (exists s, canonicalize (JObj (revocation.body s)) = Ok b)) /\
  ~ ((exists s, canonicalize (JObj (revocation.body s)) = Ok b) /\
     (exists f, canonicalize (JObj (proof_body f)) = Ok b)).
Proof.
  split_and!; intros [[x Hx] [y Hy]].
  - by eapply credential_not_holder.
  - by eapply credential_not_revocation.
  - by eapply revocation_not_holder.
Qed.
End properties.

(** ** A concrete proof *)
Module HolderExample.
Import AsciiOnly Toy ChallengeExample CredentialExample.
Definition terms : request_terms :=
  {| term_audience := py "channel-key"; term_capability := py "read"; term_record_id := py "r1";
     term_payload := Some (ascii_bytes "sealed"); term_channel_key := None;
     term_parent_hash := Some (py "ab") |}.
Lemma terms_domain : in_domain (JObj (proof_body (proof_fields_for cred issued terms))) = true.
Proof. vm_compute. reflexivity. Qed.
Lemma issued_authentic_160 : authentic secret issued 160.
Proof. apply (issued_authentic 100 random_ secret 60); [exact issued_ok|lia|exact bound_ok]. Qed.

Lemma holder_proof_round_trip_witness :
  exists p, build_holder_proof 2%N cred issued terms = Ok p /\
    verify_holder_proof 120 p cred secret terms = Ok tt.
Proof.
  pose proof (holder_proof_round_trip (C := toy) 2%N cred issued terms 120 secret 160
    issued_authentic_160 ltac:(lia) terms_domain) as H.
  rewrite bool_decide_true in H by reflexivity. exact H.
Defined.

Definition message : bytes :=
  get_ok [] (canonicalize (JObj (proof_body (proof_fields_for cred issued terms)))).
Lemma message_ok : canonicalize (JObj (proof_body (proof_fields_for cred issued terms))) = Ok message.
Proof. apply get_ok_spec. vm_compute. reflexivity. Qed.

Lemma holder_proof_binds_witness : term_capability terms = py "read" /\ issued = issued.
Proof.
  destruct (holder_proof_binds cred cred issued issued terms terms message message_ok message_ok)
    as (H & _). split; [reflexivity|exact H].
Defined.
End HolderExample.
