(* ===== verification/Policy.v ===== *)
(** * Local policies ([ca2a_runtime.policy], [ca2a_runtime.cedar])

    [Policy] is the protocol the peer path is written against; [PolicyLaws] what
    it needs of it.  [LocalPolicy] is the allow set, [CedarPolicy] a Cedar policy
    set behind the same protocol; the Cedar engine is a third-party package, so
    its [is_authorized] is a parameter. *)
From S2P Require Export Credential.

Class Policy (P : Type) := {
  (** [intersect(delegated)]; a policy engine may raise. *)
  intersect : P -> gset pystr -> res (gset pystr)
}.
Class PolicyLaws (P : Type) `{Policy P} := {
  intersect_sub (p : P) delegated effective :
    intersect p delegated = Ok effective -> effective ⊆ delegated
}.

Module local_policy.
Record LocalPolicy := { allow : gset pystr }.
Definition policy_of (caps : list pystr) : LocalPolicy := {| allow := list_to_set caps |}.
Definition permits (p : LocalPolicy) (capability : pystr) : bool :=
  bool_decide (capability ∈ allow p).
#[export] Instance local_intersect : Policy LocalPolicy :=
  {| intersect p delegated := Ok (delegated ∩ allow p) |}.
#[export] Instance local_laws : PolicyLaws LocalPolicy.
Proof. split. intros p d e [= <-]. apply intersection_subseteq_l. Qed.
End local_policy.
Export local_policy.

Module cedar.
(** [cedarpy.is_authorized(request, policies, [])]: whether the decision is
    [Allow], or the exception the engine raises. *)
Class CedarEngine := { is_authorized : json -> pystr -> res bool }.

Record CedarPolicy := {
  policies : pystr;
  principal_type : pystr;
  principal_id : pystr;
  resource_type : pystr;
  resource_id : pystr
}.
(** The dataclass defaults. *)
Definition of_policies (p : pystr) : CedarPolicy :=
  {| policies := p; principal_type := py "Agent"; principal_id := py "peer";
     resource_type := py "Task"; resource_id := py "task" |}.

Definition _request (p : CedarPolicy) (capability : pystr) : json :=
  JObj [(py "principal", JObj [(py "type", JStr (principal_type p)); (py "id", JStr (principal_id p))]);
        (py "action", JObj [(py "type", JStr (py "Action")); (py "id", JStr capability)]);
        (py "resource", JObj [(py "type", JStr (resource_type p)); (py "id", JStr (resource_id p))]);
        (py "context", JObj [])].

Section engine.
Context `{E : CedarEngine}.

Definition permits (p : CedarPolicy) (capability : pystr) : res bool :=
  is_authorized (_request p capability) (policies p).

(** [frozenset(cap for cap in delegated if self.permits(cap))] *)
Fixpoint permitted (p : CedarPolicy) (caps : list pystr) : res (list pystr) :=
  match caps with
  | [] => Ok []
  | cap :: caps =>
      ok ← permits p cap;
      rest ← permitted p caps;
      Ok (if (ok : bool) then cap :: rest else rest)
  end.
#[export] Instance cedar_intersect : Policy CedarPolicy :=
  {| intersect p delegated :=
       caps ← permitted p (elements delegated); Ok (list_to_set caps) |}.

Lemma permitted_ok p caps out c :
  permitted p caps = Ok out -> c ∈ out <-> c ∈ caps /\ permits p c = Ok true.
Proof.
  revert out. induction caps as [|x caps IH]; intros out; cbn [permitted].
  - intros [= <-]. by rewrite elem_of_nil; split; [|intros []].
  - intros (ok & Hok & (rest & Hr & Ho)%bind_ok)%bind_ok. apply ok_inj in Ho as <-.
    specialize (IH _ Hr). rewrite elem_of_cons. destruct ok.
    + rewrite elem_of_cons, IH. split; [|by intros [[->|?] ?]; auto].
      intros [->|[? ?]]; auto.
    + rewrite IH. split; [by intros [? ?]; auto|]. intros [[->|?] Hp]; [congruence|auto].
Qed.

Lemma cedar_intersect_ok p delegated effective c :
  intersect p delegated = Ok effective ->
  c ∈ effective <-> c ∈ delegated /\ permits p c = Ok true.
Proof.
  unfold intersect, cedar_intersect. intros (caps & Hc & E')%bind_ok. apply ok_inj in E' as <-.
  rewrite elem_of_list_to_set, (permitted_ok _ _ _ _ Hc). by rewrite elem_of_elements.
Qed.

#[export] Instance cedar_laws : PolicyLaws CedarPolicy.
Proof. split. intros p d e He c Hc. by apply (cedar_intersect_ok _ _ _ _ He) in Hc as [? _]. Qed.
End engine.
End cedar.
