(* ===== verification/Provenance.v ===== *)
(** * Provenance records ([ca2a_runtime.provenance])

    The record each hop emits, its hash, the structural check of a chain of
    records and its cross-check against a delegation chain. *)
From S2P Require Export Chain.

Definition CALLER_NOT_OFFERED : pystr := py "not_offered".
Definition CALLER_FAILED : pystr := py "failed".
Definition CALLER_SOFTWARE_ONLY : pystr := py "software-only".
Definition CALLER_HARDWARE : pystr := py "hardware".
Definition CALLER_ATTESTATION_VALUES : gset pystr :=
  keys_of ["not_offered"; "failed"; "software-only"; "hardware"]%string.

Definition ALLOW : pystr := py "allow".

Definition denied (r : DelegationRecord) : bool := bool_decide (decision r = py "deny").

(** [body()]: the denial fields only when present. *)
Definition record_body (r : DelegationRecord) : dict :=
  [(py "record_id", JStr (record_id r));
   (py "credential_id", JStr (rec_credential_id r));
   (py "subject", JStr (rec_subject r));
   (py "scope", JArr (map JStr (sorted_set (rec_scope r))));
   (py "parent_record_hash", opt_str (parent_record_hash r));
   (py "caller_attestation", JStr (caller_attestation r))] ++
  (if bool_decide (decision r = ALLOW) then [] else [(py "decision", JStr (decision r))]) ++
  match requested_capability r with
  | Some c => [(py "requested_capability", JStr c)] | None => [] end ++
  match rec_effective_scope r with
  | Some s => [(py "effective_scope", JArr (map JStr (sorted_set s)))] | None => [] end ++
  match denial_reason r with Some t => [(py "denial_reason", JStr t)] | None => [] end.

Definition record_hash (r : DelegationRecord) : res pystr :=
  message ← canonical_bytes (record_body r);
  Ok (sha256_hex message).

Section records.
Context `{U : Unidata}.

(** [__post_init__] *)
Definition new_record (r : DelegationRecord) : res DelegationRecord :=
  raise_if (negb (bool_decide (caller_attestation r ∈ CALLER_ATTESTATION_VALUES)))
    (PyExc ValueError
       (py "caller_attestation must be one of " ++ repr_list (sorted_set CALLER_ATTESTATION_VALUES) ++
        py ", got " ++ py_repr (caller_attestation r)));;
  Ok r.

Definition record_for (credential : DelegationCredential) (record_id : pystr)
    (parent_record_hash : option pystr) (caller_attestation : pystr) : res DelegationRecord :=
  new_record
    {| record_id := record_id; rec_credential_id := credential_id credential;
       rec_subject := subject credential; rec_scope := scope credential;
       parent_record_hash := parent_record_hash; decision := ALLOW;
       requested_capability := None; rec_effective_scope := None; denial_reason := None;
       caller_attestation := caller_attestation |}.

Definition denial_record_for (credential : DelegationCredential) (record_id : pystr)
    (parent_record_hash : option pystr) (requested_capability : pystr)
    (effective_scope : gset pystr) (reason caller_attestation : pystr) : res DelegationRecord :=
  new_record
    {| record_id := record_id; rec_credential_id := credential_id credential;
       rec_subject := subject credential; rec_scope := scope credential;
       parent_record_hash := parent_record_hash; decision := py "deny";
       requested_capability := Some requested_capability;
       rec_effective_scope := Some effective_scope; denial_reason := Some reason;
       caller_attestation := caller_attestation |}.

Definition broken (message : pystr) : exn := err ProvenanceLinkBroken message.

(** The link of record [i] to the previous one. *)
Definition check_parent (i : N) (prev : option DelegationRecord) (r : DelegationRecord) : res unit :=
  match prev with
  | None =>
      raise_if (negb (bool_decide (parent_record_hash r = None)))
        (broken (py "root record must not reference a parent"))
  | Some p =>
      raise_if (denied p)
        (err_d ProvenanceLinkBroken (py "record " ++ str_N i ++ py " is chained onto a denied hop")
           (py "record " ++ record_id p ++ py " refused " ++
            json_repr (opt_str (requested_capability p)) ++ py "; no hop may follow it"));;
      expected ← record_hash p;
      raise_if (negb (bool_decide (parent_record_hash r = Some expected)))
        (err_d ProvenanceLinkBroken
           (py "record " ++ str_N i ++ py " parent link does not match the previous record's hash")
           (py "a tampered or reparented record was detected"))
  end.

(** The loop of [verify_dag]. *)
Fixpoint check_records (i : N) (seen_ids : gset pystr) (prev : option DelegationRecord)
    (records : list DelegationRecord) : res unit :=
  match records with
  | [] => Ok tt
  | r :: records =>
      raise_if (bool_decide (record_id r ∈ seen_ids))
        (broken (py "duplicate record_id at position " ++ str_N i ++ py ": " ++ record_id r));;
      check_parent i prev r;;
      check_records (i + 1) ({[record_id r]} ∪ seen_ids) (Some r) records
  end.

Definition verify_dag (records : list DelegationRecord) : res (list DelegationRecord) :=
  match records with
  | [] => Err (broken (py "empty provenance chain"))
  | _ => check_records 0 ∅ None records;; Ok records
  end.

(** The positional loop of [cross_check_chain]. *)
Fixpoint check_hops_match (i : N) (hops : list DelegationRecord)
    (chain : list DelegationCredential) : res unit :=
  match hops, chain with
  | r :: hops, c :: chain =>
      raise_if (negb (bool_decide (rec_credential_id r = credential_id c)))
        (broken (py "record " ++ str_N i ++ py " credential_id does not match the chain"));;
      raise_if (negb (bool_decide (rec_subject r = subject c)))
        (broken (py "record " ++ str_N i ++ py " subject does not match the chain"));;
      check_hops_match (i + 1) hops chain
  | _, _ => Ok tt
  end.

(** [{c.credential_id: c for c in chain}]: the last credential of an id. *)
Definition by_id (chain : list DelegationCredential) : gmap pystr DelegationCredential :=
  fold_left (fun m c => <[credential_id c := c]> m) chain ∅.

(** The loop over denial records. *)
Fixpoint check_denials (ids : gmap pystr DelegationCredential)
    (records : list DelegationRecord) : res unit :=
  match records with
  | [] => Ok tt
  | r :: records =>
      (if negb (denied r) then Ok tt
       else
         match ids !! rec_credential_id r with
         | None =>
             Err (broken (py "denial record " ++ record_id r ++ py " references credential " ++
                          py_repr (rec_credential_id r) ++ py ", which is not in the chain"))
         | Some under =>
             raise_if (negb (bool_decide (rec_subject r = subject under)))
               (broken (py "denial record " ++ record_id r ++
                        py " subject does not match the chain"))
         end);;
      check_denials ids records
  end.

Definition cross_check_chain (records : list DelegationRecord)
    (chain : list DelegationCredential) : res unit :=
  let hops := List.filter (fun r => negb (denied r)) records in
  raise_if (negb (Nat.eqb (length hops) (length chain)))
    (broken (py "provenance length " ++ str_N (N.of_nat (length hops)) ++
             py " does not match chain length " ++ str_N (N.of_nat (length chain))));;
  check_hops_match 0 hops chain;;
  check_denials (by_id chain) records.
End records.

(** ** Record hashes *)
Section hash_laws.

Lemma record_body_flat r : flat_dict (record_body r).
Proof.
  unfold record_body. split.
  - case_bool_decide; destruct (requested_capability r), (rec_effective_scope r), (denial_reason r);
      apply (bool_decide_unpack _); vm_compute; exact I.
  - assert (is_flat (opt_str (parent_record_hash r)) = true) by (by destruct (parent_record_hash r)).
    case_bool_decide; destruct (requested_capability r), (rec_effective_scope r), (denial_reason r);
      simpl; rewrite ?is_flat_strs; simpl; by rewrite ?andb_true_r.
Qed.

Lemma record_body_no_float r : no_float (JObj (record_body r)) = true.
Proof.
  unfold record_body.
  assert (no_float (opt_str (parent_record_hash r)) = true) by (by destruct (parent_record_hash r)).
  case_bool_decide; destruct (requested_capability r), (rec_effective_scope r), (denial_reason r);
    simpl; rewrite ?no_float_strs; simpl; by rewrite ?andb_true_r.
Qed.

Definition strs_json (s : gset pystr) : json := JArr (map JStr (sorted_set s)).

Lemma record_body_lookups r :
  let d := record_body r in
  dget (py "record_id") d = Some (JStr (record_id r)) /\
  dget (py "credential_id") d = Some (JStr (rec_credential_id r)) /\
  dget (py "subject") d = Some (JStr (rec_subject r)) /\
  dget (py "scope") d = Some (strs_json (rec_scope r)) /\
  dget (py "parent_record_hash") d = Some (opt_str (parent_record_hash r)) /\
  dget (py "caller_attestation") d = Some (JStr (caller_attestation r)) /\
  dget (py "decision") d = (if bool_decide (decision r = ALLOW) then None else Some (JStr (decision r))) /\
  dget (py "requested_capability") d = JStr <$> requested_capability r /\
  dget (py "effective_scope") d = strs_json <$> rec_effective_scope r /\
  dget (py "denial_reason") d = JStr <$> denial_reason r.
Proof.
  cbv zeta. unfold record_body.
  destruct (bool_decide _), (requested_capability r), (rec_effective_scope r), (denial_reason r);
    cbn [app]; split_and!; by dlookup.
Qed.

Lemma opt_JStr_inj (o1 o2 : option pystr) : JStr <$> o1 = JStr <$> o2 -> o1 = o2.
Proof. destruct o1, o2; simpl; congruence. Qed.
Lemma opt_strs_inj (o1 o2 : option (gset pystr)) : strs_json <$> o1 = strs_json <$> o2 -> o1 = o2.
Proof.
  destruct o1, o2; simpl; try done. intros H. apply (inj Some), strs_set_inj in H. congruence.
Qed.

(** The hashed bytes determine the record. *)
Lemma record_body_inj r1 r2 b :
  canonical_bytes (record_body r1) = Ok b -> canonical_bytes (record_body r2) = Ok b -> r1 = r2.
Proof.
  intros H1 H2.
  pose proof (canonical_flat_lookup _ _ _ (record_body_flat r1) (record_body_flat r2) H1 H2) as Hl.
  destruct (record_body_lookups r1) as (A1 & A2 & A3 & A4 & A5 & A6 & A7 & A8 & A9 & A10).
  destruct (record_body_lookups r2) as (B1 & B2 & B3 & B4 & B5 & B6 & B7 & B8 & B9 & B10).
  rewrite Hl, B1 in A1. rewrite Hl, B2 in A2. rewrite Hl, B3 in A3. rewrite Hl, B4 in A4.
  rewrite Hl, B5 in A5. rewrite Hl, B6 in A6. rewrite Hl, B7 in A7. rewrite Hl, B8 in A8.
  rewrite Hl, B9 in A9. rewrite Hl, B10 in A10.
  apply (inj Some) in A1, A2, A3, A4, A5, A6.
  apply strs_set_inj in A4. apply opt_str_inj in A5. apply opt_JStr_inj in A8, A10.
  apply opt_strs_inj in A9.
  assert (decision r1 = decision r2) as E7.
  { destruct (bool_decide (decision r1 = ALLOW)) eqn:D1, (bool_decide (decision r2 = ALLOW)) eqn:D2;
      bool_to_prop; congruence. }
  destruct r1, r2; simpl in *. congruence.
Qed.

Lemma record_hash_ok r h :
  record_hash r = Ok h <-> exists m, canonical_bytes (record_body r) = Ok m /\ h = sha256_hex m.
Proof.
  unfold record_hash. rewrite bind_ok.
  split; intros (m & ? & H); exists m; (split; [done|]); [by apply ok_inj in H|by subst].
Qed.

(** Two records whose hashed bytes differ and have one digest. *)
Definition bodies_collide (r1 r2 : DelegationRecord) : Prop :=
  exists m1 m2, canonical_bytes (record_body r1) = Ok m1 /\ canonical_bytes (record_body r2) = Ok m2 /\
    collides m1 m2.

(** Two histories that agree after some point, at which their records collide. *)
Definition histories_collide (l1 l2 : list DelegationRecord) : Prop :=
  exists p1 r1 p2 r2 tail,
    l1 = p1 ++ r1 :: tail /\ l2 = p2 ++ r2 :: tail /\ bodies_collide r1 r2.

Lemma histories_collide_last l1 l2 r1 r2 :
  bodies_collide r1 r2 -> histories_collide (l1 ++ [r1]) (l2 ++ [r2]).
Proof. intros H. by exists l1, r1, l2, r2, []. Qed.
Lemma histories_collide_snoc l1 l2 r :
  histories_collide l1 l2 -> histories_collide (l1 ++ [r]) (l2 ++ [r]).
Proof.
  intros (p1 & r1 & p2 & r2 & tail & -> & -> & H). exists p1, r1, p2, r2, (tail ++ [r]).
  by rewrite <-!app_assoc.
Qed.

Lemma record_hash_inj r1 r2 h :
  record_hash r1 = Ok h -> record_hash r2 = Ok h -> r1 = r2 \/ bodies_collide r1 r2.
Proof.
  intros (m1 & H1 & E1)%record_hash_ok (m2 & H2 & E2)%record_hash_ok. rewrite E1 in E2.
  apply sha256_hex_eq in E2 as [<-|E]; [left; by eapply record_body_inj|right; by exists m1, m2].
Qed.
End hash_laws.

(** ** The structure [verify_dag] checks *)

(** [linked prev l]: the records of [l] follow [prev], each naming the hash of
    the one before it, none following a denial. *)
Inductive linked : option DelegationRecord -> list DelegationRecord -> Prop :=
| linked_nil prev : linked prev []
| linked_root r l : parent_record_hash r = None -> linked (Some r) l -> linked None (r :: l)
| linked_step p r l h :
    denied p = false -> record_hash p = Ok h -> parent_record_hash r = Some h ->
    linked (Some r) l -> linked (Some p) (r :: l).

Section dag_laws.
Context `{U : Unidata}.

Lemma linked_cons prev r l :
  linked prev (r :: l) <->
  (match prev with
   | None => parent_record_hash r = None
   | Some p => denied p = false /\ exists h, record_hash p = Ok h /\ parent_record_hash r = Some h
   end) /\ linked (Some r) l.
Proof.
  split.
  - inversion 1; subst; eauto 6.
  - destruct prev as [p|]; [intros [(? & h & ? & ?) ?]; by eapply linked_step|].
    intros [? ?]. by apply linked_root.
Qed.

Lemma linked_snoc prev l r :
  linked prev (l ++ [r]) <->
  linked prev l /\
  match from_option Some prev (last l) with
  | None => parent_record_hash r = None
  | Some p => denied p = false /\ exists h, record_hash p = Ok h /\ parent_record_hash r = Some h
  end.
Proof.
  revert prev. induction l as [|x l IH]; intros prev; cbn [app].
  - rewrite linked_cons. simpl.
    split; [intros [? _]; split; [constructor|done]|intros [_ ?]; split; [done|constructor]].
  - rewrite !linked_cons, IH. destruct l as [|y l]; [simpl; tauto|].
    rewrite last_cons_cons. destruct (last (y :: l)) eqn:E; [|by apply last_None in E].
    simpl. tauto.
Qed.

Lemma check_parent_ok i prev r u :
  check_parent i prev r = Ok u <->
  match prev with
  | None => parent_record_hash r = None
  | Some p => denied p = false /\ exists h, record_hash p = Ok h /\ parent_record_hash r = Some h
  end.
Proof.
  unfold check_parent. destruct prev as [p|]; [|apply guard_ok].
  rewrite seq_ok, bind_ok. setoid_rewrite guard_ok. setoid_rewrite raise_if_ok.
  split; [intros [[_ ?] ?]; by split|intros [? ?]; split; [by exists tt|done]].
Qed.

Lemma check_records_ok i seen prev l u :
  check_records i seen prev l = Ok u <->
  NoDup (record_id <$> l) /\ (forall x, x ∈ record_id <$> l -> x ∉ seen) /\ linked prev l.
Proof.
  revert i seen prev. induction l as [|r l IH]; intros i seen prev; cbn [check_records].
  { destruct u. split; [|done]. intros _. split_and!; [constructor| |constructor].
    by intros x ?%elem_of_nil. }
  rewrite !seq_ok, IH, (ok_unit _ _ (refuse_ok _ _)), (ok_unit _ _ (check_parent_ok _ _ _)).
  rewrite linked_cons, fmap_cons, NoDup_cons. setoid_rewrite elem_of_cons.
  setoid_rewrite not_elem_of_union. setoid_rewrite not_elem_of_singleton. split.
  - intros (Hr & Hp & Hn & Hs & Hl). split_and!; try done.
    + intros Hin. by destruct (Hs _ Hin).
    + intros x [->|Hx]; [done|]. by destruct (Hs _ Hx).
  - intros ([Hr Hn] & Hs & Hp & Hl). split_and!; try done; [by apply Hs; left|].
    intros x Hx. split; [by intros ->|]. apply Hs. by right.
Qed.

(** What [verify_dag] accepts. *)
Definition DagOk (l : list DelegationRecord) : Prop :=
  l <> [] /\ NoDup (record_id <$> l) /\ linked None l.

Lemma verify_dag_ok l l' : verify_dag l = Ok l' <-> l' = l /\ DagOk l.
Proof.
  unfold verify_dag, DagOk. destruct l as [|r l]; [split; [done|by intros (_ & ? & _)]|].
  rewrite seq_ok, (ok_unit _ _ (check_records_ok _ _ _ _)). split.
  - intros ((Hn & _ & Hl) & E). apply ok_inj in E as <-. by split_and!.
  - intros (-> & _ & Hn & Hl). split; [|done]. split_and!; [done| |done].
    by intros x _ ?%elem_of_empty.
Qed.

(** The last record's hash fixes the whole history. *)
Lemma linked_history l1 l2 r1 r2 h :
  linked None (l1 ++ [r1]) -> linked None (l2 ++ [r2]) ->
  record_hash r1 = Ok h -> record_hash r2 = Ok h ->
  l1 ++ [r1] = l2 ++ [r2] \/ histories_collide (l1 ++ [r1]) (l2 ++ [r2]).
Proof.
  revert l2 r1 r2 h. induction l1 as [|p1 l1 IH] using rev_ind; intros l2 r1 r2 h H1 H2 E1 E2;
    (destruct (record_hash_inj _ _ _ E1 E2) as [->|?]; [|right; by apply histories_collide_last]);
    apply linked_snoc in H1 as [H1 P1]; apply linked_snoc in H2 as [H2 P2];
    destruct l2 as [|p2 l2 _] using rev_ind.
  - by left.
  - rewrite last_snoc in P2. destruct P2 as (_ & h2 & _ & P2). simpl in *. congruence.
  - rewrite last_snoc in P1. destruct P1 as (_ & h1 & _ & P1). simpl in *. congruence.
  - rewrite last_snoc in P1, P2. destruct P1 as (_ & h1 & K1 & P1), P2 as (_ & h2 & K2 & P2).
    rewrite P1 in P2. injection P2 as <-.
    destruct (IH l2 p1 p2 h1) as [->|?]; try done; [by left|right; by apply histories_collide_snoc].
Qed.
End dag_laws.

(** ** The cross-check *)
Section cross_laws.
Context `{U : Unidata}.

Definition hop_of (r : DelegationRecord) (c : DelegationCredential) : Prop :=
  rec_credential_id r = credential_id c /\ rec_subject r = subject c.

Lemma check_hops_match_ok i hops chain u :
  length hops = length chain ->
  check_hops_match i hops chain = Ok u <-> Forall2 hop_of hops chain.
Proof.
  revert i chain. induction hops as [|r hops IH]; intros i [|c chain] Hlen; simpl in Hlen; try done.
  { destruct u. split; [constructor|done]. }
  cbn [check_hops_match].
  rewrite !seq_ok, (IH _ chain) by lia. rewrite !(ok_unit _ _ (guard_ok _ _)).
  split; [intros (? & ? & ?)|inversion 1 as [|???? [? ?] ?]; subst]; [|done].
  constructor; [by split|done].
Qed.

Lemma by_id_fold (chain : list DelegationCredential) (m : gmap pystr DelegationCredential) k :
  fold_left (fun (m : gmap pystr DelegationCredential) c => <[credential_id c := c]> m) chain m !! k =
  match List.find (fun c => bool_decide (credential_id c = k)) (rev chain) with
  | Some c => Some c
  | None => m !! k
  end.
Proof.
  revert m. induction chain as [|c chain IH]; intros m; [done|]. cbn [fold_left rev].
  rewrite IH. clear IH. induction (rev chain) as [|d l IHl]; cbn [app List.find].
  - case_bool_decide as E; [subst; by rewrite lookup_insert_eq|by rewrite lookup_insert_ne].
  - case_bool_decide; [done|exact IHl].
Qed.

Lemma by_id_lookup chain k c :
  NoDup (credential_id <$> chain) -> by_id chain !! k = Some c <-> c ∈ chain /\ credential_id c = k.
Proof.
  intros Hn. unfold by_id. rewrite by_id_fold, lookup_empty. split.
  - destruct (List.find _ (rev chain)) as [d|] eqn:E; [|done]. intros [= ->].
    apply find_some in E as [Hin E]. apply bool_decide_eq_true in E.
    split; [|done]. apply list_elem_of_In. by apply in_rev.
  - intros [Hin Hk]. destruct (List.find _ (rev chain)) as [d|] eqn:E.
    + apply find_some in E as [Hd E]. apply bool_decide_eq_true in E. f_equal.
      apply in_rev, list_elem_of_In in Hd.
      apply list_elem_of_lookup in Hin as [i Hi], Hd as [j Hj].
      assert (i = j) as ->; [|congruence].
      apply (NoDup_lookup _ i j k Hn); rewrite list_lookup_fmap; [rewrite Hi|rewrite Hj]; simpl; congruence.
    + exfalso. apply list_elem_of_In, in_rev in Hin. pose proof (find_none _ _ E _ Hin) as H.
      apply bool_decide_eq_false in H. by apply H.
Qed.

Lemma check_denials_ok ids l u :
  check_denials ids l = Ok u <->
  forall r, r ∈ l -> denied r = true ->
    exists c, ids !! rec_credential_id r = Some c /\ rec_subject r = subject c.
Proof.
  induction l as [|r l IH]; cbn [check_denials].
  { destruct u. split; [|done]. by intros _ r ?%elem_of_nil. }
  rewrite seq_ok, IH. setoid_rewrite elem_of_cons.
  assert ((exists a, (if negb (denied r) then Ok tt else
      match ids !! rec_credential_id r with
      | None => Err (broken (py "denial record " ++ record_id r ++ py " references credential " ++
                          py_repr (rec_credential_id r) ++ py ", which is not in the chain"))
      | Some under => raise_if (negb (bool_decide (rec_subject r = subject under)))
               (broken (py "denial record " ++ record_id r ++ py " subject does not match the chain"))
      end) = Ok a) <-> (denied r = true ->
        exists c, ids !! rec_credential_id r = Some c /\ rec_subject r = subject c)) as ->.
  { destruct (denied r); cbn [negb]; [|split; [done|by exists tt]].
    destruct (ids !! rec_credential_id r) as [c|].
    - rewrite (ok_unit _ _ (guard_ok _ _)). split; [eauto|]. by intros (? & [= <-] & ?).
    - split; [by intros [? ?]|]. intros H. by destruct (H eq_refl) as (? & ? & _). }
  split; [intros [H1 H2] x [->|Hx]; auto|]. intros H. split; intros; apply H; auto.
Qed.

Lemma cross_check_ok records chain u :
  cross_check_chain records chain = Ok u <->
  Forall2 hop_of (List.filter (fun r => negb (denied r)) records) chain /\
  forall r, r ∈ records -> denied r = true ->
    exists c, by_id chain !! rec_credential_id r = Some c /\ rec_subject r = subject c.
Proof.
  unfold cross_check_chain. rewrite !seq_ok, check_denials_ok.
  setoid_rewrite raise_if_ok. setoid_rewrite negb_false_iff. setoid_rewrite Nat.eqb_eq. split.
  - intros ([_ Hlen] & [v Hm] & Hd). split; [|done].
    by apply check_hops_match_ok in Hm.
  - intros [Hm Hd]. pose proof (Forall2_length _ _ _ Hm) as Hlen.
    split_and!; [by exists tt| |done]. exists tt. by apply check_hops_match_ok.
Qed.
End cross_laws.

(** ** Properties *)
Section properties.
Context `{U : Unidata}.

Lemma linked_denied_last prev l i r :
  linked prev l -> l !! i = Some r -> denied r = true -> S i = length l.
Proof.
  intros Hl. revert i. induction Hl as [prev|r0 l Hr Hl IH|p r0 l h Hp Hh Hr Hl IH]; intros i Hi Hd.
  - done.
  - destruct i as [|i]; [|simpl; f_equal; by eapply IH]. injection Hi as ->.
    inversion Hl; subst; [done|congruence].
  - destruct i as [|i]; [|simpl; f_equal; by eapply IH]. injection Hi as ->.
    inversion Hl; subst; [done|congruence].
Qed.

(** [verify_dag] returns its records, unchanged, exactly when there is at least
    one, their ids are distinct, the first names no parent, every later one names
    the recomputed hash of the one before it, and nothing follows a denial; in an
    accepted chain a denial record can only be the last. *)
Theorem verify_dag_spec l l' :
  (verify_dag l = Ok l' <-> l' = l /\ l <> [] /\ NoDup (record_id <$> l) /\ linked None l) /\
  (verify_dag l = Ok l' -> forall i r, l !! i = Some r -> denied r = true -> S i = length l).
Proof.
  split; [apply verify_dag_ok|]. intros (_ & _ & _ & Hl)%verify_dag_ok i r.
  by eapply linked_denied_last.
Qed.

(** C24: the hash of the last record commits the whole history.  Two accepted
    record chains whose last records have the same hash are the same chain, record
    by record and field by field; or they are the same after some point, at which the
    hashed bodies of their two records differ and have one SHA-256 digest. *)
Theorem history_committed l1 l2 r1 r2 h
    (H1 : verify_dag (l1 ++ [r1]) = Ok (l1 ++ [r1])) (H2 : verify_dag (l2 ++ [r2]) = Ok (l2 ++ [r2]))
    (E1 : record_hash r1 = Ok h) (E2 : record_hash r2 = Ok h) :
  l1 ++ [r1] = l2 ++ [r2] \/ histories_collide (l1 ++ [r1]) (l2 ++ [r2]).
Proof.
  apply verify_dag_ok in H1 as (_ & _ & _ & H1). apply verify_dag_ok in H2 as (_ & _ & _ & H2).
  by eapply linked_history.
Qed.

(** Against a chain with distinct credential ids, [cross_check_chain] accepts
    exactly the records whose allowed hops name the credentials of the chain one
    for one, in order and with their subjects, and whose denials each name a
    credential that is in the chain, with its subject. *)
Theorem cross_check_spec records chain (Hids : NoDup (credential_id <$> chain)) :
  cross_check_chain records chain = Ok tt <->
  Forall2 hop_of (List.filter (fun r => negb (denied r)) records) chain /\
  forall r, r ∈ records -> denied r = true -> exists c, c ∈ chain /\ hop_of r c.
Proof.
  rewrite cross_check_ok. f_equiv.
  split; intros H r Hr Hd; destruct (H r Hr Hd) as (c & Hc & Hs); exists c.
  - apply by_id_lookup in Hc as [? ?]; [|done]. split; [done|]. by split.
  - destruct Hs as [Hid Hs]. split; [|done]. by apply by_id_lookup.
Qed.
End properties.

(** ** Concrete records *)
Module ProvenanceExample.
Import AsciiOnly Toy ChainExample.
Definition no_record : DelegationRecord :=
  {| record_id := []; rec_credential_id := []; rec_subject := []; rec_scope := ∅;
     parent_record_hash := None; decision := []; requested_capability := None;
     rec_effective_scope := None; denial_reason := None; caller_attestation := [] |}.
Definition first : DelegationRecord :=
  get_ok no_record (record_for root (py "r0") None CALLER_NOT_OFFERED).
Definition first_hash : pystr := get_ok [] (record_hash first).
Definition second : DelegationRecord :=
  get_ok no_record (record_for leaf (py "r1") (Some first_hash) CALLER_SOFTWARE_ONLY).
Definition second_hash : pystr := get_ok [] (record_hash second).
Definition refusal : DelegationRecord :=
  get_ok no_record (denial_record_for leaf (py "r2") (Some second_hash) (py "write")
    (keys_of ["read"]%string) (py "not permitted") CALLER_FAILED).
Lemma history_ok : verify_dag ([first; second] ++ [refusal]) = Ok ([first; second] ++ [refusal]).
Proof.
  apply verify_dag_ok. split; [reflexivity|]. split; [discriminate|]. split; [by_decision|].
  apply linked_root; [by_decision|].
  apply linked_step with first_hash; [by_decision|apply get_ok_spec; vm_compute; reflexivity|by_decision|].
  apply linked_step with second_hash; [by_decision|apply get_ok_spec; vm_compute; reflexivity|by_decision|].
  apply linked_nil.
Qed.
Definition refusal_hash : pystr := get_ok [] (record_hash refusal).
Lemma refusal_hash_ok : record_hash refusal = Ok refusal_hash.
Proof. apply get_ok_spec. vm_compute. reflexivity. Qed.
Lemma demo_chain_ids : NoDup (credential_id <$> demo_chain).
Proof. by_decision. Qed.
Lemma cross_check_demo : cross_check_chain ([first; second] ++ [refusal]) demo_chain = Ok tt.
Proof. by_decision. Qed.
Lemma refusal_denied : denied refusal = true.
Proof. vm_compute. reflexivity. Qed.
#[local] Opaque first second refusal first_hash second_hash refusal_hash root leaf.

Lemma history_committed_witness :
  [first; second] ++ [refusal] = [first; second] ++ [refusal] \/
  histories_collide ([first; second] ++ [refusal]) ([first; second] ++ [refusal]).
Proof.
  exact (history_committed [first; second] [first; second] refusal refusal refusal_hash
    history_ok history_ok refusal_hash_ok refusal_hash_ok).
Defined.

Lemma verify_dag_spec_witness : 3 = length ([first; second] ++ [refusal]).
Proof. exact (proj2 (verify_dag_spec _ _) history_ok 2 refusal eq_refl refusal_denied). Defined.

Lemma cross_check_spec_witness : exists c, c ∈ demo_chain /\ hop_of refusal c.
Proof.
  apply (proj2 (proj1 (cross_check_spec _ demo_chain demo_chain_ids) cross_check_demo) refusal).
  - right. right. left.
  - vm_compute. reflexivity.
Defined.
End ProvenanceExample.
