(* ===== verification/Tee.v ===== *)
(** * Attestation reports and their binding ([ca2a_runtime.tee.base],
    [.binding], [.software])

    The report model, the digest a report commits its key and nonce with, the
    provider interface and the software-only provider. *)
From S2P Require Export Crypto.

Module tee.

Definition ROLE_CALLEE : pystr := py "callee".
Definition ROLE_CALLER : pystr := py "caller".
Definition ROLES : gset pystr := keys_of ["callee"; "caller"]%string.

Definition TPM_PREFIX : bytes := ascii_bytes "ca2a-tpm-v1|".
Definition SNP_PREFIX : bytes := ascii_bytes "ca2a-snp-v1|".
Definition TDX_PREFIX : bytes := ascii_bytes "ca2a-tdx-v1|".
Definition TPM_CALLER_PREFIX : bytes := ascii_bytes "ca2a-tpm-caller-v2|".
Definition SNP_CALLER_PREFIX : bytes := ascii_bytes "ca2a-snp-caller-v2|".
Definition TDX_CALLER_PREFIX : bytes := ascii_bytes "ca2a-tdx-caller-v2|".

Definition _PREFIXES : gmap (bytes * pystr) bytes :=
  list_to_map
    [((TPM_PREFIX, ROLE_CALLEE), TPM_PREFIX); ((TPM_PREFIX, ROLE_CALLER), TPM_CALLER_PREFIX);
     ((SNP_PREFIX, ROLE_CALLEE), SNP_PREFIX); ((SNP_PREFIX, ROLE_CALLER), SNP_CALLER_PREFIX);
     ((TDX_PREFIX, ROLE_CALLEE), TDX_PREFIX); ((TDX_PREFIX, ROLE_CALLER), TDX_CALLER_PREFIX)].

Definition role_prefix `{U : Unidata} (platform_prefix : bytes) (role : pystr) : res bytes :=
  or_raise (_PREFIXES !! (platform_prefix, role))
    (err_d AttestationFailed (py "attestation report names an unknown offer role")
       (py "role=" ++ py_repr role ++ py ", expected one of " ++ repr_list (sorted_set ROLES))).

(** [len(field).to_bytes(4, "big") + field] *)
Definition length_prefixed (field : bytes) : res bytes :=
  raise_if (4294967296 <=? N.of_nat (length field))%N
    (PyExc OverflowError (py "int too big to convert"));;
  Ok (be_bytes 4 (N.of_nat (length field)) ++ field).

Definition derive_binding (prefix : bytes) (public_key nonce : pystr) : res bytes :=
  key ← encode_utf8 public_key;
  nonce ← encode_utf8 nonce;
  key_part ← length_prefixed key;
  nonce_part ← length_prefixed nonce;
  Ok (sha256 (prefix ++ key_part ++ nonce_part)).

Definition pad_report_data (digest : bytes) (length_ : nat) : res bytes :=
  raise_if (Nat.ltb length_ (length digest))
    (PyExc ValueError
       (py "binding digest is " ++ str_N (N.of_nat (length digest)) ++ py " bytes, exceeds the " ++
        str_N (N.of_nat length_) ++ py "-byte field"));;
  Ok (digest ++ repeat x00 (length_ - length digest)).

Record AttestationReport := {
  platform : pystr;
  measurement : pystr;
  public_key : pystr;
  nonce : pystr;
  raw_evidence : option bytes;
  quote_signature : option bytes;
  attestation_key_pem : option bytes;
  attestation_key_chain_pem : option bytes;
  role : pystr
}.
#[export] Instance report_eq_dec : EqDecision AttestationReport.
Proof. solve_decision. Defined.

(** A [BaseProvider] subclass: its [platform], [detect()] and
    [attest(public_key, nonce, role)]. *)
Record Provider := {
  provider_platform : pystr;
  detect : bool;
  attest : pystr -> pystr -> pystr -> res AttestationReport
}.

Definition SOFTWARE_PLATFORM : pystr := py "software-only".
Definition SOFTWARE_MEASUREMENT : pystr := py "software-only-no-hardware-guarantee".

Definition software_report (public_key nonce role : pystr) : AttestationReport :=
  {| platform := SOFTWARE_PLATFORM; measurement := SOFTWARE_MEASUREMENT;
     public_key := public_key; nonce := nonce; raw_evidence := None; quote_signature := None;
     attestation_key_pem := None; attestation_key_chain_pem := None; role := role |}.

Definition SoftwareProvider : Provider :=
  {| provider_platform := SOFTWARE_PLATFORM; detect := false;
     attest := fun public_key nonce role => Ok (software_report public_key nonce role) |}.

End tee.
Import tee.

(** ** Laws *)
Section binding_laws.
Context `{U : Unidata}.

(** The platform prefixes a report can be bound under. *)
Definition platform_prefixes : list bytes := [TPM_PREFIX; SNP_PREFIX; TDX_PREFIX].

Lemma prefixes_lookup k p :
  _PREFIXES !! k = Some p <-> (k, p) ∈
    [((TPM_PREFIX, ROLE_CALLEE), TPM_PREFIX); ((TPM_PREFIX, ROLE_CALLER), TPM_CALLER_PREFIX);
     ((SNP_PREFIX, ROLE_CALLEE), SNP_PREFIX); ((SNP_PREFIX, ROLE_CALLER), SNP_CALLER_PREFIX);
     ((TDX_PREFIX, ROLE_CALLEE), TDX_PREFIX); ((TDX_PREFIX, ROLE_CALLER), TDX_CALLER_PREFIX)].
Proof. unfold _PREFIXES. symmetry. apply elem_of_list_to_map. by_decision. Qed.

Lemma role_prefix_ok pp r p : role_prefix pp r = Ok p <-> _PREFIXES !! (pp, r) = Some p.
Proof. apply or_raise_ok. Qed.

(** Only the two roles, on the three platforms, have a binding. *)
Lemma role_prefix_known pp r p :
  role_prefix pp r = Ok p -> pp ∈ platform_prefixes /\ (r = ROLE_CALLEE \/ r = ROLE_CALLER).
Proof.
  rewrite role_prefix_ok, prefixes_lookup. intros H. unfold platform_prefixes.
  repeat (apply elem_of_cons in H as [H|H]; [injection H as -> -> ->; split; [set_solver|auto]|]).
  by apply not_elem_of_nil in H.
Qed.

(** No two bindings start alike: the first ten bytes tell platform and role. *)
Definition stem (p : bytes) : bytes := take 10 p.
Lemma role_prefix_stem_inj pp1 r1 p1 pp2 r2 p2 :
  role_prefix pp1 r1 = Ok p1 -> role_prefix pp2 r2 = Ok p2 -> stem p1 = stem p2 ->
  pp1 = pp2 /\ r1 = r2 /\ p1 = p2.
Proof.
  rewrite !role_prefix_ok, !prefixes_lookup. intros H1 H2.
  repeat (apply elem_of_cons in H1 as [H1|H1]; [|]); [..|by apply not_elem_of_nil in H1];
    injection H1 as -> -> ->;
    (repeat (apply elem_of_cons in H2 as [H2|H2]; [|]); [..|by apply not_elem_of_nil in H2];
     injection H2 as -> -> ->; intros H; first [done | by vm_compute in H]).
Qed.

Lemma role_prefix_length pp r p : role_prefix pp r = Ok p -> 10 <= length p.
Proof.
  rewrite role_prefix_ok, prefixes_lookup. intros H.
  repeat (apply elem_of_cons in H as [H|H]; [injection H as -> -> ->; by apply Nat.leb_le|]).
  by apply not_elem_of_nil in H.
Qed.

Lemma be_bytes_4_inj m n :
  (m < 4294967296)%N -> (n < 4294967296)%N -> be_bytes 4 m = be_bytes 4 n -> m = n.
Proof. intros. by apply (be_bytes_inj 4). Qed.

Lemma length_prefixed_ok f p :
  length_prefixed f = Ok p <->
  (N.of_nat (length f) < 4294967296)%N /\ p = be_bytes 4 (N.of_nat (length f)) ++ f.
Proof.
  unfold length_prefixed. rewrite seq_ok, (ok_unit (N.of_nat (length f) < 4294967296)%N).
  - split; intros [? H]; (split; [done|]); [by apply ok_inj in H|by subst].
  - intros u. rewrite raise_if_ok. apply N.leb_gt.
Qed.

(** Length-prefixing makes the concatenation unambiguous. *)
Lemma length_prefixed_app_inj f1 f2 p1 p2 r1 r2 :
  length_prefixed f1 = Ok p1 -> length_prefixed f2 = Ok p2 ->
  p1 ++ r1 = p2 ++ r2 -> f1 = f2 /\ r1 = r2.
Proof.
  intros [L1 ->]%length_prefixed_ok [L2 ->]%length_prefixed_ok H. rewrite <-!app_assoc in H.
  apply app_inj_1 in H as [Hl H]; [|by rewrite !length_be_bytes].
  apply be_bytes_4_inj in Hl; [|done|done]. apply app_inj_1 in H as [-> ->]; [done|lia].
Qed.

Lemma derive_binding_ok prefix k n d :
  derive_binding prefix k n = Ok d <->
  exists kb nb kp np, utf8_encode k = Some kb /\ utf8_encode n = Some nb /\
    length_prefixed kb = Ok kp /\ length_prefixed nb = Ok np /\ d = sha256 (prefix ++ kp ++ np).
Proof.
  unfold derive_binding, encode_utf8. split.
  - intros H. inv_ok. eauto 10.
  - intros (kb & nb & kp & np & -> & -> & H1 & H2 & ->).
    eapply bind_pass; [done|]. eapply bind_pass; [done|].
    eapply bind_pass; [done|]. by eapply bind_pass.
Qed.

Lemma length_derive_binding prefix k n d : derive_binding prefix k n = Ok d -> length d = 32.
Proof. intros (? & ? & ? & ? & _ & _ & _ & _ & ->)%derive_binding_ok. apply length_sha256. Qed.

Lemma pad_report_data_ok digest n p :
  pad_report_data digest n = Ok p <->
  length digest <= n /\ p = digest ++ repeat x00 (n - length digest).
Proof.
  unfold pad_report_data. rewrite seq_ok, (ok_unit (length digest <= n)).
  - split; intros [? H]; (split; [done|]); [by apply ok_inj in H|by subst].
  - intros u. rewrite raise_if_ok. apply Nat.ltb_ge.
Qed.

(** The message a platform's binding of a key and nonce for a role hashes. *)
Definition binding_input (platform_prefix : bytes) (key nonce role : pystr) (m : bytes) : Prop :=
  exists p kb nb kp np, role_prefix platform_prefix role = Ok p /\
    utf8_encode key = Some kb /\ utf8_encode nonce = Some nb /\
    length_prefixed kb = Ok kp /\ length_prefixed nb = Ok np /\ m = p ++ kp ++ np.

(** Two bindings hash different messages with one digest. *)
Definition bindings_collide (pp1 : bytes) (k1 n1 r1 : pystr) (pp2 : bytes) (k2 n2 r2 : pystr) : Prop :=
  exists m1 m2, binding_input pp1 k1 n1 r1 m1 /\ binding_input pp2 k2 n2 r2 m2 /\ collides m1 m2.

Lemma binding_inj pp1 r1 p1 k1 n1 pp2 r2 p2 k2 n2 d :
  role_prefix pp1 r1 = Ok p1 -> role_prefix pp2 r2 = Ok p2 ->
  derive_binding p1 k1 n1 = Ok d -> derive_binding p2 k2 n2 = Ok d ->
  (pp1 = pp2 /\ r1 = r2 /\ k1 = k2 /\ n1 = n2) \/ bindings_collide pp1 k1 n1 r1 pp2 k2 n2 r2.
Proof.
  intros Hp1 Hp2 Hd1 Hd2.
  apply derive_binding_ok in Hd1 as (kb1 & nb1 & kp1 & np1 & K1 & N1 & L1 & M1 & E1).
  apply derive_binding_ok in Hd2 as (kb2 & nb2 & kp2 & np2 & K2 & N2 & L2 & M2 & E2).
  rewrite E1 in E2. apply sha256_eq in E2 as [E|E]; [left|].
  2:{ right. exists (p1 ++ kp1 ++ np1), (p2 ++ kp2 ++ np2).
      split; [exists p1, kb1, nb1, kp1, np1|split; [exists p2, kb2, nb2, kp2, np2|exact E]];
      split_and!; (assumption || reflexivity). }
  assert (stem p1 = stem p2) as Hst.
  { apply (f_equal (take 10)) in E. unfold stem.
    rewrite !take_app_le in E by (by eapply role_prefix_length). done. }
  destruct (role_prefix_stem_inj _ _ _ _ _ _ Hp1 Hp2 Hst) as (-> & -> & ->).
  apply app_inv_head in E. destruct (length_prefixed_app_inj _ _ _ _ _ _ L1 L2 E) as [-> E'].
  rewrite <-(app_nil_r np1), <-(app_nil_r np2) in E'.
  destruct (length_prefixed_app_inj _ _ _ _ _ _ M1 M2 E') as [-> _].
  split_and!; [done|done|by eapply utf8_encode_inj|by eapply utf8_encode_inj].
Qed.

(** ** Properties *)

(** A binding commits the platform, the offer's role, the key and the nonce.
    Two bindings derived under the prefixes of known roles are equal only when all
    four are, or the two messages the bindings hash differ and have one digest; so an
    offer minted in one role or on one platform never passes for another's, and no
    delimiter trick can move bytes between key and nonce. *)
Theorem binding_commits pp1 r1 p1 k1 n1 pp2 r2 p2 k2 n2 d
    (Hp1 : role_prefix pp1 r1 = Ok p1) (Hp2 : role_prefix pp2 r2 = Ok p2)
    (Hd1 : derive_binding p1 k1 n1 = Ok d) (Hd2 : derive_binding p2 k2 n2 = Ok d) :
  (pp1 = pp2 /\ r1 = r2 /\ k1 = k2 /\ n1 = n2) \/ bindings_collide pp1 k1 n1 r1 pp2 k2 n2 r2.
Proof. by eapply binding_inj. Qed.

(** Report data is the digest left-aligned in a field of exactly the requested
    length, zero-filled, from which the digest is recovered; a digest longer than
    the field is refused with a ValueError, never truncated. *)
Theorem pad_report_data_exact digest n :
  if Nat.leb (length digest) n
  then exists p, pad_report_data digest n = Ok p /\ length p = n /\
         take (length digest) p = digest /\ Forall (fun b => b = x00) (drop (length digest) p)
  else exists e, pad_report_data digest n = Err e /\ is_value_error e = true.
Proof.
  destruct (Nat.leb_spec (length digest) n) as [Hle|Hgt].
  - eexists. split; [by apply pad_report_data_ok|]. split_and!.
    + rewrite length_app, repeat_length. lia.
    + by rewrite take_app_length.
    + rewrite drop_app_length. apply Forall_forall. intros b Hb%list_elem_of_In.
      by apply repeat_spec in Hb.
  - unfold pad_report_data. rewrite (proj2 (Nat.ltb_lt _ _)) by lia. by eexists.
Qed.
End binding_laws.

Module TeeExample.
Import AsciiOnly.
Definition demo_binding : bytes := get_ok [] (derive_binding SNP_PREFIX (py "ab") (py "nonce")).
Lemma demo_binding_ok : derive_binding SNP_PREFIX (py "ab") (py "nonce") = Ok demo_binding.
Proof. apply get_ok_spec. vm_compute. reflexivity. Qed.
Lemma demo_prefix_ok : role_prefix SNP_PREFIX ROLE_CALLEE = Ok SNP_PREFIX.
Proof. vm_compute. reflexivity. Qed.
#[local] Opaque demo_binding.
Lemma binding_commits_witness :
  (SNP_PREFIX = SNP_PREFIX /\ ROLE_CALLEE = ROLE_CALLEE /\ py "ab" = py "ab" /\ py "nonce" = py "nonce")
  \/ bindings_collide SNP_PREFIX (py "ab") (py "nonce") ROLE_CALLEE SNP_PREFIX (py "ab") (py "nonce") ROLE_CALLEE.
Proof.
  exact (binding_commits _ _ _ _ _ _ _ _ _ _ demo_binding demo_prefix_ok demo_prefix_ok
    demo_binding_ok demo_binding_ok).
Defined.
End TeeExample.
