(* ===== verification/Sealed.v ===== *)
(** * The sealed channel ([ca2a_runtime.channel.sealed])

    Sealing a payload to a peer's X25519 key and opening it: ephemeral ECDH,
    HKDF-SHA256, ChaCha20-Poly1305.  The ephemeral private key and the nonce,
    which the code draws at random, are arguments. *)
From S2P Require Export Crypto.

Module sealed.

Definition _VERSION : N := 1.
Definition _HKDF_INFO : bytes := ascii_bytes "ca2a/sealed-channel/v1".
Definition _EPH_LEN : nat := 32.
Definition _NONCE_LEN : nat := 12.
Definition _HEADER_LEN : nat := 1 + _EPH_LEN + _NONCE_LEN.

Section operations.
Context `{C : Crypto}.

(** [generate_channel_keypair()], of the generated key. *)
Definition generate_channel_keypair (priv : x_priv) : x_priv * pystr := (priv, x_public_hex priv).

Definition _derive_key (shared eph_pub peer_pub : bytes) : bytes :=
  hkdf_sha256 None _HKDF_INFO (eph_pub ++ peer_pub ++ shared).

(** [X25519PublicKey.from_public_bytes(bytes.fromhex(s))], as raw bytes. *)
Definition x_public_of_hex (s : pystr) : res bytes :=
  raw ← value_error (fromhex s);
  value_error (x_load_public raw);;
  Ok raw.

Record SealedChannel := { _peer_pub : bytes; peer_public_key : pystr }.

Definition invalid_peer_key (exc : exn) : exn :=
  err_d SealedChannelError (py "invalid peer public key") (exn_str exc).

(** [SealedChannel.__init__] *)
Definition new_channel (peer_public_key : pystr) : res SealedChannel :=
  pub ← try_except (x_public_of_hex peer_public_key) is_value_error
    (fun exc => Err (invalid_peer_key exc));
  Ok {| _peer_pub := pub; peer_public_key := peer_public_key |}.

Definition seal (eph_priv : x_priv) (nonce : bytes) (ch : SealedChannel) (payload aad : bytes) :
    res bytes :=
  let eph_pub := x_public eph_priv in
  let peer_pub_raw := _peer_pub ch in
  shared ← try_except (value_error (x_exchange eph_priv (_peer_pub ch))) is_value_error
    (fun exc => Err (invalid_peer_key exc));
  let key := _derive_key shared eph_pub peer_pub_raw in
  let ct := chacha_encrypt key nonce payload aad in
  Ok ([n2b _VERSION] ++ eph_pub ++ nonce ++ ct).

Definition open_sealed (blob : bytes) (private_key : x_priv) (aad : bytes) : res bytes :=
  raise_if (Nat.ltb (length blob) _HEADER_LEN
            || negb (bool_decide (b2n <$> head blob = Some _VERSION)))
    (err SealedChannelError (py "malformed or unsupported sealed payload"));;
  let eph_pub := take _EPH_LEN (drop 1 blob) in
  let nonce := take _NONCE_LEN (drop (1 + _EPH_LEN) blob) in
  let ct := drop _HEADER_LEN blob in
  try_except
    (let peer_pub_raw := x_public private_key in
     value_error (x_load_public eph_pub);;
     shared ← value_error (x_exchange private_key eph_pub);
     let key := _derive_key shared eph_pub peer_pub_raw in
     or_raise (chacha_decrypt key nonce ct aad) (PyExc InvalidTag []))
    (fun exc => is_py InvalidTag exc || is_value_error exc)
    (fun exc => Err (err_d SealedChannelError (py "sealed payload failed to open") (exn_str exc))).
End operations.
End sealed.
Import sealed.

(** ** Laws *)
Section laws.
Context `{C : Crypto}.

(** What a blob that opens is made of. *)
Definition sealed_as (blob : bytes) (k : x_priv) (aad payload : bytes) : Prop :=
  exists eph_pub nonce ct shared,
    blob = [n2b _VERSION] ++ eph_pub ++ nonce ++ ct /\
    length eph_pub = _EPH_LEN /\ length nonce = _NONCE_LEN /\
    x_load_public eph_pub = Ok tt /\ x_exchange k eph_pub = Ok shared /\
    chacha_decrypt (_derive_key shared eph_pub (x_public k)) nonce ct aad = Some payload.

(** The header splits off in one way. *)
Lemma header_split (eph nonce ct : bytes) v :
  length eph = _EPH_LEN -> length nonce = _NONCE_LEN ->
  let blob := [v] ++ eph ++ nonce ++ ct in
  Nat.ltb (length blob) _HEADER_LEN = false /\ head blob = Some v /\
  take _EPH_LEN (drop 1 blob) = eph /\ take _NONCE_LEN (drop (1 + _EPH_LEN) blob) = nonce /\
  drop _HEADER_LEN blob = ct.
Proof.
  intros He Hn blob. unfold blob, _HEADER_LEN, _EPH_LEN, _NONCE_LEN in *. split_and!.
  - apply Nat.ltb_ge. rewrite !length_app, He, Hn. simpl. lia.
  - done.
  - cbn [drop app]. rewrite drop_0. by rewrite take_app_length'.
  - cbn [drop app Nat.add]. rewrite ?drop_0. rewrite drop_app_length' by done. by rewrite take_app_length'.
  - cbn [drop app Nat.add]. rewrite ?drop_0. rewrite app_assoc, drop_app_length'; [done|].
    rewrite length_app. lia.
Qed.

Lemma header_join (blob : bytes) :
  Nat.ltb (length blob) _HEADER_LEN = false ->
  exists v eph nonce ct, blob = [v] ++ eph ++ nonce ++ ct /\
    length eph = _EPH_LEN /\ length nonce = _NONCE_LEN.
Proof.
  unfold _HEADER_LEN, _EPH_LEN, _NONCE_LEN. intros H%Nat.ltb_ge.
  destruct blob as [|v blob]; simpl in H; [lia|].
  exists v, (take 32 blob), (take 12 (drop 32 blob)), (drop 12 (drop 32 blob)).
  rewrite !take_drop. split_and!; [done| |]; rewrite length_take, ?length_drop; lia.
Qed.

Lemma version_ok v : bool_decide (b2n <$> Some v = Some _VERSION) = bool_decide (v = n2b _VERSION).
Proof.
  apply bool_decide_ext. simpl. split.
  - intros [= H]. by rewrite <-(n2b_b2n v), H.
  - intros ->. by rewrite b2n_n2b_small.
Qed.

Lemma open_sealed_ok blob k aad payload :
  open_sealed blob k aad = Ok payload <-> sealed_as blob k aad payload.
Proof.
  unfold sealed_as. split.
  - unfold open_sealed. intros H. inv_ok.
    match goal with H : _ || _ = false |- _ => apply orb_false_iff in H as [Hl Hv] end.
    destruct (header_join _ Hl) as (v & eph & nonce & ct & -> & He & Hn).
    destruct (header_split eph nonce ct v He Hn) as (_ & Hh & H1 & H2 & H3).
    rewrite Hh, version_ok in Hv. bool_to_prop. subst v. rewrite H1, H2, H3 in *. inv_ok.
    match goal with u : unit |- _ => destruct u end. by repeat eexists.
  - intros (eph & nonce & ct & shared & -> & He & Hn & Hl & Hx & Hd).
    destruct (header_split eph nonce ct (n2b _VERSION) He Hn) as (Hlen & Hh & H1 & H2 & H3).
    unfold open_sealed. rewrite Hh, version_ok, H1, H2, H3, Hlen.
    apply guard_pass; [by rewrite bool_decide_true|]. apply try_except_raise_ok.
    cbv zeta. apply (bind_pass _ _ tt); [by rewrite Hl|].
    apply (bind_pass _ _ shared); [by rewrite Hx|]. by rewrite Hd.
Qed.

Lemma open_sealed_err blob k aad e :
  open_sealed blob k aad = Err e -> exn_class e = Some SealedChannelError.
Proof.
  unfold open_sealed. intros [H|(? & _ & H)]%bind_err; [by err_cases|].
  unfold try_except in H. case_match eqn:E; [done|]. destruct (_ || _) eqn:Hs; [by injection H as <-|].
  injection H as <-. cbv zeta in E.
  apply bind_err in E as [E|(? & _ & E)]; [|apply bind_err in E as [E|(? & _ & E)]].
  - destruct (x_load_public _); [done|]. by injection E as <-.
  - destruct (x_exchange _ _); [done|]. by injection E as <-.
  - apply or_raise_err in E as [_ ->]. done.
Qed.

Lemma x_public_of_hex_hex `{!CryptoLaws C} k : x_public_of_hex (x_public_hex k) = Ok (x_public k).
Proof.
  unfold x_public_of_hex, x_public_hex. rewrite fromhex_hex. simpl.
  by rewrite x_load_public_ok by apply x_public_length.
Qed.

Lemma new_channel_public `{!CryptoLaws C} k :
  new_channel (x_public_hex k) = Ok {| _peer_pub := x_public k; peer_public_key := x_public_hex k |}.
Proof. unfold new_channel. by rewrite x_public_of_hex_hex. Qed.

(** A payload sealed to a peer's public key opens under the peer's private key and
    the same associated data, whatever the ephemeral key and the 12-byte nonce. *)
Lemma sealed_round_trip `{!CryptoLaws C} k eph nonce payload aad :
  length nonce = _NONCE_LEN ->
  exists channel blob,
    new_channel (x_public_hex k) = Ok channel /\
    seal eph nonce channel payload aad = Ok blob /\
    open_sealed blob k aad = Ok payload.
Proof.
  intros Hn. destruct (x_exchange_agree k eph) as (shared & Hk & He). do 2 eexists.
  split; [apply new_channel_public|]. split.
  - unfold seal. cbn [_peer_pub]. by rewrite He.
  - apply open_sealed_ok. exists (x_public eph), nonce. do 2 eexists. split; [done|].
    split_and!; [apply x_public_length|done|apply x_load_public_ok, x_public_length|exact Hk|].
    apply chacha_decrypt_encrypt.
Qed.

(** ** Properties *)

(** [open_sealed] returns a payload only when the blob is a version-1 header, a
    32-byte ephemeral key it can agree on and a 12-byte nonce followed by a
    ciphertext the AEAD authenticates under the derived key and the associated data;
    every other blob raises SealedChannelError and nothing else. *)
Theorem open_sealed_spec blob k aad :
  match open_sealed blob k aad with
  | Ok payload => sealed_as blob k aad payload
  | Err e => exn_class e = Some SealedChannelError /\ forall payload, ~ sealed_as blob k aad payload
  end.
Proof.
  destruct (open_sealed blob k aad) as [payload|e] eqn:E; [by apply open_sealed_ok|].
  split; [by eapply open_sealed_err|]. intros payload H%open_sealed_ok. congruence.
Qed.
End laws.

Module SealedExample.
Import Toy.
Definition demo_nonce : bytes := ascii_bytes "nonce-twelve".
End SealedExample.
