(* ===== verification/Attestation.v ===== *)
(** * The attestation handshake ([ca2a_runtime.attestation])

    Offers of attested channel keys, their appraisal in both directions, and the
    caller's proof that it holds the key it offered.  A hardware verifier is code
    the deployment injects, so it is an argument: it returns the measurement it
    verified or raises. *)
From S2P Require Export Challenge Tee Sealed.
Import tee sealed.

Module attestation.

Definition SOFTWARE_ONLY : pystr := py "software-only".

Definition Verifier : Type := AttestationReport -> pystr -> res pystr.

Record ChannelOffer := { channel_public_key : pystr; report : AttestationReport }.
#[export] Instance offer_eq_dec : EqDecision ChannelOffer.
Proof. solve_decision. Defined.

Record VerifiedPeer := { peer_key : pystr; assurance : pystr; peer_measurement : pystr }.

Definition CALLER_OFFER_VERSION : pystr := py "ca2a-caller-offer-v2".
Definition _POSSESSION_KEY_INFO : bytes := ascii_bytes "ca2a/caller-possession/v2/key".
Definition _POSSESSION_STATEMENT : bytes := ascii_bytes "ca2a/caller-possession/v2/statement" ++ [x00].

Section offers.
Context `{U : Unidata}.

Definition attest_channel (provider : Provider) (public_key nonce role_ : pystr) : res ChannelOffer :=
  report ← (if bool_decide (role_ = ROLE_CALLEE)
            then attest provider public_key nonce ROLE_CALLEE
            else attest provider public_key nonce role_);
  raise_if (negb (bool_decide (role report = role_)))
    (err_d AttestationFailed (py "the provider attested a different offer role than was requested")
       (py "requested " ++ py_repr role_ ++ py ", report says " ++ py_repr (role report)));;
  Ok {| channel_public_key := public_key; report := report |}.

(** [offer_channel], with the generated private key. *)
Definition offer_channel `{C : Crypto} (provider : Provider) (generated : x_priv)
    (nonce role_ : pystr) : res (x_priv * ChannelOffer) :=
  let '(private_key, public_key) := generate_channel_keypair generated in
  offer ← attest_channel provider public_key nonce role_;
  Ok (private_key, offer).

Definition verify_offer (offer : ChannelOffer) (expected_nonce : pystr)
    (verifier : option Verifier) (require_hardware : bool) (role_ : pystr) : res VerifiedPeer :=
  let report := report offer in
  raise_if (negb (bool_decide (role report = role_)))
    (err_d AttestationFailed
       (py "channel offer was minted for the " ++ py_repr (role report) ++ py " role, expected " ++
        py_repr role_)
       (py "a handshake-endpoint offer cannot be presented as a caller offer; a caller " ++
        py "offer must be minted for the caller's own call (" ++ CALLER_OFFER_VERSION ++
        py "), and a pre-v2 caller offer carries no role"));;
  raise_if (negb (bool_decide (public_key report = channel_public_key offer)))
    (err AttestationFailed (py "attestation report does not bind the offered channel key"));;
  raise_if (negb (bool_decide (nonce report = expected_nonce)))
    (err_d AttestationFailed (py "attestation report nonce does not match the expected nonce")
       (py "stale or replayed channel offer"));;
  if bool_decide (platform report = SOFTWARE_ONLY) then
    raise_if require_hardware
      (err AttestationFailed
         (py "peer hardware attestation is required; software-only offer refused"));;
    Ok {| peer_key := channel_public_key offer; assurance := py "none";
          peer_measurement := measurement report |}
  else
    match verifier with
    | None =>
        Err (err_d AttestationFailed
               (py "a " ++ py_repr (platform report) ++ py " report requires a hardware verifier")
               (py "refusing to trust a hardware attestation report without verification"))
    | Some verifier =>
        measurement ← verifier report expected_nonce;
        Ok {| peer_key := channel_public_key offer; assurance := py "hardware";
              peer_measurement := measurement |}
    end.

(** [clock] is [int(time.time())]. *)
Definition appraise_caller (clock : Z) (offer : ChannelOffer) (challenge_secret : bytes)
    (verifier : option Verifier) : res VerifiedPeer :=
  challenge.verify_challenge clock challenge_secret (nonce (report offer)) None;;
  verify_offer offer (nonce (report offer)) verifier false ROLE_CALLER.
End offers.

(** ** Proof of possession *)
Record CallerPossession := { version : pystr; mac : pystr }.
#[export] Instance possession_eq_dec : EqDecision CallerPossession.
Proof. solve_decision. Defined.

Definition possession_to_dict (p : CallerPossession) : dict :=
  [(py "version", JStr (version p)); (py "mac", JStr (mac p))].

Definition possession_from_dict (data : json) : res CallerPossession :=
  match data with
  | JObj d =>
      version ← or_raise (nonempty_str (field "version" d))
        (err AttestationFailed (py "caller_possession.version must be a non-empty string"));
      mac ← or_raise (nonempty_str (field "mac" d))
        (err AttestationFailed (py "caller_possession.mac must be a non-empty string"));
      Ok {| version := version; mac := mac |}
  | _ => Err (err_d AttestationFailed (py "caller_possession must be an object")
                (py "got " ++ type_name data))
  end.

(** The arguments of [caller_possession_transcript]. *)
Record possession_fields := {
  pf_challenge : pystr;
  pf_callee_key : pystr;
  pf_caller_key : pystr;
  pf_credential_id : pystr;
  pf_subject : pystr;
  pf_capability : pystr;
  pf_record_id : pystr;
  pf_payload : option bytes;
  pf_parent_hash : option pystr;
  pf_holder_signature : option pystr
}.

Definition caller_possession_transcript (f : possession_fields) : dict :=
  [(py "version", JStr CALLER_OFFER_VERSION);
   (py "challenge", JStr (pf_challenge f));
   (py "callee_channel_key", JStr (pf_callee_key f));
   (py "caller_channel_key", JStr (pf_caller_key f));
   (py "credential_id", JStr (pf_credential_id f));
   (py "subject", JStr (pf_subject f));
   (py "requested_capability", JStr (pf_capability f));
   (py "record_id", JStr (pf_record_id f));
   (py "payload_sha256", opt_str (sha256_hex <$> pf_payload f));
   (py "parent_record_hash", opt_str (pf_parent_hash f));
   (py "holder_proof_signature", opt_str (pf_holder_signature f))].

Section possession.
Context `{U : Unidata, C : Crypto}.

Definition _possession_mac (private_key : x_priv) (peer_public_key caller_channel_key
    callee_channel_key : pystr) (transcript : dict) : res pystr :=
  ikm ← try_except
    (peer ← x_public_of_hex peer_public_key;
     shared ← value_error (x_exchange private_key peer);
     caller ← value_error (fromhex caller_channel_key);
     callee ← value_error (fromhex callee_channel_key);
     Ok (caller ++ callee ++ shared))
    is_value_error
    (fun exc => Err (err_d AttestationFailed
       (py "caller proof of possession could not be keyed") (exn_str exc)));
  let key := hkdf_sha256 None _POSSESSION_KEY_INFO ikm in
  message ← canonicalize (JObj transcript);
  Ok (hex (hmac_sha256 key (_POSSESSION_STATEMENT ++ message))).

Definition prove_caller_possession (caller_private_key : x_priv) (callee_channel_key : pystr)
    (transcript : dict) : res CallerPossession :=
  let caller_channel_key := x_public_hex caller_private_key in
  raise_if (negb (bool_decide (dget (py "caller_channel_key") transcript
                               = Some (JStr caller_channel_key))))
    (err AttestationFailed (py "possession transcript names a different caller channel key"));;
  raise_if (negb (bool_decide (dget (py "callee_channel_key") transcript
                               = Some (JStr callee_channel_key))))
    (err AttestationFailed (py "possession transcript names a different callee channel key"));;
  mac ← _possession_mac caller_private_key callee_channel_key caller_channel_key
          callee_channel_key transcript;
  Ok {| version := CALLER_OFFER_VERSION; mac := mac |}.

Definition verify_caller_possession (possession : option CallerPossession)
    (callee_private_key : x_priv) (transcript : dict) : res unit :=
  match possession with
  | None =>
      Err (err_d AttestationFailed
             (py "caller offer carries no proof of possession of its channel key")
             (CALLER_OFFER_VERSION ++ py " requires caller_possession with every " ++
              py "caller_offer; an older caller must be upgraded"))
  | Some possession =>
      raise_if (negb (bool_decide (version possession = CALLER_OFFER_VERSION)))
        (err_d AttestationFailed (py "caller proof of possession has an unsupported version")
           (py "got " ++ py_repr (version possession) ++ py ", expected " ++
            py_repr CALLER_OFFER_VERSION));;
      let callee_channel_key := x_public_hex callee_private_key in
      raise_if (negb (bool_decide (dget (py "callee_channel_key") transcript
                                   = Some (JStr callee_channel_key))))
        (err AttestationFailed (py "possession transcript names a different callee channel key"));;
      let caller_channel_key := str_of (field "caller_channel_key" transcript) in
      expected ← _possession_mac callee_private_key caller_channel_key caller_channel_key
                   callee_channel_key transcript;
      mac_bytes ← encode_utf8 (mac possession);
      expected_bytes ← encode_utf8 expected;
      raise_if (negb (bool_decide (mac_bytes = expected_bytes)))
        (err_d AttestationFailed (py "caller proof of possession did not verify")
           (py "the presenter does not hold the attested caller channel key, " ++
            py "or the proof was made for a different request"))
  end.

(** [seal_to_peer], with the drawn ephemeral key and nonce. *)
Definition seal_to_peer (eph_priv : x_priv) (drawn_nonce : bytes) (peer : VerifiedPeer)
    (payload aad : bytes) : res bytes :=
  channel ← new_channel (peer_key peer);
  seal eph_priv drawn_nonce channel payload aad.
End possession.
End attestation.
Import attestation.

(** ** Offers *)
Section offer_laws.
Context `{U : Unidata}.

Lemma attest_channel_ok provider key n r offer :
  attest_channel provider key n r = Ok offer <->
  channel_public_key offer = key /\ attest provider key n r = Ok (report offer) /\
  role (report offer) = r.
Proof.
  unfold attest_channel.
  assert (forall k : res AttestationReport, attest provider key n r = k ->
    (if bool_decide (r = ROLE_CALLEE) then attest provider key n ROLE_CALLEE
     else attest provider key n r) = k) as Hd by (intros k <-; by case_bool_decide; subst).
  rewrite (Hd _ eq_refl).
  split.
  - intros H. inv_ok. bool_to_prop. done.
  - destruct offer as [k rep]; simpl. intros (-> & Ha & Hr).
    apply (bind_pass _ _ rep); [exact Ha|]. by apply guard_pass; [rewrite bool_decide_true|].
Qed.

(** What an appraised offer is. *)
Definition offer_accepted (offer : ChannelOffer) (expected_nonce : pystr)
    (verifier : option Verifier) (require_hardware : bool) (r : pystr) (peer : VerifiedPeer) : Prop :=
  role (report offer) = r /\ public_key (report offer) = channel_public_key offer /\
  nonce (report offer) = expected_nonce /\ peer_key peer = channel_public_key offer /\
  ((platform (report offer) = SOFTWARE_ONLY /\ require_hardware = false /\
    assurance peer = py "none" /\ peer_measurement peer = measurement (report offer)) \/
   (platform (report offer) <> SOFTWARE_ONLY /\ assurance peer = py "hardware" /\
    exists v, verifier = Some v /\ v (report offer) expected_nonce = Ok (peer_measurement peer))).

Lemma verify_offer_ok offer n v hw r peer :
  verify_offer offer n v hw r = Ok peer <-> offer_accepted offer n v hw r peer.
Proof.
  unfold verify_offer, offer_accepted.
  rewrite !seq_ok, !(ok_unit _ _ (guard_ok _ _)).
  assert (forall P Q R S T : Prop, (S <-> T) -> (P /\ Q /\ R /\ S <-> P /\ Q /\ R /\ T)) as Hand
    by tauto.
  apply Hand; clear Hand. case_bool_decide as Hp.
  - split.
    + intros H. inv_ok. simpl. split; [done|]. left. by split_and!.
    + intros (Hk & [(_ & -> & Ha & Hm)|[? _]]); [|done].
      destruct peer; simpl in *. by subst.
  - split.
    + intros H. destruct v as [v|]; [|discriminate H]. inv_ok. simpl. split; [done|].
      right. split_and!; eauto.
    + intros (Hk & [[? _]|(_ & Ha & w & -> & Hw)]); [done|].
      apply (bind_pass _ _ (peer_measurement peer)); [exact Hw|].
      destruct peer; simpl in *. by subst.
Qed.

Lemma verify_offer_err offer n v hw r e :
  verify_offer offer n v hw r = Err e ->
  exn_class e = Some AttestationFailed \/
  exists w, v = Some w /\ w (report offer) n = Err e.
Proof.
  unfold verify_offer. intros H.
  repeat (apply bind_err in H as [H|(? & _ & H)];
    [by apply raise_if_err in H as [_ ->]; left|]).
  destruct (bool_decide _); [left; by err_cases|]. destruct v as [w|]; [|left; by err_cases].
  apply bind_err in H as [H|(? & _ & H)]; [right; eauto|discriminate H].
Qed.

Lemma appraise_caller_ok clock offer secret v peer :
  appraise_caller clock offer secret v = Ok peer <->
  (exists expiry, authentic secret (nonce (report offer)) expiry /\ (clock < expiry)%Z) /\
  offer_accepted offer (nonce (report offer)) v false ROLE_CALLER peer.
Proof.
  unfold appraise_caller. rewrite seq_ok, verify_offer_ok. setoid_rewrite verify_challenge_ok.
  cbn [default]. split; intros [H1 H2]; (split; [|done]); [by destruct H1|by exists tt].
Qed.
End offer_laws.

(** ** Possession *)
Section possession_laws.
Context `{U : Unidata, C : Crypto}.

Lemma transcript_flat f : flat_dict (caller_possession_transcript f).
Proof.
  split; [apply (bool_decide_unpack _); vm_compute; exact I|].
  unfold caller_possession_transcript. cbn [forallb snd is_flat].
  by destruct (pf_payload f), (pf_parent_hash f), (pf_holder_signature f).
Qed.

Lemma transcript_lookups f :
  let d := caller_possession_transcript f in
  dget (py "challenge") d = Some (JStr (pf_challenge f)) /\
  dget (py "callee_channel_key") d = Some (JStr (pf_callee_key f)) /\
  dget (py "caller_channel_key") d = Some (JStr (pf_caller_key f)) /\
  dget (py "credential_id") d = Some (JStr (pf_credential_id f)) /\
  dget (py "subject") d = Some (JStr (pf_subject f)) /\
  dget (py "requested_capability") d = Some (JStr (pf_capability f)) /\
  dget (py "record_id") d = Some (JStr (pf_record_id f)) /\
  dget (py "payload_sha256") d = Some (opt_str (sha256_hex <$> pf_payload f)) /\
  dget (py "parent_record_hash") d = Some (opt_str (pf_parent_hash f)) /\
  dget (py "holder_proof_signature") d = Some (opt_str (pf_holder_signature f)).
Proof. cbv zeta. unfold caller_possession_transcript. split_and!; by dlookup. Qed.

(** Two requests a proof of possession cannot tell apart, their payloads' bytes
    aside. *)
Definition same_terms (f1 f2 : possession_fields) : Prop :=
  pf_challenge f1 = pf_challenge f2 /\ pf_callee_key f1 = pf_callee_key f2 /\
  pf_caller_key f1 = pf_caller_key f2 /\ pf_credential_id f1 = pf_credential_id f2 /\
  pf_subject f1 = pf_subject f2 /\ pf_capability f1 = pf_capability f2 /\
  pf_record_id f1 = pf_record_id f2 /\ pf_parent_hash f1 = pf_parent_hash f2 /\
  pf_holder_signature f1 = pf_holder_signature f2.

Lemma transcript_inj f1 f2 b :
  canonicalize (JObj (caller_possession_transcript f1)) = Ok b ->
  canonicalize (JObj (caller_possession_transcript f2)) = Ok b ->
  same_terms f1 f2 /\ (sha256_hex <$> pf_payload f1 = sha256_hex <$> pf_payload f2).
Proof.
  intros H1 H2.
  pose proof (canonical_flat_lookup _ _ _ (transcript_flat f1) (transcript_flat f2) H1 H2) as Hl.
  destruct (transcript_lookups f1) as (A1 & A2 & A3 & A4 & A5 & A6 & A7 & A8 & A9 & A10).
  destruct (transcript_lookups f2) as (B1 & B2 & B3 & B4 & B5 & B6 & B7 & B8 & B9 & B10).
  rewrite Hl, B1 in A1. rewrite Hl, B2 in A2. rewrite Hl, B3 in A3. rewrite Hl, B4 in A4.
  rewrite Hl, B5 in A5. rewrite Hl, B6 in A6. rewrite Hl, B7 in A7. rewrite Hl, B8 in A8.
  rewrite Hl, B9 in A9. rewrite Hl, B10 in A10.
  apply (inj Some), opt_str_inj in A8, A9, A10.
  unfold same_terms. split_and!; congruence.
Qed.

(** The two keys and the shared secret, as [_possession_mac] agrees them. *)
Lemma _possession_mac_ok k peer caller callee transcript m :
  _possession_mac k peer caller callee transcript = Ok m <->
  exists pub shared a b message,
    x_public_of_hex peer = Ok pub /\ x_exchange k pub = Ok shared /\
    fromhex caller = Ok a /\ fromhex callee = Ok b /\
    canonicalize (JObj transcript) = Ok message /\
    m = hex (hmac_sha256 (hkdf_sha256 None _POSSESSION_KEY_INFO (a ++ b ++ shared))
               (_POSSESSION_STATEMENT ++ message)).
Proof.
  unfold _possession_mac. split.
  - intros H. inv_ok. by repeat eexists.
  - intros (pub & shared & a & b & msg & H1 & H2 & H3 & H4 & H5 & ->).
    apply (bind_pass _ _ (a ++ b ++ shared)); [|by apply (bind_pass _ _ msg)].
    apply try_except_raise_ok. apply (bind_pass _ _ pub); [done|].
    apply (bind_pass _ _ shared); [by rewrite H2|]. apply (bind_pass _ _ a); [by rewrite H3|].
    by apply (bind_pass _ _ b); [rewrite H4|].
Qed.

(** The key and the message [_possession_mac] puts in the MAC, for the callee with
    private key [k] and the transcript of [f]. *)
Definition mac_inputs (k : x_priv) (f : possession_fields) (key message : bytes) : Prop :=
  exists pub shared a b msg,
    x_public_of_hex (pf_caller_key f) = Ok pub /\ x_exchange k pub = Ok shared /\
    fromhex (pf_caller_key f) = Ok a /\ fromhex (x_public_hex k) = Ok b /\
    canonicalize (JObj (caller_possession_transcript f)) = Ok msg /\
    key = hkdf_sha256 None _POSSESSION_KEY_INFO (a ++ b ++ shared) /\ message = _POSSESSION_STATEMENT ++ msg.

(** Both appraisals' MACs coincide by a SHA-256 collision of what they hash. *)
Definition mac_collision (k1 : x_priv) (f1 : possession_fields) (k2 : x_priv) (f2 : possession_fields) : Prop :=
  exists key1 m1 key2 m2, mac_inputs k1 f1 key1 m1 /\ mac_inputs k2 f2 key2 m2 /\
    hmac_collides key1 m1 key2 m2.

Lemma hex_utf8 b : exists e, encode_utf8 (hex b) = Ok e.
Proof.
  assert (is_Some (utf8_encode (hex b))) as [e He].
  { apply utf8_encode_scalars. unfold scalars. rewrite forallb_forall. intros c Hc.
    apply list_elem_of_In in Hc. pose proof (hex_lower b) as Hh. rewrite Forall_forall in Hh.
    specialize (Hh c Hc). unfold is_lower_hex, is_digit in Hh. apply scalar_spec. left.
    apply orb_true_iff in Hh as [Hh|Hh]; bool_to_prop; lia. }
  exists e. by apply encode_utf8_ok.
Qed.

(** A proof is accepted exactly when it is of the current version, is for this
    callee's key, and carries the MAC both sides compute. *)
Lemma verify_possession_ok p k transcript u :
  verify_caller_possession (Some p) k transcript = Ok u <->
  version p = CALLER_OFFER_VERSION /\
  dget (py "callee_channel_key") transcript = Some (JStr (x_public_hex k)) /\
  (let caller := str_of (field "caller_channel_key" transcript) in
   _possession_mac k caller caller (x_public_hex k) transcript = Ok (mac p)).
Proof.
  unfold verify_caller_possession. rewrite !seq_ok, !(ok_unit _ _ (guard_ok _ _)).
  cbv zeta. do 2 f_equiv. rewrite bind_ok. split.
  - intros (m & Hm & H). inv_ok. bool_to_prop. apply encode_utf8_ok in Hs, Hs0. subst.
    by rewrite (utf8_encode_inj _ _ _ Hs Hs0).
  - intros H. exists (mac p). split; [done|]. apply _possession_mac_ok in H.
    destruct H as (pub & shared & a & b & msg & _ & _ & _ & _ & _ & E).
    rewrite E. destruct (hex_utf8 (hmac_sha256 (hkdf_sha256 None _POSSESSION_KEY_INFO (a ++ b ++ shared))
               (_POSSESSION_STATEMENT ++ msg))) as [e He].
    apply (bind_pass _ _ e); [done|]. apply (bind_pass _ _ e); [done|].
    apply guard_ok. done.
Qed.

(** For requests: the transcript names the callee's key and the MAC is that of the
    request's inputs. *)
Lemma verify_request_possession_ok p k f u :
  verify_caller_possession (Some p) k (caller_possession_transcript f) = Ok u <->
  version p = CALLER_OFFER_VERSION /\ pf_callee_key f = x_public_hex k /\
  exists key message, mac_inputs k f key message /\ mac p = hex (hmac_sha256 key message).
Proof.
  destruct (transcript_lookups f) as (_ & L2 & L3 & _).
  rewrite verify_possession_ok, L2. cbv zeta. rewrite (field_get "caller_channel_key" _ _ L3). cbn [str_of].
  rewrite _possession_mac_ok. unfold mac_inputs. split; (intros (Hv & Hk & H); split; [done|]).
  - injection Hk as Hk. split; [done|]. destruct H as (pub & shared & a & b & msg & ? & ? & ? & ? & ? & ->).
    do 2 eexists. split; [|done]. by exists pub, shared, a, b, msg.
  - split; [by rewrite Hk|]. destruct H as (? & ? & (pub & shared & a & b & msg & ? & ? & ? & ? & ? & -> & ->) & ->).
    by exists pub, shared, a, b, msg.
Qed.

(** A proof of the current version fails only by [AttestationFailed], over a transcript
    that can be canonicalised. *)
Lemma possession_mac_fails k peer caller callee transcript msg :
  canonicalize (JObj transcript) = Ok msg ->
  raises_only AttestationFailed (_possession_mac k peer caller callee transcript).
Proof.
  intros Hc. unfold _possession_mac. apply only_bind; [|intros ikm _; rewrite Hc; apply only_ok].
  intros e. destruct (_ ≫= _) as [ikm|x] eqn:E; [done|]. cbn [try_except].
  assert (is_value_error x = true) as ->; [|by intros [= <-]].
  apply bind_err in E as [E|(pub & _ & E)].
  { unfold x_public_of_hex in E. apply bind_err in E as [E|(raw & _ & E)].
    - by destruct (fromhex peer); [|injection E as <-].
    - apply bind_err in E as [E|(? & _ & E)]; [|done]. by destruct (x_load_public raw); [|injection E as <-]. }
  apply bind_err in E as [E|(shared & _ & E)]; [by destruct (x_exchange k pub); [|injection E as <-]|].
  apply bind_err in E as [E|(a & _ & E)]; [by destruct (fromhex caller); [|injection E as <-]|].
  apply bind_err in E as [E|(b & _ & E)]; [by destruct (fromhex callee); [|injection E as <-]|done].
Qed.

Lemma verify_possession_fails p k transcript msg b :
  canonicalize (JObj transcript) = Ok msg -> mac p = hex b ->
  raises_only AttestationFailed (verify_caller_possession (Some p) k transcript).
Proof.
  intros Hc Hm. unfold verify_caller_possession. cbv zeta.
  apply only_guard; [done|intros _]. apply only_guard; [done|intros _].
  apply only_bind; [by eapply possession_mac_fails|intros expected He].
  rewrite Hm. destruct (hex_utf8 b) as [eb ->]. cbn [mbind result_bind].
  apply _possession_mac_ok in He as (? & ? & ? & ? & ? & _ & _ & _ & _ & _ & ->).
  destruct (hex_utf8 (hmac_sha256 (hkdf_sha256 None _POSSESSION_KEY_INFO (x1 ++ x2 ++ x0)) (_POSSESSION_STATEMENT ++ x3)))
    as [e' ->]. cbn [mbind result_bind].
  intros e. by intros [_ ->]%raise_if_err.
Qed.

Lemma prove_possession_ok k callee transcript p :
  prove_caller_possession k callee transcript = Ok p <->
  dget (py "caller_channel_key") transcript = Some (JStr (x_public_hex k)) /\
  dget (py "callee_channel_key") transcript = Some (JStr callee) /\
  version p = CALLER_OFFER_VERSION /\
  _possession_mac k callee (x_public_hex k) callee transcript = Ok (mac p).
Proof.
  unfold prove_caller_possession. rewrite !seq_ok, !(ok_unit _ _ (guard_ok _ _)).
  do 2 f_equiv. split.
  - intros H. inv_ok. done.
  - destruct p as [v m]; simpl. intros [-> H]. by apply (bind_pass _ _ m).
Qed.

(** What the holder of the offered key proves, the callee accepts. *)
Lemma proved_possession_verifies `{!CryptoLaws C} k callee transcript p :
  prove_caller_possession k (x_public_hex callee) transcript = Ok p ->
  verify_caller_possession (Some p) callee transcript = Ok tt.
Proof.
  intros (Hc1 & Hc2 & Hv & Hm)%prove_possession_ok. apply verify_possession_ok. split_and!; [done..|].
  cbv zeta. rewrite (field_get "caller_channel_key" _ _ Hc1). cbn [str_of].
  apply _possession_mac_ok in Hm as (pub & shared & a & b & msg & H1 & H2 & H3 & H4 & H5 & ->).
  apply _possession_mac_ok. destruct (x_exchange_agree k callee) as (shared' & Hx1 & Hx2).
  rewrite x_public_of_hex_hex in H1. injection H1 as <-. rewrite Hx1 in H2. injection H2 as <-.
  exists (x_public k), shared', a, b, msg. split_and!; try done. apply x_public_of_hex_hex.
Qed.

(** A lone surrogate in the MAC text escapes as UnicodeEncodeError, which is not
    an AttestationFailed. *)
Lemma possession_surrogate_escapes p k transcript m :
  version p = CALLER_OFFER_VERSION -> mac p = [0xD800%N] ->
  dget (py "callee_channel_key") transcript = Some (JStr (x_public_hex k)) ->
  (let caller := str_of (field "caller_channel_key" transcript) in
   _possession_mac k caller caller (x_public_hex k) transcript = Ok m) ->
  exists msg, verify_caller_possession (Some p) k transcript = Err (PyExc UnicodeEncodeError msg).
Proof.
  intros Hv Hmac Hk Hm. eexists. unfold verify_caller_possession.
  apply guard_pass; [by rewrite bool_decide_true|]. cbv zeta.
  apply guard_pass; [by rewrite bool_decide_true|].
  apply (bind_pass _ _ m); [exact Hm|]. rewrite Hmac. reflexivity.
Qed.
End possession_laws.

(** ** Properties *)
Section properties.
Context `{U : Unidata, C : Crypto}.

(** An offer is appraised exactly when it was minted for the expected role, its
    report binds the offered key under the expected nonce, and either it is
    software-only (assurance "none", and only when hardware is not required) or a
    verifier was supplied and vouches for the report (assurance "hardware", with the
    measurement that verifier returned); any other offer raises AttestationFailed or
    what the verifier raised. *)
Theorem verify_offer_spec offer n v hw r :
  match verify_offer offer n v hw r with
  | Ok peer => offer_accepted offer n v hw r peer
  | Err e =>
      (forall peer, ~ offer_accepted offer n v hw r peer) /\
      (exn_class e = Some AttestationFailed \/ exists w, v = Some w /\ w (report offer) n = Err e)
  end.
Proof.
  destruct (verify_offer offer n v hw r) as [peer|e] eqn:E; [by apply verify_offer_ok|].
  split; [|by apply verify_offer_err in E]. intros peer H%verify_offer_ok. congruence.
Qed.

(** A callee appraises a caller's offer exactly when the nonce in its report is
    an unexpired challenge this callee's secret authenticates and the offer, minted
    for the caller role, binds its key under that very nonce; an offer from a
    handshake endpoint is never appraised as a caller's. *)
Theorem appraise_caller_spec clock offer secret v peer :
  (appraise_caller clock offer secret v = Ok peer <->
   (exists expiry, authentic secret (nonce (report offer)) expiry /\ (clock < expiry)%Z) /\
   offer_accepted offer (nonce (report offer)) v false ROLE_CALLER peer) /\
  (role (report offer) = ROLE_CALLEE -> appraise_caller clock offer secret v <> Ok peer).
Proof.
  split; [apply appraise_caller_ok|]. intros Hr [_ (Hc & _)]%appraise_caller_ok.
  rewrite Hr in Hc. revert Hc. by apply py_neq.
Qed.

(** The handshake end to end.  If the provider attests what it is asked to and
    the report is software-only or one the caller's verifier vouches for, the caller
    accepts the callee's offer and a payload it seals to the appraised key opens
    under the callee's private key; the same offer presented as a caller's offer is
    refused with AttestationFailed. *)
Theorem handshake_end_to_end `{!CryptoLaws C} provider k n rep v eph drawn payload aad
    (Hattest : attest provider (x_public_hex k) n ROLE_CALLEE = Ok rep)
    (Hkey : public_key rep = x_public_hex k) (Hnonce : nonce rep = n) (Hrole : role rep = ROLE_CALLEE)
    (Hvouched : platform rep = SOFTWARE_ONLY \/
                exists w m, v = Some w /\ w rep n = Ok m)
    (Hdrawn : length drawn = _NONCE_LEN) :
  exists offer peer blob,
    offer_channel provider k n ROLE_CALLEE = Ok (k, offer) /\
    verify_offer offer n v false ROLE_CALLEE = Ok peer /\
    seal_to_peer eph drawn peer payload aad = Ok blob /\
    open_sealed blob k aad = Ok payload /\
    raises AttestationFailed (verify_offer offer n v false ROLE_CALLER) = true.
Proof.
  set (offer := {| channel_public_key := x_public_hex k; report := rep |}).
  assert (exists peer, verify_offer offer n v false ROLE_CALLEE = Ok peer) as [peer Hp].
  { setoid_rewrite verify_offer_ok. unfold offer_accepted. simpl.
    destruct (decide (platform rep = SOFTWARE_ONLY)) as [Hs|Hs].
    - exists {| peer_key := x_public_hex k; assurance := py "none"; peer_measurement := measurement rep |}.
      by split_and!; try done; left.
    - destruct Hvouched as [?|(w & m & -> & Hw)]; [done|].
      exists {| peer_key := x_public_hex k; assurance := py "hardware"; peer_measurement := m |}.
      split_and!; try done. right. split_and!; eauto. }
  destruct (sealed_round_trip k eph drawn payload aad Hdrawn) as (ch & blob & Hch & Hseal & Hopen).
  exists offer, peer, blob. split_and!.
  - unfold offer_channel, generate_channel_keypair. eapply bind_pass; [|reflexivity].
    by apply attest_channel_ok.
  - exact Hp.
  - apply verify_offer_ok in Hp as (_ & _ & _ & Hpk & _). unfold seal_to_peer.
    apply (bind_pass _ _ ch); [by rewrite Hpk|exact Hseal].
  - exact Hopen.
  - unfold verify_offer. cbn [report offer].
    by rewrite (bool_decide_false (role rep = ROLE_CALLER)) by (rewrite Hrole; by apply py_neq).
Qed.

(** The caller that holds its offered channel key proves it: for a request whose
    transcript names the two channel keys and can be canonicalised, the proof it
    makes is the one the callee accepts. *)
Theorem possession_round_trip `{!CryptoLaws C} caller callee f
    (Hcaller : pf_caller_key f = x_public_hex caller)
    (Hcallee : pf_callee_key f = x_public_hex callee)
    (Hdom : in_domain (JObj (caller_possession_transcript f)) = true) :
  exists p, prove_caller_possession caller (x_public_hex callee) (caller_possession_transcript f) = Ok p /\
    verify_caller_possession (Some p) callee (caller_possession_transcript f) = Ok tt.
Proof.
  apply canonicalize_in_domain in Hdom as [msg Hmsg].
  destruct (x_exchange_agree caller callee) as (shared & Hx1 & Hx2).
  destruct (transcript_lookups f) as (_ & L2 & L3 & _). rewrite Hcaller in L3. rewrite Hcallee in L2.
  assert (forall k other m, x_exchange k (x_public other) = Ok shared ->
    m = hex (hmac_sha256 (hkdf_sha256 None _POSSESSION_KEY_INFO (x_public caller ++ x_public callee ++ shared))
               (_POSSESSION_STATEMENT ++ msg)) ->
    _possession_mac k (x_public_hex other) (x_public_hex caller) (x_public_hex callee)
      (caller_possession_transcript f) = Ok m) as Hmac.
  { intros k other m Hx ->. apply _possession_mac_ok.
    exists (x_public other), shared, (x_public caller), (x_public callee), msg.
    split_and!; try done; try apply fromhex_hex. apply x_public_of_hex_hex. }
  eexists {| version := CALLER_OFFER_VERSION; mac := _ |}. split.
  - apply prove_possession_ok. split_and!; [done..|]. simpl. by apply Hmac.
  - apply verify_possession_ok. split_and!; [done..|]. cbv zeta.
    rewrite (field_get "caller_channel_key" _ _ L3). cbn [str_of mac]. by apply Hmac.
Qed.

(** C26: a proof of possession cannot be lifted onto another request.  A proof
    accepted for one request is refused, by any callee key, for every request that
    differs in the challenge, a channel key, the credential, its subject, the
    capability, the record id, the payload, the parent hash or the holder proof's
    signature, and refused with [AttestationFailed] when the other request can be
    canonicalised.  The exceptions are SHA-256 collisions of the data: of what the two
    MACs hash, or of the two payloads when nothing else differs. *)
Theorem possession_binds p k1 k2 f1 f2
    (H1 : verify_caller_possession (Some p) k1 (caller_possession_transcript f1) = Ok tt)
    (Hother : ~ (same_terms f1 f2 /\ pf_payload f1 = pf_payload f2)) :
  (exists e, verify_caller_possession (Some p) k2 (caller_possession_transcript f2) = Err e /\
     (in_domain (JObj (caller_possession_transcript f2)) = true -> exn_class e = Some AttestationFailed)) \/
  mac_collision k1 f1 k2 f2 \/
  (same_terms f1 f2 /\ exists x y, pf_payload f1 = Some x /\ pf_payload f2 = Some y /\ collides x y).
Proof.
  apply verify_request_possession_ok in H1 as (_ & _ & key1 & m1 & Hi1 & Hm1).
  destruct (verify_caller_possession (Some p) k2 _) as [[]|e] eqn:H2.
  - right. apply verify_request_possession_ok in H2 as (_ & _ & key2 & m2 & Hi2 & Hm2).
    rewrite Hm1 in Hm2. apply (inj hex), hmac_sha256_eq in Hm2 as [Hm|Hm]; [right|left; by exists key1, m1, key2, m2].
    destruct Hi1 as (? & ? & ? & ? & msg1 & _ & _ & _ & _ & C1 & _ & ->).
    destruct Hi2 as (? & ? & ? & ? & msg2 & _ & _ & _ & _ & C2 & _ & ->).
    apply app_inv_head in Hm as <-. destruct (transcript_inj _ _ _ C1 C2) as [Ht Hp].
    split; [done|]. apply opt_sha256_eq in Hp as [Hp|Hp]; [by destruct Hother|done].
  - left. exists e. split; [done|]. intros [msg Hc]%canonicalize_in_domain. by eapply verify_possession_fails.
Qed.
End properties.

(** ** A concrete handshake *)
Module AttestationExample.
Import AsciiOnly Toy.
Definition fields : possession_fields :=
  {| pf_challenge := py "v1.9.ab.cd"; pf_callee_key := x_public_hex (C := toy) 3%N;
     pf_caller_key := x_public_hex (C := toy) 4%N; pf_credential_id := py "c2";
     pf_subject := py "s"; pf_capability := py "read"; pf_record_id := py "r1";
     pf_payload := Some (ascii_bytes "sealed"); pf_parent_hash := None;
     pf_holder_signature := Some (py "ff") |}.
Lemma fields_domain : in_domain (JObj (caller_possession_transcript fields)) = true.
Proof. vm_compute. reflexivity. Qed.

Lemma possession_round_trip_witness :
  exists p, prove_caller_possession (C := toy) 4%N (x_public_hex (C := toy) 3%N)
              (caller_possession_transcript fields) = Ok p /\
    verify_caller_possession (C := toy) (Some p) 3%N (caller_possession_transcript fields) = Ok tt.
Proof.
  exact (possession_round_trip (C := toy) 4%N 3%N fields eq_refl eq_refl fields_domain).
Defined.

Definition proof_ : CallerPossession :=
  get_ok {| version := []; mac := [] |}
    (prove_caller_possession (C := toy) 4%N (x_public_hex (C := toy) 3%N)
       (caller_possession_transcript fields)).
Lemma proof_verifies :
  verify_caller_possession (C := toy) (Some proof_) 3%N (caller_possession_transcript fields) = Ok tt.
Proof. by_decision. Qed.
#[local] Opaque proof_.
(** The same request for another capability. *)
Definition lifted : possession_fields :=
  {| pf_challenge := pf_challenge fields; pf_callee_key := pf_callee_key fields;
     pf_caller_key := pf_caller_key fields; pf_credential_id := pf_credential_id fields;
     pf_subject := pf_subject fields; pf_capability := py "write"; pf_record_id := pf_record_id fields;
     pf_payload := pf_payload fields; pf_parent_hash := pf_parent_hash fields;
     pf_holder_signature := pf_holder_signature fields |}.
Lemma lifted_differs : ~ (same_terms fields lifted /\ pf_payload fields = pf_payload lifted).
Proof. intros [(_ & _ & _ & _ & _ & H & _) _]. by apply py_neq in H. Qed.
Lemma possession_binds_witness :
  verify_caller_possession (C := toy) (Some proof_) 3%N (caller_possession_transcript fields) = Ok tt /\
  ((exists e, verify_caller_possession (C := toy) (Some proof_) 3%N (caller_possession_transcript lifted) = Err e) \/
   mac_collision (C := toy) 3%N fields 3%N lifted).
Proof.
  split; [exact proof_verifies|].
  destruct (possession_binds (C := toy) proof_ 3%N 3%N fields lifted proof_verifies lifted_differs)
    as [(e & He & _)|[Hc|[Ht _]]].
  - left. exists e. exact He.
  - right. exact Hc.
  - exfalso. destruct Ht as (_ & _ & _ & _ & _ & H & _). revert H. apply py_neq. reflexivity.
Defined.

Lemma handshake_end_to_end_witness :
  exists offer peer blob,
    offer_channel (C := toy) SoftwareProvider 5%N (py "n") ROLE_CALLEE = Ok (5%N, offer) /\
    verify_offer offer (py "n") None false ROLE_CALLEE = Ok peer /\
    seal_to_peer (C := toy) 6%N SealedExample.demo_nonce peer (ascii_bytes "hi") [] = Ok blob /\
    open_sealed (C := toy) blob 5%N [] = Ok (ascii_bytes "hi") /\
    raises AttestationFailed (verify_offer offer (py "n") None false ROLE_CALLER) = true.
Proof.
  apply (handshake_end_to_end (C := toy) SoftwareProvider 5%N (py "n")
    (software_report (x_public_hex (C := toy) 5%N) (py "n") ROLE_CALLEE) None 6%N
    SealedExample.demo_nonce (ascii_bytes "hi") [] eq_refl eq_refl eq_refl eq_refl).
  - left. reflexivity.
  - vm_compute. reflexivity.
Defined.

Lemma appraise_caller_spec_witness :
  appraise_caller 0 {| channel_public_key := py "k"; report := software_report (py "k") (py "n") ROLE_CALLEE |}
    [] None <> Ok {| peer_key := py "k"; assurance := py "none"; peer_measurement := [] |}.
Proof.
  apply (proj2 (appraise_caller_spec 0
    {| channel_public_key := py "k"; report := software_report (py "k") (py "n") ROLE_CALLEE |} [] None
    {| peer_key := py "k"; assurance := py "none"; peer_measurement := [] |})).
  reflexivity.
Defined.
End AttestationExample.
