(* ===== verification/Peer.v ===== *)
(** * Inbound enforcement ([ca2a_runtime.peer])

    What a callee does with a parsed request: verify the chain, bind it to the
    caller, intersect with policy, appraise the caller, decide, and only then open
    the payload.  The pipeline is written in a monad that records the steps it
    takes, so their order is part of what it computes.  The policy is any
    instance of [Policy]. *)
From S2P Require Export Holder Policy Provenance Attestation.
Import challenge holder tee sealed attestation.

Module peer.

Definition REQUIRE_NONE : pystr := py "none".
Definition REQUIRE_ANY : pystr := py "any".
Definition REQUIRE_HARDWARE : pystr := py "hardware".
Definition REQUIREMENT_VALUES : gset pystr := keys_of ["none"; "any"; "hardware"]%string.

Record PeerDecision := {
  dec_effective_scope : gset pystr;
  dec_granted_capability : pystr;
  dec_record : DelegationRecord
}.

Record PeerRequest := {
  chain : list DelegationCredential;
  requested_capability : pystr;
  req_record_id : pystr;
  sealed_payload : option bytes;
  parent_record_hash : option pystr;
  caller_offer : option ChannelOffer;
  holder_proof : option HolderProof;
  caller_possession : option CallerPossession
}.

Record PeerResult := {
  effective_scope : gset pystr;
  granted_capability : pystr;
  record : DelegationRecord;
  payload : option bytes;
  caller_attestation : pystr;
  revocation_status : revocation.RevocationStatus
}.

(** The keyword arguments of chain verification. *)
Record ChainOptions := {
  max_depth : Z;
  trusted_root_issuers : gset pystr;
  revocations : option revocation.RevocationSnapshot;
  max_revocation_staleness : option Z
}.

(** [int(time.time())] as each step reads it. *)
Record Clocks := { chain_clock : Z; holder_clock : Z; appraisal_clock : Z }.

(** [chain[-1]] *)
Definition last_hop (chain : list DelegationCredential) : res DelegationCredential :=
  or_raise (last chain) (PyExc IndexError (py "list index out of range")).

Section decision.
Context `{U : Unidata, C : Crypto, P : Policy Pol}.

Definition verify_chain_with (clock : Z) (chain : list DelegationCredential) (o : ChainOptions) :
    res revocation.RevocationStatus :=
  verify_chain clock chain (max_depth o) (trusted_root_issuers o) None (revocations o)
    (max_revocation_staleness o).

(** [effective_scope()] *)
Definition effective_scope_of (clock : Z) (chain : list DelegationCredential) (policy : Pol)
    (o : ChainOptions) : res (gset pystr) :=
  verify_chain_with clock chain o;;
  leaf ← last_hop chain;
  intersect policy (scope leaf).

Definition decide_capability (chain : list DelegationCredential) (requested_capability : pystr)
    (effective : gset pystr) (record_id : pystr) (parent_record_hash : option pystr)
    (caller_attestation : pystr) : res PeerDecision :=
  if negb (bool_decide (requested_capability ∈ effective)) then
    let reason := py "capability " ++ py_repr requested_capability ++
                  py " is not in the effective scope" in
    leaf ← last_hop chain;
    record ← denial_record_for leaf record_id parent_record_hash requested_capability effective
               reason caller_attestation;
    Err (err_rec ScopeNotPermitted reason
           (Some (py "effective=" ++ repr_list (sorted_set effective))) record)
  else
    leaf ← last_hop chain;
    record ← record_for leaf record_id parent_record_hash caller_attestation;
    Ok {| dec_effective_scope := effective; dec_granted_capability := requested_capability;
          dec_record := record |}.

Definition enforce_peer_call (clock : Z) (chain : list DelegationCredential)
    (requested_capability : pystr) (policy : Pol) (record_id : pystr)
    (parent_record_hash : option pystr) (caller_attestation : pystr) (o : ChainOptions) :
    res PeerDecision :=
  effective ← effective_scope_of clock chain policy o;
  decide_capability chain requested_capability effective record_id parent_record_hash
    caller_attestation.
End decision.

Section appraisal.
Context `{U : Unidata, C : Crypto}.

(** The inner [refuse(reason, outcome=, detail=)]. *)
Definition refuse {A : Type} (request : PeerRequest) (effective : gset pystr) (reason outcome : pystr)
    (detail : option pystr) : res A :=
  leaf ← last_hop (chain request);
  record ← denial_record_for leaf (req_record_id request) (parent_record_hash request)
             (requested_capability request) effective reason outcome;
  Err (err_rec AttestationFailed reason detail record).

(** The transcript the callee rebuilds from the request. *)
Definition request_transcript (request : PeerRequest) (leaf : DelegationCredential)
    (offer : ChannelOffer) (callee_private_key : x_priv) : possession_fields :=
  {| pf_challenge := nonce (report offer);
     pf_callee_key := x_public_hex callee_private_key;
     pf_caller_key := public_key (report offer);
     pf_credential_id := credential_id leaf;
     pf_subject := subject leaf;
     pf_capability := requested_capability request;
     pf_record_id := req_record_id request;
     pf_payload := sealed_payload request;
     pf_parent_hash := parent_record_hash request;
     pf_holder_signature := proof_signature <$> holder_proof request |}.

Definition appraise_caller_runtime (clock : Z) (request : PeerRequest) (effective : gset pystr)
    (requirement : pystr) (challenge_secret : option bytes) (caller_verifier : option Verifier)
    (callee_private_key : option x_priv) : res pystr :=
  raise_if (negb (bool_decide (requirement ∈ REQUIREMENT_VALUES)))
    (err ConfigError (py "require_caller_attestation must be one of " ++
       repr_list (sorted_set REQUIREMENT_VALUES) ++ py ", got " ++ py_repr requirement));;
  match caller_offer request with
  | None =>
      match caller_possession request with
      | Some _ =>
          refuse request effective
            (py "a caller proof of possession was sent without a caller offer") CALLER_FAILED None
      | None =>
          if bool_decide (requirement = REQUIRE_NONE) then Ok CALLER_NOT_OFFERED
          else refuse request effective
                 (py "the callee requires caller attestation and the caller offered none")
                 CALLER_NOT_OFFERED
                 (Some (py "require_caller_attestation=" ++ py_repr requirement))
      end
  | Some offer =>
      match challenge_secret with
      | None =>
          refuse request effective
            (py "the caller offered an attestation but this callee issues no challenges")
            CALLER_FAILED
            (Some (py "no challenge secret is configured, so no offer can be appraised"))
      | Some challenge_secret =>
          peer ← try_except (appraise_caller clock offer challenge_secret caller_verifier)
            (is_ca2a AttestationFailed)
            (fun exc => refuse request effective
               (py "the caller's attestation did not appraise: " ++ exn_str exc) CALLER_FAILED
               (exn_detail exc));
          match callee_private_key with
          | None =>
              refuse request effective
                (py "the caller offered an attestation but this callee has no channel key " ++
                 py "to check its proof of possession against") CALLER_FAILED None
          | Some callee_private_key =>
              leaf ← last_hop (chain request);
              try_except
                (verify_caller_possession (caller_possession request) callee_private_key
                   (caller_possession_transcript
                      (request_transcript request leaf offer callee_private_key)))
                (is_ca2a AttestationFailed)
                (fun exc => refuse request effective
                   (py "the caller's proof of possession did not verify: " ++ exn_str exc)
                   CALLER_FAILED (exn_detail exc));;
              let outcome := if bool_decide (assurance peer = py "hardware")
                             then CALLER_HARDWARE else CALLER_SOFTWARE_ONLY in
              if bool_decide (requirement = REQUIRE_HARDWARE)
                 && negb (bool_decide (outcome = CALLER_HARDWARE))
              then refuse request effective
                     (py "the callee requires a hardware-attested caller") outcome
                     (Some (py "the caller appraised at assurance " ++ py_repr (assurance peer)))
              else Ok outcome
          end
      end
  end.

(** The terms a holder proof commits, from the request. *)
Definition terms_of (request : PeerRequest) (audience : pystr) : request_terms :=
  {| term_audience := audience; term_capability := requested_capability request;
     term_record_id := req_record_id request; term_payload := sealed_payload request;
     term_channel_key := channel_public_key <$> caller_offer request;
     term_parent_hash := parent_record_hash request |}.

Definition verify_caller_holds_leaf (clock : Z) (request : PeerRequest) (audience : option pystr)
    (challenge_secret : option bytes) : res unit :=
  match holder_proof request with
  | None =>
      Err (err_d HolderProofInvalid (py "no holder proof was presented with the delegation chain")
             (py "a chain alone does not establish that the caller is its subject"))
  | Some proof =>
      match audience, challenge_secret with
      | Some audience, Some challenge_secret =>
          leaf ← last_hop (chain request);
          verify_holder_proof clock proof leaf challenge_secret (terms_of request audience)
      | _, _ =>
          Err (err_d HolderProofInvalid
                 (py "holder proof required but this callee has no challenge context")
                 (py "the callee must name itself as the audience and hold the " ++
                  py "secret behind the challenge it issued"))
      end
  end.
End appraisal.

(** ** The pipeline *)
Inductive step := VerifyChain | HolderBinding | PolicyIntersect | Appraise | Decide | OpenPayload.
#[export] Instance step_eq_dec : EqDecision step.
Proof. solve_decision. Defined.

(** A computation with the steps it took. *)
Definition traced (A : Type) : Type := list step * res A.
#[export] Instance traced_ret : MRet traced := fun _ a => ([], Ok a).
#[export] Instance traced_bind : MBind traced := fun _ _ f m =>
  match m.2 with
  | Ok a => let r := f a in (m.1 ++ r.1, r.2)
  | Err e => (m.1, Err e)
  end.
Definition take_step {A : Type} (s : step) (m : res A) : traced A := ([s], m).
Definition pure_step {A : Type} (m : res A) : traced A := ([], m).

Record HandleOptions `{C : Crypto} := {
  enclave_private_key : option x_priv;
  opt_challenge_secret : option bytes;
  require_caller_attestation : pystr;
  opt_caller_verifier : option Verifier;
  opt_audience : option pystr;
  require_holder_proof : bool;
  chain_options : ChainOptions
}.

Section pipeline.
Context `{U : Unidata, C : Crypto, P : Policy Pol}.

Definition handle_peer_request (clk : Clocks) (request : PeerRequest) (policy : Pol)
    (o : HandleOptions) : traced PeerResult :=
  rev ← take_step VerifyChain
    (verify_chain_with (chain_clock clk) (chain request) (chain_options o));
  (if require_holder_proof o
   then take_step HolderBinding
          (verify_caller_holds_leaf (holder_clock clk) request (opt_audience o)
             (opt_challenge_secret o))
   else mret tt);;
  leaf ← pure_step (last_hop (chain request));
  effective ← take_step PolicyIntersect (intersect policy (scope leaf));
  att ← take_step Appraise
    (appraise_caller_runtime (appraisal_clock clk) request effective
       (require_caller_attestation o) (opt_challenge_secret o) (opt_caller_verifier o)
       (enclave_private_key o));
  decision ← take_step Decide
    (decide_capability (chain request) (requested_capability request) effective
       (req_record_id request) (parent_record_hash request) att);
  opened ← match sealed_payload request with
    | None => mret None
    | Some blob =>
        match enclave_private_key o with
        | None => pure_step (Err (err SealedChannelError
            (py "a sealed payload was sent but no enclave key is available")))
        | Some k => take_step OpenPayload (Some <$> open_sealed blob k [])
        end
    end;
  mret {| effective_scope := dec_effective_scope decision;
          granted_capability := dec_granted_capability decision;
          record := dec_record decision; payload := opened;
          caller_attestation := att; revocation_status := rev |}.
End pipeline.

End peer.
Import peer.

(** ** The monad *)
Section traced_laws.
Lemma traced_bind_ok {A B} (m : traced A) (f : A -> traced B) b :
  (m ≫= f).2 = Ok b <-> exists a, m.2 = Ok a /\ (f a).2 = Ok b.
Proof. destruct m as [l [a|e]]; simpl; naive_solver. Qed.

Lemma traced_bind_err {A B} (m : traced A) (f : A -> traced B) e :
  (m ≫= f).2 = Err e <-> m.2 = Err e \/ exists a, m.2 = Ok a /\ (f a).2 = Err e.
Proof. destruct m as [l [a|e']]; simpl; naive_solver. Qed.

(** A step is in the trace of a sequence if the first part took it, or the first
    part returned and the second took it. *)
Lemma traced_bind_step {A B} (m : traced A) (f : A -> traced B) s :
  s ∈ (m ≫= f).1 <-> s ∈ m.1 \/ exists a, m.2 = Ok a /\ s ∈ (f a).1.
Proof.
  destruct m as [l [a|e]]; simpl; [rewrite elem_of_app|]; naive_solver.
Qed.

Lemma traced_bind_prefix {A B} (m : traced A) (f : A -> traced B) l k :
  m.1 = l -> (forall a, m.2 = Ok a -> (f a).1 `prefix_of` k) -> (m ≫= f).1 `prefix_of` (l ++ k).
Proof.
  destruct m as [l' [a|e]]; simpl; intros -> H; [by apply prefix_app, H|by apply prefix_app_r].
Qed.
End traced_laws.

(** ** What a request must satisfy *)
Section spec.
Context `{U : Unidata, C : Crypto, P : Policy Pol}.
Implicit Types (req : PeerRequest) (o : HandleOptions) (clk : Clocks).

Definition holder_bound clk req o (leaf : DelegationCredential) : Prop :=
  exists proof audience secret,
    holder_proof req = Some proof /\ opt_audience o = Some audience /\
    opt_challenge_secret o = Some secret /\
    (exists expiry, authentic secret (proof_challenge proof) expiry /\ (holder_clock clk < expiry)%Z) /\
    holder_signature_ok proof leaf (terms_of req audience).

(** The caller's offer appraised, and the caller shown to hold its key. *)
Definition offer_proved clk req o (leaf : DelegationCredential) (offer : ChannelOffer)
    (peer : VerifiedPeer) : Prop :=
  exists secret k possession,
    opt_challenge_secret o = Some secret /\ enclave_private_key o = Some k /\
    caller_possession req = Some possession /\
    appraise_caller (appraisal_clock clk) offer secret (opt_caller_verifier o) = Ok peer /\
    verify_caller_possession (Some possession) k
      (caller_possession_transcript (request_transcript req leaf offer k)) = Ok tt.

Definition outcome_of (peer : VerifiedPeer) : pystr :=
  if bool_decide (assurance peer = py "hardware") then CALLER_HARDWARE else CALLER_SOFTWARE_ONLY.

Definition attested clk req o leaf (att : pystr) : Prop :=
  require_caller_attestation o ∈ REQUIREMENT_VALUES /\
  match caller_offer req with
  | None =>
      caller_possession req = None /\ require_caller_attestation o = REQUIRE_NONE /\
      att = CALLER_NOT_OFFERED
  | Some offer =>
      exists peer, offer_proved clk req o leaf offer peer /\ att = outcome_of peer /\
        (require_caller_attestation o = REQUIRE_HARDWARE -> att = CALLER_HARDWARE)
  end.

Definition opened_as req o (p : option bytes) : Prop :=
  match sealed_payload req with
  | None => p = None
  | Some blob => exists k x, enclave_private_key o = Some k /\ sealed_as blob k [] x /\ p = Some x
  end.

Definition allow_record (leaf : DelegationCredential) req (att : pystr) : DelegationRecord :=
  {| record_id := req_record_id req; rec_credential_id := credential_id leaf;
     rec_subject := subject leaf; rec_scope := scope leaf;
     Errors.parent_record_hash := peer.parent_record_hash req; decision := ALLOW;
     Errors.requested_capability := None; rec_effective_scope := None; denial_reason := None;
     Errors.caller_attestation := att |}.

Definition denial_record (leaf : DelegationCredential) req (effective : gset pystr)
    (reason att : pystr) : DelegationRecord :=
  {| record_id := req_record_id req; rec_credential_id := credential_id leaf;
     rec_subject := subject leaf; rec_scope := scope leaf;
     Errors.parent_record_hash := peer.parent_record_hash req; decision := py "deny";
     Errors.requested_capability := Some (requested_capability req);
     rec_effective_scope := Some effective; denial_reason := Some reason;
     Errors.caller_attestation := att |}.

(** The checks that precede the payload. *)
Record Authorized clk req (policy : Pol) o (rev : revocation.RevocationStatus)
    (leaf : DelegationCredential) (effective : gset pystr) (att : pystr) : Prop := {
  auth_chain : verify_chain_with (chain_clock clk) (chain req) (chain_options o) = Ok rev;
  auth_leaf : last (chain req) = Some leaf;
  auth_holder : require_holder_proof o = true -> holder_bound clk req o leaf;
  auth_policy : intersect policy (scope leaf) = Ok effective;
  auth_attested : attested clk req o leaf att;
  auth_capability : requested_capability req ∈ effective
}.

(** The accepted request and its result. *)
Definition Accepted clk req (policy : Pol) o (r : PeerResult) : Prop :=
  exists leaf,
    Authorized clk req policy o (revocation_status r) leaf (effective_scope r) (caller_attestation r) /\
    opened_as req o (payload r) /\
    granted_capability r = requested_capability req /\
    record r = allow_record leaf req (caller_attestation r).
End spec.

(** ** Steps *)
Section step_laws.
Context `{U : Unidata, C : Crypto, P : Policy Pol}.
Implicit Types (req : PeerRequest) (o : HandleOptions) (clk : Clocks).

Lemma last_hop_ok l leaf : last_hop l = Ok leaf <-> last l = Some leaf.
Proof. apply or_raise_ok. Qed.

Lemma attestation_value att :
  att ∈ CALLER_ATTESTATION_VALUES <->
  att = CALLER_NOT_OFFERED \/ att = CALLER_FAILED \/ att = CALLER_SOFTWARE_ONLY \/ att = CALLER_HARDWARE.
Proof.
  unfold CALLER_ATTESTATION_VALUES. rewrite elem_of_keys. cbn [In]. split.
  - by intros (s & [<-|[<-|[<-|[<-|[]]]]] & ->); auto.
  - intros [->|[->|[->| ->]]]; eexists; (split; [|reflexivity]); auto.
Qed.

Lemma failed_value : CALLER_FAILED ∈ CALLER_ATTESTATION_VALUES.
Proof. apply attestation_value. auto. Qed.
Lemma not_offered_value : CALLER_NOT_OFFERED ∈ CALLER_ATTESTATION_VALUES.
Proof. apply attestation_value. auto. Qed.

Lemma record_for_ok leaf req att r :
  att ∈ CALLER_ATTESTATION_VALUES ->
  record_for leaf (req_record_id req) (parent_record_hash req) att = Ok r <-> r = allow_record leaf req att.
Proof.
  intros Ha. unfold record_for, new_record. cbn [Errors.caller_attestation].
  rewrite bool_decide_true by done. simpl. split; [by intros [= <-]|by intros ->].
Qed.

Lemma denial_record_for_ok leaf req effective reason att :
  att ∈ CALLER_ATTESTATION_VALUES ->
  denial_record_for leaf (req_record_id req) (parent_record_hash req) (requested_capability req)
    effective reason att = Ok (denial_record leaf req effective reason att).
Proof.
  intros Ha. unfold denial_record_for, new_record. cbn [Errors.caller_attestation].
  by rewrite bool_decide_true by done.
Qed.

Lemma refuse_not_ok {A} req effective reason outcome detail (a : A) :
  refuse req effective reason outcome detail <> Ok a.
Proof. unfold refuse. intros H. inv_ok. Qed.

(** A refusal is an AttestationFailed carrying the denial record. *)
Lemma refuse_err {A : Type} req leaf effective reason outcome detail :
  last (chain req) = Some leaf -> outcome ∈ CALLER_ATTESTATION_VALUES ->
  refuse (A := A) req effective reason outcome detail =
  Err (err_rec AttestationFailed reason detail (denial_record leaf req effective reason outcome)).
Proof.
  intros Hl Ho. unfold refuse. eapply bind_pass; [by apply last_hop_ok|].
  eapply bind_pass; [by apply denial_record_for_ok|]. done.
Qed.

Lemma outcome_value peer : outcome_of peer ∈ CALLER_ATTESTATION_VALUES.
Proof. apply attestation_value. unfold outcome_of. case_bool_decide; auto. Qed.

Lemma appraise_runtime_ok clk req o leaf effective att :
  last (chain req) = Some leaf ->
  appraise_caller_runtime (appraisal_clock clk) req effective (require_caller_attestation o)
    (opt_challenge_secret o) (opt_caller_verifier o) (enclave_private_key o) = Ok att <->
  attested clk req o leaf att.
Proof.
  intros Hleaf. unfold appraise_caller_runtime, attested, offer_proved.
  rewrite seq_ok, (ok_unit _ _ (guard_ok _ _)).
  assert (forall A X Y : Prop, (X <-> Y) -> (A /\ X <-> A /\ Y)) as Hand by tauto. apply Hand.
  destruct (caller_offer req) as [offer|].
  - destruct (opt_challenge_secret o) as [secret|];
      [|split; [by intros ?%refuse_not_ok|by intros (? & (? & ? & ? & ? & _) & _)]].
    split.
    + intros (peer & Hp & H)%bind_ok. apply try_except_ok in Hp as [Hp|(? & _ & _ & ?%refuse_not_ok)]; [|done].
      destruct (enclave_private_key o) as [k|]; [|by apply refuse_not_ok in H].
      apply bind_ok in H as (leaf' & Hl & H). apply last_hop_ok in Hl. rewrite Hleaf in Hl.
      injection Hl as <-. apply bind_ok in H as ([] & Hv & H).
      apply try_except_ok in Hv as [Hv|(? & _ & _ & ?%refuse_not_ok)]; [|done].
      exists peer. fold (outcome_of peer) in H.
      destruct (caller_possession req) as [p|] eqn:Ep; [|done].
      split; [by exists secret, k, p|].
      destruct (bool_decide (require_caller_attestation o = REQUIRE_HARDWARE)) eqn:Er;
        [|injection H as <-; split; [done|]; by bool_to_prop].
      destruct (bool_decide (outcome_of peer = CALLER_HARDWARE)) eqn:Eo;
        [injection H as <-; split; [done|]; by bool_to_prop|by apply refuse_not_ok in H].
    + intros (peer & (secret' & k & p & [= <-] & -> & -> & Ha & Hv) & -> & Hr).
      apply (bind_pass _ _ peer); [by rewrite Ha|].
      apply (bind_pass _ _ leaf); [by apply last_hop_ok|].
      apply (bind_pass _ _ tt); [by rewrite Hv|]. fold (outcome_of peer).
      case_bool_decide as Eh; [|done]. rewrite bool_decide_true by auto. done.
  - destruct (caller_possession req); [split; [by intros ?%refuse_not_ok|by intros (? & _)]|].
    case_bool_decide as Er; [|split; [by intros ?%refuse_not_ok|by intros (_ & ? & _)]].
    split; [by intros [= <-]|by intros (_ & _ & ->)].
Qed.

Lemma attested_value clk req o leaf att :
  attested clk req o leaf att -> att ∈ CALLER_ATTESTATION_VALUES.
Proof.
  intros [_ H]. destruct (caller_offer req).
  - destruct H as (p & _ & -> & _). apply outcome_value.
  - destruct H as (_ & _ & ->). apply attestation_value. auto.
Qed.

Lemma holds_leaf_ok clk req o leaf u :
  last (chain req) = Some leaf ->
  verify_caller_holds_leaf (holder_clock clk) req (opt_audience o) (opt_challenge_secret o) = Ok u <->
  holder_bound clk req o leaf.
Proof.
  intros Hleaf. unfold verify_caller_holds_leaf, holder_bound.
  destruct (holder_proof req) as [p|]; [|split; [done|by intros (? & ? & ? & ? & _)]].
  destruct (opt_audience o) as [aud|]; [|split; [done|by intros (? & ? & ? & _ & ? & _)]].
  destruct (opt_challenge_secret o) as [secret|]; [|split; [done|by intros (? & ? & ? & _ & _ & ? & _)]].
  rewrite bind_ok. split.
  - intros (leaf' & Hl & H). apply last_hop_ok in Hl. rewrite Hleaf in Hl. injection Hl as <-.
    apply verify_holder_proof_ok in H as [H1 H2]. by exists p, aud, secret.
  - intros (? & ? & ? & [= <-] & [= <-] & [= <-] & H1 & H2). exists leaf.
    split; [by apply last_hop_ok|]. by apply verify_holder_proof_ok.
Qed.

Lemma decide_capability_ok req leaf effective att d :
  last (chain req) = Some leaf -> att ∈ CALLER_ATTESTATION_VALUES ->
  decide_capability (chain req) (requested_capability req) effective (req_record_id req)
    (parent_record_hash req) att = Ok d <->
  requested_capability req ∈ effective /\
  d = {| dec_effective_scope := effective; dec_granted_capability := requested_capability req;
         dec_record := allow_record leaf req att |}.
Proof.
  intros Hleaf Ha. unfold decide_capability. case_bool_decide as Hc; simpl.
  - rewrite (proj2 (last_hop_ok _ _) Hleaf). simpl.
    rewrite (proj2 (record_for_ok leaf req att _ Ha) eq_refl). simpl.
    split; [by intros [= <-]|by intros [_ ->]].
  - split; [|by intros [? _]]. intros H. inv_ok.
Qed.
End step_laws.

(** ** The pipeline *)
Section pipeline_laws.
Context `{U : Unidata, C : Crypto, P : Policy Pol}.
Implicit Types (req : PeerRequest) (o : HandleOptions) (clk : Clocks).

Lemma holder_step_ok clk req o leaf u :
  last (chain req) = Some leaf ->
  (if require_holder_proof o
   then take_step HolderBinding
          (verify_caller_holds_leaf (holder_clock clk) req (opt_audience o) (opt_challenge_secret o))
   else (mret tt : traced unit)).2 = Ok u <->
  (require_holder_proof o = true -> holder_bound clk req o leaf).
Proof.
  intros Hl. destruct (require_holder_proof o); simpl; [|by destruct u].
  rewrite (holds_leaf_ok clk req o leaf u Hl). naive_solver.
Qed.

Lemma open_step_ok req o p :
  (match sealed_payload req with
   | None => (mret None : traced (option bytes))
   | Some blob =>
       match enclave_private_key o with
       | None => pure_step (Err (err SealedChannelError
           (py "a sealed payload was sent but no enclave key is available")))
       | Some k => take_step OpenPayload (Some <$> open_sealed blob k [])
       end
   end).2 = Ok p <-> opened_as req o p.
Proof.
  unfold opened_as. destruct (sealed_payload req) as [blob|]; simpl.
  - destruct (enclave_private_key o) as [k|]; simpl.
    + rewrite fmap_ok. setoid_rewrite open_sealed_ok. naive_solver.
    + split; [done|by intros (? & ? & ? & _)].
  - split; [by intros [= <-]|by intros ->].
Qed.

Lemma verified_last clk req o rev :
  verify_chain_with (chain_clock clk) (chain req) (chain_options o) = Ok rev ->
  exists leaf, last (chain req) = Some leaf.
Proof.
  intros ((r & rs & -> & _) & _)%verify_chain_hops. destruct (last (r :: rs)) eqn:E; [eauto|].
  by apply last_None in E.
Qed.

Lemma handle_ok clk req policy o r :
  (handle_peer_request clk req policy o).2 = Ok r <-> Accepted clk req policy o r.
Proof.
  unfold handle_peer_request, Accepted. split.
  - intros (rev & Hc & H)%traced_bind_ok. cbn [snd take_step] in Hc.
    destruct (verified_last _ _ _ _ Hc) as [leaf Hl].
    apply traced_bind_ok in H as ([] & Hh & H). pose proof (proj1 (holder_step_ok clk req o leaf _ Hl) Hh) as Hb.
    apply traced_bind_ok in H as (leaf' & Hl' & H). apply last_hop_ok in Hl'. rewrite Hl in Hl'.
    injection Hl' as <-. apply traced_bind_ok in H as (eff & Hi & H).
    apply traced_bind_ok in H as (att & Ha & H). cbn [snd take_step] in Ha.
    apply (appraise_runtime_ok clk req o leaf _ _ Hl) in Ha.
    apply traced_bind_ok in H as (d & Hd & H). cbn [snd take_step] in Hd.
    apply (decide_capability_ok req leaf _ _ _ Hl (attested_value _ _ _ _ _ Ha)) in Hd as [Hcap ->].
    apply traced_bind_ok in H as (p & Hp & H). apply open_step_ok in Hp. injection H as <-.
    exists leaf. split_and!; [by split|done..].
  - intros (leaf & [Hc Hl Hh Hi Ha Hcap] & Hp & Hg & Hr).
    apply traced_bind_ok. exists (revocation_status r). split; [done|].
    apply traced_bind_ok. exists tt. split; [by apply (holder_step_ok clk req o leaf)|].
    apply traced_bind_ok. exists leaf. split; [by apply last_hop_ok|].
    apply traced_bind_ok. exists (effective_scope r). split; [done|].
    apply traced_bind_ok. exists (caller_attestation r).
    split; [by apply (appraise_runtime_ok clk req o leaf)|].
    apply traced_bind_ok. eexists.
    split; [apply (decide_capability_ok req leaf _ _ _ Hl (attested_value _ _ _ _ _ Ha)); by split|].
    apply traced_bind_ok. exists (payload r). split; [by apply open_step_ok|].
    destruct r; simpl in *. by subst.
Qed.

(** The documented order; the holder check is left out only on request. *)
Definition schedule (holder : bool) : list step :=
  [VerifyChain] ++ (if holder then [HolderBinding] else []) ++
  [PolicyIntersect; Appraise; Decide; OpenPayload].

Lemma handle_trace_prefix clk req policy o :
  (handle_peer_request clk req policy o).1 `prefix_of` schedule (require_holder_proof o).
Proof.
  unfold handle_peer_request, schedule.
  apply traced_bind_prefix; [done|]. intros rev _.
  apply traced_bind_prefix; [by destruct (require_holder_proof o)|]. intros u _.
  apply (traced_bind_prefix _ _ []); [done|]. intros leaf _.
  apply (traced_bind_prefix _ _ [PolicyIntersect] [_; _; _]); [done|]. intros eff _.
  apply (traced_bind_prefix _ _ [Appraise] [_; _]); [done|]. intros att _.
  apply (traced_bind_prefix _ _ [Decide] [_]); [done|]. intros d _.
  destruct (sealed_payload req) as [blob|]; [destruct (enclave_private_key o)|];
    simpl; try (by apply prefix_nil).
  by destruct (open_sealed _ _ _).
Qed.

Lemma step_of_take {A : Type} s s' (m : res A) : s ∈ (take_step s' m).1 -> s = s'.
Proof. simpl. apply list_elem_of_singleton. Qed.

(** The payload is opened only for a request that passed every check. *)
Lemma opened_authorized clk req policy o :
  OpenPayload ∈ (handle_peer_request clk req policy o).1 ->
  exists rev leaf effective att, Authorized clk req policy o rev leaf effective att.
Proof.
  unfold handle_peer_request.
  intros [H|(rev & Hc & H)]%traced_bind_step; [by apply step_of_take in H|].
  cbn [snd take_step] in Hc. destruct (verified_last _ _ _ _ Hc) as [leaf Hl].
  apply traced_bind_step in H as [H|([] & Hh & H)].
  { destruct (require_holder_proof o); [by apply step_of_take in H|by apply elem_of_nil in H]. }
  pose proof (proj1 (holder_step_ok clk req o leaf _ Hl) Hh) as Hb.
  apply traced_bind_step in H as [H|(leaf' & Hl' & H)]; [by apply elem_of_nil in H|].
  apply last_hop_ok in Hl'. rewrite Hl in Hl'. injection Hl' as <-.
  apply traced_bind_step in H as [H|(eff & Hi & H)]; [by apply step_of_take in H|].
  apply traced_bind_step in H as [H|(att & Ha & H)]; [by apply step_of_take in H|].
  cbn [snd take_step] in Ha. apply (appraise_runtime_ok clk req o leaf _ _ Hl) in Ha.
  apply traced_bind_step in H as [H|(d & Hd & _)]; [by apply step_of_take in H|].
  cbn [snd take_step] in Hd.
  apply (decide_capability_ok req leaf _ _ _ Hl (attested_value _ _ _ _ _ Ha)) in Hd as [Hcap _].
  by exists rev, leaf, eff, att.
Qed.
End pipeline_laws.

(** ** Errors *)
Section error_laws.
Context `{U : Unidata, C : Crypto, P : Policy Pol}.
Implicit Types (req : PeerRequest) (o : HandleOptions) (clk : Clocks).

Lemma challenge_recordless c s p : recordless (challenge.verify_challenge c s p None).
Proof. unfold challenge.verify_challenge, challenge._mac. solve_recordless. Qed.

Lemma holds_leaf_recordless clk req o :
  recordless (verify_caller_holds_leaf (holder_clock clk) req (opt_audience o) (opt_challenge_secret o)).
Proof.
  unfold verify_caller_holds_leaf, verify_holder_proof, last_hop.
  pose proof challenge_recordless as Hch.
  unfold ed_public_of_hex, ed_check. solve_recordless.
Qed.

Lemma open_sealed_recordless k blob aad : recordless (open_sealed blob k aad).
Proof. unfold open_sealed. solve_recordless. Qed.

Lemma possession_recordless p k t : recordless (verify_caller_possession p k t).
Proof. unfold verify_caller_possession, _possession_mac, x_public_of_hex. solve_recordless. Qed.

(** Only the injected verifier can raise an error with a record. *)
Lemma appraise_caller_record clock offer secret v e r :
  appraise_caller clock offer secret v = Err e -> exn_record e = Some r ->
  exists w, v = Some w /\ w (report offer) (nonce (report offer)) = Err e.
Proof.
  unfold appraise_caller. intros E Hr. apply bind_err in E as [E|(? & _ & E)].
  { by rewrite (challenge_recordless _ _ _ _ E) in Hr. }
  unfold verify_offer in E.
  repeat (apply bind_err in E as [E|(? & _ & E)]; [by apply raise_if_err in E as [_ ->]|]).
  destruct (bool_decide _) in E; [by err_cases; subst|].
  destruct v as [w|]; [|by injection E as <-].
  apply bind_err in E as [E|(? & _ & E)]; [|done]. by exists w.
Qed.

(** [refuse] reports what it refused. *)
Lemma refuse_record {A : Type} req leaf effective reason att detail e r :
  last (chain req) = Some leaf -> exn_record e = Some r -> att ∈ CALLER_ATTESTATION_VALUES ->
  refuse (A := A) req effective reason att detail = Err e ->
  exists reason att, exn_class e = Some AttestationFailed /\ exn_str e = reason /\
    att ∈ CALLER_ATTESTATION_VALUES /\ r = denial_record leaf req effective reason att.
Proof.
  intros Hl Hr Ha He. rewrite (refuse_err _ leaf) in He by done.
  injection He as <-. injection Hr as <-. exists reason, att. split; [reflexivity|]. split; [reflexivity|].
  split; [exact Ha|reflexivity].
Qed.
Ltac refused H Hval := eapply refuse_record; [eassumption|eassumption|exact Hval|exact H].

(** What an error with a record is at the appraisal step: an AttestationFailed with
    the denial record, or the verifier's own. *)
Lemma appraise_runtime_err clk req o leaf effective e r :
  last (chain req) = Some leaf -> exn_record e = Some r ->
  appraise_caller_runtime (appraisal_clock clk) req effective (require_caller_attestation o)
    (opt_challenge_secret o) (opt_caller_verifier o) (enclave_private_key o) = Err e ->
  (exists offer v, caller_offer req = Some offer /\ opt_caller_verifier o = Some v /\
     v (report offer) (nonce (report offer)) = Err e) \/
  exists reason att, exn_class e = Some AttestationFailed /\ exn_str e = reason /\
    att ∈ CALLER_ATTESTATION_VALUES /\ r = denial_record leaf req effective reason att.
Proof.
  intros Hl Hr. unfold appraise_caller_runtime. intros [H|([] & _ & H)]%bind_err.
  { by apply raise_if_err in H as [_ ->]. }
  destruct (caller_offer req) as [offer|] eqn:Eo; [|right].
  - destruct (opt_challenge_secret o) as [secret|]; [|right; refused H failed_value].
    apply bind_err in H as [H|(peer & _ & H)].
    { unfold try_except in H. destruct (appraise_caller _ _ _ _) as [?|e'] eqn:E; [done|].
      destruct (is_ca2a _ e'); [right; refused H failed_value|]. injection H as ->.
      destruct (appraise_caller_record _ _ _ _ _ _ E Hr) as (w & ? & ?). left. by exists offer, w. }
    destruct (enclave_private_key o) as [k|]; [|right; refused H failed_value].
    apply bind_err in H as [H|(? & _ & H)]; [by apply or_raise_err in H as [_ ->]|].
    right. apply bind_err in H as [H|(? & _ & H)].
    + unfold try_except in H. destruct (verify_caller_possession _ _ _) as [?|e'] eqn:E; [done|].
      destruct (is_ca2a _ e'); [refused H failed_value|]. injection H as ->.
      by rewrite (possession_recordless _ _ _ _ E) in Hr.
    + fold (outcome_of peer) in H. destruct (_ && _); [refused H (outcome_value peer)|done].
  - destruct (caller_possession req); [refused H failed_value|]. destruct (bool_decide _); [done|refused H not_offered_value].
Qed.

Lemma decide_capability_err req leaf effective att e :
  last (chain req) = Some leaf -> att ∈ CALLER_ATTESTATION_VALUES ->
  decide_capability (chain req) (requested_capability req) effective (req_record_id req)
    (parent_record_hash req) att = Err e ->
  requested_capability req ∉ effective /\
  e = err_rec ScopeNotPermitted
        (py "capability " ++ py_repr (requested_capability req) ++ py " is not in the effective scope")
        (Some (py "effective=" ++ repr_list (sorted_set effective)))
        (denial_record leaf req effective
           (py "capability " ++ py_repr (requested_capability req) ++
            py " is not in the effective scope") att).
Proof.
  intros Hl Ha. unfold decide_capability. case_bool_decide as Hc; simpl.
  - rewrite (proj2 (last_hop_ok _ _) Hl). simpl.
    by rewrite (proj2 (record_for_ok leaf req att _ Ha) eq_refl).
  - rewrite (proj2 (last_hop_ok _ _) Hl). simpl. rewrite denial_record_for_ok by done.
    simpl. by intros [= <-].
Qed.
End error_laws.

(** ** Properties *)
Section properties.
Context `{U : Unidata, C : Crypto, P : Policy Pol}.
Implicit Types (req : PeerRequest) (o : HandleOptions) (clk : Clocks).

(** C2: the pipeline accepts exactly the requests of its specification, with exactly
    the result it states: the chain verifies, the caller is bound to the leaf (unless
    the check is switched off), the policy's intersection with the leaf's scope
    contains the capability, the caller is attested as the callee requires, the
    payload (if any) opens under the enclave key, and the record is the leaf's. *)
Theorem handle_peer_request_spec clk req policy o r :
  (handle_peer_request clk req policy o).2 = Ok r <-> Accepted clk req policy o r.
Proof. apply handle_ok. Qed.

(** The chain of an accepted request, and its length. *)
Lemma accepted_chain clk req policy o r :
  Accepted clk req policy o r ->
  chain req <> [] /\ (Z.of_nat (length (chain req)) <= max_depth (chain_options o) + 1)%Z.
Proof.
  intros (leaf & [Hc Hl _ _ _ _] & _). pose proof (verify_chain_hops _ _ _ _ _ _ _ _ Hc) as [_ Hchain].
  rewrite last_lookup in Hl. split; [by intros E; rewrite E in Hl|].
  apply (ok_depth _ _ _ Hchain) in Hl as Hd. apply lookup_lt_Some in Hl. lia.
Qed.

(** What acceptance says of the authority exercised. *)
Lemma accepted_authority `{L : !PolicyLaws Pol} clk req policy o r :
  Accepted clk req policy o r ->
  granted_capability r = requested_capability req /\
  granted_capability r ∈ effective_scope r /\
  (forall c, c ∈ chain req -> effective_scope r ⊆ scope c) /\
  (exists root rest, chain req = root :: rest /\ issuer root ∈ trusted_root_issuers (chain_options o)) /\
  (exists leaf, last (chain req) = Some leaf /\ intersect policy (scope leaf) = Ok (effective_scope r)) /\
  (forall snap, revocations (chain_options o) = Some snap -> valid_snapshot snap ->
     NotRevoked snap None (chain req)).
Proof.
  intros (leaf & [Hc Hl _ Hi _ Hcap] & _ & Hg & _). rewrite Hg.
  pose proof (verify_chain_hops _ _ _ _ _ _ _ _ Hc) as [Hroot Hchain]. split_and!; try done.
  - intros c Hin. etrans; [by eapply (intersect_sub (PolicyLaws := L))|].
    apply list_elem_of_lookup in Hin as [i Hic]. rewrite last_lookup in Hl.
    eapply ChainOk_attenuates; [done| |done|done]. apply lookup_lt_Some in Hic. lia.
  - by exists leaf.
  - intros snap Hs Hv. unfold verify_chain_with in Hc. rewrite Hs in Hc.
    apply verify_chain_ok in Hc as (_ & _ & _ & Hr); [|by intros ? [= <-]]. apply Hr.
Qed.

(** C4: authority.  A granted capability is the one requested; it and the whole
    effective scope lie inside the scope of every credential of the chain, up to a
    root issued by a trusted issuer, and inside what the local policy lets through;
    and no statement of the callee's revocation snapshot is in force against a hop. *)
Theorem accepted_within_authority `{L : !PolicyLaws Pol} clk req policy o r
    (Hok : (handle_peer_request clk req policy o).2 = Ok r) :
  granted_capability r = requested_capability req /\
  granted_capability r ∈ effective_scope r /\
  (forall c, c ∈ chain req -> effective_scope r ⊆ scope c) /\
  (exists root rest, chain req = root :: rest /\ issuer root ∈ trusted_root_issuers (chain_options o)) /\
  (exists leaf, last (chain req) = Some leaf /\ intersect policy (scope leaf) = Ok (effective_scope r)) /\
  (forall snap, revocations (chain_options o) = Some snap -> valid_snapshot snap ->
     NotRevoked snap None (chain req)).
Proof. apply handle_ok in Hok. by apply accepted_authority in Hok. Qed.

(** C3: order.  The steps taken are always an initial part of the documented order;
    the payload is opened only for a request that has passed every other check, and
    the policy is consulted only for a caller that has proved it holds the leaf. *)
Theorem payload_opened_last clk req policy o :
  (handle_peer_request clk req policy o).1 `prefix_of` schedule (require_holder_proof o) /\
  (OpenPayload ∈ (handle_peer_request clk req policy o).1 ->
   exists rev leaf effective att, Authorized clk req policy o rev leaf effective att) /\
  (PolicyIntersect ∈ (handle_peer_request clk req policy o).1 -> require_holder_proof o = true ->
   exists leaf, last (chain req) = Some leaf /\ holder_bound clk req o leaf).
Proof.
  split; [apply handle_trace_prefix|]. split; [apply opened_authorized|].
  unfold handle_peer_request. intros H Hreq.
  apply traced_bind_step in H as [H|(rev & Hc & H)]; [by apply step_of_take in H|].
  destruct (verified_last _ _ _ _ Hc) as [leaf Hl]. exists leaf. split; [done|].
  apply traced_bind_step in H as [H|([] & Hh & _)].
  - rewrite Hreq in H. by apply step_of_take in H.
  - exact (proj1 (holder_step_ok clk req o leaf tt Hl) Hh Hreq).
Qed.

(** C5: attestation.  An accepted request's recorded outcome is what was established:
    the result and the record agree; without an offer it is "not_offered", and the
    callee demanded nothing; with one it is "hardware" or "software-only", never
    "failed", the offer answers a live challenge of this callee in the caller role
    and the caller proved it holds the offered key; "hardware" only when the injected
    verifier vouched for a report of a hardware platform, and always when the callee
    requires it. *)
Theorem caller_attestation_accurate clk req policy o r
    (Hok : (handle_peer_request clk req policy o).2 = Ok r) :
  Errors.caller_attestation (record r) = caller_attestation r /\
  (require_caller_attestation o = REQUIRE_HARDWARE -> caller_attestation r = CALLER_HARDWARE) /\
  match caller_offer req with
  | None => caller_attestation r = CALLER_NOT_OFFERED /\ require_caller_attestation o = REQUIRE_NONE
  | Some offer =>
      (caller_attestation r = CALLER_HARDWARE \/ caller_attestation r = CALLER_SOFTWARE_ONLY) /\
      (exists leaf peer, last (chain req) = Some leaf /\ offer_proved clk req o leaf offer peer) /\
      (caller_attestation r = CALLER_HARDWARE ->
       platform (report offer) <> SOFTWARE_ONLY /\
       exists v m, opt_caller_verifier o = Some v /\
         v (report offer) (nonce (report offer)) = Ok m)
  end.
Proof.
  apply handle_ok in Hok as (leaf & [_ Hl _ _ [_ Ha] _] & _ & _ & ->).
  split; [done|]. destruct (caller_offer req) as [offer|].
  - destruct Ha as (peer & Hp & -> & Hr). split; [done|]. split_and!.
    + unfold outcome_of. case_bool_decide; auto.
    + by exists leaf, peer.
    + destruct Hp as (secret & k & p & _ & _ & _ & Hap & _).
      apply appraise_caller_ok in Hap as [_ (_ & _ & _ & _ & [(_ & _ & Hn & _)|(Hs & _ & v & Hv & Hm)])].
      * unfold outcome_of. rewrite Hn, bool_decide_false; [|by apply py_neq].
        intros Habs. exfalso. revert Habs. by apply py_neq.
      * intros _. split; [done|]. eauto.
  - destruct Ha as (_ & -> & ->). split; [|done]. intros Habs. exfalso. revert Habs. by apply py_neq.
Qed.

(** C6: refusals as evidence.  An error that carries a provenance record was raised
    by the policy or the verifier the deployment supplies, or it is an
    AttestationFailed or ScopeNotPermitted whose record is the denial record of this
    request, with the effective scope computed and the message as its reason; by then
    the chain has verified and the caller has proved it holds the leaf.  An
    unauthenticated caller elicits no record. *)
Theorem denial_records_accurate clk req policy o e r
    (Herr : (handle_peer_request clk req policy o).2 = Err e) (Hrec : exn_record e = Some r) :
  exists rev leaf,
    verify_chain_with (chain_clock clk) (chain req) (chain_options o) = Ok rev /\
    last (chain req) = Some leaf /\
    (require_holder_proof o = true -> holder_bound clk req o leaf) /\
    (intersect policy (scope leaf) = Err e \/
     (exists offer v, caller_offer req = Some offer /\ opt_caller_verifier o = Some v /\
        v (report offer) (nonce (report offer)) = Err e) \/
     exists effective att,
       intersect policy (scope leaf) = Ok effective /\ att ∈ CALLER_ATTESTATION_VALUES /\
       (exn_class e = Some AttestationFailed \/ exn_class e = Some ScopeNotPermitted) /\
       r = denial_record leaf req effective (exn_str e) att).
Proof.
  unfold handle_peer_request in Herr.
  apply traced_bind_err in Herr as [H|(rev & Hc & H)].
  { by rewrite (verify_chain_recordless _ _ _ _ _ _ _ _ H) in Hrec. }
  destruct (verified_last _ _ _ _ Hc) as [leaf Hl]. exists rev, leaf. split; [done|]. split; [done|].
  apply traced_bind_err in H as [H|([] & Hh & H)].
  { destruct (require_holder_proof o); [|done]. by rewrite (holds_leaf_recordless _ _ _ _ H) in Hrec. }
  split; [by apply (holder_step_ok clk req o leaf tt Hl)|].
  apply traced_bind_err in H as [H|(leaf' & Hl' & H)]; [by apply or_raise_err in H as [_ ->]|].
  apply last_hop_ok in Hl'. rewrite Hl in Hl'. injection Hl' as <-.
  apply traced_bind_err in H as [H|(eff & Hi & H)]; [by left|right].
  apply traced_bind_err in H as [H|(att & Ha & H)].
  { destruct (appraise_runtime_err clk req o leaf eff e r Hl Hrec H)
      as [?|(reason & att & Hcls & <- & Hatt & ->)]; [by left|right].
    exists eff, att. split; [exact Hi|]. split; [exact Hatt|]. by split; [left|]. }
  right. cbn [snd take_step] in Ha. apply (appraise_runtime_ok clk req o leaf _ _ Hl) in Ha.
  apply attested_value in Ha. apply traced_bind_err in H as [H|(d & _ & H)].
  { apply (decide_capability_err req leaf _ _ _ Hl Ha) in H as [_ ->].
    exists eff, att. split; [exact Hi|]. split; [exact Ha|].
    split; [by right|]. by injection Hrec as <-. }
  apply traced_bind_err in H as [H|(? & _ & H)]; [|done].
  destruct (sealed_payload req) as [blob|]; [|done].
  destruct (enclave_private_key o) as [k|]; [|by injection H as <-].
  apply fmap_err in H. by rewrite (open_sealed_recordless _ _ _ _ H) in Hrec.
Qed.

(** A request that passes everything but the scope check is refused with
    ScopeNotPermitted carrying its denial record, and its payload is never opened. *)
Theorem scope_refusal_exact clk req policy o rev leaf effective att
    (Hchain : verify_chain_with (chain_clock clk) (chain req) (chain_options o) = Ok rev)
    (Hleaf : last (chain req) = Some leaf)
    (Hholder : require_holder_proof o = true -> holder_bound clk req o leaf)
    (Hpolicy : intersect policy (scope leaf) = Ok effective)
    (Hatt : attested clk req o leaf att)
    (Hcap : requested_capability req ∉ effective) :
  exists e,
    (handle_peer_request clk req policy o).2 = Err e /\
    exn_class e = Some ScopeNotPermitted /\
    exn_record e = Some (denial_record leaf req effective (exn_str e) att) /\
    OpenPayload ∉ (handle_peer_request clk req policy o).1.
Proof.
  assert (exists e, (handle_peer_request clk req policy o).2 = Err e /\
    exn_class e = Some ScopeNotPermitted /\
    exn_record e = Some (denial_record leaf req effective (exn_str e) att)) as (e & H1 & H2 & H3).
  { eexists. split; [|split].
    - unfold handle_peer_request. apply traced_bind_err. right. exists rev. split; [done|].
      apply traced_bind_err. right. exists tt. split; [by apply (holder_step_ok clk req o leaf tt Hleaf)|].
      apply traced_bind_err. right. exists leaf. split; [by apply last_hop_ok|].
      apply traced_bind_err. right. exists effective. split; [done|].
      apply traced_bind_err. right. exists att.
      split; [by apply (appraise_runtime_ok clk req o leaf _ _ Hleaf)|].
      apply traced_bind_err. left. cbn [snd take_step]. unfold decide_capability.
      rewrite bool_decide_false by done. cbn [negb].
      eapply bind_pass; [by apply last_hop_ok|].
      eapply bind_pass; [by apply denial_record_for_ok, (attested_value _ _ _ _ _ Hatt)|]. done.
    - done.
    - done. }
  exists e. split_and!; try done. intros Hopen.
  apply opened_authorized in Hopen as (rev' & leaf' & eff' & att' & [_ Hl' _ Hi' _ Hc']).
  rewrite Hleaf in Hl'. injection Hl' as <-. rewrite Hpolicy in Hi'. by injection Hi' as <-.
Qed.

(** The decision core and the pipeline agree.  For a request without offer, proof
    of possession or payload, handled with no holder check and no attestation
    requirement, [handle_peer_request] grants or refuses exactly as
    [enforce_peer_call] does, error for error. *)
Theorem enforce_agrees clk req policy o
    (Hoffer : caller_offer req = None) (Hposs : caller_possession req = None)
    (Hpay : sealed_payload req = None) (Hholder : require_holder_proof o = false)
    (Hreq : require_caller_attestation o = REQUIRE_NONE) :
  (r ← (handle_peer_request clk req policy o).2;
   Ok {| dec_effective_scope := effective_scope r; dec_granted_capability := granted_capability r;
         dec_record := record r |}) =
  enforce_peer_call (chain_clock clk) (chain req) (requested_capability req) policy
    (req_record_id req) (parent_record_hash req) CALLER_NOT_OFFERED (chain_options o).
Proof.
  unfold handle_peer_request, enforce_peer_call, effective_scope_of, appraise_caller_runtime.
  rewrite Hoffer, Hposs, Hpay, Hholder, Hreq.
  rewrite (bool_decide_true (REQUIRE_NONE ∈ REQUIREMENT_VALUES))
    by (apply elem_of_keys_py; reflexivity).
  rewrite (bool_decide_true (REQUIRE_NONE = REQUIRE_NONE)) by reflexivity.
  destruct (verify_chain_with _ _ _) as [rev|e]; [|reflexivity]. cbn.
  destruct (last_hop (chain req)) as [leaf|e]; [|reflexivity]. cbn.
  destruct (intersect policy (scope leaf)) as [eff|e]; [|reflexivity]. cbn.
  destruct (decide_capability _ _ _ _ _ _) as [d|e]; [|reflexivity]. by destruct d.
Qed.
End properties.

(** ** A concrete call

    The two-hop chain of [ChainExample], presented by the leaf's subject with a
    software-attested channel key and a sealed payload. *)
Module PeerExample.
Import AsciiOnly Toy ChainExample ChallengeExample.

Definition enclave : N := 7%N.
Definition caller_key : N := 8%N.
Definition enclave_pub : pystr := x_public_hex (C := toy) enclave.
Definition caller_pub : pystr := x_public_hex (C := toy) caller_key.
Definition offer_ : ChannelOffer :=
  {| channel_public_key := caller_pub; report := software_report caller_pub issued ROLE_CALLER |}.
Definition blob : bytes :=
  get_ok [] (c ← new_channel (C := toy) enclave_pub;
             seal (C := toy) 9%N (ascii_bytes "nonce-twelve") c (ascii_bytes "task") []).

Definition request_without_proofs (capability : string) (offer : option ChannelOffer) : PeerRequest :=
  {| chain := demo_chain; requested_capability := py capability; req_record_id := py "r1";
     sealed_payload := Some blob; parent_record_hash := None; caller_offer := offer;
     holder_proof := None; caller_possession := None |}.
Definition with_holder (req : PeerRequest) (p : HolderProof) : PeerRequest :=
  {| chain := chain req; requested_capability := requested_capability req;
     req_record_id := req_record_id req; sealed_payload := sealed_payload req;
     parent_record_hash := parent_record_hash req; caller_offer := caller_offer req;
     holder_proof := Some p; caller_possession := caller_possession req |}.
Definition with_possession (req : PeerRequest) (p : CallerPossession) : PeerRequest :=
  {| chain := chain req; requested_capability := requested_capability req;
     req_record_id := req_record_id req; sealed_payload := sealed_payload req;
     parent_record_hash := parent_record_hash req; caller_offer := caller_offer req;
     holder_proof := holder_proof req; caller_possession := Some p |}.
Definition sign_request (req : PeerRequest) : PeerRequest :=
  with_holder req (get_ok {| proof_challenge := []; proof_signature := [] |}
    (build_holder_proof (C := toy) 3%N leaf issued (terms_of req enclave_pub))).
Definition prove_key (req : PeerRequest) : PeerRequest :=
  with_possession req (get_ok {| version := []; mac := [] |}
    (prove_caller_possession (C := toy) caller_key enclave_pub
       (caller_possession_transcript (request_transcript (C := toy) req leaf offer_ enclave)))).

Definition good : PeerRequest := prove_key (sign_request (request_without_proofs "read" (Some offer_))).
Definition too_wide : PeerRequest := sign_request (request_without_proofs "write" None).
Definition plain : PeerRequest :=
  {| chain := demo_chain; requested_capability := py "read"; req_record_id := py "r1";
     sealed_payload := None; parent_record_hash := None; caller_offer := None;
     holder_proof := None; caller_possession := None |}.

Definition policy_ : LocalPolicy := policy_of [py "read"; py "list"].
Definition options (requirement : pystr) (holder : bool) : HandleOptions (C := toy) :=
  {| enclave_private_key := Some enclave; opt_challenge_secret := Some secret;
     require_caller_attestation := requirement; opt_caller_verifier := None;
     opt_audience := Some enclave_pub; require_holder_proof := holder;
     chain_options := {| max_depth := 8; trusted_root_issuers := {[pub 1]}; revocations := None;
                         max_revocation_staleness := None |} |}.
Definition clocks : Clocks := {| chain_clock := 150; holder_clock := 150; appraisal_clock := 150 |}.
Definition no_result : PeerResult :=
  {| effective_scope := ∅; granted_capability := []; record := ProvenanceExample.no_record;
     payload := None; caller_attestation := [];
     revocation_status := revocation.REVOCATION_NOT_CHECKED |}.
Definition result_ : PeerResult := get_ok no_result (handle_peer_request clocks good policy_ (options REQUIRE_ANY true)).2.
Lemma good_accepted : (handle_peer_request clocks good policy_ (options REQUIRE_ANY true)).2 = Ok result_.
Proof. apply get_ok_spec. vm_compute. reflexivity. Qed.
Definition no_exn : exn := PyExc OtherException [].
Definition refusal_ : exn := get_err no_exn (handle_peer_request clocks too_wide policy_ (options REQUIRE_NONE true)).2.
Lemma too_wide_refused : (handle_peer_request clocks too_wide policy_ (options REQUIRE_NONE true)).2 = Err refusal_.
Proof. apply get_err_spec. vm_compute. reflexivity. Qed.
Definition refusal_record : DelegationRecord := default ProvenanceExample.no_record (exn_record refusal_).
Lemma refusal_has_record : exn_record refusal_ = Some refusal_record.
Proof. by_decision. Qed.

Definition plain_rev : revocation.RevocationStatus :=
  get_ok revocation.REVOCATION_NOT_CHECKED (verify_chain_with 150 demo_chain (chain_options (options REQUIRE_NONE false))).
Lemma plain_verified :
  verify_chain_with 150 demo_chain (chain_options (options REQUIRE_NONE false)) = Ok plain_rev.
Proof. apply get_ok_spec. vm_compute. reflexivity. Qed.
Definition leaf_scope : gset pystr := keys_of ["read"]%string ∩ allow policy_.
Lemma leaf_intersect : intersect policy_ (scope leaf) = Ok leaf_scope.
Proof. by_decision. Qed.
Lemma write_not_in_scope : py "write" ∉ leaf_scope.
Proof. by_decision. Qed.
Lemma root_in_chain : root ∈ chain good.
Proof. left. Qed.

#[local] Opaque result_ refusal_ refusal_record good too_wide issued leaf root plain_rev leaf_scope.

Lemma accepted_within_authority_witness : effective_scope result_ ⊆ scope root.
Proof.
  destruct (accepted_within_authority (C := toy) clocks good policy_ (options REQUIRE_ANY true) result_ good_accepted) as (_ & _ & H & _).
  exact (H root root_in_chain).
Defined.

Lemma caller_attestation_accurate_witness :
  Errors.caller_attestation (record result_) = caller_attestation result_.
Proof. exact (proj1 (caller_attestation_accurate (C := toy) clocks good policy_ (options REQUIRE_ANY true) result_
    good_accepted)). Defined.

Lemma denial_records_accurate_witness :
  exists rev, verify_chain_with 150 demo_chain (chain_options (options REQUIRE_NONE true)) = Ok rev.
Proof.
  destruct (denial_records_accurate (C := toy) clocks too_wide policy_ (options REQUIRE_NONE true)
    refusal_ refusal_record too_wide_refused refusal_has_record)
    as (rev & _ & H & _).
  exists rev. exact H.
Defined.

Definition too_wide_plain : PeerRequest :=
  {| chain := demo_chain; requested_capability := py "write"; req_record_id := py "r1";
     sealed_payload := None; parent_record_hash := None; caller_offer := None;
     holder_proof := None; caller_possession := None |}.
Lemma none_required : REQUIRE_NONE ∈ REQUIREMENT_VALUES.
Proof. apply elem_of_keys_py. reflexivity. Qed.
Lemma scope_refusal_exact_witness :
  exists e, (handle_peer_request clocks too_wide_plain policy_ (options REQUIRE_NONE false)).2 = Err e /\
    exn_class e = Some ScopeNotPermitted.
Proof.
  destruct (scope_refusal_exact (C := toy) clocks too_wide_plain policy_ (options REQUIRE_NONE false)
    plain_rev leaf leaf_scope CALLER_NOT_OFFERED) as (e & He & Hcls & _).
  - exact plain_verified.
  - reflexivity.
  - intros H. discriminate H.
  - exact leaf_intersect.
  - split; [exact none_required|]. split; [reflexivity|]. split; reflexivity.
  - exact write_not_in_scope.
  - exists e. split; [exact He|exact Hcls].
Defined.

Lemma enforce_agrees_witness :
  (r ← (handle_peer_request clocks plain policy_ (options REQUIRE_NONE false)).2;
   Ok {| dec_effective_scope := effective_scope r; dec_granted_capability := granted_capability r;
         dec_record := record r |}) =
  enforce_peer_call 150 demo_chain (py "read") policy_ (py "r1") None CALLER_NOT_OFFERED
    (chain_options (options REQUIRE_NONE false)).
Proof.
  exact (enforce_agrees (C := toy) clocks plain policy_ (options REQUIRE_NONE false)
    eq_refl eq_refl eq_refl eq_refl eq_refl).
Defined.
End PeerExample.
