(* ===== verification/Base64.v ===== *)
(** * The base64url codec ([ca2a_runtime.transport._b64url])

    [base64.urlsafe_b64encode]/[urlsafe_b64decode] of the standard library, and the
    strict wrapper the transport puts around them. *)
From S2P Require Export Credential.
#[local] Open Scope N_scope.

(** ** The standard library's codec *)

(** The character of a sextet in the URL-safe alphabet, and back. *)
Definition b64_char (n : N) : N :=
  if n <? 26 then 65 + n
  else if n <? 52 then 71 + n
  else if n <? 62 then n - 4
  else if n =? 62 then 45 else 95.
Definition b64_val (c : N) : option N :=
  if (65 <=? c) && (c <=? 90) then Some (c - 65)
  else if (97 <=? c) && (c <=? 122) then Some (c - 71)
  else if (48 <=? c) && (c <=? 57) then Some (c + 4)
  else if c =? 45 then Some 62
  else if c =? 95 then Some 63 else None.

(** [base64.urlsafe_b64encode(value).decode("ascii")] *)
Fixpoint urlsafe_b64encode (bs : bytes) : pystr :=
  match bs with
  | [] => []
  | [a] =>
      let a := b2n a in [b64_char (a / 4); b64_char (a mod 4 * 16); 61; 61]
  | [a; b] =>
      let a := b2n a in let b := b2n b in
      [b64_char (a / 4); b64_char (a mod 4 * 16 + b / 16); b64_char (b mod 16 * 4); 61]
  | a :: b :: c :: bs =>
      let a := b2n a in let b := b2n b in let c := b2n c in
      b64_char (a / 4) :: b64_char (a mod 4 * 16 + b / 16)
      :: b64_char (b mod 16 * 4 + c / 64) :: b64_char (c mod 64) :: urlsafe_b64encode bs
  end.

(** The bytes of a run of sextets; a last group of one is an error, and the spare
    bits of a last group of two or three are dropped. *)
Fixpoint sextets (vs : list N) : option bytes :=
  match vs with
  | [] => Some []
  | [_] => None
  | [a; b] => Some [n2b (a * 4 + b / 16)]
  | [a; b; c] => Some [n2b (a * 4 + b / 16); n2b (b mod 16 * 16 + c / 4)]
  | a :: b :: c :: d :: vs =>
      bs ← sextets vs;
      Some (n2b (a * 4 + b / 16) :: n2b (b mod 16 * 16 + c / 4) :: n2b (c mod 4 * 64 + d) :: bs)
  end.

(** [base64.urlsafe_b64decode(value + padding)] on text of the alphabet, padded to a
    multiple of four; the error is binascii's. *)
Definition urlsafe_b64decode (value : pystr) : res bytes :=
  or_raise (vs ← mapM b64_val value; sextets vs)
    (PyExc ValueError
       (py "Invalid base64-encoded string: number of data characters (" ++
        str_N (N.of_nat (length value)) ++ py ") cannot be 1 more than a multiple of 4")).

(** [s.rstrip(c)] *)
Definition rstrip (c : N) (s : pystr) : pystr := rev (lstrip (fun x => x =? c) (rev s)).

Module b64url.
(** [_BASE64URL_RE.fullmatch(value)] *)
Definition fullmatch_b64url (value : pystr) : bool :=
  negb (bool_decide (value = [])) && forallb (fun c => match b64_val c with Some _ => true | None => false end) value.

Definition b64url_encode (value : bytes) : pystr := rstrip 61 (urlsafe_b64encode value).

Definition b64url_decode (field_name : pystr) (value : json) : res bytes :=
  match value with
  | JStr s =>
      raise_if (negb (fullmatch_b64url s))
        (err_d TransportError (field_name ++ py " is not valid base64url")
           (py "expected a non-empty base64url string, got str"));;
      try_except (urlsafe_b64decode s) is_value_error
        (fun exc => Err (err_d TransportError (field_name ++ py " is not valid base64url") (exn_str exc)))
  | _ =>
      Err (err_d TransportError (field_name ++ py " is not valid base64url")
             (py "expected a non-empty base64url string, got " ++ type_name value))
  end.
End b64url.
Import b64url.

(** ** Laws *)
Lemma b64_val_char n : n < 64 -> b64_val (b64_char n) = Some n.
Proof.
  intros Hn. assert (Forall (fun n => b64_val (b64_char n) = Some n) (map N.of_nat (seq 0 64))) as H.
  { apply Forall_forall. intros x Hx. revert x Hx. apply Forall_forall.
    apply (bool_decide_unpack _). vm_compute. exact I. }
  rewrite Forall_forall in H. apply H, list_elem_of_In, in_map_iff. exists (N.to_nat n).
  split; [lia|]. apply in_seq. lia.
Qed.

Lemma b64_val_not_pad c n : b64_val c = Some n -> c <> 61.
Proof. intros H ->. by vm_compute in H. Qed.

(** The characters of the encoding, without padding. *)
Fixpoint b64_data (bs : bytes) : list N :=
  match bs with
  | [] => []
  | [a] => [b2n a / 4; b2n a mod 4 * 16]
  | [a; b] => [b2n a / 4; b2n a mod 4 * 16 + b2n b / 16; b2n b mod 16 * 4]
  | a :: b :: c :: bs =>
      b2n a / 4 :: (b2n a mod 4 * 16 + b2n b / 16) :: (b2n b mod 16 * 4 + b2n c / 64)
      :: b2n c mod 64 :: b64_data bs
  end.

(** Induction by groups of three bytes. *)
Lemma bytes_ind3 (P : bytes -> Prop) :
  P [] -> (forall a, P [a]) -> (forall a b, P [a; b]) ->
  (forall a b c bs, P bs -> P (a :: b :: c :: bs)) -> forall bs, P bs.
Proof.
  intros H0 H1 H2 H3. fix IH 1. intros [|a [|b [|c bs]]]; [done|apply H1|apply H2|].
  apply H3, IH.
Qed.

Lemma b64_data_range bs : Forall (fun n => n < 64) (b64_data bs).
Proof.
  induction bs as [|a|a b|a b c bs IH] using bytes_ind3; cbn [b64_data]; [constructor|..].
  - pose proof (b2n_lt a). repeat constructor; lia.
  - pose proof (b2n_lt a). pose proof (b2n_lt b). repeat constructor; lia.
  - pose proof (b2n_lt a). pose proof (b2n_lt b). pose proof (b2n_lt c).
    repeat (constructor; [lia|]). exact IH.
Qed.

Lemma sextets_data bs : sextets (b64_data bs) = Some bs.
Proof.
  induction bs as [|a|a b|a b c bs IH] using bytes_ind3; [done| | |].
  - simpl. pose proof (b2n_lt a). do 2 f_equal. rewrite <-(n2b_b2n a) at 3. f_equal. lia.
  - simpl. pose proof (b2n_lt a). pose proof (b2n_lt b). do 2 f_equal; [|f_equal].
    + rewrite <-(n2b_b2n a) at 3. f_equal. lia.
    + rewrite <-(n2b_b2n b) at 3. f_equal. lia.
  - cbn [b64_data sextets]. rewrite IH. simpl.
    pose proof (b2n_lt a). pose proof (b2n_lt b). pose proof (b2n_lt c).
    do 2 f_equal; [|f_equal; [|f_equal]].
    + rewrite <-(n2b_b2n a) at 3. f_equal. lia.
    + rewrite <-(n2b_b2n b) at 3. f_equal. lia.
    + rewrite <-(n2b_b2n c) at 3. f_equal. lia.
Qed.

Lemma mapM_b64_val vs : Forall (fun n => n < 64) vs -> mapM b64_val (map b64_char vs) = Some vs.
Proof. induction 1 as [|n vs Hn _ IH]; [done|]. simpl. by rewrite b64_val_char, IH. Qed.

Lemma lstrip_app_pad pad s :
  Forall (fun c => (c =? 61) = true) pad -> Forall (fun c => (c =? 61) = false) s ->
  lstrip (fun c => c =? 61) (pad ++ s) = s.
Proof.
  intros Hp Hs. induction Hp as [|c pad Hc _ IH]; cbn [app lstrip]; [by apply lstrip_id|].
  by rewrite Hc.
Qed.

Lemma b64_char_not_pad n : n < 64 -> (b64_char n =? 61) = false.
Proof. intros Hn%b64_val_char. apply N.eqb_neq. by eapply b64_val_not_pad. Qed.

(** The encoding is its data characters and then padding. *)
Lemma urlsafe_b64encode_data bs :
  exists pad, urlsafe_b64encode bs = map b64_char (b64_data bs) ++ pad /\
    Forall (fun c => (c =? 61) = true) pad.
Proof.
  induction bs as [|a|a b|a b c bs (pad & IH & Hp)] using bytes_ind3.
  - by exists [].
  - exists [61; 61]. split; [done|]. by repeat constructor.
  - exists [61]. split; [done|]. by repeat constructor.
  - exists pad. split; [|done]. cbn [urlsafe_b64encode b64_data map app]. by rewrite IH.
Qed.

Lemma b64url_encode_data bs : b64url_encode bs = map b64_char (b64_data bs).
Proof.
  destruct (urlsafe_b64encode_data bs) as (pad & E & Hp). unfold b64url_encode, rstrip.
  rewrite E, rev_app_distr, lstrip_app_pad; [apply rev_involutive| |].
  - by apply Forall_rev.
  - apply Forall_rev. apply Forall_map. eapply Forall_impl; [apply b64_data_range|].
    intros n Hn. by apply b64_char_not_pad.
Qed.

Lemma b64url_fullmatch bs : bs <> [] -> fullmatch_b64url (b64url_encode bs) = true.
Proof.
  intros Hbs. rewrite b64url_encode_data. unfold fullmatch_b64url. apply andb_true_iff. split.
  - rewrite bool_decide_false; [done|]. by destruct bs as [|a [|b [|c bs]]].
  - rewrite forallb_forall. intros c Hc. apply in_map_iff in Hc as (n & <- & Hn).
    pose proof (b64_data_range bs) as Hr. rewrite Forall_forall in Hr.
    by rewrite b64_val_char by (apply Hr; by apply list_elem_of_In).
Qed.

(** Encoding then decoding gives the bytes back; the empty value is the exception,
    since its text is empty and the parser refuses empty text. *)
Lemma b64url_decode_encode field_name bs :
  bs <> [] -> b64url_decode field_name (JStr (b64url_encode bs)) = Ok bs.
Proof.
  intros Hbs. unfold b64url_decode. apply guard_pass; [by rewrite b64url_fullmatch|].
  apply try_except_raise_ok. unfold urlsafe_b64decode. apply or_raise_ok.
  rewrite b64url_encode_data, mapM_b64_val by apply b64_data_range. apply sextets_data.
Qed.

Lemma b64url_decode_err field_name v e :
  b64url_decode field_name v = Err e -> exn_class e = Some TransportError.
Proof.
  unfold b64url_decode. destruct v; try (by intros [= <-]).
  intros [H|(? & _ & H)]%bind_err; [by apply raise_if_err in H as [_ ->]|].
  unfold urlsafe_b64decode, try_except, or_raise in H. case_match; [done|]. case_match.
  - by injection H as <-.
  - by repeat case_match; simplify_eq.
Qed.

(** Decoding is not injective: the spare bits of a last group are ignored. *)
Example b64url_spare_bits f :
  b64url_decode f (JStr (py "QQ")) = b64url_decode f (JStr (py "QR")).
Proof. reflexivity. Qed.
