(* ===== verification/Wire.v ===== *)
(** * Wire encodings ([ca2a_runtime.transport.wire])

    Responses, errors and channel offers as JSON, and the parsers of the handshake.
    Where the parser relies on a TypeError or AttributeError the interpreter raises
    on a value of the wrong type, the text of that error is a parameter. *)
From S2P Require Export Base64 Peer.
Import tee attestation peer b64url.

(** The text CPython gives the TypeError or AttributeError of using this value as an
    object, or of hashing it. *)
Class ErrorText := { type_error_text : json -> pystr }.

Module wire.

Section serialize.

Definition _record_to_dict (record : DelegationRecord) : res dict :=
  let body := record_body record in
  h ← record_hash record;
  Ok (dset (py "record_hash") (JStr h) body).

Definition serialize_peer_result (result : PeerResult) : res dict :=
  record ← _record_to_dict (record result);
  Ok [(py "accepted", JBool true);
      (py "effective_scope", JArr (map JStr (sorted_set (effective_scope result))));
      (py "granted_capability", JStr (granted_capability result));
      (py "caller_attestation", JStr (caller_attestation result));
      (py "record", JObj record)].

Definition serialize_error (e : ca2a_error) : dict :=
  [(py "error", JObj
     [(py "code", JStr (err_code e));
      (py "message", JStr (err_message e));
      (py "detail", opt_str (err_detail e));
      (py "http_status", JInt (err_http_status e))])].

(** [attestation[field] = b64url_encode(value)], for a value that is present. *)
Definition evidence_item (name : string) (value : option bytes) : dict :=
  match value with Some b => [(py name, JStr (b64url_encode b))] | None => [] end.

Definition attestation_dict (r : AttestationReport) : dict :=
  [(py "platform", JStr (platform r)); (py "measurement", JStr (measurement r));
   (py "public_key", JStr (public_key r)); (py "nonce", JStr (nonce r))] ++
  (if bool_decide (role r = ROLE_CALLEE) then [] else [(py "role", JStr (role r))]) ++
  evidence_item "raw_evidence" (raw_evidence r) ++
  evidence_item "quote_signature" (quote_signature r) ++
  evidence_item "attestation_key_pem" (attestation_key_pem r) ++
  evidence_item "attestation_key_chain_pem" (attestation_key_chain_pem r).

Definition serialize_channel_offer (offer : ChannelOffer) (challenge : option pystr) : dict :=
  [(py "channel_public_key", JStr (channel_public_key offer));
   (py "attestation", JObj (attestation_dict (report offer)))] ++
  match challenge with Some c => [(py "challenge", JStr c)] | None => [] end.
End serialize.

Section parse.
Context `{U : Unidata, T : ErrorText}.

Definition malformed_offer (detail : pystr) : exn :=
  err_d TransportError (py "malformed channel offer") detail.
(** [d[key]], whose KeyError is reported as the quoted key. *)
Definition required (key : string) (d : dict) : res json :=
  or_raise (dget (py key) d) (malformed_offer (py_repr (py key))).

(** The entry of the evidence comprehension for one field. *)
Definition parse_evidence (name : string) (att : dict) : res (option bytes) :=
  match dget (py name) att with
  | None => Ok None
  | Some v => Some <$> b64url_decode (py name) v
  end.

(** [role not in ROLES], which hashes the role. *)
Definition parse_role (v : json) : res pystr :=
  match v with
  | JArr _ | JObj _ => Err (malformed_offer (type_error_text v))
  | JStr r =>
      raise_if (negb (bool_decide (r ∈ ROLES)))
        (malformed_offer (py "unknown offer role " ++ py_repr r));;
      Ok r
  | _ => Err (malformed_offer (py "unknown offer role " ++ json_repr v))
  end.

Definition parse_channel_offer (data : json) : res ChannelOffer :=
  match data with
  | JObj d =>
      public_key ← required "channel_public_key" d;
      att ← required "attestation" d;
      match att with
      | JObj att =>
          raw ← parse_evidence "raw_evidence" att;
          sig ← parse_evidence "quote_signature" att;
          pem ← parse_evidence "attestation_key_pem" att;
          chain_pem ← parse_evidence "attestation_key_chain_pem" att;
          role ← parse_role (default (JStr ROLE_CALLEE) (dget (py "role") att));
          platform ← required "platform" att;
          measurement ← required "measurement" att;
          report_key ← required "public_key" att;
          nonce ← required "nonce" att;
          Ok {| channel_public_key := str_of public_key;
                report :=
                  {| platform := str_of platform; measurement := str_of measurement;
                     tee.public_key := str_of report_key; nonce := str_of nonce;
                     raw_evidence := raw; quote_signature := sig; attestation_key_pem := pem;
                     attestation_key_chain_pem := chain_pem; role := role |} |}
      | _ => Err (malformed_offer (type_error_text att))
      end
  | _ => Err (malformed_offer (py "expected an object, got " ++ type_name data))
  end.

Definition parse_challenge (d : dict) : res (option pystr) :=
  match dget (py "challenge") d with
  | None => Ok None
  | Some v =>
      Some <$> or_raise (nonempty_str v)
        (err_d TransportError (py "challenge must be a non-empty string when present")
           (py "got " ++ type_name v))
  end.
End parse.
End wire.
Import wire.

(** ** Laws *)
Section laws.
Context `{U : Unidata, T : ErrorText}.

Lemma roles_spec r : r ∈ ROLES <-> r = ROLE_CALLEE \/ r = ROLE_CALLER.
Proof.
  unfold ROLES. rewrite elem_of_keys. cbn [In].
  split; [by intros (s & [<-|[<-|[]]] & ->); auto|]. intros [->| ->]; eexists; (split; [|done]); auto.
Qed.

(** An offer whose text survives the wire: a known role, no empty evidence. *)
Definition sendable (offer : ChannelOffer) : Prop :=
  role (report offer) ∈ ROLES /\
  raw_evidence (report offer) <> Some [] /\ quote_signature (report offer) <> Some [] /\
  attestation_key_pem (report offer) <> Some [] /\
  attestation_key_chain_pem (report offer) <> Some [].

Lemma parse_evidence_round name (v : option bytes) att :
  v <> Some [] -> dget (py name) att = (fun b => JStr (b64url_encode b)) <$> v ->
  parse_evidence name att = Ok v.
Proof.
  intros Hv Hd. unfold parse_evidence. rewrite Hd. destruct v as [b|]; [|done].
  cbn [fmap option_fmap option_map]. rewrite b64url_decode_encode; [done|]. by intros ->.
Qed.

Lemma dget_evidence k name v :
  dget (py k) (evidence_item name v) =
  if String.eqb name k then (fun b => JStr (b64url_encode b)) <$> v else None.
Proof.
  unfold evidence_item. destruct v; [rewrite dget_py|]; by destruct (String.eqb name k).
Qed.

Lemma attestation_lookups r :
  let d := attestation_dict r in
  dget (py "platform") d = Some (JStr (platform r)) /\
  dget (py "measurement") d = Some (JStr (measurement r)) /\
  dget (py "public_key") d = Some (JStr (public_key r)) /\
  dget (py "nonce") d = Some (JStr (nonce r)) /\
  dget (py "role") d = (if bool_decide (role r = ROLE_CALLEE) then None else Some (JStr (role r))) /\
  dget (py "raw_evidence") d = (fun b => JStr (b64url_encode b)) <$> raw_evidence r /\
  dget (py "quote_signature") d = (fun b => JStr (b64url_encode b)) <$> quote_signature r /\
  dget (py "attestation_key_pem") d = (fun b => JStr (b64url_encode b)) <$> attestation_key_pem r /\
  dget (py "attestation_key_chain_pem") d =
    (fun b => JStr (b64url_encode b)) <$> attestation_key_chain_pem r.
Proof.
  cbv zeta. unfold attestation_dict.
  split_and!; rewrite !dget_app, ?dget_evidence; destruct (bool_decide (role r = ROLE_CALLEE));
    dlookup; cbn [dget String.eqb Ascii.eqb Bool.eqb];
    first [reflexivity | by destruct (raw_evidence r) | by destruct (quote_signature r)
          | by destruct (attestation_key_pem r) | by destruct (attestation_key_chain_pem r)].
Qed.

Lemma parse_role_round r att :
  r ∈ ROLES -> dget (py "role") att = (if bool_decide (r = ROLE_CALLEE) then None else Some (JStr r)) ->
  parse_role (default (JStr ROLE_CALLEE) (dget (py "role") att)) = Ok r.
Proof.
  intros Hr ->. case_bool_decide as E; simpl.
  - subst. apply guard_pass; [by rewrite bool_decide_true|done].
  - apply guard_pass; [by rewrite bool_decide_true|done].
Qed.

Lemma required_get key d v : dget (py key) d = Some v -> required key d = Ok v.
Proof. intros H. by apply or_raise_ok. Qed.

Lemma offer_dict_lookups offer ch :
  let d := serialize_channel_offer offer ch in
  dget (py "channel_public_key") d = Some (JStr (channel_public_key offer)) /\
  dget (py "attestation") d = Some (JObj (attestation_dict (report offer))) /\
  dget (py "challenge") d = JStr <$> ch.
Proof. cbv zeta. unfold serialize_channel_offer. destruct ch; cbn [app]; split_and!; by dlookup. Qed.

Lemma parse_offer_round offer ch :
  sendable offer -> parse_channel_offer (JObj (serialize_channel_offer offer ch)) = Ok offer.
Proof.
  intros (Hrole & Hev1 & Hev2 & Hev3 & Hev4). destruct (offer_dict_lookups offer ch) as (L1 & L2 & _).
  destruct (attestation_lookups (report offer)) as (A1 & A2 & A3 & A4 & A5 & A6 & A7 & A8 & A9).
  unfold parse_channel_offer.
  eapply bind_pass; [by apply required_get|]. eapply bind_pass; [by apply required_get|].
  cbv beta iota.
  eapply bind_pass; [by apply (parse_evidence_round _ (raw_evidence (report offer)))|].
  eapply bind_pass; [by apply (parse_evidence_round _ (quote_signature (report offer)))|].
  eapply bind_pass; [by apply (parse_evidence_round _ (attestation_key_pem (report offer)))|].
  eapply bind_pass; [by apply (parse_evidence_round _ (attestation_key_chain_pem (report offer)))|].
  eapply bind_pass; [by apply (parse_role_round (role (report offer)))|].
  do 4 (eapply bind_pass; [by apply required_get|]).
  destruct offer as [k []]. done.
Qed.

Lemma parse_evidence_err name att e :
  parse_evidence name att = Err e -> exn_class e = Some TransportError.
Proof.
  unfold parse_evidence. destruct (dget _ _); [|done]. intros H%fmap_err. by eapply b64url_decode_err.
Qed.

Lemma required_err key d e : required key d = Err e -> exn_class e = Some TransportError.
Proof. unfold required. by intros [_ ->]%or_raise_err. Qed.

Lemma parse_role_err v e : parse_role v = Err e -> exn_class e = Some TransportError.
Proof. unfold parse_role. intros H. by err_cases. Qed.

Lemma parse_offer_err data e : parse_channel_offer data = Err e -> exn_class e = Some TransportError.
Proof.
  unfold parse_channel_offer. destruct data as [| | | | | |d]; try (by intros [= <-]).
  intros [H|(pk & _ & H)]%bind_err; [by eapply required_err|].
  apply bind_err in H as [H|(att & _ & H)]; [by eapply required_err|].
  destruct att as [| | | | | |att]; try (by injection H as <-).
  repeat (apply bind_err in H as [H|(? & _ & H)];
    [first [exact (required_err _ _ _ H)|exact (parse_evidence_err _ _ _ H)|exact (parse_role_err _ _ H)]|]).
  done.
Qed.

(** An offer that names no role is a callee's: a role-less offer, from a peer that
    predates roles, never parses as a caller's. *)
Lemma parse_offer_roleless d att offer :
  dget (py "attestation") d = Some (JObj att) -> dget (py "role") att = None ->
  parse_channel_offer (JObj d) = Ok offer -> role (report offer) = ROLE_CALLEE.
Proof.
  intros Ha Hr H. unfold parse_channel_offer in H. inv_ok. apply or_raise_ok in Hs0.
  rewrite Ha in Hs0. injection Hs0 as <-. inv_ok.
  match goal with H : parse_role _ = Ok _ |- _ => rewrite Hr in H; unfold parse_role in H end.
  cbn [default] in *. inv_ok. done.
Qed.
End laws.
