(* ===== verification/Adapter.v ===== *)
(** * The A2A adapter ([ca2a_runtime.transport.a2a_adapter], [.constants])

    Reading a [PeerRequest] out of the metadata of an A2A message, and attaching one
    to it.  Messages are JSON objects; attaching works on a deep copy in the code, so
    it is a function of the message here. *)
From S2P Require Export Wire.
Import tee attestation holder peer wire b64url.

Module adapter.

(** ** [constants.py] *)
Definition EXTENSION_URI : pystr := py "https://agentrust-io.com/extensions/ca2a/v0.1".
(** [f"{EXTENSION_URI}<suffix>"] *)
Definition ext_key (suffix : string) : pystr := EXTENSION_URI ++ py suffix.
Definition KEY_DELEGATION_CHAIN : pystr := ext_key "/delegation_chain".
Definition KEY_REQUESTED_CAPABILITY : pystr := ext_key "/requested_capability".
Definition KEY_RECORD_ID : pystr := ext_key "/record_id".
Definition KEY_PARENT_RECORD_HASH : pystr := ext_key "/parent_record_hash".
Definition KEY_SEALED_PAYLOAD : pystr := ext_key "/sealed_payload".
Definition KEY_CALLER_OFFER : pystr := ext_key "/caller_offer".
Definition KEY_HOLDER_PROOF : pystr := ext_key "/holder_proof".
Definition KEY_CALLER_POSSESSION : pystr := ext_key "/caller_possession".
Definition CA2A_METADATA_KEYS : list pystr :=
  [KEY_DELEGATION_CHAIN; KEY_REQUESTED_CAPABILITY; KEY_RECORD_ID; KEY_PARENT_RECORD_HASH;
   KEY_SEALED_PAYLOAD; KEY_CALLER_OFFER; KEY_HOLDER_PROOF; KEY_CALLER_POSSESSION].

(** ** Reading *)
Definition has_ca2a_metadata (metadata : dict) : bool :=
  match metadata with [] => false | _ => existsb (fun key => din key metadata) CA2A_METADATA_KEYS end.

(** [x.get(key)] when it is a dict. *)
Definition get_dict (key : string) (d : dict) : option dict :=
  match dget (py key) d with Some (JObj e) => Some e | _ => None end.
Definition update_with (collected : dict) (e : option dict) : dict :=
  match e with Some e => dupdate collected e | None => collected end.

Definition collect_metadata (message : dict) (metadata : option dict) : dict :=
  let collected :=
    match get_dict "params" message with
    | Some params =>
        let collected := update_with [] (get_dict "metadata" params) in
        match get_dict "message" params with
        | Some msg => update_with collected (get_dict "metadata" msg)
        | None => collected
        end
    | None => update_with [] (get_dict "metadata" message)
    end in
  update_with collected metadata.

(** [meta.get(key)] *)
Definition mget (key : pystr) (meta : dict) : json := default JNull (dget key meta).

Section parse.
Context `{U : Unidata, T : ErrorText}.

Fixpoint parse_hops (i : N) (items : list json) : res (list DelegationCredential) :=
  match items with
  | [] => Ok []
  | item :: items =>
      cred ← match item with
        | JObj _ =>
            try_except (credential.from_dict item) (is_ca2a InvalidCredential)
              (fun exc => Err (err_d TransportError
                 (py "delegation_chain hop " ++ str_N i ++ py " is malformed") (exn_str exc)))
        | _ => Err (err_d TransportError
                 (py "delegation_chain hop " ++ str_N i ++ py " must be an object")
                 (py "got " ++ type_name item))
        end;
      rest ← parse_hops (i + 1) items;
      Ok (cred :: rest)
  end.

(** A key that is absent or null is [None]; any other value is parsed. *)
Definition parse_optional {A : Type} (parse : json -> res A) (key : pystr) (meta : dict) : res (option A) :=
  match mget key meta with
  | JNull => Ok None
  | v => Some <$> parse v
  end.

Definition parse_sealed (v : json) : res bytes :=
  match v with
  | JStr _ => b64url_decode (py "sealed_payload") v
  | _ => Err (err TransportError (py "sealed_payload must be a base64url string or null"))
  end.

Definition parse_possession (v : json) : res CallerPossession :=
  try_except (possession_from_dict v) (is_ca2a AttestationFailed)
    (fun exc => Err (err_d TransportError (py "malformed caller_possession") (exn_str exc))).

Definition parse_parent (meta : dict) : res (option pystr) :=
  match dget KEY_PARENT_RECORD_HASH meta with
  | None => Err (err TransportError
      (py "parent_record_hash key is required when cA2A metadata is present " ++
       py "(use null for a root hop)"))
  | Some JNull => Ok None
  | Some (JStr s) => Ok (Some s)
  | Some _ => Err (err TransportError (py "parent_record_hash must be a string or null"))
  end.

Definition parse_peer_request (message : dict) (metadata : option dict) : res (option PeerRequest) :=
  let meta := collect_metadata message metadata in
  if negb (has_ca2a_metadata meta) then Ok None
  else
    let raw_chain := mget KEY_DELEGATION_CHAIN meta in
    raise_if (bool_decide (raw_chain = JNull))
      (err TransportError (py "cA2A metadata present but delegation_chain is missing"));;
    items ← or_raise (match raw_chain with JArr (x :: l) => Some (x :: l) | _ => None end)
      (err TransportError (py "delegation_chain must be a non-empty JSON array of credential objects"));
    chain ← parse_hops 0 items;
    capability ← or_raise (nonempty_str (mget KEY_REQUESTED_CAPABILITY meta))
      (err TransportError (py "requested_capability must be a non-empty string"));
    record_id ← or_raise (nonempty_str (mget KEY_RECORD_ID meta))
      (err TransportError (py "record_id must be a non-empty string"));
    parent_record_hash ← parse_parent meta;
    sealed_payload ← parse_optional parse_sealed KEY_SEALED_PAYLOAD meta;
    caller_offer ← parse_optional parse_channel_offer KEY_CALLER_OFFER meta;
    caller_possession ← parse_optional parse_possession KEY_CALLER_POSSESSION meta;
    holder_proof ← parse_optional holder.from_dict KEY_HOLDER_PROOF meta;
    Ok (Some {| chain := chain; requested_capability := capability; req_record_id := record_id;
                sealed_payload := sealed_payload; peer.parent_record_hash := parent_record_hash;
                caller_offer := caller_offer; holder_proof := holder_proof;
                caller_possession := caller_possession |}).
End parse.

(** ** Attaching *)

(** [meta.pop(key, None)] when the value is absent, [meta[key] = value] otherwise. *)
Definition put_optional (key : pystr) (v : option json) (meta : dict) : dict :=
  match v with None => dpop key meta | Some v => dset key v meta end.

(** The writes of [attach_ca2a_metadata], in order. *)
Definition write_request (request : PeerRequest) (meta : dict) : dict :=
  let meta := dset KEY_DELEGATION_CHAIN
    (JArr (map (fun c => JObj (_credential_to_dict c)) (chain request))) meta in
  let meta := dset KEY_REQUESTED_CAPABILITY (JStr (requested_capability request)) meta in
  let meta := dset KEY_RECORD_ID (JStr (req_record_id request)) meta in
  let meta := dset KEY_PARENT_RECORD_HASH (opt_str (parent_record_hash request)) meta in
  let meta := put_optional KEY_SEALED_PAYLOAD
    ((fun b => JStr (b64url_encode b)) <$> sealed_payload request) meta in
  let meta := put_optional KEY_CALLER_OFFER
    ((fun o => JObj (serialize_channel_offer o None)) <$> caller_offer request) meta in
  let meta := put_optional KEY_HOLDER_PROOF
    ((fun p => JObj (holder.to_dict p)) <$> holder_proof request) meta in
  put_optional KEY_CALLER_POSSESSION
    ((fun p => JObj (possession_to_dict p)) <$> caller_possession request) meta.

(** The metadata map of the container, created if absent, replaced by [f] of it. *)
Definition update_metadata (f : dict -> dict) (container : dict) : res dict :=
  match default (JObj []) (dget (py "metadata") container) with
  | JObj meta => Ok (dset (py "metadata") (JObj (f meta)) container)
  | _ => Err (err TransportError (py "message.metadata must be a mapping when attaching cA2A fields"))
  end.

(** [_attach_target]: where the parser reads, with the map found there rewritten. *)
Definition _attach_target (f : dict -> dict) (out : dict) : res dict :=
  match get_dict "params" out with
  | Some params =>
      match get_dict "message" params with
      | Some msg =>
          msg ← update_metadata f msg;
          Ok (dset (py "params") (JObj (dset (py "message") (JObj msg) params)) out)
      | None =>
          params ← update_metadata f params;
          Ok (dset (py "params") (JObj params) out)
      end
  | None => update_metadata f out
  end.

Definition attach_ca2a_metadata (message : dict) (request : PeerRequest) : res dict :=
  _attach_target (write_request request) message.
End adapter.
Import adapter.

(** ** Lookups *)
Section lookups.

Lemma ext_key_eqb s t : bool_decide (ext_key s = ext_key t) = String.eqb s t.
Proof.
  destruct (String.eqb_spec s t) as [->|Hne]; [by rewrite bool_decide_true|].
  rewrite bool_decide_false; [done|]. intros H%(inj (app EXTENSION_URI)). by apply py_inj in H.
Qed.

Lemma dget_put_optional k key v meta :
  dget k (put_optional key v meta) = if bool_decide (key = k) then v else dget k meta.
Proof.
  destruct v; simpl; [apply dget_dset|]. rewrite dget_dpop.
  repeat case_bool_decide; congruence.
Qed.

(** What the writes leave under each key. *)
Lemma write_lookups req meta :
  let m := write_request req meta in
  dget KEY_DELEGATION_CHAIN m = Some (JArr (map (fun c => JObj (_credential_to_dict c)) (chain req))) /\
  dget KEY_REQUESTED_CAPABILITY m = Some (JStr (requested_capability req)) /\
  dget KEY_RECORD_ID m = Some (JStr (req_record_id req)) /\
  dget KEY_PARENT_RECORD_HASH m = Some (opt_str (parent_record_hash req)) /\
  dget KEY_SEALED_PAYLOAD m = (fun b => JStr (b64url_encode b)) <$> sealed_payload req /\
  dget KEY_CALLER_OFFER m = (fun o => JObj (serialize_channel_offer o None)) <$> caller_offer req /\
  dget KEY_HOLDER_PROOF m = (fun p => JObj (holder.to_dict p)) <$> holder_proof req /\
  dget KEY_CALLER_POSSESSION m = (fun p => JObj (possession_to_dict p)) <$> caller_possession req.
Proof.
  cbv zeta. unfold write_request, KEY_DELEGATION_CHAIN, KEY_REQUESTED_CAPABILITY, KEY_RECORD_ID,
    KEY_PARENT_RECORD_HASH, KEY_SEALED_PAYLOAD, KEY_CALLER_OFFER, KEY_HOLDER_PROOF,
    KEY_CALLER_POSSESSION.
  split_and!; rewrite !dget_put_optional, !dget_dset, !ext_key_eqb; reflexivity.
Qed.

(** Every other key is left as it was. *)
Lemma write_other req meta k :
  k ∉ CA2A_METADATA_KEYS -> dget k (write_request req meta) = dget k meta.
Proof.
  intros Hk. unfold CA2A_METADATA_KEYS in Hk.
  repeat (apply not_elem_of_cons in Hk as [? Hk]).
  unfold write_request. rewrite !dget_put_optional, !dget_dset.
  by rewrite !bool_decide_false by congruence.
Qed.

Lemma dget_dupdate k d e :
  NoDup e.*1 -> dget k (dupdate d e) = match dget k e with Some v => Some v | None => dget k d end.
Proof.
  unfold dupdate. revert d. induction e as [|[k1 v1] e IH]; intros d Hnd; [done|].
  inversion Hnd as [|?? Hk He]; subst. cbn [fold_left fst snd]. rewrite IH by done.
  rewrite dget_dset. simpl. case_bool_decide as E; [|done]. subst.
  destruct (dget k e) eqn:Ek; [|done]. apply dget_Some_elem in Ek.
  destruct Hk. by apply (list_elem_of_fmap_2 fst) in Ek.
Qed.

Lemma dget_update_with k d e :
  (forall x, e = Some x -> NoDup x.*1) ->
  dget k (update_with d e) =
  match e ≫= dget k with Some v => Some v | None => dget k d end.
Proof. intros H. destruct e as [x|]; simpl; [|done]. apply dget_dupdate. by apply H. Qed.

Lemma dpop_NoDup k (d : dict) : NoDup d.*1 -> NoDup (dpop k d).*1.
Proof.
  induction d as [|[k1 v1] d IH]; [done|]. intros H. inversion H as [|?? Hk Hd]; subst.
  simpl. case_bool_decide; [by apply IH|]. csimpl. constructor; [|by apply IH].
  intros Hin. apply Hk. clear -Hin. induction d as [|[k2 v2] d IH]; [done|]. simpl in Hin.
  case_bool_decide; csimpl in *; [right; by apply IH|].
  apply elem_of_cons in Hin as [->|Hin]; [left|right; by apply IH].
Qed.
Lemma put_optional_NoDup key v (meta : dict) :
  NoDup meta.*1 -> NoDup (put_optional key v meta).*1.
Proof. intros. destruct v; [by apply dset_NoDup|by apply dpop_NoDup]. Qed.
Lemma write_request_NoDup req (meta : dict) : NoDup meta.*1 -> NoDup (write_request req meta).*1.
Proof. intros. unfold write_request. by repeat first [apply put_optional_NoDup|apply dset_NoDup]. Qed.

(** Well-formed objects are well formed inside. *)
Lemma get_dict_wf key d e : wf_json (JObj d) -> get_dict key d = Some e -> wf_json (JObj e).
Proof.
  intros [_ Hf]%wf_json_obj. unfold get_dict. destruct (dget (py key) d) as [v|] eqn:E; [|done].
  destruct v; try done. intros [= <-]. apply dget_Some_elem in E.
  rewrite Forall_forall in Hf. by apply (Hf _ E).
Qed.
Lemma wf_NoDup d : wf_json (JObj d) -> NoDup d.*1.
Proof. by intros [? _]%wf_json_obj. Qed.
End lookups.

(** ** Attaching and collecting *)
Section collect.

(** What [params.metadata] contributes below the message's own metadata. *)
Definition outer_metadata (message : dict) : dict :=
  match get_dict "params" message with
  | Some params =>
      match get_dict "message" params with
      | Some _ => default [] (get_dict "metadata" params)
      | None => []
      end
  | None => []
  end.

Lemma get_dict_dset_other k k' v d :
  String.eqb k' k = false -> get_dict k (dset (py k') v d) = get_dict k d.
Proof. intros H. unfold get_dict. by rewrite dget_py_dset, H. Qed.
Lemma get_dict_dset k e d : get_dict k (dset (py k) (JObj e) d) = Some e.
Proof. unfold get_dict. by rewrite dget_py_dset, String.eqb_refl. Qed.

Lemma update_metadata_ok f container out :
  update_metadata f container = Ok out <->
  exists meta, default (JObj []) (dget (py "metadata") container) = JObj meta /\
    out = dset (py "metadata") (JObj (f meta)) container.
Proof.
  unfold update_metadata. destruct (default _ _); split; try (by intros (? & ? & ?)); try done.
  - intros [= <-]. eauto.
  - by intros (? & [= <-] & ->).
Qed.

Lemma metadata_default container meta :
  default (JObj []) (dget (py "metadata") container) = JObj meta ->
  meta = default [] (get_dict "metadata" container).
Proof. unfold get_dict. destruct (dget _ _) as [v|]; simpl; [|congruence]. by intros ->. Qed.

Lemma default_get_dict_wf container :
  wf_json (JObj container) -> NoDup (default [] (get_dict "metadata" container)).*1.
Proof.
  intros Hwf. destruct (get_dict "metadata" container) as [e|] eqn:E; [|constructor].
  by eapply wf_NoDup, get_dict_wf.
Qed.

(** After attaching, what the parser collects under a key is what was written there,
    over whatever the outer metadata has. *)
Lemma collect_attached message req out :
  wf_json (JObj message) -> attach_ca2a_metadata message req = Ok out ->
  exists meta, NoDup meta.*1 /\
    (forall k, match dget k meta with Some v => Some v | None => dget k (outer_metadata message) end
               = dget k (collect_metadata message None)) /\
    forall k, dget k (collect_metadata out None) =
      match dget k (write_request req meta) with
      | Some v => Some v | None => dget k (outer_metadata message) end.
Proof.
  intros Hwf. unfold attach_ca2a_metadata, _attach_target.
  assert (forall (f : dict) k, dget k ([] : dict) = None) as Hnil by done.
  destruct (get_dict "params" message) as [params|] eqn:Ep.
  - pose proof (get_dict_wf _ _ _ Hwf Ep) as Hwp.
    destruct (get_dict "message" params) as [msg|] eqn:Em.
    + pose proof (get_dict_wf _ _ _ Hwp Em) as Hwm.
      intros (msg' & (meta & Hd & ->)%update_metadata_ok & [= <-])%bind_ok.
      apply metadata_default in Hd as ->. exists (default [] (get_dict "metadata" msg)).
      pose proof (default_get_dict_wf _ Hwm) as Hnd. split; [done|].
      assert (forall x, get_dict "metadata" params = Some x -> NoDup x.*1) as Hpm.
      { intros x Hx. exact (wf_NoDup _ (get_dict_wf _ _ _ Hwp Hx)). }
      assert (forall k, dget k (update_with [] (get_dict "metadata" params)) =
        dget k (default [] (get_dict "metadata" params))) as Hbase.
      { intros k. rewrite dget_update_with by done. destruct (get_dict "metadata" params) as [d|]; simpl; [|done].
        by destruct (dget k d). }
      unfold outer_metadata, collect_metadata. rewrite Ep, Em. split; intros k.
      * cbn [update_with]. rewrite dget_update_with, Hbase.
        { by destruct (get_dict "metadata" msg). }
        intros x Hx. exact (wf_NoDup _ (get_dict_wf _ _ _ Hwm Hx)).
      * rewrite get_dict_dset, get_dict_dset, get_dict_dset_other by done. rewrite get_dict_dset.
        cbn [update_with]. rewrite dget_dupdate by (by apply write_request_NoDup). by rewrite Hbase.
    + intros (params' & (meta & Hd & ->)%update_metadata_ok & [= <-])%bind_ok.
      apply metadata_default in Hd as ->. exists (default [] (get_dict "metadata" params)).
      pose proof (default_get_dict_wf _ Hwp) as Hnd. split; [done|].
      unfold outer_metadata, collect_metadata. rewrite Ep, Em. split; intros k.
      * cbn [update_with]. rewrite dget_update_with.
        { by destruct (get_dict "metadata" params). }
        intros x Hx. exact (wf_NoDup _ (get_dict_wf _ _ _ Hwp Hx)).
      * rewrite get_dict_dset, get_dict_dset. rewrite get_dict_dset_other, Em by done.
        cbn [update_with]. by rewrite dget_dupdate by (by apply write_request_NoDup).
  - intros (meta & Hd & ->)%update_metadata_ok. apply metadata_default in Hd as ->.
    exists (default [] (get_dict "metadata" message)).
    pose proof (default_get_dict_wf _ Hwf) as Hnd. split; [done|].
    unfold outer_metadata, collect_metadata. rewrite Ep. split; intros k.
    + cbn [update_with]. rewrite dget_update_with.
      { by destruct (get_dict "metadata" message). }
      intros x Hx. exact (wf_NoDup _ (get_dict_wf _ _ _ Hwf Hx)).
    + rewrite get_dict_dset_other, Ep by done. rewrite get_dict_dset.
      cbn [update_with]. by rewrite dget_dupdate by (by apply write_request_NoDup).
Qed.
End collect.

(** ** Parsing *)
Section parse_laws.
Context `{U : Unidata, T : ErrorText}.

(** A request the wire can carry. *)
Record wf_request (req : PeerRequest) : Prop := {
  wf_chain : chain req <> [] /\ Forall wf_credential (chain req);
  wf_capability : requested_capability req <> [];
  wf_record_id : req_record_id req <> [];
  wf_payload : sealed_payload req <> Some [];
  wf_offer : forall offer, caller_offer req = Some offer -> sendable offer;
  wf_holder : forall p, holder_proof req = Some p -> proof_challenge p <> [] /\ proof_signature p <> [];
  wf_possession : forall p, caller_possession req = Some p -> version p <> [] /\ mac p <> []
}.

Lemma parse_hops_round i cs :
  Forall wf_credential cs -> parse_hops i (map (fun c => JObj (_credential_to_dict c)) cs) = Ok cs.
Proof.
  revert i. induction cs as [|c cs IH]; intros i H; [done|]. inversion H; subst.
  cbn [map parse_hops]. rewrite from_to_dict by done. cbn [try_except].
  change (Ok c ≫= ?f) with (f c). cbv beta. rewrite IH by done. done.
Qed.

Lemma parse_optional_round {A : Type} (parse : json -> res A) (enc : A -> json) key meta (v : option A) :
  (forall x, enc x <> JNull) -> dget key meta = enc <$> v ->
  (forall x, v = Some x -> parse (enc x) = Ok x) ->
  parse_optional parse key meta = Ok v.
Proof.
  intros Hn Hd Hp. unfold parse_optional, mget. rewrite Hd. destruct v as [x|]; [|done].
  cbn [fmap option_fmap option_map default]. specialize (Hp x eq_refl). specialize (Hn x).
  revert Hp Hn. destruct (enc x); intros Hp Hn; [by destruct Hn|..]; cbn [id]; rewrite Hp; reflexivity.
Qed.

Lemma possession_from_to_dict p :
  version p <> [] -> mac p <> [] -> parse_possession (JObj (possession_to_dict p)) = Ok p.
Proof.
  intros Hv Hm. unfold parse_possession, possession_from_dict.
  rewrite (field_get "version" _ (JStr (version p))) by (unfold possession_to_dict; by dlookup).
  rewrite (field_get "mac" _ (JStr (mac p))) by (unfold possession_to_dict; by dlookup).
  apply try_except_raise_ok.
  eapply bind_pass; [by apply or_raise_ok, nonempty_str_Some|].
  eapply bind_pass; [by apply or_raise_ok, nonempty_str_Some|]. by destruct p.
Qed.

Lemma nonempty_JStr s : s <> [] -> nonempty_str (JStr s) = Some s.
Proof. intros. by apply nonempty_str_Some. Qed.

Lemma has_metadata key meta :
  key ∈ CA2A_METADATA_KEYS -> is_Some (dget key meta) -> has_ca2a_metadata meta = true.
Proof.
  intros Hk [v Hv]. unfold has_ca2a_metadata. destruct meta as [|kv meta]; [done|].
  apply existsb_exists. exists key. split; [by apply list_elem_of_In|]. unfold din. by rewrite Hv.
Qed.

Lemma mget_Some key meta v : dget key meta = Some v -> mget key meta = v.
Proof. unfold mget. by intros ->. Qed.

(** Reading back what was written, wherever the collected metadata comes from. *)
Lemma parse_written message req :
  wf_request req ->
  (forall k, k ∈ CA2A_METADATA_KEYS ->
     dget k (collect_metadata message None) = dget k (write_request req [])) ->
  parse_peer_request message None = Ok (Some req).
Proof.
  intros [[Hne Hwf] Hcap Hid Hpay Hoff Hhol Hpos] Hc.
  destruct (write_lookups req []) as (L1 & L2 & L3 & L4 & L5 & L6 & L7 & L8).
  rewrite <-Hc in L1, L2, L3, L4, L5, L6, L7, L8 by (unfold CA2A_METADATA_KEYS; list_elem).
  unfold parse_peer_request. set (meta := collect_metadata message None) in *. clearbody meta.
  rewrite (has_metadata KEY_DELEGATION_CHAIN) by (by unfold CA2A_METADATA_KEYS; first [list_elem|eexists]).
  cbn [negb]. rewrite (mget_Some _ _ _ L1). cbv zeta.
  apply guard_pass; [by rewrite bool_decide_false|].
  apply (bind_pass _ _ (map (fun c => JObj (_credential_to_dict c)) (chain req))).
  { apply or_raise_ok. by destruct (chain req). }
  apply (bind_pass _ _ (chain req)); [by apply parse_hops_round|].
  rewrite (mget_Some _ _ _ L2).
  apply (bind_pass _ _ (requested_capability req)); [by rewrite nonempty_JStr|].
  rewrite (mget_Some _ _ _ L3).
  apply (bind_pass _ _ (req_record_id req)); [by rewrite nonempty_JStr|].
  apply (bind_pass _ _ (parent_record_hash req)).
  { unfold parse_parent. rewrite L4. by destruct (parent_record_hash req). }
  apply (bind_pass _ _ (sealed_payload req)).
  { apply (parse_optional_round _ (fun b => JStr (b64url_encode b))); [done|done|].
    intros b Hb. apply b64url_decode_encode. congruence. }
  apply (bind_pass _ _ (caller_offer req)).
  { apply (parse_optional_round _ (fun o => JObj (serialize_channel_offer o None))); [done|done|].
    intros o Ho. by apply parse_offer_round, Hoff. }
  apply (bind_pass _ _ (caller_possession req)).
  { apply (parse_optional_round _ (fun p => JObj (possession_to_dict p))); [done|done|].
    intros p Hp. by apply possession_from_to_dict; apply Hpos. }
  apply (bind_pass _ _ (holder_proof req)).
  { apply (parse_optional_round _ (fun p => JObj (holder.to_dict p))); [done|done|].
    intros p Hp. by apply holder_from_to_dict; apply Hhol. }
  by destruct req.
Qed.

Lemma parse_hops_typed i items cs :
  parse_hops i items = Ok cs -> Forall wf_credential cs /\ length cs = length items.
Proof.
  revert i cs. induction items as [|x items IH]; intros i cs; cbn [parse_hops].
  { intros [= <-]. by split. }
  intros (c & Hc & (rest & Hr & E)%bind_ok)%bind_ok. apply ok_inj in E as <-.
  apply IH in Hr as [Hr Hlen]. split; [|simpl; congruence]. constructor; [|done].
  destruct x; try done. apply try_except_raise_ok in Hc. by apply from_dict_sound in Hc as [? _].
Qed.

Lemma parse_hops_err i items e : parse_hops i items = Err e -> exn_class e = Some TransportError.
Proof.
  revert i. induction items as [|x items IH]; intros i; cbn [parse_hops]; [done|].
  intros [H|(c & _ & H)]%bind_err.
  - destruct x; try (by injection H as <-). unfold try_except in H.
    destruct (credential.from_dict _) as [?|e'] eqn:E; [done|].
    pose proof (from_dict_err _ _ E) as Hcls. destruct e' as [e'|]; [|done].
    injection Hcls as Hcls. unfold is_ca2a, subclass_of in H. rewrite Hcls in H. by injection H as <-.
  - apply bind_err in H as [H|(? & _ & H)]; [by eapply IH|done].
Qed.

Lemma parse_optional_ok {A : Type} (parse : json -> res A) key meta v :
  parse_optional parse key meta = Ok v -> v = None \/ exists w x, v = Some x /\ parse w = Ok x.
Proof.
  unfold parse_optional. intros H.
  destruct (mget key meta) as [| | | | | |]; [left; by injection H as <-|right..];
    apply fmap_ok in H as (x & Hx & ->); eauto.
Qed.
Lemma parse_optional_err {A : Type} (parse : json -> res A) key meta e :
  parse_optional parse key meta = Err e -> exists w, parse w = Err e.
Proof.
  unfold parse_optional. intros H. destruct (mget key meta); [done|..]; apply fmap_err in H; eauto.
Qed.

Lemma parse_possession_err v e : parse_possession v = Err e -> exn_class e = Some TransportError.
Proof.
  unfold parse_possession, try_except. destruct (possession_from_dict v) as [?|e'] eqn:E; [done|].
  assert (exn_class e' = Some AttestationFailed) as Hcls.
  { unfold possession_from_dict in E. destruct v; try (by injection E as <-).
    repeat (apply bind_err in E as [E|(? & _ & E)]; [by apply or_raise_err in E as [_ ->]|]). done. }
  destruct e' as [e'|]; [|done]. injection Hcls as Hcls. unfold is_ca2a, subclass_of. rewrite Hcls.
  by intros [= <-].
Qed.
Lemma parse_sealed_err v e : parse_sealed v = Err e -> exn_class e = Some TransportError.
Proof.
  unfold parse_sealed. destruct v; try (by intros [= <-]). apply b64url_decode_err.
Qed.
Lemma holder_from_dict_err v e : holder.from_dict v = Err e -> exn_class e = Some HolderProofInvalid.
Proof.
  unfold holder.from_dict. destruct v; try (by intros [= <-]). intros H.
  repeat (apply bind_err in H as [H|(? & _ & H)]; [by apply or_raise_err in H as [_ ->]|]). done.
Qed.

Lemma b64url_decode_nonempty f v b : b64url_decode f v = Ok b -> b <> [].
Proof.
  unfold b64url_decode. destruct v as [| | | |s| |]; try done. intros H. inv_ok.
  unfold urlsafe_b64decode in H. apply or_raise_ok in H. intros ->.
  apply negb_false_iff in Hs. unfold fullmatch_b64url in Hs. apply andb_true_iff in Hs as [Hs _].
  apply negb_true_iff, bool_decide_eq_false in Hs. destruct s as [|c s]; [done|]. simpl in H.
  destruct (b64_val c); [|done]. simpl in H. destruct (mapM b64_val s) as [vs|]; [|done]. simpl in H.
  destruct vs as [|v1 [|v2 [|v3 vs]]]; try done. by destruct (sextets vs).
Qed.
End parse_laws.

(** ** Properties *)
Section properties.
Context `{U : Unidata, T : ErrorText}.

(** The keys a request may leave out. *)
Definition OPTIONAL_KEYS : list pystr :=
  [KEY_SEALED_PAYLOAD; KEY_CALLER_OFFER; KEY_HOLDER_PROOF; KEY_CALLER_POSSESSION].

Lemma attached_lookup message req out :
  wf_json (JObj message) -> attach_ca2a_metadata message req = Ok out ->
  (forall k, k ∈ OPTIONAL_KEYS -> dget k (outer_metadata message) = None) ->
  forall k, k ∈ CA2A_METADATA_KEYS -> dget k (collect_metadata out None) = dget k (write_request req []).
Proof.
  intros Hwf Hatt Hfresh k Hk. destruct (collect_attached _ _ _ Hwf Hatt) as (meta & _ & _ & Hc).
  rewrite Hc. destruct (write_lookups req meta) as (L1 & L2 & L3 & L4 & L5 & L6 & L7 & L8).
  destruct (write_lookups req []) as (M1 & M2 & M3 & M4 & M5 & M6 & M7 & M8).
  unfold OPTIONAL_KEYS in Hfresh. unfold CA2A_METADATA_KEYS in Hk.
  apply elem_of_cons in Hk as [->|Hk]; [by rewrite L1, M1|].
  apply elem_of_cons in Hk as [->|Hk]; [by rewrite L2, M2|].
  apply elem_of_cons in Hk as [->|Hk]; [by rewrite L3, M3|].
  apply elem_of_cons in Hk as [->|Hk]; [by rewrite L4, M4|].
  apply elem_of_cons in Hk as [->|Hk].
  { rewrite L5, M5. destruct (sealed_payload req); [done|]. apply Hfresh. list_elem. }
  apply elem_of_cons in Hk as [->|Hk].
  { rewrite L6, M6. destruct (caller_offer req); [done|]. apply Hfresh. list_elem. }
  apply elem_of_cons in Hk as [->|Hk].
  { rewrite L7, M7. destruct (holder_proof req); [done|]. apply Hfresh. list_elem. }
  apply list_elem_of_singleton in Hk as ->.
  rewrite L8, M8. destruct (caller_possession req); [done|]. apply Hfresh. list_elem.
Qed.

(** C27: attach then parse gives the request back, for a bare message and for both
    JSON-RPC shapes, when the request is one the wire can carry and the envelope's
    own [params.metadata] does not already hold one of the optional cA2A keys; and
    every key that is not a cA2A key is collected as before. *)
Theorem attach_parse_round_trip message req out
    (Hwf : wf_json (JObj message)) (Hreq : wf_request req)
    (Hatt : attach_ca2a_metadata message req = Ok out)
    (Hfresh : forall k, k ∈ OPTIONAL_KEYS -> dget k (outer_metadata message) = None) :
  parse_peer_request out None = Ok (Some req) /\
  forall k, k ∉ CA2A_METADATA_KEYS ->
    dget k (collect_metadata out None) = dget k (collect_metadata message None).
Proof.
  split.
  - apply parse_written; [done|]. by apply (attached_lookup message).
  - intros k Hk. destruct (collect_attached _ _ _ Hwf Hatt) as (meta & _ & Hm & Hc).
    rewrite Hc, <-Hm. by rewrite write_other.
Qed.

(** C28: parsing is total and typed.  A message without cA2A keys is not a request;
    any other either raises TransportError or HolderProofInvalid, or yields a request
    with a non-empty chain of well-formed credentials, a non-empty capability and
    record id, and a non-empty payload if any. *)
Theorem parse_peer_request_typed message metadata :
  match parse_peer_request message metadata with
  | Ok None => has_ca2a_metadata (collect_metadata message metadata) = false
  | Ok (Some req) =>
      has_ca2a_metadata (collect_metadata message metadata) = true /\
      chain req <> [] /\ Forall wf_credential (chain req) /\ requested_capability req <> [] /\
      req_record_id req <> [] /\ sealed_payload req <> Some []
  | Err e =>
      has_ca2a_metadata (collect_metadata message metadata) = true /\
      (exn_class e = Some TransportError \/ exn_class e = Some HolderProofInvalid)
  end.
Proof.
  unfold parse_peer_request. set (meta := collect_metadata message metadata). clearbody meta.
  destruct (has_ca2a_metadata meta) eqn:Hhas; cbn [negb]; [|done].
  destruct (raise_if _ _ ≫= _) as [o|e] eqn:E.
  - inv_ok. split; [done|]. cbn [chain requested_capability req_record_id sealed_payload].
    match goal with H : parse_hops _ _ = Ok _ |- _ => apply parse_hops_typed in H as [Hwf Hlen] end.
    repeat match goal with H : nonempty_str _ = Some _ |- _ => apply nonempty_str_Some in H as [_ H] end.
    split_and!; try done.
    + intros ->. destruct (mget KEY_DELEGATION_CHAIN meta) as [| | | | |[|x l]|]; try done.
      match goal with H : Some _ = Some _ |- _ => injection H as <- end. done.
    + intros ->.
      match goal with H : parse_optional parse_sealed _ _ = Ok _ |- _ => rename H into Hsealed end.
      apply parse_optional_ok in Hsealed as [?|(w & x & [= <-] & Hx)]; [done|].
      destruct w as [| | | |s| |]; try done. by apply (b64url_decode_nonempty (py "sealed_payload") (JStr s)) in Hx.
  - split; [done|]. cbv zeta in E.
    repeat first
      [ apply bind_err in E as [E|(? & _ & E)];
        [ first [ by apply raise_if_err in E as [_ ->]; left
                | by apply or_raise_err in E as [_ ->]; left
                | left; exact (parse_hops_err _ _ _ E)
                | by unfold parse_parent in E; err_cases; left
                | apply parse_optional_err in E as [w E];
                  first [ left; exact (parse_sealed_err _ _ E) | left; exact (parse_offer_err _ _ E)
                        | left; exact (parse_possession_err _ _ E)
                        | right; exact (holder_from_dict_err _ _ E) ] ] |] ].
    done.
Qed.

(** The envelope's [params.metadata] is read but not written: a stale optional key
    there survives attaching, so the message parses as a request with a payload the
    sender did not attach. *)
Definition stale_message (payload : pystr) : dict :=
  [(py "params", JObj [(py "metadata", JObj [(KEY_SEALED_PAYLOAD, JStr payload)]);
                       (py "message", JObj [])])].
Theorem attach_keeps_stale_payload req payload bs
    (Hpay : b64url_decode (py "sealed_payload") (JStr payload) = Ok bs)
    (Hnone : sealed_payload req = None) :
  exists out, attach_ca2a_metadata (stale_message payload) req = Ok out /\
    forall r, parse_peer_request out None = Ok (Some r) -> sealed_payload r = Some bs.
Proof.
  assert (wf_json (JObj (stale_message payload))) as Hwf.
  { unfold stale_message. repeat (split || apply NoDup_singleton || apply NoDup_cons_2 || apply NoDup_nil_2);
      try done; csimpl; rewrite ?elem_of_cons, ?elem_of_nil; intros H; by destruct_or? H. }
  eexists. split; [reflexivity|]. intros r Hr.
  match type of Hr with parse_peer_request ?o _ = _ => set (out := o) in * end.
  destruct (collect_attached (stale_message payload) req out Hwf eq_refl) as (meta & _ & _ & Hc).
  specialize (Hc KEY_SEALED_PAYLOAD).
  destruct (write_lookups req meta) as (_ & _ & _ & _ & L5 & _). rewrite L5, Hnone in Hc.
  assert (dget KEY_SEALED_PAYLOAD (outer_metadata (stale_message payload)) = Some (JStr payload)) as Ho.
  { unfold outer_metadata, stale_message, get_dict. dlookup. cbn [default from_option id].
    dlookup. simpl. by rewrite bool_decide_true. }
  cbn [fmap option_fmap option_map] in Hc. rewrite Ho in Hc. clearbody out. unfold parse_peer_request in Hr.
  set (m := collect_metadata out None) in *. clearbody m.
  destruct (has_ca2a_metadata m); cbn [negb] in Hr; [|done]. inv_ok. cbn [sealed_payload].
  match goal with H : parse_optional parse_sealed _ _ = Ok _ |- _ => rename H into Hsealed end.
  unfold parse_optional in Hsealed. rewrite (mget_Some _ _ _ Hc) in Hsealed.
  apply fmap_ok in Hsealed as (x & Hx & ->). cbn [parse_sealed] in Hx. f_equal. congruence.
Qed.
End properties.

(** ** A concrete message *)
Module AdapterExample.
Import AsciiOnly Toy ChainExample PeerExample.
#[export] Instance error_text : ErrorText := {| type_error_text := fun _ => py "unsupported operand" |}.

Definition message : dict :=
  [(py "role", JStr (py "user")); (py "metadata", JObj [(py "trace", JInt 1)])].
Definition out : dict := get_ok [] (attach_ca2a_metadata message plain).
Lemma attached : attach_ca2a_metadata message plain = Ok out.
Proof. apply get_ok_spec. vm_compute. reflexivity. Qed.
Lemma message_wf : wf_json (JObj message).
Proof.
  apply wf_json_obj. split; [apply (bool_decide_unpack _); vm_compute; exact I|].
  repeat constructor. by intros ?%not_elem_of_nil.
Qed.
Lemma root_wire : credential.from_dict (JObj (_credential_to_dict root)) = Ok root.
Proof. by_decision. Qed.
Lemma leaf_wire : credential.from_dict (JObj (_credential_to_dict leaf)) = Ok leaf.
Proof. by_decision. Qed.
#[local] Opaque root leaf out.
Lemma plain_wf : wf_request plain.
Proof.
  split.
  - split; [discriminate|]. constructor; [exact (proj1 (from_dict_sound _ _ root_wire))|].
    constructor; [exact (proj1 (from_dict_sound _ _ leaf_wire))|constructor].
  - discriminate.
  - discriminate.
  - discriminate.
  - intros ? [=].
  - intros ? [=].
  - intros ? [=].
Qed.
Lemma message_fresh : forall k, k ∈ OPTIONAL_KEYS -> dget k (outer_metadata message) = None.
Proof. intros k _. reflexivity. Qed.

Lemma attach_parse_round_trip_witness : parse_peer_request out None = Ok (Some plain).
Proof.
  exact (proj1 (attach_parse_round_trip message plain out message_wf plain_wf attached message_fresh)).
Defined.
End AdapterExample.
