(* ===== verification/Response.v ===== *)
(** * Authenticated responses ([ca2a_runtime.response])

    A one-use MAC over the response to one request, keyed from X25519 between the
    callee's attested key and a key the caller draws for the call.  Time is Python's
    float, an interface; the caller's clock is read at each deadline check and a
    reading may raise. *)
From S2P Require Export Adapter.
Import attestation sealed.

(** Python floats as the deadline uses them. *)
Class FloatTime := {
  time : Type;
  isfinite : time -> bool;
  fle : time -> time -> bool;
  flt : time -> time -> bool;
  fadd : time -> time -> time;
  f0 : time;
  f300 : time
}.

Module response.

Definition PROFILE : pystr := py "ca2a-response-mac-v1".
Definition MAX_BYTES : N := 1048576.
Definition _REQUEST_FIELDS : gset pystr :=
  keys_of ["profile"; "peer"; "recipient"; "session"; "request"]%string.
Definition _RESPONSE_FIELDS : gset pystr :=
  keys_of ["profile"; "request_sha256"; "status"; "kind"; "body"; "mac"]%string.

Definition _fail : exn :=
  err ResponseAuthenticationFailed (py "response authentication failed; execution outcome is unknown").

(** [object_pairs_hook=_object]: a repeated key is refused. *)
Fixpoint object_pairs (result : dict) (pairs : list (pystr * json)) : res json :=
  match pairs with
  | [] => Ok (JObj result)
  | (key, value) :: pairs =>
      raise_if (din key result) _fail;;
      object_pairs (dset key value result) pairs
  end.
Definition _object (pairs : list (pystr * json)) : res json := object_pairs [] pairs.

(** [encode]'s inner [check(item, depth)]. *)
Fixpoint check (item : json) (depth : N) : res unit :=
  raise_if (64 <? depth)%N _fail;;
  match item with
  | JObj kvs =>
      (fix go (kvs : dict) : res unit :=
         match kvs with [] => Ok tt | kv :: kvs => check kv.2 (depth + 1);; go kvs end) kvs
  | JArr l =>
      (fix go (l : list json) : res unit :=
         match l with [] => Ok tt | child :: l => check child (depth + 1);; go l end) l
  | _ => Ok tt
  end.

Definition is_encode_error (e : exn) : bool :=
  is_py TypeError e || is_value_error e || is_py RecursionError e.

Definition encode (value : dict) : res bytes :=
  try_except
    (check (JObj value) 0;;
     raw ← canonicalize (JObj value);
     raise_if (MAX_BYTES <? N.of_nat (length raw))%N _fail;;
     Ok raw)
    is_encode_error (fun _ => Err _fail).

Section decode.
Context `{F : FloatText}.

Definition decode (raw : bytes) : res dict :=
  raise_if (MAX_BYTES <? N.of_nat (length raw))%N _fail;;
  try_except
    (text ← or_raise (utf8_decode raw) (PyExc UnicodeDecodeError (py "invalid utf-8"));
     value ← loads_hook _object text;
     match value with
     | JObj d => encode d;; Ok d
     | _ => Err _fail
     end)
    (fun e => is_value_error e || is_py RecursionError e) (fun _ => Err _fail).
End decode.

Definition _hex (value : json) (length_ : nat) : res bytes :=
  match value with
  | JStr s =>
      raise_if (negb (Nat.eqb (length s) (length_ * 2))) _fail;;
      raw ← try_except (value_error (fromhex s)) is_value_error (fun _ => Err _fail);
      raise_if (negb (Nat.eqb (length raw) length_) || negb (bool_decide (hex raw = s))) _fail;;
      Ok raw
  | _ => Err _fail
  end.

Definition KEY_INFO : bytes := ascii_bytes "ca2a/response-mac/v1/key".
Definition STATEMENT_LABEL : bytes := ascii_bytes "ca2a/response-mac/v1/statement" ++ [x00].

Section keys.
Context `{C : Crypto}.

Definition _key (private : x_priv) (public : json) (request_hash : pystr) : res bytes :=
  shared ← try_except
    (raw ← _hex public 32;
     value_error (x_load_public raw);;
     value_error (x_exchange private raw))
    is_value_error (fun _ => Err _fail);
  salt ← value_error (fromhex request_hash);
  Ok (hkdf_sha256 (Some salt) KEY_INFO shared).

Definition _mac (key : bytes) (statement : dict) : res pystr :=
  message ← encode statement;
  Ok (hex (hmac_sha256 key (STATEMENT_LABEL ++ message))).
End keys.

Record VerifiedResponse := {
  vr_status : Z;
  vr_body : dict;
  vr_request_sha256 : pystr;
  vr_peer_assurance : pystr
}.
#[export] Instance verified_response_eq_dec : EqDecision VerifiedResponse.
Proof. solve_decision. Defined.
Definition authentication (r : VerifiedResponse) : dict :=
  [(py "profile", JStr PROFILE); (py "peer_assurance", JStr (vr_peer_assurance r));
   (py "request_sha256", JStr (vr_request_sha256 r)); (py "audience", JStr (py "live-caller-only"))].

(** [AuthenticatedPeerError(response)]: an authenticated denial, as an error value. *)
Record AuthenticatedPeerError := {
  ape_message : pystr;
  ape_code : pystr;
  ape_http_status : Z;
  ape_authentication : dict
}.
Definition authenticated_peer_error `{U : Unidata} (r : VerifiedResponse) : res AuthenticatedPeerError :=
  error ← or_raise (dget (py "error") (vr_body r)) (PyExc KeyError (py "'error'"));
  match error with
  | JObj error =>
      Ok {| ape_message := str_of (default (JStr (py "peer denial")) (dget (py "message") error));
            ape_code := str_of (default (JStr (py "PEER_DENIAL")) (dget (py "code") error));
            ape_http_status := vr_status r;
            ape_authentication := authentication r |}
  | _ => Err (no_attribute error "get")
  end.

(** ** The callee's side *)
Section producer.
Context `{C : Crypto, F : FloatText}.

Record ResponseProducer := {
  envelope : dict;
  prod_request_sha256 : pystr;
  prod_key : bytes
}.

Definition is_dict (v : json) : bool := match v with JObj _ => true | _ => false end.

Definition new_producer (private : x_priv) (envelope : dict) : res ResponseProducer :=
  raw ← encode envelope;
  envelope ← decode raw;
  raise_if (negb (bool_decide (dkeys envelope = _REQUEST_FIELDS))
            || negb (bool_decide (field "profile" envelope = JStr PROFILE))) _fail;;
  let peer := x_public_hex private in
  raise_if (negb (bool_decide (field "peer" envelope = JStr peer))
            || negb (is_dict (field "request" envelope))) _fail;;
  _hex (field "session" envelope) 32;;
  raw ← encode envelope;
  let request_sha256 := sha256_hex raw in
  key ← _key private (field "recipient" envelope) request_sha256;
  Ok {| envelope := envelope; prod_request_sha256 := request_sha256; prod_key := key |}.

Definition kind_of (status : Z) : pystr :=
  if (status =? 200)%Z then py "provenance" else py "denial".

Definition statement_of (request_sha256 : pystr) (status : Z) (body : dict) : dict :=
  [(py "profile", JStr PROFILE); (py "request_sha256", JStr request_sha256);
   (py "status", JInt status); (py "kind", JStr (kind_of status)); (py "body", JObj body)].

Definition finish (p : ResponseProducer) (status : Z) (body : dict) : res dict :=
  let statement := statement_of (prod_request_sha256 p) status body in
  mac ← _mac (prod_key p) statement;
  let result := dset (py "mac") (JStr mac) statement in
  encode result;;
  Ok result.
End producer.

(** ** The caller's side *)
Section pending.
Context `{C : Crypto, F : FloatText, T : FloatTime}.

Record PendingResponse := {
  _request : bytes;
  request_sha256 : pystr;
  pending_key : bytes;
  _assurance : pystr;
  _started : time;
  _deadline : time;
  _used : bool
}.

(** [__init__], with the generated key, the session token and the first clock reading. *)
Definition new_pending (peer : VerifiedPeer) (message : dict) (timeout : time)
    (private : x_priv) (session : pystr) (clock : res time) : res PendingResponse :=
  raise_if (negb (isfinite timeout) || negb (flt f0 timeout && fle timeout f300))
    (PyExc ValueError (py "response timeout must be finite and in (0, 300]"));;
  request ← encode [(py "profile", JStr PROFILE); (py "peer", JStr (peer_key peer));
                    (py "recipient", JStr (x_public_hex private)); (py "session", JStr session);
                    (py "request", JObj message)];
  let request_sha256 := sha256_hex request in
  key ← _key private (JStr (peer_key peer)) request_sha256;
  started ← clock;
  raise_if (negb (isfinite started)) (PyExc ValueError (py "response clock must be finite"));;
  Ok {| _request := request; request_sha256 := request_sha256; pending_key := key;
        _assurance := assurance peer; _started := started;
        _deadline := fadd started timeout; _used := false |}.

Definition _check_deadline (p : PendingResponse) (clock : res time) : res unit :=
  try_except
    (now ← clock;
     raise_if (negb (isfinite now) || negb (fle (_started p) now && flt now (_deadline p))) _fail)
    (fun _ => true) (fun _ => Err _fail).

Definition consumed (p : PendingResponse) : PendingResponse :=
  {| _request := _request p; request_sha256 := request_sha256 p; pending_key := [];
     _assurance := _assurance p; _started := _started p; _deadline := _deadline p; _used := true |}.

(** The body of [verify]'s [try]; the two readings are its two deadline checks'. *)
Definition verify_envelope (p : PendingResponse) (status : Z) (raw : bytes)
    (clock1 clock2 : res time) : res VerifiedResponse :=
  _check_deadline p clock1;;
  envelope ← decode raw;
  raise_if (negb (bool_decide (dkeys envelope = _RESPONSE_FIELDS))) _fail;;
  let mac := field "mac" envelope in
  let envelope := dpop (py "mac") envelope in
  _hex mac 32;;
  raise_if (negb (bool_decide (field "profile" envelope = JStr PROFILE))
            || negb (bool_decide (field "request_sha256" envelope = JStr (request_sha256 p)))
            || negb (bool_decide (field "status" envelope = JInt status))
            || negb ((status =? 200)%Z || ((400 <=? status)%Z && (status <=? 599)%Z))) _fail;;
  expected ← _mac (pending_key p) envelope;
  raise_if (negb (bool_decide (mac = JStr expected))) _fail;;
  body ← or_raise (match field "body" envelope with JObj b => Some b | _ => None end) _fail;
  raise_if (negb (bool_decide (field "kind" envelope = JStr (kind_of status)))) _fail;;
  raise_if ((status =? 200)%Z && negb (bool_decide (dget (py "accepted") body = Some (JBool true)))) _fail;;
  raise_if (negb (status =? 200)%Z && negb (is_dict (field "error" body))) _fail;;
  _check_deadline p clock2;;
  Ok {| vr_status := status; vr_body := body; vr_request_sha256 := request_sha256 p;
        vr_peer_assurance := _assurance p |}.

(** [verify]: the occurrence is consumed whatever happens. *)
Definition verify (p : PendingResponse) (status : Z) (raw : bytes) (clock1 clock2 : res time) :
    PendingResponse * res VerifiedResponse :=
  if _used p then (p, Err _fail)
  else
    (consumed p,
     try_except (verify_envelope p status raw clock1 clock2)
       (fun e => is_value_error e || is_py TypeError e || is_os_error e)
       (fun _ => Err _fail)).
End pending.

End response.
Import response.

(** ** Codec *)
Section codec_laws.

Lemma object_pairs_ok acc pairs v :
  NoDup acc.*1 -> object_pairs acc pairs = Ok v -> v = JObj (acc ++ pairs) /\ NoDup (acc ++ pairs).*1.
Proof.
  revert acc. induction pairs as [|[k x] pairs IH]; intros acc Hnd; simpl.
  { intros [= <-]. by rewrite app_nil_r. }
  intros ([] & Hk%raise_if_ok & H)%bind_ok.
  assert (dset k x acc = acc ++ [(k, x)]) as E.
  { pose proof (din_false_not_elem _ _ Hk) as Hn. clear -Hn.
    induction acc as [|[k1 v1] acc IH]; [done|]. csimpl in *.
    apply not_elem_of_cons in Hn as [? Hn].
    rewrite bool_decide_false by congruence. by rewrite IH. }
  apply IH in H as [-> Hnd']; [|by apply dset_NoDup].
  rewrite E, <-app_assoc in *. by split.
Qed.

Lemma object_pairs_complete acc pairs :
  NoDup (acc ++ pairs).*1 -> object_pairs acc pairs = Ok (JObj (acc ++ pairs)).
Proof.
  revert acc. induction pairs as [|[k x] pairs IH]; intros acc Hnd; simpl; [by rewrite app_nil_r|].
  assert (k ∉ acc.*1) as Hk.
  { rewrite fmap_app in Hnd. apply NoDup_app in Hnd as (_ & Hd & _). intros Hin.
    apply (Hd k Hin). by left. }
  assert (din k acc = false) as ->.
  { unfold din. destruct (dget k acc) eqn:E; [|done]. apply dget_Some_elem in E.
    destruct Hk. by apply (list_elem_of_fmap_2 fst) in E. }
  simpl. assert (dset k x acc = acc ++ [(k, x)]) as ->.
  { clear -Hk. induction acc as [|[k1 v1] acc IH]; [done|]. csimpl in *.
    apply not_elem_of_cons in Hk as [? Hk].
    rewrite bool_decide_false by congruence. by rewrite IH. }
  rewrite IH; rewrite <-app_assoc; done.
Qed.

Lemma _object_complete kvs : NoDup kvs.*1 -> _object kvs = Ok (JObj kvs).
Proof. apply (object_pairs_complete []). Qed.

Lemma check_obj_ok kvs n :
  check (JObj kvs) n = Ok tt <-> (n <= 64)%N /\ Forall (fun kv => check kv.2 (n + 1) = Ok tt) kvs.
Proof.
  cbn [check]. rewrite seq_ok, (ok_unit (n <= 64)%N) by (intros u; rewrite raise_if_ok; apply N.ltb_ge).
  f_equiv. induction kvs as [|kv kvs IH]; [by split|]. rewrite Forall_cons, <-IH, seq_ok.
  f_equiv. split; [by intros [[] ?]|eauto].
Qed.
Lemma check_arr_ok l n :
  check (JArr l) n = Ok tt <-> (n <= 64)%N /\ Forall (fun x => check x (n + 1) = Ok tt) l.
Proof.
  cbn [check]. rewrite seq_ok, (ok_unit (n <= 64)%N) by (intros u; rewrite raise_if_ok; apply N.ltb_ge).
  f_equiv. induction l as [|x l IH]; [by split|]. rewrite Forall_cons, <-IH, seq_ok.
  f_equiv. split; [by intros [[] ?]|eauto].
Qed.

Lemma check_norm v n : check (norm v) n = Ok tt <-> check v n = Ok tt.
Proof.
  revert n. induction v as [| | | | |l IH|kvs IH] using json_ind_strong; intros n; try done.
  - cbn [norm]. rewrite !check_arr_ok, Forall_map. f_equiv.
    induction IH as [|x l Hx _ IHl]; [by split|]. rewrite !Forall_cons, IHl. f_equiv. apply Hx.
  - rewrite norm_obj, !check_obj_ok, sort_by_perm, Forall_map. f_equiv.
    induction IH as [|kv kvs Hx _ IHl]; [by split|]. rewrite !Forall_cons, IHl. f_equiv. apply Hx.
Qed.

Lemma encode_ok d raw :
  encode d = Ok raw <->
  check (JObj d) 0 = Ok tt /\ canonicalize (JObj d) = Ok raw /\ (N.of_nat (length raw) <= MAX_BYTES)%N.
Proof.
  unfold encode. rewrite try_except_raise_ok. split.
  - intros H. inv_ok. repeat match goal with u : unit |- _ => destruct u end.
    split_and!; [done|done|by apply N.ltb_ge].
  - intros (H1 & H2 & H3). apply (bind_pass _ _ tt); [done|]. apply (bind_pass _ _ raw); [done|].
    apply guard_pass; [by apply N.ltb_ge|done].
Qed.

(** The object whose keys are sorted throughout. *)
Definition norm_dict (d : dict) : dict :=
  sort_by (fun kv => key16 kv.1) (map (fun kv => (kv.1, norm kv.2)) d).
Lemma norm_dict_obj d : norm (JObj d) = JObj (norm_dict d).
Proof. reflexivity. Qed.
Lemma norm_dict_perm d : norm_dict d ≡ₚ map (fun kv => (kv.1, norm kv.2)) d.
Proof. apply sort_by_perm. Qed.

Lemma norm_dict_NoDup (d : dict) : NoDup d.*1 -> NoDup (norm_dict d).*1.
Proof. intros. unfold norm_dict. rewrite sort_by_perm. by rewrite map_norm_keys. Qed.

Lemma dget_norm_dict k (d : dict) : NoDup d.*1 -> dget k (norm_dict d) = norm <$> dget k d.
Proof.
  intros Hnd. rewrite (dget_perm k _ (map (fun kv => (kv.1, norm kv.2)) d)).
  - clear Hnd. induction d as [|[k1 v1] d IH]; simpl; [done|]. by case_bool_decide.
  - by apply norm_dict_NoDup.
  - apply norm_dict_perm.
Qed.

Lemma dkeys_norm_dict (d : dict) : NoDup d.*1 -> dkeys (norm_dict d) = dkeys d.
Proof.
  intros Hnd. apply dkeys_eq. intros k. rewrite dget_norm_dict by done. apply fmap_is_Some.
Qed.

Lemma encode_norm d raw :
  wf_json (JObj d) -> encode d = Ok raw -> encode (norm_dict d) = Ok raw.
Proof.
  intros Hwf. rewrite !encode_ok, <-norm_dict_obj, check_norm. intros (? & Hc & ?). split_and!; try done.
  by apply (canonicalize_equiv (JObj d)); [apply json_equiv_norm|..].
Qed.

Lemma decode_encode `{F : FloatText} d raw :
  wf_json (JObj d) -> encode d = Ok raw -> decode raw = Ok (norm_dict d).
Proof.
  intros Hwf He. pose proof (encode_norm _ _ Hwf He) as Hn. apply encode_ok in He as (_ & Hc & Hl).
  apply canonicalize_ok in Hc as (s & Hs & Hu). unfold decode.
  apply guard_pass; [by apply N.ltb_ge|]. apply try_except_raise_ok.
  apply (bind_pass _ _ s); [by rewrite (utf8_decode_encode _ _ Hu)|].
  apply (bind_pass _ _ (norm (JObj d))).
  { apply loads_hook_serialize; [|done..]. intros kvs Hk. by apply _object_complete. }
  rewrite norm_dict_obj. by apply (bind_pass _ _ raw).
Qed.

(** The only error of the codec. *)
Lemma check_err v n e : check v n = Err e -> e = _fail.
Proof.
  revert n e. induction v as [| | | | |l IH|kvs IH] using json_ind_strong; intros n e; cbn [check];
    intros [H|([] & _ & H)]%bind_err; try (by apply raise_if_err in H as [_ ->]); try done.
  - induction IH as [|x l Hx _ IHl]; [done|]. apply bind_err in H as [H|(? & _ & H)]; eauto.
  - induction IH as [|kv kvs Hx _ IHl]; [done|]. apply bind_err in H as [H|(? & _ & H)]; eauto.
Qed.

Lemma canonicalize_caught v e : canonicalize v = Err e -> is_encode_error e = true \/ e = _fail.
Proof.
  intros He. destruct (no_float v) eqn:Hn.
  - left. unfold is_encode_error. rewrite (canonicalize_value_error _ _ Hn He). by rewrite orb_true_r.
  - left. assert (is_py TypeError e = true \/ is_value_error e = true) as [H|H];
      [|unfold is_encode_error; by rewrite H|unfold is_encode_error; by rewrite H, orb_true_r].
    by apply canonicalize_error_kind in He.
Qed.
Lemma encode_err d e : encode d = Err e -> e = _fail.
Proof.
  unfold encode, try_except. intros H. case_match eqn:E; [done|].
  assert (is_encode_error e0 = true \/ e0 = _fail) as Hk.
  { apply bind_err in E as [E|(? & _ & E)]; [right; by eapply check_err|].
    apply bind_err in E as [E|(? & _ & E)]; [by eapply canonicalize_caught|].
    apply bind_err in E as [E|(? & _ & E)]; [right; by apply raise_if_err in E as [_ ->]|done]. }
  destruct Hk as [Hk| ->]; [rewrite Hk in H|simpl in H]; by injection H as <-.
Qed.
End codec_laws.

(** ** Keys, errors *)
Section key_laws.
Context `{C : Crypto, F : FloatText, T : FloatTime}.

Lemma _hex_ok v n b : _hex v n = Ok b <-> v = JStr (hex b) /\ length b = n.
Proof.
  unfold _hex. split.
  - destruct v as [| | | |s| |]; try done. intros H. inv_ok. bool_to_prop.
    match goal with H : Nat.eqb (length b) n = true |- _ => apply Nat.eqb_eq in H end.
    split; [congruence|done].
  - intros [-> <-]. apply guard_pass; [rewrite length_hex, Nat.mul_comm, Nat.eqb_refl; done|].
    apply (bind_pass _ _ b); [by rewrite fromhex_hex|].
    apply guard_pass; [by rewrite Nat.eqb_refl, bool_decide_true|done].
Qed.

Lemma _hex_err v n e : _hex v n = Err e -> e = _fail.
Proof.
  unfold _hex. destruct v as [| | | |s| |]; try (by intros [= <-]).
  intros [H|(? & _ & H)]%bind_err; [by apply raise_if_err in H as [_ ->]|].
  apply bind_err in H as [H|(? & _ & H)].
  - destruct (fromhex s); [done|]. by injection H as <-.
  - apply bind_err in H as [H|(? & _ & H)]; [by apply raise_if_err in H as [_ ->]|done].
Qed.

Lemma response_mac_ok key d m :
  _mac key d = Ok m <->
  exists message, encode d = Ok message /\ m = hex (hmac_sha256 key (STATEMENT_LABEL ++ message)).
Proof.
  unfold _mac. rewrite bind_ok. split; intros (x & Hx & H); exists x; (split; [done|]).
  - by apply ok_inj in H.
  - by subst.
Qed.
Lemma _mac_err key d e : _mac key d = Err e -> e = _fail.
Proof. unfold _mac. intros [H|(? & _ & H)]%bind_err; [by apply encode_err in H|done]. Qed.

(** The session key: the shared secret under the request's digest. *)
Lemma _key_ok `{!CryptoLaws C} private other request shared :
  x_exchange private (x_public other) = Ok shared ->
  _key private (JStr (x_public_hex other)) (sha256_hex request) =
  Ok (hkdf_sha256 (Some (sha256 request)) KEY_INFO shared).
Proof.
  intros Hx. unfold _key. apply (bind_pass _ _ shared).
  - apply try_except_raise_ok. apply (bind_pass _ _ (x_public other)).
    { apply _hex_ok. split; [done|apply x_public_length]. }
    apply (bind_pass _ _ tt); [by rewrite x_load_public_ok by apply x_public_length|].
    by rewrite Hx.
  - unfold sha256_hex. by rewrite fromhex_hex.
Qed.

Lemma check_deadline_ok p clock u :
  _check_deadline p clock = Ok u <->
  exists now, clock = Ok now /\ isfinite now = true /\ fle (_started p) now = true /\
    flt now (_deadline p) = true.
Proof.
  unfold _check_deadline. rewrite try_except_raise_ok, bind_ok. setoid_rewrite raise_if_ok.
  f_equiv. intros now. split; [intros [? H]; bool_to_prop; auto|].
  intros (-> & -> & -> & ->). done.
Qed.
Lemma check_deadline_err p clock e : _check_deadline p clock = Err e -> e = _fail.
Proof. unfold _check_deadline, try_except. case_match; [done|]. by intros [= <-]. Qed.

Lemma parse_number_err s e : parse_number s = Err e -> is_value_error e = true.
Proof.
  unfold parse_number. intros H. destruct (match s with [] => (false, s) | _ => _ end) as [neg s1].
  destruct (scan_int_part s1) as [[ds r']|]; [|by injection H as <-].
  destruct (scan_frac r') as [fr r1], (scan_exp r1) as [ex r2]. destruct (fr ++ ex); [|done].
  destruct (Nat.ltb _ _); [by injection H as <-|done].
Qed.
Lemma parse_literal_err s e : parse_literal s = Err e -> is_value_error e = true.
Proof. unfold parse_literal. intros H. repeat (case_match; try done). by eapply parse_number_err. Qed.

(** Any failure of [decode] is the one error. *)
Lemma parse_value_err fuel :
  (forall s e, parse_value _object fuel s = Err e ->
     is_value_error e = true \/ is_py RecursionError e = true \/ e = _fail) /\
  (forall s e, parse_members _object fuel s = Err e ->
     is_value_error e = true \/ is_py RecursionError e = true \/ e = _fail) /\
  (forall s e, parse_elements _object fuel s = Err e ->
     is_value_error e = true \/ is_py RecursionError e = true \/ e = _fail).
Proof.
  assert (forall acc kvs e, object_pairs acc kvs = Err e -> e = _fail) as Hobj.
  { intros acc kvs e. revert acc. induction kvs as [|[k x] kvs IH]; intros acc; [done|].
    intros [H|(? & _ & H)]%bind_err; [by apply raise_if_err in H as [_ ->]|by eapply IH]. }
  induction fuel as [|fuel (IHv & IHm & IHe)].
  { split_and!; intros s e; cbn; intros [= <-]; auto. }
  split_and!; intros s e.
  - cbn [parse_value]. destruct s as [|c r]; [intros [= <-]; auto|].
    destruct (c =? 34)%N.
    { intros [H|([] & _ & H)]%bind_err; [apply or_raise_err in H as [_ ->]; auto|done]. }
    destruct (c =? 123)%N.
    { destruct (skip_ws r) as [|c1 r1]; [intros [= <-]; auto|]. destruct (c1 =? 125)%N; [done|].
      intros [H|([kvs rest] & _ & H)]%bind_err; [by eapply IHm|].
      apply bind_err in H as [H|(? & _ & H)]; [right; right; by eapply Hobj|done]. }
    destruct (c =? 91)%N.
    { destruct (skip_ws r) as [|c1 r1]; [intros [= <-]; auto|]. destruct (c1 =? 93)%N; [done|].
      intros [H|([] & _ & H)]%bind_err; [by eapply IHe|done]. }
    intros H%parse_literal_err. auto.
  - cbn [parse_members]. intros [H|(r & _ & H)]%bind_err.
    { unfold expect in H. repeat case_match; simplify_eq; auto. }
    apply bind_err in H as [H|([k r1] & _ & H)]; [apply or_raise_err in H as [_ ->]; auto|].
    apply bind_err in H as [H|(r2 & _ & H)].
    { unfold expect in H. repeat case_match; simplify_eq; auto. }
    apply bind_err in H as [H|([v r3] & _ & H)]; [by eapply IHv|].
    destruct (skip_ws r3) as [|c r4]; [injection H as <-; auto|]. destruct (c =? 125)%N; [done|].
    destruct (c =? 44)%N; [|injection H as <-; auto].
    apply bind_err in H as [H|([] & _ & H)]; [by eapply IHm|done].
  - cbn [parse_elements]. intros [H|([v r3] & _ & H)]%bind_err; [by eapply IHv|].
    destruct (skip_ws r3) as [|c r4]; [injection H as <-; auto|]. destruct (c =? 93)%N; [done|].
    destruct (c =? 44)%N; [|injection H as <-; auto].
    apply bind_err in H as [H|([] & _ & H)]; [by eapply IHe|done].
Qed.

Lemma decode_err raw e : decode raw = Err e -> e = _fail.
Proof.
  unfold decode. intros [H|(? & _ & H)]%bind_err; [by apply raise_if_err in H as [_ ->]|].
  unfold try_except in H. case_match eqn:E; [done|].
  assert (is_value_error e0 = true \/ is_py RecursionError e0 = true \/ e0 = _fail) as Hk.
  { apply bind_err in E as [E|(s & _ & E)]; [apply or_raise_err in E as [_ ->]; auto|].
    apply bind_err in E as [E|(v & _ & E)].
    - unfold loads_hook in E. apply bind_err in E as [E|([v r] & _ & E)].
      + exact (proj1 (parse_value_err (S (length s))) _ _ E).
      + destruct (skip_ws r); [done|]. injection E as <-. auto.
    - destruct v; try (by injection E as <-; auto).
      apply bind_err in E as [E|(? & _ & E)]; [|done]. apply encode_err in E. auto. }
  destruct Hk as [Hk|[Hk| ->]].
  - rewrite Hk in H. by injection H as <-.
  - rewrite Hk, orb_true_r in H. by injection H as <-.
  - by injection H as <-.
Qed.

Lemma decode_ok raw d : decode raw = Ok d -> exists b, encode d = Ok b.
Proof.
  unfold decode. intros H. inv_ok.
  match goal with H : match ?v with _ => _ end = Ok _ |- _ => destruct v; try discriminate H end.
  inv_ok. eauto.
Qed.
End key_laws.

(** ** What is accepted *)
Section verify_laws.
Context `{C : Crypto, F : FloatText, T : FloatTime}.

Definition in_time (p : PendingResponse) (clock : res time) : Prop :=
  exists now, clock = Ok now /\ isfinite now = true /\ fle (_started p) now = true /\
    flt now (_deadline p) = true.
Definition known_status (status : Z) : Prop := status = 200%Z \/ (400 <= status <= 599)%Z.
(** A provenance body says it was accepted, a denial has an error object. *)
Definition body_shape (status : Z) (body : dict) : Prop :=
  if (status =? 200)%Z then dget (py "accepted") body = Some (JBool true)
  else is_dict (field "error" body) = true.

(** The statement a response makes, under the session key. *)
Definition authentic_response (p : PendingResponse) (status : Z) (raw : bytes) (body : dict) : Prop :=
  exists env mac,
    decode raw = Ok env /\ dkeys env = _RESPONSE_FIELDS /\
    field "mac" env = JStr mac /\ _mac (pending_key p) (dpop (py "mac") env) = Ok mac /\
    field "profile" env = JStr PROFILE /\ field "request_sha256" env = JStr (request_sha256 p) /\
    field "status" env = JInt status /\ field "kind" env = JStr (kind_of status) /\
    field "body" env = JObj body.

Definition response_of (p : PendingResponse) (status : Z) (body : dict) : VerifiedResponse :=
  {| vr_status := status; vr_body := body; vr_request_sha256 := request_sha256 p;
     vr_peer_assurance := _assurance p |}.

Lemma field_dpop k k' d : String.eqb k' k = false -> field k (dpop (py k') d) = field k d.
Proof.
  intros H. unfold field. rewrite dget_dpop. rewrite bool_decide_false; [done|].
  intros E%py_inj. by rewrite E, String.eqb_refl in H.
Qed.

Lemma status_guard status :
  negb ((status =? 200)%Z || ((400 <=? status)%Z && (status <=? 599)%Z)) = false <-> known_status status.
Proof.
  unfold known_status. rewrite negb_false_iff, orb_true_iff, andb_true_iff, Z.eqb_eq, !Z.leb_le. done.
Qed.

Lemma shape_guard status body :
  ((status =? 200)%Z && negb (bool_decide (dget (py "accepted") body = Some (JBool true))) = false /\
   negb (status =? 200)%Z && negb (is_dict (field "error" body)) = false) <-> body_shape status body.
Proof.
  unfold body_shape. destruct (status =? 200)%Z; simpl; rewrite negb_false_iff;
    rewrite ?bool_decide_eq_true; tauto.
Qed.

Lemma verify_envelope_ok p status raw clock1 clock2 r :
  verify_envelope p status raw clock1 clock2 = Ok r <->
  in_time p clock1 /\ in_time p clock2 /\ known_status status /\
  exists body, authentic_response p status raw body /\ body_shape status body /\
    r = response_of p status body.
Proof.
  unfold verify_envelope, authentic_response. split.
  - intros ([] & Hc1%check_deadline_ok & (env & Hd & ([] & Hk%guard_ok & H)%bind_ok)%bind_ok)%bind_ok.
    rewrite !field_dpop in H by done.
    apply bind_ok in H as (m & Hm & H). apply bind_ok in H as ([] & Hg & H).
    apply bind_ok in H as (mac & Hmac & H). apply bind_ok in H as ([] & Heq%guard_ok & H).
    apply bind_ok in H as (body & Hb%or_raise_ok & H). apply bind_ok in H as ([] & Hkind%guard_ok & H).
    apply bind_ok in H as ([] & Hs1%raise_if_ok & H). apply bind_ok in H as ([] & Hs2%raise_if_ok & H).
    apply bind_ok in H as ([] & Hc2%check_deadline_ok & H). apply ok_inj in H as <-.
    apply raise_if_ok in Hg. apply orb_false_iff in Hg as [Hg Hst]. apply status_guard in Hst.
    pose proof (proj1 (shape_guard _ _) (conj Hs1 Hs2)) as Hshape. clear Hs1 Hs2.
    bool_to_prop. split; [done|]. split; [done|]. split; [done|].
    exists body. split; [|split; done].
    exists env, mac. split_and!; try done.
    destruct (field "body" env); try done. congruence.
  - intros (Hc1 & Hc2 & Hst & body & (env & mac & Hd & Hk & Hfm & Hmac & Hp & Hs & Hst' & Hkind & Hb) & Hsh & ->).
    apply shape_guard in Hsh as [Hs1 Hs2]. apply status_guard in Hst.
    apply (bind_pass _ _ tt); [by apply check_deadline_ok|].
    apply (bind_pass _ _ env); [done|]. apply (bind_pass _ _ tt); [by apply guard_ok|].
    cbv zeta. rewrite !field_dpop by done. rewrite Hfm, Hp, Hs, Hst', Hkind, Hb.
    pose proof (proj1 (response_mac_ok _ _ _) Hmac) as (msg & Hmsg & ->).
    apply (bind_pass _ _ (hmac_sha256 (pending_key p) (STATEMENT_LABEL ++ msg))).
    { apply _hex_ok. split; [done|apply length_hmac_sha256]. }
    apply guard_pass; [rewrite Hst, !bool_decide_true by done; done|].
    eapply bind_pass; [exact Hmac|]. apply guard_pass; [by rewrite bool_decide_true|].
    apply (bind_pass _ _ body); [done|]. apply guard_pass; [by rewrite bool_decide_true|].
    apply guard_pass; [done|]. apply guard_pass; [done|].
    by apply (bind_pass _ _ tt); [apply check_deadline_ok|].
Qed.

Lemma verify_envelope_err p status raw clock1 clock2 e :
  verify_envelope p status raw clock1 clock2 = Err e -> e = _fail.
Proof.
  unfold verify_envelope. intros H.
  repeat (apply bind_err in H as [H|(? & _ & H)];
    [first [exact (check_deadline_err _ _ _ H)|exact (decode_err _ _ H)|exact (_hex_err _ _ _ H)
           |exact (_mac_err _ _ _ H)|by apply raise_if_err in H as [_ ->]
           |by apply or_raise_err in H as [_ ->]]|]).
  done.
Qed.

Lemma verify_ok p status raw clock1 clock2 p' r :
  verify p status raw clock1 clock2 = (p', Ok r) <->
  _used p = false /\ p' = consumed p /\ in_time p clock1 /\ in_time p clock2 /\ known_status status /\
  exists body, authentic_response p status raw body /\ body_shape status body /\
    r = response_of p status body.
Proof.
  unfold verify. destruct (_used p) eqn:Hu; [split; [by intros [=]|by intros []]|].
  rewrite <-verify_envelope_ok. destruct (verify_envelope _ _ _ _ _) as [x|e] eqn:E; simpl.
  - split; [by intros [= <- <-]|]. by intros (_ & -> & [= <-]).
  - rewrite (verify_envelope_err _ _ _ _ _ _ E). simpl. split; [by intros [=]|by intros (_ & _ & [=])].
Qed.

Lemma verify_err p status raw clock1 clock2 p' e :
  verify p status raw clock1 clock2 = (p', Err e) -> e = _fail /\ _used p' = true.
Proof.
  unfold verify. destruct (_used p) eqn:Hu; [by intros [= <- <-]|].
  destruct (verify_envelope _ _ _ _ _) as [x|e'] eqn:E; simpl; [done|].
  rewrite (verify_envelope_err _ _ _ _ _ _ E). simpl. by intros [= <- <-].
Qed.

(** A verified denial is always reported: its body has an error object. *)
Lemma authenticated_denial `{U : Unidata} p status raw clock1 clock2 p' r :
  verify p status raw clock1 clock2 = (p', Ok r) -> status <> 200%Z ->
  exists e, authenticated_peer_error r = Ok e /\ ape_http_status e = status /\
    ape_authentication e = authentication r.
Proof.
  intros (_ & _ & _ & _ & _ & body & _ & Hsh & ->)%verify_ok Hst. unfold body_shape in Hsh.
  apply Z.eqb_neq in Hst. rewrite Hst in Hsh. unfold field in Hsh. unfold authenticated_peer_error.
  cbn [vr_body response_of]. destruct (dget (py "error") body) as [[]|]; try discriminate Hsh.
  cbn. by eexists.
Qed.

(** ** Calls on one pending response

    The lock makes concurrent calls a sequence, in some order. *)
Record call := { c_status : Z; c_raw : bytes; c_clock1 : res time; c_clock2 : res time }.
Definition verify_call (p : PendingResponse) (c : call) : PendingResponse * res VerifiedResponse :=
  verify p (c_status c) (c_raw c) (c_clock1 c) (c_clock2 c).
Fixpoint run (p : PendingResponse) (calls : list call) : list (res VerifiedResponse) :=
  match calls with
  | [] => []
  | c :: calls => let '(p', r) := verify_call p c in r :: run p' calls
  end.
(** The states a sequence of calls goes through. *)
Inductive reaches (p : PendingResponse) : PendingResponse -> Prop :=
| reaches_start : reaches p p
| reaches_step q c : reaches p q -> reaches p (verify_call q c).1.

Lemma run_used p calls : _used p = true -> Forall (fun r => r = Err _fail) (run p calls).
Proof.
  revert p. induction calls as [|c calls IH]; intros p Hu; [constructor|].
  simpl. unfold verify_call, verify. rewrite Hu. constructor; [done|by apply IH].
Qed.

Lemma verify_call_used p c : _used (verify_call p c).1 = true.
Proof. unfold verify_call, verify. by destruct (_used p) eqn:Hu. Qed.

Lemma consumed_forever p q : reaches p q -> q = p \/ (_used q = true /\ (_used p = false -> pending_key q = [])).
Proof.
  induction 1 as [|q c Hr IH]; [by left|right]. split; [apply verify_call_used|].
  intros Hp. unfold verify_call, verify. destruct (_used q) eqn:Hu; [|done]. simpl.
  destruct IH as [->|[_ Hk]]; [congruence|auto].
Qed.
End verify_laws.

(** ** The honest exchange *)
Section exchange.
Context `{C : Crypto, F : FloatText, T : FloatTime}.

Lemma dpop_perm k d e : d ≡ₚ e -> dpop k d ≡ₚ dpop k e.
Proof.
  induction 1 as [|[k1 v1] d e _ IH|[k1 v1] [k2 v2] d|d e f _ IH1 _ IH2]; simpl.
  - done.
  - by case_bool_decide; [|rewrite IH].
  - repeat case_bool_decide; try done. apply Permutation_swap.
  - by etrans.
Qed.
Lemma dpop_dset_fresh k v d : din k d = false -> dpop k (dset k v d) = d.
Proof.
  unfold din. induction d as [|[k1 v1] d IH]; simpl.
  - by rewrite bool_decide_true.
  - intros H. case_bool_decide as E; [done|]. simpl. rewrite bool_decide_false by done. by rewrite IH.
Qed.
Lemma map_norm_dset k v d :
  map (fun kv => (kv.1, norm kv.2)) (dset k v d) = dset k (norm v) (map (fun kv => (kv.1, norm kv.2)) d).
Proof. induction d as [|[k1 v1] d IH]; simpl; [done|]. case_bool_decide; simpl; by rewrite ?IH. Qed.
Lemma din_map_norm k d : din k (map (fun kv => (kv.1, norm kv.2)) d) = din k d.
Proof. unfold din. induction d as [|[k1 v1] d IH]; simpl; [done|]. by case_bool_decide. Qed.

Lemma pop_norm_dset k v d : din k d = false -> norm_dict d ≡ₚ dpop k (norm_dict (dset k v d)).
Proof.
  intros Hk. rewrite (dpop_perm _ _ _ (norm_dict_perm (dset k v d))), map_norm_dset, dpop_dset_fresh.
  - apply norm_dict_perm.
  - by rewrite din_map_norm.
Qed.

Lemma norm_dict_wf d : wf_json (JObj d) -> wf_json (JObj (norm_dict d)).
Proof.
  rewrite !wf_json_obj. intros [Hnd Hf]. split; [by apply norm_dict_NoDup|].
  rewrite norm_dict_perm, Forall_map. eapply Forall_impl; [exact Hf|]. intros [k v] Hv. by apply norm_wf.
Qed.

Lemma encode_perm d e raw :
  wf_json (JObj d) -> d ≡ₚ e -> encode d = Ok raw -> encode e = Ok raw.
Proof.
  intros Hwf Hp. rewrite !encode_ok, !check_obj_ok. intros ([? Hf] & Hc & ?).
  split_and!; [done|by rewrite <-Hp| |done].
  eapply (canonicalize_equiv (JObj d)); [|done|exact Hc]. apply (eq_obj d e d); [|done].
  clear. induction d as [|x d IH]; constructor; [|done]. split; [done|apply eq_refl_j].
Qed.

Lemma field_norm_dict k d : NoDup d.*1 -> field k (norm_dict d) = norm (field k d).
Proof. intros Hnd. unfold field. rewrite dget_norm_dict by done. by destruct (dget (py k) d). Qed.

(** The request a pending response sends. *)
Definition request_envelope (peer : VerifiedPeer) (message : dict) (private : x_priv) (session : pystr) : dict :=
  [(py "profile", JStr PROFILE); (py "peer", JStr (peer_key peer));
   (py "recipient", JStr (x_public_hex private)); (py "session", JStr session);
   (py "request", JObj message)].

Lemma envelope_NoDup peer message private session : NoDup (request_envelope peer message private session).*1.
Proof. apply (bool_decide_unpack _). vm_compute. exact I. Qed.
Lemma envelope_wf peer message private session :
  wf_json (JObj message) -> wf_json (JObj (request_envelope peer message private session)).
Proof.
  intros Hm. apply wf_json_obj. split; [apply envelope_NoDup|].
  repeat (apply List.Forall_cons; [by try exact Hm|]). apply List.Forall_nil.
Qed.
Lemma statement_NoDup sha status body : NoDup (statement_of sha status body).*1.
Proof. apply (bool_decide_unpack _). vm_compute. exact I. Qed.
Lemma statement_wf sha status body :
  wf_json (JObj body) -> wf_json (JObj (statement_of sha status body)).
Proof. intros Hb. apply wf_json_obj. split; [apply statement_NoDup|].
  repeat (apply List.Forall_cons; [by try exact Hb|]). apply List.Forall_nil. Qed.

Lemma new_pending_ok peer message timeout private session clock p :
  new_pending peer message timeout private session clock = Ok p <->
  isfinite timeout = true /\ flt f0 timeout = true /\ fle timeout f300 = true /\
  encode (request_envelope peer message private session) = Ok (_request p) /\
  request_sha256 p = sha256_hex (_request p) /\
  _key private (JStr (peer_key peer)) (request_sha256 p) = Ok (pending_key p) /\
  _assurance p = assurance peer /\ clock = Ok (_started p) /\ isfinite (_started p) = true /\
  _deadline p = fadd (_started p) timeout /\ _used p = false.
Proof.
  unfold new_pending. fold (request_envelope peer message private session). split.
  - intros H. inv_ok. bool_to_prop. by split_and!.
  - intros (H1 & H2 & H3 & H4 & H5 & H6 & H7 & H8 & H9 & H10 & H11).
    apply guard_pass; [by rewrite H1, H2, H3|]. apply (bind_pass _ _ (_request p)); [done|].
    cbv zeta. rewrite <-H5. apply (bind_pass _ _ (pending_key p)); [done|].
    apply (bind_pass _ _ (_started p)); [done|]. apply guard_pass; [by rewrite H9|].
    destruct p; simpl in *. by subst.
Qed.

Lemma request_keys peer message private session :
  dkeys (request_envelope peer message private session) = _REQUEST_FIELDS.
Proof.
  apply dkeys_keys_of; unfold request_envelope; solve_keys.
Qed.

(** The callee accepts the envelope and derives the caller's key. *)
Lemma producer_of_pending `{!CryptoLaws C} k peer message timeout private tok clock p :
  new_pending peer message timeout private (hex tok) clock = Ok p ->
  peer_key peer = x_public_hex k -> length tok = 32 -> wf_json (JObj message) ->
  exists env prod,
    decode (_request p) = Ok env /\ new_producer k env = Ok prod /\
    envelope prod = env /\ field "request" env = JObj (norm_dict message) /\
    prod_request_sha256 prod = request_sha256 p /\ prod_key prod = pending_key p.
Proof.
  intros (_ & _ & _ & He & Hsha & Hkey & _)%new_pending_ok Hpeer Htok Hwf.
  set (req := request_envelope peer message private (hex tok)) in *.
  pose proof (envelope_wf peer message private (hex tok) Hwf) as Hreq. fold req in Hreq.
  pose proof (envelope_NoDup peer message private (hex tok)) as Hnd. fold req in Hnd.
  pose proof (decode_encode _ _ Hreq He) as Hdec. pose proof (encode_norm _ _ Hreq He) as Henc.
  destruct (x_exchange_agree private k) as (shared & Hx1 & Hx2).
  rewrite Hpeer, Hsha, (_key_ok _ _ _ shared Hx1) in Hkey. injection Hkey as Hkey.
  exists (norm_dict req). eexists {| envelope := norm_dict req; prod_request_sha256 := _; prod_key := _ |}.
  split; [done|]. split; [|split; [done|]; split; [|by split]].
  - unfold new_producer. apply (bind_pass _ _ (_request p)); [done|].
    apply (bind_pass _ _ (norm_dict req)); [done|]. rewrite dkeys_norm_dict by done.
    rewrite !field_norm_dict by done.
    assert (dkeys req = _REQUEST_FIELDS) as -> by apply request_keys.
    unfold req, request_envelope.
    rewrite (field_get "profile" _ (JStr PROFILE)) by (by dlookup).
    rewrite (field_get "peer" _ (JStr (peer_key peer))) by (by dlookup).
    rewrite (field_get "request" _ (JObj message)) by (by dlookup).
    rewrite (field_get "session" _ (JStr (hex tok))) by (by dlookup).
    rewrite (field_get "recipient" _ (JStr (x_public_hex private))) by (by dlookup).
    fold (request_envelope peer message private (hex tok)). fold req. rewrite Hpeer. cbn [norm].
    apply guard_pass; [by rewrite !bool_decide_true|]. cbv zeta.
    apply guard_pass; [by rewrite bool_decide_true|].
    apply (bind_pass _ _ tok); [by apply _hex_ok|]. apply (bind_pass _ _ (_request p)); [done|].
    rewrite (_key_ok _ _ _ shared Hx2). simpl. by rewrite Hkey, <-Hsha.
  - rewrite field_norm_dict by done. unfold req, request_envelope.
    by rewrite (field_get "request" _ (JObj message)) by (by dlookup).
Qed.
End exchange.

(** ** The promises of an authenticated exchange *)
Section promises.
Context `{C : Crypto, F : FloatText, T : FloatTime}.

Lemma result_keys sha status body mac :
  dkeys (dset (py "mac") (JStr mac) (statement_of sha status body)) = _RESPONSE_FIELDS.
Proof. apply dkeys_keys_of; unfold statement_of; solve_keys. Qed.

Lemma finish_ok prod status body result :
  finish prod status body = Ok result <->
  exists mac raw, _mac (prod_key prod) (statement_of (prod_request_sha256 prod) status body) = Ok mac /\
    result = dset (py "mac") (JStr mac) (statement_of (prod_request_sha256 prod) status body) /\
    encode result = Ok raw.
Proof.
  unfold finish. rewrite bind_ok. f_equiv. intros mac. split.
  - intros (Hm & (raw & He & E%ok_inj)%bind_ok). exists raw. rewrite <-E. by split_and!.
  - intros (raw & Hm & -> & He). split; [done|]. by apply (bind_pass _ _ raw).
Qed.

(** What a produced response says once decoded. *)
Lemma finish_decoded prod status body result raw :
  wf_json (JObj body) -> finish prod status body = Ok result -> encode result = Ok raw ->
  exists env mac,
    decode raw = Ok env /\ dkeys env = _RESPONSE_FIELDS /\ field "mac" env = JStr mac /\
    _mac (prod_key prod) (dpop (py "mac") env) = Ok mac /\
    field "profile" env = JStr PROFILE /\
    field "request_sha256" env = JStr (prod_request_sha256 prod) /\
    field "status" env = JInt status /\ field "kind" env = JStr (kind_of status) /\
    field "body" env = JObj (norm_dict body).
Proof.
  intros Hwf (mac & ? & Hmac & -> & _)%finish_ok Hraw.
  set (stmt := statement_of (prod_request_sha256 prod) status body) in *.
  pose proof (statement_wf (prod_request_sha256 prod) status body Hwf) as Hs. fold stmt in Hs.
  assert (din (py "mac") stmt = false) as Hfresh by (unfold din, stmt, statement_of; dlookup; reflexivity).
  assert (wf_json (JObj (dset (py "mac") (JStr mac) stmt))) as Hr.
  { apply wf_json_obj in Hs as [Hnd Hf]. apply wf_json_obj. split; [by apply dset_NoDup|].
    clear -Hf. induction stmt as [|[k v] d IH]; simpl; [by repeat constructor|].
    apply Forall_cons in Hf as [? Hf]. case_bool_decide; constructor; auto; done. }
  pose proof (proj1 (proj1 (wf_json_obj _) Hr)) as Hnd.
  exists (norm_dict (dset (py "mac") (JStr mac) stmt)), mac.
  split; [by apply decode_encode|]. split; [rewrite dkeys_norm_dict by done; apply result_keys|].
  rewrite !field_norm_dict by done. unfold field. rewrite !dget_py_dset.
  cbn [String.eqb Ascii.eqb Bool.eqb from_option id]. split; [done|]. split.
  { apply response_mac_ok in Hmac as (msg & Hmsg & ->). apply response_mac_ok. exists msg. split; [|done].
    apply (encode_perm (norm_dict stmt)); [by apply norm_dict_wf| |by apply encode_norm].
    by apply pop_norm_dset. }
  unfold stmt, statement_of. by dlookup.
Qed.

Lemma body_shape_norm status body :
  wf_json (JObj body) -> body_shape status body -> body_shape status (norm_dict body).
Proof.
  intros [Hnd _]%wf_json_obj. unfold body_shape. destruct (status =? 200)%Z.
  - intros E. by rewrite dget_norm_dict, E.
  - rewrite field_norm_dict by done. by destruct (field "error" body).
Qed.

(** C29: the honest exchange completes: the request a caller sends is accepted by the
    callee that holds the attested key, which recovers the message, and every
    response it finishes, a provenance with status 200 or a denial with an error
    status, is accepted by the caller's [verify] while its clock is before the
    deadline, with that status and that body. *)
Theorem response_round_trip `{!CryptoLaws C} k peer message timeout private tok clock p :
  new_pending peer message timeout private (hex tok) clock = Ok p ->
  peer_key peer = x_public_hex k -> length tok = 32 -> wf_json (JObj message) ->
  exists env prod,
    decode (_request p) = Ok env /\ new_producer k env = Ok prod /\
    field "request" env = JObj (norm_dict message) /\
    forall status body result raw clock1 clock2,
      finish prod status body = Ok result -> encode result = Ok raw -> wf_json (JObj body) ->
      known_status status -> body_shape status body -> in_time p clock1 -> in_time p clock2 ->
      verify p status raw clock1 clock2 = (consumed p, Ok (response_of p status (norm_dict body))).
Proof.
  intros Hp Hpeer Htok Hwf.
  destruct (producer_of_pending _ _ _ _ _ _ _ _ Hp Hpeer Htok Hwf)
    as (env & prod & Hd & Hn & _ & Hreq & Hsha & Hkey).
  exists env, prod. do 3 (split; [done|]).
  intros status body result raw clock1 clock2 Hf Hraw Hb Hst Hsh H1 H2.
  apply new_pending_ok in Hp as (_ & _ & _ & _ & _ & _ & _ & _ & _ & _ & Hu).
  apply verify_ok. do 5 (split; [done|]). exists (norm_dict body).
  split; [|split; [by apply body_shape_norm|done]].
  unfold authentic_response. rewrite <-Hsha, <-Hkey. by eapply finish_decoded.
Qed.

(** C30: [verify] accepts exactly the responses authenticated under this occurrence's
    key: not yet used, both clock readings before the deadline, a status of 200 or
    400 to 599 that the statement repeats, the statement naming this request's
    digest and its kind, its MAC valid and its body of the kind's shape; it returns
    that body and nothing unverified, and every failure is the one error, with the
    occurrence consumed. *)
Theorem verify_spec p status raw clock1 clock2 :
  (forall p' r, verify p status raw clock1 clock2 = (p', Ok r) <->
     _used p = false /\ p' = consumed p /\ in_time p clock1 /\ in_time p clock2 /\
     known_status status /\
     exists body, authentic_response p status raw body /\ body_shape status body /\
       r = response_of p status body) /\
  (forall p' e, verify p status raw clock1 clock2 = (p', Err e) -> e = _fail /\ _used p' = true).
Proof. split; [apply verify_ok|apply verify_err]. Qed.

(** C31: an occurrence is used once: in any sequence of calls only the first can be
    accepted, every later call fails whatever its input and clock, and the session
    key is erased in every state reached after a call. *)
Theorem verify_single_use p calls :
  (forall i r, run p calls !! i = Some (Ok r) -> i = 0 /\ _used p = false) /\
  (forall i x, run p calls !! S i = Some x -> x = Err _fail) /\
  (forall q, reaches p q -> q = p \/ (_used q = true /\ (_used p = false -> pending_key q = []))).
Proof.
  assert (forall i x, run p calls !! S i = Some x -> x = Err _fail) as Hlater.
  { intros i x. destruct calls as [|c calls]; [done|]. cbn [run].
    pose proof (verify_call_used p c) as Hu. destruct (verify_call p c) as [p' r]. cbn [lookup list_lookup].
    intros Hx. exact (proj1 (Forall_forall _ _) (run_used p' calls Hu) _ (list_elem_of_lookup_2 _ _ _ Hx)). }
  split; [|split; [exact Hlater|apply consumed_forever]].
  intros [|i] r Hr; [|by apply Hlater in Hr]. split; [done|].
  destruct (_used p) eqn:Hu; [|done].
  pose proof (proj1 (Forall_forall _ _) (run_used p calls Hu) _ (list_elem_of_lookup_2 _ _ _ Hr)). done.
Qed.

(** C32: a response answers the request it was made for: when [verify] accepts a
    response some callee finished, the caller sees the status and the body the
    callee gave, and the envelope that callee was processing serializes to the very
    bytes of this request, or to other bytes with the request's SHA-256 digest. *)
Theorem response_answers_request k env prod st body result raw
    peer message timeout private session clock p status clock1 clock2 p' r :
  new_producer k env = Ok prod -> finish prod st body = Ok result -> encode result = Ok raw ->
  wf_json (JObj body) ->
  new_pending peer message timeout private session clock = Ok p ->
  verify p status raw clock1 clock2 = (p', Ok r) ->
  vr_status r = st /\ vr_body r = norm_dict body /\
  exists processed, encode (envelope prod) = Ok processed /\
    (processed = _request p \/ collides processed (_request p)).
Proof.
  intros Hn Hf Hraw Hb Hp (_ & _ & _ & _ & _ & b & Ha & _ & ->)%verify_ok.
  destruct (finish_decoded _ _ _ _ _ Hb Hf Hraw) as (e1 & m1 & Hd1 & _ & _ & _ & _ & Hs1 & Hst1 & _ & Hb1).
  destruct Ha as (e2 & m2 & Hd2 & _ & _ & _ & _ & Hs2 & Hst2 & _ & Hb2).
  rewrite Hd1 in Hd2. apply ok_inj in Hd2 as <-. cbn [vr_status vr_body response_of].
  split; [congruence|]. split; [congruence|].
  apply new_pending_ok in Hp as (_ & _ & _ & _ & Hsha & _).
  assert (exists b', encode (envelope prod) = Ok b' /\ prod_request_sha256 prod = sha256_hex b')
    as (b' & He & Hsp).
  { unfold new_producer in Hn. inv_ok. cbn. eauto. }
  exists b'. split; [done|]. apply sha256_hex_eq. rewrite Hsp, Hs2, Hsha in Hs1. by apply (inj JStr) in Hs1.
Qed.
End promises.

(** ** An exchange over the toy primitives, with integer seconds *)
Module ResponseExample.
Import AsciiOnly Toy.
#[export] Instance seconds : FloatTime :=
  {| time := Z; isfinite := fun _ => true; fle := Z.leb; flt := Z.ltb; fadd := Z.add;
     f0 := 0%Z; f300 := 300%Z |}.

Definition peer : VerifiedPeer :=
  {| peer_key := x_public_hex (C := toy) 3%N; assurance := py "none"; peer_measurement := [] |}.
Definition tok : bytes := be_bytes 32 5.
Definition message : dict := [(py "m", JInt 1)].
Definition body : dict := [(py "accepted", JBool true)].

Definition no_pending : PendingResponse :=
  {| _request := []; request_sha256 := []; pending_key := []; _assurance := []; _started := 0%Z;
     _deadline := 0%Z; _used := true |}.
Definition pending : PendingResponse :=
  get_ok no_pending (new_pending (C := toy) peer message 30%Z 4%N (hex tok) (Ok 10%Z)).
Lemma pending_made : new_pending (C := toy) peer message 30%Z 4%N (hex tok) (Ok 10%Z) = Ok pending.
Proof. apply get_ok_spec. vm_compute. reflexivity. Qed.
Definition env : dict := get_ok [] (decode (_request pending)).
Lemma env_decoded : decode (_request pending) = Ok env.
Proof. apply get_ok_spec. vm_compute. reflexivity. Qed.
Definition prod : ResponseProducer :=
  get_ok {| envelope := []; prod_request_sha256 := []; prod_key := [] |} (new_producer (C := toy) 3%N env).
Lemma prod_made : new_producer (C := toy) 3%N env = Ok prod.
Proof. apply get_ok_spec. vm_compute. reflexivity. Qed.
Definition answer : dict := get_ok [] (finish prod 200 body).
Lemma answer_made : finish prod 200 body = Ok answer.
Proof. apply get_ok_spec. vm_compute. reflexivity. Qed.
Definition wire_answer : bytes := get_ok [] (encode answer).
Lemma wire_answer_made : encode answer = Ok wire_answer.
Proof. apply get_ok_spec. vm_compute. reflexivity. Qed.
Definition verdict : VerifiedResponse := response_of pending 200 (norm_dict body).
Lemma envelope_accepted : verify_envelope pending 200 wire_answer (Ok 11%Z) (Ok 12%Z) = Ok verdict.
Proof. by_decision. Qed.
Lemma unused : _used pending = false.
Proof. vm_compute. reflexivity. Qed.
Lemma request_message_wf : wf_json (JObj message).
Proof. apply wf_json_obj. split; [apply (bool_decide_unpack _); exact I|by repeat constructor]. Qed.
Lemma body_wf : wf_json (JObj body).
Proof. apply wf_json_obj. split; [apply (bool_decide_unpack _); exact I|by repeat constructor]. Qed.
#[local] Opaque pending env prod answer wire_answer.
Lemma accepted :
  verify pending 200 wire_answer (Ok 11%Z) (Ok 12%Z) = (consumed pending, Ok verdict).
Proof. unfold verify. by rewrite unused, envelope_accepted. Qed.

Lemma response_round_trip_witness :
  exists env prod,
    decode (_request pending) = Ok env /\ new_producer (C := toy) 3%N env = Ok prod /\
    field "request" env = JObj (norm_dict message) /\
    forall status body result raw clock1 clock2,
      finish prod status body = Ok result -> encode result = Ok raw -> wf_json (JObj body) ->
      known_status status -> body_shape status body -> in_time pending clock1 -> in_time pending clock2 ->
      verify pending status raw clock1 clock2 = (consumed pending, Ok (response_of pending status (norm_dict body))).
Proof.
  exact (response_round_trip (C := toy) 3%N peer message 30%Z 4%N tok (Ok 10%Z) pending
    pending_made eq_refl eq_refl request_message_wf).
Defined.

Lemma response_answers_request_witness :
  vr_status verdict = 200%Z /\ vr_body verdict = norm_dict body /\
  exists processed, encode (envelope prod) = Ok processed /\
    (processed = _request pending \/ collides processed (_request pending)).
Proof.
  exact (response_answers_request (C := toy) 3%N env prod 200 body answer wire_answer
    peer message 30%Z 4%N (hex tok) (Ok 10%Z) pending 200 (Ok 11%Z) (Ok 12%Z) (consumed pending) verdict
    prod_made answer_made wire_answer_made body_wf pending_made accepted).
Defined.

Lemma verify_spec_witness :
  _used (verify pending 200 [] (Ok 11%Z) (Ok 12%Z)).1 = true.
Proof.
  destruct (verify pending 200 [] (Ok 11%Z) (Ok 12%Z)) as [p' r] eqn:E.
  destruct r as [r|e].
  - rewrite (proj1 (proj2 (proj1 (proj1 (verify_spec pending 200 [] (Ok 11%Z) (Ok 12%Z)) p' r) E))). reflexivity.
  - exact (proj2 (proj2 (verify_spec pending 200 [] (Ok 11%Z) (Ok 12%Z)) p' e E)).
Defined.

Definition again : call := {| c_status := 200; c_raw := wire_answer; c_clock1 := Ok 11%Z; c_clock2 := Ok 12%Z |}.
Lemma verify_single_use_witness : run pending [again; again] !! 1 = Some (Err _fail).
Proof.
  destruct (verify_single_use pending [again; again]) as (_ & H & _).
  destruct (run pending [again; again] !! 1) as [x|] eqn:E; [by rewrite (H 0 x E)|].
  cbn in E. by repeat destruct (verify_call _ _).
Defined.
End ResponseExample.
