(* ===== verification/Node.v ===== *)
(** * The peer node ([ca2a_runtime.node])

    The state behind an inbound call, and its operations: offer the channel key,
    issue a challenge, handle a message, handle an authenticated envelope.  The node
    does not change after construction; what varies between calls (the clocks, the
    random token, what the revocation source answers) is an argument. *)
From S2P Require Export Response.
Import challenge tee attestation peer adapter wire response.

Module node.

(** [AgentManifestBinding], which the node only stores. *)
Record AgentManifestBinding := {
  manifest_id : pystr;
  agent_id : pystr;
  manifest_issuer : pystr;
  authenticated_subject : pystr;
  manifest_version : pystr;
  verification_scope : pystr
}.

Section node.
Context `{U : Unidata, C : Crypto, F : FloatText, E : ErrorText, P : Policy Pol}.

(** What [revocation_source()] answers at a call. *)
Definition RevocationSource : Type := Clocks -> res (option revocation.RevocationSnapshot).

Record PeerNode := {
  policy : Pol;
  provider : Provider;
  max_depth : Z;
  require_caller_attestation : pystr;
  caller_verifier : option Verifier;
  challenge_ttl_seconds : Z;
  require_holder_proof : bool;
  trusted_root_issuers : gset pystr;
  agent_manifest : option AgentManifestBinding;
  revocation_source : option RevocationSource;
  max_revocation_staleness : option Z;
  _private_key : x_priv;
  channel_public_key : pystr;
  _challenge_secret : bytes
}.

(** The keyword arguments of [__init__]. *)
Record NodeConfig := {
  cfg_provider : option Provider;
  cfg_max_depth : Z;
  cfg_require_caller_attestation : pystr;
  cfg_caller_verifier : option Verifier;
  cfg_challenge_ttl_seconds : Z;
  cfg_require_holder_proof : bool;
  cfg_trusted_root_issuers : gset pystr;
  cfg_agent_manifest : option AgentManifestBinding;
  cfg_revocation_source : option RevocationSource;
  cfg_max_revocation_staleness : option Z
}.

(** [PeerNode(policy, ...)], with the generated channel key and challenge secret. *)
Definition new_node (policy : Pol) (c : NodeConfig) (generated : x_priv) (secret : bytes) : res PeerNode :=
  let requirement := cfg_require_caller_attestation c in
  raise_if (negb (bool_decide (requirement ∈ REQUIREMENT_VALUES)))
    (err ConfigError (py "require_caller_attestation must be one of " ++
       repr_list (sorted_set REQUIREMENT_VALUES) ++ py ", got " ++ py_repr requirement));;
  raise_if (bool_decide (requirement = REQUIRE_HARDWARE)
            && match cfg_caller_verifier c with None => true | Some _ => false end)
    (err_d ConfigError (py "require_caller_attestation='hardware' needs a caller_verifier")
       (py "a hardware report cannot be appraised without one, so every " ++ py "call would be refused"));;
  let '(private_key, public_key) := sealed.generate_channel_keypair generated in
  Ok {| policy := policy;
        provider := default SoftwareProvider (cfg_provider c);
        max_depth := cfg_max_depth c;
        require_caller_attestation := requirement;
        caller_verifier := cfg_caller_verifier c;
        challenge_ttl_seconds := cfg_challenge_ttl_seconds c;
        require_holder_proof := cfg_require_holder_proof c;
        trusted_root_issuers := cfg_trusted_root_issuers c;
        agent_manifest := cfg_agent_manifest c;
        revocation_source := cfg_revocation_source c;
        max_revocation_staleness := cfg_max_revocation_staleness c;
        _private_key := private_key;
        channel_public_key := public_key;
        _challenge_secret := secret |}.

Definition offer (n : PeerNode) (nonce : pystr) : res ChannelOffer :=
  attest_channel (provider n) (channel_public_key n) nonce ROLE_CALLEE.

(** [issue_challenge()], with the time and the random token. *)
Definition issue_challenge (n : PeerNode) (time_ : Z) (token : pystr) : res pystr :=
  challenge.issue_challenge time_ token (_challenge_secret n) (challenge_ttl_seconds n).

(** The keyword arguments [handle] passes to [handle_peer_request]. *)
Definition handle_options (n : PeerNode) (revs : option revocation.RevocationSnapshot) : HandleOptions :=
  {| enclave_private_key := Some (_private_key n);
     opt_challenge_secret := Some (_challenge_secret n);
     peer.require_caller_attestation := require_caller_attestation n;
     opt_caller_verifier := caller_verifier n;
     opt_audience := Some (channel_public_key n);
     peer.require_holder_proof := require_holder_proof n;
     chain_options :=
       {| peer.max_depth := max_depth n; peer.trusted_root_issuers := trusted_root_issuers n;
          revocations := revs; peer.max_revocation_staleness := max_revocation_staleness n |} |}.

Definition current_revocations (n : PeerNode) (clk : Clocks) : res (option revocation.RevocationSnapshot) :=
  match revocation_source n with None => Ok None | Some source => source clk end.

Definition handle (n : PeerNode) (clk : Clocks) (message : dict) : res PeerResult :=
  request ← parse_peer_request message None;
  request ← or_raise request (err TransportError (py "message carries no cA2A extension metadata"));
  revs ← current_revocations n clk;
  (handle_peer_request clk request (policy n) (handle_options n revs)).2.

(** The body and status of an answer: the result, or the runtime's own error. *)
Definition answer (r : res dict) : res (Z * dict) :=
  match r with
  | Ok body => Ok (200%Z, body)
  | Err (CA2A e) => Ok (err_http_status e, serialize_error e)
  | Err e => Err e
  end.

Definition handle_authenticated (n : PeerNode) (clk : Clocks) (env : dict) : res (Z * dict) :=
  producer ← new_producer (_private_key n) env;
  message ← or_raise (match field "request" (envelope producer) with JObj d => Some d | _ => None end)
    (PyExc TypeError (py "request"));
  '(status, body) ← answer (r ← handle n clk message; serialize_peer_result r);
  response ← finish producer status body;
  Ok (status, response).
End node.
End node.
Import node.

(** ** Laws *)
Section node_laws.
Context `{U : Unidata, C : Crypto, F : FloatText, E : ErrorText, P : Policy Pol}.

(** A node's key is the channel key it publishes. *)
Definition wf_node (n : PeerNode (Pol := Pol)) : Prop :=
  channel_public_key n = x_public_hex (_private_key n) /\
  require_caller_attestation n ∈ REQUIREMENT_VALUES /\
  (require_caller_attestation n = REQUIRE_HARDWARE -> exists v, caller_verifier n = Some v).

Lemma new_node_wf (policy : Pol) c k secret n : new_node policy c k secret = Ok n -> wf_node n.
Proof.
  unfold new_node, sealed.generate_channel_keypair.
  intros ([] & H1%guard_ok & ([] & H2%raise_if_ok & [= <-])%bind_ok)%bind_ok.
  split_and!; cbn; [done|done|]. intros E1. rewrite bool_decide_true in H2 by done.
  destruct (cfg_caller_verifier c) as [v|]; [by exists v|done].
Qed.

Lemma new_node_err (policy : Pol) c k secret e :
  new_node policy c k secret = Err e -> exn_class e = Some ConfigError.
Proof.
  unfold new_node, sealed.generate_channel_keypair. intros [H|(? & _ & H)]%bind_err; [by apply raise_if_err in H as [_ ->]|].
  apply bind_err in H as [H|(? & _ & H)]; [by apply raise_if_err in H as [_ ->]|done].
Qed.

Lemma node_handle_ok (n : PeerNode (Pol := Pol)) clk message r :
  handle n clk message = Ok r <->
  exists request revs,
    parse_peer_request message None = Ok (Some request) /\
    current_revocations n clk = Ok revs /\
    Accepted clk request (policy n) (handle_options n revs) r.
Proof.
  unfold handle. setoid_rewrite <-handle_ok. split.
  - intros (q & Hq & (req & ->%or_raise_ok & (revs & Hr & H)%bind_ok)%bind_ok)%bind_ok. eauto 6.
  - intros (req & revs & Hq & Hr & H). apply (bind_pass _ _ (Some req)); [done|].
    apply (bind_pass _ _ req); [done|]. by apply (bind_pass _ _ revs).
Qed.

Lemma answer_ok (r : res dict) status body :
  answer r = Ok (status, body) <->
  (r = Ok body /\ status = 200%Z) \/
  (exists e, r = Err (CA2A e) /\ status = err_http_status e /\ body = serialize_error e).
Proof.
  unfold answer. destruct r as [b|[e|k m]].
  - split; [intros [= <- <-]; by left|]. by intros [[[= ->] ->]|(? & [=] & _)].
  - split; [intros [= <- <-]; right; by exists e|]. by intros [[[=] _]|(? & [= ->] & -> & ->)].
  - split; [done|]. by intros [[[=] _]|(? & [=] & _)].
Qed.
End node_laws.
