(* ===== verification/Server.v ===== *)
(** * The HTTP server ([ca2a_runtime.transport.server])

    The two handlers, from a parsed request line and headers to the status and body
    of the answer.  An exception that leaves a handler drops the connection: it is
    the error of the result.  Reading the socket is an argument, bounded by
    [Content-Length]; sockets, threads and the read timeout are the standard
    library's. *)
From S2P Require Export Node Dumps Url.
Import challenge tee attestation peer adapter wire response node url.

Module server.

Definition CHANNEL_PATH : pystr := py "/.well-known/ca2a/channel".
Definition TASK_PATH : pystr := py "/ca2a/task".
Definition AUTHENTICATED_TASK_PATH : pystr := py "/ca2a/task/authenticated".
Definition _MAX_BODY : Z := 1048576.
Definition _MAX_NONCE : nat := 256.

(** The status and the bytes of an answer. *)
Abbreviation http_answer := (Z * bytes)%type.

(** [_send_json(status, body)] *)
Definition _send_json (status : Z) (body : dict) : res http_answer :=
  data ← dumps_bytes (JObj body); Ok (status, data).

(** The handlers' own error bodies. *)
Definition plain_error (code message : string) : dict :=
  [(py "error", JObj [(py "code", JStr (py code)); (py "message", JStr (py message))])].
Definition not_found : res http_answer := _send_json 404 (plain_error "NOT_FOUND" "unknown path").
Definition bad_request (message : string) : res http_answer := _send_json 400 (plain_error "BAD_REQUEST" message).

(** [except CA2AError as exc: self._send_json(exc.http_status, wire.serialize_error(exc))] *)
Definition send_ca2a_error {A : Type} (r : res A) (k : A -> res http_answer) : res http_answer :=
  match r with
  | Ok a => k a
  | Err (CA2A e) => _send_json (err_http_status e) (serialize_error e)
  | Err e => Err e
  end.

Section server.
Context `{U : Unidata, C : Crypto, F : FloatText, E : ErrorText, L : UrlLib, P : Policy Pol}.

(** [do_GET], with the request target; the time and the random token are those of
    the challenge it issues. *)
Definition do_GET (node : PeerNode (Pol := Pol)) (time_ : Z) (token target : pystr) : res http_answer :=
  parsed ← urlparse target;
  if negb (bool_decide (path parsed = CHANNEL_PATH)) then not_found
  else
    nonces ← try_except (parse_qs_get (query parsed) 1 (py "nonce")) is_value_error (fun _ => Ok []);
    match nonces with
    | [nonce] =>
        if bool_decide (nonce = []) || Nat.ltb _MAX_NONCE (length nonce)
        then bad_request "exactly one bounded nonce is required"
        else
          send_ca2a_error (offer node nonce) (fun offer =>
            challenge ← issue_challenge node time_ token;
            _send_json 200 (serialize_channel_offer offer (Some challenge)))
    | _ => bad_request "exactly one bounded nonce is required"
    end.

(** [int(raw_length)] of a [Content-Length] of ASCII digits in (0, 1 MiB]. *)
Definition body_length (content_length : option pystr) : res (option Z) :=
  let raw_length := default [] content_length in
  if negb (forallb is_digit raw_length) || bool_decide (raw_length = []) then Ok None
  else
    length ← or_raise (py_int raw_length) int_limit_error;
    Ok (if (length <=? 0)%Z || (_MAX_BODY <? length)%Z then None else Some length).

Definition is_body_error (e : exn) : bool :=
  is_value_error e || is_py RecursionError e || is_py TimeoutError e ||
  match e with CA2A _ => true | _ => false end.

(** [do_POST]; [rfile length] is what [self.rfile.read(length)] gives. *)
Definition do_POST (node : PeerNode (Pol := Pol)) (clk : Clocks) (target : pystr) (content_length : option pystr)
    (rfile : Z -> res bytes) : res http_answer :=
  parsed ← urlparse target;
  let path := path parsed in
  if negb (bool_decide (path = TASK_PATH)) && negb (bool_decide (path = AUTHENTICATED_TASK_PATH))
  then not_found
  else
    length ← body_length content_length;
    match length with
    | None => bad_request "invalid body length"
    | Some length =>
        match (raw ← rfile length;
               if bool_decide (path = AUTHENTICATED_TASK_PATH) then JObj <$> decode raw
               else loads_bytes raw) with
        | Err e => if is_body_error e then bad_request "invalid JSON" else Err e
        | Ok (JObj message) =>
            if bool_decide (path = AUTHENTICATED_TASK_PATH) then
              send_ca2a_error (handle_authenticated node clk message)
                (fun '(status, body) => _send_json status body)
            else
              send_ca2a_error (handle node clk message) (fun result =>
                body ← serialize_peer_result result; _send_json 200 body)
        | Ok _ => bad_request "object required"
        end
    end.
End server.
End server.
Import server.

(** ** Laws *)
Section server_laws.
Context `{U : Unidata, C : Crypto, F : FloatText, E : ErrorText, L : UrlLib, P : Policy Pol}.
Implicit Types (n : PeerNode (Pol := Pol)) (clk : Clocks).

Lemma send_json_total status body :
  in_domain (JObj body) = true -> exists b, _send_json status body = Ok (status, b) /\ dumps_bytes (JObj body) = Ok b.
Proof. intros [b Hb]%dumps_total. exists b. split; [|done]. unfold _send_json. by rewrite Hb. Qed.

Lemma send_json_ok status body s b :
  _send_json status body = Ok (s, b) <-> s = status /\ dumps_bytes (JObj body) = Ok b.
Proof.
  unfold _send_json. rewrite bind_ok. split; [by intros (? & ? & [= <- <-])|].
  intros [-> H]. exists b. by split.
Qed.

Lemma body_length_ok cl z :
  body_length cl = Ok (Some z) <->
  exists ds, cl = Some ds /\ ds <> [] /\ forallb is_digit ds = true /\ py_int ds = Some z /\ (0 < z <= _MAX_BODY)%Z.
Proof.
  unfold body_length. split.
  - destruct cl as [ds|]; [|done]. cbn [default from_option id].
    destruct (negb (forallb is_digit ds) || bool_decide (ds = [])) eqn:E1; [done|].
    intros (v & Hv%or_raise_ok & H)%bind_ok. bool_to_prop. exists ds.
    destruct ((v <=? 0)%Z || (_MAX_BODY <? v)%Z) eqn:E2; [done|]. apply ok_inj in H. injection H as <-.
    bool_to_prop. split_and!; done || lia.
  - intros (ds & -> & Hne & Hd & Hz & Hb). cbn [default from_option id]. rewrite Hd.
    rewrite bool_decide_false by done. cbn. rewrite Hz. cbn. do 2 f_equal.
    replace (z <=? 0)%Z with false by (symmetry; apply Z.leb_gt; lia).
    by replace (_MAX_BODY <? z)%Z with false by (symmetry; apply Z.ltb_ge; lia).
Qed.

(** *** What leaves a handler *)
Lemma py_exception_class e : py_exception e -> exn_class e = None.
Proof. unfold py_exception, is_value_error, is_py. by destruct e; intros [?|?]. Qed.

Lemma dumps_err v e : dumps v = Err e -> exn_class e = None.
Proof.
  revert e. induction v as [| | | | |l IH|kvs IH] using json_ind_strong; intros e; try done; cbn [dumps].
  - intros [H|(? & _ & H)]%bind_err; [by apply raise_if_err in H as [_ ->]|done].
  - intros [H|(? & _ & H)]%bind_err; [|done]. induction IH as [|x l Hx _ IHl]; [done|].
    change (mapM_res dumps (x :: l)) with (y ← dumps x; ys ← mapM_res dumps l; Ok (y :: ys)) in H.
    apply bind_err in H as [H|(? & _ & H)]; [by apply Hx|].
    apply bind_err in H as [H|(? & _ & H)]; [by apply IHl|done].
  - intros [H|(? & _ & H)]%bind_err; [|done]. induction IH as [|x l Hx _ IHl]; [done|].
    set (f := fun kv : pystr * json => p ← dumps kv.2; Ok (dumps_string kv.1 ++ [58; 32]%N ++ p)) in *.
    change (mapM_res f (x :: l)) with (y ← f x; ys ← mapM_res f l; Ok (y :: ys)) in H.
    apply bind_err in H as [H|(? & _ & H)]; [by apply bind_err in H as [H|(? & _ & H)]; [apply Hx|]|].
    apply bind_err in H as [H|(? & _ & H)]; [by apply IHl|done].
Qed.
Lemma send_json_err status body e : _send_json status body = Err e -> exn_class e = None.
Proof.
  unfold _send_json, dumps_bytes. intros [H|(? & _ & H)]%bind_err; [|done].
  apply bind_err in H as [H|(? & _ & H)]; [by eapply dumps_err|].
  by apply or_raise_err in H as [_ ->].
Qed.
Lemma serialize_result_err r e : serialize_peer_result r = Err e -> exn_class e = None.
Proof.
  unfold serialize_peer_result, _record_to_dict, record_hash.
  intros [H|(? & _ & H)]%bind_err; [|done]. apply bind_err in H as [H|(? & _ & H)]; [|done].
  apply bind_err in H as [H|(? & _ & H)]; [|done].
  by apply py_exception_class, (canonicalize_error_kind _ _ H).
Qed.
Lemma send_ca2a_err {A : Type} (r : res A) k e :
  send_ca2a_error r k = Err e ->
  exn_class e = None \/ exists a, r = Ok a /\ k a = Err e.
Proof.
  unfold send_ca2a_error. destruct r as [a|[x|y m]]; [eauto| |intros [= <-]; by left].
  intros H%send_json_err. by left.
Qed.
Lemma body_length_err cl e : body_length cl = Err e -> e = int_limit_error.
Proof.
  unfold body_length. destruct (_ || _); [done|]. intros [H|(? & _ & H)]%bind_err; [|done].
  by apply or_raise_err in H as [_ ->].
Qed.
Lemma body_error_class e : is_body_error e = false -> exn_class e = None.
Proof. unfold is_body_error. destruct e; [by rewrite orb_true_r|done]. Qed.

Hypothesis netloc_errors : forall s e, check_netloc s = Err e -> is_value_error e = true.
Lemma urlparse_err s e : urlparse s = Err e -> is_value_error e = true.
Proof.
  unfold urlparse. destruct (split_scheme _) as [sch r].
  intros [H|(? & _ & H)]%bind_err.
  - destruct (strip_prefix _ r); [|done]. destruct (span_until _ _).
    apply bind_err in H as [H|(? & _ & H)]; [by eapply netloc_errors|done].
  - by destruct (split1 63 _) as [[]|].
Qed.
Lemma value_error_class e : is_value_error e = true -> exn_class e = None.
Proof. by destruct e. Qed.

End server_laws.

(** ** Properties *)
Section properties.
Context `{U : Unidata, C : Crypto, F : FloatText, E : ErrorText, L : UrlLib, P : Policy Pol}.

(** C33: no refusal drops the connection.  Whatever the request line, the headers and
    the body, an exception that leaves [do_POST] or [do_GET] is never one of the
    runtime's errors: those are always answered, with their own status. *)
Theorem refusals_answered (n : PeerNode (Pol := Pol)) clk time_ token target cl rfile e
    (Hnet : forall s e, check_netloc s = Err e -> is_value_error e = true) :
  do_POST n clk target cl rfile = Err e \/ do_GET n time_ token target = Err e -> exn_class e = None.
Proof.
  intros [H|H].
  - unfold do_POST in H. apply bind_err in H as [H|(parsed & _ & H)].
    { by eapply value_error_class, urlparse_err. }
    case_match; [by eapply send_json_err|].
    apply bind_err in H as [H|(len & _ & H)]; [by rewrite (body_length_err _ _ H)|].
    destruct len as [len|]; [|by eapply send_json_err].
    destruct (raw ← rfile len; _) as [[| | | | | |message]|e'] eqn:Er;
      try (by eapply send_json_err).
    + case_match; apply send_ca2a_err in H as [H|(a & Ha & H)]; try done.
      * destruct a. by eapply send_json_err.
      * apply bind_err in H as [H|(body & _ & H)]; [by eapply serialize_result_err|by eapply send_json_err].
    + destruct (is_body_error e') eqn:Eb; [by eapply send_json_err|]. injection H as <-. by apply body_error_class.
  - unfold do_GET in H. apply bind_err in H as [H|(parsed & _ & H)].
    { by eapply value_error_class, urlparse_err. }
    case_match; [by eapply send_json_err|].
    apply bind_err in H as [H|(nonces & _ & H)].
    { unfold try_except in H. destruct (parse_qs_get _ _ _) as [|e'] eqn:Eq; [done|].
      unfold parse_qs_get in Eq. apply bind_err in Eq as [Eq|(? & _ & Eq)]; [|done].
      apply raise_if_err in Eq as [_ ->]. done. }
    destruct nonces as [|nonce [|]]; try (by eapply send_json_err).
    case_match; [by eapply send_json_err|].
    apply send_ca2a_err in H as [H|(o & _ & H)]; [done|].
    apply bind_err in H as [H|(ch & _ & H)]; [|by eapply send_json_err].
    unfold issue_challenge, challenge.issue_challenge in H.
    apply bind_err in H as [H|(? & _ & H)]; [by apply raise_if_err in H as [_ ->]|].
    apply bind_err in H as [H|(? & _ & H)]; [|done].
    unfold challenge._mac in H. apply bind_err in H as [H|(? & _ & H)]; [|done].
    by apply or_raise_err in H as [_ ->].
Qed.

(** A body length that no integer text can have leaves [do_POST] as a ValueError: the
    check that guards the conversion admits digits of any number. *)
Theorem long_length_escapes (n : PeerNode (Pol := Pol)) clk ds rfile
    (Hdigits : forallb is_digit ds = true) (Hlong : (int_max_str_digits < length ds)%nat) :
  do_POST n clk TASK_PATH (Some ds) rfile = Err int_limit_error.
Proof.
  unfold do_POST.
  assert (urlparse TASK_PATH = Ok {| scheme := []; path := TASK_PATH; query := [] |}) as -> by reflexivity.
  cbn [mbind result_bind path]. rewrite bool_decide_true by done. cbn [negb andb].
  unfold body_length. cbn [default from_option id]. rewrite Hdigits.
  rewrite (bool_decide_false (ds = [])) by (intros ->; simpl in Hlong; lia). cbn [negb orb].
  rewrite py_int_digits; [|by intros ->; simpl in Hlong; lia|by apply forallb_Forall].
  by rewrite (proj2 (Nat.ltb_lt _ _) Hlong).
Qed.
End properties.

(** ** Concrete requests *)
Module ServerExample.
Import AsciiOnly Toy PeerExample AdapterExample.
#[export] Instance lenient_urls : UrlLib :=
  {| check_netloc := fun s =>
       if bool_decide (91%N ∈ s) then Err (PyExc ValueError (py "Invalid IPv6 URL")) else Ok tt;
     unquote_percent := fun s => s |}.

Definition demo_node : PeerNode :=
  {| policy := policy_; provider := SoftwareProvider; max_depth := 8;
     require_caller_attestation := REQUIRE_NONE; caller_verifier := None;
     challenge_ttl_seconds := 0; require_holder_proof := true;
     trusted_root_issuers := ∅; agent_manifest := None;
     revocation_source := None; max_revocation_staleness := None;
     _private_key := enclave; channel_public_key := enclave_pub; _challenge_secret := [] |}.

Definition bad_target : pystr := py "http://[/ca2a/task".
Definition bad_target_error : exn :=
  get_err (PyExc OtherException []) (do_POST demo_node clocks bad_target None (fun _ => Ok [])).
Lemma bad_target_drops : do_POST demo_node clocks bad_target None (fun _ => Ok []) = Err bad_target_error.
Proof. apply get_err_spec. vm_compute. reflexivity. Qed.
Lemma lenient_errors : forall s e, check_netloc s = Err e -> is_value_error e = true.
Proof. intros s e. cbn. case_bool_decide; [by intros [= <-]|done]. Qed.
Lemma refusals_answered_witness : exn_class bad_target_error = None.
Proof.
  exact (refusals_answered demo_node clocks 0 [] bad_target None (fun _ => Ok []) bad_target_error
    lenient_errors (or_introl bad_target_drops)).
Defined.

Definition ones : pystr := repeat 49%N 4301.
Lemma long_length_escapes_witness :
  do_POST demo_node clocks TASK_PATH (Some ones) (fun _ => Ok []) = Err int_limit_error.
Proof.
  apply (long_length_escapes demo_node clocks ones (fun _ => Ok [])).
  - vm_compute. reflexivity.
  - unfold ones. rewrite repeat_length. apply Nat.ltb_lt. vm_compute. reflexivity.
Defined.
End ServerExample.
