(* ===== verification/Client.v ===== *)
(** * The HTTP client ([ca2a_runtime.transport.client])

    The caller side of a call: handshake, appraisal of the callee, sealing, the proofs
    the request carries, and what is made of the answer.  HTTP itself
    ([urllib.request]) is a record of two operations; the values drawn at random are
    arguments. *)
From S2P Require Export Server.
Import challenge holder tee sealed attestation peer adapter wire response url server.

Module client.

Definition _ALLOWED_SCHEMES : list pystr := map py ["http"; "https"]%string.
Definition _MAX_RESPONSE : N := 1048576.

(** [urllib.request]: the status and body of an answer, or the raised error.  An
    answer with an error status is an [HTTPError], which carries both. *)
Record Http := {
  http_get : pystr -> res (Z * bytes);
  http_post : pystr -> bytes -> res (Z * bytes);
  http_post_direct : pystr -> bytes -> res (Z * bytes)  (* no proxy, no redirect *)
}.

(** What [send_task] can raise: an exception of the runtime or a library, the peer's
    error as the client rebuilds it, or an authenticated denial. *)
Record peer_error := { pe_message : pystr; pe_detail : json; pe_code : pystr; pe_http_status : json }.
Inductive client_error :=
| Raised (e : exn)
| PeerError (e : peer_error)
| Denied (e : AuthenticatedPeerError).
Abbreviation cres A := (result client_error A).
Definition lift {A : Type} (r : res A) : cres A :=
  match r with Ok a => Ok a | Err e => Err (Raised e) end.

Section client.
Context `{U : Unidata, C : Crypto, F : FloatText, E : ErrorText, L : UrlLib, T : FloatTime}.

Definition _require_http_url (url : pystr) : res unit :=
  parsed ← urlparse url;
  raise_if (negb (bool_decide (scheme parsed ∈ _ALLOWED_SCHEMES)))
    (err_d TransportError (py "refusing to open a non-HTTP(S) URL")
       (py "scheme must be one of ('http', 'https')")).

(** [_read_bounded]: one byte past the limit is read, and refused. *)
Definition _read_bounded (body : bytes) : res bytes :=
  raise_if (_MAX_RESPONSE <? N.of_nat (length body))%N
    (err_d TransportError (py "peer response exceeds the maximum allowed size")
       (py "body must be at most 1048576 bytes"));;
  Ok body.

Definition _get_json (http : Http) (url : pystr) : res json :=
  _require_http_url url;;
  '(status, body) ← http_get http url;
  raise_if (negb ((200 <=? status) && (status <? 300))%Z) (PyExc OSError (py "HTTP error"));;
  body ← _read_bounded body;
  loads_bytes body.

Definition _post_json (http : Http) (url : pystr) (body : dict) : res (Z * json) :=
  _require_http_url url;;
  data ← dumps_bytes (JObj body);
  '(status, answer) ← http_post http url data;
  answer ← _read_bounded answer;
  value ← loads_bytes answer;
  Ok (status, value).

Definition _post_authenticated (http : Http) (url : pystr) (raw : bytes) : res (Z * bytes) :=
  _require_http_url url;;
  '(status, answer) ← http_post_direct http url raw;
  answer ← _read_bounded answer;
  Ok (status, answer).

Record Handshake := { hello_peer : VerifiedPeer; hello_challenge : option pystr }.

Definition handshake (http : Http) (base_url nonce : pystr) (verifier : option Verifier)
    (require_hardware : bool) : res Handshake :=
  body ← _get_json http (base_url ++ CHANNEL_PATH ++ py "?nonce=" ++ nonce);
  offer ← parse_channel_offer body;
  peer ← verify_offer offer nonce verifier require_hardware ROLE_CALLEE;
  challenge ← match body with JObj d => parse_challenge d | _ => Ok None end;
  Ok {| hello_peer := peer; hello_challenge := challenge |}.

Definition fetch_verified_peer (http : Http) (base_url nonce : pystr) (verifier : option Verifier)
    (require_hardware : bool) : res VerifiedPeer :=
  hello_peer <$> handshake http base_url nonce verifier require_hardware.

(** The arguments of [send_task]. *)
Record TaskCall := {
  tc_chain : list DelegationCredential;
  tc_capability : pystr;
  tc_record_id : pystr;
  tc_holder_key : ed_priv;
  tc_payload : option bytes;
  tc_verifier : option Verifier;
  tc_require_hardware : bool;
  tc_parent_record_hash : option pystr;
  tc_caller_provider : option Provider
}.
(** What the call draws: the handshake nonce, the sealing key and nonce, the offered
    channel key, and the response key and session. *)
Record Draws := {
  dr_nonce : pystr;
  dr_seal_key : x_priv;
  dr_seal_nonce : bytes;
  dr_channel_key : x_priv;
  dr_response_key : x_priv;
  dr_session : pystr
}.

(** The request [send_task] makes of a handshake. *)
Definition make_request (c : TaskCall) (d : Draws) (callee : VerifiedPeer) (challenge : pystr) : res PeerRequest :=
  sealed ← match tc_payload c with
           | None => Ok None
           | Some payload => Some <$> seal_to_peer (dr_seal_key d) (dr_seal_nonce d) callee payload []
           end;
  offered ← match tc_caller_provider c with
            | None => Ok None
            | Some provider => Some <$> offer_channel provider (dr_channel_key d) challenge ROLE_CALLER
            end;
  leaf ← last_hop (tc_chain c);
  holder ← build_holder_proof (tc_holder_key c) leaf challenge
    {| term_audience := peer_key callee; term_capability := tc_capability c;
       term_record_id := tc_record_id c; term_payload := sealed;
       term_channel_key := (fun o => channel_public_key o.2) <$> offered;
       term_parent_hash := tc_parent_record_hash c |};
  possession ← match offered with
    | None => Ok None
    | Some (caller_private_key, caller_offer) =>
        Some <$> prove_caller_possession caller_private_key (peer_key callee)
          (caller_possession_transcript
             {| pf_challenge := challenge; pf_callee_key := peer_key callee;
                pf_caller_key := channel_public_key caller_offer;
                pf_credential_id := credential_id leaf; pf_subject := subject leaf;
                pf_capability := tc_capability c; pf_record_id := tc_record_id c;
                pf_payload := sealed; pf_parent_hash := tc_parent_record_hash c;
                pf_holder_signature := Some (proof_signature holder) |})
    end;
  Ok {| chain := tc_chain c; requested_capability := tc_capability c; req_record_id := tc_record_id c;
        sealed_payload := sealed; parent_record_hash := tc_parent_record_hash c;
        caller_offer := snd <$> offered; holder_proof := Some holder; caller_possession := possession |}.

Definition _rehydrate_error (e : dict) : peer_error :=
  {| pe_message := str_of (default (JStr (py "peer error")) (dget (py "message") e));
     pe_detail := default JNull (dget (py "detail") e);
     pe_code := match dget (py "code") e with Some (JStr c) => c | _ => code CA2AError end;
     pe_http_status := match dget (py "http_status") e with
                       | Some (JInt z) => JInt z | Some (JBool b) => JBool b
                       | _ => JInt (http_status CA2AError)
                       end |}.

(** What [send_task] makes of a plain answer. *)
Definition read_answer (status : Z) (body : json) : cres dict :=
  if negb (status =? 200)%Z then
    d ← lift (get_attr body);
    e ← lift (get_attr (default (JObj []) (dget (py "error") d)));
    Err (PeerError (_rehydrate_error e))
  else
    match body with
    | JObj d => Ok (dpop (py "response_authentication") d)
    | JArr _ => Err (Raised (PyExc TypeError (py "pop expected at most 1 argument, got 2")))
    | _ => Err (Raised (no_attribute body "pop"))
    end.

Definition is_no_answer (e : exn) : bool :=
  is_os_error e || is_py HTTPException e || is_ca2a TransportError e.

(** The authenticated branch; the three readings are the pending response's clock's. *)
Definition send_authenticated (http : Http) (base_url : pystr) (callee : VerifiedPeer) (message : dict)
    (d : Draws) (timeout : time) (clock0 clock1 clock2 : res time) : cres dict :=
  pending ← lift (new_pending callee message timeout (dr_response_key d) (dr_session d) clock0);
  response ← lift (try_except
    ('(status, raw) ← _post_authenticated http (base_url ++ AUTHENTICATED_TASK_PATH) (_request pending);
     (verify pending status raw clock1 clock2).2)
    is_no_answer
    (fun _ => Err (err ResponseAuthenticationFailed
                     (py "no authenticated response; execution outcome is unknown"))));
  if negb (vr_status response =? 200)%Z
  then e ← lift (authenticated_peer_error response); Err (Denied e)
  else Ok (dset (py "response_authentication") (JObj (authentication response)) (vr_body response)).

(** [send_task]; the last argument is the authenticated profile's timing, when that is
    required. *)
Definition send_task (http : Http) (base_url : pystr) (c : TaskCall) (d : Draws)
    (authenticated : option (time * (res time * res time * res time))) : cres dict :=
  hello ← lift (handshake http base_url (dr_nonce d) (tc_verifier c) (tc_require_hardware c));
  challenge ← lift (or_raise (hello_challenge hello)
    (err_d AttestationFailed
       (py "the peer issued no challenge, so the caller cannot prove it holds the leaf key")
       (py "the callee's handshake response carried no 'challenge' field")));
  request ← lift (make_request c d (hello_peer hello) challenge);
  message ← lift (attach_ca2a_metadata [] request);
  match authenticated with
  | Some (timeout, (clock0, clock1, clock2)) =>
      send_authenticated http base_url (hello_peer hello) message d timeout clock0 clock1 clock2
  | None =>
      '(status, body) ← lift (_post_json http (base_url ++ TASK_PATH) message);
      read_answer status body
  end.
End client.
End client.
Import client.
