(* ===== verification/Call.v ===== *)
(** * A call from end to end

    The client against the server: the handshake an honest node answers, the request
    the caller makes of it, and the answer the caller reads.  HTTP is assumed to
    deliver: a request reaches the node whole and its answer comes back whole. *)
From S2P Require Export Client.
Import challenge holder tee sealed attestation peer adapter wire response url server client.

(** A provider that binds what it was asked to bind, with no empty evidence. *)
Definition binds (p : Provider) : Prop :=
  forall key n r rep, attest p key n r = Ok rep ->
    public_key rep = key /\ nonce rep = n /\ role rep = r /\
    raw_evidence rep <> Some [] /\ quote_signature rep <> Some [] /\
    attestation_key_pem rep <> Some [] /\ attestation_key_chain_pem rep <> Some [].
Lemma software_binds : binds SoftwareProvider.
Proof. intros key n r rep [= <-]. by split_and!. Qed.

(** ** The caller's request *)
Section request.
Context `{U : Unidata, C : Crypto, F : FloatText, E : ErrorText, P : Policy Pol}.

(** What [make_request] puts together. *)
Record Made (c : TaskCall) (d : Draws) (callee : VerifiedPeer) (ch : pystr) (req : PeerRequest)
    (leaf : DelegationCredential) : Prop := {
  made_leaf : last (tc_chain c) = Some leaf;
  made_chain : chain req = tc_chain c;
  made_capability : requested_capability req = tc_capability c;
  made_record_id : req_record_id req = tc_record_id c;
  made_parent : parent_record_hash req = tc_parent_record_hash c;
  made_sealed : match tc_payload c with
                | None => sealed_payload req = None
                | Some x => exists blob, sealed_payload req = Some blob /\
                    seal_to_peer (dr_seal_key d) (dr_seal_nonce d) callee x [] = Ok blob
                end;
  made_holder : exists proof, holder_proof req = Some proof /\
    build_holder_proof (tc_holder_key c) leaf ch (terms_of req (peer_key callee)) = Ok proof;
  made_offer : match tc_caller_provider c with
    | None => caller_offer req = None /\ caller_possession req = None
    | Some p => exists offer proof, caller_offer req = Some offer /\ caller_possession req = Some proof /\
        attest_channel p (x_public_hex (dr_channel_key d)) ch ROLE_CALLER = Ok offer /\
        prove_caller_possession (dr_channel_key d) (peer_key callee)
          (caller_possession_transcript
             {| pf_challenge := ch; pf_callee_key := peer_key callee;
                pf_caller_key := channel_public_key offer;
                pf_credential_id := credential_id leaf; pf_subject := subject leaf;
                pf_capability := tc_capability c; pf_record_id := tc_record_id c;
                pf_payload := sealed_payload req; pf_parent_hash := tc_parent_record_hash c;
                pf_holder_signature := proof_signature <$> holder_proof req |}) = Ok proof
    end
}.

Lemma make_request_made c d callee ch req :
  make_request c d callee ch = Ok req -> exists leaf, Made c d callee ch req leaf.
Proof.
  unfold make_request.
  intros (sealed & Hs & (offered & Ho & (leaf & Hl & (holder & Hh & (poss & Hp & [= <-])
    %bind_ok)%bind_ok)%bind_ok)%bind_ok)%bind_ok.
  exists leaf. apply last_hop_ok in Hl. split; cbn; try done.
  - destruct (tc_payload c) as [x|]; [|by injection Hs as <-].
    apply fmap_ok in Hs as (blob & Hb & ->). eauto.
  - exists holder. split; [done|]. rewrite <-Hh. unfold terms_of. cbn. do 2 f_equal.
    by destruct offered as [[]|].
  - destruct (tc_caller_provider c) as [p|].
    + apply fmap_ok in Ho as ([k offer] & Hk & ->).
      unfold offer_channel, generate_channel_keypair in Hk.
      apply bind_ok in Hk as (offer' & Hatt & [= <- <-]).
      apply fmap_ok in Hp as (proof & Hpr & ->). exists offer', proof. by split_and!.
    + injection Ho as <-. by injection Hp as <-.
Qed.

Lemma authentic_nonempty secret ch expiry : authentic secret ch expiry -> ch <> [].
Proof.
  intros (es & rand & m & -> & _) E1%(f_equal length). rewrite dotted4, length_app in E1. simpl in E1. lia.
Qed.

(** The callee's view of a request some authentic challenge was answered with. *)
Section answered.
Context `{!CryptoLaws C} (n : node.PeerNode (Pol := Pol)) (clk : Clocks)
  (c : TaskCall) (d : Draws) (callee : VerifiedPeer) (ch : pystr) (req : PeerRequest)
  (leaf : DelegationCredential) (expiry : Z).
Hypothesis Hnode : wf_node n.
Hypothesis Hcallee : peer_key callee = node.channel_public_key n.
Hypothesis Hmade : Made c d callee ch req leaf.
Hypothesis Hauth : authentic (node._challenge_secret n) ch expiry.
Hypothesis Hdrawn : length (dr_seal_nonce d) = _NONCE_LEN.
Hypothesis Hbinds : forall p, tc_caller_provider c = Some p -> binds p.

Lemma callee_key : peer_key callee = x_public_hex (node._private_key n).
Proof. rewrite Hcallee. apply (proj1 Hnode). Qed.

Lemma sealed_opens x blob :
  seal_to_peer (dr_seal_key d) (dr_seal_nonce d) callee x [] = Ok blob ->
  sealed_as blob (node._private_key n) [] x.
Proof.
  intros H. unfold seal_to_peer in H. rewrite callee_key in H.
  destruct (sealed_round_trip (node._private_key n) (dr_seal_key d) (dr_seal_nonce d) x [] Hdrawn)
    as (channel & blob' & Hch & Hs & Ho).
  rewrite Hch in H. simpl in H. rewrite Hs in H. injection H as <-. by apply open_sealed_ok.
Qed.

Lemma answered_opened revs : opened_as req (node.handle_options n revs) (tc_payload c).
Proof.
  unfold opened_as. pose proof (made_sealed _ _ _ _ _ _ Hmade) as Hs.
  destruct (tc_payload c) as [x|]; [|by rewrite Hs].
  destruct Hs as (blob & -> & Hs). exists (node._private_key n), x. split; [done|]. split; [|done].
  by apply sealed_opens.
Qed.

Lemma answered_holder revs :
  (holder_clock clk < expiry)%Z -> holder_bound clk req (node.handle_options n revs) leaf.
Proof.
  intros Hclk. destruct (made_holder _ _ _ _ _ _ Hmade) as (proof & Hp & Hb).
  apply build_holder_proof_ok in Hb as (Hk & m & Hm & ->).
  eexists _, (node.channel_public_key n), (node._challenge_secret n).
  split; [exact Hp|]. do 2 (split; [done|]). split; [by exists expiry|].
  rewrite Hcallee in Hm. exists (ed_public (tc_holder_key c)), (ed_sign (tc_holder_key c) m), m.
  rewrite <-Hk. split_and!; [apply ed_public_of_hex_hex|apply fromhex_hex|exact Hm|apply ed_verify_sign].
Qed.

(** The offer the caller made is one this node appraises. *)
Definition appraised (att : pystr) : Prop :=
  match caller_offer req with
  | None => node.require_caller_attestation n = REQUIRE_NONE /\ att = CALLER_NOT_OFFERED
  | Some offer =>
      exists peer, verify_offer offer ch (node.caller_verifier n) false ROLE_CALLER = Ok peer /\
        att = outcome_of peer /\
        (node.require_caller_attestation n = REQUIRE_HARDWARE -> att = CALLER_HARDWARE)
  end.

Lemma answered_attested revs att :
  (appraisal_clock clk < expiry)%Z -> appraised att -> attested clk req (node.handle_options n revs) leaf att.
Proof.
  intros Hclk. unfold appraised, attested. cbn [node.handle_options peer.require_caller_attestation].
  pose proof (made_offer _ _ _ _ _ _ Hmade) as Ho.
  destruct (tc_caller_provider c) as [p|] eqn:Ep.
  - destruct Ho as (offer & proof & -> & Hposs & Hatt & Hprove). intros (peer & Hv & -> & Hreq).
    split; [exact (proj1 (proj2 Hnode))|]. exists peer. split; [|by split].
    apply attest_channel_ok in Hatt as (Hkey & Hatt & Hrole).
    destruct (Hbinds p eq_refl _ _ _ _ Hatt) as (Hpk & Hn & _).
    exists (node._challenge_secret n), (node._private_key n), proof.
    do 3 (split; [done|]). split.
    + apply appraise_caller_ok. rewrite Hn. split; [by exists expiry|]. by apply verify_offer_ok.
    + rewrite callee_key in Hprove. apply (proved_possession_verifies (dr_channel_key d)).
      rewrite <-Hprove. f_equal. unfold request_transcript. f_equal.
      rewrite Hn, (made_capability _ _ _ _ _ _ Hmade), (made_record_id _ _ _ _ _ _ Hmade),
        (made_parent _ _ _ _ _ _ Hmade). f_equal. congruence.
  - destruct Ho as (-> & Hposs). intros (Hr & ->). split; [exact (proj1 (proj2 Hnode))|]. by split_and!.
Qed.

(** The result the callee reaches. *)
Definition result_of (rev : revocation.RevocationStatus) (effective : gset pystr) (att : pystr) : PeerResult :=
  {| effective_scope := effective; granted_capability := requested_capability req;
     record := allow_record leaf req att; payload := tc_payload c;
     caller_attestation := att; revocation_status := rev |}.

Lemma answered_accepted revs rev effective att :
  verify_chain_with (chain_clock clk) (tc_chain c) (chain_options (node.handle_options n revs)) = Ok rev ->
  intersect (node.policy n) (scope leaf) = Ok effective -> tc_capability c ∈ effective ->
  (holder_clock clk < expiry)%Z -> (appraisal_clock clk < expiry)%Z -> appraised att ->
  Accepted clk req (node.policy n) (node.handle_options n revs) (result_of rev effective att).
Proof.
  intros Hc Hi Hcap H1 H2 Ha. exists leaf. split; [|split; [apply answered_opened|done]].
  split; cbn.
  - by rewrite (made_chain _ _ _ _ _ _ Hmade).
  - rewrite (made_chain _ _ _ _ _ _ Hmade). apply (made_leaf _ _ _ _ _ _ Hmade).
  - intros _. by apply answered_holder.
  - done.
  - by apply answered_attested.
  - by rewrite (made_capability _ _ _ _ _ _ Hmade).
Qed.

Lemma hex_nonempty (b : bytes) : b <> [] -> hex b <> [].
Proof. destruct b as [|x b]; [done|]. intros _ H%(f_equal length). rewrite length_hex in H. done. Qed.

(** It is a request the wire can carry. *)
Lemma answered_wf :
  Forall wf_credential (tc_chain c) -> tc_capability c <> [] -> tc_record_id c <> [] -> wf_request req.
Proof.
  intros Hwf Hcap Hid. destruct Hmade as [Hl Hch Hca Hri Hpa Hs Hh Ho]. split.
  - rewrite Hch. split; [|done]. intros E1. by rewrite E1 in Hl.
  - by rewrite Hca.
  - by rewrite Hri.
  - destruct (tc_payload c) as [x|]; [|by rewrite Hs]. destruct Hs as (blob & -> & Hs).
    apply sealed_opens in Hs as (? & ? & ? & ? & -> & _). intros [=].
  - intros offer Hoff. destruct (tc_caller_provider c) as [p|]; [|destruct Ho; congruence].
    destruct Ho as (offer' & proof & E1 & _ & Hatt & _). rewrite Hoff in E1. injection E1 as <-.
    apply attest_channel_ok in Hatt as (_ & Hatt & Hrole).
    destruct (Hbinds _ eq_refl _ _ _ _ Hatt) as (_ & _ & _ & Hev).
    split; [|exact Hev]. rewrite Hrole. apply roles_spec. by right.
  - intros p Hp. destruct Hh as (proof & E1 & Hb). rewrite Hp in E1. injection E1 as <-.
    apply build_holder_proof_ok in Hb as (_ & m & _ & ->). cbn. split; [by eapply authentic_nonempty|].
    apply hex_nonempty. intros E1. pose proof (ed_sign_length (tc_holder_key c) m) as Hlen. by rewrite E1 in Hlen.
  - intros p Hp. destruct (tc_caller_provider c) as [pr|]; [|destruct Ho; congruence].
    destruct Ho as (offer' & proof & _ & E1 & _ & Hpr). rewrite Hp in E1. injection E1 as <-.
    apply prove_possession_ok in Hpr as (_ & _ & Hv & Hm).
    apply _possession_mac_ok in Hm as (? & ? & ? & ? & ? & _ & _ & _ & _ & _ & ->). split.
    + rewrite Hv. intros E1%(f_equal length). vm_compute in E1. discriminate E1.
    + apply hex_nonempty. intros E1%(f_equal length). by rewrite length_hmac_sha256 in E1.
Qed.
End answered.
End request.

(** ** The exchange *)
Section exchange.
Context `{U : Unidata, C : Crypto, F : FloatText, E : ErrorText, L : UrlLib, P : Policy Pol, T : FloatTime}.

(** The two targets the client asks for under its base URL. *)
Definition channel_target (nonce : pystr) : pystr := CHANNEL_PATH ++ py "?nonce=" ++ nonce.

(** HTTP between the caller and the node, for the two requests of a call: the GET of
    the channel offer under this nonce reaches [do_GET]; the POST of a task that fits
    the server's bound reaches [do_POST] with its length announced and its body
    readable; both answers come back; and both URLs are HTTP addresses. *)
Record connected (http : Http) (base : pystr) (n : node.PeerNode (Pol := Pol)) (time_ : Z)
    (token : pystr) (clk : Clocks) (nonce : pystr) : Prop := {
  conn_channel_url : _require_http_url (base ++ channel_target nonce) = Ok tt;
  conn_task_url : _require_http_url (base ++ TASK_PATH) = Ok tt;
  conn_get : http_get http (base ++ channel_target nonce) = do_GET n time_ token (channel_target nonce);
  conn_post : forall data, (N.of_nat (length data) <= 1048576)%N ->
    http_post http (base ++ TASK_PATH) data =
    do_POST n clk TASK_PATH (Some (str_N (N.of_nat (length data))))
      (fun len => Ok (take (Z.to_nat len) data))
}.

#[local] Open Scope N_scope.
Lemma hex_plain b : Forall (fun c => plain_char c = true) (hex b).
Proof.
  eapply Forall_impl; [apply hex_lower|]. intros c Hc. unfold is_lower_hex, is_digit in Hc. unfold plain_char, is_alpha, is_digit.
  rewrite !orb_true_iff, !andb_true_iff, !N.leb_le, !N.eqb_eq in *. lia.
Qed.
Lemma hex_free (x : N) b : plain_char x = false -> x ∉ hex b.
Proof. apply Forall_not_elem, hex_plain. Qed.

#[local] Transparent py.
Lemma nonce_target nonce :
  Forall (fun c => plain_char c = true) nonce ->
  urlparse (CHANNEL_PATH ++ py "?nonce=" ++ nonce) =
  Ok {| scheme := []; path := CHANNEL_PATH; query := py "nonce" ++ 61 :: nonce |}.
Proof.
  intros Hn.
  pose proof (urlparse_target (drop 1 CHANNEL_PATH) (py "nonce" ++ 61 :: nonce)) as H.
  change (47 :: drop 1 CHANNEL_PATH) with CHANNEL_PATH in H.
  change (47 :: drop 1 CHANNEL_PATH ++ 63 :: py "nonce" ++ 61 :: nonce)
    with (CHANNEL_PATH ++ py "?nonce=" ++ nonce) in H.
  apply H.
  - apply forallb_Forall. reflexivity.
  - apply Forall_app. split; [apply forallb_Forall; reflexivity|]. constructor; [reflexivity|].
    eapply Forall_impl; [exact Hn|]. intros c Hc. unfold query_char. by rewrite Hc.
  - cbn. discriminate.
Qed.
#[local] Opaque py.

Lemma unquote_plain s : Forall (fun c => plain_char c = true) s -> unquote_plus s = s.
Proof.
  intros H. unfold unquote_plus. assert (map (fun c => if c =? 43 then 32 else c) s = s) as ->.
  { induction H as [|c s Hc _ IH]; [done|]. simpl. rewrite IH.
    destruct (N.eqb_spec c 43) as [->|]; [discriminate Hc|done]. }
  unfold unquote. rewrite bool_decide_false; [done|]. by eapply Forall_not_elem.
Qed.

Lemma nonce_query nonce :
  Forall (fun c => plain_char c = true) nonce -> nonce <> [] ->
  parse_qs_get (py "nonce" ++ 61 :: nonce) 1 (py "nonce") = Ok [nonce].
Proof.
  intros Hn Hne. unfold parse_qs_get.
  assert (Forall (fun c => plain_char c = true) (py "nonce")) as Hk by (apply forallb_Forall; reflexivity).
  rewrite split_on_free.
  - simpl length. cbn [Nat.ltb Nat.leb]. cbn [raise_if mbind result_bind omap list_omap].
    rewrite split1_app by (by eapply Forall_not_elem).
    cbn [mbind option_bind]. rewrite bool_decide_false by done.
    by rewrite !unquote_plain, bool_decide_true.
  - rewrite elem_of_app, elem_of_cons. intros [H|[H|H]]; [|discriminate H|];
      by (eapply Forall_not_elem in H).
Qed.

(** The node's half of the handshake. *)
Lemma get_channel (n : node.PeerNode (Pol := Pol)) time_ token nonce o ch b :
  Forall (fun c => plain_char c = true) nonce -> nonce <> [] -> (length nonce <= _MAX_NONCE)%nat ->
  node.offer n nonce = Ok o -> node.issue_challenge n time_ token = Ok ch ->
  dumps_bytes (JObj (serialize_channel_offer o (Some ch))) = Ok b ->
  do_GET n time_ token (CHANNEL_PATH ++ py "?nonce=" ++ nonce) = Ok (200%Z, b).
Proof.
  intros Hn Hne Hlen Ho Hch Hb. unfold do_GET. rewrite nonce_target by done. cbn [mbind result_bind path query].
  rewrite bool_decide_true by done. cbn [negb]. rewrite nonce_query by done. cbn [try_except mbind result_bind].
  rewrite bool_decide_false by done. rewrite (proj2 (Nat.ltb_ge _ _) Hlen). cbn [orb].
  rewrite Ho. cbn [send_ca2a_error]. rewrite Hch. cbn [mbind result_bind]. by apply send_json_ok.
Qed.

Lemma read_bounded_ok b : N.of_nat (length b) <= 1048576 -> _read_bounded b = Ok b.
Proof. intros H. unfold _read_bounded. apply guard_pass; [by apply N.ltb_ge|done]. Qed.

Lemma handshake_completes http base (n : node.PeerNode (Pol := Pol)) time_ token clk nonce o ch verifier hw peer :
  connected http base n time_ token clk nonce ->
  Forall (fun c => plain_char c = true) nonce -> nonce <> [] -> (length nonce <= _MAX_NONCE)%nat ->
  node.offer n nonce = Ok o -> sendable o -> node.issue_challenge n time_ token = Ok ch -> ch <> [] ->
  on_wire (JObj (serialize_channel_offer o (Some ch))) ->
  verify_offer o nonce verifier hw ROLE_CALLEE = Ok peer ->
  handshake http base nonce verifier hw = Ok {| hello_peer := peer; hello_challenge := Some ch |}.
Proof.
  intros [Hurl _ Hget _] Hn Hne Hlen Ho Hsend Hch Hchne Hw Hv.
  destruct (on_wire_bytes _ Hw) as (b & Hb & Hl & Hload).
  unfold handshake. apply (bind_pass _ _ (JObj (serialize_channel_offer o (Some ch)))).
  { unfold _get_json. eapply bind_pass; [exact Hurl|].
    change (base ++ CHANNEL_PATH ++ py "?nonce=" ++ nonce) with (base ++ channel_target nonce). rewrite Hget.
    unfold channel_target. rewrite (get_channel n time_ token nonce o ch b) by done. cbn [mbind result_bind].
    apply guard_pass; [done|]. by rewrite read_bounded_ok. }
  apply (bind_pass _ _ o); [by apply parse_offer_round|]. apply (bind_pass _ _ peer); [done|].
  destruct (offer_dict_lookups o (Some ch)) as (_ & _ & L3). unfold parse_challenge. rewrite L3.
  cbn [fmap option_fmap option_map]. by rewrite nonempty_JStr.
Qed.

(** The node's half of the task exchange. *)
Lemma post_task (n : node.PeerNode (Pol := Pol)) clk data message r body b :
  N.of_nat (length data) <= 1048576 -> data <> [] -> loads_bytes data = Ok (JObj message) ->
  node.handle n clk message = Ok r -> serialize_peer_result r = Ok body -> dumps_bytes (JObj body) = Ok b ->
  do_POST n clk TASK_PATH (Some (str_N (N.of_nat (length data)))) (fun len => Ok (take (Z.to_nat len) data))
  = Ok (200%Z, b).
Proof.
  intros Hl Hne Hload Hh Hs Hb. unfold do_POST.
  assert (urlparse TASK_PATH = Ok {| scheme := []; path := TASK_PATH; query := [] |}) as -> by reflexivity.
  cbn [mbind result_bind path].
  assert (bool_decide (TASK_PATH = AUTHENTICATED_TASK_PATH) = false) as Hpath.
  { apply bool_decide_eq_false. intros H%(f_equal length). vm_compute in H. discriminate H. }
  rewrite Hpath, bool_decide_true by done. cbn [negb andb].
  assert (body_length (Some (str_N (N.of_nat (length data)))) = Ok (Some (Z.of_nat (length data)))) as ->.
  { apply body_length_ok. eexists. split; [done|]. split_and!.
    - destruct (str_N_head (N.of_nat (length data))) as [->|(? & ? & -> & _)]; done.
    - apply forallb_Forall, str_N_digits.
    - rewrite py_int_str_N; [by rewrite nat_N_Z|]. unfold int_max_str_digits. rewrite N2Nat.id.
      apply (N.le_lt_trans _ _ _ Hl). vm_compute. reflexivity.
    - destruct data; [done|]. simpl. lia.
    - unfold _MAX_BODY. lia. }
  cbn [mbind result_bind]. rewrite Nat2Z.id, firstn_all, Hload, Hh. cbn [send_ca2a_error].
  rewrite Hs. cbn [mbind result_bind]. by apply send_json_ok.
Qed.

Lemma result_no_authentication r body :
  serialize_peer_result r = Ok body -> dpop (py "response_authentication") body = body.
Proof.
  unfold serialize_peer_result. intros (rec & _ & [= <-])%bind_ok. cbn [dpop].
  by rewrite !bool_decide_false by (by apply py_neq).
Qed.
End exchange.

(** ** The promise of an honest call *)
Section promise.
Context `{U : Unidata, C : Crypto, F : FloatText, E : ErrorText, L : UrlLib, P : Policy Pol, T : FloatTime}.

(** A node and a caller that agree: the node is reachable, its provider vouches for its
    key to the caller's satisfaction, the caller's request can be made and authorizes
    what it asks, inside the challenge's window, and the messages fit the transport. *)
Record honest_call (http : Http) (base : pystr) (n : node.PeerNode (Pol := Pol)) (time_ : Z) (rnd : bytes)
    (clk : Clocks) (c : TaskCall) (d : Draws) (req : PeerRequest) (r : PeerResult) (body : dict) : Prop := {
  hc_node : wf_node n;
  hc_connected : connected http base n time_ (hex rnd) clk (dr_nonce d);
  hc_nonce : exists tok, dr_nonce d = hex tok /\ length tok = 16;
  hc_seal_nonce : length (dr_seal_nonce d) = _NONCE_LEN;
  hc_time : (0 <= time_)%Z /\ (time_ + node.challenge_ttl_seconds n < int_text_bound)%Z;
  hc_window : (holder_clock clk < time_ + node.challenge_ttl_seconds n)%Z /\
              (appraisal_clock clk < time_ + node.challenge_ttl_seconds n)%Z;
  hc_text : Forall wf_credential (tc_chain c) /\ tc_capability c <> [] /\ tc_record_id c <> [];
  hc_provider : forall p, tc_caller_provider c = Some p -> binds p;
  hc_exchange : exists offer callee ch message,
    node.offer n (dr_nonce d) = Ok offer /\ sendable offer /\
    verify_offer offer (dr_nonce d) (tc_verifier c) (tc_require_hardware c) ROLE_CALLEE = Ok callee /\
    node.issue_challenge n time_ (hex rnd) = Ok ch /\
    on_wire (JObj (serialize_channel_offer offer (Some ch))) /\
    make_request c d callee ch = Ok req /\
    attach_ca2a_metadata [] req = Ok message /\ on_wire (JObj message) /\
    appraised n ch req (caller_attestation r);
  hc_authorized : exists revs leaf,
    node.current_revocations n clk = Ok revs /\ last (tc_chain c) = Some leaf /\
    verify_chain_with (chain_clock clk) (tc_chain c) (chain_options (node.handle_options n revs)) =
      Ok (revocation_status r) /\
    intersect (node.policy n) (scope leaf) = Ok (effective_scope r) /\
    tc_capability c ∈ effective_scope r /\
    r = result_of c req leaf (revocation_status r) (effective_scope r) (caller_attestation r);
  hc_answer : serialize_peer_result r = Ok body /\ on_wire (JObj body)
}.

Lemma node_offer_key (n : node.PeerNode (Pol := Pol)) nonce o v hw callee :
  node.offer n nonce = Ok o -> verify_offer o nonce v hw ROLE_CALLEE = Ok callee ->
  peer_key callee = node.channel_public_key n.
Proof.
  intros (Hk & _)%attest_channel_ok (_ & _ & _ & Hp & _)%verify_offer_ok. by rewrite Hp.
Qed.

(** C1: an honest call completes.  When the node vouches for its key to the caller, the
    caller's chain, capability and attestation are ones the node accepts, and the call
    stays inside the challenge's window, [send_task] over HTTP returns exactly the
    serialized result of the node's decision: the node opens the very payload the
    caller gave, grants the capability it asked for, and no check on either side
    fails. *)
Theorem honest_call_completes `{!CryptoLaws C} http base n time_ rnd clk c d req r body
    (H : honest_call http base n time_ rnd clk c d req r body) :
  payload r = tc_payload c /\ granted_capability r = tc_capability c /\
  (exists message, node.handle n clk message = Ok r) /\
  send_task http base c d None = Ok body.
Proof.
  destruct H as [Hnode Hconn (tok & Htok & Hlen) Hseal [Ht0 Ht1] [Hw1 Hw2] (Hcreds & Hcap & Hid) Hprov
    (o & callee & ch & message & Ho & Hsend & Hv & Hch & Howire & Hreq & Hmsg & Hmwire & Happ)
    (revs & leaf & Hrevs & Hl & Hchain & Hpol & Hin & Hr) [Hser Hrwire]].
  pose proof (node_offer_key _ _ _ _ _ _ Ho Hv) as Hkey.
  pose proof (issued_authentic _ _ _ _ _ Hch Ht0 Ht1) as Hauth.
  destruct (make_request_made _ _ _ _ _ Hreq) as (leaf' & Hmade).
  pose proof (made_leaf _ _ _ _ _ _ Hmade) as Hl'. rewrite Hl in Hl'. injection Hl' as <-.
  pose proof (answered_wf n c d callee ch req leaf _ Hnode Hkey Hmade Hauth Hseal Hprov Hcreds Hcap Hid) as Hwf.
  destruct (on_wire_bytes _ Hmwire) as (data & Hdata & Hdlen & Hdload).
  destruct (on_wire_bytes _ Hrwire) as (b & Hb & Hblen & Hbload).
  assert (parse_peer_request message None = Ok (Some req)) as Hparse.
  { refine (proj1 (attach_parse_round_trip [] req message _ Hwf Hmsg _)); [by split; [constructor|]|done]. }
  assert (node.handle n clk message = Ok r) as Hhandle.
  { apply node_handle_ok. exists req, revs. split; [done|]. split; [done|]. rewrite Hr.
    by apply (answered_accepted n clk c d callee ch req leaf _ Hnode Hkey Hmade Hauth Hseal Hprov). }
  split; [by rewrite Hr|]. split; [rewrite Hr; apply (made_capability _ _ _ _ _ _ Hmade)|].
  split; [by exists message|].
  assert (handshake http base (dr_nonce d) (tc_verifier c) (tc_require_hardware c)
          = Ok {| hello_peer := callee; hello_challenge := Some ch |}) as Hhello.
  { apply (handshake_completes http base n time_ (hex rnd) clk (dr_nonce d) o); try done.
    - rewrite Htok. apply hex_plain.
    - rewrite Htok. apply hex_nonempty. by intros ->.
    - rewrite Htok, length_hex, Hlen. unfold _MAX_NONCE. lia.
    - by eapply authentic_nonempty. }
  unfold send_task. rewrite Hhello. cbn [lift mbind result_bind hello_challenge hello_peer or_raise].
  rewrite Hreq. cbn [lift mbind result_bind]. rewrite Hmsg. cbn [lift mbind result_bind].
  assert (_post_json http (base ++ TASK_PATH) message = Ok (200%Z, JObj body)) as ->.
  { unfold _post_json. destruct Hconn as [_ Hurl _ Hpost]. eapply bind_pass; [exact Hurl|].
    apply (bind_pass _ _ data); [done|]. rewrite Hpost by done.
    rewrite (post_task n clk data message r body b) by
      (try done; by apply (dumps_bytes_nonempty (JObj message)); [apply Hmwire|]).
    cbn [mbind result_bind]. rewrite read_bounded_ok by done. cbn [mbind result_bind]. by rewrite Hbload. }
  cbn [lift mbind result_bind]. unfold read_answer. cbn. by rewrite (result_no_authentication r body Hser).
Qed.
End promise.

(** ** A concrete call

    The two-hop chain of [ChainExample], held by its leaf, against a software node; the
    payload is sealed on the way. *)
Module CallExample.
Import AsciiOnly Toy ChainExample ChallengeExample PeerExample AdapterExample ResponseExample.
#[export] Existing Instance ServerExample.lenient_urls.

Definition callee_node : node.PeerNode :=
  {| node.policy := policy_; node.provider := SoftwareProvider; node.max_depth := 8;
     node.require_caller_attestation := REQUIRE_NONE; node.caller_verifier := None;
     node.challenge_ttl_seconds := 60; node.require_holder_proof := true;
     node.trusted_root_issuers := {[pub 1]}; node.agent_manifest := None;
     node.revocation_source := None; node.max_revocation_staleness := None;
     node._private_key := enclave; node.channel_public_key := enclave_pub;
     node._challenge_secret := secret |}.
Definition base : pystr := py "http://callee".
(** The network routes what is under the node's address; nothing else is there. *)
Definition route {A} (answer : pystr -> res A) (url : pystr) : res A :=
  match strip_prefix (base ++ [47%N]) url with
  | Some t => answer (47%N :: t)
  | None => Err (PyExc OSError (py "unreachable"))
  end.
Definition network : Http :=
  {| http_get := route (do_GET callee_node 100 (hex random_));
     http_post := fun url data => route (fun t =>
       do_POST callee_node clocks t (Some (str_N (N.of_nat (length data))))
         (fun len => Ok (take (Z.to_nat len) data))) url;
     http_post_direct := fun _ _ => Err (PyExc OSError []) |}.
Definition nonce_bytes : bytes := ascii_bytes "fedcba9876543210".
Definition task : TaskCall (C := toy) :=
  {| tc_chain := demo_chain; tc_capability := py "read"; tc_record_id := py "r1"; tc_holder_key := 3%N;
     tc_payload := Some (ascii_bytes "task"); tc_verifier := None; tc_require_hardware := false;
     tc_parent_record_hash := None; tc_caller_provider := None |}.
Definition draws : Draws (C := toy) :=
  {| dr_nonce := hex nonce_bytes; dr_seal_key := 9%N; dr_seal_nonce := ascii_bytes "nonce-twelve";
     dr_channel_key := 8%N; dr_response_key := 4%N; dr_session := [] |}.
Definition node_offer : ChannelOffer :=
  {| channel_public_key := enclave_pub; report := software_report enclave_pub (hex nonce_bytes) ROLE_CALLEE |}.
Definition callee : VerifiedPeer :=
  {| peer_key := enclave_pub; assurance := py "none"; peer_measurement := SOFTWARE_MEASUREMENT |}.
Definition request : PeerRequest := get_ok plain (make_request task draws callee issued).
Lemma request_made : make_request task draws callee issued = Ok request.
Proof. apply get_ok_spec. vm_compute. reflexivity. Qed.
Definition sent : dict := get_ok [] (attach_ca2a_metadata [] request).
Lemma sent_attached : attach_ca2a_metadata [] request = Ok sent.
Proof. apply get_ok_spec. vm_compute. reflexivity. Qed.
Definition outcome : PeerResult :=
  result_of task request leaf plain_rev leaf_scope CALLER_NOT_OFFERED.
Definition reply : dict := get_ok [] (serialize_peer_result outcome).
Lemma reply_made : serialize_peer_result outcome = Ok reply.
Proof. apply get_ok_spec. vm_compute. reflexivity. Qed.

Lemma offer_fits : on_wire (JObj (serialize_channel_offer node_offer (Some issued))).
Proof. apply on_wireb_spec. vm_compute. reflexivity. Qed.
Lemma sent_fits : on_wire (JObj sent).
Proof. apply on_wireb_spec. vm_compute. reflexivity. Qed.
Lemma reply_fits : on_wire (JObj reply).
Proof. apply on_wireb_spec. vm_compute. reflexivity. Qed.
Lemma no_offer : caller_offer request = None.
Proof. vm_compute. reflexivity. Qed.
Lemma demo_wf : Forall wf_credential demo_chain.
Proof.
  constructor; [exact (proj1 (from_dict_sound _ _ root_wire))|].
  constructor; [exact (proj1 (from_dict_sound _ _ leaf_wire))|constructor].
Qed.

#[local] Transparent py.
Lemma linked : connected network base callee_node 100 (hex random_) clocks (dr_nonce draws).
Proof. split; reflexivity. Qed.
#[local] Opaque py.
#[local] Opaque request sent reply issued leaf root plain_rev leaf_scope int_text_bound secret.

Lemma honest : honest_call network base callee_node 100 random_ clocks task draws request outcome reply.
Proof.
  split.
  - split; [reflexivity|]. split; [exact none_required|]. intros H. by apply py_neq in H.
  - exact linked.
  - exists nonce_bytes. split; reflexivity.
  - reflexivity.
  - split; [lia|exact bound_ok].
  - split; reflexivity.
  - split; [exact demo_wf|]. split; intros H%(f_equal length); vm_compute in H; discriminate H.
  - intros p [=].
  - exists node_offer, callee, issued, sent.
    split; [apply attest_channel_ok; done|]. split.
    { split; [apply roles_spec; by left|]. by split_and!. }
    split. { apply verify_offer_ok. split_and!; try done. left. by split_and!. }
    split; [exact issued_ok|]. split; [exact offer_fits|]. split; [exact request_made|].
    split; [exact sent_attached|]. split; [exact sent_fits|].
    unfold appraised. rewrite no_offer. split; reflexivity.
  - exists None, leaf. split; [reflexivity|]. split; [reflexivity|].
    split; [exact plain_verified|]. split; [exact leaf_intersect|].
    split; [|reflexivity]. by_decision.
  - split; [exact reply_made|exact reply_fits].
Qed.

Lemma honest_call_completes_witness : send_task (C := toy) network base task draws None = Ok reply.
Proof.
  exact (proj2 (proj2 (proj2 (honest_call_completes (C := toy) network base callee_node 100 random_ clocks
    task draws request outcome reply honest)))).
Defined.
End CallExample.
