(* ===== verification/Trace.v ===== *)
(** * TRACE records ([ca2a_runtime.trace_binding])

    A delegation hop as a signed TRACE Trust Record, linked to its parent by the hash
    of the parent's full signed record.  Signing, verification and structural
    validation ([agentrust_trace]) and the canonical bytes ([rfc8785]) are third-party
    packages: the interface [TraceLib]. *)
From S2P Require Export Base64.

Class TraceLib `{C : Crypto} := {
  (** [agentrust_trace.sign_record(record, key)] *)
  sign_record : dict -> ed_priv -> res dict;
  (** [agentrust_trace.validate_json(record)] *)
  validate_json : dict -> res unit;
  (** [agentrust_trace.verify_record(record, jwk, max_age_seconds)] at a clock *)
  verify_record : Z -> dict -> json -> option Z -> res unit;
  (** [rfc8785.dumps(record)] *)
  rfc8785_dumps : dict -> res bytes
}.

Module trace.

Definition EAT_PROFILE : pystr := py "tag:agentrust-io.com,2026:trace-v0.2".
Definition SOFTWARE_PLATFORM : pystr := py "software-only".
Definition LINK_DIGEST : pystr := py "sha256".

Definition digest (data : bytes) : pystr := py "sha256:" ++ sha256_hex data.

Record HopContext := {
  model_provider : pystr;
  model_id : pystr;
  runtime_measurement : pystr;
  policy_bundle_hash : pystr;
  build_digest : pystr;
  appraisal_verifier : pystr;
  transparency : pystr;
  runtime_platform : pystr;
  enforcement_mode : pystr;
  data_class : pystr;
  slsa_level : Z;
  appraisal_status : pystr;
  runtime_nonce : option pystr;
  model_version : option pystr;
  policy_version : option pystr
}.

(** [HopContext.software] *)
Definition software (model_provider model_id image_label policy_bundle_hash data_class enforcement_mode : pystr)
    (runtime_nonce : option pystr) : res HopContext :=
  label ← encode_utf8 image_label;
  build ← encode_utf8 (py "software-build:" ++ image_label);
  Ok {| model_provider := model_provider; model_id := model_id;
        runtime_measurement := digest label; policy_bundle_hash := policy_bundle_hash;
        build_digest := digest build;
        appraisal_verifier := py "https://appraisal.invalid/software-mode";
        transparency := py "https://transparency.invalid/software-mode";
        runtime_platform := SOFTWARE_PLATFORM; enforcement_mode := enforcement_mode;
        data_class := data_class; slsa_level := 0; appraisal_status := py "none";
        runtime_nonce := runtime_nonce; model_version := None; policy_version := None |}.

(** [if value is not None: d[name] = value] *)
Definition optional_item (name : string) (value : option pystr) : dict :=
  match value with Some v => [(py name, JStr v)] | None => [] end.

Definition build_trace_record (subject : pystr) (iat : Z) (context : HopContext)
    (credential_id parent_record_hash : option pystr) : res dict :=
  raise_if (negb (Bool.eqb (bool_decide (parent_record_hash = None)) (bool_decide (credential_id = None))))
    (PyExc ValueError
       (py "the delegation block needs both parent_record_hash and credential_id; " ++
        py "a root hop supplies neither"));;
  Ok ([(py "eat_profile", JStr EAT_PROFILE);
       (py "iat", JInt iat);
       (py "subject", JStr subject);
       (py "model", JObj ([(py "provider", JStr (model_provider context));
                           (py "model_id", JStr (model_id context))] ++
                          optional_item "version" (model_version context)));
       (py "runtime", JObj ([(py "platform", JStr (runtime_platform context));
                             (py "measurement", JStr (runtime_measurement context))] ++
                            optional_item "nonce" (runtime_nonce context)));
       (py "policy", JObj ([(py "bundle_hash", JStr (policy_bundle_hash context));
                            (py "enforcement_mode", JStr (enforcement_mode context))] ++
                           optional_item "version" (policy_version context)));
       (py "data_class", JStr (data_class context));
       (py "build_provenance", JObj [(py "slsa_level", JInt (slsa_level context));
                                     (py "digest", JStr (build_digest context))]);
       (py "appraisal", JObj [(py "status", JStr (appraisal_status context));
                              (py "verifier", JStr (appraisal_verifier context))]);
       (py "transparency", JStr (transparency context))] ++
      match parent_record_hash with
      | Some h => [(py "delegation", JObj [(py "parent_record_hash", JStr h);
                                           (py "credential_id", opt_str credential_id)])]
      | None => []
      end).

Section emit.
Context `{C : Crypto, T : !TraceLib}.

Definition sign_trace_record (record : dict) (key : ed_priv) : res dict := sign_record record key.

Definition trace_record_hash (signed_record : dict) : res pystr :=
  data ← rfc8785_dumps signed_record;
  Ok (LINK_DIGEST ++ py ":" ++ sha256_hex data).

Record HopSpec := {
  hop_subject : pystr;
  signing_key : ed_priv;
  hop_context : HopContext;
  hop_iat : Z;
  hop_credential_id : pystr
}.

(** The loop of [emit_dag], from hop [i]. *)
Fixpoint emit_from (i : N) (parent_hash : option pystr) (hops : list HopSpec) : res (list dict) :=
  match hops with
  | [] => Ok []
  | hop :: hops =>
      let credential_id := if (i =? 0)%N then None else Some (hop_credential_id hop) in
      record ← build_trace_record (hop_subject hop) (hop_iat hop) (hop_context hop) credential_id parent_hash;
      signed ← sign_trace_record record (signing_key hop);
      h ← trace_record_hash signed;
      rest ← emit_from (i + 1) (Some h) hops;
      Ok (signed :: rest)
  end.
Definition emit_dag (hops : list HopSpec) : res (list dict) := emit_from 0 None hops.
End emit.
End trace.
Import trace.

(** ** The documented behaviour of the packages *)

(** The record confirms the key [raw] in its [cnf] claim. *)
Definition confirms (record : dict) (jwk : dict) (raw : bytes) : Prop :=
  (exists cnf, dget (py "cnf") record = Some (JObj cnf) /\ dget (py "jwk") cnf = Some (JObj jwk)) /\
  dget (py "kty") jwk = Some (JStr (py "OKP")) /\ dget (py "crv") jwk = Some (JStr (py "Ed25519")) /\
  dget (py "x") jwk = Some (JStr (b64url.b64url_encode raw)).

Class TraceLaws `{C : Crypto} (T : TraceLib) := {
  (** Signing sets [cnf] and [signature], keeps every other field, and returns a dict. *)
  sign_keeps record key signed k :
    sign_record record key = Ok signed -> k <> py "cnf" -> k <> py "signature" ->
    dget k signed = dget k record;
  sign_wf record key signed :
    sign_record record key = Ok signed -> wf_json (JObj record) -> wf_json (JObj signed);
  (** The record confirms the signing key, and verifies under it. *)
  sign_confirms record key signed :
    sign_record record key = Ok signed ->
    exists jwk, confirms signed jwk (ed_public key) /\
      forall clock, verify_record clock signed (JObj jwk) None = Ok tt;
  (** Two records of the same canonical bytes are equal up to the order of keys. *)
  rfc8785_dumps_inj r1 r2 b :
    wf_json (JObj r1) -> wf_json (JObj r2) ->
    rfc8785_dumps r1 = Ok b -> rfc8785_dumps r2 = Ok b -> json_equiv (JObj r1) (JObj r2)
}.
