(* ===== verification/Dag.v ===== *)
(** * TRACE DAG verification ([ca2a_verify.dag])

    The offline verifier of the signed TRACE records a workflow emitted, one per
    hop, and its cross-check against a delegation chain. *)
From S2P Require Export Chain Base64 Trace.
Import trace.
#[local] Open Scope N_scope.

(** ** The lenient base64url decoder of the standard library

    [binascii.a2b_base64] without strict mode skips characters outside the alphabet
    and stops at the padding that completes a group. *)
Definition b64_val_any (c : N) : option N :=
  match b64_val c with
  | Some v => Some v
  | None => if c =? 43 then Some 62 else if c =? 47 then Some 63 else None
  end.

(** The sextets read, and whether a padding sequence ended the text; [quad] is the
    position in the group of four and [pads] the pads seen since the last sextet. *)
Fixpoint a2b_scan (quad pads : N) (s : pystr) : list N * bool :=
  match s with
  | [] => ([], false)
  | c :: s =>
      if c =? 61 then
        if 2 <=? quad then
          if 4 <=? quad + (pads + 1) then ([], true) else a2b_scan quad (pads + 1) s
        else a2b_scan quad pads s
      else
        match b64_val_any c with
        | None => a2b_scan quad pads s
        | Some v => let (vs, done) := a2b_scan ((quad + 1) mod 4) 0 s in (v :: vs, done)
        end
  end.

Definition a2b_base64 (s : pystr) : res bytes :=
  let (vs, done) := a2b_scan 0 0 s in
  let n := N.of_nat (length vs) in
  raise_if (negb done && (n mod 4 =? 1))
    (PyExc ValueError
       (py "Invalid base64-encoded string: number of data characters (" ++ str_N n ++
        py ") cannot be 1 more than a multiple of 4"));;
  raise_if (negb done && negb (n mod 4 =? 0)) (PyExc ValueError (py "Incorrect padding"));;
  Ok (default [] (sextets vs)).

Module dag.

(** [_DIGEST_RE.match(value)]; the [$] also matches before a final newline. *)
Definition match_digest (value : pystr) : bool :=
  let form (s : pystr) :=
    match strip_prefix (py "sha256:") s with
    | Some h => fullmatch_hex 64 h
    | None => match strip_prefix (py "sha384:") s with Some h => fullmatch_hex 96 h | None => false end
    end in
  form value ||
  match rev value with c :: s => (c =? 10) && form (rev s) | [] => false end.

Definition record_err (i : N) (text : string) : exn :=
  err TraceRecordInvalid (py "record " ++ str_N i ++ py text).

(** The profile's fields. *)
Definition BLOCK_FIELDS : gset pystr := keys_of ["parent_record_hash"; "credential_id"]%string.

Definition _validate_delegation_block `{U : Unidata} (block : json) (index : N) : res unit :=
  match block with
  | JNull => Ok tt
  | JObj d =>
      raise_if (negb (bool_decide (dkeys d = BLOCK_FIELDS)))
        (err_d TraceRecordInvalid
           (py "record " ++ str_N index ++ py " delegation block has unexpected fields")
           (py "got " ++ repr_list (sorted_set (dkeys d)) ++
            py ", expected parent_record_hash + credential_id"));;
      parent_hash ← or_raise (any_str (field "parent_record_hash" d))
        (record_err index " delegation.parent_record_hash is not a digest");
      raise_if (negb (match_digest parent_hash))
        (record_err index " delegation.parent_record_hash is not a digest");;
      _ ← or_raise (nonempty_str (field "credential_id" d))
        (record_err index " delegation.credential_id is missing");
      Ok tt
  | _ => Err (record_err index " delegation block is not an object")
  end.

Definition _b64url_decode (value : pystr) : res bytes :=
  let padded := value ++ repeat 61 (Z.to_nat (- Z.of_nat (length value) mod 4)) in
  raise_if (negb (is_ascii padded))
    (PyExc ValueError (py "string argument should contain only ASCII characters"));;
  a2b_base64 padded.

Definition _jwk_raw (jwk : dict) : res bytes :=
  raise_if (negb (bool_decide (dget (py "kty") jwk = Some (JStr (py "OKP"))) &&
                  bool_decide (dget (py "crv") jwk = Some (JStr (py "Ed25519")))))
    (err_d TraceRecordInvalid (py "unsupported cnf.jwk key type") (py "expected an OKP/Ed25519 key"));;
  x ← or_raise (any_str (field "x" jwk))
    (err TraceRecordInvalid (py "cnf.jwk is missing its 'x' parameter"));
  try_except (_b64url_decode x) is_value_error
    (fun exc => Err (err_d TraceRecordInvalid (py "cnf.jwk 'x' is not valid base64url") (exn_str exc))).

(** A trusted key as the caller supplies it: a key object by its raw bytes, a JWK, or
    a value of another type. *)
Inductive trusted_key :=
| EdKey (raw : bytes)
| JwkKey (jwk : dict)
| OtherKey (type_name : pystr).

Definition trusted_raw_key (key : trusted_key) : res bytes :=
  match key with
  | EdKey raw => Ok raw
  | JwkKey jwk => _jwk_raw jwk
  | OtherKey t => Err (PyExc TypeError (py "unsupported trusted key type: " ++ t))
  end.
Definition _trusted_raw_keys (trusted_keys : list trusted_key) : res (gset bytes) :=
  raw ← mapM_res trusted_raw_key trusted_keys;
  Ok (list_to_set raw).

Record TraceDagResult := {
  dag_hops : N;
  dag_root_subject : json;
  dag_leaf_subject : json;
  dag_subjects : list json
}.

(** [record.get("delegation")], [record.get("cnf", {}).get("jwk", {})] *)
Definition delegation_of (record : dict) : json := field "delegation" record.
Definition cnf_jwk (record : dict) : res dict :=
  cnf ← get_attr (default (JObj []) (dget (py "cnf") record));
  get_attr (default (JObj []) (dget (py "jwk") cnf)).

(** [delegation["parent_record_hash"]] of a block that passed validation. *)
Definition parent_link (delegation : json) : res pystr :=
  match delegation with
  | JObj d =>
      match dget (py "parent_record_hash") d with
      | Some (JStr link) => Ok link
      | Some v => Err (no_attribute v "startswith")
      | None => Err (PyExc KeyError (py "'parent_record_hash'"))
      end
  | v => Err (PyExc TypeError (py "'" ++ type_name v ++ py "' object is not subscriptable"))
  end.

Section verify.
Context `{U : Unidata, C : Crypto, T : !TraceLib}.

(** The checks of a record by itself: structure, block, key and signature. *)
Definition check_record (clock : Z) (trusted : gset bytes) (max_age_seconds : option Z) (i : N)
    (record : json) : res dict :=
  match record with
  | JObj record =>
      try_except (validate_json (dpop (py "delegation") record)) (fun _ => true)
        (fun exc => Err (err_d TraceRecordInvalid
           (py "record " ++ str_N i ++ py " is not a valid TRACE record") (exn_str exc)));;
      _validate_delegation_block (delegation_of record) i;;
      jwk ← cnf_jwk record;
      raw ← _jwk_raw jwk;
      raise_if (negb (bool_decide (raw ∈ trusted))) (record_err i " is signed by an untrusted key");;
      try_except
        (try_except (verify_record clock record (JObj jwk) max_age_seconds) (is_py InvalidSignature)
           (fun _ => Err (record_err i " signature does not verify")))
        is_value_error
        (fun exc => Err (err_d TraceRecordInvalid
           (py "record " ++ str_N i ++ py " could not be verified") (exn_str exc)));;
      Ok record
  | v =>
      Err (err_d TraceRecordInvalid (py "record " ++ str_N i ++ py " is not a JSON object")
             (py "got " ++ type_name v))
  end.

(** The link of record [i]; [prev_hash] is set from the second record on. *)
Definition check_trace_link (i : N) (prev_hash : option pystr) (delegation : json) : res unit :=
  if i =? 0 then
    raise_if (negb (bool_decide (delegation = JNull)))
      (err ProvenanceLinkBroken (py "root record must not carry a delegation block"))
  else
    raise_if (bool_decide (delegation = JNull))
      (err ProvenanceLinkBroken (py "record " ++ str_N i ++ py " is missing its delegation block"));;
    link ← parent_link delegation;
    raise_if (match strip_prefix (LINK_DIGEST ++ py ":") link with Some _ => false | None => true end)
      (err_d TraceDigestUnsupported
         (py "record " ++ str_N i ++
          py " parent link names a digest this verifier does not implement")
         (py "the link is " ++ default [] (head (split_on 58 link)) ++ py ", this verifier computes " ++
          LINK_DIGEST ++ py "; the chain is unverifiable here, not invalid"));;
    raise_if (negb (bool_decide (Some link = prev_hash)))
      (err_d ProvenanceLinkBroken
         (py "record " ++ str_N i ++ py " parent link does not match the previous record's hash")
         (py "a tampered or reparented record was detected")).

(** The loop of [verify_trace_dag], from record [i]; the subjects of the records. *)
Fixpoint verify_from (clock : Z) (trusted : gset bytes) (max_age_seconds : option Z) (i : N)
    (prev_hash : option pystr) (seen_hashes : gset pystr) (records : list json) : res (list json) :=
  match records with
  | [] => Ok []
  | record :: records =>
      record ← check_record clock trusted max_age_seconds i record;
      record_hash ← trace_record_hash record;
      raise_if (bool_decide (record_hash ∈ seen_hashes))
        (err ProvenanceLinkBroken (py "record " ++ str_N i ++ py " repeats an earlier record"));;
      check_trace_link i prev_hash (delegation_of record);;
      subject ← or_raise (dget (py "subject") record) (PyExc KeyError (py "'subject'"));
      subjects ← verify_from clock trusted max_age_seconds (i + 1) (Some record_hash)
        ({[record_hash]} ∪ seen_hashes) records;
      Ok (subject :: subjects)
  end.

Definition verify_trace_dag (clock : Z) (records : list json) (trusted_keys : list trusted_key)
    (max_age_seconds : option Z) : res TraceDagResult :=
  raise_if (bool_decide (records = [])) (err ProvenanceLinkBroken (py "empty TRACE DAG"));;
  trusted ← _trusted_raw_keys trusted_keys;
  subjects ← verify_from clock trusted max_age_seconds 0 None ∅ records;
  Ok {| dag_hops := N.of_nat (length records);
        dag_root_subject := default JNull (head subjects);
        dag_leaf_subject := default JNull (last subjects);
        dag_subjects := subjects |}.
End verify.

(** The loop of [cross_check_trace_dag]. *)
Fixpoint cross_from (i : N) (records : list json) (chain : list DelegationCredential) : res unit :=
  match records, chain with
  | record :: records, c :: chain =>
      record ← get_attr record;
      (if i =? 0 then Ok tt
       else
         delegation ← get_attr (if truthy (delegation_of record) then delegation_of record else JObj []);
         raise_if (negb (bool_decide (field "credential_id" delegation = JStr (credential_id c))))
           (err ProvenanceLinkBroken
              (py "record " ++ str_N i ++ py " credential_id does not match the chain")));;
      jwk ← cnf_jwk record;
      raw ← _jwk_raw jwk;
      raise_if (negb (bool_decide (hex raw = subject c)))
        (err ProvenanceLinkBroken
           (py "record " ++ str_N i ++ py " was signed by a key that is not chain[" ++ str_N i ++
            py "].subject"));;
      cross_from (i + 1) records chain
  | _, _ => Ok tt
  end.

Definition cross_check_trace_dag (records : list json) (chain : list DelegationCredential) : res unit :=
  raise_if (negb (Nat.eqb (length records) (length chain)))
    (err ProvenanceLinkBroken
       (py "DAG length " ++ str_N (N.of_nat (length records)) ++
        py " does not match chain length " ++ str_N (N.of_nat (length chain))));;
  cross_from 0 records chain.
End dag.
Import dag.

(** ** What the verifier accepts *)
Section spec.
Context `{U : Unidata, C : Crypto, T : !TraceLib}.
Implicit Types (d : dict) (ds : list dict) (h : pystr) (hs : list pystr).

(** A delegation block, or none. *)
Definition block_ok (b : json) : Prop :=
  b = JNull \/
  exists d h cid, b = JObj d /\ dkeys d = BLOCK_FIELDS /\
    dget (py "parent_record_hash") d = Some (JStr h) /\ match_digest h = true /\
    dget (py "credential_id") d = Some (JStr cid) /\ cid <> [].

(** A record acceptable by itself. *)
Record RecordOk (clock : Z) (trusted : gset bytes) (max_age : option Z) d : Prop := {
  rk_valid : exists u, validate_json (dpop (py "delegation") d) = Ok u;
  rk_block : block_ok (delegation_of d);
  rk_signed : exists jwk raw, cnf_jwk d = Ok jwk /\ _jwk_raw jwk = Ok raw /\ raw ∈ trusted /\
    exists u, verify_record clock d (JObj jwk) max_age = Ok u
}.

(** The record names [prev] as its parent, or no parent. *)
Definition follows (prev : option pystr) d : Prop :=
  match prev with
  | None => delegation_of d = JNull
  | Some p => exists b, delegation_of d = JObj b /\ dget (py "parent_record_hash") b = Some (JStr p)
  end.

(** [trace_linked prev ds hs]: the records follow [prev], each naming the hash of the
    one before it; [hs] are their hashes. *)
Inductive trace_linked : option pystr -> list dict -> list pystr -> Prop :=
| trace_linked_nil prev : trace_linked prev [] []
| trace_linked_cons prev d h ds hs :
    trace_record_hash d = Ok h -> follows prev d -> trace_linked (Some h) ds hs ->
    trace_linked prev (d :: ds) (h :: hs).

Definition subject_of d (s : json) : Prop := dget (py "subject") d = Some s.
End spec.

Section laws.
Context `{U : Unidata, C : Crypto, T : !TraceLib}.
Implicit Types (d : dict) (ds : list dict) (h : pystr) (hs : list pystr).

Lemma validate_delegation_block_ok b i u : _validate_delegation_block b i = Ok u <-> block_ok b.
Proof.
  unfold block_ok. destruct b as [| | | | | |d]; cbn [_validate_delegation_block];
    try (by split; [|intros [?|(? & ? & ? & ? & ?)]]).
  { destruct u. split; [by left|done]. }
  rewrite seq_ok, (ok_unit _ _ (guard_ok _ _)). split.
  - intros [Hk H]. right. inv_ok. apply any_str_Some in Hs. apply nonempty_str_Some in Hs1 as [Hs1 Hne].
    assert (forall k, py k ∈ BLOCK_FIELDS -> dget (py k) d = Some (field k d)) as Hf.
    { intros k Hin. rewrite <-Hk in Hin. apply elem_of_dkeys in Hin as [v Hv].
      by rewrite (field_get _ _ _ Hv). }
    exists d, a, a1. split_and!; [done|done| |by apply negb_false_iff| |done].
    + by rewrite Hf, Hs by (by apply elem_of_keys_py).
    + by rewrite Hf, Hs1 by (by apply elem_of_keys_py).
  - intros [?|(d' & h & cid & [= <-] & Hk & Hh & Hm & Hc & Hne)]; [done|]. split; [done|].
    rewrite (field_get _ _ _ Hh), (field_get _ _ _ Hc). simpl. rewrite Hm. simpl.
    destruct u. destruct cid; [done|reflexivity].
Qed.

Lemma check_record_ok clock trusted max_age i r d :
  check_record clock trusted max_age i r = Ok d <-> r = JObj d /\ RecordOk clock trusted max_age d.
Proof.
  destruct r as [| | | | | |d']; cbn [check_record]; try (by split; [|intros [? _]]). split.
  - intros H. inv_ok. split; [done|]. split; [by eexists| |].
    + by eapply validate_delegation_block_ok.
    + exists a1, a2. bool_to_prop. split_and!; try done. by eexists.
  - intros [[= <-] [[u Hv] Hb (jwk & raw & Hj & Hr & Ht & [w Hw])]]. rewrite Hv. cbn [try_except].
    apply bind_ok. exists u. split; [done|].
    apply seq_ok. split; [exists tt; by apply validate_delegation_block_ok|].
    rewrite Hj. cbn [mbind result_bind]. rewrite Hr. cbn [mbind result_bind].
    rewrite bool_decide_true by done. cbn [negb raise_if mbind result_bind].
    by rewrite Hw.
Qed.

Lemma trace_record_hash_ok d h :
  trace_record_hash d = Ok h <->
  exists m, rfc8785_dumps d = Ok m /\ h = LINK_DIGEST ++ py ":" ++ sha256_hex m.
Proof.
  unfold trace_record_hash. rewrite bind_ok.
  split; intros (m & ? & H); exists m; (split; [done|]); [by apply ok_inj in H|by subst].
Qed.
Lemma trace_hash_prefix d h : trace_record_hash d = Ok h -> exists t, h = (LINK_DIGEST ++ py ":") ++ t.
Proof. intros (m & _ & ->)%trace_record_hash_ok. eexists. by rewrite <-app_assoc. Qed.

Lemma strip_prefix_app (p s : pystr) : strip_prefix p (p ++ s) = Some s.
Proof. induction p as [|c p IH]; simpl; [done|]. by rewrite N.eqb_refl. Qed.

Lemma parent_link_ok b link :
  parent_link b = Ok link <->
  exists d, b = JObj d /\ dget (py "parent_record_hash") d = Some (JStr link).
Proof.
  destruct b as [| | | | | |d]; cbn [parent_link]; try (by split; [|intros (? & ? & ?)]). split.
  - repeat case_match; intros; simplify_eq. eauto.
  - intros (d' & [= <-] & ->). done.
Qed.

Lemma check_trace_link_ok i prev b u :
  (i =? 0) = (if prev is Some _ then false else true) ->
  (forall p, prev = Some p -> exists t, p = (LINK_DIGEST ++ py ":") ++ t) ->
  check_trace_link i prev b = Ok u <->
  match prev with
  | None => b = JNull
  | Some p => exists d, b = JObj d /\ dget (py "parent_record_hash") d = Some (JStr p)
  end.
Proof.
  unfold check_trace_link. intros -> Hp. destruct prev as [p|]; [|apply guard_ok].
  rewrite seq_ok, bind_ok, (ok_unit _ _ (refuse_ok _ _)). setoid_rewrite seq_ok.
  setoid_rewrite parent_link_ok. setoid_rewrite guard_ok. split.
  - intros (_ & link & (d & -> & Hd) & _ & [= ->]). eauto.
  - intros (d & -> & Hd). split; [done|]. exists p. split; [eauto|]. split; [|done].
    destruct (Hp p eq_refl) as [t ->]. exists tt. by rewrite strip_prefix_app.
Qed.

#[local] Opaque trace_record_hash.

(** The loop accepts the records that follow the previous one and repeat none. *)
Lemma verify_from_ok clock trusted max_age i prev seen records subjects :
  (i =? 0) = (if prev is Some _ then false else true) ->
  (forall p, prev = Some p -> exists t, p = (LINK_DIGEST ++ py ":") ++ t) ->
  verify_from clock trusted max_age i prev seen records = Ok subjects <->
  exists ds hs, records = map JObj ds /\ Forall (RecordOk clock trusted max_age) ds /\
    trace_linked prev ds hs /\ NoDup hs /\ (forall h, h ∈ hs -> h ∉ seen) /\
    Forall2 subject_of ds subjects.
Proof.
  revert i prev seen subjects. induction records as [|r records IH]; intros i prev seen subjects Hi Hp;
    cbn [verify_from].
  { split.
    - intros [= <-]. exists [], []. split_and!; try constructor. by intros h ?%elem_of_nil.
    - intros (ds & hs & E & _ & _ & _ & _ & HF). destruct ds; [|done]. by inversion HF. }
  rewrite bind_ok. setoid_rewrite check_record_ok. setoid_rewrite bind_ok. setoid_rewrite seq_ok.
  setoid_rewrite (ok_unit _ _ (refuse_ok _ _)). setoid_rewrite seq_ok.
  setoid_rewrite (ok_unit _ _ (fun u => check_trace_link_ok i prev _ u Hi Hp)).
  setoid_rewrite bind_ok. setoid_rewrite or_raise_ok. setoid_rewrite bind_ok.
  assert ((i + 1 =? 0) = false) as Hi' by (apply N.eqb_neq; lia). split.
  - intros (d & [-> Hd] & h & Hh & Hs & Hf & s & Hsub & ss & Hrest & [= <-]).
    apply (IH (i + 1) (Some h)) in Hrest as (ds & hs & -> & Hds & Hl & Hn & Hseen & HF); [|done|].
    2:{ intros p [= <-]. exact (trace_hash_prefix _ _ Hh). }
    exists (d :: ds), (h :: hs). split_and!.
    + done.
    + by constructor.
    + by constructor.
    + constructor; [|done]. intros Hin. apply Hseen in Hin. by apply not_elem_of_union in Hin as [Hin _];
        apply not_elem_of_singleton in Hin.
    + intros x [->|Hx]%elem_of_cons; [done|]. apply Hseen in Hx. by apply not_elem_of_union in Hx as [_ ?].
    + by constructor.
  - intros (ds & hs & E & Hds & Hl & Hn & Hseen & HF). destruct ds as [|d ds]; [done|].
    injection E as -> ->. inversion Hl as [|? ? h ? hs' Hh Hf Hl']; subst.
    inversion Hds; subst. inversion HF as [|? s ? ss]; subst. inversion Hn; subst.
    exists d. split; [done|]. exists h. split; [done|]. split; [apply Hseen; by left|].
    split; [done|]. exists s. split; [done|]. exists ss. split; [|done].
    apply (IH (i + 1) (Some h)); [done|intros p [= <-]; exact (trace_hash_prefix _ _ Hh)|].
    exists ds, hs'. split_and!; try done.
    intros x Hx. apply not_elem_of_union. split; [|apply Hseen; by right].
    apply not_elem_of_singleton. by intros ->.
Qed.

#[local] Transparent trace_record_hash.

Lemma last_default {A} (a x : A) l : Some (default a (last (x :: l))) = last (x :: l).
Proof. destruct (last (x :: l)) eqn:E; [done|by apply last_None in E]. Qed.

Lemma verify_trace_dag_ok clock records keys max_age r :
  verify_trace_dag clock records keys max_age = Ok r <->
  exists trusted ds hs, _trusted_raw_keys keys = Ok trusted /\ records = map JObj ds /\ ds <> [] /\
    Forall (RecordOk clock trusted max_age) ds /\ trace_linked None ds hs /\ NoDup hs /\
    dag_hops r = N.of_nat (length ds) /\ Forall2 subject_of ds (dag_subjects r) /\
    Some (dag_root_subject r) = head (dag_subjects r) /\ Some (dag_leaf_subject r) = last (dag_subjects r).
Proof.
  unfold verify_trace_dag. rewrite seq_ok, bind_ok, (ok_unit _ _ (refuse_ok _ _)).
  setoid_rewrite bind_ok.
  setoid_rewrite (verify_from_ok _ _ _ 0 None ∅); [|done..]. split.
  - intros (Hne & trusted & Ht & ss & (ds & hs & -> & Hds & Hl & Hn & _ & HF) & [= <-]).
    exists trusted, ds, hs. rewrite length_map.
    assert (ds <> []) as Hne' by (intros ->; by apply Hne).
    split_and!; try done; destruct HF as [|d s ds ss]; try done.
    apply last_default.
  - intros (trusted & ds & hs & Ht & -> & Hne & Hds & Hl & Hn & Hh & HF & Hroot & Hleaf).
    split; [by destruct ds|]. exists trusted. split; [done|]. exists (dag_subjects r). split.
    { exists ds, hs. split_and!; try done. }
    rewrite length_map, <-Hroot, <-Hleaf. destruct r; simpl in *. by subst.
Qed.
End laws.

(** ** The lenient decoder on text of the alphabet *)
Section base64_laws.

Lemma a2b_scan_data s vs t q p :
  mapM b64_val s = Some vs -> q < 4 ->
  a2b_scan q p (s ++ t) =
  let (ws, fin) := a2b_scan ((q + N.of_nat (length vs)) mod 4) (match vs with [] => p | _ => 0 end) t in
  (vs ++ ws, fin).
Proof.
  revert vs q p. induction s as [|c s IH]; intros vs q p Hs Hq; simpl in Hs.
  { injection Hs as <-. cbn [app length]. rewrite N.add_0_r, N.mod_small by lia.
    by destruct (a2b_scan q p t). }
  apply bind_Some in Hs as (v & Hv & (vs' & Hs & [= <-])%bind_Some).
  cbn [app a2b_scan length]. rewrite (proj2 (N.eqb_neq c 61)) by (by eapply b64_val_not_pad).
  unfold b64_val_any. rewrite Hv, (IH vs') by (done || lia).
  replace ((q + 1) mod 4 + N.of_nat (length vs')) with (N.of_nat (length vs') + (q + 1) mod 4) by lia.
  rewrite N.Div0.add_mod_idemp_r.
  replace (N.of_nat (length vs') + (q + 1)) with (q + N.of_nat (S (length vs'))) by lia.
  destruct vs'; by destruct (a2b_scan _ _ t).
Qed.

Lemma sextets_ind4 (P : list N -> Prop) :
  P [] -> (forall a, P [a]) -> (forall a b, P [a; b]) -> (forall a b c, P [a; b; c]) ->
  (forall a b c d vs, P vs -> P (a :: b :: c :: d :: vs)) -> forall vs, P vs.
Proof.
  intros H0 H1 H2 H3 H4. fix IH 1. intros [|a [|b [|c [|d vs]]]]; [done|apply H1|apply H2|apply H3|].
  apply H4, IH.
Qed.

Lemma sextets_None vs : sextets vs = None <-> N.of_nat (length vs) mod 4 = 1.
Proof.
  induction vs as [|a|a b|a b c|a b c d vs IH] using sextets_ind4; try (by split).
  replace (N.of_nat (length (a :: b :: c :: d :: vs)) mod 4) with (N.of_nat (length vs) mod 4)
    by (cbn [length]; lia).
  rewrite <-IH. cbn [sextets]. by destruct (sextets vs).
Qed.

Lemma mapM_b64_val_ascii s vs : mapM b64_val s = Some vs -> is_ascii s = true.
Proof.
  unfold is_ascii. revert vs. induction s as [|c s IH]; intros vs Hs; [done|]. simpl in Hs |- *.
  apply bind_Some in Hs as (v & Hv & (vs' & Hs & _)%bind_Some). rewrite (IH _ Hs), andb_true_r.
  unfold b64_val in Hv. apply N.ltb_lt. repeat case_match; bool_to_prop; simplify_eq; lia.
Qed.

(** The padding the verifier adds ends the text exactly when it completes a group. *)
Lemma a2b_scan_pads n :
  a2b_scan (n mod 4) 0 (repeat 61 (Z.to_nat (- Z.of_N n mod 4))) = ([], 2 <=? n mod 4).
Proof.
  assert (- Z.of_N n mod 4 = (4 - Z.of_N (n mod 4)) mod 4)%Z as -> by lia.
  assert (n mod 4 = 0 \/ n mod 4 = 1 \/ n mod 4 = 2 \/ n mod 4 = 3) as [H|[H|[H|H]]] by lia;
    rewrite H; reflexivity.
Qed.

(** On text of the alphabet the lenient decoder is the strict one, error included. *)
Lemma b64url_decode_lenient s vs :
  mapM b64_val s = Some vs -> dag._b64url_decode s = urlsafe_b64decode s.
Proof.
  intros Hs. unfold _b64url_decode, urlsafe_b64decode.
  assert (length s = length vs) as Hlen by (by apply length_mapM in Hs).
  pose proof (mapM_b64_val_ascii _ _ Hs) as Ha.
  rewrite raise_if_false.
  2:{ apply negb_false_iff. unfold is_ascii in Ha |- *. rewrite forallb_app, Ha.
      apply forallb_forall. by intros c ->%repeat_spec. }
  unfold a2b_base64. rewrite (a2b_scan_data _ _ _ _ _ Hs) by lia. rewrite Hs, Hlen, N.add_0_l.
  replace (match vs with [] => 0 | _ => 0 end) with 0 by (by destruct vs).
  rewrite <-nat_N_Z, a2b_scan_pads, app_nil_r. cbn [mbind option_bind].
  pose proof (sextets_None vs) as He. destruct (sextets vs) as [bs|].
  - assert (N.of_nat (length vs) mod 4 <> 1) as Hn by (intros H%He; congruence).
    assert (N.of_nat (length vs) mod 4 = 0 \/ N.of_nat (length vs) mod 4 = 2 \/
            N.of_nat (length vs) mod 4 = 3) as [-> |[-> | ->]] by lia; reflexivity.
  - by rewrite (proj1 He eq_refl).
Qed.

Lemma b64url_decode_lenient_encode bs : dag._b64url_decode (b64url.b64url_encode bs) = Ok bs.
Proof.
  rewrite b64url_encode_data.
  rewrite (b64url_decode_lenient _ _ (mapM_b64_val _ (b64_data_range bs))).
  unfold urlsafe_b64decode. rewrite (mapM_b64_val _ (b64_data_range bs)).
  cbn [mbind option_bind]. by rewrite sextets_data.
Qed.
End base64_laws.

(** ** Records up to the order of keys *)
Definition same_record (d1 d2 : dict) : Prop := json_equiv (JObj d1) (JObj d2).

Lemma json_equiv_dget d e k :
  wf_json (JObj e) -> json_equiv (JObj d) (JObj e) ->
  match dget k d, dget k e with
  | Some v, Some w => json_equiv v w
  | None, None => True
  | _, _ => False
  end.
Proof.
  intros [Hnd _]%wf_json_obj He. inversion He as [| |? ? e' Hde Hp]; subst.
  - destruct (dget k e); constructor.
  - rewrite (dget_perm k e e') by (done || by symmetry). by apply same_items_dget.
Qed.

Section link_laws.
Context `{C : Crypto, T : !TraceLib, L : !TraceLaws T}.
Implicit Types (d : dict) (ds : list dict) (h : pystr) (hs : list pystr).

(** Two records whose serializations differ and have one digest. *)
Definition records_collide d1 d2 : Prop :=
  exists m1 m2, rfc8785_dumps d1 = Ok m1 /\ rfc8785_dumps d2 = Ok m2 /\ collides m1 m2.

(** Two histories that agree after some point, at which their records collide. *)
Definition traces_collide ds1 ds2 : Prop :=
  exists p1 d1 t1 p2 d2 t2, ds1 = p1 ++ d1 :: t1 /\ ds2 = p2 ++ d2 :: t2 /\
    Forall2 same_record t1 t2 /\ records_collide d1 d2.

(** Two records at different places of one list. *)
Definition collision_within ds : Prop :=
  exists (i j : nat) d1 d2, (i < j)%nat /\ ds !! i = Some d1 /\ ds !! j = Some d2 /\ records_collide d1 d2.

Lemma traces_collide_snoc ds1 ds2 d1 d2 :
  traces_collide ds1 ds2 -> same_record d1 d2 -> traces_collide (ds1 ++ [d1]) (ds2 ++ [d2]).
Proof.
  intros (p1 & x1 & t1 & p2 & x2 & t2 & -> & -> & Ht & Hc) Hd.
  exists p1, x1, (t1 ++ [d1]), p2, x2, (t2 ++ [d2]). rewrite <-!app_assoc. split_and!; try done.
  apply Forall2_app; [done|]. by constructor.
Qed.

Lemma collision_within_snoc ds d : collision_within ds -> collision_within (ds ++ [d]).
Proof.
  intros (i & j & d1 & d2 & Hij & H1 & H2 & Hc). exists i, j, d1, d2.
  split_and!; try done; by apply lookup_app_l_Some.
Qed.

(** A history that collides with a proper prefix of itself collides within. *)
Lemma prefix_collides n ds :
  (n < length ds)%nat -> traces_collide (take n ds) ds -> collision_within ds.
Proof.
  intros Hn (p1 & d1 & t1 & p2 & d2 & t2 & E1 & E2 & Ht & Hc). apply Forall2_length in Ht.
  exists (length p1), (length p2), d1, d2.
  assert (length p1 < length p2)%nat as Hp.
  { apply (f_equal length) in E1, E2. rewrite length_take, length_app in E1. rewrite length_app in E2.
    cbn [length] in *. lia. }
  split_and!; [done| | |done].
  - assert (take n ds !! length p1 = Some d1) as H by (rewrite E1; by apply list_lookup_middle).
    by apply lookup_take_Some in H as [H _].
  - rewrite E2. by apply list_lookup_middle.
Qed.

Lemma follows_equiv p1 p2 d1 d2 :
  follows p1 d1 -> follows p2 d2 -> wf_json (JObj d2) -> json_equiv (JObj d1) (JObj d2) -> p1 = p2.
Proof.
  unfold follows, delegation_of, field. intros F1 F2 Hwf He.
  pose proof (json_equiv_dget _ _ (py "delegation") Hwf He) as Hd.
  destruct p1 as [p1|], p2 as [p2|]; [|..|done].
  - destruct F1 as (b1 & E1 & H1), F2 as (b2 & E2 & H2).
    destruct (dget (py "delegation") d1) as [v1|] eqn:D1; [|done].
    destruct (dget (py "delegation") d2) as [v2|] eqn:D2; [|done]. simpl in E1, E2. subst.
    apply wf_json_obj in Hwf as [_ Hwf]. rewrite Forall_forall in Hwf.
    pose proof (Hwf _ (dget_Some_elem _ _ _ D2)) as Hb. cbn [snd] in Hb.
    pose proof (json_equiv_dget _ _ (py "parent_record_hash") Hb Hd) as Hp.
    rewrite H1, H2 in Hp. by inversion Hp.
  - destruct F1 as (b1 & E1 & _). destruct (dget (py "delegation") d1), (dget (py "delegation") d2);
      simpl in *; try done. subst. by inversion Hd.
  - destruct F2 as (b2 & E2 & _). destruct (dget (py "delegation") d1), (dget (py "delegation") d2);
      simpl in *; try done. subst. by inversion Hd.
Qed.

Lemma trace_hash_inj d1 d2 h :
  wf_json (JObj d1) -> wf_json (JObj d2) -> trace_record_hash d1 = Ok h -> trace_record_hash d2 = Ok h ->
  same_record d1 d2 \/ records_collide d1 d2.
Proof.
  intros W1 W2 (m1 & D1 & ->)%trace_record_hash_ok (m2 & D2 & H1)%trace_record_hash_ok.
  apply app_inv_head, app_inv_head in H1. apply sha256_hex_eq in H1 as [->|Hc]; [left|right; by exists m1, m2].
  by eapply rfc8785_dumps_inj.
Qed.

Lemma trace_linked_cons_iff prev d ds h hs :
  trace_linked prev (d :: ds) (h :: hs) <->
  trace_record_hash d = Ok h /\ follows prev d /\ trace_linked (Some h) ds hs.
Proof. split; [by inversion 1|]. intros (? & ? & ?). by constructor. Qed.

Lemma trace_linked_length prev ds hs : trace_linked prev ds hs -> length ds = length hs.
Proof. induction 1; simpl; congruence. Qed.

Lemma trace_linked_snoc prev ds d hs h :
  trace_linked prev (ds ++ [d]) (hs ++ [h]) <->
  trace_linked prev ds hs /\ trace_record_hash d = Ok h /\
  follows (match last hs with Some x => Some x | None => prev end) d.
Proof.
  revert prev hs. induction ds as [|x ds IH]; intros prev hs; cbn [app].
  - destruct hs as [|y hs]; cbn [app].
    + rewrite trace_linked_cons_iff. simpl.
      split; [intros (? & ? & _); split; [constructor|done]|intros (_ & ? & ?); split_and!; [done|done|constructor]].
    + split; [|by intros [H _]; inversion H]. intros H%trace_linked_length. simpl in H.
      rewrite length_app in H. simpl in H. lia.
  - destruct hs as [|y hs]; cbn [app].
    + split; [|by intros [H _]; inversion H]. intros H%trace_linked_length. simpl in H.
      rewrite length_app in H. simpl in H. lia.
    + rewrite !trace_linked_cons_iff, IH. rewrite (last_cons y hs). destruct (last hs); tauto.
Qed.

Lemma trace_linked_unsnoc prev ds d hs :
  trace_linked prev (ds ++ [d]) hs -> exists hs' h, hs = hs' ++ [h].
Proof.
  intros H%trace_linked_length. destruct hs as [|h hs _] using rev_ind; [|eauto].
  rewrite length_app in H. simpl in H. lia.
Qed.

(** The last hash fixes the whole history. *)
Lemma trace_history ds1 hs1 ds2 hs2 :
  Forall (fun d => wf_json (JObj d)) ds1 -> Forall (fun d => wf_json (JObj d)) ds2 ->
  trace_linked None ds1 hs1 -> trace_linked None ds2 hs2 -> last hs1 = last hs2 ->
  Forall2 same_record ds1 ds2 \/ traces_collide ds1 ds2.
Proof.
  revert hs1 ds2 hs2. induction ds1 as [|d1 ds1 IH] using rev_ind; intros hs1 ds2 hs2 W1 W2 H1 H2 Hl.
  - inversion H1; subst. destruct hs2 as [|h hs2 _] using rev_ind; [|by rewrite last_snoc in Hl].
    inversion H2; subst. left. constructor.
  - destruct (trace_linked_unsnoc _ _ _ _ H1) as (k1 & h1 & ->). rewrite last_snoc in Hl.
    destruct ds2 as [|d2 ds2 _] using rev_ind; [by inversion H2; subst|].
    destruct (trace_linked_unsnoc _ _ _ _ H2) as (k2 & h2 & ->). rewrite last_snoc in Hl.
    injection Hl as <-. apply trace_linked_snoc in H1 as (H1 & E1 & F1), H2 as (H2 & E2 & F2).
    apply Forall_app in W1 as [W1 [X1 _]%Forall_cons], W2 as [W2 [X2 _]%Forall_cons].
    destruct (trace_hash_inj _ _ _ X1 X2 E1 E2) as [He|Hc]; [|by right; exists ds1, d1, [], ds2, d2, []].
    assert (last k1 = last k2) as Hk.
    { pose proof (follows_equiv _ _ _ _ F1 F2 X2 He). destruct (last k1), (last k2); congruence. }
    destruct (IH _ _ _ W1 W2 H1 H2 Hk) as [HF|Hc]; [left|right; by apply traces_collide_snoc].
    apply Forall2_app; [done|]. by constructor.
Qed.

Lemma trace_linked_take n prev ds hs :
  trace_linked prev ds hs -> trace_linked prev (take n ds) (take n hs).
Proof.
  intros H. revert n. induction H; intros [|n]; try constructor; auto.
Qed.

(** Linked records never share a hash, up to a collision. *)
Lemma trace_linked_NoDup ds hs :
  Forall (fun d => wf_json (JObj d)) ds -> trace_linked None ds hs -> NoDup hs \/ collision_within ds.
Proof.
  revert hs. induction ds as [|d ds IH] using rev_ind; intros hs Hwf Hl.
  { inversion Hl. left. constructor. }
  destruct (trace_linked_unsnoc _ _ _ _ Hl) as (k & h & ->).
  pose proof Hl as (Hk & _ & _)%trace_linked_snoc. pose proof Hwf as [Wd _]%Forall_app.
  destruct (IH k Wd Hk) as [Hn|Hc]; [|right; by apply collision_within_snoc].
  destruct (decide (h ∈ k)) as [Hin|Hin].
  - right. apply list_elem_of_lookup in Hin as [i Hi].
    assert (last (take (S i) k) = last (k ++ [h])) as Hlast.
    { rewrite last_snoc, (take_S_r _ _ _ Hi). apply last_snoc. }
    assert ((S i < length (ds ++ [d]))%nat /\ take (S i) (ds ++ [d]) = take (S i) ds) as [Hlt Htake].
    { apply lookup_lt_Some in Hi. rewrite <-(trace_linked_length _ _ _ Hk) in Hi.
      rewrite length_app. cbn [length]. split; [lia|]. apply take_app_le. lia. }
    apply (prefix_collides (S i)); [done|]. rewrite Htake.
    destruct (trace_history (take (S i) ds) (take (S i) k) (ds ++ [d]) (k ++ [h])) as [HF|?]; try done.
    + by apply Forall_take.
    + by apply trace_linked_take.
    + apply Forall2_length in HF. rewrite <-Htake, length_take in HF. lia.
  - left. apply NoDup_app. split_and!; [done| |apply NoDup_singleton].
    by intros x Hx ->%list_elem_of_singleton.
Qed.
End link_laws.

(** ** What [emit_dag] makes *)
Section emit_laws.
Context `{U : Unidata, C : Crypto, T : !TraceLib, L : !TraceLaws T}.
Implicit Types (d : dict) (ds : list dict) (h : pystr) (hs : list pystr).

(** The delegation block of an emitted record. *)
Definition block_of (parent_hash : option pystr) (cid : pystr) : json :=
  match parent_hash with
  | Some h => JObj [(py "parent_record_hash", JStr h); (py "credential_id", JStr cid)]
  | None => JNull
  end.

Lemma build_trace_record_ok subject iat context parent cid r :
  build_trace_record subject iat context (match parent with Some _ => Some cid | None => None end) parent
    = Ok r ->
  wf_json (JObj r) /\ delegation_of r = block_of parent cid /\
  dget (py "subject") r = Some (JStr subject).
Proof.
  unfold build_trace_record, optional_item, delegation_of, block_of, opt_str. intros H. inv_ok. subst.
  split_and!.
  - apply wf_jsonb_spec. by destruct parent, (model_version context), (runtime_nonce context),
      (policy_version context).
  - destruct parent; reflexivity.
  - reflexivity.
Qed.

(** The key a record confirms is the key the verifier reads. *)
Lemma confirms_raw d jwk raw : confirms d jwk raw -> cnf_jwk d = Ok jwk /\ _jwk_raw jwk = Ok raw.
Proof.
  intros ((cnf & Hc & Hj) & Hk & Hv & Hx). unfold cnf_jwk, _jwk_raw.
  rewrite Hc, Hk, Hv, (field_get _ _ _ Hx). cbn [default from_option id get_attr mbind result_bind].
  rewrite Hj. split; [done|]. rewrite !bool_decide_true by done.
  cbn [andb negb raise_if mbind result_bind any_str or_raise]. by rewrite b64url_decode_lenient_encode.
Qed.

Lemma trace_hash_digest d h : trace_record_hash d = Ok h -> match_digest h = true.
Proof.
  intros (m & _ & ->)%trace_record_hash_ok. unfold match_digest. apply orb_true_iff. left.
  change (LINK_DIGEST ++ py ":" ++ sha256_hex m) with (py "sha256:" ++ sha256_hex m).
  rewrite strip_prefix_app. apply (fullmatch_hex_hex 32), length_sha256.
Qed.

(** A record emitted for a hop. *)
Definition emitted (hop : HopSpec) d : Prop :=
  subject_of d (JStr (hop_subject hop)) /\
  (exists jwk, confirms d jwk (ed_public (signing_key hop)) /\
     forall clock, verify_record clock d (JObj jwk) None = Ok tt) /\
  exists parent, delegation_of d = block_of parent (hop_credential_id hop) /\
    forall h, parent = Some h -> match_digest h = true.

Lemma sign_trace_field r key signed k :
  sign_trace_record r key = Ok signed -> k <> py "cnf" -> k <> py "signature" -> dget k signed = dget k r.
Proof. apply sign_keeps. Qed.

Lemma emit_from_ok i parent hops records :
  (i =? 0) = (if parent is Some _ then false else true) ->
  (forall h, parent = Some h -> match_digest h = true) ->
  emit_from i parent hops = Ok records ->
  Forall (fun d => wf_json (JObj d)) records /\ (exists hs, trace_linked parent records hs) /\
  Forall2 emitted hops records.
Proof.
  revert i parent records. induction hops as [|hop hops IH]; intros i parent records Hi Hp H;
    cbn [emit_from] in H.
  { apply ok_inj in H as <-. split_and!; [constructor|exists []; constructor|constructor]. }
  apply bind_ok in H as (r & Hr & (signed & Hs & (h & Hh & (rest & Hrest & <-%ok_inj)%bind_ok)%bind_ok)%bind_ok).
  assert (build_trace_record (hop_subject hop) (hop_iat hop) (hop_context hop)
    (match parent with Some _ => Some (hop_credential_id hop) | None => None end) parent = Ok r)
    as (Hwf & Hd & Hsub)%build_trace_record_ok.
  { rewrite <-Hr, Hi. by destruct parent. }
  assert (delegation_of signed = block_of parent (hop_credential_id hop)) as Hd'.
  { rewrite <-Hd. unfold delegation_of, field.
    by rewrite (sign_trace_field _ _ _ _ Hs) by (by intros ?%py_inj). }
  destruct (IH (i + 1) (Some h) rest) as (W & (hs & Hl) & HF); [by apply N.eqb_neq; lia| |done|].
  { intros h' [= <-]. exact (trace_hash_digest _ _ Hh). }
  split_and!.
  - constructor; [by eapply sign_wf|done].
  - exists (h :: hs). constructor; [done| |done]. unfold follows. rewrite Hd'.
    destruct parent; [|done]. eexists. split; [done|]. by dlookup.
  - constructor; [|done]. split_and!.
    + unfold subject_of. by rewrite (sign_trace_field _ _ _ _ Hs) by (by intros ?%py_inj).
    + by eapply sign_confirms.
    + by exists parent.
Qed.

Lemma block_of_ok parent cid :
  (forall h, parent = Some h -> match_digest h = true) -> (parent = None \/ cid <> []) ->
  block_ok (block_of parent cid).
Proof.
  intros Hm Hc. destruct parent as [h|]; [|by left]. destruct Hc as [?|Hc]; [done|]. right.
  exists [(py "parent_record_hash", JStr h); (py "credential_id", JStr cid)], h, cid.
  split_and!; [done| |by dlookup|by apply Hm|by dlookup|done].
  apply dkeys_keys_of; solve_keys.
Qed.
End emit_laws.

(** ** The cross-check *)
Section cross_laws.

(** The record was signed by the credential's subject and, unless it is the root,
    names the credential. *)
Definition hop_under (root : bool) (r : json) (c : DelegationCredential) : Prop :=
  exists d jwk raw, r = JObj d /\ cnf_jwk d = Ok jwk /\ _jwk_raw jwk = Ok raw /\ hex raw = subject c /\
    (root = true \/ exists b, delegation_of d = JObj b /\
       dget (py "credential_id") b = Some (JStr (credential_id c))).

Definition hops_under (records : list json) (chain : list DelegationCredential) : Prop :=
  match records, chain with
  | r :: records, c :: chain => hop_under true r c /\ Forall2 (hop_under false) records chain
  | [], [] => True
  | _, _ => False
  end.

(** The credential a block names, [None] and the other false values included. *)
Lemma delegation_named d cid (e : exn) :
  (exists u, (delegation ← get_attr (if truthy (delegation_of d) then delegation_of d else JObj []);
     raise_if (negb (bool_decide (field "credential_id" delegation = JStr cid))) e) = Ok u) <->
  exists b, delegation_of d = JObj b /\ dget (py "credential_id") b = Some (JStr cid).
Proof.
  split.
  - intros [u H]. inv_ok. apply get_attr_ok in Hs. apply negb_false_iff, bool_decide_eq_true in H.
    destruct (truthy (delegation_of d)); [|injection Hs as <-; discriminate H].
    exists a. split; [done|]. unfold field in H. destruct (dget (py "credential_id") a); simpl in H; congruence.
  - intros (b & Hb & Hc). rewrite Hb. exists tt.
    assert (truthy (JObj b) = true) as -> by (by destruct b).
    cbn [get_attr mbind result_bind]. rewrite (field_get _ _ _ Hc). by rewrite bool_decide_true.
Qed.

#[local] Opaque cnf_jwk _jwk_raw.
Lemma cross_step_ok i r c records chain u :
  cross_from i (r :: records) (c :: chain) = Ok u <->
  hop_under (i =? 0) r c /\ cross_from (i + 1) records chain = Ok u.
Proof.
  cbn [cross_from]. rewrite bind_ok. setoid_rewrite get_attr_ok. setoid_rewrite seq_ok.
  setoid_rewrite bind_ok. setoid_rewrite bind_ok. setoid_rewrite seq_ok.
  setoid_rewrite (ok_unit _ _ (guard_ok _ _)). unfold hop_under. destruct (i =? 0).
  - split.
    + intros (d & -> & _ & jwk & Hj & raw & Hr & Hx & H). split; [|done].
      exists d, jwk, raw. split_and!; try done. by left.
    + intros ((d & jwk & raw & -> & Hj & Hr & Hx & _) & H). exists d. split; [done|].
      split; [by exists tt|]. eauto 10.
  - setoid_rewrite delegation_named. split.
    + intros (d & -> & Hb & jwk & Hj & raw & Hr & Hx & H). split; [|done].
      exists d, jwk, raw. split_and!; try done. by right.
    + intros ((d & jwk & raw & -> & Hj & Hr & Hx & [Hf|Hb]) & H); [done|]. exists d. split; [done|].
      split; [done|]. eauto 10.
Qed.

#[local] Transparent cnf_jwk _jwk_raw.

Lemma cross_from_ok i records chain u :
  length records = length chain -> i <> 0 ->
  cross_from i records chain = Ok u <-> Forall2 (hop_under false) records chain.
Proof.
  revert i chain. induction records as [|r records IH]; intros i [|c chain] Hlen Hi; simpl in Hlen;
    try done.
  { destruct u. by split. }
  rewrite cross_step_ok, (proj2 (N.eqb_neq i 0)), (IH _ chain) by (done || lia).
  split; [intros [? ?]; by constructor|by inversion 1].
Qed.

Lemma cross_check_trace_ok records chain u :
  cross_check_trace_dag records chain = Ok u <-> hops_under records chain.
Proof.
  unfold cross_check_trace_dag. rewrite seq_ok. setoid_rewrite raise_if_ok.
  setoid_rewrite negb_false_iff. setoid_rewrite Nat.eqb_eq.
  destruct records as [|r records], chain as [|c chain]; cbn [hops_under];
    try (by split; [intros [[_ ?] _]|]).
  { destruct u. split; [done|]. intros _. split; [by exists tt|done]. }
  rewrite cross_step_ok. split.
  - intros ([_ Hlen] & Hr & H). split; [done|]. eapply cross_from_ok; [| |done]; simpl in Hlen; lia.
  - intros [Hr HF]. pose proof (Forall2_length _ _ _ HF) as Hlen. split; [exists tt; simpl; lia|].
    split; [done|]. apply cross_from_ok; [done|lia|done].
Qed.
End cross_laws.

(** ** Emitted records against the verifier *)
Section emitted_laws.
Context `{U : Unidata, C : Crypto, T : !TraceLib}.

Lemma map_JObj_inj (ds1 ds2 : list dict) : map JObj ds1 = map JObj ds2 -> ds1 = ds2.
Proof.
  revert ds2. induction ds1 as [|d1 ds1 IH]; intros [|d2 ds2]; simpl; try done.
  intros [= -> H]. f_equal. by apply IH.
Qed.

Lemma trace_linked_last prev ds hs d h :
  trace_linked prev ds hs -> last ds = Some d -> trace_record_hash d = Ok h -> last hs = Some h.
Proof.
  induction 1 as [|prev x y ds hs Hxy _ Hl IH]; [done|]. intros Hd Hh.
  destruct ds as [|z ds].
  - simpl in Hd. injection Hd as ->. inversion Hl; subst. simpl. congruence.
  - rewrite last_cons_cons in Hd. specialize (IH Hd Hh). by rewrite last_cons, IH.
Qed.

Lemma emitted_subjects hops records :
  Forall2 emitted hops records ->
  Forall2 subject_of records (map (fun hop => JStr (hop_subject hop)) hops).
Proof. induction 1 as [|hop d hops records [Hs _] _ IH]; simpl; constructor; done. Qed.

Lemma emitted_record_ok clock trusted hop d :
  emitted hop d -> ed_public (signing_key hop) ∈ trusted ->
  (exists u, validate_json (dpop (py "delegation") d) = Ok u) ->
  delegation_of d = JNull \/ hop_credential_id hop <> [] -> RecordOk clock trusted None d.
Proof.
  intros (_ & (jwk & Hc & Hv) & parent & Hd & Hm) Ht Hj Hb. split; [done| |].
  - rewrite Hd in Hb |- *. apply block_of_ok; [done|]. destruct Hb as [Hb|?]; [left|by right].
    by destruct parent.
  - apply confirms_raw in Hc as [Hjwk Hraw]. exists jwk, (ed_public (signing_key hop)).
    split_and!; try done. by eexists.
Qed.

Lemma emitted_records_ok clock trusted hop hops d records hs :
  Forall2 emitted (hop :: hops) (d :: records) -> trace_linked None (d :: records) hs ->
  Forall (fun hop => hop_credential_id hop <> []) (tail (hop :: hops)) ->
  Forall (fun hop => ed_public (signing_key hop) ∈ trusted) (hop :: hops) ->
  Forall (fun d => exists u, validate_json (dpop (py "delegation") d) = Ok u) (d :: records) ->
  Forall (RecordOk clock trusted None) (d :: records).
Proof.
  intros HF Hl Hids Ht Hv. inversion HF as [|???? Hd HF']; subst.
  inversion Hl as [|???? hs' _ Hroot _]; subst. inversion Ht as [|?? Hk Ht']; subst.
  inversion Hv as [|?? Hdv Hv']; subst. constructor; [by eapply emitted_record_ok; eauto|].
  cbn [tail] in Hids. clear -HF' Hids Ht' Hv'. induction HF' as [|hop d hops records Hd _ IH]; [done|].
  inversion Hids; inversion Ht'; inversion Hv'; subst.
  constructor; [by eapply emitted_record_ok; eauto|by apply IH].
Qed.

Lemma emitted_hop_under root hop c d :
  emitted hop d -> ed_public_hex (signing_key hop) = subject c -> hop_credential_id hop = credential_id c ->
  root = true \/ delegation_of d <> JNull -> hop_under root (JObj d) c.
Proof.
  intros (_ & (jwk & Hc & _) & parent & Hd & _) Hk Hi Hr. apply confirms_raw in Hc as [Hjwk Hraw].
  exists d, jwk, (ed_public (signing_key hop)). split_and!; try done.
  destruct Hr as [?|Hr]; [by left|right]. rewrite Hd in Hr |- *. destruct parent; [|done].
  eexists. split; [done|]. rewrite <-Hi. by dlookup.
Qed.

Lemma trace_linked_blocks p ds hs :
  trace_linked (Some p) ds hs -> Forall (fun d => delegation_of d <> JNull) ds.
Proof.
  remember (Some p) as prev eqn:E. intros H. revert p E.
  induction H as [|prev d h ds hs _ Hf _ IH]; intros p ->; [done|].
  constructor; [|by eapply IH]. destruct Hf as (b & -> & _). done.
Qed.

Lemma emitted_hops_under hops records hs chain :
  Forall2 emitted hops records -> trace_linked None records hs ->
  Forall2 (fun hop c => ed_public_hex (signing_key hop) = subject c /\
    hop_credential_id hop = credential_id c) hops chain ->
  hops_under (map JObj records) chain.
Proof.
  intros HF Hl Hc. destruct HF as [|hop d hops records Hd HF].
  { by inversion Hc. }
  inversion Hc as [|? c ? chain' [Hk Hi] Hc']; subst. inversion Hl as [|???? hs' _ _ Hl']; subst.
  split; [by eapply emitted_hop_under; eauto|]. apply trace_linked_blocks in Hl'.
  clear -HF Hl' Hc'. revert chain' Hc'. induction HF as [|hop d hops records Hd _ IH]; intros chain Hc.
  { by inversion Hc. }
  inversion Hc as [|? c ? chain' [Hk Hi] Hc']; inversion Hl'; subst.
  constructor; [by eapply emitted_hop_under; eauto|by apply IH].
Qed.
End emitted_laws.

(** ** Properties *)
Section properties.
Context `{U : Unidata, C : Crypto, T : !TraceLib}.

(** [verify_trace_dag] accepts exactly the non-empty lists of JSON objects in
    which every record is schema-valid apart from its delegation block, has a
    well-formed block or none, confirms a trusted key and verifies under it, the
    first record has no block, every later one names the hash of the full signed
    record before it, and no hash repeats; the result summarises the records' subjects. *)
Theorem verify_trace_dag_spec clock records keys max_age r :
  verify_trace_dag clock records keys max_age = Ok r <->
  exists trusted ds hs, _trusted_raw_keys keys = Ok trusted /\ records = map JObj ds /\ ds <> [] /\
    Forall (RecordOk clock trusted max_age) ds /\ trace_linked None ds hs /\ NoDup hs /\
    dag_hops r = N.of_nat (length ds) /\ Forall2 subject_of ds (dag_subjects r) /\
    Some (dag_root_subject r) = head (dag_subjects r) /\ Some (dag_leaf_subject r) = last (dag_subjects r).
Proof. apply verify_trace_dag_ok. Qed.

(** The hash of the last record commits the whole history.  Two accepted DAGs of
    well-formed records whose last records have one hash are the same DAG, record by
    record and up to the order of object keys; or they are so after some point, at
    which the two serialized records differ and have one SHA-256 digest. *)
Theorem trace_history_committed `{!TraceLaws T} clock1 clock2 ds1 ds2 keys1 keys2 age1 age2 r1 r2 d1 d2 h
    (W1 : Forall (fun d => wf_json (JObj d)) ds1) (W2 : Forall (fun d => wf_json (JObj d)) ds2)
    (H1 : verify_trace_dag clock1 (map JObj ds1) keys1 age1 = Ok r1)
    (H2 : verify_trace_dag clock2 (map JObj ds2) keys2 age2 = Ok r2)
    (L1 : last ds1 = Some d1) (L2 : last ds2 = Some d2)
    (E1 : trace_record_hash d1 = Ok h) (E2 : trace_record_hash d2 = Ok h) :
  Forall2 same_record ds1 ds2 \/ traces_collide ds1 ds2.
Proof.
  apply verify_trace_dag_ok in H1 as (_ & ds1' & hs1 & _ & <-%map_JObj_inj & _ & _ & K1 & _).
  apply verify_trace_dag_ok in H2 as (_ & ds2' & hs2 & _ & <-%map_JObj_inj & _ & _ & K2 & _).
  apply (trace_history _ hs1 _ hs2); try done.
  by rewrite (trace_linked_last _ _ _ _ _ K1 L1 E1), (trace_linked_last _ _ _ _ _ K2 L2 E2).
Qed.

(** C34: what [emit_dag] emits, the verifier accepts.  The records emitted for hops
    whose keys are trusted, if they are schema-valid, verify with the hops' subjects,
    and they pass the cross-check against every chain whose credentials are the hops'
    and whose subjects are the hops' keys.  The one exception to acceptance is two
    different emitted records whose serializations have one SHA-256 digest. *)
Theorem emit_dag_verifies `{!TraceLaws T} clock hops keys trusted records
    (Hemit : emit_dag hops = Ok records) (Hne : hops <> [])
    (Hids : Forall (fun hop => hop_credential_id hop <> []) (tail hops))
    (Hkeys : _trusted_raw_keys keys = Ok trusted)
    (Ht : Forall (fun hop => ed_public (signing_key hop) ∈ trusted) hops)
    (Hv : Forall (fun d => exists u, validate_json (dpop (py "delegation") d) = Ok u) records) :
  ((exists r, verify_trace_dag clock (map JObj records) keys None = Ok r /\
      dag_subjects r = map (fun hop => JStr (hop_subject hop)) hops) \/ collision_within records) /\
  forall chain, Forall2 (fun hop c => ed_public_hex (signing_key hop) = subject c /\
      hop_credential_id hop = credential_id c) hops chain ->
    cross_check_trace_dag (map JObj records) chain = Ok tt.
Proof.
  apply emit_from_ok in Hemit as (Hwf & (hs & Hl) & HF); [|done..].
  split.
  - destruct (trace_linked_NoDup _ _ Hwf Hl) as [Hn|?]; [left|by right].
    pose proof (emitted_subjects _ _ HF) as Hsub.
    exists {| dag_hops := N.of_nat (length records);
              dag_root_subject := default JNull (head (map (fun hop => JStr (hop_subject hop)) hops));
              dag_leaf_subject := default JNull (last (map (fun hop => JStr (hop_subject hop)) hops));
              dag_subjects := map (fun hop => JStr (hop_subject hop)) hops |}.
    split; [|done]. apply verify_trace_dag_ok. exists trusted, records, hs.
    destruct hops as [|hop hops]; [done|]. inversion HF as [|? d ? records' Hd HF']; subst.
    split_and!; try done.
    + by eapply emitted_records_ok.
    + apply (last_default JNull).
  - intros chain Hc. apply cross_check_trace_ok. by eapply emitted_hops_under.
Qed.

(** [cross_check_trace_dag] accepts exactly the records that pair off with the
    credentials of the chain, in order, each signed by its credential's subject and,
    after the root, naming its credential. *)
Theorem cross_check_trace_spec records chain :
  cross_check_trace_dag records chain = Ok tt <-> hops_under records chain.
Proof. apply cross_check_trace_ok. Qed.
End properties.

(** ** A concrete workflow

    An executable instance of the packages: records are signed over their canonical
    bytes without the signature, and the schema asks for the profile. *)
Module DagExample.
Import AsciiOnly Toy ChainExample.

Definition toy_jwk (raw : bytes) : dict :=
  [(py "kty", JStr (py "OKP")); (py "crv", JStr (py "Ed25519")); (py "x", JStr (b64url.b64url_encode raw))].

Definition toy_signed_bytes (record : dict) : res bytes := canonicalize (JObj (dpop (py "signature") record)).

Definition toy_sign_record (record : dict) (key : ed_priv) : res dict :=
  let body := dset (py "cnf") (JObj [(py "jwk", JObj (toy_jwk (ed_public key)))]) record in
  m ← toy_signed_bytes body;
  Ok (dset (py "signature") (JStr (hex (ed_sign key m))) body).

Definition toy_verify_record (clock : Z) (record : dict) (jwk : json) (max_age : option Z) : res unit :=
  d ← get_attr jwk;
  raw ← _jwk_raw d;
  m ← toy_signed_bytes record;
  sig ← or_raise (any_str (field "signature" record)) (PyExc ValueError (py "unsigned"));
  s ← value_error (fromhex sig);
  ed_check raw s m.

#[export] Instance toy_trace : TraceLib := {|
  sign_record := toy_sign_record;
  validate_json record :=
    raise_if (negb (bool_decide (field "eat_profile" record = JStr EAT_PROFILE)))
      (PyExc ValueError (py "not a TRACE v0.2 record"));
  verify_record := toy_verify_record;
  rfc8785_dumps record := canonicalize (JObj record)
|}.

Lemma toy_confirms key record m :
  confirms (dset (py "signature") m (dset (py "cnf") (JObj [(py "jwk", JObj (toy_jwk (ed_public key)))]) record))
    (toy_jwk (ed_public key)) (ed_public key).
Proof.
  split_and!; [|by dlookup..]. exists [(py "jwk", JObj (toy_jwk (ed_public key)))].
  by dlookup.
Qed.

#[export] Instance toy_trace_laws : TraceLaws toy_trace.
Proof.
  split.
  - intros record key signed k H Hc Hs. cbn [sign_record toy_trace] in H. unfold toy_sign_record in H.
    apply bind_ok in H as (m & _ & <-%ok_inj). rewrite !dget_dset. by rewrite !bool_decide_false.
  - intros record key signed H Hwf. cbn [sign_record toy_trace] in H. unfold toy_sign_record in H.
    apply bind_ok in H as (m & _ & <-%ok_inj). apply dset_wf; [done|]. apply dset_wf; [|done].
    apply wf_jsonb_spec. reflexivity.
  - intros record key signed H. cbn [sign_record toy_trace] in H. unfold toy_sign_record in H.
    apply bind_ok in H as (m & Hm & <-%ok_inj).
    exists (toy_jwk (ed_public key)). split; [apply toy_confirms|]. intros clock.
    cbn [verify_record toy_trace]. unfold toy_verify_record, toy_signed_bytes in *. cbn [get_attr].
    apply bind_ok. eexists. split; [done|].
    rewrite (proj2 (confirms_raw _ _ _ (toy_confirms key [] JNull))). cbn [mbind result_bind].
    rewrite dpop_dset, Hm. cbn [mbind result_bind].
    unfold field. rewrite dget_py_dset. cbn [String.eqb Ascii.eqb Bool.eqb default from_option id any_str].
    cbn [or_raise mbind result_bind]. rewrite fromhex_hex. cbn [value_error mbind result_bind].
    apply ed_check_sign.
  - intros r1 r2 b W1 W2 H1 H2. apply norm_eq_equiv. by eapply canonicalize_norm_inj.
Qed.

Definition context : HopContext :=
  get_ok {| model_provider := []; model_id := []; runtime_measurement := []; policy_bundle_hash := [];
            build_digest := []; appraisal_verifier := []; transparency := []; runtime_platform := [];
            enforcement_mode := []; data_class := []; slsa_level := 0; appraisal_status := [];
            runtime_nonce := None; model_version := None; policy_version := None |}
    (software (py "p") (py "m") (py "img") (py "sha256:00") (py "public") (py "enforce") None).
Definition hop1 : HopSpec :=
  {| hop_subject := py "did:a"; signing_key := 2%N; hop_context := context; hop_iat := 100;
     hop_credential_id := credential_id root |}.
Definition hop2 : HopSpec :=
  {| hop_subject := py "did:b"; signing_key := 3%N; hop_context := context; hop_iat := 101;
     hop_credential_id := credential_id leaf |}.
Definition demo_records : list dict := get_ok [] (emit_dag [hop1; hop2]).
Lemma demo_records_ok : emit_dag [hop1; hop2] = Ok demo_records.
Proof. apply get_ok_spec. vm_compute. reflexivity. Qed.
Definition demo_keys : list trusted_key := [EdKey (key 2); JwkKey (toy_jwk (key 3))].
Definition demo_trusted : gset bytes := list_to_set [key 2; key 3].
Lemma demo_raw_keys : mapM_res trusted_raw_key demo_keys = Ok [key 2; key 3].
Proof. vm_compute. reflexivity. Qed.
Lemma demo_keys_ok : _trusted_raw_keys demo_keys = Ok demo_trusted.
Proof. unfold _trusted_raw_keys. by rewrite demo_raw_keys. Qed.
Lemma demo_in_trusted : Forall (fun hop => ed_public (signing_key hop) ∈ demo_trusted) [hop1; hop2].
Proof. by_decision. Qed.
Lemma demo_valid_b :
  forallb (fun d => is_ok (validate_json (dpop (py "delegation") d))) demo_records = true.
Proof. vm_compute. reflexivity. Qed.
Lemma demo_records_wfb : forallb (fun d => wf_jsonb (JObj d)) demo_records = true.
Proof. vm_compute. reflexivity. Qed.
Definition demo_result : TraceDagResult :=
  {| dag_hops := 2; dag_root_subject := JStr (py "did:a"); dag_leaf_subject := JStr (py "did:b");
     dag_subjects := [JStr (py "did:a"); JStr (py "did:b")] |}.
Lemma demo_verifies : verify_trace_dag 0 (map JObj demo_records) demo_keys None = Ok demo_result.
Proof. vm_compute. reflexivity. Qed.
Definition last_record : dict := default [] (last demo_records).
Lemma last_record_ok : last demo_records = Some last_record.
Proof. vm_compute. reflexivity. Qed.
Definition last_hash : pystr := get_ok [] (trace_record_hash last_record).
Lemma last_hash_ok : trace_record_hash last_record = Ok last_hash.
Proof. apply get_ok_spec. vm_compute. reflexivity. Qed.
#[local] Opaque demo_records demo_result last_record last_hash.
Lemma demo_valid_records :
  Forall (fun d => exists u, validate_json (dpop (py "delegation") d) = Ok u) demo_records.
Proof.
  pose proof demo_valid_b as H. apply forallb_Forall in H. eapply Forall_impl; [exact H|].
  intros d Hd. cbv beta in Hd. destruct (validate_json _) as [u|]; [by exists u|done].
Qed.
Lemma demo_records_wf : Forall (fun d => wf_json (JObj d)) demo_records.
Proof.
  pose proof demo_records_wfb as H. apply forallb_Forall in H. eapply Forall_impl; [exact H|].
  intros d. apply wf_jsonb_spec.
Qed.
Lemma demo_ids : Forall (fun hop => hop_credential_id hop <> []) (tail [hop1; hop2]).
Proof. by_decision. Qed.
Lemma demo_hops : Forall2 (fun hop c => ed_public_hex (signing_key hop) = subject c /\
  hop_credential_id hop = credential_id c) [hop1; hop2] demo_chain.
Proof.
  apply List.Forall2_cons; [split; by_decision|]. apply List.Forall2_cons; [split; by_decision|].
  constructor.
Qed.

Lemma emit_dag_verifies_witness :
  ((exists r, verify_trace_dag 0 (map JObj demo_records) demo_keys None = Ok r /\
      dag_subjects r = [JStr (py "did:a"); JStr (py "did:b")]) \/ collision_within demo_records) /\
  cross_check_trace_dag (map JObj demo_records) demo_chain = Ok tt.
Proof.
  destruct (emit_dag_verifies 0 [hop1; hop2] demo_keys demo_trusted demo_records demo_records_ok
    ltac:(discriminate) demo_ids demo_keys_ok demo_in_trusted demo_valid_records) as [H1 H2].
  exact (conj H1 (H2 demo_chain demo_hops)).
Defined.

Lemma trace_history_committed_witness :
  Forall2 same_record demo_records demo_records \/ traces_collide demo_records demo_records.
Proof.
  exact (trace_history_committed 0 0 demo_records demo_records demo_keys demo_keys None None
    demo_result demo_result last_record last_record last_hash demo_records_wf demo_records_wf demo_verifies demo_verifies
    last_record_ok last_record_ok last_hash_ok last_hash_ok).
Defined.
End DagExample.
