(* ===== verification/Verify.v ===== *)
(** * Offline verification of delegation chains ([ca2a_verify.verify])

    The chain verifier over a JSON file, and its summary of the verified chain. *)
From S2P Require Export Chain Dumps.
Import revocation.

Module verify.

Record ChainResult := {
  cr_hops : N;
  cr_root_issuer : pystr;
  cr_leaf_subject : pystr;
  cr_leaf_scope : list pystr;
  cr_revocation_checked : bool;
  cr_revocation_as_of : option Z
}.

(** [ChainResult.revocation] *)
Definition cr_revocation (r : ChainResult) : pystr :=
  if cr_revocation_checked r then py "not_revoked" else py "not_checked".

(** What the code sees of a path: its text, [is_file()] and [read_text]. *)
Record File := {
  path_text : pystr;
  is_file : bool;
  read_text : res pystr
}.

Section verify.
Context `{U : Unidata, C : Crypto, F : FloatText}.

Definition verify_delegation_chain (clock : Z) (chain : list DelegationCredential)
    (trusted_root_issuers : gset pystr) (max_depth : Z) (at_time : option Z)
    (revocations : option RevocationSnapshot) (max_revocation_staleness : option Z) : res ChainResult :=
  status ← verify_chain clock chain max_depth trusted_root_issuers at_time revocations
    max_revocation_staleness;
  root ← or_raise (head chain) (PyExc IndexError (py "list index out of range"));
  leaf ← or_raise (last chain) (PyExc IndexError (py "list index out of range"));
  Ok {| cr_hops := N.of_nat (length chain);
        cr_root_issuer := issuer root;
        cr_leaf_subject := subject leaf;
        cr_leaf_scope := sorted_set (scope leaf);
        cr_revocation_checked := checked status;
        cr_revocation_as_of := status_as_of status |}.

Definition _parse_chain (data : json) : res (list DelegationCredential) :=
  let data :=
    match data with
    | JObj d => match dget (py "chain") d with Some v => v | None => data end
    | _ => data
    end in
  match data with
  | JArr items => mapM_res credential.from_dict items
  | _ => Err (err InvalidCredential (py "chain document must be a list or {" ++ [34%N] ++ py "chain" ++ [34%N] ++ py ": [...]}"))
  end.

(** The JSON of a file, with the errors of the class that reports them. *)
Definition load_json (cls : err_class) (not_found : string) (p : File) : res json :=
  raise_if (negb (is_file p)) (err cls (py not_found ++ path_text p));;
  try_except (text ← read_text p; loads text) (is_py JSONDecodeError)
    (fun exc => Err (err_d cls (py "invalid JSON in " ++ path_text p) (exn_str exc))).

Definition verify_chain_file (clock : Z) (p : File) (trusted_root_issuers : gset pystr) (max_depth : Z)
    (at_time : option Z) (revocations : option RevocationSnapshot)
    (max_revocation_staleness : option Z) : res ChainResult :=
  data ← load_json InvalidCredential "chain file not found: " p;
  chain ← _parse_chain data;
  verify_delegation_chain clock chain trusted_root_issuers max_depth at_time revocations
    max_revocation_staleness.

Definition load_revocation_snapshot (p : File) : res RevocationSnapshot :=
  data ← load_json InvalidRevocation "revocation file not found: " p;
  snapshot_from_dict data.
End verify.
End verify.
Import verify.

(** ** The documents an auditor receives *)
Definition chain_json (chain : list DelegationCredential) : json :=
  JArr (map (fun c => JObj (_credential_to_dict c)) chain).
(** The two accepted shapes of a chain document. *)
Definition chain_document (chain : list DelegationCredential) (doc : json) : Prop :=
  doc = chain_json chain \/ doc = JObj [(py "chain", chain_json chain)].

(** A regular file holding the [json.dumps] text of a document. *)
Definition holds (p : File) (doc : json) : Prop :=
  is_file p = true /\ exists s, dumps doc = Ok s /\ read_text p = Ok s.

Section laws.
Context `{U : Unidata, C : Crypto, F : FloatText}.

Lemma chain_json_wf chain : wf_json (chain_json chain).
Proof.
  apply wf_json_arr, Forall_map, Forall_forall. intros c _.
  apply dset_wf; [done|apply flat_dict_wf, body_flat].
Qed.

Lemma chain_document_wf chain doc : chain_document chain doc -> wf_json doc.
Proof.
  intros [->| ->]; [apply chain_json_wf|]. apply wf_json_obj. split; [apply NoDup_singleton|].
  constructor; [apply chain_json_wf|constructor].
Qed.

Lemma snapshot_json_wf snap : wf_json (JObj (snapshot_to_dict snap)).
Proof.
  apply wf_json_obj. split; [by_decision|]. unfold snapshot_to_dict. constructor; [done|].
  constructor; [|constructor]. apply wf_json_arr, Forall_map, Forall_forall. intros s _.
  apply wf_jsonb_spec. reflexivity.
Qed.

Lemma load_json_holds cls not_found p doc :
  wf_json doc -> in_domain doc = true -> holds p doc -> load_json cls not_found p = Ok doc.
Proof.
  intros Hwf Hd (Hf & s & Hs & Hr). unfold load_json. rewrite Hf, Hr. cbn [negb raise_if mbind result_bind].
  by rewrite (loads_dumps _ _ Hwf Hd Hs).
Qed.

Lemma parse_chain_document chain doc :
  chain_document chain doc -> Forall wf_credential chain -> _parse_chain doc = Ok chain.
Proof.
  intros Hdoc Hwf. assert (_parse_chain doc = mapM_res credential.from_dict
    (map (fun c => JObj (_credential_to_dict c)) chain)) as ->.
  { unfold _parse_chain. by destruct Hdoc as [->| ->]. }
  rewrite mapM_res_map. apply mapM_res_ok, Forall_Forall2_diag. eapply Forall_impl; [done|apply from_to_dict].
Qed.

Lemma load_json_err cls not_found p e :
  load_json cls not_found p = Err e ->
  exn_class e = Some cls \/ read_text p = Err e \/
  exists s, read_text p = Ok s /\ loads s = Err e.
Proof.
  unfold load_json. intros [[_ ->]%raise_if_err|(_ & _ & H)]%bind_err; [by left|].
  destruct (text ← read_text p; loads text) as [v|e'] eqn:E; [done|]. cbn [try_except] in H.
  destruct (is_py JSONDecodeError e'); injection H as <-; [by left|right].
  apply bind_err in E as [?|(s & ? & ?)]; [by left|right]. eauto.
Qed.

Lemma verify_delegation_chain_ok clock chain trusted max_depth at_time revocations staleness r :
  verify_delegation_chain clock chain trusted max_depth at_time revocations staleness = Ok r <->
  exists st root leaf,
    verify_chain clock chain max_depth trusted at_time revocations staleness = Ok st /\
    head chain = Some root /\ last chain = Some leaf /\
    r = {| cr_hops := N.of_nat (length chain); cr_root_issuer := issuer root;
           cr_leaf_subject := subject leaf; cr_leaf_scope := sorted_set (scope leaf);
           cr_revocation_checked := checked st; cr_revocation_as_of := status_as_of st |}.
Proof.
  unfold verify_delegation_chain. rewrite bind_ok. setoid_rewrite bind_ok. setoid_rewrite bind_ok.
  setoid_rewrite or_raise_ok. split.
  - intros (st & Hv & root & Hr & leaf & Hl & <-%ok_inj). eauto 8.
  - intros (st & root & leaf & ? & ? & ? & ->). eauto 8.
Qed.

Lemma verify_chain_nonempty clock max_depth trusted at_time revocations staleness st :
  verify_chain clock [] max_depth trusted at_time revocations staleness <> Ok st.
Proof.
  unfold verify_chain. by destruct (negative at_time), (negative staleness).
Qed.

(** An audit of files is the audit of what they hold.  When the chain file holds
    the [json.dumps] text of a chain of well-formed credentials, bare or under
    [chain], and the revocation file that of a valid snapshot, the snapshot loads
    unchanged and verifying the chain file is verifying that chain against it. *)
Theorem audit_files_round_trip clock chain_file snapshot_file chain doc snap trusted max_depth at_time staleness
    (Hc : chain_document chain doc) (Hwf : Forall wf_credential chain) (Hd : in_domain doc = true)
    (Hfile : holds chain_file doc)
    (Hsnap : valid_snapshot snap) (Hswf : Forall wf_statement (statements snap))
    (Hsd : in_domain (JObj (snapshot_to_dict snap)) = true)
    (Hsfile : holds snapshot_file (JObj (snapshot_to_dict snap))) :
  load_revocation_snapshot snapshot_file = Ok snap /\
  (snap ← load_revocation_snapshot snapshot_file;
   verify_chain_file clock chain_file trusted max_depth at_time (Some snap) staleness) =
  verify_delegation_chain clock chain trusted max_depth at_time (Some snap) staleness.
Proof.
  assert (load_revocation_snapshot snapshot_file = Ok snap) as Hl.
  { unfold load_revocation_snapshot. rewrite (load_json_holds _ _ _ _ (snapshot_json_wf snap) Hsd Hsfile).
    by apply snapshot_from_to_dict. }
  split; [done|]. rewrite Hl. cbn [mbind result_bind]. unfold verify_chain_file.
  rewrite (load_json_holds _ _ _ _ (chain_document_wf _ _ Hc) Hd Hfile). cbn [mbind result_bind].
  by rewrite (parse_chain_document _ _ Hc Hwf).
Qed.

(** The summary of a verified chain is the chain's: [verify_delegation_chain]
    returns exactly when [verify_chain] does, with the length, the root's issuer, the
    leaf's subject and sorted scope and the revocation status that was established,
    and otherwise raises the error [verify_chain] raised. *)
Theorem verify_delegation_chain_spec clock chain trusted max_depth at_time revocations staleness :
  match verify_chain clock chain max_depth trusted at_time revocations staleness with
  | Ok st =>
      exists root leaf, head chain = Some root /\ last chain = Some leaf /\
        verify_delegation_chain clock chain trusted max_depth at_time revocations staleness =
        Ok {| cr_hops := N.of_nat (length chain); cr_root_issuer := issuer root;
              cr_leaf_subject := subject leaf; cr_leaf_scope := sorted_set (scope leaf);
              cr_revocation_checked := checked st; cr_revocation_as_of := status_as_of st |}
  | Err e => verify_delegation_chain clock chain trusted max_depth at_time revocations staleness = Err e
  end.
Proof.
  destruct (verify_chain _ _ _ _ _ _ _) as [st|e] eqn:E.
  - destruct chain as [|root chain]; [by apply verify_chain_nonempty in E|].
    destruct (last (root :: chain)) as [leaf|] eqn:El; [|by apply last_None in El].
    exists root, leaf. split_and!; [done|done|]. apply verify_delegation_chain_ok. exists st, root, leaf.
    by rewrite E, El.
  - unfold verify_delegation_chain. by rewrite E.
Qed.
End laws.

(** ** Concrete files *)
Module VerifyExample.
Import AsciiOnly Toy RevocationExample ChainExample.

Definition doc : json := JObj [(py "chain", chain_json demo_chain)].
Definition demo_snap : RevocationSnapshot := snapshot [by_delegate].
Definition file (v : json) : File :=
  {| path_text := py "f.json"; is_file := true; read_text := Ok (get_ok [] (dumps v)) |}.

Lemma file_holds v : is_ok (dumps v) = true -> holds (file v) v.
Proof. intros H. split; [done|]. exists (get_ok [] (dumps v)). split; [by apply get_ok_spec|done]. Qed.
Lemma doc_file : holds (file doc) doc.
Proof. apply file_holds. vm_compute. reflexivity. Qed.
Lemma snap_file : holds (file (JObj (snapshot_to_dict demo_snap))) (JObj (snapshot_to_dict demo_snap)).
Proof. apply file_holds. vm_compute. reflexivity. Qed.
Lemma doc_domain : in_domain doc = true.
Proof. vm_compute. reflexivity. Qed.
Lemma snap_domain : in_domain (JObj (snapshot_to_dict demo_snap)) = true.
Proof. vm_compute. reflexivity. Qed.
Lemma root_from_dict : credential.from_dict (JObj (_credential_to_dict root)) = Ok root.
Proof. by_decision. Qed.
Lemma leaf_from_dict : credential.from_dict (JObj (_credential_to_dict leaf)) = Ok leaf.
Proof. by_decision. Qed.
Lemma statement_from_dict : revocation.from_dict (JObj (to_dict by_delegate)) = Ok by_delegate.
Proof. by_decision. Qed.
Lemma demo_snap_built : is_ok (new_snapshot (JInt 120) [by_delegate]) = true.
Proof. vm_compute. reflexivity. Qed.
Lemma demo_snap_valid : valid_snapshot demo_snap.
Proof. exact (proj1 (snapshot_valid _ demo_snap_built)). Qed.
#[local] Opaque root leaf by_delegate.
Lemma demo_chain_wf : Forall wf_credential demo_chain.
Proof.
  constructor; [exact (proj1 (from_dict_sound _ _ root_from_dict))|].
  constructor; [exact (proj1 (from_dict_sound _ _ leaf_from_dict))|constructor].
Qed.

Lemma demo_snap_wf : Forall wf_statement (statements demo_snap).
Proof.
  unfold demo_snap.
  rewrite (proj1 (proj2 (snapshot_valid [by_delegate] demo_snap_built))).
  constructor; [|constructor]. exact (proj1 (proj1 (statement_from_dict_spec _ _) statement_from_dict)).
Qed.
#[local] Opaque demo_snap.

Lemma audit_files_round_trip_witness :
  load_revocation_snapshot (file (JObj (snapshot_to_dict demo_snap))) = Ok demo_snap.
Proof.
  exact (proj1 (audit_files_round_trip 150 (file doc) (file (JObj (snapshot_to_dict demo_snap))) demo_chain
    doc demo_snap {[pub 1]} 8 None None (or_intror eq_refl) demo_chain_wf doc_domain doc_file
    demo_snap_valid demo_snap_wf snap_domain snap_file)).
Defined.
End VerifyExample.
