(* ===== verification/Evidence.v ===== *)
(** * Hardware evidence: byte readers, hosts and the packages

    What the three hardware providers and their verifiers share: reading integers and
    slices out of an evidence blob, the text of an exception, the host the code runs
    on, and the interface of the packages that parse and verify evidence
    ([agent_manifest], [cryptography]). *)
From S2P Require Export Attestation.
Import tee attestation.
#[local] Open Scope N_scope.

(** ** Reading a blob *)

(** [int.from_bytes(b, "little")]; [Sha256.be_int] is the big-endian reading. *)
Definition le_int (b : bytes) : N := be_int (rev b).
(** [b[i:j]] *)
Definition slice (i j : N) (b : bytes) : bytes := take (N.to_nat (j - i)) (drop (N.to_nat i) b).

(** A little-endian field of [struct.unpack_from]; [struct.error] past the end. *)
Definition unpack_le (width : N) (b : bytes) (pos : N) : res N :=
  raise_if (len b <? pos + width)
    (PyExc OtherException
       (py "unpack_from requires a buffer of at least " ++ str_N (pos + width) ++
        py " bytes for unpacking " ++ str_N width ++ py " bytes at offset " ++ str_N pos ++
        py " (actual buffer size is " ++ str_N (len b) ++ py ")"));;
  Ok (le_int (slice pos (pos + width) b)).

(** [f"{n:#x}"] *)
Definition hex_N (n : N) : pystr := py "0x" ++ hex_digits (N.to_nat (N.log2 n / 4 + 1)) n.

(** The bytes between a prefix and a suffix. *)
Lemma slice_middle pre x post i j :
  i = len pre -> j = len pre + len x -> slice i j (pre ++ x ++ post) = x.
Proof.
  intros -> ->. unfold slice, len. replace (N.to_nat _) with (length x) at 1 by lia.
  rewrite Nat2N.id, drop_app_length. by rewrite take_app_length.
Qed.
Lemma len_app a b : len (a ++ b) = len a + len b.
Proof. unfold len. rewrite length_app. lia. Qed.
Lemma length_slice i j b : i <= j -> j <= len b -> len (slice i j b) = j - i.
Proof. unfold slice, len. intros. rewrite length_take, length_drop. lia. Qed.
Lemma slice_slice i j k l b : k <= l -> l <= j - i -> slice k l (slice i j b) = slice (i + k) (i + l) b.
Proof.
  unfold slice. intros Hkl Hl. rewrite skipn_firstn_comm, drop_drop, take_take.
  f_equal; [lia|f_equal; lia].
Qed.
Lemma slice_nil i b : slice i i b = [].
Proof. unfold slice. by rewrite N.sub_diag. Qed.
#[global] Opaque slice.

Lemma unpack_le_ok w b pos n :
  unpack_le w b pos = Ok n <-> pos + w <= len b /\ n = le_int (slice pos (pos + w) b).
Proof.
  unfold unpack_le. rewrite seq_ok. setoid_rewrite raise_if_ok. setoid_rewrite N.ltb_ge. split.
  - intros [[_ ?] <-%ok_inj]. done.
  - intros [? ->]. split; [by exists tt|done].
Qed.

(** ** [type(exc).__name__] *)
Definition class_name (c : err_class) : pystr :=
  py match c with
     | CA2AError => "CA2AError" | ConfigError => "ConfigError"
     | InvalidCredential => "InvalidCredential"
     | UntrustedDelegationRoot => "UntrustedDelegationRoot" | ScopeEscalation => "ScopeEscalation"
     | BrokenDelegationLink => "BrokenDelegationLink"
     | DelegationDepthExceeded => "DelegationDepthExceeded" | CredentialReplay => "CredentialReplay"
     | CredentialNotYetValid => "CredentialNotYetValid" | CredentialExpired => "CredentialExpired"
     | CredentialRevoked => "CredentialRevoked"
     | RevocationStatusUnknown => "RevocationStatusUnknown" | InvalidRevocation => "InvalidRevocation"
     | HolderProofInvalid => "HolderProofInvalid"
     | AttestationUnsupported => "AttestationUnsupported" | AttestationFailed => "AttestationFailed"
     | SealedChannelError => "SealedChannelError" | ProvenanceLinkBroken => "ProvenanceLinkBroken"
     | TraceDigestUnsupported => "TraceDigestUnsupported" | ScopeNotPermitted => "ScopeNotPermitted"
     | TransportError => "TransportError" | TraceRecordInvalid => "TraceRecordInvalid"
     | ResponseAuthenticationFailed => "ResponseAuthenticationFailed"
     end.
Definition exn_name (e : exn) : pystr :=
  match e with
  | CA2A e => class_name (err_cls e)
  | PyExc k _ =>
      py match k with
         | ValueError => "ValueError" | UnicodeEncodeError => "UnicodeEncodeError"
         | UnicodeDecodeError => "UnicodeDecodeError" | JSONDecodeError => "JSONDecodeError"
         | TypeError => "TypeError" | KeyError => "KeyError" | AttributeError => "AttributeError"
         | IndexError => "IndexError" | RecursionError => "RecursionError" | OSError => "OSError"
         | TimeoutError => "TimeoutError" | HTTPException => "HTTPException"
         | OverflowError => "OverflowError" | InvalidSignature => "InvalidSignature"
         | InvalidTag => "InvalidTag" | OtherException => "Exception"
         end
  end.
(** [f"{type(exc).__name__}: {exc}"] *)
Definition exn_text (e : exn) : pystr := exn_name e ++ py ": " ++ exn_str e.

(** [except Exception as exc: raise cls(message, detail=f"{type(exc).__name__}: {exc}")] *)
Definition report_any {A} (c : err_class) (message : pystr) (m : res A) : res A :=
  try_except m (fun _ => true) (fun exc => Err (err_d c message (exn_text exc))).

Lemma report_any_ok {A} c msg (m : res A) a : report_any c msg m = Ok a <-> m = Ok a.
Proof. unfold report_any. apply try_except_raise_ok. Qed.
Lemma report_any_err {A} c msg (m : res A) e : report_any c msg m = Err e -> exn_class e = Some c.
Proof. unfold report_any, try_except. destruct m; [done|]. by intros [= <-]. Qed.

(** ** The host *)

(** [sys.platform], [Path.exists], [Path.is_dir] and whether the [tpm2_pytss] bindings
    import. *)
Record Host := {
  sys_platform : pystr;
  path_exists : pystr -> bool;
  path_is_dir : pystr -> bool;
  tpm2_pytss_available : bool
}.
Definition on_linux (h : Host) : bool := bool_decide (sys_platform h = py "linux").

(** ** The packages *)

(** How a call of [agent_manifest] fails: with the exception class the code names in
    its [except] clause, or with another exception. *)
Inductive package_error := Declared (text : pystr) | Escaped (e : exn).

(** [try: m / except <the declared class> as exc: raise h(str(exc))] *)
Definition translate {A} (m : result package_error A) (h : pystr -> exn) : res A :=
  match m with
  | Ok a => Ok a
  | Err (Declared text) => Err (h text)
  | Err (Escaped e) => Err e
  end.
Lemma translate_ok {A} (m : result package_error A) h a : translate m h = Ok a <-> m = Ok a.
Proof. destruct m as [|[]]; simpl; naive_solver. Qed.

(** [agent_manifest.ParsedSignature] *)
Record ParsedSignature := { sig_alg : N; hash_alg : N; sig_bytes : bytes }.

(** The fields of [agent_manifest]'s parsed SNP report the code copies. *)
Record SharedSnpReport := {
  shared_version : N;
  shared_guest_svn : N;
  shared_policy : N;
  shared_vmpl : N;
  shared_signature_algo : N;
  shared_measurement : bytes;
  shared_report_data : bytes;
  shared_raw : bytes
}.

(** The kind of a certificate's public key, with the key. *)
Inductive cert_key (K : Type) := EcKey (k : K) | RsaKey | OtherPublicKey.
Arguments EcKey {K} k. Arguments RsaKey {K}. Arguments OtherPublicKey {K}.

Inductive ecdsa_hash := SHA256 | SHA384.

Class Evidence := {
  (** [cryptography.x509]: certificates, their PEM and public key ([public_key()] raises
      on a key it does not support), the bundle loader (the text of its ValueError). *)
  cert : Type;
  cert_pem : cert -> bytes;
  ec_key : Type;
  cert_public_key : cert -> res (cert_key ec_key);
  load_pem_x509_certificates : bytes -> result pystr (list cert);
  (** [key.verify(encode_dss_signature(r, s), message, ECDSA(hash))]; its failures are
      InvalidSignature and ValueError. *)
  ecdsa_verify : ec_key -> N -> N -> bytes -> ecdsa_hash -> result exn unit;
  (** [EllipticCurvePublicKey.from_encoded_point(SECP256R1(), b)] *)
  p256_from_encoded_point : bytes -> result pystr ec_key;
  (** [agent_manifest]: the chain verifier, the TPM signature parser and verifier, the
      SNP report parser, and the appraisal of PLATFORM_INFO. *)
  shared_verify_cert_chain : list cert -> list cert -> result package_error unit;
  am_parse_tpmt_signature : bytes -> result package_error ParsedSignature;
  (** attest, signature, AK chain, trusted roots, expected qualifying data, expected
      PCR digest *)
  am_verify_tpm_quote : bytes -> (bytes + ParsedSignature) -> bytes -> bytes ->
    option bytes -> option bytes -> res bool;
  parse_snp_report : bytes -> result package_error SharedSnpReport;
  snp_sig_offset : N;
  snp_platform_info_offset : N;
  (** PLATFORM_INFO decoded; then the decoded fields, those required true and forbidden,
      and whether unrecognised bits are refused *)
  platform_fields : Type;
  parse_platform_info : N -> res platform_fields;
  appraise_platform_info : platform_fields -> option (gset pystr) -> option (gset pystr) -> bool -> res unit
}.
