(* ===== verification/Tpm.v ===== *)
(** * TPM 2.0 quotes: parsing and collection ([ca2a_runtime.tee.tpm])

    The TPMS_ATTEST parser, and the provider that collects a quote over PCRs 0-7.  The
    TPM is reached through [tpm2_pytss] and certificates through [cryptography], so
    both are records of operations; a device's answers are functions of the request. *)
From S2P Require Export Evidence.
Import tee attestation.
#[local] Open Scope N_scope.

Module tpm.

Definition TPM_GENERATED_VALUE : N := 0xFF544347.
Definition TPM_ST_ATTEST_QUOTE : N := 0x8018.
Definition CLOCK_INFO_LEN : N := 17.
Definition FIRMWARE_VERSION_LEN : N := 8.
Definition TPM_DEVICES : list pystr := [py "/dev/tpmrm0"; py "/dev/tpm0"].
Definition _PCR_COUNT : nat := 8.
Definition _PLATFORM_AK_HANDLE : N := 0x81000003.
Definition _PLATFORM_AK_CERT_NV_INDEX : N := 0x01C101D0.
Definition _NV_READ_CHUNK_BYTES : N := 512.
Definition _TPM2_PT_NV_BUFFER_MAX : N := 0x0000012B.
Definition _AIA_MAX_DEPTH : nat := 4.
Definition _AIA_CA_ISSUERS_OID : pystr := py "1.3.6.1.5.5.7.48.2".

Definition failed (message : string) : exn := err AttestationFailed (py message).
Definition failed_d (message : string) (detail : pystr) : exn := err_d AttestationFailed (py message) detail.
Definition unsupported_d (message : string) (detail : pystr) : exn :=
  err_d AttestationUnsupported (py message) detail.

Definition tpm_qualifying_data `{U : Unidata} (public_key nonce role : pystr) : res bytes :=
  prefix ← role_prefix TPM_PREFIX role;
  derive_binding prefix public_key nonce.

(** ** The parser *)
Definition _read_u16 (buf : bytes) (pos : N) : res (N * N) :=
  raise_if (len buf <? pos + 2) (failed "TPM quote truncated reading a 16-bit field");;
  Ok (be_int (slice pos (pos + 2) buf), pos + 2).

Definition _read_2b (buf : bytes) (pos : N) : res (bytes * N) :=
  '(size, pos) ← _read_u16 buf pos;
  raise_if (len buf <? pos + size) (failed "TPM quote truncated reading a sized buffer");;
  Ok (slice pos (pos + size) buf, pos + size).

Record TpmQuote := {
  magic : N;
  attest_type : N;
  qualifying_data : bytes;
  pcr_digest : bytes;
  raw : bytes
}.

(** The body of the loop over PCR selections. *)
Definition skip_selection (blob : bytes) (pos : N) : res N :=
  raise_if (len blob <? pos + 3) (failed "TPM quote truncated reading a PCR selection");;
  let size_of_select := be_int (slice (pos + 2) (pos + 3) blob) in
  Ok (pos + 3 + size_of_select).
(** [for _ in range(count)]; a raise ends the loop. *)
Definition skip_selections (blob : bytes) (count pos : N) : res N :=
  N.iter count (fun r => r ≫= skip_selection blob) (Ok pos).

(** [TpmQuote.parse(blob)] *)
Definition parse (blob : bytes) : res TpmQuote :=
  raise_if (len blob <? 6) (failed "TPM quote too short");;
  let magic := be_int (slice 0 4 blob) in
  '(attest_type, pos) ← _read_u16 blob 4;
  '(_, pos) ← _read_2b blob pos;
  '(qualifying_data, pos) ← _read_2b blob pos;
  let pos := pos + (CLOCK_INFO_LEN + FIRMWARE_VERSION_LEN) in
  raise_if (len blob <? pos + 4) (failed "TPM quote truncated reading PCR selection count");;
  let count := be_int (slice pos (pos + 4) blob) in
  pos ← skip_selections blob count (pos + 4);
  '(pcr_digest, _) ← _read_2b blob pos;
  Ok {| magic := magic; attest_type := attest_type; qualifying_data := qualifying_data;
        pcr_digest := pcr_digest; raw := blob |}.

(** [_check_quote(quote, qualifying_data, pcr_digest_local)] *)
Definition _check_quote (quote : TpmQuote) (qd pcr_digest_local : bytes) : res unit :=
  raise_if (negb (magic quote =? TPM_GENERATED_VALUE))
    (failed_d "the quote is not TPM-generated" (py "magic=" ++ hex_N (magic quote)));;
  raise_if (negb (attest_type quote =? TPM_ST_ATTEST_QUOTE))
    (failed_d "the attestation is not a quote" (py "type=" ++ hex_N (attest_type quote)));;
  raise_if (negb (bool_decide (qualifying_data quote = qd)))
    (failed_d "the quote does not commit the requested key and nonce binding"
       (py "extraData does not match the derived qualifying data"));;
  raise_if (negb (bool_decide (pcr_digest quote = pcr_digest_local)))
    (failed_d "the quoted PCR digest does not match the PCRs that were read"
       (py "quote=" ++ hex (pcr_digest quote) ++ py " read=" ++ hex pcr_digest_local ++
        py "; the measurement would describe a different PCR selection")).

(** ** The provider *)

(** The operations of [tpm2_pytss.ESAPI] the provider calls; handles and public areas
    are the package's. *)
Record Esapi := {
  handle : Type;
  tpm_public : Type;
  esapi_open : res unit;
  pcr_read : res (list bytes);
  tr_from_tpmpublic : N -> res handle;
  nv_data_size : handle -> res N;
  (** the (property, value) pairs of [get_capability] *)
  nv_capability : res (list (N * N));
  (** handle, size, offset *)
  nv_read : handle -> N -> N -> res bytes;
  read_public : handle -> res tpm_public;
  public_pem : tpm_public -> res bytes;
  create_primary : res (handle * tpm_public);
  (** handle and qualifying data to the attestation data and the marshalled signature *)
  quote : handle -> bytes -> res (bytes * bytes)
}.

(** The certificate operations of the chain walk. *)
Class CertStore `{E : Evidence} := {
  load_der_x509_certificate : bytes -> res cert;
  load_pem_x509_certificate : bytes -> res cert;
  load_der_pkcs7_certificates : bytes -> res (list cert);
  load_pem_pkcs7_certificates : bytes -> res (list cert);
  cert_subject_is_issuer : cert -> bool;
  (** the access methods and string locations of the AIA extension; the declared
      error is ExtensionNotFound *)
  cert_aia : cert -> result package_error (list (pystr * option pystr));
  cert_public_pem : cert -> res bytes;
  (** [urlopen(url).read()] *)
  http_get : pystr -> res bytes
}.

Section provider.
Context `{U : Unidata, E : Evidence, X : !CertStore}.

(** [TpmProvider.detect()] *)
Definition detect_tpm (h : Host) : bool :=
  on_linux h && existsb (path_exists h) TPM_DEVICES && tpm2_pytss_available h.

(** [_require_host()] *)
Definition _require_host (h : Host) : res unit :=
  raise_if (negb (on_linux h))
    (unsupported_d "TPM quote generation is only implemented on Linux"
       (py "running on " ++ sys_platform h ++ py "; the TPM resource manager is a Linux device"));;
  match List.filter (path_exists h) TPM_DEVICES with
  | [] =>
      Err (unsupported_d "TPM quote generation requires a TPM device"
             (py "none of " ++ join (py ", ") TPM_DEVICES ++
              py " exist; run on a host with a TPM 2.0 or vTPM"))
  | present :: _ =>
      raise_if (negb (tpm2_pytss_available h))
        (unsupported_d "TPM quote generation requires the tpm2-pytss bindings"
           (py "a TPM is present at " ++ present ++
            py " but tpm2-pytss is not importable; install the 'tpm' extra"))
  end.

(** [_read_pcrs(ectx, TPML_PCR_SELECTION)] *)
Definition _read_pcrs (t : Esapi) : res bytes :=
  raw ← try_except (pcr_read t) (fun _ => true)
    (fun exc => Err (unsupported_d "the SHA-256 PCR bank could not be read"
       (exn_text exc ++ py ". cA2A does not fall back to SHA-1: a report labelled sha256 " ++
        py "must measure the SHA-256 bank.")));
  raise_if (Nat.ltb (length raw) _PCR_COUNT)
    (failed_d "the TPM returned fewer PCRs than were selected"
       (py "got " ++ str_N (N.of_nat (length raw)) ++ py ", expected " ++ str_N (N.of_nat _PCR_COUNT)));;
  Ok (sha256 (concat (take _PCR_COUNT raw))).

(** The chunk size of an NV read. *)
Definition nv_chunk (t : Esapi) : N :=
  match nv_capability t with
  | Ok props =>
      match List.find (fun p => p.1 =? _TPM2_PT_NV_BUFFER_MAX) props with
      | Some (_, value) => N.min _NV_READ_CHUNK_BYTES value
      | None => _NV_READ_CHUNK_BYTES
      end
  | Err _ => _NV_READ_CHUNK_BYTES
  end.

(** [while len(out) < total]; [None] when the loop is still running after [fuel]
    iterations. *)
Fixpoint nv_read_loop (fuel : nat) (t : Esapi) (h : handle t) (chunk total : N) (out : bytes) :
    option (res bytes) :=
  if len out <? total then
    match fuel with
    | O => None
    | S fuel =>
        match nv_read t h (N.min chunk (total - len out)) (len out) with
        | Err e => Some (Err e)
        | Ok got => nv_read_loop fuel t h chunk total (out ++ got)
        end
    end
  else Some (Ok out).

(** [_read_nv(ectx, index)]; the outer [None] as above. *)
Definition _read_nv (fuel : nat) (t : Esapi) (index : N) : option (option bytes) :=
  match (h ← tr_from_tpmpublic t index; total ← nv_data_size t h; Ok (h, total)) with
  | Err _ => Some None
  | Ok (h, total) =>
      match nv_read_loop fuel t h (nv_chunk t) total [] with
      | None => None
      | Some (Err _) => Some None
      | Some (Ok out) => Some (Some out)
      end
  end.

(** [_certifies(chain_pem, tpm_public)] *)
Definition _certifies (t : Esapi) (chain_pem : bytes) (public : tpm_public t) : res bool :=
  match load_pem_x509_certificates chain_pem with
  | Ok (leaf :: _) =>
      a ← cert_public_pem leaf;
      b ← public_pem t public;
      Ok (bool_decide (a = b))
  | _ => Ok false
  end.

(** [load_any(data)] *)
Definition load_any (data : bytes) : list cert :=
  match load_der_x509_certificate data with
  | Ok c => [c]
  | Err _ =>
      match load_pem_x509_certificate data with
      | Ok c => [c]
      | Err _ =>
          match load_der_pkcs7_certificates data with
          | Ok (c :: l) => c :: l
          | _ => match load_pem_pkcs7_certificates data with Ok l => l | Err _ => [] end
          end
      end
  end.

(** The first issuer certificate an AIA entry leads to. *)
Definition is_http_url (url : pystr) : bool :=
  match strip_prefix (py "http://") url, strip_prefix (py "https://") url with
  | None, None => false
  | _, _ => true
  end.
Fixpoint fetch_issuer (aia : list (pystr * option pystr)) : option cert :=
  match aia with
  | [] => None
  | (oid, location) :: aia =>
      match location with
      | Some url =>
          if bool_decide (oid = _AIA_CA_ISSUERS_OID) && is_http_url url then
            match http_get url with
            | Ok data => match load_any data with c :: _ => Some c | [] => fetch_issuer aia end
            | Err _ => fetch_issuer aia
            end
          else fetch_issuer aia
      | None => fetch_issuer aia
      end
  end.

(** [while len(chain) < _AIA_MAX_DEPTH], by the depth that is left. *)
Fixpoint aia_walk (left_ : nat) (chain : list cert) : res (list cert) :=
  match left_, last chain with
  | S left_, Some current =>
      if cert_subject_is_issuer current then Ok chain
      else
        match cert_aia current with
        | Err (Declared _) => Ok chain
        | Err (Escaped e) => Err e
        | Ok aia =>
            match fetch_issuer aia with
            | None => Ok chain
            | Some issuer => aia_walk left_ (chain ++ [issuer])
            end
        end
  | _, _ => Ok chain
  end.

(** [_chain_from_leaf(leaf_der)] *)
Definition _chain_from_leaf (leaf_der : bytes) : res bytes :=
  match load_any leaf_der with
  | [] => Ok []
  | chain =>
      chain ← aia_walk (_AIA_MAX_DEPTH - length chain) chain;
      Ok (concat (map cert_pem chain))
  end.

(** The signing key: handle, public area, chain, and whether it is transient. *)
Definition ak_choice (t : Esapi) : Type := handle t * tpm_public t * option bytes * bool.

(** The platform key, when its certificate certifies it. *)
Definition platform_key (t : Esapi) (cert_der : bytes) : res (option (ak_choice t)) :=
  h ← tr_from_tpmpublic t _PLATFORM_AK_HANDLE;
  public ← read_public t h;
  chain ← _chain_from_leaf cert_der;
  certified ← (if bool_decide (chain = []) then Ok false else _certifies t chain public);
  Ok (if certified : bool then Some (h, public, Some chain, false) else None).

(** [_attestation_key(ectx)], after [_read_nv]. *)
Definition _attestation_key (t : Esapi) (cert_der : option bytes) : res (ak_choice t) :=
  let transient : res (ak_choice t) := '(h, public) ← create_primary t; Ok (h, public, None, true) in
  match cert_der with
  | None => transient
  | Some der => match platform_key t der with Ok (Some key) => Ok key | _ => transient end
  end.

(** The quote with the key, and the handles flushed afterwards, whatever the outcome. *)
Definition quote_with (t : Esapi) (key : ak_choice t) (qd : bytes) :
    res (bytes * bytes * bytes) * list (handle t) :=
  let '(h, public, _, transient) := key in
  (report_any AttestationFailed (py "TPM2_Quote did not produce a signed quote")
     ('(attest_blob, signature_blob) ← quote t h qd;
      ak_pem ← public_pem t public;
      Ok (attest_blob, signature_blob, ak_pem)),
   if transient then [h] else []).

(** The report made of a quote. *)
Definition tpm_report (public_key nonce role : pystr) (chain_pem : option bytes) (qd pcr_digest_local : bytes)
    (evidence : bytes * bytes * bytes) : res AttestationReport :=
  let '(attest_blob, signature_blob, ak_pem) := evidence in
  quote ← parse attest_blob;
  _check_quote quote qd pcr_digest_local;;
  Ok {| tee.platform := py "tpm"; measurement := py "sha256:" ++ hex (pcr_digest quote);
        tee.public_key := public_key; tee.nonce := nonce; raw_evidence := Some attest_blob;
        quote_signature := Some signature_blob; attestation_key_pem := Some ak_pem;
        attestation_key_chain_pem := chain_pem; tee.role := role |}.

(** [_collect], with the handles it flushes; [None] while [_read_nv] is still reading. *)
Definition _collect (fuel : nat) (t : Esapi) (public_key nonce role : pystr) :
    option (res AttestationReport * list (handle t)) :=
  match (qd ← tpm_qualifying_data public_key nonce role;
         esapi_open t;; pcrs ← _read_pcrs t; Ok (qd, pcrs)) with
  | Err e => Some (Err e, [])
  | Ok (qd, pcrs) =>
      match _read_nv fuel t _PLATFORM_AK_CERT_NV_INDEX with
      | None => None
      | Some cert_der =>
          Some match report_any AttestationFailed (py "no attestation key was available to sign a quote")
                       (_attestation_key t cert_der) with
               | Err e => (Err e, [])
               | Ok key =>
                   let (evidence, flushed) := quote_with t key qd in
                   (evidence ≫= tpm_report public_key nonce role key.1.2 qd pcrs, flushed)
               end
      end
  end.

(** [attest(public_key, nonce, role=role)] *)
Definition attest_tpm (fuel : nat) (h : Host) (t : Esapi) (public_key nonce role : pystr) :
    option (res AttestationReport * list (handle t)) :=
  match _require_host h with
  | Err e => Some (Err e, [])
  | Ok _ => _collect fuel t public_key nonce role
  end.
End provider.
End tpm.
Import tpm.

(** ** The layout the parser reads

    [marshal_quote] writes a TPMS_ATTEST quote as the TPM 2.0 library specification
    lays it out; the code only reads it. *)
Definition sized (b : bytes) : bytes := be_bytes 2 (len b) ++ b.
Definition marshal_selection (s : N * bytes) : bytes := be_bytes 2 s.1 ++ be_bytes 1 (len s.2) ++ s.2.
Definition marshal_quote (magic type : N) (signer extra clock firmware : bytes) (sels : list (N * bytes))
    (digest rest : bytes) : bytes :=
  be_bytes 4 magic ++ be_bytes 2 type ++ sized signer ++ sized extra ++ (clock ++ firmware) ++
  be_bytes 4 (N.of_nat (length sels)) ++ concat (map marshal_selection sels) ++ sized digest ++ rest.

Section parse_laws.

Lemma len_be_bytes w n : len (be_bytes w n) = N.of_nat w.
Proof. unfold len. by rewrite length_be_bytes. Qed.
Lemma len_sized b : len (sized b) = 2 + len b.
Proof. unfold sized. by rewrite len_app, len_be_bytes. Qed.

Lemma slice_at b pre x post i j :
  b = pre ++ x ++ post -> i = len pre -> j = len pre + len x -> slice i j b = x.
Proof. intros ->. apply slice_middle. Qed.

Lemma read_u16_at b pre n post pos :
  b = pre ++ be_bytes 2 n ++ post -> n < 65536 -> pos = len pre -> _read_u16 b pos = Ok (n, pos + 2).
Proof.
  intros -> Hn ->. unfold _read_u16. rewrite !len_app, len_be_bytes.
  apply guard_pass; [apply N.ltb_ge; lia|]. do 2 f_equal.
  rewrite (slice_middle pre) by (rewrite ?len_be_bytes; lia). by apply be_int_be_bytes.
Qed.

Lemma read_2b_at b pre x post pos :
  b = pre ++ sized x ++ post -> len x < 65536 -> pos = len pre -> _read_2b b pos = Ok (x, pos + 2 + len x).
Proof.
  intros Hb Hx ->. unfold _read_2b, sized in *. rewrite <-!app_assoc in Hb.
  rewrite (read_u16_at _ _ _ _ _ Hb) by done. cbn [mbind result_bind]. rewrite Hb, !len_app, len_be_bytes.
  apply guard_pass; [apply N.ltb_ge; lia|]. do 2 f_equal.
  rewrite (app_assoc pre). apply slice_middle; rewrite len_app, len_be_bytes; lia.
Qed.

Lemma skip_selection_at b pre s post pos :
  b = pre ++ marshal_selection s ++ post -> len s.2 < 256 -> pos = len pre ->
  skip_selection b pos = Ok (pos + len (marshal_selection s)).
Proof.
  intros -> Hs ->. unfold skip_selection, marshal_selection. rewrite !len_app, !len_be_bytes.
  apply guard_pass; [apply N.ltb_ge; lia|]. f_equal.
  rewrite <-!app_assoc, (app_assoc pre).
  rewrite (slice_middle (pre ++ be_bytes 2 s.1)) by (rewrite len_app, !len_be_bytes; lia).
  rewrite be_int_be_bytes by done. lia.
Qed.

Lemma skip_selections_succ blob n pos :
  skip_selections blob (N.succ n) pos = skip_selection blob pos ≫= skip_selections blob n.
Proof.
  unfold skip_selections. rewrite N.iter_succ_r. cbn [mbind result_bind].
  destruct (skip_selection blob pos) as [p|e]; [done|]. cbn [mbind result_bind].
  induction n as [|n IH] using N.peano_ind; [done|]. by rewrite N.iter_succ, IH.
Qed.

Lemma skip_selections_at b pre sels post pos :
  b = pre ++ concat (map marshal_selection sels) ++ post ->
  Forall (fun s => len s.2 < 256) sels -> pos = len pre ->
  skip_selections b (N.of_nat (length sels)) pos = Ok (pos + len (concat (map marshal_selection sels))).
Proof.
  intros Hb Hs. revert pre pos Hb. induction Hs as [|s sels Hs _ IH]; intros pre pos Hb Hpos.
  { change (len (concat (map marshal_selection []))) with 0. by rewrite N.add_0_r. }
  cbn [map concat length] in *. rewrite <-!app_assoc in Hb.
  rewrite Nat2N.inj_succ, skip_selections_succ, (skip_selection_at _ _ _ _ _ Hb Hs Hpos).
  cbn [mbind result_bind]. rewrite (app_assoc pre) in Hb.
  rewrite (IH _ _ Hb) by (rewrite len_app; lia). rewrite len_app. f_equal. lia.
Qed.

(** Every selection takes three bytes of the blob at least. *)
Lemma skip_selections_ok blob n pos p :
  skip_selections blob n pos = Ok p -> pos + 3 * n <= p /\ (0 < n -> pos + 3 * n <= len blob).
Proof.
  revert pos. induction n as [|n IH] using N.peano_ind; intros pos H.
  { injection H as <-. lia. }
  rewrite skip_selections_succ in H. apply bind_ok in H as (q & Hq & H).
  unfold skip_selection in Hq. inv_ok. bool_to_prop. apply IH in H. lia.
Qed.

Lemma skip_selections_err blob n m pos e :
  skip_selections blob n pos = Err e -> n <= m -> skip_selections blob m pos = Err e.
Proof.
  intros H Hm. replace m with ((m - n) + n) by lia. unfold skip_selections in *.
  rewrite N.iter_add, H. generalize (m - n). intros k.
  induction k as [|k IH] using N.peano_ind; [done|]. by rewrite N.iter_succ, IH.
Qed.

Lemma read_u16_err b pos e : _read_u16 b pos = Err e -> exn_class e = Some AttestationFailed.
Proof. unfold _read_u16. intros [[_ ->]%raise_if_err|(_ & _ & H)]%bind_err; done. Qed.
Lemma read_2b_err b pos e : _read_2b b pos = Err e -> exn_class e = Some AttestationFailed.
Proof.
  unfold _read_2b. intros [H|([size p] & _ & H)]%bind_err; [by eapply read_u16_err|].
  by apply bind_err in H as [[_ ->]%raise_if_err|(_ & _ & H)].
Qed.
Lemma skip_selections_class b n pos e :
  skip_selections b n pos = Err e -> exn_class e = Some AttestationFailed.
Proof.
  revert pos. induction n as [|n IH] using N.peano_ind; intros pos; [done|].
  rewrite skip_selections_succ. intros [H|(q & _ & H)]%bind_err; [|by eapply IH].
  unfold skip_selection in H. by apply bind_err in H as [[_ ->]%raise_if_err|(_ & _ & H)].
Qed.

Lemma parse_err b e : parse b = Err e -> exn_class e = Some AttestationFailed.
Proof.
  unfold parse. intros H.
  apply bind_err in H as [[_ ->]%raise_if_err|(_ & _ & H)]; [done|].
  apply bind_err in H as [H|([type p1] & _ & H)]; [by eapply read_u16_err|].
  apply bind_err in H as [H|([signer p2] & _ & H)]; [by eapply read_2b_err|].
  apply bind_err in H as [H|([extra p3] & _ & H)]; [by eapply read_2b_err|].
  apply bind_err in H as [[_ ->]%raise_if_err|(_ & _ & H)]; [done|].
  apply bind_err in H as [H|(p4 & _ & H)]; [by eapply skip_selections_class|].
  apply bind_err in H as [H|([digest p5] & _ & H)]; [by eapply read_2b_err|done].
Qed.

Lemma read_2b_ok b pos x p :
  _read_2b b pos = Ok (x, p) -> p = pos + 2 + len x /\ p <= len b /\ len x < 65536 /\ x = slice (pos + 2) p b.
Proof.
  unfold _read_2b, _read_u16. intros H. inv_ok. bool_to_prop.
  simplify_eq. pose proof (be_int_bound (slice pos (pos + 2) b)) as Hbound.
  rewrite (length_slice pos (pos + 2)) in Hbound by lia. replace (pos + 2 - pos) with 2 in Hbound by lia.
  change (256 ^ 2) with 65536 in Hbound.
  rewrite length_slice by lia. split_and!; [lia|lia|lia|done].
Qed.

Lemma parse_ok b q :
  parse b = Ok q ->
  raw q = b /\ len (qualifying_data q) < 65536 /\ len (pcr_digest q) < 65536 /\
  len (qualifying_data q) + len (pcr_digest q) <= len b /\
  (exists i, qualifying_data q = slice i (i + len (qualifying_data q)) b) /\
  exists j, pcr_digest q = slice j (j + len (pcr_digest q)) b.
Proof.
  unfold parse. intros (_ & _ & H)%bind_ok.
  apply bind_ok in H as ([type p1] & _ & ([signer p2] & _ & H)%bind_ok).
  apply bind_ok in H as ([extra p3] & He & (_ & _ & H)%bind_ok).
  apply bind_ok in H as (p4 & Hp & ([digest p5] & Hd & <-%ok_inj)%bind_ok). simpl.
  apply read_2b_ok in He as (-> & ? & ? & He), Hd as (-> & ? & ? & Hd).
  apply skip_selections_ok in Hp. unfold CLOCK_INFO_LEN, FIRMWARE_VERSION_LEN in *.
  split_and!; [done|done|done|lia|eexists|eexists]; first [exact He|exact Hd].
Qed.
End parse_laws.

(** ** Reading the certificate from NV memory *)
Section nv_laws.

(** The largest read the device announces, as TPM2_PT_NV_BUFFER_MAX. *)
Definition announced_max (t : Esapi) : option N :=
  match nv_capability t with
  | Ok props => snd <$> List.find (fun p => p.1 =? _TPM2_PT_NV_BUFFER_MAX) props
  | Err _ => None
  end.

(** A device that holds the data under the index and bounds its reads: one of up to
    [limit] bytes within the index is answered with the bytes asked for, a larger one
    fails (TPM_RC_VALUE), wherever it starts.  It announces the limit, or announces
    nothing and takes reads of the default size. *)
Record serves (t : Esapi) (h : handle t) (data : bytes) (limit : N) : Prop := {
  sv_size : nv_data_size t h = Ok (len data);
  sv_limit : 0 < limit;
  sv_announced : match announced_max t with Some m => m = limit | None => _NV_READ_CHUNK_BYTES <= limit end;
  sv_read : forall want off, 0 < want -> want <= limit -> off + want <= len data ->
    nv_read t h want off = Ok (slice off (off + want) data);
  sv_refused : forall want off, limit < want -> exists e, nv_read t h want off = Err e
}.

#[local] Transparent slice.
Lemma slice_extend i j b : i <= j -> j <= len b -> slice 0 i b ++ slice i j b = slice 0 j b.
Proof.
  unfold slice, len. intros. rewrite !drop_0, !N.sub_0_r.
  replace (N.to_nat j) with (N.to_nat i + N.to_nat (j - i))%nat by lia. by rewrite take_take_drop.
Qed.
Lemma slice_all b : slice 0 (len b) b = b.
Proof. unfold slice, len. rewrite N.sub_0_r, Nat2N.id, drop_0. apply take_ge. done. Qed.
#[local] Opaque slice.

Lemma nv_chunk_serves t h data limit :
  serves t h data limit -> nv_chunk t = N.min _NV_READ_CHUNK_BYTES limit.
Proof.
  intros [_ _ Ha _ _]. unfold announced_max in Ha. unfold nv_chunk.
  destruct (nv_capability t) as [props|]; [|by rewrite N.min_l].
  destruct (List.find _ props) as [[p v]|]; cbn in Ha; [by subst|by rewrite N.min_l].
Qed.

(** Each iteration reads a whole chunk, the last one what is left. *)
Lemma nv_read_loop_serves t h data limit chunk fuel off :
  serves t h data limit -> 0 < chunk -> chunk <= limit -> off <= len data ->
  len data - off <= N.of_nat fuel * chunk ->
  nv_read_loop fuel t h chunk (len data) (slice 0 off data) = Some (Ok data).
Proof.
  intros Hs Hc Hm. revert off. induction fuel as [|fuel IH]; intros off Ho Hf;
    cbn [nv_read_loop]; rewrite length_slice, N.sub_0_r by lia.
  - rewrite (proj2 (N.ltb_ge _ _)) by lia. replace off with (len data) by lia. by rewrite slice_all.
  - destruct (N.ltb_spec off (len data)).
    + rewrite (sv_read _ _ _ _ Hs) by lia. rewrite slice_extend by lia. apply IH; lia.
    + replace off with (len data) by lia. by rewrite slice_all.
Qed.

(** A read that returns nothing never ends the loop. *)
Lemma nv_read_loop_stuck t h chunk total fuel :
  0 < total -> nv_read t h (N.min chunk total) 0 = Ok [] -> nv_read_loop fuel t h chunk total [] = None.
Proof.
  intros Ht Hr. assert (len [] = 0) as E by done.
  induction fuel as [|fuel IH]; cbn [nv_read_loop]; rewrite E, (proj2 (N.ltb_lt 0 total) Ht); [done|].
  by rewrite N.sub_0_r, Hr.
Qed.
End nv_laws.

(** ** Properties *)
Section properties.
Context `{U : Unidata, E : Evidence, X : !CertStore}.

(** The parser inverts the TPM 2.0 layout: a quote written as the specification
    lays it out, with anything after it, parses to its magic, type, qualifying data
    and PCR digest, whatever its signer name, clock, firmware version and PCR
    selections. *)
Theorem parse_marshal magic type signer extra clock firmware sels digest rest
    (Hm : magic < 4294967296) (Ht : type < 65536) (Hs : len signer < 65536) (He : len extra < 65536)
    (Hc : len clock = 17) (Hf : len firmware = 8) (Hsel : Forall (fun s => len s.2 < 256) sels)
    (Hn : N.of_nat (length sels) < 4294967296) (Hd : len digest < 65536) :
  let b := marshal_quote magic type signer extra clock firmware sels digest rest in
  parse b = Ok {| magic := magic; attest_type := type; qualifying_data := extra; pcr_digest := digest;
                  raw := b |}.
Proof.
  cbv zeta. set (b := marshal_quote _ _ _ _ _ _ _ _ _). unfold parse.
  set (pre1 := be_bytes 4 magic ++ be_bytes 2 type). set (pre2 := pre1 ++ sized signer).
  set (pre3 := (pre2 ++ sized extra) ++ (clock ++ firmware)).
  set (pre4 := pre3 ++ be_bytes 4 (N.of_nat (length sels))).
  set (selections := concat (map marshal_selection sels)).
  assert (len pre1 = 6) as L1 by (unfold pre1; by rewrite len_app, !len_be_bytes).
  assert (len pre2 = 8 + len signer) as L2 by (unfold pre2; rewrite len_app, len_sized; lia).
  assert (len pre3 = 35 + len signer + len extra) as L3.
  { unfold pre3. rewrite !len_app, len_sized. lia. }
  assert (len pre4 = 39 + len signer + len extra) as L4.
  { unfold pre4. rewrite len_app, len_be_bytes. lia. }
  assert (b = pre4 ++ selections ++ sized digest ++ rest) as E4.
  { unfold b, marshal_quote, pre4, pre3, pre2, pre1, selections. by rewrite <-!app_assoc. }
  assert (b = pre3 ++ be_bytes 4 (N.of_nat (length sels)) ++ selections ++ sized digest ++ rest) as E3
    by (rewrite E4; unfold pre4; by rewrite <-!app_assoc).
  assert (len b >= 6) as Hlen by (rewrite E4, len_app; lia).
  apply guard_pass; [apply N.ltb_ge; lia|].
  rewrite (slice_at b [] (be_bytes 4 magic) (be_bytes 2 type ++ sized signer ++ sized extra ++
    (clock ++ firmware) ++ be_bytes 4 (N.of_nat (length sels)) ++ selections ++ sized digest ++ rest))
    by (rewrite ?len_be_bytes; done).
  rewrite be_int_be_bytes by done.
  rewrite (read_u16_at b (be_bytes 4 magic) type (sized signer ++ sized extra ++ (clock ++ firmware) ++
    be_bytes 4 (N.of_nat (length sels)) ++ selections ++ sized digest ++ rest)) by (rewrite ?len_be_bytes; done).
  cbn [mbind result_bind].
  rewrite (read_2b_at b pre1 signer (sized extra ++ (clock ++ firmware) ++
    be_bytes 4 (N.of_nat (length sels)) ++ selections ++ sized digest ++ rest));
    [|unfold b, marshal_quote, pre1, selections; by rewrite <-!app_assoc|done|by rewrite L1].
  cbn [mbind result_bind].
  rewrite (read_2b_at b pre2 extra ((clock ++ firmware) ++
    be_bytes 4 (N.of_nat (length sels)) ++ selections ++ sized digest ++ rest));
    [|unfold b, marshal_quote, pre2, pre1, selections; by rewrite <-!app_assoc|done|rewrite L2; lia].
  cbn [mbind result_bind]. unfold CLOCK_INFO_LEN, FIRMWARE_VERSION_LEN.
  apply guard_pass; [apply N.ltb_ge; rewrite E3, !len_app, len_be_bytes; lia|].
  rewrite (slice_at b _ _ _ _ _ E3) by (rewrite ?len_be_bytes; lia).
  rewrite be_int_be_bytes by done.
  rewrite (skip_selections_at b _ sels _ _ E4) by (done || rewrite L4; lia). cbn [mbind result_bind].
  rewrite (read_2b_at b (pre4 ++ selections) digest rest);
    [done|by rewrite E4, <-!app_assoc|done|rewrite len_app, L4; unfold selections; lia].
Qed.

(** Parsing is bounded by the blob, not by the count it declares.  A quote that
    declares more PCR selections than fit is refused after at most a third of its
    length in iterations: with any larger count the loop gives the same error. *)
Theorem parse_loop_bounded blob count pos (Hc : len blob / 3 < count) :
  exists e, skip_selections blob (len blob / 3 + 1) pos = Err e /\
    skip_selections blob count pos = Err e /\ exn_class e = Some AttestationFailed.
Proof.
  destruct (skip_selections blob (len blob / 3 + 1) pos) as [p|e] eqn:H.
  - apply skip_selections_ok in H as [_ H]. lia.
  - exists e. split_and!; [done| |by eapply skip_selections_class].
    eapply skip_selections_err; [done|lia].
Qed.

(** Whatever the blob, the parser returns a quote whose fields are slices of it, at
    most 65535 bytes each, or raises AttestationFailed. *)
Theorem parse_bounds blob :
  match parse blob with
  | Ok q =>
      raw q = blob /\ len (qualifying_data q) < 65536 /\ len (pcr_digest q) < 65536 /\
      len (qualifying_data q) + len (pcr_digest q) <= len blob /\
      (exists i, qualifying_data q = slice i (i + len (qualifying_data q)) blob) /\
      exists j, pcr_digest q = slice j (j + len (pcr_digest q)) blob
  | Err e => exn_class e = Some AttestationFailed
  end.
Proof. destruct (parse blob) eqn:H; [by apply parse_ok|by eapply parse_err]. Qed.

(** C38: the NV read terminates with the whole index, on a device that bounds its
    reads.  When the device fails every read larger than its buffer maximum, answers
    those up to it with the bytes asked for, and announces the maximum (or takes the
    default chunk), the loop returns exactly the contents, with as many reads as the
    contents have chunks of the smaller of 512 and that maximum. *)
Theorem read_nv_complete fuel t index h data limit
    (Hh : tr_from_tpmpublic t index = Ok h) (Hs : serves t h data limit)
    (Hf : len data <= N.of_nat fuel * N.min _NV_READ_CHUNK_BYTES limit) :
  _read_nv fuel t index = Some (Some data).
Proof.
  unfold _read_nv. rewrite Hh. cbn [mbind result_bind]. rewrite (sv_size _ _ _ _ Hs). cbn [mbind result_bind].
  pose proof (sv_limit _ _ _ _ Hs). rewrite (nv_chunk_serves _ _ _ _ Hs).
  pose proof (nv_read_loop_serves t h data limit (N.min _NV_READ_CHUNK_BYTES limit) fuel 0 Hs) as Hl.
  rewrite slice_nil in Hl. rewrite Hl; [done|unfold _NV_READ_CHUNK_BYTES; lia|lia|lia|lia].
Qed.

(** The NV read does not terminate on a device whose first read returns nothing, as
    when it reports a zero-sized buffer: no number of iterations ends the loop. *)
Theorem read_nv_empty_read_diverges t index h total
    (Hh : tr_from_tpmpublic t index = Ok h) (Ht : nv_data_size t h = Ok total) (Hn : 0 < total)
    (Hr : nv_read t h (N.min (nv_chunk t) total) 0 = Ok []) fuel :
  _read_nv fuel t index = None.
Proof.
  unfold _read_nv. rewrite Hh. cbn [mbind result_bind]. rewrite Ht. cbn [mbind result_bind].
  by rewrite nv_read_loop_stuck.
Qed.

Lemma check_quote_ok q qd pcrs u :
  _check_quote q qd pcrs = Ok u <->
  magic q = TPM_GENERATED_VALUE /\ attest_type q = TPM_ST_ATTEST_QUOTE /\ qualifying_data q = qd /\
  pcr_digest q = pcrs.
Proof.
  unfold _check_quote. rewrite !seq_ok, guard_ok. setoid_rewrite raise_if_ok.
  setoid_rewrite negb_false_iff. setoid_rewrite N.eqb_eq. setoid_rewrite bool_decide_eq_true. split.
  - intros ([_ ?] & [_ ?] & [_ ?] & ?). done.
  - intros (? & ? & ? & ?). split_and!; try (by exists tt). done.
Qed.

(** A report the provider makes. *)
Record Collected (public_key nonce role : pystr) (r : AttestationReport) : Prop := {
  col_platform : tee.platform r = py "tpm";
  col_key : tee.public_key r = public_key;
  col_nonce : tee.nonce r = nonce;
  col_role : tee.role r = role;
  col_evidence : exists blob q sig, raw_evidence r = Some blob /\ quote_signature r = Some sig /\
    parse blob = Ok q /\ magic q = TPM_GENERATED_VALUE /\ attest_type q = TPM_ST_ATTEST_QUOTE /\
    tpm_qualifying_data public_key nonce role = Ok (qualifying_data q) /\
    measurement r = py "sha256:" ++ hex (pcr_digest q)
}.

Lemma tpm_report_ok pk n role chain qd pcrs ev r :
  tpm_report pk n role chain qd pcrs ev = Ok r -> tpm_qualifying_data pk n role = Ok qd ->
  Collected pk n role r.
Proof.
  destruct ev as [[blob sig] pem]. unfold tpm_report. intros (q & Hq & H)%bind_ok Hqd.
  apply bind_ok in H as (u & Hc & <-%ok_inj). apply check_quote_ok in Hc as (Hm & Ht & <- & _).
  split; try done. by exists blob, q, sig.
Qed.

Lemma collected_ok fuel h t pk n role r flushed :
  attest_tpm fuel h t pk n role = Some (Ok r, flushed) -> Collected pk n role r.
Proof.
  unfold attest_tpm, _collect. destruct (_require_host h); [|done].
  destruct (qd ← tpm_qualifying_data pk n role; esapi_open t;; pcrs ← _read_pcrs t; Ok (qd, pcrs))
    as [[qd pcrs]|e] eqn:Eq; [|done].
  apply bind_ok in Eq as (qd' & Hqd & (_ & _ & (p & _ & [= -> ->]%ok_inj)%bind_ok)%bind_ok).
  destruct (_read_nv _ _ _) as [cert_der|]; [|done].
  destruct (report_any _ _ (_attestation_key t cert_der)) as [key|e]; [|done].
  destruct (quote_with t key qd) as [ev fl]. intros [= Hr _].
  apply bind_ok in Hr as (ev' & _ & Hr). by eapply tpm_report_ok.
Qed.

(** What the provider ships is what it was asked for.  A report it returns carries
    a TPM-generated quote that commits the requested key, nonce and role in its
    qualifying data and whose PCR digest is the reported measurement; and when the key
    that signed it is transient its handle is flushed, whether or not the quote
    succeeded. *)
Theorem collected_report_commits fuel h t pk n role out flushed
    (Ha : attest_tpm fuel h t pk n role = Some (out, flushed)) :
  (forall r, out = Ok r -> Collected pk n role r) /\
  (forall qd u pcrs cert_der key, _require_host h = Ok tt -> tpm_qualifying_data pk n role = Ok qd ->
     esapi_open t = Ok u -> _read_pcrs t = Ok pcrs ->
     _read_nv fuel t _PLATFORM_AK_CERT_NV_INDEX = Some cert_der -> _attestation_key t cert_der = Ok key ->
     flushed = if key.2 then [key.1.1.1] else []).
Proof.
  split.
  - intros r ->. by eapply collected_ok.
  - intros qd u pcrs cert_der key Hh Hqd Ho Hp Hn Hk. unfold attest_tpm, _collect in Ha. rewrite Hh, Hqd in Ha.
    cbn [mbind result_bind] in Ha. rewrite Ho in Ha. cbn [mbind result_bind] in Ha. rewrite Hp in Ha.
    cbn [mbind result_bind] in Ha. rewrite Hn, Hk in Ha. cbn [report_any try_except] in Ha.
    destruct key as [[[kh kp] kc] tr]. cbn [quote_with] in Ha. by injection Ha as _ <-.
Qed.

(** [detect] and [attest] agree: where [detect] is true the host passes every
    precondition of [attest], and where it is false [attest] raises
    AttestationUnsupported. *)
Lemma tpm_host_detected h :
  if detect_tpm h then _require_host h = Ok tt
  else exists e, _require_host h = Err e /\ exn_class e = Some AttestationUnsupported.
Proof.
  unfold detect_tpm, _require_host. destruct (on_linux h); cbn [andb negb raise_if mbind result_bind].
  - cbn [TPM_DEVICES existsb List.filter]. destruct (path_exists h (py "/dev/tpmrm0")); cbn [orb andb].
    + destruct (tpm2_pytss_available h); [done|]. by eexists.
    + destruct (path_exists h (py "/dev/tpm0")); cbn [orb andb]; [|by eexists].
      destruct (tpm2_pytss_available h); [done|]. by eexists.
  - by eexists.
Qed.
End properties.

(** ** An executable device

    A TPM with one platform key, whose certificate lies in NV memory behind a four-byte
    buffer, and packages that check what they document; they offer no security. *)
Module TpmExample.
Import AsciiOnly Toy.

Definition demo_verify (attest : bytes) (sig : bytes + ParsedSignature) (qd : option bytes) : res bool :=
  q ← parse attest;
  let signed := match sig with inl b => b | inr p => sig_bytes p end in
  Ok (bool_decide (signed = checksum 4 attest) && match qd with Some d => bool_decide (d = qualifying_data q) | None => true end).

(** The SNP report layout of the AMD firmware ABI. *)
Definition demo_parse_snp (b : bytes) : result package_error SharedSnpReport :=
  if len b =? 1184 then
    Ok {| shared_version := le_int (slice 0 4 b); shared_guest_svn := le_int (slice 4 8 b);
          shared_policy := le_int (slice 8 16 b); shared_vmpl := le_int (slice 48 52 b);
          shared_signature_algo := le_int (slice 52 56 b); shared_measurement := slice 144 192 b;
          shared_report_data := slice 80 144 b; shared_raw := b |}
  else Err (Declared (py "an SNP report is 1184 bytes long")).

#[export] Instance demo_evidence : Evidence := {|
  cert := bytes;
  cert_pem c := c;
  ec_key := bytes;
  cert_public_key c := Ok (EcKey c);
  load_pem_x509_certificates b := Ok [b];
  ecdsa_verify k r s m h :=
    raise_if (negb (r =? be_int (checksum 4 (k ++ m)))) (PyExc InvalidSignature []);
  p256_from_encoded_point b := Ok b;
  shared_verify_cert_chain chain roots :=
    if bool_decide (Exists (fun c => c ∈ roots) chain) then Ok tt else Err (Declared (py "no trusted root"));
  am_parse_tpmt_signature b := Ok {| sig_alg := 20; hash_alg := 11; sig_bytes := b |};
  am_verify_tpm_quote attest sig _ _ qd _ := demo_verify attest sig qd;
  parse_snp_report := demo_parse_snp;
  snp_sig_offset := 672;
  snp_platform_info_offset := 64;
  platform_fields := N;
  parse_platform_info info := Ok info;
  appraise_platform_info info _ _ _ := raise_if (negb (info =? 0)) (PyExc ValueError (py "platform"))
|}.

Definition demo_cert : bytes := ascii_bytes "CERTIFICATE".
#[export] Instance demo_store : CertStore := {|
  load_der_x509_certificate b := Ok b;
  load_pem_x509_certificate b := Ok b;
  load_der_pkcs7_certificates b := Ok [b];
  load_pem_pkcs7_certificates b := Ok [b];
  cert_subject_is_issuer c := true;
  cert_aia c := Err (Declared []);
  cert_public_pem c := Ok (ascii_bytes "AK");
  http_get url := Err (PyExc OSError [])
|}.

Definition demo_quote (qd digest : bytes) : bytes :=
  marshal_quote TPM_GENERATED_VALUE TPM_ST_ATTEST_QUOTE [x01] qd (repeat x00 17) (repeat x00 8)
    [(11, [xff; x00; x00])] digest [].
Definition demo_pcrs : list bytes := repeat [x00] 8.

Definition demo_tpm (buffer_max : N) : Esapi := {|
  handle := N;
  tpm_public := bytes;
  esapi_open := Ok tt;
  pcr_read := Ok demo_pcrs;
  tr_from_tpmpublic index := Ok index;
  nv_data_size _ := Ok (len demo_cert);
  nv_capability := Ok [(_TPM2_PT_NV_BUFFER_MAX, buffer_max)];
  nv_read _ want off :=
    if buffer_max <? want then Err (PyExc OSError (py "TPM_RC_VALUE")) else Ok (slice off (off + want) demo_cert);
  read_public _ := Ok (ascii_bytes "AK");
  public_pem p := Ok p;
  create_primary := Ok (9, ascii_bytes "transient");
  quote _ qd := let b := demo_quote qd (sha256 (concat demo_pcrs)) in Ok (b, checksum 4 b)
|}.
Definition demo_host : Host :=
  {| sys_platform := py "linux"; path_exists p := bool_decide (p = py "/dev/tpm0");
     path_is_dir _ := true; tpm2_pytss_available := true |}.

Lemma parse_marshal_witness :
  parse (demo_quote [x01; x02] [x03]) =
  Ok {| magic := TPM_GENERATED_VALUE; attest_type := TPM_ST_ATTEST_QUOTE; qualifying_data := [x01; x02];
        pcr_digest := [x03]; raw := demo_quote [x01; x02] [x03] |}.
Proof.
  apply (parse_marshal TPM_GENERATED_VALUE TPM_ST_ATTEST_QUOTE [x01] [x01; x02] (repeat x00 17) (repeat x00 8)
    [(11, [xff; x00; x00])] [x03] []); try reflexivity.
  apply List.Forall_cons; [reflexivity|apply List.Forall_nil].
Defined.

Lemma parse_loop_bounded_witness :
  exists e, skip_selections [x00; x00; x01] 2 0 = Err e /\
    skip_selections [x00; x00; x01] 4294967295 0 = Err e /\ exn_class e = Some AttestationFailed.
Proof. exact (parse_loop_bounded [x00; x00; x01] 4294967295 0 eq_refl). Defined.

Lemma demo_serves n :
  0 < n -> serves (demo_tpm n) (_PLATFORM_AK_CERT_NV_INDEX : handle (demo_tpm n)) demo_cert n.
Proof.
  intros Hn. split; [reflexivity|exact Hn|reflexivity| |].
  - intros want off _ Hw _. cbn [nv_read demo_tpm]. by rewrite (proj2 (N.ltb_ge _ _)).
  - intros want off Hw. cbn [nv_read demo_tpm]. rewrite (proj2 (N.ltb_lt _ _) Hw). by eexists.
Qed.

(** Eleven bytes behind a four-byte buffer: one read fails, three chunks do. *)
Lemma demo_one_read :
  exists e, nv_read (demo_tpm 4) (_PLATFORM_AK_CERT_NV_INDEX : handle (demo_tpm 4)) (len demo_cert) 0 = Err e.
Proof. by eexists. Qed.
Lemma read_nv_complete_witness :
  _read_nv 3 (demo_tpm 4) _PLATFORM_AK_CERT_NV_INDEX = Some (Some demo_cert).
Proof.
  refine (read_nv_complete 3 (demo_tpm 4) _PLATFORM_AK_CERT_NV_INDEX _PLATFORM_AK_CERT_NV_INDEX demo_cert 4
    eq_refl (demo_serves 4 eq_refl) _). discriminate.
Defined.

Lemma read_nv_empty_read_diverges_witness :
  _read_nv 1000 (demo_tpm 0) _PLATFORM_AK_CERT_NV_INDEX = None.
Proof.
  exact (read_nv_empty_read_diverges (demo_tpm 0) _PLATFORM_AK_CERT_NV_INDEX _PLATFORM_AK_CERT_NV_INDEX
    (len demo_cert) eq_refl eq_refl eq_refl eq_refl 1000).
Defined.

Definition no_report : AttestationReport :=
  {| tee.platform := []; measurement := []; tee.public_key := []; tee.nonce := []; raw_evidence := None;
     quote_signature := None; attestation_key_pem := None; attestation_key_chain_pem := None;
     tee.role := [] |}.
Definition demo_report : AttestationReport :=
  match attest_tpm 11 demo_host (demo_tpm 4) (py "ab") (py "nonce") ROLE_CALLEE with
  | Some (Ok r, _) => r
  | _ => no_report
  end.
Lemma demo_report_ok :
  attest_tpm 11 demo_host (demo_tpm 4) (py "ab") (py "nonce") ROLE_CALLEE = Some (Ok demo_report, []).
Proof. vm_compute. reflexivity. Qed.

Lemma collected_report_commits_witness : Collected (py "ab") (py "nonce") ROLE_CALLEE demo_report.
Proof.
  exact (proj1 (collected_report_commits 11 demo_host (demo_tpm 4) (py "ab") (py "nonce") ROLE_CALLEE
    (Ok demo_report) [] demo_report_ok) demo_report eq_refl).
Defined.
End TpmExample.
