(* ===== verification/TpmVerify.v ===== *)
(** * Appraising a TPM quote ([ca2a_verify.tpm])

    The offline verifier of TPM reports: nonce, evidence, the key-and-nonce binding the
    quote must commit, and the measurement it proves.  Signature and chain are
    verified by [agent_manifest]. *)
From S2P Require Export Tpm.
Import tee attestation tpm.
#[local] Open Scope N_scope.

Module tpm_verify.

Definition _ALG_RSASSA : N := 0x0014.
Definition _ALG_ECDSA : N := 0x0018.
Definition _ALG_SHA256 : N := 0x000B.

Section verify.
Context `{U : Unidata, E : Evidence}.

Definition parse_tpmt_signature (blob : bytes) : res ParsedSignature :=
  translate (am_parse_tpmt_signature blob) (fun text => err AttestationFailed text).

Definition _tag_legacy_bare_signature (signature : bytes + ParsedSignature) (ak : cert) :
    res (bytes + ParsedSignature) :=
  match signature with
  | inr parsed => Ok (inr parsed)
  | inl bare =>
      key ← cert_public_key ak;
      Ok match key with
         | RsaKey => inr {| sig_alg := _ALG_RSASSA; hash_alg := _ALG_SHA256; sig_bytes := bare |}
         | EcKey _ => inr {| sig_alg := _ALG_ECDSA; hash_alg := _ALG_SHA256; sig_bytes := bare |}
         | OtherPublicKey => inl bare
         end
  end.

Definition _delegate (attest : bytes) (signature : bytes + ParsedSignature)
    (ak_chain_pem trusted_roots_pem : bytes) (expected_qualifying_data expected_pcr_digest : option bytes) :
    res unit :=
  ok ← report_any AttestationFailed (py "TPM quote verification failed")
    (am_verify_tpm_quote attest signature ak_chain_pem trusted_roots_pem expected_qualifying_data
       expected_pcr_digest);
  raise_if (negb ok)
    (failed_d "TPM quote verification failed"
       (py "the AK signature or an expected binding did not match")).

Definition no_root : exn :=
  failed_d "no trusted root was supplied" (py "a chain validated against no anchor would accept any chain").

Definition verify_tpm_quote (attest : bytes) (signature : bytes + ParsedSignature)
    (ak_chain trusted_roots : list cert) (expected_pcr_digest expected_qualifying_data : option bytes) :
    res TpmQuote :=
  match ak_chain with
  | [] => Err (failed "no AK certificate chain was supplied")
  | ak :: _ =>
      raise_if (bool_decide (length trusted_roots = 0%nat)) no_root;;
      quote ← parse attest;
      tagged ← _tag_legacy_bare_signature signature ak;
      _delegate attest tagged (concat (map cert_pem ak_chain))
        (concat (map cert_pem trusted_roots)) expected_qualifying_data expected_pcr_digest;;
      Ok quote
  end.

Definition verify_tpm_report (report : AttestationReport) (expected_nonce : pystr)
    (trusted_roots_pem : bytes) : res pystr :=
  raise_if (negb (bool_decide (nonce report = expected_nonce)))
    (failed_d "the report nonce does not match the expected nonce"
       (py "stale or replayed attestation report"));;
  match raw_evidence report, quote_signature report with
  | Some evidence, Some signature =>
      match attestation_key_chain_pem report with
      | Some (c :: cs) =>
          let chain_pem := c :: cs in
          raise_if (bool_decide (trusted_roots_pem = [])) no_root;;
          expected_qualifying_data ← tpm_qualifying_data (public_key report) (nonce report) (role report);
          parsed ← parse_tpmt_signature signature;
          quote ← parse evidence;
          _delegate evidence (inr parsed) chain_pem trusted_roots_pem (Some expected_qualifying_data) None;;
          let measured := py "sha256:" ++ hex (pcr_digest quote) in
          raise_if (negb (bool_decide (measurement report = measured)))
            (failed_d "the reported measurement is not the one the TPM signed"
               (py "report=" ++ measurement report ++ py " quote=" ++ measured));;
          Ok measured
      | _ =>
          Err (failed_d "the report carries no attestation key certificate chain"
                 (py "the quote may be signed by a transient key, which proves a signature " ++
                  py "but not that the key lives in a TPM"))
      end
  | _, _ =>
      Err (failed_d "the report carries no TPM quote to verify"
             (py "a report claiming the 'tpm' platform must ship raw_evidence and " ++
              py "quote_signature; without them there is nothing to appraise"))
  end.

(** [tpm_verifier(trusted_roots_pem)] *)
Definition tpm_verifier (trusted_roots_pem : bytes) : Verifier :=
  fun report expected_nonce => verify_tpm_report report expected_nonce trusted_roots_pem.
End verify.
End tpm_verify.
Import tpm_verify.

(** The documented behaviour of [agent_manifest.verify_tpm_quote]: it accepts only a
    quote whose extraData is the expected qualifying data. *)
Class EvidenceLaws (E : Evidence) := {
  am_verify_checks attest sig chain roots qd pcr q :
    am_verify_tpm_quote attest sig chain roots (Some qd) pcr = Ok true -> parse attest = Ok q ->
    qualifying_data q = qd
}.

Section laws.
Context `{U : Unidata, E : Evidence}.

Lemma delegate_ok attest sig chain roots qd pcr u :
  _delegate attest sig chain roots qd pcr = Ok u <->
  am_verify_tpm_quote attest sig chain roots qd pcr = Ok true.
Proof.
  unfold _delegate. rewrite bind_ok. setoid_rewrite report_any_ok. setoid_rewrite raise_if_ok.
  setoid_rewrite negb_false_iff. destruct u. split; [by intros (a & ? & ->)|by exists true].
Qed.
Lemma delegate_err attest sig chain roots qd pcr e :
  _delegate attest sig chain roots qd pcr = Err e -> exn_class e = Some AttestationFailed.
Proof.
  unfold _delegate. intros [H|(ok & _ & H)]%bind_err; [by eapply report_any_err|].
  by apply raise_if_err in H as [_ ->].
Qed.

(** What the verifier accepts, and the measurement it proves. *)
Record TpmReportOk (report : AttestationReport) (n : pystr) (roots : bytes) (m : pystr) : Prop := {
  tro_nonce : nonce report = n;
  tro_roots : roots <> [];
  tro_evidence : exists evidence sig chain qd parsed q,
    raw_evidence report = Some evidence /\ quote_signature report = Some sig /\
    attestation_key_chain_pem report = Some chain /\ chain <> [] /\
    tpm_qualifying_data (public_key report) (nonce report) (role report) = Ok qd /\
    am_parse_tpmt_signature sig = Ok parsed /\ parse evidence = Ok q /\
    am_verify_tpm_quote evidence (inr parsed) chain roots (Some qd) None = Ok true /\
    m = py "sha256:" ++ hex (pcr_digest q) /\ measurement report = m
}.

Lemma verify_tpm_report_ok report n roots m :
  verify_tpm_report report n roots = Ok m <-> TpmReportOk report n roots m.
Proof.
  unfold verify_tpm_report. rewrite seq_ok, (ok_unit _ _ (guard_ok _ _)). split.
  - intros [Hn H]. destruct (raw_evidence report) as [evidence|] eqn:Ee; [|done].
    destruct (quote_signature report) as [sig|] eqn:Es; [|done].
    destruct (attestation_key_chain_pem report) as [[|c cs]|] eqn:Ec; [done| |done].
    apply seq_ok in H as [[v Hr%refuse_ok] (qd & Hqd & (parsed & Hp & (q & Hq & H)%bind_ok)%bind_ok)%bind_ok].
    apply seq_ok in H as [[u Hd] H]. apply seq_ok in H as [[w Hm%guard_ok] H]. apply ok_inj in H as <-.
    apply delegate_ok in Hd. apply translate_ok in Hp. split; [done|done|].
    exists evidence, sig, (c :: cs), qd, parsed, q. by split_and!.
  - intros [Hn Hr (evidence & sig & chain & qd & parsed & q & He & Hs & Hc & Hne & Hqd & Hp & Hq & Hv & -> & Hm)].
    split; [done|]. rewrite He, Hs, Hc. destruct chain as [|c cs]; [done|].
    apply seq_ok. split; [exists tt; by apply refuse_ok|].
    rewrite Hqd. cbn [mbind result_bind]. unfold parse_tpmt_signature. rewrite (proj2 (translate_ok _ _ _) Hp). cbn [mbind result_bind].
    rewrite Hq. cbn [mbind result_bind]. apply seq_ok. split; [exists tt; by apply delegate_ok|].
    apply seq_ok. split; [exists tt; by apply guard_ok|done].
Qed.

(** C39: [verify_tpm_report] proves a measurement exactly for a report that has the
    expected nonce, carries evidence, signature and a non-empty key chain, is
    appraised against some root, whose quote the shared verifier accepts for the
    qualifying data re-derived from the report's own key, nonce and role, and whose
    claimed measurement is the quote's PCR digest; that digest is what it returns. *)
Theorem verify_tpm_report_spec report n roots m :
  verify_tpm_report report n roots = Ok m <-> TpmReportOk report n roots m.
Proof. apply verify_tpm_report_ok. Qed.

(** A quote cannot be lifted onto another key.  When two reports with the same
    evidence are accepted, under whatever nonces and roots, they offer the same key in
    the same role under the same nonce and prove the same measurement, or the messages
    the two bindings hash differ and have one SHA-256 digest. *)
Theorem quote_binds_key `{!EvidenceLaws E} r1 r2 n1 n2 roots1 roots2 m1 m2
    (H1 : verify_tpm_report r1 n1 roots1 = Ok m1) (H2 : verify_tpm_report r2 n2 roots2 = Ok m2)
    (He : raw_evidence r1 = raw_evidence r2) :
  (public_key r1 = public_key r2 /\ role r1 = role r2 /\ nonce r1 = nonce r2 /\ m1 = m2) \/
  bindings_collide TPM_PREFIX (public_key r1) n1 (role r1) TPM_PREFIX (public_key r2) n2 (role r2).
Proof.
  apply verify_tpm_report_ok in H1 as [T1 _ (ev1 & s1 & c1 & qd1 & p1 & q1 & E1 & _ & _ & _ & D1 & _ & Q1 & V1 & M1 & _)].
  apply verify_tpm_report_ok in H2 as [T2 _ (ev2 & s2 & c2 & qd2 & p2 & q2 & E2 & _ & _ & _ & D2 & _ & Q2 & V2 & M2 & _)].
  rewrite E1, E2 in He. injection He as <-. rewrite Q1 in Q2. injection Q2 as <-.
  rewrite <-(am_verify_checks _ _ _ _ _ _ _ V1 Q1) in D1.
  rewrite <-(am_verify_checks _ _ _ _ _ _ _ V2 Q1) in D2.
  rewrite T1 in D1. rewrite T2 in D2.
  apply bind_ok in D1 as (pre1 & P1 & D1), D2 as (pre2 & P2 & D2).
  destruct (binding_inj _ _ _ _ _ _ _ _ _ _ _ P1 P2 D1 D2) as [(_ & Hr & Hk & Hn)|?]; [left|by right].
  split_and!; congruence.
Qed.

(** C40: what the provider collects, the peer's verifier appraises.  An offer of a key
    over a report the provider returned with the platform's certificate chain, whose
    quote and signature the shared package accepts for the extraData the quote itself
    carries, is appraised with assurance "hardware" and the PCR measurement the TPM
    signed, even when hardware is required: the binding the provider had the TPM commit
    is the one the verifier derives from the offered key, the nonce and the role. *)
Theorem collected_offer_verifies `{X : !CertStore} fuel h t pk n role_ r flushed roots sig parsed chain evidence
    (Hc : attest_tpm fuel h t pk n role_ = Some (Ok r, flushed)) (Hr : roots <> [])
    (Hch : attestation_key_chain_pem r = Some chain) (Hne : chain <> [])
    (Hs : quote_signature r = Some sig) (Hp : am_parse_tpmt_signature sig = Ok parsed)
    (He : raw_evidence r = Some evidence)
    (Hv : forall q, parse evidence = Ok q ->
            am_verify_tpm_quote evidence (inr parsed) chain roots (Some (qualifying_data q)) None = Ok true) :
  verify_offer {| channel_public_key := pk; report := r |} n (Some (tpm_verifier roots)) true role_ =
  Ok {| peer_key := pk; assurance := py "hardware"; peer_measurement := measurement r |}.
Proof.
  apply collected_ok in Hc as [Hpl Hk Hn Hro (blob & q & sig' & Hb & _ & Hq & _ & _ & Hqd & Hm)].
  apply verify_offer_ok. unfold offer_accepted. cbn [report channel_public_key peer_key assurance peer_measurement].
  split_and!; [done|done|done|done|]. right.
  split_and!; [rewrite Hpl; by intros ?%py_inj|done|].
  exists (tpm_verifier roots). split; [done|]. unfold tpm_verifier. apply verify_tpm_report_ok.
  rewrite He in Hb. injection Hb as <-. split; [done|done|].
  exists evidence, sig, chain, (qualifying_data q), parsed, q. rewrite Hk, Hn, Hro.
  split_and!; try done. by apply Hv.
Qed.
End laws.

(** ** The device's report, appraised *)
Module TpmVerifyExample.
Import AsciiOnly Toy TpmExample.

#[export] Instance demo_evidence_laws : EvidenceLaws demo_evidence.
Proof.
  split. intros attest sig chain roots qd pcr q H Hq. cbn [am_verify_tpm_quote demo_evidence] in H.
  unfold demo_verify in H. rewrite Hq in H. cbn [mbind result_bind] in H. apply ok_inj in H.
  apply andb_true_iff in H as [_ H]. by apply bool_decide_eq_true in H.
Qed.

Definition demo_roots : bytes := ascii_bytes "ROOT".
Definition demo_blob : bytes := default [] (raw_evidence demo_report).
Definition demo_sig : bytes := default [] (quote_signature demo_report).
Lemma demo_blob_ok : raw_evidence demo_report = Some demo_blob.
Proof. vm_compute. reflexivity. Qed.
Lemma demo_sig_ok : quote_signature demo_report = Some demo_sig.
Proof. vm_compute. reflexivity. Qed.
Lemma demo_chain_pem : attestation_key_chain_pem demo_report = Some demo_cert.
Proof. vm_compute. reflexivity. Qed.
Lemma demo_quote_accepted q :
  parse demo_blob = Ok q ->
  am_verify_tpm_quote demo_blob (inr {| sig_alg := 20; hash_alg := 11; sig_bytes := demo_sig |}) demo_cert
    demo_roots (Some (qualifying_data q)) None = Ok true.
Proof.
  intros Hq. cbn [am_verify_tpm_quote demo_evidence]. unfold demo_verify. rewrite Hq. cbn [mbind result_bind sig_bytes].
  rewrite (bool_decide_true (qualifying_data q = qualifying_data q)) by reflexivity.
  assert (bool_decide (demo_sig = checksum 4 demo_blob) = true) as -> by (vm_compute; reflexivity). reflexivity.
Qed.
Lemma demo_measured :
  verify_tpm_report demo_report (py "nonce") demo_roots = Ok (measurement demo_report).
Proof. vm_compute. reflexivity. Qed.
#[local] Opaque demo_report demo_blob demo_sig.

Lemma quote_binds_key_witness :
  (public_key demo_report = public_key demo_report /\ role demo_report = role demo_report /\
   nonce demo_report = nonce demo_report /\ measurement demo_report = measurement demo_report) \/
  bindings_collide TPM_PREFIX (public_key demo_report) (py "nonce") (role demo_report)
    TPM_PREFIX (public_key demo_report) (py "nonce") (role demo_report).
Proof.
  exact (quote_binds_key demo_report demo_report (py "nonce") (py "nonce") demo_roots demo_roots
    (measurement demo_report) (measurement demo_report) demo_measured demo_measured eq_refl).
Defined.

Lemma collected_offer_verifies_witness :
  verify_offer {| channel_public_key := py "ab"; report := demo_report |} (py "nonce")
    (Some (tpm_verifier demo_roots)) true ROLE_CALLEE =
  Ok {| peer_key := py "ab"; assurance := py "hardware"; peer_measurement := measurement demo_report |}.
Proof.
  exact (collected_offer_verifies 11 demo_host (demo_tpm 4) (py "ab") (py "nonce") ROLE_CALLEE demo_report []
    demo_roots demo_sig {| sig_alg := 20; hash_alg := 11; sig_bytes := demo_sig |} demo_cert demo_blob
    demo_report_ok ltac:(discriminate) demo_chain_pem ltac:(discriminate) demo_sig_ok eq_refl demo_blob_ok
    demo_quote_accepted).
Defined.
End TpmVerifyExample.
