(* ===== verification/Tsm.v ===== *)
(** * configfs-TSM access ([ca2a_runtime.tee.tsm])

    The collection path SEV-SNP and TDX share, as a computation over the report entry's
    files that records the operations it performs: the kernel signs a report when
    [outblob] is read, so the order matters. *)
From S2P Require Export Evidence.
Import tee attestation.
#[local] Open Scope N_scope.

Module tsm.

Definition TSM_REPORT_DIR : pystr := py "/sys/kernel/config/tsm/report".
Definition REPORT_DATA_LEN : nat := 64.
Definition PROVIDER_SEV_GUEST : pystr := py "sev_guest".
Definition PROVIDER_TDX_GUEST : pystr := py "tdx_guest".

Definition tsm_available (h : Host) : bool := on_linux h && path_is_dir h TSM_REPORT_DIR.

Definition require_tsm (h : Host) (platform : pystr) : res unit :=
  raise_if (negb (on_linux h))
    (err_d AttestationUnsupported (platform ++ py " report generation is only implemented on Linux")
       (py "running on " ++ sys_platform h ++ py "; configfs-TSM is a Linux interface"));;
  raise_if (negb (path_is_dir h TSM_REPORT_DIR))
    (err_d AttestationUnsupported (platform ++ py " report generation requires the configfs-TSM interface")
       (TSM_REPORT_DIR ++ py " is not present; it needs kernel 6.7+ with a registered " ++
        py "TSM provider, and configfs mounted")).

(** The operations on an entry, in the order they are performed. *)
Inductive tsm_op :=
| Mkdir | WriteInblob (data : bytes) | ReadProvider | ReadOutblob | ReadAuxblob | Rmdir.
#[export] Instance tsm_op_eq_dec : EqDecision tsm_op.
Proof. solve_decision. Defined.

(** What the kernel answers on one entry; the report depends on the data written. *)
Record Entry := {
  entry_path : pystr;
  mkdir : res unit;
  write_inblob : bytes -> res unit;
  read_provider : res pystr;
  read_outblob : bytes -> res bytes;
  read_auxblob : bytes -> res bytes;
  rmdir : res unit
}.

(** A computation that records its operations. *)
Definition io (A : Type) : Type := list tsm_op * res A.
#[export] Instance io_ret : MRet io := fun _ a => ([], Ok a).
#[export] Instance io_bind : MBind io := fun _ _ f m =>
  match m.2 with
  | Ok a => (m.1 ++ (f a).1, (f a).2)
  | Err e => (m.1, Err e)
  end.
Definition perform {A} (op : tsm_op) (m : res A) : io A := ([op], m).
Definition pure_io {A} (m : res A) : io A := ([], m).
(** [try: m / except sel: h], of a step. *)
Definition io_except {A} (m : io A) (sel : exn -> bool) (h : exn -> res A) : io A :=
  (m.1, try_except m.2 sel h).
(** [finally: suppress(OSError): entry.rmdir()] *)
Definition io_finally_rmdir {A} (e : Entry) (m : io A) : io A :=
  (m.1 ++ [Rmdir],
   match rmdir e with
   | Ok _ => m.2
   | Err exc => if is_os_error exc then m.2 else Err exc
   end).

Section collect.
Context `{U : Unidata}.

(** [str.isspace] of a character, as [str.strip()] uses it. *)
Definition is_space (c : N) : bool :=
  if c <? 128 then ((9 <=? c) && (c <=? 13)) || ((28 <=? c) && (c <=? 32)) else uni_space c.

(** The body of [collect_report]'s outer [try]. *)
Definition read_entry (e : Entry) (report_data : bytes) (expect_provider : pystr) :
    io (bytes * option bytes) :=
  provider ← io_except
    (perform (WriteInblob report_data) (write_inblob e report_data);;
     text ← perform ReadProvider (read_provider e);
     mret (strip is_space text))
    is_os_error
    (fun exc => Err (err_d AttestationFailed (py "the configfs-TSM entry did not name its provider")
                       (exn_text exc)));
  pure_io (raise_if (negb (bool_decide (provider = expect_provider)))
    (err_d AttestationFailed (py "the configfs-TSM provider is not the expected platform")
       (py "the kernel reports " ++ py_repr provider ++ py ", this collector expects " ++
        py_repr expect_provider ++ py "; the wrong provider was selected for this host")));;
  outblob ← io_except (perform ReadOutblob (read_outblob e report_data)) is_os_error
    (fun exc => Err (err_d AttestationFailed (py "the configfs-TSM provider did not return a report")
                       (exn_text exc)));
  pure_io (raise_if (bool_decide (outblob = []))
    (err_d AttestationFailed (py "the configfs-TSM provider returned an empty report")
       (py "provider=" ++ py_repr provider ++ py " produced no bytes in outblob")));;
  auxblob ← io_except
    (aux ← perform ReadAuxblob (read_auxblob e report_data);
     mret (if bool_decide (aux = []) then None else Some aux))
    is_os_error (fun _ => Ok None);
  mret (outblob, auxblob).

Definition collect_report (e : Entry) (report_data : bytes) (expect_provider : pystr) :
    io (bytes * option bytes) :=
  pure_io (raise_if (Nat.ltb REPORT_DATA_LEN (length report_data))
    (err_d AttestationFailed (py "report data is larger than the field the platform reserves")
       (py "got " ++ str_N (N.of_nat (length report_data)) ++ py " bytes, the limit is " ++
        str_N (N.of_nat REPORT_DATA_LEN))));;
  io_except (perform Mkdir (mkdir e)) is_os_error
    (fun exc => Err (err_d AttestationUnsupported (py "the kernel refused a configfs-TSM report entry")
       (py "could not create " ++ entry_path e ++ py ": " ++ exn_str exc ++
        py ". Creating an entry needs root and a registered TSM provider; a guest whose driver " ++
        py "registered none is not a supported collection host.")));;
  io_finally_rmdir e (read_entry e report_data expect_provider).
End collect.
End tsm.
Import tsm.

Ltac io_cbn := cbn [mbind io_bind io_except perform pure_io mret io_ret fst snd app try_except].

Section io_laws.
Lemma pure_io_ok {A B} (m : res A) (f : A -> io B) ops b :
  pure_io m ≫= f = (ops, Ok b) -> exists a, m = Ok a /\ f a = (ops, Ok b).
Proof. io_cbn. destruct m as [a|e]; io_cbn; [|done]. intros H. exists a. by destruct (f a). Qed.
Lemma io_bind_ok {A B} (m : io A) (f : A -> io B) ops b :
  m ≫= f = (ops, Ok b) -> exists o1 o2 a, m = (o1, Ok a) /\ f a = (o2, Ok b) /\ ops = o1 ++ o2.
Proof.
  destruct m as [o1 [a|e]]; io_cbn; [|done]. destruct (f a) as [o2 r] eqn:E. io_cbn. intros [= <- ->].
  exists o1, o2, a. by split_and!.
Qed.
Lemma io_finally_ok {A} e (m : io A) a : (io_finally_rmdir e m).2 = Ok a -> m.2 = Ok a.
Proof.
  cbn [io_finally_rmdir snd]. intros H. destruct (rmdir e) as [v|exc]; [done|].
  by destruct (is_os_error exc).
Qed.
End io_laws.

(** ** Properties *)
Section properties.
Context `{U : Unidata}.

(** The operations and outcome of [read_entry], by what the kernel answers. *)
Definition read_outcome (e : Entry) (data : bytes) (expect : pystr) (ops : list tsm_op)
    (r : res (bytes * option bytes)) : Prop :=
  (ops = [WriteInblob data] /\ exists x, write_inblob e data = Err x /\ is_ok r = false) \/
  (ops = [WriteInblob data; ReadProvider] /\ is_ok r = false /\
     ((exists x, read_provider e = Err x) \/
      exists t, read_provider e = Ok t /\ strip is_space t <> expect)) \/
  (exists t, read_provider e = Ok t /\ strip is_space t = expect /\
     ((ops = [WriteInblob data; ReadProvider; ReadOutblob] /\ is_ok r = false) \/
      (ops = [WriteInblob data; ReadProvider; ReadOutblob; ReadAuxblob] /\
       exists out, read_outblob e data = Ok out /\ out <> [] /\
         forall p, r = Ok p -> p.1 = out /\
           (p.2 = None \/ exists aux, read_auxblob e data = Ok aux /\ aux <> [] /\ p.2 = Some aux)))).

Lemma read_entry_outcome e data expect :
  read_outcome e data expect (read_entry e data expect).1 (read_entry e data expect).2.
Proof.
  unfold read_entry, read_outcome. io_cbn.
  destruct (write_inblob e data) as [u|x]; io_cbn.
  2:{ left. destruct (is_os_error x); split; try done; by exists x. }
  destruct (read_provider e) as [t|x]; io_cbn.
  2:{ right; left. destruct (is_os_error x); split_and!; try done; left; by exists x. }
  destruct (decide (strip is_space t = expect)) as [He|He].
  2:{ rewrite (bool_decide_false _ He). cbn [negb raise_if]; io_cbn. right; left.
      split_and!; [done|done|right; eauto]. }
  rewrite (bool_decide_true _ He). cbn [negb raise_if]; io_cbn. right; right. exists t.
  split; [done|]. split; [done|].
  destruct (read_outblob e data) as [out|x]; io_cbn.
  2:{ left. by destruct (is_os_error x). }
  destruct (decide (out = [])) as [Ho|Ho].
  { rewrite (bool_decide_true _ Ho). cbn [raise_if]; io_cbn. by left. }
  rewrite (bool_decide_false _ Ho). cbn [raise_if]; io_cbn. right.
  io_cbn.
  destruct (read_auxblob e data) as [aux|x]; io_cbn.
  - split; [done|]. exists out. split_and!; [done|done|]. intros p [= <-]. split; [done|].
    io_cbn. case_bool_decide; [by left|right; eauto].
  - destruct (is_os_error x); io_cbn.
    + split; [done|]. exists out. split_and!; [done|done|]. intros p [= <-]. split; [done|by left].
    + split; [done|]. exists out. split_and!; [done|done|by intros p].
Qed.

(** The operations on an entry, when none fails. *)
Definition entry_ops (data : bytes) : list tsm_op :=
  [WriteInblob data; ReadProvider; ReadOutblob; ReadAuxblob].

Lemma read_entry_ops e data expect : (read_entry e data expect).1 `prefix_of` entry_ops data.
Proof.
  destruct (read_entry_outcome e data expect) as [[-> _]|[[-> _]|(t & _ & _ & [[-> _]|[-> _]])]].
  - by exists [ReadProvider; ReadOutblob; ReadAuxblob].
  - by exists [ReadOutblob; ReadAuxblob].
  - by exists [ReadAuxblob].
  - by exists [].
Qed.

Lemma read_entry_signed e data expect :
  ReadOutblob ∈ (read_entry e data expect).1 -> exists t, read_provider e = Ok t /\ strip is_space t = expect.
Proof.
  destruct (read_entry_outcome e data expect) as [[-> _]|[[-> _]|(t & ? & ? & _)]]; [..|eauto];
    intros H; repeat (apply elem_of_cons in H as [H|H]; [done|]); by apply not_elem_of_nil in H.
Qed.

Lemma read_entry_ok e data expect out aux :
  (read_entry e data expect).2 = Ok (out, aux) ->
  (read_entry e data expect).1 = entry_ops data /\
  (exists t, read_provider e = Ok t /\ strip is_space t = expect) /\
  read_outblob e data = Ok out /\ out <> [] /\
  (aux = None \/ exists a, read_auxblob e data = Ok a /\ a <> [] /\ aux = Some a).
Proof.
  intros H. destruct (read_entry_outcome e data expect)
    as [(_ & x & _ & Hr)|[(_ & Hr & _)|(t & Ht & He & [[_ Hr]|(-> & out' & Ho & Hne & Hp)])]];
    try by rewrite H in Hr.
  destruct (Hp _ H) as [E Ha]. cbn [fst snd] in E, Ha. subst out'. split_and!; eauto.
Qed.

(** [collect_report] as the guard, the entry, and the body between. *)
Lemma collect_report_cases e data expect :
  (exists exc, collect_report e data expect = ([], Err exc) /\ exn_class exc = Some AttestationFailed /\
     (REPORT_DATA_LEN < length data)%nat) \/
  ((length data <= REPORT_DATA_LEN)%nat /\
   ((exists x exc, mkdir e = Err x /\ collect_report e data expect = ([Mkdir], Err exc)) \/
    (exists u, mkdir e = Ok u /\
       collect_report e data expect =
       (Mkdir :: (io_finally_rmdir e (read_entry e data expect)).1,
        (io_finally_rmdir e (read_entry e data expect)).2)))).
Proof.
  unfold collect_report. io_cbn. destruct (Nat.ltb_spec REPORT_DATA_LEN (length data)) as [Hl|Hl];
    cbn [raise_if]; io_cbn.
  - left. eexists. by split_and!.
  - right. split; [done|]. destruct (mkdir e) as [u|x]; io_cbn; [right; eauto|left].
    exists x. destruct (is_os_error x); io_cbn; eauto.
Qed.

Lemma collect_report_ok e data expect ops out aux :
  collect_report e data expect = (ops, Ok (out, aux)) -> read_outblob e data = Ok out.
Proof.
  intros Hc. destruct (collect_report_cases e data expect)
    as [(exc & E & _)|[_ [(x & exc & _ & E)|(w & _ & E)]]]; rewrite E in Hc; try done.
  injection Hc as _ Hc. by apply (io_finally_ok e), read_entry_ok in Hc as (_ & _ & ? & _).
Qed.

(** C35: a report is collected in order and leaves nothing behind.  The operations are
    creating the entry, then a prefix of "write the binding, read the provider, read the
    report, read the certificates", then removing the entry, whatever failed in
    between; the hardware is asked to sign (the report is read) only once the provider
    has been confirmed to be the expected one; and a returned report is the non-empty
    one the kernel gave over exactly these bytes.  More than 64 bytes touch nothing. *)
Theorem collect_report_order e data expect ops r (Hc : collect_report e data expect = (ops, r)) :
  ((REPORT_DATA_LEN < length data)%nat -> ops = []) /\
  ((length data <= REPORT_DATA_LEN)%nat ->
     (exists x, mkdir e = Err x /\ ops = [Mkdir]) \/
     exists body, ops = Mkdir :: body ++ [Rmdir] /\ body `prefix_of` entry_ops data) /\
  (ReadOutblob ∈ ops -> exists t, read_provider e = Ok t /\ strip is_space t = expect) /\
  (forall out aux, r = Ok (out, aux) ->
     ops = Mkdir :: entry_ops data ++ [Rmdir] /\ read_outblob e data = Ok out /\ out <> []).
Proof.
  destruct (collect_report_cases e data expect)
    as [(exc & E & _ & Hl)|[Hl [(x & exc & Hm & E)|(u & Hm & E)]]]; rewrite E in Hc; injection Hc as <- <-.
  - split_and!; [done|lia|by intros ?%not_elem_of_nil|done].
  - split_and!; [lia|left; eauto| |done].
    intros [?|?%not_elem_of_nil]%elem_of_cons; done.
  - split_and!; [lia| | |].
    + intros _. right. exists (read_entry e data expect).1. split; [done|apply read_entry_ops].
    + cbn [io_finally_rmdir fst]. intros [?|[H|H]%elem_of_app]%elem_of_cons; [done| |].
      * by eapply read_entry_signed.
      * by apply list_elem_of_singleton in H.
    + intros out aux H. apply (io_finally_ok e), read_entry_ok in H as (Hops & _ & Ho & Hne & _). cbn [io_finally_rmdir fst]. by rewrite Hops.
Qed.
End properties.

(** ** A report field and what it commits *)

(** The 64 bytes a report under a platform's prefix commits. *)
Definition padded_binding `{U : Unidata} (platform_prefix : bytes) (public_key nonce role : pystr) : res bytes :=
  prefix ← role_prefix platform_prefix role;
  digest ← derive_binding prefix public_key nonce;
  pad_report_data digest REPORT_DATA_LEN.

Section binding_laws.
Context `{U : Unidata}.

Lemma padded_binding_length pp k n r d : padded_binding pp k n r = Ok d -> length d = REPORT_DATA_LEN.
Proof.
  unfold padded_binding. intros (p & _ & (x & _ & H)%bind_ok)%bind_ok.
  apply pad_report_data_ok in H as [H ->]. rewrite length_app, repeat_length. lia.
Qed.

(** Equal fields commit one platform, role, key and nonce, up to a collision. *)
Lemma padded_binding_inj pp1 k1 n1 r1 pp2 k2 n2 r2 d :
  padded_binding pp1 k1 n1 r1 = Ok d -> padded_binding pp2 k2 n2 r2 = Ok d ->
  (pp1 = pp2 /\ r1 = r2 /\ k1 = k2 /\ n1 = n2) \/ bindings_collide pp1 k1 n1 r1 pp2 k2 n2 r2.
Proof.
  unfold padded_binding. intros (p1 & P1 & (x1 & D1 & H1)%bind_ok)%bind_ok (p2 & P2 & (x2 & D2 & H2)%bind_ok)%bind_ok.
  apply pad_report_data_ok in H1 as [_ ->]. apply pad_report_data_ok in H2 as [_ E].
  pose proof (length_derive_binding _ _ _ _ D1) as L1. pose proof (length_derive_binding _ _ _ _ D2) as L2.
  apply app_inj_1 in E as [-> _]; [|congruence].
  by eapply binding_inj.
Qed.
End binding_laws.

Section host_laws.
Lemma require_tsm_available h p :
  if tsm_available h then require_tsm h p = Ok tt
  else exists e, require_tsm h p = Err e /\ exn_class e = Some AttestationUnsupported.
Proof.
  unfold tsm_available, require_tsm. destruct (on_linux h); [|by eexists].
  destruct (path_is_dir h TSM_REPORT_DIR); [done|by eexists].
Qed.
End host_laws.

(** ** A concrete entry *)
Module TsmExample.
Import AsciiOnly.
(** A provider that signs the written bytes by a function of them. *)
Definition demo_entry (name : string) (report_of : bytes -> bytes) : Entry := {|
  entry_path := TSM_REPORT_DIR ++ py "/ca2a-1-00000000";
  mkdir := Ok tt;
  write_inblob _ := Ok tt;
  read_provider := Ok (py name ++ [10]);
  read_outblob data := Ok (report_of data);
  read_auxblob _ := Err (PyExc OSError []);
  rmdir := Err (PyExc OSError [])
|}.

Lemma demo_collected :
  collect_report (demo_entry "sev_guest" (fun d => d)) [x01] PROVIDER_SEV_GUEST =
  ([Mkdir; WriteInblob [x01]; ReadProvider; ReadOutblob; ReadAuxblob; Rmdir], Ok ([x01], None)).
Proof. vm_compute. reflexivity. Qed.

Lemma collect_report_order_witness :
  [Mkdir; WriteInblob [x01]; ReadProvider; ReadOutblob; ReadAuxblob; Rmdir] =
    Mkdir :: entry_ops [x01] ++ [Rmdir] /\
  read_outblob (demo_entry "sev_guest" (fun d => d)) [x01] = Ok [x01] /\ [x01] <> [].
Proof.
  exact (proj2 (proj2 (proj2 (collect_report_order (demo_entry "sev_guest" (fun d => d)) [x01]
    PROVIDER_SEV_GUEST _ _ demo_collected))) [x01] None eq_refl).
Defined.
End TsmExample.
