(* ===== verification/SevSnp.v ===== *)
(** * AMD SEV-SNP ([ca2a_runtime.tee.sev_snp], [ca2a_verify.sev_snp])

    The report as cA2A sees it, its collection through configfs-TSM, and its offline
    appraisal with the channel verifier built on it.  The report's layout belongs to
    [agent_manifest]. *)
From S2P Require Export Tsm Tpm.
Import tee attestation tsm.
#[local] Open Scope N_scope.

Module sev_snp.

Definition SIG_COMPONENT_LEN : N := 72.
Definition SIG_ALGO_ECDSA_P384_SHA384 : N := 1.
Definition PLATFORM_INFO_LEN : N := 8.
Definition SEV_GUEST_DEVICE : pystr := py "/dev/sev-guest".
Definition MEASUREMENT_DIGEST_LABEL : pystr := py "sha384".

Definition failed (message : string) : exn := err AttestationFailed (py message).
Definition failed_d (message : string) (detail : pystr) : exn := err_d AttestationFailed (py message) detail.

Definition snp_report_data `{U : Unidata} (public_key nonce role : pystr) : res bytes :=
  prefix ← role_prefix SNP_PREFIX role;
  digest ← derive_binding prefix public_key nonce;
  pad_report_data digest REPORT_DATA_LEN.

Record SevSnpReport := {
  version : N;
  guest_svn : N;
  policy : N;
  vmpl : N;
  signature_algo : N;
  snp_measurement : bytes;
  report_data : bytes;
  snp_raw : bytes
}.

Section report.
Context `{E : Evidence}.

(** [SevSnpReport.signed_body], [.platform_info], [.signature_rs] *)
Definition signed_body (r : SevSnpReport) : bytes := slice 0 snp_sig_offset (snp_raw r).
Definition platform_info (r : SevSnpReport) : N :=
  le_int (slice snp_platform_info_offset (snp_platform_info_offset + PLATFORM_INFO_LEN) (snp_raw r)).
Definition signature_rs (r : SevSnpReport) : N * N :=
  (le_int (slice snp_sig_offset (snp_sig_offset + SIG_COMPONENT_LEN) (snp_raw r)),
   le_int (slice (snp_sig_offset + SIG_COMPONENT_LEN) (snp_sig_offset + 2 * SIG_COMPONENT_LEN) (snp_raw r))).

(** [SevSnpReport.parse(blob)] *)
Definition parse (blob : bytes) : res SevSnpReport :=
  shared ← translate (parse_snp_report blob) (failed_d "SEV-SNP report is malformed");
  Ok {| version := shared_version shared; guest_svn := shared_guest_svn shared;
        policy := shared_policy shared; vmpl := shared_vmpl shared;
        signature_algo := shared_signature_algo shared; snp_measurement := shared_measurement shared;
        report_data := shared_report_data shared; snp_raw := shared_raw shared |}.
End report.

Section provider.
Context `{U : Unidata, E : Evidence}.

Definition detect_snp (h : Host) : bool := tsm_available h && path_exists h SEV_GUEST_DEVICE.

Definition _require_host (h : Host) : res unit :=
  require_tsm h (py "SEV-SNP");;
  raise_if (negb (path_exists h SEV_GUEST_DEVICE))
    (err_d AttestationUnsupported (py "SEV-SNP report generation requires a non-paravisor SNP guest")
       (py "configfs-TSM is present but " ++ SEV_GUEST_DEVICE ++ py " is not. On an Azure " ++
        py "confidential VM this is expected: SNP runs behind a Hyper-V paravisor, the guest " ++
        py "cannot set REPORT_DATA, and the report is read from a vTPM NV index instead. Use the " ++
        py "tpm provider there.")).

(** [SevSnpProvider.attest] *)
Definition attest_snp (h : Host) (e : Entry) (public_key nonce role : pystr) : io AttestationReport :=
  pure_io (_require_host h);;
  expected ← pure_io (snp_report_data public_key nonce role);
  collected ← collect_report e expected PROVIDER_SEV_GUEST;
  report ← pure_io (parse collected.1);
  pure_io (raise_if (negb (bool_decide (report_data report = expected)))
    (failed_d "the report does not commit the requested key and nonce binding"
       (py "REPORT_DATA does not match the derived binding")));;
  mret {| platform := py "sev-snp";
          measurement := MEASUREMENT_DIGEST_LABEL ++ py ":" ++ hex (snp_measurement report);
          tee.public_key := public_key; tee.nonce := nonce; raw_evidence := Some (snp_raw report);
          quote_signature :=
            Some (slice snp_sig_offset (snp_sig_offset + 2 * SIG_COMPONENT_LEN) (snp_raw report));
          attestation_key_pem := None; attestation_key_chain_pem := None; tee.role := role |}.
End provider.

(** ** Appraisal *)
Section verify.
Context `{U : Unidata, E : Evidence}.

Definition verify_cert_chain (chain trusted_roots : list cert) : res unit :=
  translate (shared_verify_cert_chain chain trusted_roots)
    (failed_d "certificate chain verification failed").

(** [bool(s)] of an optional set *)
Definition some_fields (s : option (gset pystr)) : bool :=
  match s with Some s => negb (bool_decide (s = ∅)) | None => false end.
Definition matches_expected (expected : option bytes) (got : bytes) : bool :=
  match expected with Some b => bool_decide (got = b) | None => true end.

(** The signature of the report by the first certificate's key. *)
Definition check_signature (report : SevSnpReport) (vcek_chain : list cert) : res unit :=
  vcek ← or_raise (head vcek_chain) (PyExc IndexError (py "list index out of range"));
  vcek_key ← cert_public_key vcek;
  match vcek_key with
  | EcKey key =>
      let '(r, s) := signature_rs report in
      try_except (ecdsa_verify key r s (signed_body report) SHA384) (is_py InvalidSignature)
        (fun _ => Err (failed "SEV-SNP report signature failed to verify"))
  | _ => Err (failed "VCEK does not carry an elliptic-curve public key")
  end.

Definition verify_sev_snp_report (report_bytes : bytes) (vcek_chain trusted_roots : list cert)
    (expected_measurement expected_report_data : option bytes)
    (require_platform forbid_platform : option (gset pystr)) (reject_unrecognized_platform_bits : bool) :
    res SevSnpReport :=
  report ← parse report_bytes;
  raise_if (negb (signature_algo report =? SIG_ALGO_ECDSA_P384_SHA384))
    (failed_d "unsupported report signature algorithm"
       (py "algo=" ++ str_N (signature_algo report) ++ py ", expected " ++
        str_N SIG_ALGO_ECDSA_P384_SHA384));;
  verify_cert_chain vcek_chain trusted_roots;;
  check_signature report vcek_chain;;
  raise_if (negb (matches_expected expected_measurement (snp_measurement report)))
    (failed_d "measurement does not match the expected value" (py "got " ++ hex (snp_measurement report)));;
  raise_if (negb (matches_expected expected_report_data (report_data report)))
    (failed "report data does not match the expected binding");;
  (if some_fields require_platform || some_fields forbid_platform || reject_unrecognized_platform_bits then
     info ← parse_platform_info (platform_info report);
     try_except (appraise_platform_info info require_platform forbid_platform
                   reject_unrecognized_platform_bits) (fun _ => true)
       (fun exc => Err (failed_d "platform state does not satisfy the configured policy"
          (py "platform_info=0x" ++ hex_digits 16 (platform_info report) ++ py ": " ++ exn_str exc)))
   else Ok tt);;
  Ok report.

(** The closure [sev_snp_verifier] returns. *)
Definition snp_verify (chain roots : list cert) (expected_measurement : bytes) (min_guest_svn : Z)
    (required forbidden : gset pystr) (reject_unrecognized_platform_bits : bool) : Verifier :=
  fun report nonce_ =>
  evidence ← or_raise (if bool_decide (platform report = py "sev-snp") then raw_evidence report else None)
    (failed "SEV-SNP channel verification requires signed SNP evidence");
  raise_if (negb (bool_decide (nonce report = nonce_)))
    (failed "report nonce does not match the expected nonce");;
  expected_report_data ← snp_report_data (public_key report) nonce_ (role report);
  verified ← verify_sev_snp_report evidence chain roots (Some expected_measurement)
    (Some expected_report_data) (Some required) (Some forbidden) reject_unrecognized_platform_bits;
  raise_if (negb (N.land (policy verified) (N.shiftl 1 19) =? 0))
    (failed "debug-enabled SNP guests are forbidden");;
  raise_if (negb (vmpl verified =? 0)) (failed "SNP channel verification requires VMPL0");;
  raise_if (Z.of_N (guest_svn verified) <? min_guest_svn)%Z
    (failed "SNP guest SVN is below the configured minimum");;
  Ok (py "sha384:" ++ hex (snp_measurement verified)).

(** [sev_snp_verifier(...)] *)
Definition sev_snp_verifier (trusted_roots vcek_chain : list cert) (expected_measurement : bytes)
    (min_guest_svn : Z) (require_platform forbid_platform : gset pystr)
    (reject_unrecognized_platform_bits : bool) : res Verifier :=
  raise_if (negb (Nat.eqb (length expected_measurement) 48))
    (PyExc ValueError (py "expected_measurement must be a 48-byte SNP measurement"));;
  raise_if (negb ((0 <=? min_guest_svn)%Z && (min_guest_svn <=? 0xFFFFFFFF)%Z))
    (PyExc ValueError (py "min_guest_svn must be an unsigned 32-bit integer"));;
  Ok (snp_verify vcek_chain trusted_roots expected_measurement min_guest_svn require_platform
        forbid_platform reject_unrecognized_platform_bits).
End verify.
End sev_snp.
Import sev_snp.

(** The documented behaviour of [agent_manifest.parse_snp_report]: [raw] is the input. *)
Class SnpLaws (E : Evidence) := {
  shared_raw_input b s : parse_snp_report b = Ok s -> shared_raw s = b
}.

(** ** Specification *)
Section spec.
Context `{U : Unidata, E : Evidence}.

(** A report that is signed by a key that chains to a trusted root. *)
Record SnpSigned (bytes_ : bytes) (chain roots : list cert) (r : SevSnpReport) : Prop := {
  sg_parsed : parse bytes_ = Ok r;
  sg_algo : signature_algo r = SIG_ALGO_ECDSA_P384_SHA384;
  sg_chain : shared_verify_cert_chain chain roots = Ok tt;
  sg_signature : exists vcek key, head chain = Some vcek /\ cert_public_key vcek = Ok (EcKey key) /\
    ecdsa_verify key (signature_rs r).1 (signature_rs r).2 (signed_body r) SHA384 = Ok tt
}.

Definition platform_accepted (r : SevSnpReport) (required forbidden : option (gset pystr)) (reject : bool) :
    Prop :=
  some_fields required || some_fields forbidden || reject = true ->
  exists info, parse_platform_info (platform_info r) = Ok info /\
    appraise_platform_info info required forbidden reject = Ok tt.

(** What the channel verifier accepts, and the measurement it reports. *)
Record SnpReportOk (chain roots : list cert) (expected_measurement : bytes) (min_guest_svn : Z)
    (required forbidden : gset pystr) (reject : bool) (report : AttestationReport) (n m : pystr) : Prop := {
  sn_platform : platform report = py "sev-snp";
  sn_nonce : nonce report = n;
  sn_evidence : exists evidence r,
    raw_evidence report = Some evidence /\ SnpSigned evidence chain roots r /\
    snp_measurement r = expected_measurement /\
    snp_report_data (public_key report) n (role report) = Ok (report_data r) /\
    platform_accepted r (Some required) (Some forbidden) reject /\
    N.testbit (policy r) 19 = false /\ vmpl r = 0 /\ (min_guest_svn <= Z.of_N (guest_svn r))%Z /\
    m = py "sha384:" ++ hex expected_measurement
}.
End spec.

Section laws.
Context `{U : Unidata, E : Evidence}.

Lemma matches_expected_ok o b : matches_expected o b = true <-> forall x, o = Some x -> b = x.
Proof. destruct o; simpl; [rewrite bool_decide_eq_true|]; naive_solver. Qed.

Lemma check_signature_ok r chain u :
  check_signature r chain = Ok u <-> u = tt /\
  exists vcek key, head chain = Some vcek /\ cert_public_key vcek = Ok (EcKey key) /\
    ecdsa_verify key (signature_rs r).1 (signature_rs r).2 (signed_body r) SHA384 = Ok tt.
Proof.
  unfold check_signature. rewrite bind_ok. setoid_rewrite or_raise_ok. destruct u. split.
  - intros (vcek & Hv & H). split; [done|]. exists vcek. apply bind_ok in H as ([key| |] & Hk & H); try done.
    exists key. destruct (signature_rs r) as [x y]. apply try_except_raise_ok in H. done.
  - intros (_ & vcek & key & Hv & Hk & Hs). exists vcek. split; [done|]. rewrite Hk. cbn [mbind result_bind].
    destruct (signature_rs r) as [x y]. by apply try_except_raise_ok.
Qed.

Lemma verify_snp_report_ok b chain roots em ed required forbidden reject r :
  verify_sev_snp_report b chain roots em ed required forbidden reject = Ok r <->
  SnpSigned b chain roots r /\ (forall x, em = Some x -> snp_measurement r = x) /\
  (forall x, ed = Some x -> report_data r = x) /\ platform_accepted r required forbidden reject.
Proof.
  unfold verify_sev_snp_report. rewrite <-!matches_expected_ok. split.
  - intros (r' & Hp & H)%bind_ok.
    apply seq_ok in H as [[u1 Ha%raise_if_ok] ([u2 Hc] & ([u3 Hs] & ([u4 Hm%raise_if_ok] &
      ([u5 Hd%raise_if_ok] & ([u6 Hi] & <-%ok_inj)%seq_ok)%seq_ok)%seq_ok)%seq_ok)%seq_ok].
    bool_to_prop. apply translate_ok in Hc. destruct u2. apply check_signature_ok in Hs as [-> Hs].
    split_and!; [by split|done|done|]. unfold platform_accepted. intros Hif. rewrite Hif in Hi.
    apply bind_ok in Hi as (info & ? & Hi%try_except_raise_ok). exists info. by destruct u6.
  - intros ([Hp Ha Hc Hs] & Hm & Hd & Hi). rewrite Hp. cbn [mbind result_bind].
    rewrite Ha, N.eqb_refl. cbn [negb raise_if mbind result_bind].
    apply seq_ok. split; [exists tt; by apply translate_ok|].
    apply seq_ok. split; [exists tt; by apply check_signature_ok|].
    rewrite Hm, Hd. cbn [negb raise_if mbind result_bind]. apply seq_ok. split; [|done]. exists tt.
    unfold platform_accepted in Hi. destruct (_ || _ || _); [|done].
    destruct Hi as (info & -> & Hi); [done|]. by apply try_except_raise_ok.
Qed.

Lemma debug_bit p : (N.land p (N.shiftl 1 19) =? 0) = negb (N.testbit p 19).
Proof.
  rewrite N.shiftl_1_l. destruct (N.testbit p 19) eqn:H; cbn [negb].
  - apply N.eqb_neq. intros Eb. apply (f_equal (fun x => N.testbit x 19)) in Eb.
    rewrite N.land_spec, N.pow2_bits_true, H, N.bits_0 in Eb. done.
  - apply N.eqb_eq, N.bits_inj_0. intros i. rewrite N.land_spec.
    destruct (N.eq_dec i 19) as [->|Hi]; [by rewrite H|].
    by rewrite N.pow2_bits_false, andb_false_r by lia.
Qed.

Lemma snp_verify_ok chain roots em svn required forbidden reject report n m :
  snp_verify chain roots em svn required forbidden reject report n = Ok m <->
  SnpReportOk chain roots em svn required forbidden reject report n m.
Proof.
  unfold snp_verify. split.
  - intros (evidence & He & H)%bind_ok. apply or_raise_ok in He.
    destruct (decide (platform report = py "sev-snp")) as [Hp|Hp]; [|by rewrite (bool_decide_false _ Hp) in He].
    rewrite (bool_decide_true _ Hp) in He.
    apply seq_ok in H as [[u1 Hn%guard_ok] (d & Hd & (r & Hr & H)%bind_ok)%bind_ok].
    apply seq_ok in H as [[u2 Hb%raise_if_ok] ([u3 Hv%raise_if_ok] & ([u4 Hg%raise_if_ok] & <-%ok_inj)%seq_ok)%seq_ok].
    rewrite debug_bit in Hb. bool_to_prop.
    apply verify_snp_report_ok in Hr as (Hs & Hm & Hrd & Hi).
    split; [done|done|]. exists evidence, r. rewrite (Hm _ eq_refl), (Hrd _ eq_refl). by split_and!.
  - intros [Hp Hn (evidence & r & He & Hs & Hm & Hd & Hi & Hb & Hv & Hg & ->)].
    rewrite bool_decide_true by done. rewrite He. cbn [or_raise mbind result_bind].
    rewrite bool_decide_true by done. cbn [negb raise_if mbind result_bind]. rewrite Hd. cbn [mbind result_bind].
    cbn [or_raise mbind result_bind].
    rewrite (proj2 (verify_snp_report_ok evidence chain roots (Some em) (Some (report_data r)) (Some required)
      (Some forbidden) reject r)) by (split_and!; [done|by intros ? [= <-]|by intros ? [= <-]|done]).
    cbn [mbind result_bind]. rewrite debug_bit, Hb, Hv. cbn [negb raise_if mbind result_bind].
    rewrite (proj2 (Z.ltb_ge _ _) Hg). cbn [raise_if mbind result_bind]. by rewrite Hm.
Qed.

Lemma sev_snp_verifier_ok roots chain em svn required forbidden reject v :
  sev_snp_verifier roots chain em svn required forbidden reject = Ok v <->
  length em = 48%nat /\ (0 <= svn <= 0xFFFFFFFF)%Z /\
  v = snp_verify chain roots em svn required forbidden reject.
Proof.
  unfold sev_snp_verifier. rewrite !seq_ok. setoid_rewrite raise_if_ok. setoid_rewrite negb_false_iff.
  setoid_rewrite andb_true_iff. setoid_rewrite Z.leb_le. setoid_rewrite Nat.eqb_eq. split.
  - intros ([_ ?] & [_ ?] & <-%ok_inj). done.
  - intros (? & ? & ->). split_and!; [by exists tt|by exists tt|done].
Qed.

(** The SNP channel verifier.  It can be built exactly with a 48-byte measurement
    and an unsigned 32-bit version floor (otherwise ValueError), and then it proves
    "sha384:" and that measurement exactly for reports that claim SEV-SNP under the
    expected nonce and carry evidence signed by the first key of a chain to a trusted
    root, with that measurement, committing the report's own key, nonce and role,
    on an accepted platform, not debuggable, at VMPL 0 and not below the floor. *)
Theorem snp_verifier_spec roots chain em svn required forbidden reject :
  match sev_snp_verifier roots chain em svn required forbidden reject with
  | Ok v =>
      length em = 48%nat /\ (0 <= svn <= 0xFFFFFFFF)%Z /\
      forall report n m, v report n = Ok m <->
        SnpReportOk chain roots em svn required forbidden reject report n m
  | Err e =>
      (length em <> 48%nat \/ ~ (0 <= svn <= 0xFFFFFFFF)%Z) /\ is_value_error e = true
  end.
Proof.
  destruct (sev_snp_verifier roots chain em svn required forbidden reject) as [v|e] eqn:H.
  - apply sev_snp_verifier_ok in H as (? & ? & ->). split_and!; [done|lia|lia|]. intros. apply snp_verify_ok.
  - unfold sev_snp_verifier in H. apply bind_err in H as [[Hc ->]%raise_if_err|(_ & _ & H)].
    + apply negb_true_iff, Nat.eqb_neq in Hc. split; [by left|done].
    + apply bind_err in H as [[Hc ->]%raise_if_err|(_ & _ & H)]; [|done].
      apply negb_true_iff, andb_false_iff in Hc. split; [right|done].
      destruct Hc as [?%Z.leb_gt|?%Z.leb_gt]; lia.
Qed.

(** SNP evidence cannot be lifted onto another key.  Two reports with the same
    evidence that verify, under whatever verifiers and nonces, offer the same key in
    the same role under the same nonce, or the messages their bindings hash
    differ and have one SHA-256 digest. *)
Theorem snp_binds_key c1 t1 m1 s1 q1 f1 j1 c2 t2 m2 s2 q2 f2 j2 r1 r2 n1 n2 o1 o2
    (H1 : snp_verify c1 t1 m1 s1 q1 f1 j1 r1 n1 = Ok o1) (H2 : snp_verify c2 t2 m2 s2 q2 f2 j2 r2 n2 = Ok o2)
    (He : raw_evidence r1 = raw_evidence r2) :
  (public_key r1 = public_key r2 /\ role r1 = role r2 /\ nonce r1 = nonce r2 /\ o1 = o2) \/
  bindings_collide SNP_PREFIX (public_key r1) n1 (role r1) SNP_PREFIX (public_key r2) n2 (role r2).
Proof.
  apply snp_verify_ok in H1 as [_ N1 (e1 & p1 & E1 & S1 & M1 & D1 & _ & _ & _ & _ & ->)].
  apply snp_verify_ok in H2 as [_ N2 (e2 & p2 & E2 & S2 & M2 & D2 & _ & _ & _ & _ & ->)].
  rewrite E1, E2 in He. injection He as <-. pose proof (sg_parsed _ _ _ _ S1) as P1.
  pose proof (sg_parsed _ _ _ _ S2) as P2. rewrite P1 in P2. injection P2 as <-.
  destruct (padded_binding_inj _ _ _ _ _ _ _ _ _ D1 D2) as [(_ & Hr & Hk & Hn)|?]; [left|by right].
  split_and!; [done|done|congruence|congruence].
Qed.

(** What the provider collected. *)
Lemma attest_snp_ok h e pk n role_ ops r :
  attest_snp h e pk n role_ = (ops, Ok r) ->
  exists expected out p, snp_report_data pk n role_ = Ok expected /\
    read_outblob e expected = Ok out /\ parse out = Ok p /\ report_data p = expected /\
    platform r = py "sev-snp" /\ measurement r = py "sha384:" ++ hex (snp_measurement p) /\
    public_key r = pk /\ nonce r = n /\ raw_evidence r = Some (snp_raw p) /\ role r = role_.
Proof.
  unfold attest_snp. intros (_ & _ & H)%pure_io_ok. apply pure_io_ok in H as (expected & Hx & H).
  apply io_bind_ok in H as (o1 & o2 & [out aux] & Hc & H & ->).
  apply pure_io_ok in H as (p & Hp & H). apply pure_io_ok in H as (u & Hd%guard_ok & H).
  injection H as _ <-.
  exists expected, out, p. split_and!; try done.
  by eapply collect_report_ok.
Qed.

(** What the SNP provider collects, a peer appraises.  An offer of a key over a
    report the provider returned is appraised with assurance "hardware" and the
    reported measurement by every verifier whose chain, signature, platform and policy
    requirements the report meets, even when hardware is required. *)
Theorem snp_collected_offer_verifies `{!SnpLaws E} h e pk n role_ ops r chain roots svn required forbidden reject
    evidence p (Hc : attest_snp h e pk n role_ = (ops, Ok r)) (He : raw_evidence r = Some evidence)
    (Hs : SnpSigned evidence chain roots p)
    (Hi : platform_accepted p (Some required) (Some forbidden) reject)
    (Hb : N.testbit (policy p) 19 = false) (Hv : vmpl p = 0) (Hg : (svn <= Z.of_N (guest_svn p))%Z) :
  verify_offer {| channel_public_key := pk; report := r |} n
    (Some (snp_verify chain roots (snp_measurement p) svn required forbidden reject)) true role_ =
  Ok {| peer_key := pk; assurance := py "hardware"; peer_measurement := measurement r |}.
Proof.
  apply attest_snp_ok in Hc as (expected & out & q & Hx & _ & Hp & Hd & Hpl & Hm & Hk & Hn & Hev & Hro).
  assert (p = q) as ->.
  { rewrite Hev in He. injection He as <-. pose proof (sg_parsed _ _ _ _ Hs) as Hq.
    assert (snp_raw q = out) as Hraw.
    { unfold parse in Hp. apply bind_ok in Hp as (s & Hsh%translate_ok & <-%ok_inj).
      by apply shared_raw_input in Hsh. }
    rewrite Hraw, Hp in Hq. by injection Hq as ->. }
  apply verify_offer_ok. unfold offer_accepted. cbn [report channel_public_key peer_key assurance peer_measurement].
  split_and!; [done|done|done|done|]. right. split_and!; [rewrite Hpl; by intros ?%py_inj|done|].
  eexists. split; [done|]. apply snp_verify_ok. split; [done|done|].
  exists evidence, q. rewrite Hk, Hro, Hx, Hd. by split_and!.
Qed.

(** [detect] and [attest] agree. *)
Lemma snp_host_detected h :
  if detect_snp h then _require_host h = Ok tt
  else exists e, _require_host h = Err e /\ exn_class e = Some AttestationUnsupported.
Proof.
  unfold detect_snp, _require_host. pose proof (require_tsm_available h (py "SEV-SNP")) as H.
  destruct (tsm_available h); cbn [andb].
  - rewrite H. cbn [mbind result_bind]. destruct (path_exists h SEV_GUEST_DEVICE); [done|by eexists].
  - destruct H as (e & -> & ?). by exists e.
Qed.
End laws.

(** ** A concrete report *)
Module SevSnpExample.
Import AsciiOnly Toy TpmExample TsmExample.

#[export] Instance demo_snp_laws : SnpLaws demo_evidence.
Proof.
  split. intros b s H. cbn [parse_snp_report demo_evidence] in H. unfold demo_parse_snp in H.
  destruct (len b =? 1184); [|done]. by injection H as <-.
Qed.

Definition zeros (n : nat) : bytes := repeat x00 n.
Definition vcek : bytes := ascii_bytes "VCEK".
Definition launch : bytes := repeat x07 48.
Definition demo_body (data : bytes) : bytes :=
  zeros 4 ++ [x01; x00; x00; x00] ++ zeros 44 ++ [x01; x00; x00; x00] ++ zeros 24 ++ data ++ launch ++ zeros 480.
Definition demo_snp (data : bytes) : bytes :=
  demo_body data ++ rev (checksum 4 (vcek ++ demo_body data)) ++ zeros 508.

Definition snp_host : Host :=
  {| sys_platform := py "linux"; path_exists p := bool_decide (p = SEV_GUEST_DEVICE);
     path_is_dir _ := true; tpm2_pytss_available := false |}.
Definition snp_attest : io AttestationReport :=
  attest_snp snp_host (demo_entry "sev_guest" demo_snp) (py "ab") (py "nonce") ROLE_CALLEE.
Definition snp_report : AttestationReport := get_ok no_report snp_attest.2.
Definition snp_blob : bytes := default [] (raw_evidence snp_report).
Definition no_snp : SevSnpReport :=
  {| version := 0; guest_svn := 0; policy := 0; vmpl := 0; signature_algo := 0; snp_measurement := [];
     report_data := []; snp_raw := [] |}.
Definition snp_parsed : SevSnpReport := get_ok no_snp (parse snp_blob).

Lemma snp_attest_ok : is_ok snp_attest.2 = true.
Proof. vm_compute. reflexivity. Qed.
Lemma snp_attested : snp_attest = (snp_attest.1, Ok snp_report).
Proof. unfold snp_report. rewrite <-(get_ok_spec no_report _ snp_attest_ok). apply surjective_pairing. Qed.
Lemma snp_blob_ok : raw_evidence snp_report = Some snp_blob.
Proof. vm_compute. reflexivity. Qed.
Lemma snp_signed : SnpSigned snp_blob [vcek] [vcek] snp_parsed.
Proof.
  split.
  - apply get_ok_spec. vm_compute. reflexivity.
  - vm_compute. reflexivity.
  - vm_compute. reflexivity.
  - exists vcek, vcek. split; [done|]. split; [done|]. vm_compute. reflexivity.
Qed.
Lemma snp_platform : platform_accepted snp_parsed (Some ∅) (Some ∅) true.
Proof. intros _. eexists. split; [reflexivity|]. vm_compute. reflexivity. Qed.
Lemma snp_policy : N.testbit (policy snp_parsed) 19 = false.
Proof. vm_compute. reflexivity. Qed.
Lemma snp_vmpl : vmpl snp_parsed = 0.
Proof. vm_compute. reflexivity. Qed.
Lemma snp_svn : (1 <= Z.of_N (guest_svn snp_parsed))%Z.
Proof. assert (guest_svn snp_parsed = 1) as -> by (vm_compute; reflexivity). done. Qed.
Lemma snp_verified :
  snp_verify [vcek] [vcek] launch 1 ∅ ∅ true snp_report (py "nonce") = Ok (measurement snp_report).
Proof. vm_compute. reflexivity. Qed.
#[local] Opaque snp_report snp_blob snp_parsed snp_attest.

Lemma snp_binds_key_witness :
  (public_key snp_report = public_key snp_report /\ role snp_report = role snp_report /\
   nonce snp_report = nonce snp_report /\ measurement snp_report = measurement snp_report) \/
  bindings_collide SNP_PREFIX (public_key snp_report) (py "nonce") (role snp_report)
    SNP_PREFIX (public_key snp_report) (py "nonce") (role snp_report).
Proof.
  exact (snp_binds_key [vcek] [vcek] launch 1%Z ∅ ∅ true [vcek] [vcek] launch 1%Z ∅ ∅ true snp_report snp_report
    (py "nonce") (py "nonce") (measurement snp_report) (measurement snp_report) snp_verified snp_verified eq_refl).
Defined.

Lemma snp_collected_offer_verifies_witness :
  verify_offer {| channel_public_key := py "ab"; report := snp_report |} (py "nonce")
    (Some (snp_verify [vcek] [vcek] (snp_measurement snp_parsed) 1 ∅ ∅ true)) true ROLE_CALLEE =
  Ok {| peer_key := py "ab"; assurance := py "hardware"; peer_measurement := measurement snp_report |}.
Proof.
  exact (snp_collected_offer_verifies snp_host (demo_entry "sev_guest" demo_snp) (py "ab") (py "nonce")
    ROLE_CALLEE snp_attest.1 snp_report [vcek] [vcek] 1%Z ∅ ∅ true snp_blob snp_parsed snp_attested snp_blob_ok
    snp_signed snp_platform snp_policy snp_vmpl snp_svn).
Defined.
End SevSnpExample.
