(* ===== verification/Tdx.v ===== *)
(** * Intel TDX ([ca2a_runtime.tee.tdx], [ca2a_verify.tdx])

    The parser of a DCAP v4 quote, whose nested lengths all come from the quote, its
    collection through configfs-TSM, and its offline appraisal. *)
From S2P Require Export SevSnp.
Import tee attestation tsm.
#[local] Open Scope N_scope.

Module tdx.

Definition HEADER_LEN : N := 48.
Definition TD_REPORT_LEN : N := 584.
Definition SIGNED_LEN : N := HEADER_LEN + TD_REPORT_LEN.
Definition MRTD_OFFSET : N := HEADER_LEN + 136.
Definition MRTD_LEN : N := 48.
Definition REPORT_DATA_OFFSET : N := HEADER_LEN + 520.
Definition REPORT_DATA_LEN : N := 64.
Definition QUOTE_SIG_LEN : N := 64.
Definition ATT_KEY_LEN : N := 64.
Definition QE_REPORT_LEN : N := 384.
Definition QE_REPORT_DATA_OFFSET : N := 320.
Definition TEE_TYPE_TDX : N := 0x81.
Definition CERT_TYPE_PCK_CHAIN : N := 5.
Definition CERT_TYPE_QE_REPORT : N := 6.
Definition CERT_DATA_HEADER_LEN : N := 6.
Definition TDX_GUEST_DEVICE : pystr := py "/dev/tdx_guest".
Definition MEASUREMENT_DIGEST_LABEL : pystr := py "sha384".

Definition failed (message : string) : exn := err AttestationFailed (py message).
Definition failed_d (message : string) (detail : pystr) : exn := err_d AttestationFailed (py message) detail.

Definition tdx_report_data `{U : Unidata} (public_key nonce role : pystr) : res bytes :=
  prefix ← role_prefix TDX_PREFIX role;
  digest ← derive_binding prefix public_key nonce;
  pad_report_data digest tsm.REPORT_DATA_LEN.

(** [struct.unpack_from("<HI", b, pos)] *)
Definition unpack_HI (b : bytes) (pos : N) : res (N * N) :=
  h ← unpack_le 2 b pos;
  i ← unpack_le 4 b (pos + 2);
  Ok (h, i).

Section quote.
Context `{E : Evidence}.

Record TdxQuote := {
  version : N;
  tee_type : N;
  mrtd : bytes;
  report_data : bytes;
  signed_body : bytes;
  quote_signature_ : bytes;
  attestation_key : bytes;
  qe_report : bytes;
  qe_report_signature : bytes;
  qe_auth_data : bytes;
  pck_chain : list cert
}.

(** The QE certification data: the QE report, its signature, the authentication data
    and the bytes of the PCK chain. *)
Definition parse_cert_data (cert_data : bytes) : res (bytes * bytes * bytes * bytes) :=
  raise_if (len cert_data <? QE_REPORT_LEN + QUOTE_SIG_LEN + 2 + CERT_DATA_HEADER_LEN)
    (failed "QE certification data is truncated");;
  let qe_report := slice 0 QE_REPORT_LEN cert_data in
  let inner := QE_REPORT_LEN in
  let qe_report_sig := slice inner (inner + QUOTE_SIG_LEN) cert_data in
  let inner := inner + QUOTE_SIG_LEN in
  qe_auth_len ← unpack_le 2 cert_data inner;
  let inner := inner + 2 in
  raise_if (len cert_data <? inner + qe_auth_len + CERT_DATA_HEADER_LEN)
    (failed "QE authentication data is truncated");;
  let qe_auth := slice inner (inner + qe_auth_len) cert_data in
  let inner := inner + qe_auth_len in
  '(cert_type, cert_len) ← unpack_HI cert_data inner;
  let inner := inner + CERT_DATA_HEADER_LEN in
  raise_if (len cert_data <? inner + cert_len) (failed "PCK certificate chain is truncated");;
  let cert_bytes := slice inner (inner + cert_len) cert_data in
  raise_if (negb (cert_type =? CERT_TYPE_PCK_CHAIN))
    (failed_d "unsupported QE certification data type"
       (py "type=" ++ str_N cert_type ++ py ", expected " ++ str_N CERT_TYPE_PCK_CHAIN ++
        py " (PCK chain)"));;
  Ok (qe_report, qe_report_sig, qe_auth, cert_bytes).

(** The signature section: the quote signature, the attestation key and the QE
    certification data. *)
Definition parse_sig (sig_len : N) (sig : bytes) : res (bytes * bytes * bytes) :=
  raise_if (len sig <? QUOTE_SIG_LEN + ATT_KEY_LEN + CERT_DATA_HEADER_LEN)
    (failed_d "TDX quote signature section is truncated"
       (py "declared " ++ str_N sig_len ++ py " bytes"));;
  let quote_sig := slice 0 QUOTE_SIG_LEN sig in
  let att_key := slice QUOTE_SIG_LEN (QUOTE_SIG_LEN + ATT_KEY_LEN) sig in
  let pos := QUOTE_SIG_LEN + ATT_KEY_LEN in
  '(outer_type, outer_len) ← unpack_HI sig pos;
  let pos := pos + CERT_DATA_HEADER_LEN in
  raise_if (negb (outer_type =? CERT_TYPE_QE_REPORT))
    (failed_d "unsupported certification data type"
       (py "type=" ++ str_N outer_type ++ py ", expected " ++ str_N CERT_TYPE_QE_REPORT ++
        py " (QE report)"));;
  raise_if (len sig <? pos + outer_len) (failed "QE certification data is truncated");;
  Ok (quote_sig, att_key, slice pos (pos + outer_len) sig).

(** [TdxQuote.parse(blob)] *)
Definition parse (blob : bytes) : res TdxQuote :=
  raise_if (len blob <? SIGNED_LEN + 4)
    (failed_d "TDX quote too short"
       (py "got " ++ str_N (len blob) ++ py " bytes, need at least " ++ str_N (SIGNED_LEN + 4)));;
  version ← unpack_le 2 blob 0;
  tee_type ← unpack_le 4 blob 4;
  let measurement := slice MRTD_OFFSET (MRTD_OFFSET + MRTD_LEN) blob in
  let report_data := slice REPORT_DATA_OFFSET (REPORT_DATA_OFFSET + REPORT_DATA_LEN) blob in
  sig_len ← unpack_le 4 blob SIGNED_LEN;
  let pos := SIGNED_LEN + 4 in
  let end_ := pos + sig_len in
  raise_if (len blob <? end_) (failed "TDX quote signature section is truncated");;
  '(quote_sig, att_key, cert_data) ← parse_sig sig_len (slice pos end_ blob);
  '(qe_report, qe_report_sig, qe_auth, cert_bytes) ← parse_cert_data cert_data;
  chain ← try_except (value_error (load_pem_x509_certificates cert_bytes)) is_value_error
    (fun exc => Err (failed_d "could not parse PCK certificate chain" (exn_str exc)));
  Ok {| version := version; tee_type := tee_type; mrtd := measurement; report_data := report_data;
        signed_body := slice 0 SIGNED_LEN blob; quote_signature_ := quote_sig;
        attestation_key := att_key; qe_report := qe_report; qe_report_signature := qe_report_sig;
        qe_auth_data := qe_auth; pck_chain := chain |}.
End quote.

Section provider.
Context `{U : Unidata, E : Evidence}.

Definition detect_tdx (h : Host) : bool := tsm_available h && path_exists h TDX_GUEST_DEVICE.

Definition _require_host (h : Host) : res unit :=
  require_tsm h (py "TDX");;
  raise_if (negb (path_exists h TDX_GUEST_DEVICE))
    (err_d AttestationUnsupported (py "TDX quote generation requires a non-paravisor TDX guest")
       (py "configfs-TSM is present but " ++ TDX_GUEST_DEVICE ++ py " is not, so the " ++
        py "tdx_guest driver has not registered a TSM provider on this host")).

(** [TdxProvider.attest] *)
Definition attest_tdx (h : Host) (e : Entry) (public_key nonce role : pystr) : io AttestationReport :=
  pure_io (_require_host h);;
  expected ← pure_io (tdx_report_data public_key nonce role);
  collected ← collect_report e expected PROVIDER_TDX_GUEST;
  quote ← pure_io (parse collected.1);
  pure_io (raise_if (negb (tee_type quote =? TEE_TYPE_TDX))
    (failed_d "the quote is not a TDX quote"
       (py "tee_type=" ++ hex_N (tee_type quote) ++ py ", expected " ++ hex_N TEE_TYPE_TDX)));;
  pure_io (raise_if (negb (bool_decide (report_data quote = expected)))
    (failed_d "the quote does not commit the requested key and nonce binding"
       (py "REPORTDATA does not match the derived binding")));;
  let chain_pem := concat (map cert_pem (pck_chain quote)) in
  mret {| platform := py "tdx"; measurement := MEASUREMENT_DIGEST_LABEL ++ py ":" ++ hex (mrtd quote);
          tee.public_key := public_key; tee.nonce := nonce; raw_evidence := Some collected.1;
          quote_signature := Some (quote_signature_ quote); attestation_key_pem := None;
          attestation_key_chain_pem := if bool_decide (chain_pem = []) then None else Some chain_pem;
          tee.role := role |}.
End provider.

(** ** Appraisal *)
Section verify.
Context `{U : Unidata, E : Evidence}.

Definition _p256_key (raw_xy : bytes) : res ec_key :=
  value_error (p256_from_encoded_point (x04 :: raw_xy)).

Definition _verify_ecdsa (public_key : ec_key) (sig_rs message : bytes) : res unit :=
  ecdsa_verify public_key (be_int (slice 0 32 sig_rs)) (be_int (slice 32 64 sig_rs)) message SHA256.

(** [except (InvalidSignature, ValueError)] *)
Definition is_bad_signature (e : exn) : bool := is_py InvalidSignature e || is_value_error e.

Definition verify_tdx_quote (quote_bytes : bytes) (trusted_roots : list cert)
    (expected_mrtd expected_report_data : option bytes) : res TdxQuote :=
  quote ← parse quote_bytes;
  raise_if (negb (tee_type quote =? TEE_TYPE_TDX))
    (failed_d "quote is not a TDX quote" (py "tee_type=" ++ hex_N (tee_type quote)));;
  sev_snp.verify_cert_chain (pck_chain quote) trusted_roots;;
  pck ← or_raise (head (pck_chain quote)) (PyExc IndexError (py "list index out of range"));
  key ← cert_public_key pck;
  match key with
  | EcKey pck_key =>
      try_except (_verify_ecdsa pck_key (qe_report_signature quote) (qe_report quote)) is_bad_signature
        (fun _ => Err (failed "QE report signature failed to verify"));;
      let expected_binding := sha256 (attestation_key quote ++ qe_auth_data quote) in
      let qe_report_data := slice QE_REPORT_DATA_OFFSET (QE_REPORT_DATA_OFFSET + 64) (qe_report quote) in
      raise_if (negb (bool_decide (slice 0 32 qe_report_data = expected_binding)))
        (failed "attestation key is not the one the QE report vouched for");;
      try_except
        (key ← _p256_key (attestation_key quote);
         _verify_ecdsa key (quote_signature_ quote) (signed_body quote)) is_bad_signature
        (fun _ => Err (failed "TDX quote signature failed to verify"));;
      raise_if (negb (sev_snp.matches_expected expected_mrtd (mrtd quote)))
        (failed_d "MRTD does not match the expected value" (py "got " ++ hex (mrtd quote)));;
      raise_if (negb (sev_snp.matches_expected expected_report_data (report_data quote)))
        (failed "report data does not match the expected binding");;
      Ok quote
  | _ => Err (failed "PCK does not carry an elliptic-curve public key")
  end.
End verify.
End tdx.
Import tdx.

(** ** The layout the parser reads

    A DCAP v4 quote, as Intel's specification lays it out; the code only reads it. *)
Definition le_bytes (w : nat) (n : N) : bytes := rev (be_bytes w n).

Record TdxLayout := {
  l_version : N; l_key_type : N; l_tee_type : N;
  l_header : bytes; l_td_head : bytes; l_mrtd : bytes; l_td_middle : bytes; l_report_data : bytes;
  l_quote_sig : bytes; l_att_key : bytes;
  l_qe_report : bytes; l_qe_sig : bytes; l_qe_auth : bytes; l_certs : bytes;
  l_after_certs : bytes; l_after_qe : bytes; l_after_sig : bytes
}.
Definition l_signed (l : TdxLayout) : bytes :=
  le_bytes 2 (l_version l) ++ le_bytes 2 (l_key_type l) ++ le_bytes 4 (l_tee_type l) ++ l_header l ++
  l_td_head l ++ l_mrtd l ++ l_td_middle l ++ l_report_data l.
Definition l_cert_data (l : TdxLayout) : bytes :=
  l_qe_report l ++ l_qe_sig l ++ le_bytes 2 (len (l_qe_auth l)) ++ l_qe_auth l ++
  (le_bytes 2 5 ++ le_bytes 4 (len (l_certs l))) ++ l_certs l ++ l_after_certs l.
Definition l_sig (l : TdxLayout) : bytes :=
  l_quote_sig l ++ l_att_key l ++ (le_bytes 2 6 ++ le_bytes 4 (len (l_cert_data l))) ++ l_cert_data l ++
  l_after_qe l.
Definition marshal_tdx (l : TdxLayout) : bytes :=
  l_signed l ++ le_bytes 4 (len (l_sig l)) ++ l_sig l ++ l_after_sig l.

(** The fixed widths, and the bounds of the declared lengths. *)
Record wf_layout (l : TdxLayout) : Prop := {
  wl_version : l_version l < 65536;
  wl_tee : l_tee_type l < 4294967296;
  wl_header : len (l_header l) = 40;
  wl_head : len (l_td_head l) = 136;
  wl_mrtd : len (l_mrtd l) = 48;
  wl_middle : len (l_td_middle l) = 336;
  wl_data : len (l_report_data l) = 64;
  wl_qsig : len (l_quote_sig l) = 64;
  wl_key : len (l_att_key l) = 64;
  wl_qe : len (l_qe_report l) = 384;
  wl_qesig : len (l_qe_sig l) = 64;
  wl_auth : len (l_qe_auth l) < 65536;
  wl_sig : len (l_sig l) < 4294967296
}.

Section parse_laws.
Context `{E : Evidence}.

Lemma len_le_bytes w n : len (le_bytes w n) = N.of_nat w.
Proof. unfold len, le_bytes. by rewrite length_rev, length_be_bytes. Qed.
Lemma le_int_le_bytes w n : n < 256 ^ N.of_nat w -> le_int (le_bytes w n) = n.
Proof. intros H. unfold le_int, le_bytes. rewrite rev_involutive. by apply be_int_be_bytes. Qed.

Lemma unpack_le_at b pre w W n post pos :
  b = pre ++ le_bytes w n ++ post -> W = N.of_nat w -> n < 256 ^ W -> pos = len pre ->
  unpack_le W b pos = Ok n.
Proof.
  intros Hb -> Hn ->. apply unpack_le_ok. pose proof (f_equal len Hb) as Hl. rewrite !len_app, len_le_bytes in Hl.
  split; [lia|].
  rewrite (slice_at b pre (le_bytes w n) post _ _ Hb) by (rewrite ?len_le_bytes; lia).
  by rewrite le_int_le_bytes.
Qed.

Lemma unpack_HI_at b pre h i post pos :
  b = pre ++ (le_bytes 2 h ++ le_bytes 4 i) ++ post -> h < 65536 -> i < 4294967296 -> pos = len pre ->
  unpack_HI b pos = Ok (h, i).
Proof.
  intros Hb Hh Hi ->. unfold unpack_HI. rewrite <-app_assoc in Hb.
  rewrite (unpack_le_at b pre 2 2 h (le_bytes 4 i ++ post) _ Hb) by done. cbn [mbind result_bind].
  rewrite (unpack_le_at b (pre ++ le_bytes 2 h) 4 4 i post (len pre + 2));
    [done|by rewrite <-app_assoc|done|done|by rewrite len_app, len_le_bytes].
Qed.

Lemma parse_cert_data_at l :
  wf_layout l ->
  parse_cert_data (l_cert_data l) = Ok (l_qe_report l, l_qe_sig l, l_qe_auth l, l_certs l).
Proof.
  intros W. pose proof W as []. set (b := l_cert_data l).
  assert (len b < 4294967296) as Hb.
  { pose proof (wl_sig l W) as Hs. unfold l_sig in Hs. rewrite !len_app in Hs. fold b in Hs. lia. }
  assert (len b = 456 + len (l_qe_auth l) + len (l_certs l) + len (l_after_certs l)) as Hlen.
  { unfold b, l_cert_data. rewrite !len_app, !len_le_bytes. lia. }
  set (rest3 := (le_bytes 2 5 ++ le_bytes 4 (len (l_certs l))) ++ l_certs l ++ l_after_certs l).
  set (pre2 := l_qe_report l ++ l_qe_sig l). set (pre3 := pre2 ++ le_bytes 2 (len (l_qe_auth l))).
  set (pre4 := pre3 ++ l_qe_auth l).
  assert (len pre2 = 448) as L2 by (unfold pre2; rewrite len_app; lia).
  assert (len pre3 = 450) as L3 by (unfold pre3; rewrite len_app, len_le_bytes; lia).
  assert (len pre4 = 450 + len (l_qe_auth l)) as L4 by (unfold pre4; rewrite len_app; lia).
  assert (b = pre4 ++ rest3) as E4.
  { unfold b, l_cert_data, pre4, pre3, pre2, rest3. by rewrite <-!app_assoc. }
  assert (b = pre2 ++ le_bytes 2 (len (l_qe_auth l)) ++ l_qe_auth l ++ rest3) as E2.
  { rewrite E4. unfold pre4, pre3. by rewrite <-!app_assoc. }
  unfold parse_cert_data, QE_REPORT_LEN, QUOTE_SIG_LEN, CERT_DATA_HEADER_LEN, CERT_TYPE_PCK_CHAIN.
  apply guard_pass; [apply N.ltb_ge; lia|].
  rewrite (slice_at b [] (l_qe_report l) (l_qe_sig l ++ le_bytes 2 (len (l_qe_auth l)) ++ l_qe_auth l ++ rest3))
    by (done || lia).
  rewrite (slice_at b (l_qe_report l) (l_qe_sig l) (le_bytes 2 (len (l_qe_auth l)) ++ l_qe_auth l ++ rest3))
    by (done || lia).
  rewrite (unpack_le_at b pre2 2 2 _ _ (384 + 64) E2) by (done || lia). cbn [mbind result_bind].
  apply guard_pass; [apply N.ltb_ge; lia|].
  rewrite (slice_at b pre3 (l_qe_auth l) rest3)
    by (first [rewrite E4; unfold pre4; by rewrite <-app_assoc|lia]).
  rewrite (unpack_HI_at b pre4 5 (len (l_certs l)) (l_certs l ++ l_after_certs l)) by (done || lia).
  cbn [mbind result_bind]. apply guard_pass; [apply N.ltb_ge; lia|].
  rewrite (slice_at b (pre4 ++ (le_bytes 2 5 ++ le_bytes 4 (len (l_certs l)))) (l_certs l) (l_after_certs l));
    [done|rewrite E4; unfold rest3; by rewrite <-!app_assoc|rewrite !len_app, !len_le_bytes; lia..].
Qed.
Lemma parse_sig_at l n :
  wf_layout l -> parse_sig n (l_sig l) = Ok (l_quote_sig l, l_att_key l, l_cert_data l).
Proof.
  intros W. pose proof (wl_sig l W) as Hs. pose proof W as []. set (b := l_sig l) in *.
  assert (len b = 134 + len (l_cert_data l) + len (l_after_qe l)) as Hlen.
  { unfold b, l_sig. rewrite !len_app, !len_le_bytes. lia. }
  set (head_ := le_bytes 2 6 ++ le_bytes 4 (len (l_cert_data l))).
  set (rest := l_cert_data l ++ l_after_qe l). set (pre := l_quote_sig l ++ l_att_key l).
  assert (b = l_quote_sig l ++ l_att_key l ++ head_ ++ rest) as Eb by done.
  assert (b = pre ++ head_ ++ rest) as E2 by (rewrite Eb; unfold pre; by rewrite <-app_assoc).
  assert (len pre = 128) as L2 by (unfold pre; rewrite len_app; lia).
  assert (len (pre ++ head_) = 134) as L3 by (unfold head_; rewrite !len_app, !len_le_bytes; lia).
  unfold parse_sig, QUOTE_SIG_LEN, ATT_KEY_LEN, CERT_DATA_HEADER_LEN, CERT_TYPE_QE_REPORT.
  apply guard_pass; [apply N.ltb_ge; lia|].
  rewrite (slice_at b [] (l_quote_sig l) (l_att_key l ++ head_ ++ rest)) by (done || lia).
  rewrite (slice_at b (l_quote_sig l) (l_att_key l) (head_ ++ rest)) by (done || lia).
  rewrite (unpack_HI_at b pre 6 (len (l_cert_data l)) rest) by (done || lia). cbn [mbind result_bind].
  apply guard_pass; [done|]. apply guard_pass; [apply N.ltb_ge; lia|].
  rewrite (slice_at b (pre ++ head_) (l_cert_data l) (l_after_qe l));
    [done|rewrite E2; by rewrite <-app_assoc|lia..].
Qed.

Lemma len_l_signed l : wf_layout l -> len (l_signed l) = 632.
Proof. intros []. unfold l_signed. rewrite !len_app, !len_le_bytes. lia. Qed.

(** The quote a layout stands for. *)
Definition layout_quote (l : TdxLayout) (chain : list cert) : TdxQuote :=
  {| version := l_version l; tee_type := l_tee_type l; mrtd := l_mrtd l; report_data := l_report_data l;
     signed_body := l_signed l; quote_signature_ := l_quote_sig l; attestation_key := l_att_key l;
     qe_report := l_qe_report l; qe_report_signature := l_qe_sig l; qe_auth_data := l_qe_auth l;
     pck_chain := chain |}.

(** The TDX quote parser reads back every quote.  A quote marshalled in the DCAP v4
    layout, with any header, any authentication data and certificate bytes that load as
    a chain, any bytes after each nested section and any version, parses to exactly its
    fields: the nested lengths lead the parser to the right bytes. *)
Theorem parse_tdx_marshal l chain (W : wf_layout l)
    (Hc : load_pem_x509_certificates (l_certs l) = Ok chain) :
  parse (marshal_tdx l) = Ok (layout_quote l chain).
Proof.
  pose proof W as []. pose proof (len_l_signed l W) as L. set (b := marshal_tdx l).
  assert (b = l_signed l ++ le_bytes 4 (len (l_sig l)) ++ l_sig l ++ l_after_sig l) as Eb by done.
  assert (len b = 636 + len (l_sig l) + len (l_after_sig l)) as Hlen.
  { rewrite Eb, !len_app, len_le_bytes. lia. }
  unfold parse. cbv delta [SIGNED_LEN HEADER_LEN TD_REPORT_LEN MRTD_OFFSET MRTD_LEN REPORT_DATA_OFFSET REPORT_DATA_LEN].
  apply guard_pass; [apply N.ltb_ge; lia|].
  assert (forall pre x post, l_signed l = pre ++ x ++ post ->
    b = pre ++ x ++ post ++ le_bytes 4 (len (l_sig l)) ++ l_sig l ++ l_after_sig l) as Hin.
  { intros pre x post E'. rewrite Eb, E'. by rewrite <-!app_assoc. }
  eapply bind_pass.
  { eapply (unpack_le_at b [] 2 2 (l_version l)); [by apply Hin|done..]. }
  eapply bind_pass.
  { eapply (unpack_le_at b (le_bytes 2 (l_version l) ++ le_bytes 2 (l_key_type l)) 4 4 (l_tee_type l));
      [apply Hin; unfold l_signed; by rewrite <-!app_assoc|done|done|by rewrite len_app, !len_le_bytes]. }
  set (head_ := le_bytes 2 (l_version l) ++ le_bytes 2 (l_key_type l) ++ le_bytes 4 (l_tee_type l) ++ l_header l).
  assert (len head_ = 48) as Lh by (unfold head_; rewrite !len_app, !len_le_bytes; lia).
  rewrite (slice_at b (head_ ++ l_td_head l) (l_mrtd l)
             ((l_td_middle l ++ l_report_data l) ++ le_bytes 4 (len (l_sig l)) ++ l_sig l ++ l_after_sig l));
    [|apply Hin; unfold l_signed, head_; by rewrite <-!app_assoc|rewrite len_app; lia..].
  rewrite (slice_at b (head_ ++ l_td_head l ++ l_mrtd l ++ l_td_middle l) (l_report_data l)
             ([] ++ le_bytes 4 (len (l_sig l)) ++ l_sig l ++ l_after_sig l));
    [|apply Hin; unfold l_signed, head_; by rewrite <-!app_assoc, app_nil_r|rewrite !len_app; lia..].
  eapply bind_pass; [by apply (unpack_le_at b (l_signed l) 4 4 _ (l_sig l ++ l_after_sig l))|].
  apply guard_pass; [apply N.ltb_ge; lia|].
  rewrite (slice_at b (l_signed l ++ le_bytes 4 (len (l_sig l))) (l_sig l) (l_after_sig l)
             (48 + 584 + 4) (48 + 584 + 4 + len (l_sig l)));
    [|by rewrite Eb, <-app_assoc|rewrite len_app, len_le_bytes; lia..].
  rewrite parse_sig_at by done. cbn [mbind result_bind].
  rewrite parse_cert_data_at by done. cbn [mbind result_bind].
  rewrite Hc. cbn [value_error try_except mbind result_bind].
  by rewrite (slice_at b [] (l_signed l) _ 0 _ Eb).
Qed.
End parse_laws.

(** ** Specification *)
Section spec.
Context `{U : Unidata, E : Evidence}.

(** A quote whose signature leads to a trusted root: the chain, the QE report under the
    chain's first key, the attestation key in the QE report, the quote under that key. *)
Record TdxSigned (q : TdxQuote) (roots : list cert) : Prop := {
  ts_type : tee_type q = TEE_TYPE_TDX;
  ts_chain : shared_verify_cert_chain (pck_chain q) roots = Ok tt;
  ts_qe : exists pck key, head (pck_chain q) = Some pck /\ cert_public_key pck = Ok (EcKey key) /\
    _verify_ecdsa key (qe_report_signature q) (qe_report q) = Ok tt;
  ts_bound : slice 320 352 (qe_report q) = sha256 (attestation_key q ++ qe_auth_data q);
  ts_quote : exists key, p256_from_encoded_point (x04 :: attestation_key q) = Ok key /\
    _verify_ecdsa key (quote_signature_ q) (signed_body q) = Ok tt
}.

(** The documented errors of the packages: the chain verifier raises its own class and
    refuses an empty chain, an ECDSA verification raises InvalidSignature or
    ValueError. *)
Class EvidenceErrors := {
  chain_declared chain roots x : shared_verify_cert_chain chain roots = Err x -> exists t, x = Declared t;
  chain_not_empty roots : is_ok (shared_verify_cert_chain [] roots) = false;
  ecdsa_errors k r s m h e : ecdsa_verify k r s m h = Err e -> is_bad_signature e = true
}.
End spec.
Arguments EvidenceErrors E : clear implicits.

Section laws.
Context `{U : Unidata, E : Evidence}.

Lemma unpack_le_total w b pos : pos + w <= len b -> unpack_le w b pos = Ok (le_int (slice pos (pos + w) b)).
Proof. intros H. by apply unpack_le_ok. Qed.
Lemma unpack_HI_total b pos : pos + 6 <= len b -> exists h i, unpack_HI b pos = Ok (h, i).
Proof.
  intros H. unfold unpack_HI. rewrite !unpack_le_total by lia. cbn [mbind result_bind]. by do 2 eexists.
Qed.

Lemma parse_sig_closed n s : raises_only AttestationFailed (parse_sig n s).
Proof.
  unfold parse_sig. apply only_guard; [done|]. intros H%N.ltb_ge.
  destruct (unpack_HI_total s (QUOTE_SIG_LEN + ATT_KEY_LEN)) as (h & i & ->); [unfold CERT_DATA_HEADER_LEN in H; lia|].
  cbn [mbind result_bind]. apply only_guard; [done|]. intros _. apply only_guard; [done|]. intros _. apply only_ok.
Qed.

Lemma parse_cert_data_closed b : raises_only AttestationFailed (parse_cert_data b).
Proof.
  unfold parse_cert_data. apply only_guard; [done|]. intros H%N.ltb_ge.
  unfold CERT_DATA_HEADER_LEN in *. rewrite unpack_le_total by lia. cbn [mbind result_bind].
  apply only_guard; [done|]. intros H2%N.ltb_ge.
  destruct (unpack_HI_total b (QE_REPORT_LEN + QUOTE_SIG_LEN + 2 +
    le_int (slice (QE_REPORT_LEN + QUOTE_SIG_LEN) (QE_REPORT_LEN + QUOTE_SIG_LEN + 2) b))) as (h & i & ->); [lia|].
  cbn [mbind result_bind]. apply only_guard; [done|]. intros _. apply only_guard; [done|]. intros _. apply only_ok.
Qed.

Lemma parse_closed b : raises_only AttestationFailed (parse b).
Proof.
  unfold parse. apply only_guard; [done|]. intros H%N.ltb_ge.
  unfold SIGNED_LEN, HEADER_LEN, TD_REPORT_LEN in *. rewrite !unpack_le_total by lia. cbn [mbind result_bind].
  apply only_guard; [done|]. intros _. apply only_bind; [apply parse_sig_closed|]. intros [[? ?] ?] _.
  apply only_bind; [apply parse_cert_data_closed|]. intros [[[? ?] ?] ?] _.
  apply only_bind; [|intros; apply only_ok].
  intros e. destruct (load_pem_x509_certificates _); [done|]. by intros [= <-].
Qed.

Lemma parse_sig_lens n s qs k cd : parse_sig n s = Ok (qs, k, cd) -> len qs = 64 /\ len k = 64.
Proof.
  unfold parse_sig. intros [[_ L%raise_if_ok] ([h i] & _ & [_ [_ H]%seq_ok]%seq_ok)%bind_ok]%seq_ok.
  apply ok_inj in H. injection H as <- <- _. apply N.ltb_ge in L.
  unfold QUOTE_SIG_LEN, ATT_KEY_LEN, CERT_DATA_HEADER_LEN in *. rewrite !length_slice by lia. done.
Qed.
Lemma parse_cert_data_lens b qr qs au cb :
  parse_cert_data b = Ok (qr, qs, au, cb) -> len qr = 384 /\ len qs = 64.
Proof.
  unfold parse_cert_data.
  intros [[_ L%raise_if_ok] (n & _ & [_ ([h i] & _ & [_ [_ H]%seq_ok]%seq_ok)%bind_ok]%seq_ok)%bind_ok]%seq_ok.
  apply ok_inj in H. injection H as <- <- _ _. apply N.ltb_ge in L.
  unfold QUOTE_SIG_LEN, QE_REPORT_LEN, CERT_DATA_HEADER_LEN in *. rewrite !length_slice by lia. done.
Qed.

(** What a quote that parses is made of. *)
Lemma parse_tdx_ok b q :
  parse b = Ok q ->
  636 <= len b /\ signed_body q = slice 0 632 b /\ mrtd q = slice 184 232 b /\
  report_data q = slice 568 632 b /\ tee_type q = le_int (slice 4 8 b) /\
  len (quote_signature_ q) = 64 /\ len (attestation_key q) = 64 /\ len (qe_report q) = 384 /\
  len (qe_report_signature q) = 64.
Proof.
  unfold parse. intros [[_ Hlen%raise_if_ok] H]%seq_ok. apply N.ltb_ge in Hlen.
  apply bind_ok in H as (v & _ & (t & [_ ->]%unpack_le_ok & (n & _ & H)%bind_ok)%bind_ok).
  apply seq_ok in H as [_ ([[s k] cd] & Hs & ([[[qr qs] au] cb] & Hc & (ch & _ & <-%ok_inj)%bind_ok)%bind_ok)%bind_ok].
  cbn [signed_body mrtd report_data tee_type quote_signature_ attestation_key qe_report qe_report_signature].
  apply parse_sig_lens in Hs as [? ?]. apply parse_cert_data_lens in Hc as [? ?]. by split_and!.
Qed.

(** C36: a TDX quote either parses or is refused as AttestationFailed, and what is read
    is what is signed.  No length a quote declares makes a read fail with another
    error; a parsed quote has signature, key and QE report fields of their exact
    widths, its signed body is the first 632 bytes, and the launch measurement and
    report data it reports are those of the signed body. *)
Theorem parse_tdx_contract b :
  match parse b with
  | Ok q =>
      signed_body q = slice 0 632 b /\ len (signed_body q) = 632 /\
      mrtd q = slice 184 232 (signed_body q) /\ len (mrtd q) = 48 /\
      report_data q = slice 568 632 (signed_body q) /\ len (report_data q) = 64 /\
      len (quote_signature_ q) = 64 /\ len (attestation_key q) = 64 /\ len (qe_report q) = 384 /\
      len (qe_report_signature q) = 64
  | Err e => exn_class e = Some AttestationFailed
  end.
Proof.
  destruct (parse b) as [q|e] eqn:H; [|by eapply parse_closed].
  apply parse_tdx_ok in H as (L & -> & -> & -> & _ & ? & ? & ? & ?).
  rewrite !slice_slice, !length_slice by lia. by split_and!.
Qed.

Lemma verify_tdx_ok b roots em ed q :
  verify_tdx_quote b roots em ed = Ok q <->
  parse b = Ok q /\ TdxSigned q roots /\ (forall x, em = Some x -> mrtd q = x) /\
  (forall x, ed = Some x -> report_data q = x).
Proof.
  unfold verify_tdx_quote. rewrite <-!matches_expected_ok. split.
  - intros (q' & Hp & [[u1 Ht%raise_if_ok] [[u2 Hc%translate_ok] (pck & Hh%or_raise_ok & H)%bind_ok]%seq_ok]%seq_ok)%bind_ok.
    apply bind_ok in H as ([key| |] & Hk & H); try done.
    apply seq_ok in H as [[u3 Hq%try_except_raise_ok] [[u4 Hb%guard_ok]
      [[u5 Hs%try_except_raise_ok] [[u6 Hm%raise_if_ok] [[u7 Hd%raise_if_ok] <-%ok_inj]%seq_ok]%seq_ok]%seq_ok]%seq_ok].
    apply bind_ok in Hs as (akey & Ha%value_error_ok & Hs). bool_to_prop. destruct u2, u3, u5.
    rewrite slice_slice in Hb by done. split_and!; [done|split; [done|done|by exists pck, key|done|by exists akey]|done|done].
  - intros (Hp & [Ht Hc (pck & key & Hh & Hk & Hq) Hb (akey & Ha & Hs)] & Hm & Hd). rewrite Hp. cbn [mbind result_bind].
    rewrite Ht, N.eqb_refl. unfold sev_snp.verify_cert_chain. rewrite Hc, Hh. cbn [negb raise_if mbind result_bind translate or_raise].
    rewrite Hk. cbn [mbind result_bind]. rewrite Hq. cbn [try_except mbind result_bind]. rewrite slice_slice by done.
    rewrite bool_decide_true by exact Hb. cbn [negb raise_if mbind result_bind]. unfold _p256_key. rewrite Ha. cbn [mbind result_bind value_error]. rewrite Hs. cbn [try_except mbind result_bind].
    by rewrite Hm, Hd.
Qed.

Lemma ecdsa_closed `{X : !EvidenceErrors E} (m : res ec_key) msg sig_ body :
  (forall e, m = Err e -> is_bad_signature e = true) ->
  raises_only AttestationFailed (try_except (key ← m; _verify_ecdsa key sig_ body) is_bad_signature (fun _ => Err (failed msg))).
Proof.
  intros Hm e. destruct m as [k|x]; cbn [mbind result_bind try_except].
  - unfold _verify_ecdsa. destruct (ecdsa_verify _ _ _ _ _) as [|x] eqn:Hx; [done|].
    cbn [try_except]. rewrite (ecdsa_errors _ _ _ _ _ _ Hx). by intros [= <-].
  - rewrite (Hm x) by done. by intros [= <-].
Qed.

(** [public_key()] of the chain's first certificate raises. *)
Definition key_fails (b : bytes) (roots : list cert) (e : exn) : Prop :=
  exists q pck, parse b = Ok q /\ tee_type q = TEE_TYPE_TDX /\
    shared_verify_cert_chain (pck_chain q) roots = Ok tt /\ head (pck_chain q) = Some pck /\
    cert_public_key pck = Err e.

Lemma verify_tdx_closed `{X : !EvidenceErrors E} b roots em ed e :
  verify_tdx_quote b roots em ed = Err e -> exn_class e = Some AttestationFailed \/ key_fails b roots e.
Proof.
  unfold verify_tdx_quote. intros [He|(q & Hp & He)]%bind_err; [left; by eapply parse_closed|].
  apply bind_err in He as [[_ ->]%raise_if_err|([] & Ht%raise_if_ok & He)]; [by left|].
  apply bind_err in He as [He|([] & Hc%translate_ok & He)].
  { left. revert He. unfold sev_snp.verify_cert_chain. destruct (shared_verify_cert_chain _ _) as [|x] eqn:Hx; [done|].
    apply chain_declared in Hx as [t ->]. by intros [= <-]. }
  destruct (pck_chain q) as [|pck rest] eqn:Hch.
  { pose proof (chain_not_empty roots) as Hn. by rewrite Hc in Hn. }
  cbn [head or_raise mbind result_bind] in He. apply bind_err in He as [He|(k & _ & He)].
  { right. exists q, pck. rewrite Hch. bool_to_prop. by split_and!. }
  left. revert e He. destruct k as [key| |]; [|by intros e [= <-]..].
  apply only_bind; [by apply (ecdsa_closed (Ok key))|]. intros _ _.
  apply only_guard; [done|]. intros _. apply only_bind.
  { apply ecdsa_closed. intros e. unfold _p256_key. destruct (p256_from_encoded_point _); [done|]. by intros [= <-]. }
  intros _ _. apply only_guard; [done|]. intros _. apply only_guard; [done|]. intros _. apply only_ok.
Qed.

(** C37: TDX quote appraisal accepts exactly the quotes it should.  A quote is accepted
    if and only if it parses, is of TDX type, carries a chain to a trusted root whose
    first key signed the QE report, the QE report vouches for the attestation key, that
    key signed the header and TD report, and the launch measurement and report data
    are the expected ones where they are given; the quote returned is the parsed one.
    Every refusal is AttestationFailed, but for what [public_key()] of an accepted
    chain's first certificate raises. *)
Theorem verify_tdx_quote_spec b roots em ed (X : EvidenceErrors E) :
  match verify_tdx_quote b roots em ed with
  | Ok q => parse b = Ok q /\ TdxSigned q roots /\ (forall x, em = Some x -> mrtd q = x) /\
            (forall x, ed = Some x -> report_data q = x)
  | Err e => (exn_class e = Some AttestationFailed \/ key_fails b roots e) /\
             ~ exists q, parse b = Ok q /\ TdxSigned q roots /\ (forall x, em = Some x -> mrtd q = x) /\
                 (forall x, ed = Some x -> report_data q = x)
  end.
Proof.
  destruct (verify_tdx_quote b roots em ed) as [q|e] eqn:H; [by apply verify_tdx_ok|].
  split; [|intros [q Hq%verify_tdx_ok]; by rewrite H in Hq]. by apply (verify_tdx_closed _ _ em ed).
Qed.

(** A key the package does not support escapes: the docstring says every failure
    raises AttestationFailed, but whatever [public_key()] raises for the first
    certificate of an accepted chain leaves [verify_tdx_quote] as it is. *)
Theorem tdx_key_error_escapes b roots em ed e (H : key_fails b roots e) :
  verify_tdx_quote b roots em ed = Err e.
Proof.
  destruct H as (q & pck & Hp & Ht & Hc & Hh & Hk). unfold verify_tdx_quote, sev_snp.verify_cert_chain.
  rewrite Hp. cbn [mbind result_bind]. rewrite Ht, N.eqb_refl, Hc, Hh. cbn [negb raise_if mbind result_bind translate or_raise].
  by rewrite Hk.
Qed.

(** A TDX quote cannot be lifted onto another key.  If one quote is accepted for the
    bindings of two keys, nonces and roles, under whatever roots and measurements, they
    are the same key, nonce and role, or the messages their bindings hash
    differ and have one SHA-256 digest. *)
Theorem tdx_binds_key b t1 m1 d1 q1 k1 n1 r1 t2 m2 d2 q2 k2 n2 r2
    (H1 : verify_tdx_quote b t1 m1 (Some d1) = Ok q1) (H2 : verify_tdx_quote b t2 m2 (Some d2) = Ok q2)
    (D1 : tdx_report_data k1 n1 r1 = Ok d1) (D2 : tdx_report_data k2 n2 r2 = Ok d2) :
  (k1 = k2 /\ n1 = n2 /\ r1 = r2) \/ bindings_collide TDX_PREFIX k1 n1 r1 TDX_PREFIX k2 n2 r2.
Proof.
  apply verify_tdx_ok in H1 as (P1 & _ & _ & E1). apply verify_tdx_ok in H2 as (P2 & _ & _ & E2).
  rewrite P1 in P2. injection P2 as <-. rewrite (E1 _ eq_refl) in E2. specialize (E2 _ eq_refl). subst d2.
  destruct (padded_binding_inj _ _ _ _ _ _ _ _ _ D1 D2) as [(_ & ? & ? & ?)|?]; [by left|by right].
Qed.

(** What the provider collected. *)
Lemma attest_tdx_ok h e pk n role_ ops r :
  attest_tdx h e pk n role_ = (ops, Ok r) ->
  exists expected out q, tdx_report_data pk n role_ = Ok expected /\
    read_outblob e expected = Ok out /\ parse out = Ok q /\ report_data q = expected /\
    tee_type q = TEE_TYPE_TDX /\ platform r = py "tdx" /\ measurement r = py "sha384:" ++ hex (mrtd q) /\
    public_key r = pk /\ nonce r = n /\ raw_evidence r = Some out /\ role r = role_.
Proof.
  unfold attest_tdx. intros (_ & _ & H)%pure_io_ok. apply pure_io_ok in H as (expected & Hx & H).
  apply io_bind_ok in H as (o1 & o2 & [out aux] & Hc & H & ->).
  apply pure_io_ok in H as (q & Hq & H). apply pure_io_ok in H as (u & Ht%raise_if_ok & H).
  apply pure_io_ok in H as (u' & Hd%guard_ok & H). injection H as _ <-. bool_to_prop.
  exists expected, out, q. split_and!; try done. by eapply collect_report_ok.
Qed.

(** A TDX quote the provider collected is accepted.  The evidence of a report the
    provider returned is the kernel's quote over the binding of the offered key, nonce
    and role, the report states its launch measurement, and a verifier that expects
    that measurement and that binding accepts it under any roots its signatures lead
    to. *)
Theorem tdx_collected_verifies h e pk n role_ ops r roots
    (Hc : attest_tdx h e pk n role_ = (ops, Ok r)) :
  exists expected evidence q,
    tdx_report_data pk n role_ = Ok expected /\ raw_evidence r = Some evidence /\
    read_outblob e expected = Ok evidence /\ parse evidence = Ok q /\
    public_key r = pk /\ nonce r = n /\ role r = role_ /\
    measurement r = py "sha384:" ++ hex (mrtd q) /\
    (TdxSigned q roots -> verify_tdx_quote evidence roots (Some (mrtd q)) (Some expected) = Ok q).
Proof.
  apply attest_tdx_ok in Hc as (expected & out & q & Hx & Ho & Hq & Hd & Ht & _ & Hm & Hk & Hn & He & Hr).
  exists expected, out, q. split_and!; try done. intros Hs. apply verify_tdx_ok.
  split_and!; [done|done|by intros ? [= <-]|by intros ? [= <-]].
Qed.

(** [detect] and [attest] agree. *)
Lemma tdx_host_detected h :
  if detect_tdx h then _require_host h = Ok tt
  else exists e, _require_host h = Err e /\ exn_class e = Some AttestationUnsupported.
Proof.
  unfold detect_tdx, _require_host. pose proof (require_tsm_available h (py "TDX")) as H.
  destruct (tsm_available h); cbn [andb].
  - rewrite H. cbn [mbind result_bind]. destruct (path_exists h TDX_GUEST_DEVICE); [done|by eexists].
  - destruct H as (e & -> & ?). by exists e.
Qed.
End laws.

(** ** A concrete quote *)
Module TdxExample.
Import AsciiOnly Toy TpmExample TsmExample.

#[export] Instance demo_errors : EvidenceErrors demo_evidence.
Proof.
  split.
  - intros chain roots x. cbn [shared_verify_cert_chain demo_evidence]. case_bool_decide; [done|].
    intros [= <-]. by eexists.
  - intros roots. cbn [shared_verify_cert_chain demo_evidence]. rewrite bool_decide_false; [done|by intros ?%Exists_nil].
  - intros k r s m h e. cbn [ecdsa_verify demo_evidence]. intros [_ ->]%raise_if_err. done.
Qed.

Definition pck : bytes := ascii_bytes "PCK".
Definition att : bytes := repeat x05 64.
(** [encode r || s] with the toy scheme's signature as [r] *)
Definition rs (k m : bytes) : bytes := repeat x00 28 ++ checksum 4 (k ++ m) ++ repeat x00 32.
Definition demo_qe : bytes := repeat x00 320 ++ sha256 (att ++ [x01]) ++ repeat x00 32.
Definition unsigned_layout (data qsig : bytes) : TdxLayout :=
  {| l_version := 4; l_key_type := 2; l_tee_type := 0x81; l_header := repeat x00 40; l_td_head := repeat x00 136;
     l_mrtd := repeat x09 48; l_td_middle := repeat x00 336; l_report_data := data; l_quote_sig := qsig;
     l_att_key := att; l_qe_report := demo_qe; l_qe_sig := rs pck demo_qe; l_qe_auth := [x01]; l_certs := pck;
     l_after_certs := [x00]; l_after_qe := []; l_after_sig := [x00] |}.
Definition demo_layout (data : bytes) : TdxLayout :=
  unsigned_layout data (rs (x04 :: att) (l_signed (unsigned_layout data []))).
Definition demo_quote (data : bytes) : bytes := marshal_tdx (demo_layout data).

Lemma demo_layout_wf : wf_layout (demo_layout (repeat x06 64)).
Proof. split; vm_compute; reflexivity. Qed.
Lemma demo_chain : load_pem_x509_certificates (l_certs (demo_layout (repeat x06 64))) = Ok [pck].
Proof. reflexivity. Qed.
#[local] Opaque demo_layout.
Lemma parse_tdx_marshal_witness :
  parse (marshal_tdx (demo_layout (repeat x06 64))) = Ok (layout_quote (demo_layout (repeat x06 64)) [pck]).
Proof. exact (parse_tdx_marshal (demo_layout (repeat x06 64)) [pck] demo_layout_wf demo_chain). Defined.
#[local] Transparent demo_layout.

Definition tdx_host : Host :=
  {| sys_platform := py "linux"; path_exists p := bool_decide (p = TDX_GUEST_DEVICE);
     path_is_dir _ := true; tpm2_pytss_available := false |}.
Definition tdx_attest : io AttestationReport :=
  attest_tdx tdx_host (demo_entry "tdx_guest" demo_quote) (py "ab") (py "nonce") ROLE_CALLEE.
Definition tdx_report : AttestationReport := get_ok no_report tdx_attest.2.
Definition tdx_blob : bytes := default [] (raw_evidence tdx_report).
Definition tdx_data : bytes := get_ok [] (tdx_report_data (py "ab") (py "nonce") ROLE_CALLEE).
Definition no_quote : TdxQuote :=
  {| version := 0; tee_type := 0; mrtd := []; report_data := []; signed_body := []; quote_signature_ := [];
     attestation_key := []; qe_report := []; qe_report_signature := []; qe_auth_data := []; pck_chain := [] |}.
Definition tdx_parsed : TdxQuote := get_ok no_quote (parse tdx_blob).

Lemma tdx_attest_ok : is_ok tdx_attest.2 = true.
Proof. vm_compute. reflexivity. Qed.
Lemma tdx_attested : tdx_attest = (tdx_attest.1, Ok tdx_report).
Proof. unfold tdx_report. rewrite <-(get_ok_spec no_report _ tdx_attest_ok). apply surjective_pairing. Qed.
Lemma tdx_data_ok : tdx_report_data (py "ab") (py "nonce") ROLE_CALLEE = Ok tdx_data.
Proof. apply get_ok_spec. vm_compute. reflexivity. Qed.
Lemma tdx_verified :
  verify_tdx_quote tdx_blob [pck] (Some (repeat x09 48)) (Some tdx_data) = Ok tdx_parsed.
Proof. vm_compute. reflexivity. Qed.
#[local] Opaque tdx_report tdx_blob tdx_parsed tdx_attest tdx_data.

Lemma verify_tdx_quote_spec_witness :
  match verify_tdx_quote tdx_blob [pck] (Some (repeat x09 48)) (Some tdx_data) with
  | Ok q => parse tdx_blob = Ok q /\ TdxSigned q [pck] /\ (forall x, Some (repeat x09 48) = Some x -> mrtd q = x) /\
            (forall x, Some tdx_data = Some x -> report_data q = x)
  | Err e => (exn_class e = Some AttestationFailed \/ key_fails tdx_blob [pck] e) /\
             ~ exists q, parse tdx_blob = Ok q /\ TdxSigned q [pck] /\
                 (forall x, Some (repeat x09 48) = Some x -> mrtd q = x) /\
                 (forall x, Some tdx_data = Some x -> report_data q = x)
  end.
Proof.
  exact (verify_tdx_quote_spec tdx_blob [pck] (Some (repeat x09 48)) (Some tdx_data) demo_errors).
Defined.

Lemma tdx_binds_key_witness :
  (py "ab" = py "ab" /\ py "nonce" = py "nonce" /\ ROLE_CALLEE = ROLE_CALLEE) \/
  bindings_collide TDX_PREFIX (py "ab") (py "nonce") ROLE_CALLEE TDX_PREFIX (py "ab") (py "nonce") ROLE_CALLEE.
Proof.
  exact (tdx_binds_key tdx_blob [pck] (Some (repeat x09 48)) tdx_data tdx_parsed (py "ab") (py "nonce") ROLE_CALLEE
    [pck] (Some (repeat x09 48)) tdx_data tdx_parsed (py "ab") (py "nonce") ROLE_CALLEE
    tdx_verified tdx_verified tdx_data_ok tdx_data_ok).
Defined.

Lemma tdx_collected_verifies_witness :
  exists expected evidence q,
    tdx_report_data (py "ab") (py "nonce") ROLE_CALLEE = Ok expected /\ raw_evidence tdx_report = Some evidence /\
    read_outblob (demo_entry "tdx_guest" demo_quote) expected = Ok evidence /\ parse evidence = Ok q /\
    public_key tdx_report = py "ab" /\ nonce tdx_report = py "nonce" /\ role tdx_report = ROLE_CALLEE /\
    measurement tdx_report = py "sha384:" ++ hex (mrtd q) /\
    (TdxSigned q [pck] -> verify_tdx_quote evidence [pck] (Some (mrtd q)) (Some expected) = Ok q).
Proof.
  exact (tdx_collected_verifies tdx_host (demo_entry "tdx_guest" demo_quote) (py "ab") (py "nonce") ROLE_CALLEE
    tdx_attest.1 tdx_report [pck] tdx_attested).
Defined.

(** The same packages, whose certificates carry a key [public_key()] does not support. *)
Definition unsupported_keys : Evidence := {|
  cert := bytes; cert_pem c := c; ec_key := bytes;
  cert_public_key _ := Err (PyExc OtherException (py "unsupported key type"));
  load_pem_x509_certificates := load_pem_x509_certificates (Evidence := demo_evidence);
  ecdsa_verify := ecdsa_verify (Evidence := demo_evidence);
  p256_from_encoded_point := p256_from_encoded_point (Evidence := demo_evidence);
  shared_verify_cert_chain := shared_verify_cert_chain (Evidence := demo_evidence);
  am_parse_tpmt_signature := am_parse_tpmt_signature (Evidence := demo_evidence);
  am_verify_tpm_quote := am_verify_tpm_quote (Evidence := demo_evidence);
  parse_snp_report := parse_snp_report (Evidence := demo_evidence);
  snp_sig_offset := 672; snp_platform_info_offset := 64;
  platform_fields := N; parse_platform_info info := Ok info;
  appraise_platform_info := appraise_platform_info (Evidence := demo_evidence)
|}.
Lemma unsupported_shape :
  match parse (E := unsupported_keys) tdx_blob with
  | Ok q => (tee_type (E := unsupported_keys) q =? TEE_TYPE_TDX) = true /\
            pck_chain (E := unsupported_keys) q = [pck]
  | Err _ => False
  end.
Proof. vm_compute. by split. Qed.
Lemma tdx_key_error_escapes_witness :
  verify_tdx_quote (E := unsupported_keys) tdx_blob [pck] None None =
  Err (PyExc OtherException (py "unsupported key type")).
Proof.
  apply (tdx_key_error_escapes (E := unsupported_keys)).
  pose proof unsupported_shape as H. destruct (parse (E := unsupported_keys) tdx_blob) as [q|e] eqn:Hq; [|contradiction H].
  destruct H as [Ht Hc]. exists q, pck.
  split; [exact Hq|]. split; [exact (proj1 (N.eqb_eq _ _) Ht)|].
  rewrite Hc. split; [reflexivity|]. split; reflexivity.
Defined.
End TdxExample.
