(* ===== verification/Config.v ===== *)
(** * The runtime configuration ([ca2a_runtime.config])

    The configuration file's document is the value its YAML loader returns, restricted
    to the shapes JSON has; the loader itself is a package. *)
From S2P Require Export Peer Verify Evidence.
From S2P Require Import Url.
Import challenge peer verify url.
#[local] Open Scope Z_scope.

(** [s.rpartition(c)], when [c] occurs. *)
Definition rpartition (c : N) (s : pystr) : option (pystr * pystr) :=
  match split1 c (rev s) with Some (p, r) => Some (rev r, rev p) | None => None end.
(** [s.startswith(k)] *)
Definition str_startswith (k s : pystr) : bool :=
  match strip_prefix k s with Some _ => true | None => false end.
(** [v in s] of a frozenset of strings. *)
Definition in_frozenset (v : json) (s : gset pystr) : res bool :=
  match v with
  | JStr x => Ok (bool_decide (x ∈ s))
  | JArr _ | JObj _ => Err (PyExc TypeError (py "unhashable type: '" ++ type_name v ++ py "'"))
  | _ => Ok false
  end.

Module config.

Definition VALID_PROVIDERS : gset pystr := keys_of ["auto"; "tpm"; "sev-snp"; "tdx"; "software-only"]%string.
Definition VALID_ENFORCEMENT : gset pystr := keys_of ["enforcing"; "advisory"; "silent"]%string.
Definition VALID_VERIFIER_PLATFORMS : gset pystr := keys_of ["tpm"; "sev-snp"; "tdx"]%string.
Definition DEFAULT_LISTEN_ADDR : pystr := py "127.0.0.1:8443".

(** YAML's [safe_load]; the declared error is YAMLError. *)
Class YamlLib := { safe_load : pystr -> result package_error json }.

Section config.
Context `{U : Unidata}.

(** [host[1:-1]] of a bracketed host *)
Definition unbracket (host : pystr) : pystr :=
  match host with
  | c :: rest => if (c =? 91)%N && bool_decide (last rest = Some 93%N) then removelast rest else host
  | [] => host
  end.

Definition split_listen_addr (addr : json) : res (pystr * Z) :=
  let example := py "for example " ++ DEFAULT_LISTEN_ADDR in
  '(text, (host, port_text)) ← or_raise
    (match addr with JStr s => p ← rpartition 58 s; Some (s, p) | _ => None end)
    (err_d ConfigError (py "listen_addr must be host:port, got " ++ json_repr addr) example);
  let host := unbracket host in
  raise_if (bool_decide (host = []))
    (err_d ConfigError (py "listen_addr must name a host explicitly, got " ++ py_repr text) example);;
  port ← or_raise (py_int port_text)
    (err ConfigError (py "listen_addr port must be an integer, got " ++ py_repr port_text));
  raise_if (negb ((1 <=? port) && (port <=? 65535)))
    (err ConfigError (py "listen_addr port out of range: " ++ str_int port));;
  Ok (host, port).

Record Ca2aConfig := {
  provider : pystr;
  enforcement_mode : pystr;
  require_caller_attestation : pystr;
  caller_verifier_platform : option pystr;
  caller_verifier_trusted_roots_path : option pystr;
  challenge_ttl_seconds : Z;
  max_delegation_depth : Z;
  policy_bundle_path : option pystr;
  local_policy : option (gset pystr);
  listen_addr : pystr;
  trusted_root_issuers : gset pystr;
  agent_manifest_path : option pystr;
  agent_manifest_trust_anchor_path : option pystr;
  agent_manifest_authenticated_subject : option pystr
}.

Definition listen_host_port (c : Ca2aConfig) : res (pystr * Z) := split_listen_addr (JStr (listen_addr c)).

(** [data.get(key, default)], and [data.get(key, {}) or {}] *)
Definition get_default (key : string) (d : dict) (dflt : json) : json := default dflt (dget (py key) d).
Definition get_mapping (key : string) (d : dict) : json :=
  let v := get_default key d (JObj []) in if truthy v then v else JObj [].

(** [if v not in valid: raise ConfigError(...)] *)
Definition one_of (what : string) (v : json) (valid : gset pystr) : res pystr :=
  known ← in_frozenset v valid;
  raise_if (negb known)
    (err_d ConfigError (py "unknown " ++ py what ++ py ": " ++ json_repr v)
       (py "expected one of " ++ repr_list (sorted_set valid)));;
  or_raise (any_str v) (PyExc TypeError []).

(** A list whose items are all non-empty strings. *)
Definition string_list (v : json) (message : string) : res (list pystr) :=
  or_raise (l ← any_list v; mapM nonempty_str l) (err ConfigError (py message)).

(** A string or nothing. *)
Definition optional_str (v : json) (message : string) : res (option pystr) :=
  match v with
  | JNull => Ok None
  | JStr s => Ok (Some s)
  | _ => Err (err ConfigError (py message))
  end.

(** [local_policy]: an allow set, or nothing. *)
Definition parse_local (v : json) : res (option (gset pystr)) :=
  match v with
  | JNull => Ok None
  | _ =>
      l ← string_list v "local_policy must be a list of non-empty capability strings";
      Ok (Some (list_to_set l))
  end.

(** [attestation.caller_verifier]: its platform and roots path. *)
Definition parse_verifier (v : json) : res (option (pystr * pystr)) :=
  match v with
  | JNull => Ok None
  | JObj d =>
      platform ← one_of "attestation.caller_verifier.platform" (field "platform" d) VALID_VERIFIER_PLATFORMS;
      roots ← or_raise (nonempty_str (field "trusted_roots_path" d))
        (err_d ConfigError (py "attestation.caller_verifier.trusted_roots_path must be a non-empty path")
           (py "a PEM bundle of roots the caller's attestation key chain must reach"));
      Ok (Some (platform, roots))
  | _ => Err (err ConfigError (py "attestation.caller_verifier must be a mapping"))
  end.

(** [isinstance(v, int) and not isinstance(v, bool) and v >= 1] *)
Definition positive_int (v : json) : option Z :=
  match v with JInt z => if 1 <=? z then Some z else None | _ => None end.
(** [isinstance(v, int) and v >= 1]; a bool is an int. *)
Definition positive_int_or_bool (v : json) : option Z :=
  match v with
  | JInt z => if 1 <=? z then Some z else None
  | JBool true => Some 1
  | _ => None
  end.

Definition some_bool {A} (o : option A) : bool := match o with Some _ => true | None => false end.

(** [agent_manifest]: the path, the trust anchor path and the authenticated subject. *)
Definition parse_manifest (v : json) : res (option pystr * option pystr * option pystr) :=
  d ← or_raise (match v with JObj d => Some d | _ => None end)
    (err ConfigError (py "agent_manifest must be a mapping"));
  path ← optional_str (field "path" d) "agent_manifest.path must be a string";
  anchor ← optional_str (field "trust_anchor_path" d) "agent_manifest.trust_anchor_path must be a string";
  subject ← optional_str (field "authenticated_subject" d) "agent_manifest.authenticated_subject must be a string";
  raise_if ((some_bool path || some_bool anchor || some_bool subject) &&
            negb (some_bool path && some_bool anchor && some_bool subject))
    (err ConfigError (py "agent_manifest.path, trust_anchor_path, and authenticated_subject " ++
                      py "must be configured together"));;
  raise_if (match subject with Some s => negb (str_startswith (py "spiffe://") s) | None => false end)
    (err ConfigError (py "agent_manifest.authenticated_subject must be a SPIFFE URI"));;
  Ok (path, anchor, subject).

(** [Ca2aConfig.from_dict(data)] *)
Definition from_dict (data : dict) : res Ca2aConfig :=
  attestation ← get_attr (get_mapping "attestation" data);
  provider ← one_of "attestation provider" (get_default "provider" attestation (JStr (py "auto"))) VALID_PROVIDERS;
  enforcement ← one_of "enforcement_mode"
    (get_default "enforcement_mode" attestation (JStr (py "enforcing"))) VALID_ENFORCEMENT;
  requirement ← one_of "attestation.require_caller_attestation"
    (get_default "require_caller_attestation" attestation (JStr REQUIRE_NONE)) REQUIREMENT_VALUES;
  verifier ← parse_verifier (field "caller_verifier" attestation);
  raise_if (bool_decide (requirement = REQUIRE_HARDWARE) && negb (some_bool verifier))
    (err_d ConfigError
       (py "attestation.require_caller_attestation 'hardware' needs attestation.caller_verifier")
       (py "a hardware report cannot be appraised without one, so every call " ++ py "would be refused"));;
  ttl ← or_raise (positive_int (get_default "challenge_ttl_seconds" attestation (JInt DEFAULT_TTL_SECONDS)))
    (err ConfigError (py "attestation.challenge_ttl_seconds must be a positive integer"));
  depth ← or_raise (positive_int_or_bool (get_default "max_delegation_depth" data (JInt 8)))
    (err ConfigError (py "max_delegation_depth must be a positive integer"));
  local ← parse_local (field "local_policy" data);
  bundle ← optional_str (field "policy_bundle_path" data) "policy_bundle_path must be a string path";
  let addr := get_default "listen_addr" data (JStr DEFAULT_LISTEN_ADDR) in
  split_listen_addr addr;;
  addr ← or_raise (any_str addr) (PyExc TypeError []);
  roots ← string_list (get_default "trusted_root_issuers" data (JArr []))
    "trusted_root_issuers must be a list of non-empty public-key strings";
  '(path, anchor, subject) ← parse_manifest (get_mapping "agent_manifest" data);
  Ok {| provider := provider; enforcement_mode := enforcement; require_caller_attestation := requirement;
        caller_verifier_platform := fst <$> verifier; caller_verifier_trusted_roots_path := snd <$> verifier;
        challenge_ttl_seconds := ttl; max_delegation_depth := depth; policy_bundle_path := bundle;
        local_policy := local; listen_addr := addr; trusted_root_issuers := list_to_set roots;
        agent_manifest_path := path; agent_manifest_trust_anchor_path := anchor;
        agent_manifest_authenticated_subject := subject |}.

(** [Ca2aConfig.load(path)] *)
Definition load `{Y : YamlLib} (p : File) : res Ca2aConfig :=
  raise_if (negb (is_file p)) (err ConfigError (py "config file not found: " ++ path_text p));;
  text ← read_text p;
  data ← translate (safe_load text) (err_d ConfigError (py "invalid YAML in " ++ path_text p));
  let data := if truthy data then data else JObj [] in
  d ← or_raise (match data with JObj d => Some d | _ => None end)
    (err ConfigError (py "config root must be a mapping, got " ++ type_name data));
  from_dict d.
End config.
End config.
Import config.

#[local] Opaque VALID_PROVIDERS VALID_ENFORCEMENT VALID_VERIFIER_PLATFORMS REQUIREMENT_VALUES.

(** ** Specification *)
Section spec.
Context `{U : Unidata}.

(** A listen address: the text up to the last colon, an explicit host and a port. *)
Definition ListenAddr (s h : pystr) (port : Z) : Prop :=
  exists host t, s = host ++ 58%N :: t /\ 58%N ∉ t /\ h = unbracket host /\ h <> [] /\
    py_int t = Some port /\ 1 <= port <= 65535.

Definition spiffe (s : pystr) : Prop := str_startswith (py "spiffe://") s = true.

(** A validated configuration. *)
Record wf_config (c : Ca2aConfig) : Prop := {
  wc_provider : provider c ∈ VALID_PROVIDERS;
  wc_mode : enforcement_mode c ∈ VALID_ENFORCEMENT;
  wc_requirement : require_caller_attestation c ∈ REQUIREMENT_VALUES;
  wc_verifier :
    (caller_verifier_platform c = None /\ caller_verifier_trusted_roots_path c = None /\
       require_caller_attestation c <> REQUIRE_HARDWARE) \/
    exists p r, caller_verifier_platform c = Some p /\ caller_verifier_trusted_roots_path c = Some r /\
      p ∈ VALID_VERIFIER_PLATFORMS /\ r <> [];
  wc_ttl : 1 <= challenge_ttl_seconds c;
  wc_depth : 1 <= max_delegation_depth c;
  wc_local : forall s, local_policy c = Some s -> [] ∉ s;
  wc_listen : exists h port, ListenAddr (listen_addr c) h port;
  wc_roots : [] ∉ trusted_root_issuers c;
  wc_manifest :
    (agent_manifest_path c = None /\ agent_manifest_trust_anchor_path c = None /\
       agent_manifest_authenticated_subject c = None) \/
    exists p a s, agent_manifest_path c = Some p /\ agent_manifest_trust_anchor_path c = Some a /\
      agent_manifest_authenticated_subject c = Some s /\ spiffe s
}.

(** A document that states a configuration in full. *)
Definition json_strs (s : gset pystr) : json := JArr (map JStr (elements s)).
Definition config_doc (c : Ca2aConfig) : dict :=
  [(py "attestation", JObj
     [(py "provider", JStr (provider c));
      (py "enforcement_mode", JStr (enforcement_mode c));
      (py "require_caller_attestation", JStr (require_caller_attestation c));
      (py "caller_verifier",
        match caller_verifier_platform c, caller_verifier_trusted_roots_path c with
        | Some p, Some r => JObj [(py "platform", JStr p); (py "trusted_roots_path", JStr r)]
        | _, _ => JNull
        end);
      (py "challenge_ttl_seconds", JInt (challenge_ttl_seconds c))]);
   (py "max_delegation_depth", JInt (max_delegation_depth c));
   (py "local_policy", from_option json_strs JNull (local_policy c));
   (py "policy_bundle_path", opt_str (policy_bundle_path c));
   (py "listen_addr", JStr (listen_addr c));
   (py "trusted_root_issuers", json_strs (trusted_root_issuers c));
   (py "agent_manifest", JObj
     [(py "path", opt_str (agent_manifest_path c));
      (py "trust_anchor_path", opt_str (agent_manifest_trust_anchor_path c));
      (py "authenticated_subject", opt_str (agent_manifest_authenticated_subject c))])].
End spec.

Section laws.
Context `{U : Unidata}.

Lemma split1_ok c s p r : split1 c s = Some (p, r) -> s = p ++ c :: r /\ c ∉ p.
Proof.
  revert p. induction s as [|x s IH]; intros p; simpl; [done|]. destruct (N.eqb_spec x c) as [->|Hx].
  - intros [= <- <-]. split; [done|by apply not_elem_of_nil].
  - intros ([q t] & Hq & [= <- <-])%bind_Some. apply IH in Hq as [-> Hq]. split; [done|].
    by apply not_elem_of_cons.
Qed.
Lemma elem_of_rev {A} (x : A) l : x ∈ rev l <-> x ∈ l.
Proof. by rewrite !list_elem_of_In, <-in_rev. Qed.
Lemma rpartition_ok c s a b : rpartition c s = Some (a, b) <-> s = a ++ c :: b /\ c ∉ b.
Proof.
  unfold rpartition. split.
  - destruct (split1 c (rev s)) as [[p r]|] eqn:H; [|done]. intros [= <- <-].
    apply split1_ok in H as [H Hp]. rewrite elem_of_rev. split; [|done].
    rewrite <-(rev_involutive s), H, rev_app_distr. cbn [rev]. by rewrite <-app_assoc.
  - intros [-> Hb]. rewrite rev_app_distr. cbn [rev]. rewrite <-app_assoc. cbn [app].
    rewrite split1_app by (by rewrite elem_of_rev). by rewrite !rev_involutive.
Qed.

Lemma split_listen_addr_ok v h port :
  split_listen_addr v = Ok (h, port) <-> exists s, v = JStr s /\ ListenAddr s h port.
Proof.
  unfold split_listen_addr, ListenAddr. split.
  - intros ([text [host t]] & Ht%or_raise_ok & [[_ Hh%refuse_ok] (p & Hp%or_raise_ok & [[_ Hr%raise_if_ok] [= <- <-]%ok_inj]%seq_ok)%bind_ok]%seq_ok)%bind_ok.
    destruct v; try done. apply bind_Some in Ht as ([a b] & Hab%rpartition_ok & [= <- <- <-]).
    destruct Hab as [-> Hb]. apply negb_false_iff, andb_true_iff in Hr as [?%Z.leb_le ?%Z.leb_le].
    eexists. split; [done|]. exists a, b. by split_and!.
  - intros (s & -> & host & t & -> & Ht & -> & Hh & Hp & Hr).
    rewrite (proj2 (rpartition_ok 58 (host ++ 58%N :: t) host t)) by done.
    cbn [mbind option_bind or_raise result_bind]. rewrite bool_decide_false by done.
    rewrite Hp. cbn [raise_if mbind result_bind or_raise].
    rewrite (proj2 (Z.leb_le _ _)), (proj2 (Z.leb_le _ _)) by lia. done.
Qed.

Lemma one_of_ok what v valid s : one_of what v valid = Ok s <-> v = JStr s /\ s ∈ valid.
Proof.
  unfold one_of, in_frozenset. split.
  - intros (k & Hk & [[_ Hn%raise_if_ok] Hs%or_raise_ok]%seq_ok)%bind_ok. apply any_str_Some in Hs as ->.
    apply ok_inj in Hk as <-. by apply negb_false_iff, bool_decide_eq_true in Hn.
  - intros [-> Hs]. cbn [mbind result_bind any_str or_raise]. by rewrite bool_decide_true.
Qed.

Lemma string_list_ok v msg l :
  string_list v msg = Ok l <-> v = JArr (map JStr l) /\ [] ∉ l.
Proof.
  unfold string_list. rewrite or_raise_ok, bind_Some. setoid_rewrite any_list_Some.
  setoid_rewrite mapM_Some. split.
  - intros (items & -> & H). split; [f_equal|].
    + induction H as [|x y xs ys Hx _ IH]; [done|]. apply nonempty_str_Some in Hx as [-> _]. by f_equal/=.
    + intros Hin. apply list_elem_of_lookup in Hin as [i Hi].
      destruct (Forall2_lookup_r _ _ _ _ _ H Hi) as (x & _ & Hx). by apply nonempty_str_Some in Hx as [_ ?].
  - intros [-> Hl]. exists (map JStr l). split; [done|]. induction l as [|s l IH]; [constructor|].
    apply not_elem_of_cons in Hl as [? ?]. constructor; [by apply nonempty_str_Some|auto].
Qed.

Lemma optional_str_ok v msg o : optional_str v msg = Ok o <-> v = opt_str o.
Proof. destruct v, o; simpl; naive_solver. Qed.

Lemma parse_verifier_ok v o :
  parse_verifier v = Ok o <->
  (v = JNull /\ o = None) \/
  exists d p r, v = JObj d /\ o = Some (p, r) /\ field "platform" d = JStr p /\ p ∈ VALID_VERIFIER_PLATFORMS /\
    field "trusted_roots_path" d = JStr r /\ r <> [].
Proof.
  split.
  - destruct v as [| | | | | |d]; cbn [parse_verifier]; try done; [intros <-%ok_inj; by left|].
    intros (p & [Hp Hv]%one_of_ok & (r & Hr%or_raise_ok & <-%ok_inj)%bind_ok)%bind_ok.
    apply nonempty_str_Some in Hr as [Hr ?]. right. by exists d, p, r.
  - intros [[-> ->]|(d & p & r & -> & -> & Hp & Hv & Hr & Hne)]; [done|]. cbn [parse_verifier].
    eapply bind_pass; [by apply one_of_ok|]. eapply bind_pass; [|done].
    by apply or_raise_ok, nonempty_str_Some.
Qed.

Definition manifest_together (path anchor subject : option pystr) : Prop :=
  (path = None /\ anchor = None /\ subject = None) \/
  exists p a s, path = Some p /\ anchor = Some a /\ subject = Some s /\ spiffe s.

Lemma parse_manifest_ok v path anchor subject :
  parse_manifest v = Ok (path, anchor, subject) <->
  exists d, v = JObj d /\ field "path" d = opt_str path /\ field "trust_anchor_path" d = opt_str anchor /\
    field "authenticated_subject" d = opt_str subject /\ manifest_together path anchor subject.
Proof.
  unfold parse_manifest, manifest_together, spiffe. split.
  - intros (d & Hd%or_raise_ok & (p & Hp%optional_str_ok & (a & Ha%optional_str_ok & (s & Hs%optional_str_ok &
      [[_ Hall%raise_if_ok] [[_ Hsp%raise_if_ok] [= <- <- <-]%ok_inj]%seq_ok]%seq_ok)%bind_ok)%bind_ok)%bind_ok)%bind_ok.
    exists d. destruct v; try done. injection Hd as <-. split_and!; try done.
    destruct p, a, s; try done; [right|by left]. apply negb_false_iff in Hsp. eauto 10.
  - intros (d & -> & Hp & Ha & Hs & Ht). cbn [or_raise mbind result_bind].
    rewrite Hp, Ha, Hs. rewrite !(proj2 (optional_str_ok _ _ _) eq_refl). cbn [mbind result_bind].
    destruct Ht as [(-> & -> & ->)|(? & ? & ? & -> & -> & -> & ->)]; done.
Qed.

Lemma parse_local_ok v o :
  parse_local v = Ok o <->
  (v = JNull /\ o = None) \/ exists l, v = JArr (map JStr l) /\ [] ∉ l /\ o = Some (list_to_set l).
Proof.
  unfold parse_local. split.
  - intros H. destruct (decide (v = JNull)) as [->|Hv]; [left; by injection H as <-|right].
    destruct v; try done; apply bind_ok in H as (k & [? ?]%string_list_ok & <-%ok_inj); by exists k.
  - intros [[-> ->]|(l & -> & Hl & ->)]; [done|]. eapply bind_pass; [by apply string_list_ok|done].
Qed.

Lemma config_sound d c : from_dict d = Ok c -> wf_config c.
Proof.
  unfold from_dict. intros (att & _ & (p & [_ Hp]%one_of_ok & (m & [_ Hm]%one_of_ok & (q & [_ Hq]%one_of_ok &
    (v & Hv%parse_verifier_ok & H)%bind_ok)%bind_ok)%bind_ok)%bind_ok)%bind_ok.
  apply seq_ok in H as [[_ Hhw%raise_if_ok] (ttl & Httl%or_raise_ok & (dep & Hdep%or_raise_ok & H)%bind_ok)%bind_ok].
  apply bind_ok in H as (loc & Hloc%parse_local_ok & (b & _ & [[[h port] Hl%split_listen_addr_ok] H]%seq_ok)%bind_ok).
  apply bind_ok in H as (addr & Ha%or_raise_ok & (roots & [_ Hr]%string_list_ok & ([[mp ma] ms] & Hman%parse_manifest_ok & <-%ok_inj)%bind_ok)%bind_ok).
  apply any_str_Some in Ha. destruct Hl as (s & Hs & Hl). rewrite Ha in Hs. injection Hs as <-.
  destruct Hman as (dm & _ & _ & _ & _ & Ht).
  split; cbn [provider enforcement_mode require_caller_attestation caller_verifier_platform
    caller_verifier_trusted_roots_path challenge_ttl_seconds max_delegation_depth local_policy listen_addr
    trusted_root_issuers agent_manifest_path agent_manifest_trust_anchor_path agent_manifest_authenticated_subject
    fmap option_fmap option_map]; try assumption.
  - destruct Hv as [[_ ->]|(dv & pl & r & _ & -> & _ & ? & _ & ?)]; [left|right; by exists pl, r].
    split_and!; [reflexivity|reflexivity|]. intros ->. by rewrite bool_decide_true in Hhw.
  - unfold positive_int in Httl. repeat case_match; try done. injection Httl as <-. by apply Z.leb_le.
  - unfold positive_int_or_bool in Hdep. repeat case_match; try done; injection Hdep as <-; [done|by apply Z.leb_le].
  - intros s ->. destruct Hloc as [[_ ?]|(l & _ & Hl' & [= ->])]; [done|]. by rewrite elem_of_list_to_set.
  - eauto.
  - by rewrite elem_of_list_to_set.
Qed.

Lemma config_complete c : wf_config c -> from_dict (config_doc c) = Ok c.
Proof.
  intros [Hp Hm Hq Hv Httl Hdep Hloc (h & port & Hl) Hr Hman]. unfold from_dict, config_doc, get_mapping, get_default, field.
  dlookup. cbn [default from_option id truthy get_attr].
  eapply bind_pass; [done|]. dlookup. cbn [default from_option id].
  eapply bind_pass; [apply one_of_ok; exact (conj eq_refl Hp)|].
  eapply bind_pass; [apply one_of_ok; exact (conj eq_refl Hm)|].
  eapply bind_pass; [apply one_of_ok; exact (conj eq_refl Hq)|].
  apply (bind_pass _ _ (p ← caller_verifier_platform c; r ← caller_verifier_trusted_roots_path c; Some (p, r))).
  { apply parse_verifier_ok. destruct Hv as [(-> & -> & _)|(p & r & -> & -> & ? & ?)]; [by left|right].
    eexists _, p, r. unfold field.
    split_and!; [reflexivity|reflexivity|by dlookup|assumption|by dlookup|assumption]. }
  apply guard_pass.
  { destruct Hv as [(-> & -> & Hne)|(p & r & -> & -> & _)]; [by rewrite bool_decide_false|].
    cbn [some_bool negb mbind option_bind]. by rewrite andb_false_r. }
  eapply bind_pass; [cbn [positive_int]; by rewrite (proj2 (Z.leb_le _ _) Httl)|].
  eapply bind_pass; [cbn [positive_int_or_bool]; by rewrite (proj2 (Z.leb_le _ _) Hdep)|].
  apply (bind_pass _ _ (local_policy c)).
  { apply parse_local_ok. destruct (local_policy c) as [s|]; [right|by left]. exists (elements s).
    rewrite elem_of_elements, list_to_set_elements_L. split_and!; [done|by apply Hloc|done]. }
  eapply bind_pass; [by apply optional_str_ok|].
  eapply bind_pass; [apply split_listen_addr_ok; by exists (listen_addr c)|].
  eapply bind_pass; [done|].
  eapply bind_pass; [apply string_list_ok; split; [done|by rewrite elem_of_elements]|].
  eapply bind_pass; [by apply parse_manifest_ok; eexists; unfold field; split_and!; [reflexivity|by dlookup..|exact Hman]|].
  rewrite !list_to_set_elements_L.
  clear - Hv. destruct c; cbn in Hv |- *. by destruct Hv as [(-> & -> & _)|(p & r & -> & -> & _)].
Qed.

(** The configurations the parser yields are exactly the validated ones: known
    provider, mode and requirement, a verifier exactly given in full and present when
    hardware is required, positive bounds, non-empty names, an explicit host and a port
    in range, and the manifest fields together with a SPIFFE subject.  Every such
    configuration can be written down. *)
Theorem from_dict_range c : wf_config c <-> exists d, from_dict d = Ok c.
Proof. split; [intros; eexists; by apply config_complete|intros [d Hd]; by eapply config_sound]. Qed.

(** The documents whose settings can be looked up in the sets of known values. *)
Definition hashable (v : json) : Prop := match v with JArr _ | JObj _ => False | _ => True end.
Definition plain_doc (d : dict) : Prop :=
  exists att, get_mapping "attestation" d = JObj att /\
    hashable (get_default "provider" att (JStr (py "auto"))) /\
    hashable (get_default "enforcement_mode" att (JStr (py "enforcing"))) /\
    hashable (get_default "require_caller_attestation" att (JStr REQUIRE_NONE)) /\
    forall v, field "caller_verifier" att = JObj v -> hashable (field "platform" v).

Lemma one_of_only what v valid : hashable v -> raises_only ConfigError (one_of what v valid).
Proof.
  intros Hv. unfold one_of. assert (exists b, in_frozenset v valid = Ok b) as [b Hb] by (destruct v; try done; by eexists).
  rewrite Hb. cbn [mbind result_bind]. apply only_guard; [done|]. intros Hn%negb_false_iff. subst b.
  by destruct v.
Qed.
Lemma string_list_only v msg : raises_only ConfigError (string_list v msg).
Proof. intros e [_ ->]%or_raise_err. done. Qed.
Lemma optional_str_only v msg : raises_only ConfigError (optional_str v msg).
Proof. destruct v; try apply only_ok; by apply only_err. Qed.
Lemma split_listen_addr_only v : raises_only ConfigError (split_listen_addr v).
Proof.
  unfold split_listen_addr. apply only_require; [done|]. intros [text [host t]] _.
  apply only_guard; [done|]. intros _. apply only_require; [done|]. intros port _.
  apply only_guard; [done|]. intros _. apply only_ok.
Qed.
Lemma parse_verifier_only v :
  (forall d, v = JObj d -> hashable (field "platform" d)) -> raises_only ConfigError (parse_verifier v).
Proof.
  intros Hv. destruct v as [| | | | | |d]; try (by apply only_err); [apply only_ok|].
  cbn [parse_verifier]. apply only_bind; [by apply one_of_only, Hv|]. intros p _.
  apply only_require; [done|]. intros. apply only_ok.
Qed.
Lemma parse_manifest_only v : raises_only ConfigError (parse_manifest v).
Proof.
  unfold parse_manifest. apply only_require; [done|]. intros d _.
  do 3 (apply only_bind; [apply optional_str_only|]; intros ? _).
  apply only_guard; [done|]. intros _. apply only_guard; [done|]. intros _. apply only_ok.
Qed.

Lemma from_dict_only d : plain_doc d -> raises_only ConfigError (from_dict d).
Proof.
  intros (att & Ha & Hp & Hm & Hq & Hv). unfold from_dict. rewrite Ha. cbn [get_attr mbind result_bind].
  apply only_bind; [by apply one_of_only|]. intros p _. apply only_bind; [by apply one_of_only|]. intros m _.
  apply only_bind; [by apply one_of_only|]. intros q _. apply only_bind; [by apply parse_verifier_only|]. intros v _.
  apply only_guard; [done|]. intros _. apply only_require; [done|]. intros ttl _.
  apply only_require; [done|]. intros dep _. apply only_bind.
  { unfold parse_local. destruct (field "local_policy" d); try apply only_ok;
      (apply only_bind; [apply string_list_only|intros; apply only_ok]). }
  intros l _. apply only_bind; [apply optional_str_only|]. intros b _.
  apply only_bind; [apply split_listen_addr_only|]. intros [h port] (s & -> & _)%split_listen_addr_ok.
  cbn [any_str or_raise mbind result_bind]. apply only_bind; [apply string_list_only|]. intros r _.
  apply only_bind; [apply parse_manifest_only|]. intros [[? ?] ?] _. apply only_ok.
Qed.

(** C18: reading a configuration either yields a validated one or reports ConfigError.
    The error contract holds for every document whose [attestation] is a mapping (or
    empty) and whose enumerated settings are scalars; the others raise from inside the
    interpreter. *)
Theorem from_dict_contract d :
  match from_dict d with
  | Ok c => wf_config c
  | Err e => plain_doc d -> exn_class e = Some ConfigError
  end.
Proof.
  destruct (from_dict d) as [c|e] eqn:H; [by eapply config_sound|].
  intros Hd. by eapply from_dict_only.
Qed.

(** A document outside that domain escapes the error contract. *)
Lemma attestation_not_mapping_escapes :
  from_dict [(py "attestation", JStr (py "tpm"))] =
  Err (PyExc AttributeError (py "'str' object has no attribute 'get'")).
Proof. reflexivity. Qed.

(** The port is an explicit number of 16 bits, and the printed address is read back. *)
Theorem listen_addr_round_trip host port :
  host <> [] -> head host <> Some 91%N -> 1 <= port <= 65535 ->
  split_listen_addr (JStr (host ++ 58%N :: str_int port)) = Ok (host, port).
Proof.
  intros Hh Hb Hp. apply split_listen_addr_ok. eexists. split; [done|]. exists host, (str_int port).
  assert (str_int port = str_N (Z.to_N port)) as Hs.
  { unfold str_int. by rewrite (proj2 (Z.ltb_ge port 0)) by lia. }
  assert (unbracket host = host) as Hu.
  { destruct host as [|c host]; [done|]. cbn [head] in Hb. unfold unbracket.
    by rewrite (proj2 (N.eqb_neq c 91)) by congruence. }
  rewrite Hu. destruct Hp. split_and!; try done.
  - rewrite Hs. intros Hin. pose proof (str_N_digits (Z.to_N port)) as Hd. rewrite Forall_forall in Hd.
    by specialize (Hd _ Hin).
  - rewrite Hs, py_int_str_N; [f_equal; lia|].
    apply (N.lt_le_trans _ (10 ^ 5)); [lia|]. by apply N.pow_le_mono_r.
Qed.
End laws.
