(* ===== verification/Manifest.v ===== *)
(** * Agent Manifests ([ca2a_runtime.agent_manifest])

    Loading a manifest and its trust anchor, and binding the verified identity to the
    configured subject.  Verification itself is the [agent_manifest] package's. *)
From S2P Require Export Config.
From S2P Require Import Node.
Import b64url node verify config.
#[local] Open Scope N_scope.

Module manifest.

(** What the code reads of a verification result: whether it is VALID, its value, its
    warnings, and whether [signature_verified is True]. *)
Record ManifestResult := {
  result_valid : bool;
  result_value : pystr;
  result_warnings : list pystr;
  signature_verified : bool
}.

Record LoadedAgentManifest := { manifest : dict; envelope : option bytes }.

(** The operations of [agent_manifest] the module calls. *)
Class ManifestSdk := {
  COSE_MANIFEST_VERSION : pystr;
  (** the decoded payload *)
  decode_cose_manifest : bytes -> res json;
  (** envelope or manifest, and the trusted keys by id *)
  verify_manifest : bytes + dict -> gmap pystr pystr -> res ManifestResult
}.

Definition failed (message : string) : exn := err ConfigError (py message).

Definition _b64url_decode (value : pystr) : res bytes :=
  raise_if (negb (forallb (fun c => some_bool (b64_val c)) value))
    (failed "Agent Manifest signature/key must use base64url encoding");;
  try_except (urlsafe_b64decode value) is_value_error
    (fun _ => Err (failed "Agent Manifest signature/key is not valid base64url")).

Definition _b64url_encode (value : bytes) : pystr := b64url_encode value.
Definition _key_id (public_key : bytes) : pystr := sha256_hex public_key.

Section manifest.
Context `{U : Unidata, F : FloatText, M : ManifestSdk}.

(** [isinstance(v, str) and v.startswith("spiffe://")] *)
Definition spiffe_uri (v : json) : option pystr :=
  match v with JStr s => if str_startswith (py "spiffe://") s then Some s else None | _ => None end.

(** [load_agent_manifest_document(path)], from what [read_bytes()] answers. *)
Definition load_agent_manifest_document (read : res bytes) : res LoadedAgentManifest :=
  raw ← try_except read is_os_error
    (fun exc => Err (err ConfigError (py "cannot read Agent Manifest: " ++ exn_str exc)));
  match loads_bytes raw with
  | Err e =>
      if is_py JSONDecodeError e || is_py UnicodeDecodeError e then
        decoded ← try_except (decode_cose_manifest raw) (fun _ => true)
          (fun exc => Err (err ConfigError
             (py "cannot read Agent Manifest: not JSON and not a COSE envelope (" ++ exn_str exc ++ py ")")));
        match decoded with
        | JObj d => Ok {| manifest := d; envelope := Some raw |}
        | _ => Err (failed "Agent Manifest COSE payload must be a JSON object")
        end
      else Err e
  | Ok (JObj d) =>
      raise_if (bool_decide (field "version" d = JStr COSE_MANIFEST_VERSION) && negb (din (py "signature") d))
        (err ConfigError (py "Agent Manifest declares version " ++ COSE_MANIFEST_VERSION ++
           py " but was supplied as bare JSON; v0.2 requires the COSE envelope"));;
      Ok {| manifest := d; envelope := None |}
  | Ok _ => Err (failed "Agent Manifest must be a JSON object")
  end.

(** One key of the trust anchor. *)
Definition add_anchor (anchors : gmap pystr bytes) (item : json) : res (gmap pystr bytes) :=
  d ← or_raise (match item with JObj d => Some d | _ => None end)
    (failed "Agent Manifest trust anchor keys must be objects");
  public_key ← _b64url_decode (str_of (get_default "public_key_base64url" d (JStr [])));
  raise_if (negb (Nat.eqb (length public_key) 32))
    (failed "Agent Manifest trust anchor contains an invalid Ed25519 key");;
  let stated := field "key_id" d in
  let key_id := if truthy stated then str_of stated else _key_id public_key in
  raise_if (negb (bool_decide (key_id = _key_id public_key)))
    (failed "Agent Manifest trust anchor key_id does not match public key");;
  Ok (<[key_id := public_key]> anchors).
Fixpoint add_anchors (anchors : gmap pystr bytes) (items : list json) : res (gmap pystr bytes) :=
  match items with
  | [] => Ok anchors
  | item :: items => anchors ← add_anchor anchors item; add_anchors anchors items
  end.

(** [load_agent_manifest_trust_anchor(path)], from what [read_text()] answers. *)
Definition load_agent_manifest_trust_anchor (read : res pystr) : res (gmap pystr bytes) :=
  raw ← try_except (text ← read; loads text) (fun e => is_os_error e || is_py JSONDecodeError e)
    (fun exc => Err (err ConfigError (py "cannot read Agent Manifest trust anchor: " ++ exn_str exc)));
  items ← or_raise
    (match raw with
     | JObj d => if din (py "public_key_base64url") d then Some [raw] else any_list (field "keys" d)
     | _ => None
     end)
    (failed "Agent Manifest trust anchor must contain public_key_base64url or keys[]");
  add_anchors ∅ items.

(** [verify_agent_manifest_binding(loaded, trusted_keys, authenticated_subject=...)] *)
Definition verify_agent_manifest_binding (loaded : LoadedAgentManifest) (trusted_keys : gmap pystr bytes)
    (subject : pystr) : res AgentManifestBinding :=
  let sdk_keys := _b64url_encode <$> trusted_keys in
  result ← verify_manifest
    (match envelope loaded with Some raw => inl raw | None => inr (manifest loaded) end) sdk_keys;
  raise_if (negb (result_valid result))
    (let warnings := join (py "; ") (result_warnings result) in
     err ConfigError (py "Agent Manifest verification failed (" ++ result_value result ++ py ")" ++
       (if bool_decide (warnings = []) then [] else py ": " ++ warnings)));;
  raise_if (negb (signature_verified result)) (failed "Agent Manifest signature verification failed");;
  let d := manifest loaded in
  id ← or_raise (nonempty_str (field "manifest_id" d)) (failed "Agent Manifest manifest_id is missing");
  agent ← or_raise (spiffe_uri (field "agent_id" d)) (failed "Agent Manifest agent_id must be a SPIFFE URI");
  issuer ← or_raise (spiffe_uri (field "issuer" d)) (failed "Agent Manifest issuer must be a SPIFFE URI");
  version ← or_raise (nonempty_str (field "version" d)) (failed "Agent Manifest version is missing");
  raise_if (negb (str_startswith (py "spiffe://") subject))
    (failed "Agent Manifest authenticated_subject must be a SPIFFE URI");;
  raise_if (negb (bool_decide (subject = agent)))
    (failed "Agent Manifest agent_id does not match authenticated_subject");;
  Ok {| manifest_id := id; agent_id := agent; manifest_issuer := issuer;
        authenticated_subject := subject; manifest_version := version;
        verification_scope := py "signature-and-identity" |}.
End manifest.
End manifest.
Import manifest.

(** ** Properties *)
Section laws.
Context `{U : Unidata, F : FloatText, M : ManifestSdk}.

Lemma spiffe_uri_Some v s : spiffe_uri v = Some s <-> v = JStr s /\ spiffe s.
Proof.
  unfold spiffe, spiffe_uri. split.
  - destruct v as [| | | |t| |]; try done. destruct (str_startswith _ t) eqn:H; [|done]. by intros [= <-].
  - by intros [-> ->].
Qed.

(** Every anchor is a 32-byte key under its own SHA-256 id. *)
Definition wf_anchors (m : gmap pystr bytes) : Prop :=
  map_Forall (fun id key => length key = 32%nat /\ id = _key_id key) m.

Lemma add_anchor_wf m item m' : add_anchor m item = Ok m' -> wf_anchors m -> wf_anchors m'.
Proof.
  unfold add_anchor. intros (d & _ & (k & _ & [[_ Hl%raise_if_ok] [[_ Hk%guard_ok] <-%ok_inj]%seq_ok]%seq_ok)%bind_ok)%bind_ok Hm.
  apply negb_false_iff, Nat.eqb_eq in Hl. by apply map_Forall_insert_2.
Qed.
Lemma add_anchors_wf items m m' : add_anchors m items = Ok m' -> wf_anchors m -> wf_anchors m'.
Proof.
  revert m. induction items as [|i items IH]; intros m; cbn [add_anchors]; [by intros <-%ok_inj|].
  intros (m1 & H1 & H)%bind_ok Hm. by eapply IH, add_anchor_wf.
Qed.

(** A trust anchor maps SHA-256 ids to the 32-byte keys they identify. *)
Theorem trust_anchor_wf read anchors : load_agent_manifest_trust_anchor read = Ok anchors -> wf_anchors anchors.
Proof.
  unfold load_agent_manifest_trust_anchor. intros (raw & _ & (items & _ & H)%bind_ok)%bind_ok.
  eapply add_anchors_wf; [done|]. apply map_Forall_empty.
Qed.

(** A manifest is bound to the configured subject only when it is verified.  The
    binding is made exactly when the package finds the supplied artifact (the envelope
    when there is one) valid and signed under the pinned keys, its identity fields are
    present, and its agent is the configured SPIFFE subject; it states exactly the
    identity of the verified manifest. *)
Theorem manifest_binding_spec loaded keys subject b :
  verify_agent_manifest_binding loaded keys subject = Ok b <->
  exists result,
    verify_manifest (match envelope loaded with Some raw => inl raw | None => inr (manifest loaded) end)
      (_b64url_encode <$> keys) = Ok result /\
    result_valid result = true /\ signature_verified result = true /\
    field "manifest_id" (manifest loaded) = JStr (manifest_id b) /\ manifest_id b <> [] /\
    field "agent_id" (manifest loaded) = JStr subject /\ spiffe subject /\
    field "issuer" (manifest loaded) = JStr (manifest_issuer b) /\ spiffe (manifest_issuer b) /\
    field "version" (manifest loaded) = JStr (manifest_version b) /\ manifest_version b <> [] /\
    agent_id b = subject /\ authenticated_subject b = subject /\
    verification_scope b = py "signature-and-identity".
Proof.
  unfold verify_agent_manifest_binding. split.
  - intros (r & Hr & [[_ Hv%raise_if_ok] [[_ Hs%raise_if_ok] H]%seq_ok]%seq_ok)%bind_ok.
    apply bind_ok in H as (id & Hid%or_raise_ok & (ag & Hag%or_raise_ok & (iss & His%or_raise_ok & (ver & Hver%or_raise_ok & H)%bind_ok)%bind_ok)%bind_ok).
    apply seq_ok in H as [[_ Hsp%raise_if_ok] [[_ <-%guard_ok] <-%ok_inj]%seq_ok].
    apply nonempty_str_Some in Hid as [? ?], Hver as [? ?]. apply spiffe_uri_Some in Hag as [? ?], His as [? ?].
    bool_to_prop. exists r. by split_and!.
  - intros (r & Hr & Hv & Hs & Hid & Hid' & Hag & Hsp & His & His' & Hver & Hver' & Ha & Hsub & Hsc).
    rewrite Hr. cbn [mbind result_bind]. rewrite Hv, Hs. cbn [negb raise_if mbind result_bind].
    rewrite (proj2 (nonempty_str_Some _ _) (conj Hid Hid')), (proj2 (spiffe_uri_Some _ _) (conj Hag Hsp)),
      (proj2 (spiffe_uri_Some _ _) (conj His His')), (proj2 (nonempty_str_Some _ _) (conj Hver Hver')).
    cbn [or_raise mbind result_bind]. unfold spiffe in Hsp. rewrite Hsp, bool_decide_true by done.
    cbn [negb raise_if mbind result_bind]. destruct b; cbn in *. by subst.
Qed.

(** A loaded manifest is the verified artifact's own payload: a bare JSON document, never
    one that declares the COSE version unsigned, or the payload of the envelope. *)
Theorem loaded_manifest_spec read loaded :
  load_agent_manifest_document read = Ok loaded ->
  exists raw, read = Ok raw /\
    match envelope loaded with
    | None => loads_bytes raw = Ok (JObj (manifest loaded)) /\
        ~ (field "version" (manifest loaded) = JStr COSE_MANIFEST_VERSION /\
           dget (py "signature") (manifest loaded) = None)
    | Some env => env = raw /\ is_ok (loads_bytes raw) = false /\
        decode_cose_manifest raw = Ok (JObj (manifest loaded))
    end.
Proof.
  unfold load_agent_manifest_document. intros (raw & Hr%try_except_raise_ok & H)%bind_ok. exists raw.
  split; [done|]. destruct (loads_bytes raw) as [v|e] eqn:Hl.
  - destruct v as [| | | | | |d]; try done. apply seq_ok in H as [[_ Hg%raise_if_ok] <-%ok_inj].
    cbn [envelope manifest]. split; [done|]. intros [Hv Hs]. unfold din in Hg. rewrite Hs in Hg.
    by rewrite bool_decide_true in Hg.
  - destruct (_ || _); [|done]. apply bind_ok in H as (v & Hv%try_except_raise_ok & H).
    destruct v; try done. by apply ok_inj in H as <-.
Qed.
End laws.
