(* ===== verification/Bootstrap.v ===== *)
(** * Building a node from a configuration ([ca2a_runtime.bootstrap])

    What [ca2a start] resolves: the policy, the attestation provider, the verifier of
    caller reports, and the bound Agent Manifest. *)
From S2P Require Export Manifest Node Tdx TpmVerify.
From S2P Require Import Call.
Import tee attestation peer node config manifest cedar local_policy.
#[local] Open Scope N_scope.

(** [pathlib.PurePosixPath] *)
Module pathlib.
Record path := { root : pystr; parts : list pystr }.
Definition Path (s : pystr) : path :=
  let root :=
    match s with
    | 47 :: 47 :: 47 :: _ => py "/"
    | 47 :: 47 :: _ => py "//"
    | 47 :: _ => py "/"
    | _ => []
    end in
  {| root := root;
     parts := List.filter (fun p => negb (bool_decide (p = [] \/ p = py "."))) (split_on 47 s) |}.
Definition str_path (p : path) : pystr :=
  match root p, parts p with
  | [], [] => py "."
  | r, l => r ++ join (py "/") l
  end.
Definition is_absolute (p : path) : bool := negb (bool_decide (root p = [])).
(** [p / q] *)
Definition joinpath (p q : path) : path :=
  if is_absolute q then q else {| root := root p; parts := parts p ++ parts q |}.
End pathlib.
Import pathlib.

Module bootstrap.

(** What the file system answers on a path. *)
Record FileSystem := {
  fs_is_file : path -> bool;
  fs_read_text : path -> res pystr;
  fs_read_bytes : path -> res bytes
}.

(** The host the hardware providers run on: its device nodes, the kernel's answers on a
    report entry, and what the TPM collection returns. *)
Record Hardware := {
  hw_host : Host;
  hw_entry : tsm.Entry;
  hw_tpm_attest : pystr -> pystr -> pystr -> res AttestationReport
}.

(** [callee policy]: one of the two classes behind the protocol. *)
Inductive CalleePolicy := ByCedar (p : CedarPolicy) | ByAllowSet (p : LocalPolicy).
#[export] Instance callee_policy `{G : CedarEngine} : Policy CalleePolicy :=
  {| intersect p delegated :=
       match p with ByCedar p => intersect p delegated | ByAllowSet p => intersect p delegated end |}.
#[export] Instance callee_policy_laws `{G : CedarEngine} : PolicyLaws CalleePolicy.
Proof. split. intros [p|p] d e; [apply (intersect_sub (P := CedarPolicy))|apply (intersect_sub (P := LocalPolicy))]. Qed.

Section bootstrap.
Context `{U : Unidata, C : Crypto, F : FloatText, E : Evidence, M : ManifestSdk, G : CedarEngine}.

Definition SevSnpProvider (hw : Hardware) : Provider :=
  {| provider_platform := py "sev-snp"; detect := sev_snp.detect_snp (hw_host hw);
     attest := fun k n r => (sev_snp.attest_snp (hw_host hw) (hw_entry hw) k n r).2 |}.
Definition TdxProvider (hw : Hardware) : Provider :=
  {| provider_platform := py "tdx"; detect := tdx.detect_tdx (hw_host hw);
     attest := fun k n r => (tdx.attest_tdx (hw_host hw) (hw_entry hw) k n r).2 |}.
Definition TpmProvider (hw : Hardware) : Provider :=
  {| provider_platform := py "tpm"; detect := tpm.detect_tpm (hw_host hw); attest := hw_tpm_attest hw |}.

Definition _HARDWARE_PROVIDERS (hw : Hardware) : list (pystr * Provider) :=
  [(py "sev-snp", SevSnpProvider hw); (py "tdx", TdxProvider hw); (py "tpm", TpmProvider hw)].
Definition _REPORT_VERIFIERS : list (pystr * pystr) :=
  [(py "sev-snp", py "verify_sev_snp_report needs the VCEK chain, which the collector does not " ++
                  py "carry on the report yet");
   (py "tdx", py "verify_tdx_quote has no AttestationReport-level wrapper yet")].
(** [d.get(k)] of a literal dict *)
Definition assoc {A} (k : pystr) (d : list (pystr * A)) : option A :=
  snd <$> List.find (fun kv => bool_decide (kv.1 = k)) d.

(** [Path(p)], against the config file's directory when relative. *)
Definition resolve (config_dir : option path) (p : pystr) : path :=
  let p := Path p in
  match config_dir with
  | Some dir => if is_absolute p then p else joinpath dir p
  | None => p
  end.

Definition load_policy (fs : FileSystem) (c : Ca2aConfig) (config_dir : option path) : res CalleePolicy :=
  match policy_bundle_path c with
  | Some (_ :: _ as bundle) =>
      let path := resolve config_dir bundle in
      raise_if (negb (fs_is_file fs path)) (err ConfigError (py "policy_bundle_path not found: " ++ str_path path));;
      text ← try_except (fs_read_text fs path) is_os_error
        (fun exc => Err (err_d ConfigError (py "cannot read policy_bundle_path: " ++ str_path path) (exn_str exc)));
      raise_if (bool_decide (strip tsm.is_space text = []))
        (err ConfigError (py "policy_bundle_path is empty: " ++ str_path path));;
      Ok (ByCedar (of_policies text))
  | _ =>
      match config.local_policy c with
      | Some allow => Ok (ByAllowSet {| allow := allow |})
      | None => Err (err ConfigError (py "ca2a start requires local_policy or policy_bundle_path in the config"))
      end
  end.

Definition select_provider (hw : Hardware) (c : Ca2aConfig) : res Provider :=
  let name := config.provider c in
  if bool_decide (name = py "software-only") then Ok SoftwareProvider
  else
    match assoc name (_HARDWARE_PROVIDERS hw) with
    | Some p =>
        raise_if (negb (detect p))
          (err_d ConfigError (py "attestation provider " ++ py_repr name ++ py " is not available on this host")
             (py "run on the matching confidential VM, or set provider " ++
              py "'software-only' to accept a no-hardware-guarantee posture"));;
        Ok p
    | None =>
        if bool_decide (name = py "auto") then
          or_raise (snd <$> List.find (fun kv => detect kv.2) (_HARDWARE_PROVIDERS hw))
            (err_d ConfigError (py "no hardware attestation provider detected")
               (py "set provider 'software-only' to run without a hardware " ++
                py "guarantee; auto never falls back to it"))
        else Err (err ConfigError (py "attestation provider " ++ py_repr name ++ py " is not implemented"))
    end.

(** [b.strip()] *)
Definition bytes_blank (b : bytes) : bool := forallb (fun x => c_isspace (b2n x)) b.

Definition build_caller_verifier (fs : FileSystem) (c : Ca2aConfig) (config_dir : option path) :
    res (option Verifier) :=
  match caller_verifier_platform c with
  | None => Ok None
  | Some platform =>
      match assoc platform _REPORT_VERIFIERS with
      | Some why =>
          Err (err_d ConfigError (py "attestation.caller_verifier.platform " ++ py_repr platform ++
                 py " cannot be appraised from a config file yet") why)
      | None =>
          raise_if (negb (bool_decide (platform = py "tpm")))
            (err ConfigError (py "attestation.caller_verifier.platform " ++ py_repr platform ++
               py " is not implemented"));;
          let roots_path := resolve config_dir (default [] (caller_verifier_trusted_roots_path c)) in
          raise_if (negb (fs_is_file fs roots_path))
            (err ConfigError (py "attestation.caller_verifier.trusted_roots_path not found: " ++
               str_path roots_path));;
          roots_pem ← try_except (fs_read_bytes fs roots_path) is_os_error
            (fun exc => Err (err_d ConfigError
               (py "cannot read attestation.caller_verifier.trusted_roots_path: " ++ str_path roots_path)
               (exn_str exc)));
          raise_if (bytes_blank roots_pem)
            (err ConfigError (py "attestation.caller_verifier.trusted_roots_path is empty: " ++
               str_path roots_path));;
          Ok (Some (tpm_verify.tpm_verifier roots_pem))
      end
  end.

(** The verified Agent Manifest, when the config names one. *)
Definition build_manifest (fs : FileSystem) (c : Ca2aConfig) (config_dir : option path) :
    res (option AgentManifestBinding) :=
  match agent_manifest_path c with
  | None => Ok None
  | Some p =>
      match agent_manifest_trust_anchor_path c, agent_manifest_authenticated_subject c with
      | Some a, Some s =>
          loaded ← load_agent_manifest_document (fs_read_bytes fs (resolve config_dir p));
          trusted_keys ← load_agent_manifest_trust_anchor (fs_read_text fs (resolve config_dir a));
          binding ← verify_agent_manifest_binding loaded trusted_keys s;
          Ok (Some binding)
      | _, _ =>
          Err (err ConfigError
            (py "Agent Manifest startup requires path, trust anchor, and authenticated subject"))
      end
  end.

(** [build_peer_node(config, config_dir=...)], with the generated key and secret. *)
Definition build_peer_node (fs : FileSystem) (hw : Hardware) (c : Ca2aConfig) (config_dir : option path)
    (generated : x_priv) (secret : bytes) : res (PeerNode (Pol := CalleePolicy)) :=
  policy ← load_policy fs c config_dir;
  raise_if (bool_decide (config.trusted_root_issuers c = ∅))
    (err_d ConfigError (py "ca2a start requires at least one trusted_root_issuer")
       (py "pin the Ed25519 public key of each authority allowed to originate delegation chains"));;
  binding ← build_manifest fs c config_dir;
  provider ← select_provider hw c;
  verifier ← build_caller_verifier fs c config_dir;
  new_node policy
    {| cfg_provider := Some provider;
       cfg_max_depth := max_delegation_depth c;
       cfg_require_caller_attestation := config.require_caller_attestation c;
       cfg_caller_verifier := verifier;
       cfg_challenge_ttl_seconds := config.challenge_ttl_seconds c;
       cfg_require_holder_proof := true;
       cfg_trusted_root_issuers := config.trusted_root_issuers c;
       cfg_agent_manifest := binding;
       cfg_revocation_source := None;
       cfg_max_revocation_staleness := None |} generated secret.
End bootstrap.
End bootstrap.
Import bootstrap.

(** ** Properties *)
Section laws.
Context `{U : Unidata, C : Crypto, F : FloatText, X : ErrorText, E : Evidence, M : ManifestSdk, G : CedarEngine}.

(** A relative path resolves below the configuration's directory, an absolute one to
    itself. *)
Lemma resolve_absolute dir p : is_absolute (Path p) = true -> resolve dir p = Path p.
Proof. unfold resolve. intros H. destruct dir; [by rewrite H|done]. Qed.
Lemma resolve_relative dir p :
  is_absolute (Path p) = false -> resolve (Some dir) p = {| root := root dir; parts := parts dir ++ parts (Path p) |}.
Proof. unfold resolve, joinpath. intros H. by rewrite !H. Qed.

(** The host supports what the provider collects. *)
Definition collects_on (h : Host) (p : Provider) : Prop :=
  (provider_platform p = py "sev-snp" /\ sev_snp._require_host h = Ok tt) \/
  (provider_platform p = py "tdx" /\ tdx._require_host h = Ok tt) \/
  (provider_platform p = py "tpm" /\ tpm._require_host h = Ok tt).

Lemma detected_collects hw name p :
  (name, p) ∈ _HARDWARE_PROVIDERS hw -> detect p = true ->
  provider_platform p = name /\ collects_on (hw_host hw) p.
Proof.
  unfold collects_on. intros Hin Hd.
  repeat (apply elem_of_cons in Hin as [[= -> ->]|Hin]); [..|by apply not_elem_of_nil in Hin];
    (split; [done|]); cbn [detect SevSnpProvider TdxProvider TpmProvider] in Hd.
  - left. split; [done|]. pose proof (snp_host_detected (hw_host hw)) as H. by rewrite Hd in H.
  - right; left. split; [done|]. pose proof (tdx_host_detected (hw_host hw)) as H. by rewrite Hd in H.
  - right; right. split; [done|]. pose proof (tpm_host_detected (hw_host hw)) as H. by rewrite Hd in H.
Qed.

Lemma find_first {A} (f : A -> bool) l x :
  List.find f l = Some x -> exists pre post, l = pre ++ x :: post /\ f x = true /\ Forall (fun y => f y = false) pre.
Proof.
  induction l as [|y l IH]; simpl; [done|]. destruct (f y) eqn:Hy.
  - intros [= ->]. by exists [], l.
  - intros (pre & post & -> & ? & ?)%IH. exists (y :: pre), post. split_and!; [done|done|by constructor].
Qed.

(** C19: provider selection fails closed.  The software provider is used exactly when the
    configuration names it; otherwise the provider is the named one, or under "auto"
    the first one detected in the fixed order, it was detected, and the host has all
    that its collection requires.  Every other outcome is ConfigError. *)
Theorem select_provider_spec hw c :
  match select_provider hw c with
  | Ok p =>
      (config.provider c = py "software-only" /\ p = SoftwareProvider) \/
      (config.provider c <> py "software-only" /\ detect p = true /\
       provider_platform p <> SOFTWARE_PLATFORM /\ collects_on (hw_host hw) p /\
       (config.provider c = provider_platform p \/
        config.provider c = py "auto" /\
        exists pre post, _HARDWARE_PROVIDERS hw = pre ++ (provider_platform p, p) :: post /\
          Forall (fun kv => detect kv.2 = false) pre))
  | Err e => exn_class e = Some ConfigError /\ config.provider c <> py "software-only"
  end.
Proof.
  unfold select_provider. destruct (decide (config.provider c = py "software-only")) as [Hs|Hs].
  { rewrite bool_decide_true by done. by left. }
  rewrite bool_decide_false by done.
  assert (forall name p, (name, p) ∈ _HARDWARE_PROVIDERS hw -> detect p = true ->
    name = provider_platform p /\ provider_platform p <> SOFTWARE_PLATFORM /\ collects_on (hw_host hw) p) as Hhw.
  { intros name p Hin Hd. destruct (detected_collects hw name p Hin Hd) as [<- Hc]. split_and!; [done| |done].
    destruct Hc as [[-> _]|[[-> _]|[-> _]]]; by intros ?%py_inj. }
  destruct (assoc (config.provider c) (_HARDWARE_PROVIDERS hw)) as [p|] eqn:Ha.
  - unfold assoc in Ha. apply fmap_Some in Ha as ([name q] & (pre & post & Hl & Hn & _)%find_first & ->).
    apply bool_decide_eq_true in Hn. cbn [fst snd] in *. destruct (detect q) eqn:Hd; cbn; [right|done].
    destruct (Hhw name q) as (Hname & ? & ?); [rewrite Hl; apply elem_of_app; right; left|done|].
    split_and!; [done|done|done|done|left; congruence].
  - case_bool_decide as Hauto; [|by split].
    destruct (List.find _ _) as [[name p]|] eqn:Hf; cbn; [right|done].
    apply find_first in Hf as (pre & post & Hl & Hd & Hpre). cbn [snd] in Hd.
    destruct (Hhw name p) as (-> & ? & ?); [rewrite Hl; apply elem_of_app; right; left|done|].
    split_and!; [done|done|done|done|right]. split; [done|]. by exists pre, post.
Qed.

Lemma load_policy_allow fs c dir p allow_ :
  load_policy fs c dir = Ok p -> config.local_policy c = Some allow_ -> default [] (policy_bundle_path c) = [] ->
  p = ByAllowSet {| allow := allow_ |}.
Proof.
  unfold load_policy. intros H Hl Hb. destruct (policy_bundle_path c) as [[|x b]|]; try done;
    rewrite Hl in H; by apply ok_inj in H.
Qed.

(** The caller verifier is built only for a TPM platform, over a roots file. *)
Lemma build_caller_verifier_ok fs c dir v :
  build_caller_verifier fs c dir = Ok v ->
  (caller_verifier_platform c = None /\ v = None) \/
  (caller_verifier_platform c = Some (py "tpm") /\ exists roots,
     fs_read_bytes fs (resolve dir (default [] (caller_verifier_trusted_roots_path c))) = Ok roots /\
     bytes_blank roots = false /\ v = Some (tpm_verify.tpm_verifier roots)).
Proof.
  unfold build_caller_verifier. destruct (caller_verifier_platform c) as [pl|]; [|intros <-%ok_inj; by left].
  destruct (assoc pl _REPORT_VERIFIERS); [done|].
  intros [[_ ->%guard_ok] [_ (r & Hr%try_except_raise_ok & [[_ Hb%raise_if_ok] <-%ok_inj]%seq_ok)%bind_ok]%seq_ok]%seq_ok.
  right. split; [done|]. by exists r.
Qed.

(** The node a validated configuration starts.  Building it succeeds exactly when
    the policy loads, some root issuer is pinned, the manifest (if named) is bound, a
    provider is selected and the caller verifier (if named) is built, and the node then
    carries exactly those with the configured bounds and always requires holder proofs;
    the constructor's own refusals are never reached. *)
Theorem build_peer_node_spec fs hw c dir k secret (W : wf_config c) :
  match build_peer_node fs hw c dir k secret with
  | Ok n =>
      wf_node n /\
      load_policy fs c dir = Ok (node.policy n) /\ select_provider hw c = Ok (node.provider n) /\
      build_caller_verifier fs c dir = Ok (node.caller_verifier n) /\
      build_manifest fs c dir = Ok (node.agent_manifest n) /\
      node.trusted_root_issuers n = config.trusted_root_issuers c /\ node.trusted_root_issuers n <> ∅ /\
      node.max_depth n = max_delegation_depth c /\ (1 <= node.max_depth n)%Z /\
      node.require_caller_attestation n = config.require_caller_attestation c /\
      node.challenge_ttl_seconds n = config.challenge_ttl_seconds c /\
      node.require_holder_proof n = true /\ node.revocation_source n = None
  | Err e =>
      load_policy fs c dir = Err e \/
      (config.trusted_root_issuers c = ∅ /\ exn_class e = Some ConfigError) \/
      build_manifest fs c dir = Err e \/ select_provider hw c = Err e \/ build_caller_verifier fs c dir = Err e
  end.
Proof.
  unfold build_peer_node. destruct (load_policy fs c dir) as [p|e]; cbn [mbind result_bind]; [|by left].
  case_bool_decide as Hr; cbn [raise_if mbind result_bind]; [right; by left|].
  destruct (build_manifest fs c dir) as [b|e]; cbn [mbind result_bind]; [|by auto].
  destruct (select_provider hw c) as [pr|e]; cbn [mbind result_bind]; [|by auto].
  destruct (build_caller_verifier fs c dir) as [v|e] eqn:Hv; cbn [mbind result_bind]; [|by auto].
  assert (bool_decide (config.require_caller_attestation c = REQUIRE_HARDWARE) &&
          match v with None => true | Some _ => false end = false) as Hhw.
  { destruct v; [by rewrite andb_false_r|]. rewrite andb_true_r. apply bool_decide_eq_false.
    apply build_caller_verifier_ok in Hv as [[Hpl _]|(_ & ? & _ & _ & ?)]; [|done].
    by destruct (wc_verifier c W) as [(_ & _ & ?)|(pl & _ & Hpl' & _)]; [|rewrite Hpl in Hpl']. }
  destruct (new_node _ _ _ _) as [n|e] eqn:Hn.
  - split; [by eapply new_node_wf|]. apply seq_ok in Hn as [_ [_ Hn]%seq_ok].
    apply ok_inj in Hn as <-. cbn. split_and!; try done. by apply (wc_depth c W).
  - exfalso. unfold new_node in Hn. cbn [cfg_require_caller_attestation cfg_caller_verifier] in Hn.
    apply bind_err in Hn as [[Hn _]%raise_if_err|(_ & _ & Hn)].
    { apply negb_true_iff, bool_decide_eq_false in Hn. by destruct (Hn (wc_requirement c W)). }
    by rewrite Hhw in Hn.
Qed.

Lemma build_peer_node_parts fs hw c dir k secret n :
  wf_config c -> build_peer_node fs hw c dir k secret = Ok n ->
  load_policy fs c dir = Ok (node.policy n) /\ node.trusted_root_issuers n = config.trusted_root_issuers c /\
  node.max_depth n = max_delegation_depth c.
Proof.
  intros W H. unfold build_peer_node in H.
  apply bind_ok in H as (p & Hp & [_ (b & _ & (pr & _ & (v & _ & Hn)%bind_ok)%bind_ok)%bind_ok]%seq_ok).
  apply seq_ok in Hn as [_ [_ Hn]%seq_ok]. by apply ok_inj in Hn as <-.
Qed.

(** C13: a started node never acts beyond its configuration.  Every call it accepts was
    delegated from a pinned root through a chain no longer than the configured depth,
    and grants a capability of every credential in it that, under an allow set, the
    configuration allows. *)
Theorem started_node_within_config fs hw c dir k secret n clk message r
    (W : wf_config c) (Hb : build_peer_node fs hw c dir k secret = Ok n)
    (Hr : node.handle n clk message = Ok r) :
  exists request,
    adapter.parse_peer_request message None = Ok (Some request) /\
    granted_capability r = requested_capability request /\
    (forall cred, cred ∈ chain request -> granted_capability r ∈ scope cred) /\
    (exists root rest, chain request = root :: rest /\ issuer root ∈ config.trusted_root_issuers c) /\
    (Z.of_nat (length (chain request)) <= max_delegation_depth c + 1)%Z /\
    (forall allow_, config.local_policy c = Some allow_ -> default [] (policy_bundle_path c) = [] ->
       granted_capability r ∈ allow_).
Proof.
  pose proof (build_peer_node_parts _ _ _ _ _ _ _ W Hb) as (Hp & Hroots & Hdepth).
  apply node_handle_ok in Hr as (req & revs & Hreq & _ & Ha). exists req. split; [done|].
  pose proof (accepted_chain _ _ _ _ _ Ha) as [Hn Hlen].
  apply accepted_authority in Ha as (Hg & He & Hsub & Hroot & (leaf & _ & Hi) & _).
  cbn [chain_options handle_options peer.trusted_root_issuers peer.max_depth] in *.
  rewrite Hroots in Hroot. rewrite Hdepth in Hlen. split_and!; try done.
  - intros cred Hin. by apply (Hsub cred Hin).
  - intros al Hl Hbn. rewrite (load_policy_allow _ _ _ _ _ Hp Hl Hbn) in Hi.
    cbn in Hi. apply ok_inj in Hi. rewrite <-Hi in He. by apply elem_of_intersection in He as [_ ?].
Qed.
End laws.

(** ** A concrete start *)
Module BootstrapExample.
Import AsciiOnly Toy ChainExample ChallengeExample PeerExample AdapterExample TpmExample TsmExample CallExample.
#[export] Instance no_sdk : ManifestSdk :=
  {| COSE_MANIFEST_VERSION := py "0.2"; decode_cose_manifest _ := Err (PyExc ValueError []);
     verify_manifest _ _ := Err (PyExc ValueError []) |}.
#[export] Instance no_engine : CedarEngine := {| is_authorized _ _ := Ok false |}.

Definition demo_config : Ca2aConfig :=
  {| config.provider := py "software-only"; enforcement_mode := py "enforcing";
     config.require_caller_attestation := REQUIRE_NONE; caller_verifier_platform := None;
     caller_verifier_trusted_roots_path := None; config.challenge_ttl_seconds := 60%Z;
     max_delegation_depth := 8%Z; policy_bundle_path := None;
     config.local_policy := Some (allow policy_); config.listen_addr := DEFAULT_LISTEN_ADDR;
     config.trusted_root_issuers := {[pub 1]}; agent_manifest_path := None;
     agent_manifest_trust_anchor_path := None; agent_manifest_authenticated_subject := None |}.
Definition empty_disk : FileSystem :=
  {| fs_is_file _ := false; fs_read_text _ := Err (PyExc OSError []); fs_read_bytes _ := Err (PyExc OSError []) |}.
Definition plain_host : Hardware :=
  {| hw_host := {| sys_platform := py "linux"; path_exists _ := false; path_is_dir _ := false;
                   tpm2_pytss_available := false |};
     hw_entry := demo_entry "none" (fun d => d); hw_tpm_attest _ _ _ := Err (PyExc OSError []) |}.

Lemma demo_config_wf : wf_config demo_config.
Proof.
  split; cbn.
  - by apply elem_of_keys_py.
  - by apply elem_of_keys_py.
  - by apply elem_of_keys_py.
  - left. split_and!; [done|done|]. by intros ?%py_inj.
  - done.
  - done.
  - intros s [= <-]. by_decision.
  - exists (py "127.0.0.1"), 8443%Z. exists (py "127.0.0.1"), (py "8443"). split_and!; try done; by_decision.
  - by_decision.
  - by left.
Qed.

Definition started_node : PeerNode (C := toy) (Pol := CalleePolicy) :=
  {| node.policy := ByAllowSet {| allow := allow policy_ |}; node.provider := SoftwareProvider;
     node.max_depth := 8; node.require_caller_attestation := REQUIRE_NONE; node.caller_verifier := None;
     node.challenge_ttl_seconds := 60; node.require_holder_proof := true;
     node.trusted_root_issuers := {[pub 1]}; node.agent_manifest := None; node.revocation_source := None;
     node.max_revocation_staleness := None; node._private_key := enclave;
     node.channel_public_key := enclave_pub; node._challenge_secret := secret |}.
Lemma started : build_peer_node (C := toy) empty_disk plain_host demo_config None enclave secret = Ok started_node.
Proof.
  unfold build_peer_node. eapply bind_pass; [reflexivity|]. apply guard_pass; [vm_compute; reflexivity|].
  eapply bind_pass; [reflexivity|]. eapply bind_pass; [reflexivity|]. eapply bind_pass; [reflexivity|].
  apply guard_pass; [by rewrite bool_decide_true by (by apply elem_of_keys_py)|].
  apply guard_pass; [|reflexivity]. apply andb_false_iff. left. apply bool_decide_eq_false. by intros ?%py_inj.
Qed.
Definition handled : PeerResult := get_ok no_result (node.handle (C := toy) started_node clocks sent).
Lemma handled_ok : node.handle (C := toy) started_node clocks sent = Ok handled.
Proof. apply get_ok_spec. vm_compute. reflexivity. Qed.
#[local] Opaque handled sent.

Lemma build_peer_node_spec_witness :
  match build_peer_node (C := toy) empty_disk plain_host demo_config None enclave secret with
  | Ok n => node.max_depth n = 8%Z
  | Err _ => False
  end.
Proof.
  pose proof (build_peer_node_spec (C := toy) empty_disk plain_host demo_config None enclave secret demo_config_wf) as H.
  rewrite started in H |- *. reflexivity.
Defined.

Lemma started_node_within_config_witness :
  exists request,
    adapter.parse_peer_request sent None = Ok (Some request) /\
    granted_capability handled = requested_capability request.
Proof.
  destruct (started_node_within_config (C := toy) empty_disk plain_host demo_config None enclave secret started_node
    clocks sent handled demo_config_wf started handled_ok) as (request & H1 & H2 & _).
  exists request. exact (conj H1 H2).
Defined.
End BootstrapExample.
