(* ===== verification/SdkBridge.v ===== *)
(** * The bridge to the official A2A SDK ([ca2a_runtime.transport.a2a_sdk])

    Protobuf messages and the SDK's card helpers belong to their packages: [Protobuf]
    is what the bridge calls of them.  A Struct has no integers, so the bridge restores
    the integral floats of a credential. *)
From S2P Require Export Node.
From S2P Require Import Tsm Url Call.
Import peer adapter node.
#[local] Open Scope N_scope.

(** ** Floats

    A float is its [repr]; [float.is_integer] and [int] of one. *)
Module floats.
(** [n] rounded to 53 significant bits, ties to even. *)
Definition round53 (n : N) : N :=
  if n <? 2 ^ 53 then n
  else
    let unit := 2 ^ (N.log2 n - 52) in
    let q := n / unit in
    let r := n mod unit in
    let up := (unit <? 2 * r) || ((2 * r =? unit) && N.odd q) in
    (if up then q + 1 else q) * unit.

(** The decimal digits of [ds], [e] of them after the point moved left of the end. *)
Definition all_digits (s : pystr) : bool := negb (bool_decide (s = [])) && forallb is_digit s.
(** [int(x)] of a non-negative integral [x], from its [repr]. *)
Definition nat_of_repr (s : pystr) : option N :=
  match url.split1 101 s with
  | None =>
      match url.split1 46 s with
      | Some (whole, frac) =>
          if all_digits whole && bool_decide (frac = [48]) then Some (dec_val whole) else None
      | None => None
      end
  | Some (mant, expo) =>
      let '(whole, frac) := match url.split1 46 mant with Some p => p | None => (mant, []) end in
      match expo with
      | 43 :: e =>
          if all_digits whole && all_digits e && forallb is_digit frac && (N.of_nat (length frac) <=? dec_val e)
          then Some (round53 (dec_val (whole ++ frac) * 10 ^ (dec_val e - N.of_nat (length frac))))
          else None
      | _ => None
      end
  end.
(** [int(x) if x.is_integer()] *)
Definition integral_float (r : pystr) : option Z :=
  match r with
  | 45 :: s => (fun n => (- Z.of_N n)%Z) <$> nat_of_repr s
  | _ => Z.of_N <$> nat_of_repr r
  end.
End floats.
Import floats.

Module a2a_sdk.

Definition EXTENSION_HEADER : pystr := py "A2A-Extensions".

Record AgentCardDiscovery := {
  advertised : bool;
  required : option bool;
  discovered_requirement : option pystr;
  warnings : list pystr
}.

(** The packages: whether they import (with the text of the failure), the Struct type,
    its conversion both ways ([parse_dict] fills an empty Struct), and the fields of a
    card the bridge does not touch. *)
Class Protobuf := {
  json_format : option pystr;
  a2a_import : option pystr;
  Struct : Type;
  message_to_dict : Struct -> res dict;
  parse_dict : dict -> Struct * res unit;
  card_fields : Type
}.

Section bridge.
Context `{U : Unidata, T : ErrorText, B : Protobuf, C : Crypto}.

Record AgentExtension := { uri : pystr; ext_required : bool; params : Struct }.
Record AgentCard := { signed : bool; extensions : list AgentExtension; rest : card_fields }.

Definition _require_protobuf : res unit :=
  match json_format with
  | None => Ok tt
  | Some why => Err (err_d TransportError (py "the a2a-sdk bridge needs protobuf")
                       (py "install 'ca2a-runtime[a2a-sdk]' (" ++ why ++ py ")"))
  end.
Definition _load_a2a_sdk : res unit :=
  match a2a_import with
  | None => Ok tt
  | Some why => Err (err_d TransportError (py "the Agent Card bridge needs the official a2a-sdk")
                       (py "install 'ca2a-runtime[a2a-sdk]' (" ++ why ++ py ")"))
  end.

Definition REQUIREMENT_PARAM : string := "require_caller_attestation".

Definition agent_extension_for_node {Pol} (n : PeerNode (Pol := Pol)) : res AgentExtension :=
  _require_protobuf;;
  _load_a2a_sdk;;
  let '(params, filled) := parse_dict [(py REQUIREMENT_PARAM, JStr (node.require_caller_attestation n))] in
  filled;;
  Ok {| uri := EXTENSION_URI; ext_required := false; params := params |}.

(** [enumerate(extensions)] restricted to the cA2A ones. *)
Fixpoint matching_from (i : nat) (l : list AgentExtension) : list nat :=
  match l with
  | [] => []
  | e :: l => if bool_decide (uri e = EXTENSION_URI) then i :: matching_from (S i) l else matching_from (S i) l
  end.
(** [for index in indices: del extensions[index]] *)
Definition delete_all (l : list AgentExtension) (indices : list nat) : list AgentExtension :=
  fold_left (fun l i => delete i l) indices l.

Definition merge_agent_card {Pol} (card : AgentCard) (n : PeerNode (Pol := Pol)) : res AgentCard :=
  raise_if (signed card)
    (err_d TransportError (py "merge the cA2A extension before signing the Agent Card")
       (py "cA2A does not verify or re-sign operator Agent Cards"));;
  _load_a2a_sdk;;
  generated ← agent_extension_for_node n;
  let merged := extensions card in
  let merged :=
    match matching_from 0 merged with
    | first :: others => delete_all (<[first := generated]> merged) (reverse others)
    | [] => merged ++ [generated]
    end in
  Ok {| signed := signed card; extensions := merged; rest := rest card |}.

(** [inspect_agent_card(card)], with the SDK's lookup. *)
Definition inspect_agent_card (find_extension_by_uri : AgentCard -> pystr -> option AgentExtension)
    (card : AgentCard) : res AgentCardDiscovery :=
  _require_protobuf;;
  _load_a2a_sdk;;
  match find_extension_by_uri card EXTENSION_URI with
  | None =>
      Ok {| advertised := false; required := None; discovered_requirement := None;
            warnings := [py "peer Agent Card does not advertise " ++ EXTENSION_URI] |}
  | Some extension =>
      let matches := length (matching_from 0 (extensions card)) in
      declared ← message_to_dict (params extension);
      let raw_requirement := field REQUIREMENT_PARAM declared in
      let requirement :=
        match raw_requirement with
        | JStr s => if bool_decide (s ∈ REQUIREMENT_VALUES) then Some s else None
        | _ => None
        end in
      Ok {| advertised := true; required := Some (ext_required extension);
            discovered_requirement := requirement;
            warnings :=
              (if Nat.ltb 1 matches then
                 [py "peer Agent Card advertises " ++ EXTENSION_URI ++ py " " ++ str_N (N.of_nat matches) ++
                  py " times"] else []) ++
              (if ext_required extension then
                 [py "peer Agent Card marks the cA2A extension required=true"] else []) ++
              map (fun name => py "cA2A declaration has an unknown parameter " ++ py_repr name)
                (sorted_set (dkeys declared ∖ keys_of [REQUIREMENT_PARAM])) ++
              match requirement, raw_requirement with
              | Some _, _ => []
              | None, JNull => [py "cA2A declaration has no require_caller_attestation parameter"]
              | None, _ => [py "cA2A declaration has an unsupported require_caller_attestation parameter"]
              end |}
  end.

(** ** Messages *)

(** An object carrying [metadata] and [extensions] attributes, each possibly absent. *)
Record SdkMessage := { metadata : option Struct; message_extensions : option (list pystr) }.

Definition RESTORED_FIELDS : list string := ["depth"; "not_before"; "not_after"]%string.
(** [if isinstance(value, float) and value.is_integer(): credential[field] = int(value)] *)
Definition restore_field (credential : dict) (name : string) : dict :=
  match dget (py name) credential with
  | Some (JFloat r) =>
      match integral_float r with Some z => dset (py name) (JInt z) credential | None => credential end
  | _ => credential
  end.
Definition restore_credential (v : json) : json :=
  match v with JObj d => JObj (fold_left restore_field RESTORED_FIELDS d) | _ => v end.
Definition restore_chain (d : dict) : dict :=
  match dget KEY_DELEGATION_CHAIN d with
  | Some (JArr chain) => dset KEY_DELEGATION_CHAIN (JArr (map restore_credential chain)) d
  | _ => d
  end.

Definition metadata_from_sdk_message (message : SdkMessage) : res dict :=
  _require_protobuf;;
  match metadata message with
  | None => Ok []
  | Some s => d ← message_to_dict s; Ok (restore_chain d)
  end.

Definition parse_sdk_message (message : SdkMessage) : res (option PeerRequest) :=
  d ← metadata_from_sdk_message message;
  parse_peer_request [(py "metadata", JObj d)] None.

(** The message afterwards, and the outcome. *)
Definition attach_to_sdk_message (message : SdkMessage) (request : PeerRequest) : SdkMessage * res unit :=
  match (d ← metadata_from_sdk_message message;
         out ← attach_ca2a_metadata [(py "metadata", JObj d)] request;
         get_attr (field "metadata" out)) with
  | Err e => (message, Err e)
  | Ok merged =>
      match metadata message with
      | None => (message, Err (no_attribute JNull "Clear"))
      | Some _ =>
          let '(s, filled) := parse_dict merged in
          match filled with
          | Err e => ({| metadata := Some s; message_extensions := message_extensions message |}, Err e)
          | Ok _ =>
              ({| metadata := Some s;
                  message_extensions :=
                    (fun l => if bool_decide (EXTENSION_URI ∈ l) then l else l ++ [EXTENSION_URI])
                      <$> message_extensions message |}, Ok tt)
          end
      end
  end.

Definition opted_in (header_values : option (list pystr)) : bool :=
  existsb (fun value => existsb (fun item => bool_decide (strip tsm.is_space item = EXTENSION_URI)) (split_on 44 value))
    (default [] header_values).
End bridge.
End a2a_sdk.
Import a2a_sdk.

(** ** Properties *)

(** The documented behaviour of the packages on what the bridge hands them: a Struct of
    one text field reads back as it was filled; the SDK's lookup finds the first
    extension with the URI. *)
Class ProtobufLaws `{B : Protobuf} := {
  text_field_round_trip k v : scalars k = true -> scalars v = true ->
    exists s, parse_dict [(k, JStr v)] = (s, Ok tt) /\ message_to_dict s = Ok [(k, JStr v)]
}.
Definition first_by_uri `{B : Protobuf} (card : AgentCard) (u : pystr) : option AgentExtension :=
  List.find (fun e => bool_decide (uri e = u)) (extensions card).

Section card_laws.
Context `{U : Unidata, T : ErrorText, B : Protobuf, C : Crypto}.

Definition is_ca2a (e : AgentExtension) : bool := bool_decide (uri e = EXTENSION_URI).
Definition others (l : list AgentExtension) : list AgentExtension := List.filter (fun e => negb (is_ca2a e)) l.

Lemma matching_from_app i a b : matching_from i (a ++ b) = matching_from i a ++ matching_from (i + length a) b.
Proof.
  revert i. induction a as [|e a IH]; intros i; cbn [matching_from app length]; [by rewrite Nat.add_0_r|].
  rewrite IH, Nat.add_succ_r. by case_bool_decide.
Qed.
Lemma matching_from_nil i l : matching_from i l = [] <-> Forall (fun e => is_ca2a e = false) l.
Proof.
  revert i. induction l as [|e l IH]; intros i; cbn [matching_from]; [by split|].
  rewrite Forall_cons. unfold is_ca2a at 1. case_bool_decide; [by split; [|intros [? _]]|]. rewrite IH. naive_solver.
Qed.
Lemma others_id l : Forall (fun e => is_ca2a e = false) l -> others l = l.
Proof. induction 1 as [|e l He _ IH]; [done|]. cbn [others List.filter]. rewrite He. cbn [negb]. by f_equal. Qed.
Lemma others_app a b : others (a ++ b) = others a ++ others b.
Proof. apply List.filter_app. Qed.
Lemma others_none l : Forall (fun e => is_ca2a e = false) (others l).
Proof. apply Forall_forall. intros e [_ H]%list_elem_of_In%filter_In. by apply negb_true_iff. Qed.

(** Deleting from the last index down keeps the indices that are still to be deleted. *)
Lemma delete_all_reverse pre l :
  delete_all (pre ++ l) (reverse (matching_from (length pre) l)) = pre ++ others l.
Proof.
  revert pre. induction l as [|e l IH]; intros pre; [done|].
  cbn [matching_from others List.filter]. unfold is_ca2a at 1. case_bool_decide as He; cbn [negb].
  - rewrite reverse_cons. unfold delete_all. rewrite fold_left_app. cbn [fold_left].
    specialize (IH (pre ++ [e])). rewrite length_app, Nat.add_1_r, <-!app_assoc in IH.
    unfold delete_all in IH. cbn [app] in IH. rewrite IH. by rewrite delete_middle.
  - specialize (IH (pre ++ [e])). by rewrite length_app, Nat.add_1_r, <-!app_assoc in IH.
Qed.

(** One declaration, in the place of the first; everything else in its order. *)
(** What stands before the first cA2A declaration; everything when there is none. *)
Fixpoint before_first (l : list AgentExtension) : list AgentExtension :=
  match l with
  | [] => []
  | e :: l => if is_ca2a e then [] else e :: before_first l
  end.
Lemma before_first_app a x b :
  Forall (fun e => is_ca2a e = false) a -> is_ca2a x = true -> before_first (a ++ x :: b) = a.
Proof. intros Ha Hx. induction Ha as [|e a He _ IH]; cbn; [by rewrite Hx|]. by rewrite He, IH. Qed.
Lemma before_first_none l : Forall (fun e => is_ca2a e = false) l -> before_first l = l.
Proof. induction 1 as [|e l He _ IH]; cbn; [done|]. by rewrite He, IH. Qed.

Lemma merge_extensions_shape l g :
  is_ca2a g = true ->
  exists pre post,
    match matching_from 0 l with
    | first :: others_ => delete_all (<[first := g]> l) (reverse others_)
    | [] => l ++ [g]
    end = pre ++ g :: post /\
    Forall (fun e => is_ca2a e = false) pre /\ Forall (fun e => is_ca2a e = false) post /\ pre ++ post = others l /\
    pre = before_first l.
Proof.
  intros Hg. destruct (List.find is_ca2a l) as [x|] eqn:Hf.
  - assert (exists a b, l = a ++ x :: b /\ is_ca2a x = true /\ Forall (fun e => is_ca2a e = false) a)
      as (a & b & -> & Hx & Ha).
    { revert Hf. clear. induction l as [|y l IH]; cbn [List.find]; [done|]. destruct (is_ca2a y) eqn:Hy.
      - intros [= ->]. by exists [], l.
      - intros (a & b & -> & ? & ?)%IH. exists (y :: a), b. split_and!; [done|done|by constructor]. }
    rewrite matching_from_app, (proj2 (matching_from_nil 0 a) Ha). cbn [app matching_from].
    pose proof (proj1 (bool_decide_eq_true _) Hx) as Hu. rewrite bool_decide_true, Nat.add_0_l, insert_app_r_alt, Nat.sub_diag by (done || lia). cbn [list_insert insert].
    exists a, (others b). split_and!; [|done|apply others_none| |by rewrite before_first_app].
    + pose proof (delete_all_reverse (a ++ [g]) b) as H. rewrite length_app, Nat.add_1_r, <-!app_assoc in H. exact H.
    + rewrite others_app. cbn [others List.filter]. rewrite Hx. cbn [negb].
      by rewrite (others_id a).
  - assert (Forall (fun e => is_ca2a e = false) l) as Hl.
    { apply Forall_forall. intros e He%list_elem_of_In. by apply (find_none _ _ Hf). }
    rewrite (proj2 (matching_from_nil 0 l) Hl). exists l, []. split_and!; [done|done|constructor| |by rewrite before_first_none].
    by rewrite app_nil_r, others_id.
Qed.
End card_laws.

Section properties.
Context `{U : Unidata, T : ErrorText, B : Protobuf, C : Crypto}.

(** C20: declaring a node on a card and reading the card back.  Merging keeps every
    other extension in its order and every other field, leaves exactly one cA2A
    declaration, in the place of the first if there was one and at the end otherwise;
    and inspecting the merged
    card reports, without a warning, the requirement the node enforces. *)
Theorem merge_then_inspect {Pol} card (n : PeerNode (Pol := Pol)) merged (L : ProtobufLaws)
    (Hn : node.require_caller_attestation n ∈ REQUIREMENT_VALUES)
    (Hm : merge_agent_card card n = Ok merged) :
  rest merged = rest card /\ others (extensions merged) = others (extensions card) /\
  length (matching_from 0 (extensions merged)) = 1%nat /\
  (exists g post, is_ca2a g = true /\ extensions merged = before_first (extensions card) ++ g :: post) /\
  inspect_agent_card first_by_uri merged =
  Ok {| advertised := true; required := Some false;
        discovered_requirement := Some (node.require_caller_attestation n); warnings := [] |}.
Proof.
  unfold merge_agent_card in Hm. apply seq_ok in Hm as [_ [[w Hs] (g0 & Hg & Hm)%bind_ok]%seq_ok].
  apply ok_inj in Hm as <-. cbn [rest extensions].
  unfold agent_extension_for_node in Hg. apply seq_ok in Hg as [[w' Hp] [_ Hg]%seq_ok].
  assert (scalars (node.require_caller_attestation n) = true) as Hsc.
  { unfold REQUIREMENT_VALUES in Hn. apply elem_of_keys in Hn as (s & Hin & ->). cbn [In] in Hin.
    by destruct Hin as [<-|[<-|[<-|[]]]]. }
  destruct (text_field_round_trip (py REQUIREMENT_PARAM) _ eq_refl Hsc) as (st & Hpd & Hmd).
  rewrite Hpd in Hg. cbn [mbind result_bind] in Hg. apply ok_inj in Hg as <-.
  set (g := {| uri := EXTENSION_URI; ext_required := false; params := st |}).
  assert (is_ca2a g = true) as Hca by by apply bool_decide_eq_true.
  destruct (merge_extensions_shape (extensions card) g Hca) as (pre & post & E & Hpre & Hpost & Ho & Hfirst).
  split; [done|]. cbn [extensions]. rewrite E.
  assert (length (matching_from 0 (pre ++ g :: post)) = 1%nat) as Hone.
  { rewrite matching_from_app, (proj2 (matching_from_nil 0 pre) Hpre). cbn [app matching_from].
    rewrite bool_decide_true by done. cbn [length]. by rewrite (proj2 (matching_from_nil _ post) Hpost). }
  split_and!; [|exact Hone|rewrite <-Hfirst; by exists g, post|].
  - rewrite others_app. cbn [others List.filter]. rewrite Hca. cbn [negb].
    fold (others post). by rewrite (others_id pre), (others_id post).
  - unfold inspect_agent_card. rewrite Hp, Hs. cbn [mbind result_bind]. unfold first_by_uri. cbn [extensions].
    assert (List.find (fun e => bool_decide (uri e = EXTENSION_URI)) (pre ++ g :: post) = Some g) as ->.
    { clear - Hpre Hca. induction Hpre as [|e l He _ IH]; cbn [app List.find].
      - change (is_ca2a g) with (bool_decide (uri g = EXTENSION_URI)) in Hca. by rewrite Hca.
      - change (is_ca2a e) with (bool_decide (uri e = EXTENSION_URI)) in He. by rewrite He. }
    cbn [params g]. rewrite Hmd. cbn [mbind result_bind]. rewrite Hone.
    rewrite (field_get REQUIREMENT_PARAM _ (JStr (node.require_caller_attestation n))) by (cbn; by rewrite bool_decide_true).
    rewrite bool_decide_true by done. cbn [Nat.ltb Nat.leb ext_required g app].
    rewrite (dkeys_keys_of [REQUIREMENT_PARAM]) by solve_keys.
    rewrite difference_diag_L. unfold sorted_set. by rewrite elements_empty.
Qed.

(** ** The integers of a credential *)

(** A JSON value as a Struct carries it: every number is a double. *)
Definition as_double (v : json) : json := match v with JInt z => JFloat (str_int z ++ py ".0") | _ => v end.
Definition through_struct (d : dict) : dict := map (fun kv => (kv.1, as_double kv.2)) d.

Lemma integral_float_int z : integral_float (str_int z ++ py ".0") = Some z.
Proof.
  assert (forall n, nat_of_repr (str_N n ++ py ".0") = Some n) as Hn.
  { intros n. assert (forall c s, is_digit c = false -> c ∉ str_N n ++ s <-> c ∉ s) as Hfree.
    { intros c s Hc. rewrite not_elem_of_app. split; [by intros [_ ?]|]. intros ?. split; [|done].
      intros Hin. pose proof (str_N_digits n) as Hd. rewrite Forall_forall in Hd. specialize (Hd _ Hin). congruence. }
    unfold nat_of_repr. rewrite split1_free by (apply Hfree; [done|by_decision]).
    change (py ".0") with (46 :: [48]). rewrite split1_app.
    2:{ rewrite <-(app_nil_r (str_N n)). apply Hfree; [done|by_decision]. }
    unfold all_digits. rewrite bool_decide_false.
    2:{ destruct (str_N_head n) as [->|(d & r & -> & _)]; done. }
    rewrite (proj2 (forallb_Forall _ _)) by apply str_N_digits. cbn [negb andb].
    rewrite bool_decide_true by done. by rewrite str_N_val. }
  unfold integral_float, str_int. destruct (Z.ltb_spec z 0) as [Hz|Hz].
  - cbn [app]. rewrite Hn. cbn. f_equal. lia.
  - pose proof (str_N_no_minus (Z.to_N z)) as Hm. specialize (Hn (Z.to_N z)).
    destruct (str_N (Z.to_N z) ++ py ".0") as [|c s] eqn:Es; [by destruct (str_N (Z.to_N z))|].
    assert (c <> 45) as Hc.
    { intros ->. destruct (str_N (Z.to_N z)) as [|c' s'] eqn:En; [|by injection Es as -> _; eapply Hm].
      by destruct (str_N_head (Z.to_N z)) as [H|(?&?&H&_)]; rewrite H in En. }
    transitivity (Z.of_N <$> nat_of_repr (c :: s)); [|rewrite Hn; cbn; f_equal; lia].
    destruct c as [|p]; [done|]. repeat (destruct p as [p|p|]; try done).
Qed.

Lemma dset_middle k v w (pre post : dict) : k ∉ pre.*1 -> dset k v (pre ++ (k, w) :: post) = pre ++ (k, v) :: post.
Proof.
  induction pre as [|[k' v'] pre IH]; cbn [app dset fmap list_fmap fst]; intros Hn.
  - by rewrite bool_decide_true.
  - apply not_elem_of_cons in Hn as [Hne Hn]. rewrite bool_decide_false by done. by rewrite IH.
Qed.
Lemma dget_middle k w (pre post : dict) : k ∉ pre.*1 -> dget k (pre ++ (k, w) :: post) = Some w.
Proof.
  induction pre as [|[k' v'] pre IH]; cbn [app dget fmap list_fmap fst]; intros Hn.
  - by rewrite bool_decide_true.
  - apply not_elem_of_cons in Hn as [Hne Hn]. rewrite bool_decide_false by done. by rewrite IH.
Qed.
(** A doubled field is restored in place; an absent one is left absent. *)
Lemma restore_field_double d pre post name z :
  d = pre ++ (py name, as_double (JInt z)) :: post -> py name ∉ pre.*1 ->
  restore_field d name = pre ++ (py name, JInt z) :: post.
Proof.
  intros -> Hn. unfold restore_field. rewrite dget_middle by done. cbn [as_double].
  by rewrite integral_float_int, dset_middle.
Qed.
Lemma restore_field_absent d name : dget (py name) d = None -> restore_field d name = d.
Proof. unfold restore_field. by intros ->. Qed.
Ltac fresh_key := cbn [fmap list_fmap fst app]; rewrite ?not_elem_of_cons; split_and?; try (by intros ?%py_inj); apply not_elem_of_nil.

(** The wire form, field by field. *)
Lemma credential_dict_fields c :
  _credential_to_dict c =
  [(py "credential_id", JStr (credential_id c)); (py "issuer", JStr (issuer c)); (py "subject", JStr (subject c));
   (py "scope", JArr (map JStr (sorted_set (scope c))))] ++
  (py "depth", JInt (depth c)) :: (py "parent_id", opt_str (parent_id c)) ::
  match not_before c with Some z => [(py "not_before", JInt z)] | None => [] end ++
  match not_after c with Some z => [(py "not_after", JInt z)] | None => [] end ++
  [(py "signature", JStr (signature c))].
Proof.
  assert (forall k v d, k ∉ d.*1 -> dset k v d = d ++ [(k, v)]) as Hs.
  { intros k v d. induction d as [|[k' w] d IH]; cbn [dset app fmap list_fmap fst]; [done|].
    intros [Hne Hn]%not_elem_of_cons. rewrite bool_decide_false by done. by rewrite IH. }
  unfold _credential_to_dict, body. rewrite Hs; [by destruct (not_before c), (not_after c)|].
  destruct (not_before c), (not_after c); fresh_key.
Qed.

(** Restoring undoes the loss: a credential's wire form, its integers turned into
    doubles (of at most 2^53, where every integer is one), is read back unchanged; a
    value that is not integral is left for the parser to refuse. *)
Theorem credential_integers_restored c :
  restore_credential (JObj (through_struct (_credential_to_dict c))) = JObj (_credential_to_dict c).
Proof.
  rewrite credential_dict_fields. cbn [restore_credential RESTORED_FIELDS fold_left]. f_equal.
  unfold through_struct. rewrite !map_app. cbn [map fst snd]. rewrite !map_app.
  assert (as_double (opt_str (parent_id c)) = opt_str (parent_id c)) as -> by by destruct (parent_id c).
  change (as_double (JStr ?s)) with (JStr s).
  erewrite (restore_field_double _ (_ :: _ :: _ :: [_]) _ "depth"); [|reflexivity|fresh_key].
  destruct (not_before c) as [b|]; cbn [map fst snd app].
  - erewrite (restore_field_double _ (_ :: _ :: _ :: _ :: _ :: [_]) _ "not_before"); [|reflexivity|fresh_key].
    destruct (not_after c) as [a|]; cbn [map fst snd app].
    + erewrite (restore_field_double _ (_ :: _ :: _ :: _ :: _ :: _ :: [_]) _ "not_after"); [reflexivity|reflexivity|fresh_key].
    + by rewrite restore_field_absent by (by dlookup).
  - rewrite (restore_field_absent _ "not_before").
    2: { destruct (not_after c); by dlookup. }
    destruct (not_after c) as [a|]; cbn [map fst snd app].
    + erewrite (restore_field_double _ (_ :: _ :: _ :: _ :: _ :: [_]) _ "not_after"); [reflexivity|reflexivity|fresh_key].
    + by rewrite restore_field_absent by (by dlookup).
Qed.
Lemma restore_field_fraction d name r :
  dget (py name) d = Some (JFloat r) -> integral_float r = None -> restore_field d name = d.
Proof. unfold restore_field. by intros -> ->. Qed.

(** Attaching replaces the cA2A metadata of a reused message.  On success the
    Struct is filled from a dict that has under every cA2A key exactly what this
    request writes (no stale optional key survives) and every other key as it was
    read, and the message's extensions, where it has them, list cA2A once more only if
    they did not. *)
Theorem attach_replaces_request message request message'
    (Ha : attach_to_sdk_message message request = (message', Ok tt)) :
  exists d merged, metadata_from_sdk_message message = Ok d /\
    metadata message' = Some (parse_dict merged).1 /\ (parse_dict merged).2 = Ok tt /\
    (forall k, k ∈ CA2A_METADATA_KEYS -> dget k merged = dget k (write_request request [])) /\
    (forall k, k ∉ CA2A_METADATA_KEYS -> dget k merged = dget k d) /\
    match message_extensions message, message_extensions message' with
    | Some l, Some l' => EXTENSION_URI ∈ l' /\ (l' = l \/ EXTENSION_URI ∉ l /\ l' = l ++ [EXTENSION_URI])
    | None, None => True
    | _, _ => False
    end.
Proof.
  unfold attach_to_sdk_message in Ha.
  destruct (metadata_from_sdk_message message) as [d|e] eqn:Hd; cbn [mbind result_bind] in Ha; [|done].
  assert (attach_ca2a_metadata [(py "metadata", JObj d)] request =
    Ok [(py "metadata", JObj (write_request request d))]) as Hat.
  { unfold attach_ca2a_metadata, _attach_target, get_dict. rewrite dget_py. cbn [String.eqb Ascii.eqb Bool.eqb dget].
    unfold update_metadata. rewrite dget_py. cbn [String.eqb Ascii.eqb Bool.eqb default from_option id dset].
    by rewrite bool_decide_true. }
  rewrite Hat in Ha. cbn [mbind result_bind] in Ha. unfold field in Ha. rewrite dget_py in Ha.
  cbn [String.eqb Ascii.eqb Bool.eqb default from_option id get_attr] in Ha.
  destruct (metadata message) as [st|]; [|done].
  destruct (parse_dict (write_request request d)) as [s filled] eqn:Hp. destruct filled as [[]|e]; [|done].
  injection Ha as <-. exists d, (write_request request d). rewrite Hp. split_and!; try done.
  - intros k Hk. destruct (write_lookups request d) as (L1 & L2 & L3 & L4 & L5 & L6 & L7 & L8).
    destruct (write_lookups request []) as (M1 & M2 & M3 & M4 & M5 & M6 & M7 & M8).
    unfold CA2A_METADATA_KEYS in Hk.
    repeat (apply elem_of_cons in Hk as [->|Hk]; [congruence|]). by apply not_elem_of_nil in Hk.
  - intros k Hk. by apply write_other.
  - cbn [message_extensions]. destruct (message_extensions message) as [l|]; [|done].
    cbn [fmap option_fmap option_map]. case_bool_decide as Hin; [by split; [|left]|].
    split; [apply elem_of_app; right; left|right; by split].
Qed.

(** A header opts in exactly when one of its comma-separated values is the URI. *)
Theorem opted_in_spec values :
  opted_in values = true <->
  exists l value item, values = Some l /\ value ∈ l /\ item ∈ split_on 44 value /\ strip tsm.is_space item = EXTENSION_URI.
Proof.
  unfold opted_in. rewrite existsb_exists. setoid_rewrite existsb_exists. setoid_rewrite <-list_elem_of_In.
  setoid_rewrite bool_decide_eq_true. destruct values as [l|]; cbn [default from_option id].
  - split; [intros (v & Hv & i & Hi & H); by exists l, v, i|intros (? & v & i & [= <-] & Hv & Hi & H); eauto].
  - split; [by intros (? & ?%not_elem_of_nil & _)|by intros (? & ? & ? & ? & _)].
Qed.
End properties.

(** ** A concrete card and message *)
Module SdkBridgeExample.
Import AsciiOnly Toy PeerExample AdapterExample CallExample.
(** A lossless Struct. *)
#[export] Instance plain_protobuf : Protobuf :=
  {| json_format := None; a2a_import := None; Struct := dict; message_to_dict s := Ok s;
     parse_dict d := (d, Ok tt); card_fields := pystr |}.
#[export] Instance plain_laws : ProtobufLaws.
Proof. split. intros k v _ _. by eexists. Qed.

Definition ca2a_twice : AgentCard :=
  let ca2a := {| uri := EXTENSION_URI; ext_required := true; params := [] : Struct |} in
  {| signed := false;
     extensions := [ca2a; {| uri := py "urn:other"; ext_required := false; params := [] : Struct |}; ca2a];
     rest := py "card" : card_fields |}.
Definition merged_card : AgentCard := get_ok ca2a_twice (merge_agent_card ca2a_twice callee_node).
Lemma merged_ok : merge_agent_card ca2a_twice callee_node = Ok merged_card.
Proof. apply get_ok_spec. vm_compute. reflexivity. Qed.
#[local] Opaque merged_card.

Lemma merge_then_inspect_witness :
  inspect_agent_card first_by_uri merged_card =
  Ok {| advertised := true; required := Some false; discovered_requirement := Some REQUIRE_NONE; warnings := [] |}.
Proof.
  exact (proj2 (proj2 (proj2 (proj2 (merge_then_inspect ca2a_twice callee_node merged_card plain_laws none_required merged_ok))))).
Defined.

Definition reused : SdkMessage :=
  {| metadata := Some ([(py "topic", JStr (py "x")); (KEY_SEALED_PAYLOAD, JStr (py "stale"))] : Struct);
     message_extensions := Some [] |}.
Definition attached : SdkMessage := (attach_to_sdk_message reused plain).1.
Lemma attached_ok : attach_to_sdk_message reused plain = (attached, Ok tt).
Proof. unfold attached. apply injective_projections; reflexivity. Qed.
#[local] Opaque attached plain.

Lemma attach_replaces_request_witness :
  exists d merged, metadata_from_sdk_message reused = Ok d /\ metadata attached = Some (parse_dict merged).1 /\
    dget KEY_SEALED_PAYLOAD merged = dget KEY_SEALED_PAYLOAD (write_request plain []).
Proof.
  destruct (attach_replaces_request reused plain attached attached_ok) as (d & merged & H1 & H2 & _ & H4 & _).
  exists d, merged. split; [exact H1|]. split; [exact H2|]. apply H4. unfold CA2A_METADATA_KEYS. list_elem.
Defined.
End SdkBridgeExample.
