(* ===== verification/Cli.v ===== *)
(** * The command line ([ca2a_runtime.cli])

    Each command as a function from its parsed arguments and what the machine answers to
    the lines it prints and its exit status.  [argparse] is the standard library's: a
    command starts from the namespace it produces. *)
From S2P Require Export Bootstrap Provenance Dag.
Import revocation verify manifest cedar config dag trace pathlib bootstrap.

(** ** Untyped access to decoded JSON *)

(** [v[k]] with a string key *)
Definition subscript `{U : Unidata} (v : json) (k : pystr) : res json :=
  match v with
  | JObj d => or_raise (dget k d) (PyExc KeyError (py_repr k))
  | JArr _ => Err (PyExc TypeError (py "list indices must be integers or slices, not str"))
  | JStr _ => Err (PyExc TypeError (py "string indices must be integers, not 'str'"))
  | v => Err (PyExc TypeError (py "'" ++ type_name v ++ py "' object is not subscriptable"))
  end.
(** [for x in v] *)
Definition iterate (v : json) : res (list json) :=
  match v with
  | JArr l => Ok l
  | JStr s => Ok (map (fun c => JStr [c]) s)
  | JObj d => Ok (map JStr d.*1)
  | v => Err (PyExc TypeError (py "'" ++ type_name v ++ py "' object is not iterable"))
  end.

Module cli.

(** What a command does that can be seen from outside. *)
Inductive event :=
| Stdout (line : pystr)
| Stderr (line : pystr)
| Listening (host : pystr) (port : Z)
| Closed.
(** The events in order, and the exit status or the exception that escapes. *)
Record Output := { events : list event; status : res Z }.

Definition escape (e : exn) : Output := {| events := []; status := Err e |}.
Definition say (l : list event) (o : Output) : Output := {| events := l ++ events o; status := status o |}.
Definition exit_with (code : Z) : Output := {| events := []; status := Ok code |}.
(** [print(json.dumps(out)); return code] *)
Definition print_json (out : dict) (code : Z) : Output :=
  match dumps (JObj out) with
  | Ok line => say [Stdout line] (exit_with code)
  | Err e => escape e
  end.

(** The arguments the verifying commands share. *)
Record CredentialArgs := {
  arg_trusted_root_issuer : list pystr;
  arg_max_depth : Z;
  arg_at_time : option Z;
  arg_revocations : option pystr;
  arg_max_revocation_staleness : option Z
}.
Definition trusted (a : CredentialArgs) : gset pystr := list_to_set (arg_trusted_root_issuer a).

Inductive Command :=
| ValidateConfig (config : pystr)
| VerifyChain (chain : pystr) (a : CredentialArgs)
| VerifyDag (dag : pystr) (chain : option pystr) (structural_only : bool) (a : CredentialArgs)
| VerifyLineage (dag chain : pystr) (max_age_seconds : option Z) (a : CredentialArgs)
| Start (config : pystr).

(** How serving ends. *)
Inductive Serving := Interrupted | Returned | Failed (e : exn).

(** What the machine answers: files, devices, the clock readings of the chain and of the
    TRACE verifier, [Path.resolve], the generated key and secret, [bind], the flushed
    write of the line that announces the address, and serving.  Every other write to
    standard output or error is taken to succeed. *)
Record World `{C : Crypto} := {
  w_fs : FileSystem;
  w_hw : Hardware;
  w_clock : Z;
  w_trace_clock : Z;
  w_resolve : path -> path;
  w_generated : x_priv;
  w_secret : bytes;
  w_bind : pystr -> Z -> res unit;
  w_announce : res unit;
  w_serve : Serving
}.

Definition file (fs : FileSystem) (s : pystr) : File :=
  {| path_text := str_path (Path s); is_file := fs_is_file fs (Path s); read_text := fs_read_text fs (Path s) |}.
(** [p.parent] *)
Definition parent (p : path) : path := {| root := root p; parts := removelast (parts p) |}.

(** [print(json.dumps({"verified": False, ...})); return 1] *)
Definition not_verified (code text : pystr) : Output :=
  print_json [(py "verified", JBool false); (py "code", JStr code); (py "error", JStr text)] 1.
(** [try: ... except CA2AError as exc: ...], then the rest *)
Definition reporting {A} (m : res A) (k : A -> Output) : Output :=
  match m with
  | Ok a => k a
  | Err (CA2A e) => not_verified (err_code e) (err_message e)
  | Err e => escape e
  end.

Definition _revocation_fields (status : RevocationStatus) : dict :=
  [(py "revocation", JStr (state status))] ++
  (if checked status then [(py "revocation_as_of", from_option JInt JNull (status_as_of status))] else []).

Section cli.
Context `{U : Unidata, C : Crypto, F : FloatText, E : Evidence, M : ManifestSdk, G : CedarEngine, Y : YamlLib,
  T : !TraceLib}.

Definition _cmd_validate_config (fs : FileSystem) (path : pystr) : Output :=
  match load (file fs path) with
  | Ok cfg =>
      say [Stdout (py "ok: provider=" ++ config.provider cfg ++ py " enforcement=" ++ config.enforcement_mode cfg)]
        (exit_with 0)
  | Err (CA2A e) => say [Stderr (py "invalid config: " ++ err_message e)] (exit_with 1)
  | Err e => escape e
  end.

Definition _load_revocations (fs : FileSystem) (a : CredentialArgs) : res (option RevocationSnapshot) :=
  match arg_revocations a with
  | None => Ok None
  | Some p => Some <$> load_revocation_snapshot (file fs p)
  end.

(** What [verify-chain] prints of an accepted chain. *)
Definition chain_summary (result : ChainResult) : dict :=
  [(py "verified", JBool true); (py "hops", JInt (Z.of_N (cr_hops result)));
   (py "leaf_scope", JArr (map JStr (cr_leaf_scope result)))] ++
  _revocation_fields {| checked := cr_revocation_checked result; status_as_of := cr_revocation_as_of result |}.

Definition _cmd_verify_chain (w : World) (chain : pystr) (a : CredentialArgs) : Output :=
  reporting
    (revocations ← _load_revocations (w_fs w) a;
     verify_chain_file (w_clock w) (file (w_fs w) chain) (trusted a) (arg_max_depth a) (arg_at_time a)
       revocations (arg_max_revocation_staleness a))
    (fun result => print_json (chain_summary result) 0).

(** The document, or what it holds under [key]. *)
Definition unwrap (key : pystr) (data : json) : json :=
  match data with
  | JObj d => match dget key d with Some v => v | None => data end
  | _ => data
  end.

Definition _load_chain (fs : FileSystem) (path : pystr) : res (list DelegationCredential) :=
  data ← load_json InvalidCredential "chain file not found: " (file fs path);
  items ← or_raise (match unwrap (py "chain") data with JArr items => Some items | _ => None end)
    (err InvalidCredential
       (py "chain document must be a list or {" ++ [34%N] ++ py "chain" ++ [34%N] ++ py ": [...]}"));
  mapM_res credential.from_dict items.

(** [None if item.get(k) is None else f(item[k])] *)
Definition optional {A} (f : json -> res A) (k : string) (item : dict) : res (option A) :=
  match field k item with JNull => Ok None | v => Some <$> f v end.
(** [frozenset(str(s) for s in v)] *)
Definition str_set (v : json) : res (gset pystr) :=
  items ← iterate v; Ok (list_to_set (map str_of items)).

(** One record of the document, before the handler. *)
Definition parse_record (item : json) : res DelegationRecord :=
  record_id ← subscript item (py "record_id");
  credential_id ← subscript item (py "credential_id");
  subject ← subscript item (py "subject");
  scope ← subscript item (py "scope");
  scope ← str_set scope;
  d ← get_attr item;
  parent_record_hash ← optional (fun v => Ok (str_of v)) "parent_record_hash" d;
  requested_capability ← optional (fun v => Ok (str_of v)) "requested_capability" d;
  effective_scope ← optional str_set "effective_scope" d;
  denial_reason ← optional (fun v => Ok (str_of v)) "denial_reason" d;
  new_record
    {| record_id := str_of record_id; rec_credential_id := str_of credential_id; rec_subject := str_of subject;
       rec_scope := scope; parent_record_hash := parent_record_hash;
       decision := str_of (default (JStr ALLOW) (dget (py "decision") d));
       requested_capability := requested_capability; rec_effective_scope := effective_scope;
       denial_reason := denial_reason;
       caller_attestation := str_of (default (JStr CALLER_NOT_OFFERED) (dget (py "caller_attestation") d)) |}.

Definition is_malformed (e : exn) : bool := is_py KeyError e || is_py TypeError e || is_value_error e.

Definition _load_records (fs : FileSystem) (path : pystr) : res (list DelegationRecord) :=
  data ← load_json ProvenanceLinkBroken "dag file not found: " (file fs path);
  items ← or_raise (match unwrap (py "records") data with JArr items => Some items | _ => None end)
    (err ProvenanceLinkBroken
       (py "dag document must be a list or {" ++ [34%N] ++ py "records" ++ [34%N] ++ py ": [...]}"));
  mapM_res (fun item => try_except (parse_record item) is_malformed
    (fun exc => Err (err_d ProvenanceLinkBroken (py "malformed provenance record") (exn_str exc)))) items.

(** [if args.chain]: an empty path counts as none. *)
Definition given (chain : option pystr) : option pystr :=
  match chain with Some (_ :: _) => chain | _ => None end.

(** The chain of the arguments, verified. *)
Definition verified_chain (w : World) (path : pystr) (a : CredentialArgs) :
    res (list DelegationCredential * RevocationStatus) :=
  chain ← _load_chain (w_fs w) path;
  revocations ← _load_revocations (w_fs w) a;
  revocation ← verify_chain (w_clock w) chain (arg_max_depth a) (trusted a) (arg_at_time a) revocations
    (arg_max_revocation_staleness a);
  Ok (chain, revocation).

(** What [verify-dag] prints of a structurally sound history. *)
Definition dag_summary (records : list DelegationRecord) (leaf : DelegationRecord) (chain : option pystr)
    (revocation : option RevocationStatus) : dict :=
  [(py "verified", JBool false); (py "verification", JStr (py "structural_only"));
   (py "structural_verified", JBool true); (py "code", JStr (py "UNAUTHENTICATED_LINEAGE"));
   (py "records", JInt (Z.of_nat (length records)));
   (py "leaf_scope", JArr (map JStr (sorted_set (rec_scope leaf))));
   (py "leaf_caller_attestation", JStr (caller_attestation leaf))] ++
  (if denied leaf then
     [(py "outcome", JStr (py "denied"));
      (py "requested_capability", opt_str (requested_capability leaf));
      (py "effective_scope", JArr (map JStr (sorted_set (default ∅ (rec_effective_scope leaf)))));
      (py "denial_reason", opt_str (denial_reason leaf))]
   else []) ++
  match given chain with Some _ => [(py "cross_checked", JBool true)] | None => [] end ++
  from_option _revocation_fields [] revocation.

Definition _cmd_verify_dag (w : World) (dag : pystr) (chain : option pystr) (structural_only : bool)
    (a : CredentialArgs) : Output :=
  reporting
    (records ← _load_records (w_fs w) dag;
     records ← verify_dag records;
     revocation ←
       match given chain with
       | Some path =>
           '(chain, revocation) ← verified_chain w path a;
           cross_check_chain records chain;;
           Ok (Some revocation)
       | None => Ok None
       end;
     Ok (records, revocation))
    (fun '(records, revocation) =>
       match last records with
       | Some leaf =>
           print_json (dag_summary records leaf chain revocation) (if structural_only then 0 else 1)
       | None => escape (PyExc IndexError (py "list index out of range"))
       end).

(** The list of JSON objects of a signed DAG. *)
Definition record_objects (data : json) : res (list json) :=
  let data := match data with JObj d => field "records" d | _ => data end in
  or_raise
    match data with
    | JArr l => if forallb (fun r => match r with JObj _ => true | _ => false end) l then Some l else None
    | _ => None
    end
    (err ProvenanceLinkBroken (py "signed DAG must be a list of record objects")).

(** The checks of [verify-lineage]. *)
Definition authenticate_lineage (w : World) (dag chain : pystr) (max_age_seconds : option Z)
    (a : CredentialArgs) : res (RevocationStatus * TraceDagResult) :=
  '(chain, revocation) ← verified_chain w chain a;
  text ← fs_read_text (w_fs w) (Path dag);
  data ← loads text;
  records ← record_objects data;
  keys ← mapM_res (fun c => EdKey <$> ed_public_of_hex (subject c)) chain;
  result ← verify_trace_dag (w_trace_clock w) records keys max_age_seconds;
  cross_check_trace_dag records chain;;
  Ok (revocation, result).

Definition is_malformed_lineage (e : exn) : bool :=
  is_os_error e || is_malformed e || is_py AttributeError e.

(** What [verify-lineage] prints of an authenticated path. *)
Definition lineage_summary (revocation : RevocationStatus) (result : TraceDagResult) : dict :=
  [(py "verified", JBool true); (py "verification", JStr (py "authenticated_lineage"));
   (py "records", JInt (Z.of_N (dag_hops result))); (py "cross_checked", JBool true)] ++
  _revocation_fields revocation.

Definition _cmd_verify_lineage (w : World) (dag chain : pystr) (max_age_seconds : option Z)
    (a : CredentialArgs) : Output :=
  match authenticate_lineage w dag chain max_age_seconds a with
  | Err (PyExc _ _ as exc) =>
      if is_malformed_lineage exc then not_verified (py "MALFORMED_LINEAGE") (exn_str exc) else escape exc
  | m => reporting m (fun '(revocation, result) => print_json (lineage_summary revocation result) 0)
  end.

(** The notes [ca2a start] writes before it binds. *)
Definition start_notes (cfg : Ca2aConfig) (node : node.PeerNode (Pol := CalleePolicy)) : list event :=
  (if bool_decide (config.enforcement_mode cfg = py "enforcing") then []
   else [Stderr (py "note: enforcement_mode=" ++ py_repr (config.enforcement_mode cfg) ++
           py " is accepted in config, but the peer path always fails closed on cA2A denials")]) ++
  (if bool_decide (config.provider cfg = py "software-only")
   then [Stderr (py "note: software-only provider, callers appraise this channel key as assurance=" ++
           [34%N] ++ py "none" ++ [34%N] ++ py " and the seal carries no hardware guarantee")]
   else []) ++
  match node.caller_verifier node with
  | None =>
      [Stderr (py "note: require_caller_attestation=" ++ node.require_caller_attestation node ++
         py " with no caller_verifier; software offers appraise, hardware offers are refused as unappraisable")]
  | Some _ => []
  end.

(** [serve(...)], then [serve_forever] and [server_close] *)
Definition serve_node (w : World) (node : node.PeerNode (Pol := CalleePolicy)) (host : pystr) (port : Z) : Output :=
  match w_bind w host port with
  | Err e =>
      if is_os_error e then
        say [Stderr (py "cannot bind " ++ host ++ py ":" ++ str_int port ++ py ": " ++ exn_str e)] (exit_with 1)
      else escape e
  | Ok _ =>
      match w_announce w with
      | Err e => say [Listening host port] (escape e)
      | Ok _ => say [Listening host port;
           Stdout (py "ca2a listening on " ++ host ++ py ":" ++ str_int port ++ py " (provider=" ++
             tee.provider_platform (node.provider node) ++ py ", require_caller_attestation=" ++
             node.require_caller_attestation node ++ py ")")]
        match w_serve w with
        | Interrupted => say [Stderr (py "ca2a stopped"); Closed] (exit_with 0)
        | Returned => say [Closed] (exit_with 0)
        | Failed e => say [Closed] (escape e)
        end
      end
  end.

Definition _cmd_start (w : World) (path : pystr) : Output :=
  let built :=
    cfg ← load (file (w_fs w) path);
    node ← build_peer_node (w_fs w) (w_hw w) cfg (Some (parent (w_resolve w (Path path))))
      (w_generated w) (w_secret w);
    addr ← listen_host_port cfg;
    Ok (cfg, node, addr) in
  match built with
  | Ok (cfg, node, (host, port)) => say (start_notes cfg node) (serve_node w node host port)
  | Err exc =>
      if is_ca2a ConfigError exc then
        let suffix := match exn_detail exc with
                      | Some (_ :: _ as detail) => py " (" ++ detail ++ py ")" | _ => [] end in
        say [Stderr (py "invalid config: " ++ exn_str exc ++ suffix)] (exit_with 1)
      else escape exc
  end.

(** [parser.error(message)]: the usage text and the message, and SystemExit(2). *)
Definition parser_error (usage message : pystr) : Output :=
  say [Stderr usage; Stderr (py "ca2a: error: " ++ message)] (exit_with 2).

Definition is_some {A} (o : option A) : bool := match o with Some _ => true | None => false end.

(** [args.func(args)] *)
Definition dispatch (w : World) (cmd : Command) : Output :=
  match cmd with
  | ValidateConfig c => _cmd_validate_config (w_fs w) c
  | VerifyChain c a => _cmd_verify_chain w c a
  | VerifyDag d c s a => _cmd_verify_dag w d c s a
  | VerifyLineage d c m a => _cmd_verify_lineage w d c m a
  | Start c => _cmd_start w c
  end.

Definition main (usage : pystr) (w : World) (cmd : Command) : Output :=
  match cmd with
  | VerifyDag _ chain _ a =>
      if is_some (given chain) && bool_decide (arg_trusted_root_issuer a = []) then
        parser_error usage (py "verify-dag with --chain requires --trusted-root-issuer")
      else if negb (is_some (given chain)) &&
              (is_some (arg_revocations a) || is_some (arg_max_revocation_staleness a)) then
        parser_error usage (py "verify-dag revocation options require --chain")
      else dispatch w cmd
  | _ => dispatch w cmd
  end.
End cli.
End cli.
Import cli.

(** ** What the commands print *)
Section output_laws.

Lemma print_json_spec d code :
  (exists line, dumps (JObj d) = Ok line /\ print_json d code = {| events := [Stdout line]; status := Ok code |}) \/
  exists e, dumps (JObj d) = Err e /\ print_json d code = escape e.
Proof. unfold print_json. destruct (dumps (JObj d)) as [line|e]; [left; by exists line|right; by exists e]. Qed.

Lemma print_json_exits d code n :
  status (print_json d code) = Ok n <-> code = n /\ exists line, dumps (JObj d) = Ok line.
Proof.
  destruct (print_json_spec d code) as [(line & -> & ->)|(e & -> & ->)]; cbn.
  - split; [intros ->%ok_inj; eauto|by intros [-> _]].
  - by split; [|intros (_ & ? & ?)].
Qed.
Lemma print_json_events d code line : dumps (JObj d) = Ok line -> events (print_json d code) = [Stdout line].
Proof. unfold print_json. by intros ->. Qed.

(** A refusal is always printed, whatever its text. *)
Lemma not_verified_printed code text :
  exists line, dumps (JObj [(py "verified", JBool false); (py "code", JStr code); (py "error", JStr text)]) = Ok line /\
    not_verified code text = {| events := [Stdout line]; status := Ok 1%Z |}.
Proof. eexists. split; [reflexivity|]. reflexivity. Qed.

Lemma reporting_exits {A} (m : res A) k :
  status (reporting m k) = Ok 0%Z <-> exists a, m = Ok a /\ status (k a) = Ok 0%Z.
Proof.
  unfold reporting. destruct m as [a|[e|c t]].
  - split; [eauto|]. by intros (? & <-%ok_inj & ?).
  - destruct (not_verified_printed (err_code e) (err_message e)) as (line & _ & ->).
    by split; [|intros (? & ? & _)].
  - by split; [|intros (? & ? & _)].
Qed.
Lemma reporting_ok {A} (m : res A) k a : m = Ok a -> reporting m k = k a.
Proof. by intros ->. Qed.
End output_laws.

(** ** The checks of the commands *)
Section laws.
Context `{U : Unidata, C : Crypto, F : FloatText, E : Evidence, M : ManifestSdk, G : CedarEngine, Y : YamlLib,
  T : !TraceLib}.

(** The chain is in order under a trusted root, and the revocation data of the
    arguments established [st]. *)
Definition ChainVerified (w : World) (a : CredentialArgs) chain (st : RevocationStatus) : Prop :=
  args_ok (arg_at_time a) (arg_max_revocation_staleness a) /\
  (exists root rest, chain = root :: rest /\ issuer root ∈ arg_trusted_root_issuer a) /\
  ChainOk (default (w_clock w) (arg_at_time a)) (arg_max_depth a) chain /\
  exists revocations, _load_revocations (w_fs w) a = Ok revocations /\
    revocation_outcome (default (w_clock w) (arg_at_time a)) (arg_at_time a) revocations
      (arg_max_revocation_staleness a) st chain.

Lemma load_revocations_valid fs a o : _load_revocations fs a = Ok o -> forall snap, o = Some snap -> valid_snapshot snap.
Proof.
  unfold _load_revocations. destruct (arg_revocations a) as [p|]; [|by intros <-%ok_inj].
  intros (s & Hs & ->)%fmap_ok snap [= ->]. unfold load_revocation_snapshot in Hs.
  apply bind_ok in Hs as (v & _ & Hs). destruct v as [| | | | | |d]; try done.
  by apply seq_ok in Hs as [_ (items & _ & (l & _ & [? _]%new_snapshot_ok)%bind_ok)%bind_ok].
Qed.

(** Both front ends read one chain from a file. *)
Lemma load_chain_parse fs path :
  _load_chain fs path =
  (data ← load_json InvalidCredential "chain file not found: " (file fs path); _parse_chain data).
Proof.
  unfold _load_chain. destruct (load_json _ _ _) as [data|e]; [|done]. cbn [mbind result_bind].
  unfold _parse_chain. fold (unwrap (py "chain") data). by destruct (unwrap _ data).
Qed.

Lemma verified_chain_ok w path a chain st :
  verified_chain w path a = Ok (chain, st) <->
  _load_chain (w_fs w) path = Ok chain /\ ChainVerified w a chain st.
Proof.
  unfold verified_chain, ChainVerified. rewrite bind_ok. split.
  - intros (c & Hc & (r & Hr & (s & Hs & [= <- <-])%bind_ok)%bind_ok). split; [done|].
    apply verify_chain_ok in Hs as (Ha & (root & rest & -> & Ht) & Hok & Ho);
      [|by apply (load_revocations_valid _ _ _ Hr)].
    split_and!; [done| |done|eauto]. exists root, rest. split; [done|].
    by apply elem_of_list_to_set in Ht.
  - intros (Hc & Ha & (root & rest & -> & Ht) & Hok & r & Hr & Ho). eexists. split; [done|].
    eapply bind_pass; [done|]. eapply bind_pass; [|reflexivity].
    apply verify_chain_ok; [by apply (load_revocations_valid _ _ _ Hr)|].
    split_and!; [done| |done|done]. exists root, rest. split; [done|].
    by apply elem_of_list_to_set.
Qed.

(** The summary of a verified chain. *)
Definition result_of (chain : list DelegationCredential) (st : RevocationStatus) (root leaf : DelegationCredential) : ChainResult :=
  {| cr_hops := N.of_nat (length chain); cr_root_issuer := issuer root; cr_leaf_subject := subject leaf;
           cr_leaf_scope := sorted_set (scope leaf); cr_revocation_checked := checked st;
           cr_revocation_as_of := status_as_of st |}.

(** What [verify-chain] prints of it. *)
Lemma chain_summary_of chain st root leaf :
  chain_summary (result_of chain st root leaf) =
  [(py "verified", JBool true); (py "hops", JInt (Z.of_nat (length chain)));
   (py "leaf_scope", JArr (map JStr (sorted_set (scope leaf))))] ++ _revocation_fields st.
Proof. unfold chain_summary. cbn [result_of cr_hops cr_leaf_scope]. rewrite nat_N_Z. by destruct st. Qed.

(** [verify-chain]'s verification, step by step. *)
Lemma verify_chain_file_ok w path a r :
  (revocations ← _load_revocations (w_fs w) a;
   verify_chain_file (w_clock w) (file (w_fs w) path) (trusted a) (arg_max_depth a) (arg_at_time a)
     revocations (arg_max_revocation_staleness a)) = Ok r <->
  exists chain st root leaf, _load_chain (w_fs w) path = Ok chain /\ ChainVerified w a chain st /\
    head chain = Some root /\ last chain = Some leaf /\
    r = result_of chain st root leaf.
Proof.
  unfold verify_chain_file. split.
  - intros (rv & Hr & (data & Hd & (chain & Hp & (st & ro & l & Hv & ? & ? & ->)%verify_delegation_chain_ok)%bind_ok)%bind_ok)%bind_ok.
    assert (verified_chain w path a = Ok (chain, st)) as [Hc Hok]%verified_chain_ok.
    { unfold verified_chain. rewrite load_chain_parse, Hd. cbn [mbind result_bind].
      rewrite Hp, Hr. cbn [mbind result_bind]. by rewrite Hv. }
    by exists chain, st, ro, l.
  - intros (chain & st & ro & l & Hc & Hok & ? & ? & ->).
    assert (verified_chain w path a = Ok (chain, st)) as Hv by (by apply verified_chain_ok).
    unfold verified_chain in Hv. rewrite load_chain_parse in Hv.
    apply bind_ok in Hv as (c & (data & Hd & Hp)%bind_ok & (rv & Hr & (s & Hs & [= -> ->])%bind_ok)%bind_ok).
    rewrite Hr, Hd. cbn [mbind result_bind]. rewrite Hp. cbn [mbind result_bind].
    apply verify_delegation_chain_ok. by exists st, ro, l.
Qed.

(** [ca2a verify-chain] exits 0 exactly when the file holds a chain that is in order
    under a root of the command line and the revocation data asked for admits it; the
    one line it then prints is the JSON summary of that chain, which always says whether
    revocation was checked. *)
Theorem verify_chain_exit w path a :
  status (_cmd_verify_chain w path a) = Ok 0%Z <->
  exists chain st leaf line,
    _load_chain (w_fs w) path = Ok chain /\ ChainVerified w a chain st /\ last chain = Some leaf /\
    dumps (JObj ([(py "verified", JBool true); (py "hops", JInt (Z.of_nat (length chain)));
                  (py "leaf_scope", JArr (map JStr (sorted_set (scope leaf))))] ++ _revocation_fields st)) = Ok line /\
    events (_cmd_verify_chain w path a) = [Stdout line].
Proof.
  unfold _cmd_verify_chain. rewrite reporting_exits. split.
  - intros (r & Hr & [_ [line Hl]]%print_json_exits). rewrite (reporting_ok _ _ _ Hr).
    apply verify_chain_file_ok in Hr as (chain & st & ro & l & Hc & Hv & _ & Hlast & ->).
    exists chain, st, l, line. split_and!; [done|done|done| |by apply print_json_events].
    by rewrite <-(chain_summary_of chain st ro).
  - intros (chain & st & l & line & Hc & Hv & Hlast & Hl & _).
    destruct (head chain) as [ro|] eqn:Hro; [|by destruct chain].
    eexists. split; [apply verify_chain_file_ok; exists chain, st, ro, l; by split_and!|].
    apply print_json_exits. split; [done|]. exists line. by rewrite chain_summary_of.
Qed.
(** The other verifying commands do not catch ValueError: a negative evaluation time
    escapes from [verify-chain] with no verdict printed. *)
Lemma negative_time_escapes w path a chain revocations z :
  _load_chain (w_fs w) path = Ok chain -> _load_revocations (w_fs w) a = Ok revocations ->
  arg_at_time a = Some z -> (z < 0)%Z ->
  _cmd_verify_chain w path a =
  escape (PyExc ValueError (py "at_time must be a non-negative integer or None")).
Proof.
  intros Hc Hr Ht Hz. rewrite load_chain_parse in Hc. apply bind_ok in Hc as (data & Hd & Hp).
  unfold _cmd_verify_chain. rewrite Hr. cbn [mbind result_bind]. unfold verify_chain_file.
  rewrite Hd. cbn [mbind result_bind]. rewrite Hp. cbn [mbind result_bind].
  unfold verify_delegation_chain, verify_chain. rewrite Ht. cbn [negative]. by rewrite (proj2 (Z.ltb_lt z 0) Hz).
Qed.

(** The keys of a chain's subjects. *)
Definition subject_keys (chain : list DelegationCredential) (raws : list bytes) : Prop :=
  Forall2 (fun c raw => ed_public_of_hex (subject c) = Ok raw) chain raws.

Lemma subject_keys_ok chain keys :
  mapM_res (fun c => EdKey <$> ed_public_of_hex (subject c)) chain = Ok keys <->
  exists raws, keys = map EdKey raws /\ subject_keys chain raws.
Proof.
  rewrite mapM_res_ok. unfold subject_keys. split.
  - induction 1 as [|c k chain keys Hc _ (raws & -> & HF)]; [by exists []|].
    apply fmap_ok in Hc as (raw & Hr & ->). exists (raw :: raws). split; [done|by constructor].
  - intros (raws & -> & HF). induction HF as [|c raw chain raws Hc _ IH]; constructor; [by rewrite Hc|done].
Qed.

Lemma trusted_ed_keys raws : _trusted_raw_keys (map EdKey raws) = Ok (list_to_set raws).
Proof.
  unfold _trusted_raw_keys. rewrite mapM_res_map. eapply bind_pass; [|reflexivity].
  apply mapM_res_ok, Forall_Forall2_diag. by apply Forall_true.
Qed.

(** A signed path: valid records under the keys, linked by their hashes, none repeated. *)
Definition SignedPath (w : World) (max_age : option Z) (raws : list bytes) (records : list dict) : Prop :=
  Forall (RecordOk (w_trace_clock w) (list_to_set raws) max_age) records /\
  (exists hs, trace_linked None records hs /\ NoDup hs) /\
  Forall (fun d => is_Some (dget (py "subject") d)) records.

Lemma signed_path_ok w max_age raws records :
  (exists r, verify_trace_dag (w_trace_clock w) (map JObj records) (map EdKey raws) max_age = Ok r /\
     dag_hops r = N.of_nat (length records)) <->
  records <> [] /\ SignedPath w max_age raws records.
Proof.
  unfold SignedPath. split.
  - intros (r & (tr & ds & hs & Ht & <-%map_JObj_inj & Hne & Hr & Hl & Hn & _ & Hs & _)%verify_trace_dag_ok & _).
    rewrite trusted_ed_keys in Ht. apply ok_inj in Ht as <-. split_and!; [done|done|by exists hs|].
    clear -Hs. induction Hs as [|d s ds ss Hd _ IH]; constructor; [by exists s|done].
  - intros (Hne & Hr & (hs & Hl & Hn) & Hs).
    assert (exists ss, Forall2 subject_of records ss) as [ss Hss].
    { clear -Hs. induction Hs as [|d ds [s Hd] _ [ss IH]]; [by exists []|]. exists (s :: ss). by constructor. }
    exists {| dag_hops := N.of_nat (length records); dag_root_subject := default JNull (head ss);
              dag_leaf_subject := default JNull (last ss); dag_subjects := ss |}.
    split; [|done]. apply verify_trace_dag_ok. exists (list_to_set raws), records, hs.
    destruct Hss as [|d s ds ss]; [done|].
    split_and!; [apply trusted_ed_keys|done|done|done|done|done|done|by constructor|done|apply last_default].
Qed.

(** [verify-lineage]'s checks, step by step. *)
Lemma authenticate_lineage_ok w dag path max_age a st n :
  (exists r, authenticate_lineage w dag path max_age a = Ok (st, r) /\ dag_hops r = n) <->
  exists chain text data records raws,
    _load_chain (w_fs w) path = Ok chain /\ ChainVerified w a chain st /\
    fs_read_text (w_fs w) (Path dag) = Ok text /\ loads text = Ok data /\
    record_objects data = Ok (map JObj records) /\ subject_keys chain raws /\
    SignedPath w max_age raws records /\ hops_under (map JObj records) chain /\ n = N.of_nat (length records).
Proof.
  unfold authenticate_lineage. split.
  - intros (r & ([chain st'] & [Hc Hv]%verified_chain_ok & (text & Ht & (data & Hd & (recs & Hr & (keys & Hk &
      (r' & Hdag & ([] & Hx%cross_check_trace_ok & [= -> ->])%bind_ok)%bind_ok)%bind_ok)%bind_ok)%bind_ok)%bind_ok)%bind_ok & <-).
    apply subject_keys_ok in Hk as (raws & -> & Hk).
    pose proof Hdag as (_ & records & _ & _ & -> & _ & _ & _ & _ & Hn & _)%verify_trace_dag_ok.
    assert (records <> [] /\ SignedPath w max_age raws records) as [_ Hs] by (apply signed_path_ok; by exists r).
    exists chain, text, data, records, raws. by split_and!.
  - intros (chain & text & data & records & raws & Hc & Hv & Ht & Hd & Hr & Hk & Hs & Hx & ->).
    assert (records <> []) as Hne.
    { destruct records; [|done]. destruct Hv as (_ & (ro & rest & -> & _) & _). done. }
    destruct (proj2 (signed_path_ok w max_age raws records) (conj Hne Hs)) as (r & Hdag & Hn).
    exists r. split; [|done]. eapply bind_pass; [by apply verified_chain_ok|].
    eapply bind_pass; [done|]. eapply bind_pass; [done|]. eapply bind_pass; [done|].
    eapply bind_pass; [apply subject_keys_ok; by exists raws|]. eapply bind_pass; [done|].
    eapply bind_pass; [by apply (cross_check_trace_ok _ _ tt)|done].
Qed.

Lemma verify_lineage_exits w dag path max_age a :
  status (_cmd_verify_lineage w dag path max_age a) = Ok 0%Z <->
  exists st r line, authenticate_lineage w dag path max_age a = Ok (st, r) /\
    dumps (JObj (lineage_summary st r)) = Ok line /\
    events (_cmd_verify_lineage w dag path max_age a) = [Stdout line].
Proof.
  unfold _cmd_verify_lineage. destruct (authenticate_lineage _ _ _ _ _) as [[st r]|[e|c t]].
  - cbn [reporting]. rewrite print_json_exits. split.
    + intros [_ [line Hl]]. exists st, r, line. split_and!; [done|done|by apply print_json_events].
    + intros (st' & r' & line & [= <- <-] & Hl & _). split; [done|by exists line].
  - cbn [reporting]. destruct (not_verified_printed (err_code e) (err_message e)) as (line & _ & ->).
    by split; [|intros (? & ? & ? & ? & _)].
  - destruct (is_malformed_lineage _).
    + destruct (not_verified_printed (py "MALFORMED_LINEAGE") (exn_str (PyExc c t))) as (line & _ & ->).
      by split; [|intros (? & ? & ? & ? & _)].
    + by split; [|intros (? & ? & ? & ? & _)].
Qed.

(** C14: [ca2a verify-lineage] exits 0 exactly for an authenticated lineage: the chain
    file holds a chain that is in order under a trusted root and not revoked, the other
    file holds one signed record per credential, each valid and signed by its
    credential's subject, naming the credential and the hash of the record before it,
    and none repeated; the line printed says so, with the number of records and the
    revocation status. *)
Theorem verify_lineage_exit w dag path max_age a :
  status (_cmd_verify_lineage w dag path max_age a) = Ok 0%Z <->
  exists chain st text data records raws line,
    _load_chain (w_fs w) path = Ok chain /\ ChainVerified w a chain st /\
    fs_read_text (w_fs w) (Path dag) = Ok text /\ loads text = Ok data /\
    record_objects data = Ok (map JObj records) /\ subject_keys chain raws /\
    SignedPath w max_age raws records /\ hops_under (map JObj records) chain /\
    dumps (JObj ([(py "verified", JBool true); (py "verification", JStr (py "authenticated_lineage"));
                  (py "records", JInt (Z.of_nat (length records))); (py "cross_checked", JBool true)] ++
                 _revocation_fields st)) = Ok line /\
    events (_cmd_verify_lineage w dag path max_age a) = [Stdout line].
Proof.
  rewrite verify_lineage_exits. split.
  - intros (st & r & line & Hr & Hl & He).
    destruct (proj1 (authenticate_lineage_ok w dag path max_age a st (dag_hops r))) as
      (chain & text & data & records & raws & Hc & Hv & Ht & Hd & Hro & Hk & Hs & Hx & Hn); [by exists r|].
    exists chain, st, text, data, records, raws, line. split_and!; try done.
    rewrite <-Hl. unfold lineage_summary. by rewrite Hn, nat_N_Z.
  - intros (chain & st & text & data & records & raws & line & Hc & Hv & Ht & Hd & Hro & Hk & Hs & Hx & Hl & He).
    destruct (proj2 (authenticate_lineage_ok w dag path max_age a st (N.of_nat (length records)))) as (r & Hr & Hn).
    { by exists chain, text, data, records, raws. }
    exists st, r, line. split_and!; [done| |done]. unfold lineage_summary. by rewrite Hn, nat_N_Z.
Qed.

(** ** Unsigned histories *)

(** What [verify-dag] checked: the structure, and with [--chain] the chain and the
    agreement of the two. *)
Definition DagChecked (w : World) (a : CredentialArgs) (chain : option pystr) (records : list DelegationRecord)
    (revocation : option RevocationStatus) : Prop :=
  DagOk records /\
  match given chain with
  | None => revocation = None
  | Some path => exists creds st, revocation = Some st /\ _load_chain (w_fs w) path = Ok creds /\
      ChainVerified w a creds st /\
      Forall2 hop_of (List.filter (fun r => negb (denied r)) records) creds /\
      forall r, r ∈ records -> denied r = true -> exists c, c ∈ creds /\ hop_of r c
  end.

Lemma dag_checks_ok w dag chain a records rev :
  (records ← _load_records (w_fs w) dag;
   records ← verify_dag records;
   revocation ←
     match given chain with
     | Some path =>
         '(chain, revocation) ← verified_chain w path a;
         cross_check_chain records chain;;
         Ok (Some revocation)
     | None => Ok None
     end;
   Ok (records, revocation)) = Ok (records, rev) <->
  _load_records (w_fs w) dag = Ok records /\ DagChecked w a chain records rev.
Proof.
  unfold DagChecked. split.
  - intros (l & Hl & (l' & [-> Hok]%verify_dag_ok & (rv & Hrv & [= -> ->])%bind_ok)%bind_ok)%bind_ok.
    split_and!; [done|done|]. destruct (given chain) as [path|]; [|by apply ok_inj in Hrv].
    apply bind_ok in Hrv as ([creds st] & [Hc Hv]%verified_chain_ok & ([] & Hx & <-%ok_inj)%bind_ok).
    exists creds, st. split_and!; try done; apply cross_check_spec in Hx; try apply Hx; apply Hv.
  - intros (Hl & Hok & Hrv). eapply bind_pass; [done|]. eapply bind_pass; [by apply verify_dag_ok|].
    eapply bind_pass; [|done]. destruct (given chain) as [path|]; [|by rewrite Hrv].
    destruct Hrv as (creds & st & -> & Hc & Hv & Hx). eapply bind_pass; [by apply verified_chain_ok|].
    eapply bind_pass; [|done]. apply cross_check_spec; [apply Hv|done].
Qed.

(** C15: [ca2a verify-dag] never vouches for an unsigned history.  Whatever it prints says
    "verified": false; it exits 0 only under --structural-only, and then exactly when the
    records are structurally sound and, with --chain, the chain is verified and agrees
    with them. *)
Theorem verify_dag_exit w dag chain structural_only a :
  let o := _cmd_verify_dag w dag chain structural_only a in
  (forall line, Stdout line ∈ events o ->
     exists d, dumps (JObj d) = Ok line /\ dget (py "verified") d = Some (JBool false)) /\
  (status o = Ok 0%Z <->
   structural_only = true /\
   exists records rev leaf line, _load_records (w_fs w) dag = Ok records /\ DagChecked w a chain records rev /\
     last records = Some leaf /\ dumps (JObj (dag_summary records leaf chain rev)) = Ok line).
Proof.
  cbv zeta. unfold _cmd_verify_dag. split.
  - intros line. unfold reporting. destruct (_ ≫= _) as [[records rev]|[e|c t]]; [|destruct (not_verified_printed
      (err_code e) (err_message e)) as (l & Hl & ->)|by intros ?%elem_of_nil].
    + destruct (last records) as [leaf|]; [|by intros ?%elem_of_nil].
      destruct (print_json_spec (dag_summary records leaf chain rev) (if structural_only then 0 else 1)%Z)
        as [(l & Hl & ->)|(e & _ & ->)]; [|by intros ?%elem_of_nil].
      intros [= ->]%list_elem_of_singleton. by eexists.
    + intros [= ->]%list_elem_of_singleton. by eexists.
  - rewrite reporting_exits. split.
    + intros ([records rev] & [Hl Hc]%dag_checks_ok & Hs). destruct (last records) as [leaf|] eqn:Hleaf; [|done].
      apply print_json_exits in Hs as [Hs [line Hd]]. split; [by destruct structural_only|].
      by exists records, rev, leaf, line.
    + intros (-> & records & rev & leaf & line & Hl & Hc & Hleaf & Hd). exists (records, rev).
      split; [by apply dag_checks_ok|]. rewrite Hleaf. apply print_json_exits. split; [done|by exists line].
Qed.

(** ** Verdicts *)
Definition is_verify (cmd : Command) : bool :=
  match cmd with VerifyChain _ _ | VerifyDag _ _ _ _ | VerifyLineage _ _ _ _ => true | _ => false end.

(** The outcome of a verifying command: one line that gives the verdict, or an exception
    of the interpreter and no output. *)
Definition Verdict (cmd : Command) (o : Output) : Prop :=
  (exists d line b n, o = {| events := [Stdout line]; status := Ok n |} /\ dumps (JObj d) = Ok line /\
     dget (py "verified") d = Some (JBool b) /\ (n = 0%Z \/ n = 1%Z) /\ (b = true -> n = 0%Z) /\
     (n = 0%Z -> b = true \/ exists dag chain a, cmd = VerifyDag dag chain true a)) \/
  exists k text, o = escape (PyExc k text).

Lemma verdict_refused cmd code text : Verdict cmd (not_verified code text).
Proof.
  destruct (not_verified_printed code text) as (line & Hl & ->). left.
  eexists _, line, false, 1%Z. split_and!; [done|exact Hl|done|by right|done|done].
Qed.

Lemma dumps_raises v e : dumps v = Err e -> exists k text, e = PyExc k text.
Proof.
  revert e. induction v as [| b | z | f | t | l IH | kvs IH] using json_ind_strong; intros e; try done.
  - cbn [dumps]. intros [[_ ->]%raise_if_err|(_ & _ & ?)]%bind_err; [by eexists _, _|done].
  - cbn [dumps]. intros [(x & Hin & Hx)%mapM_res_err|(? & _ & ?)]%bind_err; [|done].
    rewrite Forall_forall in IH. by eapply IH.
  - cbn [dumps]. intros [([k x] & Hin & Hx)%mapM_res_err|(? & _ & ?)]%bind_err; [|done].
    apply bind_err in Hx as [Hx|(? & _ & ?)]; [|done]. rewrite Forall_forall in IH. by eapply (IH (k, x)).
Qed.

Lemma verdict_printed cmd d b n :
  dget (py "verified") d = Some (JBool b) -> n = 0%Z \/ n = 1%Z -> (b = true -> n = 0%Z) ->
  (n = 0%Z -> b = true \/ exists dag chain a, cmd = VerifyDag dag chain true a) ->
  Verdict cmd (print_json d n).
Proof.
  intros Hb Hn H1 H2. destruct (print_json_spec d n) as [(line & Hl & ->)|(e & He & ->)].
  - left. by exists d, line, b, n.
  - right. destruct (dumps_raises _ _ He) as (k & text & ->). by exists k, text.
Qed.

Lemma verdict_reporting {A} cmd (m : res A) k :
  (forall a, m = Ok a -> Verdict cmd (k a)) -> Verdict cmd (reporting m k).
Proof.
  intros Hk. unfold reporting. destruct m as [a|[e|c t]]; [by apply Hk|apply verdict_refused|].
  right. by exists c, t.
Qed.

(** C16: a verdict is always printed and never contradicts the exit status.  A verifying
    command either prints exactly one line, a JSON object whose "verified" is true only
    with exit status 0, and exit status 0 otherwise means --structural-only was asked
    for; or it is a usage error, exit status 2; or an exception of the interpreter
    escapes and nothing was printed.  No refusal of the library escapes. *)
Theorem verdict_matches_exit usage w cmd (Hc : is_verify cmd = true) :
  Verdict cmd (main usage w cmd) \/
  exists message, main usage w cmd =
    {| events := [Stderr usage; Stderr (py "ca2a: error: " ++ message)]; status := Ok 2%Z |}.
Proof.
  assert (Verdict cmd (dispatch w cmd)) as Hd.
  { destruct cmd as [|path a|dag chain so a|dag path age a|]; try done; cbn [dispatch].
    - apply verdict_reporting. intros r _. apply (verdict_printed _ _ true); [done|by left|done|by left].
    - apply verdict_reporting. intros [records rev] _. destruct (last records) as [leaf|]; [|right; by eexists _, _].
      apply (verdict_printed _ _ false); [done|destruct so; [by left|by right]|done|].
      destruct so; [|done]. right. by exists dag, chain, a.
    - unfold _cmd_verify_lineage. destruct (authenticate_lineage _ _ _ _ _) as [[st r]|[e|c t]].
      + apply (verdict_printed _ _ true); [done|by left|done|by left].
      + apply verdict_refused.
      + destruct (is_malformed_lineage _); [apply verdict_refused|right; by exists c, t]. }
  destruct cmd as [|path a|dag chain so a|dag path age a|]; cbn [main]; try (by left); try done.
  destruct (_ && _); [right; by eexists|]. destruct (_ && _); [right; by eexists|by left].
Qed.

(** ** Record files *)

(** The documents a history is written as: its bodies in a list, bare or under "records". *)
Definition records_document (l : list DelegationRecord) (doc : json) : Prop :=
  let bodies := JArr (map (fun r => JObj (record_body r)) l) in
  doc = bodies \/ doc = JObj [(py "records", bodies)].

Lemma str_set_sorted s : str_set (strs_json s) = Ok s.
Proof.
  unfold str_set, strs_json. cbn [iterate mbind result_bind]. f_equal. rewrite map_map. cbn [str_of].
  rewrite map_id. apply set_eq. intros x. rewrite elem_of_list_to_set. apply elem_of_sorted_set.
Qed.

Lemma optional_str (o : option pystr) k (d : dict) :
  field k d = opt_str o -> optional (fun v => Ok (str_of v)) k d = Ok o.
Proof. unfold optional. intros ->. by destruct o. Qed.
Lemma optional_set (o : option (gset pystr)) k (d : dict) :
  field k d = from_option strs_json JNull o -> optional str_set k d = Ok o.
Proof. unfold optional. intros ->. destruct o as [s|]; [|done]. change (Some <$> str_set (strs_json s) = Ok (Some s)).
  by rewrite str_set_sorted. Qed.
Lemma default_fmap {A} (f : A -> json) (o : option A) : default JNull (f <$> o) = from_option f JNull o.
Proof. by destruct o. Qed.

Lemma parse_record_body r : parse_record (JObj (record_body r)) = new_record r.
Proof.
  destruct (record_body_lookups r) as (A1 & A2 & A3 & A4 & A5 & A6 & A7 & A8 & A9 & A10).
  unfold parse_record. cbn [subscript get_attr]. rewrite A1, A2, A3, A4. cbn [or_raise mbind result_bind].
  rewrite str_set_sorted. cbn [mbind result_bind].
  rewrite (optional_str (parent_record_hash r) "parent_record_hash") by (by unfold field; rewrite A5).
  cbn [mbind result_bind].
  rewrite (optional_str (requested_capability r) "requested_capability") by (unfold field; rewrite A8; by destruct (requested_capability r)).
  cbn [mbind result_bind].
  rewrite (optional_set (rec_effective_scope r) "effective_scope") by (unfold field; rewrite A9; by destruct (rec_effective_scope r)).
  cbn [mbind result_bind].
  rewrite (optional_str (denial_reason r) "denial_reason") by (unfold field; rewrite A10; by destruct (denial_reason r)).
  cbn [mbind result_bind]. rewrite A6, A7. f_equal.
  case_bool_decide as Hd; destruct r; cbn in *; by rewrite ?Hd.
Qed.

Lemma records_document_wf l doc : records_document l doc -> wf_json doc.
Proof.
  assert (wf_json (JArr (map (fun r => JObj (record_body r)) l))) as H.
  { apply wf_json_arr, Forall_map, Forall_forall. intros r _. apply flat_dict_wf, record_body_flat. }
  intros [->| ->]; [done|]. apply wf_json_obj. split; [apply NoDup_singleton|by repeat constructor].
Qed.

Lemma load_records_document fs path l doc :
  records_document l doc -> Forall (fun r => caller_attestation r ∈ CALLER_ATTESTATION_VALUES) l ->
  in_domain doc = true -> holds (file fs path) doc -> _load_records fs path = Ok l.
Proof.
  intros Hdoc Hl Hd Hh. unfold _load_records.
  rewrite (load_json_holds _ _ _ _ (records_document_wf _ _ Hdoc) Hd Hh). cbn [mbind result_bind].
  assert (unwrap (py "records") doc = JArr (map (fun r => JObj (record_body r)) l)) as ->.
  { by destruct Hdoc as [->| ->]. }
  cbn [or_raise mbind result_bind]. rewrite mapM_res_map.
  apply mapM_res_ok, Forall_Forall2_diag. eapply Forall_impl; [done|]. intros r Hr.
  rewrite parse_record_body. unfold new_record. by rewrite bool_decide_true.
Qed.

(** A stored history is judged as the history it stores.  When the file holds the
    [json.dumps] text of the bodies of records, bare or under "records", the records
    load unchanged, so every hash is what it was, and without a chain
    [ca2a verify-dag --structural-only] exits 0 exactly when [verify_dag] accepts them. *)
Theorem stored_history_verifies w path l doc a
    (Hdoc : records_document l doc) (Hl : Forall (fun r => caller_attestation r ∈ CALLER_ATTESTATION_VALUES) l)
    (Hd : in_domain doc = true) (Hh : holds (file (w_fs w) path) doc) :
  _load_records (w_fs w) path = Ok l /\
  (status (_cmd_verify_dag w path None true a) = Ok 0%Z <->
   DagOk l /\ forall leaf, last l = Some leaf -> exists line, dumps (JObj (dag_summary l leaf None None)) = Ok line).
Proof.
  pose proof (load_records_document _ _ _ _ Hdoc Hl Hd Hh) as Hload. split; [done|].
  unfold _cmd_verify_dag. rewrite reporting_exits. split.
  - intros ([records rev] & [Hl' [Hok Hrev]]%dag_checks_ok & Hs). rewrite Hload in Hl'. apply ok_inj in Hl' as <-.
    cbn [given] in Hrev. subst rev. split; [done|]. intros leaf Hleaf. rewrite Hleaf in Hs.
    by apply print_json_exits in Hs as [_ ?].
  - intros [Hok Hp]. exists (l, None). split; [by apply dag_checks_ok|].
    destruct (last l) as [leaf|] eqn:Hleaf; [|by apply last_None in Hleaf as ->; destruct Hok].
    apply print_json_exits. split; [done|by apply Hp].
Qed.

(** ** Serving *)

Lemma load_wf p c : load p = Ok c -> wf_config c.
Proof.
  unfold load. intros [_ (text & _ & (data & _ & (d & _ & H)%bind_ok)%bind_ok)%bind_ok]%seq_ok. by eapply config_sound.
Qed.

Definition is_listening (ev : event) : bool := match ev with Listening _ _ => true | _ => false end.
Lemma notes_not_listening cfg node : Forall (fun ev => is_listening ev = false) (start_notes cfg node).
Proof.
  unfold start_notes. do 2 case_bool_decide; destruct (node.caller_verifier node); repeat constructor.
Qed.

(** The end of a run that listened: the socket is closed last, unless the line that
    announces the address could not be written. *)
Definition closed_last (w : World) (post : list event) (o : res Z) : Prop :=
  match w_announce w with
  | Ok _ => last post = Some Closed
  | Err e => post = [] /\ o = Err e
  end.

(** Serving listens once, with all other events besides, and closes last. *)
Lemma serve_node_events w node host port :
  (w_bind w host port = Ok tt /\ exists post, events (serve_node w node host port) = Listening host port :: post /\
     Forall (fun ev => is_listening ev = false) post /\
     closed_last w post (status (serve_node w node host port))) \/
  (Forall (fun ev => is_listening ev = false) (events (serve_node w node host port)) /\
   status (serve_node w node host port) <> Ok 0%Z).
Proof.
  unfold serve_node. destruct (w_bind w host port) as [[]|e].
  - left. split; [done|]. unfold closed_last.
    destruct (w_announce w); [destruct (w_serve w)|]; eexists; (split; [reflexivity|]); (split; [repeat constructor|done]).
  - right. destruct (is_os_error e); cbn; (split; [repeat constructor|done]).
Qed.

(** C17: [ca2a start] listens only for a validated configuration, on its own address, and
    closes the socket however serving ends.  If it listens, the configuration loaded and
    is valid, the node was built from it, the address is the configured one, it listens
    once, and closing the socket is the last thing done; only a failed write of the line
    that announces the address, which the code puts before the [try], ends the command
    with that error and the socket open.  Exit status 0 means it did listen. *)
Theorem start_serves_validated w path :
  let o := _cmd_start w path in
  (forall host port, Listening host port ∈ events o ->
     (exists cfg node, load (file (w_fs w) path) = Ok cfg /\ wf_config cfg /\
        build_peer_node (w_fs w) (w_hw w) cfg (Some (parent (w_resolve w (Path path)))) (w_generated w) (w_secret w) =
          Ok node /\
        ListenAddr (listen_addr cfg) host port /\ w_bind w host port = Ok tt) /\
     exists pre post, events o = pre ++ Listening host port :: post /\
       Forall (fun ev => is_listening ev = false) (pre ++ post) /\ closed_last w post (status o)) /\
  (status o = Ok 0%Z -> exists host port, Listening host port ∈ events o).
Proof.
  cbv zeta. unfold _cmd_start.
  assert (forall l h p, Forall (fun ev => is_listening ev = false) l -> Listening h p ∈ l -> False) as Hno.
  { intros l h p Hl Hin. rewrite Forall_forall in Hl. by specialize (Hl _ Hin). }
  destruct (_ ≫= _) as [[[cfg node] [host port]]|exc] eqn:Hb.
  2: { destruct (is_ca2a ConfigError exc); cbn; split; try done; intros h p Hin;
         (eapply Hno in Hin; [done|repeat constructor]). }
  apply bind_ok in Hb as (cfg' & Hload & (node' & Hnode & (addr & Haddr & [= -> -> ->])%bind_ok)%bind_ok).
  apply split_listen_addr_ok in Haddr as (s & [= <-] & Haddr).
  pose proof (load_wf _ _ Hload) as Hwf. pose proof (notes_not_listening cfg node) as Hnotes.
  cbn [say events status].
  destruct (serve_node_events w node host port) as [(Hbind & post & He & Hpost & Hlast)|[Hq Hs]].
  - rewrite He. split.
    + intros h p [Hin|[[= -> ->]|Hin]%elem_of_cons]%elem_of_app; [destruct (Hno _ _ _ Hnotes Hin)| |destruct (Hno _ _ _ Hpost Hin)].
      split; [by exists cfg, node|]. exists (start_notes cfg node), post. split_and!; [done|by apply Forall_app|done].
    + intros _. exists host, port. apply elem_of_app. right. left.
  - split; [|done]. intros h p [Hin|Hin]%elem_of_app; [destruct (Hno _ _ _ Hnotes Hin)|destruct (Hno _ _ _ Hq Hin)].
Qed.
End laws.

(** ** A concrete machine *)
Module CliExample.
Import AsciiOnly Toy BootstrapExample ProvenanceExample DagExample TpmExample.
#[export] Instance json_yaml : YamlLib :=
  {| safe_load s := match loads s with Ok v => Ok v | Err _ => Err (Declared []) end |}.

(** Every file holds one document. *)
Definition disk (v : json) : FileSystem :=
  {| fs_is_file _ := true; fs_read_text _ := Ok (get_ok [] (dumps v)); fs_read_bytes _ := Err (PyExc OSError []) |}.
Definition machine (v : json) : World (C := toy) :=
  {| w_fs := disk v; w_hw := plain_host; w_clock := 150; w_trace_clock := 150; w_resolve p := p;
     w_generated := 5%N; w_secret := []; w_bind _ _ := Ok tt; w_announce := Ok tt; w_serve := Interrupted |}.
Definition options : CredentialArgs :=
  {| arg_trusted_root_issuer := []; arg_max_depth := 8; arg_at_time := None; arg_revocations := None;
     arg_max_revocation_staleness := None |}.

Definition one_record : DelegationRecord :=
  {| record_id := py "r0"; rec_credential_id := py "c0"; rec_subject := py "agent";
     rec_scope := {[py "read"]}; parent_record_hash := None; decision := ALLOW; requested_capability := None;
     rec_effective_scope := None; denial_reason := None; caller_attestation := CALLER_NOT_OFFERED |}.
Definition stored : json := JArr [JObj (record_body one_record)].
Lemma stored_doc : records_document [one_record] stored.
Proof. by left. Qed.
Lemma stored_values : Forall (fun r => caller_attestation r ∈ CALLER_ATTESTATION_VALUES) [one_record].
Proof. constructor; [by apply elem_of_keys_py|constructor]. Qed.
Lemma stored_domain : in_domain stored = true.
Proof. vm_compute. reflexivity. Qed.
Lemma stored_held : holds (file (disk stored) (py "dag.json")) stored.
Proof. split; [done|]. exists (get_ok [] (dumps stored)). split; [apply get_ok_spec; vm_compute; reflexivity|done]. Qed.
Lemma stored_summary_printed : exists line, dumps (JObj (dag_summary [one_record] one_record None None)) = Ok line.
Proof. exists (get_ok [] (dumps (JObj (dag_summary [one_record] one_record None None)))). apply get_ok_spec. vm_compute. reflexivity. Qed.
Lemma stored_ok : DagOk [one_record].
Proof. split; [done|]. split; [apply NoDup_singleton|]. apply linked_root; [done|apply linked_nil]. Qed.

Lemma stored_history_verifies_witness :
  status (_cmd_verify_dag (machine stored) (py "dag.json") None true options) = Ok 0%Z.
Proof.
  apply (stored_history_verifies (machine stored) (py "dag.json") [one_record] stored options
    stored_doc stored_values stored_domain stored_held).
  split; [exact stored_ok|]. intros leaf Hleaf. injection Hleaf as <-. exact stored_summary_printed.
Defined.

Lemma verdict_matches_exit_witness :
  let o := main (py "usage: ca2a") (machine stored) (VerifyDag (py "dag.json") None false options) in
  Verdict (VerifyDag (py "dag.json") None false options) o.
Proof.
  destruct (verdict_matches_exit (py "usage: ca2a") (machine stored)
    (VerifyDag (py "dag.json") None false options) eq_refl) as [H|[message H]]; [exact H|].
  exfalso. apply (f_equal (fun o => length (events o))) in H. vm_compute in H. discriminate H.
Defined.
End CliExample.
