(* ===== verification/Acceptance.v ===== *)
(** * The hardware acceptance run ([ca2a_runtime.hardware_acceptance])

    The receipt log, the spans it records, the observed SNP provider and the observed
    verifier of peer reports. *)
From S2P Require Export Cli SevSnp.
Import tee attestation sev_snp pathlib bootstrap cli.

Module acceptance.

(** The receipt file as the lines in it, and what the process reads while it appends:
    the wall clock as text, a duration and a random token, and whether the file opens. *)
Record Recorder := {
  run_id : pystr;
  now_text : list pystr -> pystr;
  elapsed_seconds : list pystr -> pystr;
  operation_id : list pystr -> pystr;
  open_log : list pystr -> res unit
}.

(** A computation that appends receipts. *)
Definition logged (A : Type) : Type := list pystr -> list pystr * res A.
#[export] Instance logged_ret : MRet logged := fun _ a log => (log, Ok a).
#[export] Instance logged_bind : MBind logged := fun _ _ f m log =>
  match m log with
  | (log, Ok a) => f a log
  | (log, Err e) => (log, Err e)
  end.
Definition unlogged {A} (m : res A) : logged A := fun log => (log, m).

(** [json.dumps(v, sort_keys=True)] sorts the keys of every object. *)
Fixpoint sort_keys (v : json) : json :=
  match v with
  | JArr l => JArr (map sort_keys l)
  | JObj kvs => JObj (sort_by fst (map (fun kv => (kv.1, sort_keys kv.2)) kvs))
  | v => v
  end.

Section log.
Context (R : Recorder).

Definition entry (log : list pystr) (event : string) (values : dict) : dict :=
  [(py "schema", JStr (py "ca2a-mutual-hardware-observation-v1")); (py "run_id", JStr (run_id R));
   (py "time", JStr (now_text R log)); (py "event", JStr (py event));
   (py "evidence_scope", JStr (py "local observation; unsigned"))] ++ values.

(** [ReceiptLog.write] *)
Definition write (event : string) (values : dict) : logged unit := fun log =>
  match open_log R log;; dumps (sort_keys (JObj (entry log event values))) with
  | Ok text => (log ++ [text ++ [10%N]], Ok tt)
  | Err e => (log, Err e)
  end.

(** The work of a span and the receipt of its end. *)
Definition finish {A} (stage : string) (values : dict) (body : logged A) : logged A := fun log =>
  let receipt log := [(py "stage", JStr (py stage)); (py "elapsed_seconds", JFloat (elapsed_seconds R log))] in
  match body log with
  | (log, Ok a) => (write "operation_completed" (receipt log ++ values);; (mret a : logged A)) log
  | (log, Err exc) =>
      (write "operation_failed" (receipt log ++ [(py "error_type", JStr (exn_name exc))] ++ values);;
       (unlogged (Err exc) : logged A)) log
  end.
(** [with log.span(stage, **values): body] *)
Definition span {A} (stage : string) (values : dict) (body : logged A) : logged A := fun log =>
  let values := values ++ [(py "operation_id", JStr (operation_id R log))] in
  (write "operation_started" ([(py "stage", JStr (py stage))] ++ values);; finish stage values body) log.

Definition _nonce_hash (nonce : pystr) : res pystr := b ← encode_utf8 nonce; Ok (sha256_hex b).

(** [ObservedSnpProvider.attest] *)
Definition observed_attest (inner : Provider) (public_key nonce role : pystr) : logged AttestationReport :=
  h ← unlogged (_nonce_hash nonce);
  span "local_quote_collection" [(py "nonce_sha256", JStr h)]
    (unlogged (if bool_decide (role = ROLE_CALLEE) then attest inner public_key nonce ROLE_CALLEE
               else attest inner public_key nonce role)).

(** [attest_channel] over the observed provider, which it calls once. *)
Definition observed_attest_channel `{U : Unidata} (inner : Provider) (public_key nonce role : pystr) :
    logged ChannelOffer :=
  report ← observed_attest inner public_key nonce role;
  unlogged (attest_channel
    {| provider_platform := provider_platform inner; detect := detect inner; attest _ _ _ := Ok report |}
    public_key nonce role).
(** [ObservedNode.offer]; the node's provider is the observed one's inner provider. *)
Definition observed_offer `{U : Unidata, C : Crypto, Pol : Type} (n : node.PeerNode (Pol := Pol)) (nonce : pystr) :
    logged ChannelOffer :=
  h ← unlogged (_nonce_hash nonce);
  span "receiver_offer" [(py "nonce_sha256", JStr h)]
    (observed_attest_channel (node.provider n) (node.channel_public_key n) nonce ROLE_CALLEE).

Section verifier.
Context `{U : Unidata, E : Evidence} (fingerprint : cert -> bytes).

Definition real_provider (hw : Hardware) : res Provider :=
  raise_if (negb (detect (SevSnpProvider hw)))
    (err AttestationUnsupported (py "acceptance run requires a real non-paravisor SNP guest"));;
  Ok (SevSnpProvider hw).

(** [(base / v).read_bytes()] *)
Definition read_below (fs : FileSystem) (base : path) (v : json) : res bytes :=
  s ← or_raise (any_str v)
    (PyExc TypeError (py "unsupported operand type(s) for /: 'PosixPath' and '" ++ type_name v ++ py "'"));
  fs_read_bytes fs (joinpath base (Path s)).
(** An explicit array of strings. *)
Definition platform_policy (fields : json) : res (list pystr) :=
  or_raise (l ← any_list fields; mapM any_str l)
    (PyExc ValueError (py "platform policies must be explicit JSON string arrays")).

(** The observed verifier [build_verifier] returns. *)
Definition recorded (verify : Verifier) (report : AttestationReport) (nonce : pystr) : logged pystr := fun log =>
  match
    (h ← unlogged (_nonce_hash nonce);
     span "peer_quote_verification" [(py "nonce_sha256", JStr h)] (unlogged (verify report nonce))) log
  with
  | (log, Err exc) =>
      if is_ca2a AttestationFailed exc then
        (write "peer_appraisal" [(py "accepted", JBool false)];; unlogged (Err exc)) log
      else (log, Err exc)
  | (log, Ok measurement) =>
      (key_hash ← unlogged (_nonce_hash (public_key report));
       nonce_hash ← unlogged (_nonce_hash nonce);
       write "peer_appraisal"
         [(py "accepted", JBool true); (py "measurement", JStr measurement);
          (py "report_sha256", JStr (sha256_hex (default [] (raw_evidence report))));
          (py "channel_key_sha256", JStr key_hash); (py "nonce_sha256", JStr nonce_hash)];;
       mret measurement) log
  end.

(** The pinned verifier of the configuration, and the receipt of its policy.  A
    [min_guest_svn] that is no integer fails the check of its range. *)
Definition pinned_verifier (fs : FileSystem) (config : json) (base : path) : res (Verifier * dict) :=
  roots_path ← subscript config (py "trusted_roots");
  roots_pem ← read_below fs base roots_path;
  roots ← value_error (load_pem_x509_certificates roots_pem);
  chain_path ← subscript config (py "vcek_chain");
  chain_pem ← read_below fs base chain_path;
  chain ← value_error (load_pem_x509_certificates chain_pem);
  raise_if (bool_decide (length roots = 0%nat) || bool_decide (length chain = 0%nat))
    (PyExc ValueError (py "trusted_roots and vcek_chain must contain certificates"));;
  required ← subscript config (py "require_platform");
  forbidden ← subscript config (py "forbid_platform");
  required_fields ← platform_policy required;
  forbidden_fields ← platform_policy forbidden;
  reject ← subscript config (py "reject_unrecognized_platform_bits");
  reject_unknown ← or_raise (match reject with JBool b => Some b | _ => None end)
    (PyExc ValueError (py "reject_unrecognized_platform_bits must be a boolean"));
  expected ← subscript config (py "expected_measurement");
  expected_hex ← or_raise (any_str expected)
    (PyExc TypeError (py "fromhex() argument must be str, not " ++ type_name expected));
  expected_measurement ← value_error (fromhex expected_hex);
  svn ← subscript config (py "min_guest_svn");
  verify ← sev_snp_verifier roots chain expected_measurement (match svn with JInt z => z | _ => -1 end)
    (list_to_set required_fields) (list_to_set forbidden_fields) reject_unknown;
  Ok (verify,
      [(py "expected_measurement", expected); (py "min_guest_svn", svn); (py "debug_allowed", JBool false);
       (py "required_vmpl", JInt 0);
       (py "root_sha256", JArr (map (fun root => JStr (hex (fingerprint root))) roots));
       (py "require_platform", required); (py "forbid_platform", forbidden);
       (py "reject_unrecognized_platform_bits", JBool reject_unknown)]).

Definition build_verifier (fs : FileSystem) (config : json) (base : path) :
    logged (AttestationReport -> pystr -> logged pystr) :=
  '(verify, policy) ← unlogged (pinned_verifier fs config base);
  write "verification_policy" policy;;
  mret (recorded verify).
End verifier.
End log.
End acceptance.
Import acceptance.

(** ** Receipts *)
Section receipt_laws.
Context (R : Recorder).

(** The line of a receipt. *)
Definition Receipt (log : list pystr) (event : string) (values : dict) (line : pystr) : Prop :=
  (exists u, open_log R log = Ok u) /\
  exists text, dumps (sort_keys (JObj (entry R log event values))) = Ok text /\ line = text ++ [10%N].

Lemma write_spec event values log :
  (exists line, Receipt log event values line /\ write R event values log = (log ++ [line], Ok tt)) \/
  exists e, write R event values log = (log, Err e).
Proof.
  unfold write. destruct (open_log R log;; dumps _) as [text|e] eqn:H; [left|right; by exists e].
  apply seq_ok in H as [Ho Hd]. exists (text ++ [10%N]). split; [|done]. split; [done|]. by exists text.
Qed.

Lemma receipt_written event values log line :
  Receipt log event values line -> write R event values log = (log ++ [line], Ok tt).
Proof. intros [[u Ho] (text & Hd & ->)]. unfold write. rewrite Ho. cbn [mbind result_bind]. by rewrite Hd. Qed.

(** Values whose JSON text always exists, whatever their text. *)
Definition always_prints (v : json) : bool :=
  match v with JNull | JBool _ | JStr _ | JFloat _ => true | _ => false end.

Lemma dumps_sorted_flat (d : dict) :
  forallb (fun kv => always_prints kv.2) d = true -> exists text, dumps (sort_keys (JObj d)) = Ok text.
Proof.
  intros H. cbn [sort_keys]. set (kvs := sort_by fst _).
  assert (Forall (fun kv => exists t, dumps kv.2 = Ok t) kvs) as HF.
  { unfold kvs. rewrite sort_by_perm. apply forallb_Forall in H. apply Forall_map.
    eapply Forall_impl; [exact H|]. intros [k v] Hv. cbn [fst snd] in *. destruct v; try done; by eexists. }
  assert (exists parts, Forall2 (fun kv p => exists t, dumps kv.2 = Ok t /\
    p = dumps_string kv.1 ++ [58%N; 32%N] ++ t) kvs parts) as [parts Hp].
  { clear -HF. induction HF as [|kv l [t Ht] _ [ps IH]]; [by exists []|].
    eexists (_ :: ps). constructor; [by exists t|done]. }
  eexists. apply dumps_obj_ok. eauto.
Qed.

Lemma receipt_exists log event values :
  (exists u, open_log R log = Ok u) -> forallb (fun kv => always_prints kv.2) values = true ->
  exists line, Receipt log event values line.
Proof.
  intros Ho Hv. destruct (dumps_sorted_flat (entry R log event values)) as [text Ht]; [exact Hv|].
  exists (text ++ [10%N]). split; [done|by exists text].
Qed.

(** The values of a started span. *)
Definition operation_values (log : list pystr) (values : dict) : dict :=
  values ++ [(py "operation_id", JStr (operation_id R log))].

(** The receipt of a span's end. *)
Definition EndReceipt {A} (stage : string) (values : dict) (log : list pystr) (r : res A) (line : pystr) : Prop :=
  match r with
  | Ok _ =>
      Receipt log "operation_completed"
        ([(py "stage", JStr (py stage)); (py "elapsed_seconds", JFloat (elapsed_seconds R log))] ++ values) line
  | Err exc =>
      Receipt log "operation_failed"
        ([(py "stage", JStr (py stage)); (py "elapsed_seconds", JFloat (elapsed_seconds R log))] ++
         [(py "error_type", JStr (exn_name exc))] ++ values) line
  end.

Lemma finish_spec {A} stage values (body : logged A) log log1 r :
  body log = (log1, r) ->
  (exists line, EndReceipt stage values log1 r line /\ finish R stage values body log = (log1 ++ [line], r)) \/
  exists e, finish R stage values body log = (log1, Err e).
Proof.
  intros Hb. unfold finish, EndReceipt. rewrite Hb. destruct r as [a|exc];
    unfold mbind, logged_bind.
  - destruct (write_spec "operation_completed" ([(py "stage", JStr (py stage));
      (py "elapsed_seconds", JFloat (elapsed_seconds R log1))] ++ values) log1) as [(line & Hr & ->)|[e ->]];
      [left; by exists line|right; by exists e].
  - destruct (write_spec "operation_failed" ([(py "stage", JStr (py stage));
      (py "elapsed_seconds", JFloat (elapsed_seconds R log1))] ++ [(py "error_type", JStr (exn_name exc))] ++ values)
      log1) as [(line & Hr & ->)|[e ->]]; [left; by exists line|right; by exists e].
Qed.

(** A span brackets its work.  Work runs only after its start has been written; what
    it logs follows the start, and then comes exactly one receipt of its end, completed
    when it returned and failed with its error's class when it raised, and its outcome is
    passed on; only a log that cannot be written replaces that outcome, by an error. *)
Theorem span_bracketed {A} stage values (body : logged A) log :
  (exists e, span R stage values body log = (log, Err e)) \/
  exists start log1 r,
    Receipt log "operation_started" ([(py "stage", JStr (py stage))] ++ operation_values log values) start /\
    body (log ++ [start]) = (log1, r) /\
    ((exists line, EndReceipt stage (operation_values log values) log1 r line /\
        span R stage values body log = (log1 ++ [line], r)) \/
     exists e, span R stage values body log = (log1, Err e)).
Proof.
  unfold span. unfold mbind, logged_bind. fold (operation_values log values).
  destruct (write_spec "operation_started" ([(py "stage", JStr (py stage))] ++ operation_values log values) log)
    as [(start & Hr & ->)|[e ->]]; [right|left; by exists e].
  destruct (body (log ++ [start])) as [log1 r] eqn:Hb. exists start, log1, r. split_and!; [done|done|].
  by apply finish_spec.
Qed.

(** With a log that can be written, the outcome of the work is the outcome of the span. *)
Lemma span_outcome {A} stage values (body : logged A) log :
  (forall l, exists u, open_log R l = Ok u) -> forallb (fun kv => always_prints kv.2) values = true ->
  exists start, (span R stage values body log).2 = (body (log ++ [start])).2.
Proof.
  intros Ho Hv. assert (forallb (fun kv => always_prints kv.2) (operation_values log values) = true) as Hv'.
  { unfold operation_values. by rewrite forallb_app, Hv. }
  destruct (receipt_exists log "operation_started" ([(py "stage", JStr (py stage))] ++ operation_values log values))
    as [start Hs]; [done|exact Hv'|].
  exists start. unfold span. unfold mbind, logged_bind. fold (operation_values log values).
  rewrite (receipt_written _ _ _ _ Hs). unfold finish. destruct (body (log ++ [start])) as [log1 r].
  assert (exists line, EndReceipt stage (operation_values log values) log1 r line) as [line Hl].
  { destruct r; apply receipt_exists; try done; exact Hv'. }
  destruct r; unfold mbind, logged_bind; by rewrite (receipt_written _ _ _ _ Hl).
Qed.
Lemma span_transparent {A} stage values (m : res A) log :
  (forall l, exists u, open_log R l = Ok u) -> forallb (fun kv => always_prints kv.2) values = true ->
  exists start line,
    Receipt log "operation_started" ([(py "stage", JStr (py stage))] ++ operation_values log values) start /\
    EndReceipt stage (operation_values log values) (log ++ [start]) m line /\
    span R stage values (unlogged m) log = (log ++ [start; line], m).
Proof.
  intros Ho Hv. assert (forallb (fun kv => always_prints kv.2) (operation_values log values) = true) as Hv'.
  { unfold operation_values. by rewrite forallb_app, Hv. }
  destruct (receipt_exists log "operation_started" ([(py "stage", JStr (py stage))] ++ operation_values log values))
    as [start Hs]; [done|exact Hv'|].
  assert (exists line, EndReceipt stage (operation_values log values) (log ++ [start]) m line) as [line Hl].
  { destruct m; apply receipt_exists; try done; exact Hv'. }
  exists start, line. split_and!; [done|done|]. unfold span. unfold mbind, logged_bind.
  fold (operation_values log values). rewrite (receipt_written _ _ _ _ Hs). unfold finish, unlogged.
  replace (log ++ [start; line]) with ((log ++ [start]) ++ [line]) by by rewrite <-app_assoc.
  destruct m; unfold mbind, logged_bind; by rewrite (receipt_written _ _ _ _ Hl).
Qed.
End receipt_laws.

(** ** The observed verifier and provider *)
Section logged_laws.
Lemma logged_bind_ok {A B} (m : logged A) (f : A -> logged B) log log' b :
  (m ≫= f) log = (log', Ok b) <-> exists log1 a, m log = (log1, Ok a) /\ f a log1 = (log', Ok b).
Proof.
  unfold mbind, logged_bind. destruct (m log) as [log1 [a|e]].
  - split; [by exists log1, a|]. by intros (? & ? & [= <- <-] & ?).
  - split; [done|]. by intros (? & ? & ? & _).
Qed.
Lemma logged_bind_pass {A B} (m : logged A) (f : A -> logged B) log log1 a r :
  m log = (log1, Ok a) -> f a log1 = r -> (m ≫= f) log = r.
Proof. unfold mbind, logged_bind. by intros -> <-. Qed.
Lemma unlogged_ok {A} (m : res A) log log' a : unlogged m log = (log', Ok a) <-> log' = log /\ m = Ok a.
Proof. unfold unlogged. split; [by intros [= <- ->]|by intros [-> ->]]. Qed.
End logged_laws.

Section laws.
Context `{U : Unidata, E : Evidence} (R : Recorder).
Implicit Types (report : AttestationReport) (nonce m : pystr) (log : list pystr).

Lemma nonce_hash_ok s b : encode_utf8 s = Ok b -> _nonce_hash s = Ok (sha256_hex b).
Proof. unfold _nonce_hash. by intros ->. Qed.

Lemma write_ok event values log log' u :
  write R event values log = (log', Ok u) -> exists line, Receipt R log event values line /\ log' = log ++ [line].
Proof.
  destruct (write_spec R event values log) as [(line & Hr & ->)|[e ->]]; [|done].
  intros [= <- _]. by exists line.
Qed.

Lemma span_ok {A} stage values (m : res A) log log' a :
  span R stage values (unlogged m) log = (log', Ok a) -> m = Ok a.
Proof.
  destruct (span_bracketed R stage values (unlogged m) log) as [[e ->]|(st & log1 & r & _ & Hb & H)]; [done|].
  injection Hb as <- <-. destruct H as [(line & _ & ->)|[e ->]]; [by intros [= _ ->]|done].
Qed.

(** The receipt of an accepted appraisal. *)
Definition accepted_values report nonce m : res dict :=
  key_hash ← _nonce_hash (public_key report);
  nonce_hash ← _nonce_hash nonce;
  Ok [(py "accepted", JBool true); (py "measurement", JStr m);
      (py "report_sha256", JStr (sha256_hex (default [] (raw_evidence report))));
      (py "channel_key_sha256", JStr key_hash); (py "nonce_sha256", JStr nonce_hash)].
Lemma accepted_values_plain report nonce m vs :
  accepted_values report nonce m = Ok vs -> forallb (fun kv => always_prints kv.2) vs = true.
Proof. by intros (k & _ & (n & _ & [= <-])%bind_ok)%bind_ok. Qed.

(** What the observed verifier returns, the verifier proved, and the receipt of it is the
    last line of the log. *)
Lemma recorded_ok verify report nonce log log' m :
  recorded R verify report nonce log = (log', Ok m) ->
  verify report nonce = Ok m /\
  exists log1 vs line, accepted_values report nonce m = Ok vs /\ Receipt R log1 "peer_appraisal" vs line /\
    log' = log1 ++ [line].
Proof.
  unfold recorded. destruct ((h ← unlogged (_nonce_hash nonce); _) log) as [log1 [m1|exc]] eqn:Hs.
  - intros (l2 & k & [-> Hk]%unlogged_ok & H)%logged_bind_ok.
    apply logged_bind_ok in H as (l3 & n & [-> Hn]%unlogged_ok & H).
    apply logged_bind_ok in H as (l4 & [] & (line & Hr & ->)%write_ok & [= <- <-]).
    apply logged_bind_ok in Hs as (l5 & h & _ & Hs). apply span_ok in Hs. split; [done|].
    eexists log1, _, line. split_and!; [|exact Hr|done]. unfold accepted_values. rewrite Hk. cbn [mbind result_bind].
    by rewrite Hn.
  - destruct (is_ca2a _ exc); [|done]. by intros (? & ? & _ & [_ ?]%unlogged_ok)%logged_bind_ok.
Qed.

(** Observing appraisal does not change it.  With a log that can be written, and a
    nonce and key that are text, the observed verifier returns and raises exactly what
    the verifier does; the log gains the receipts of the span and, for an acceptance or
    a refusal by AttestationFailed, the matching appraisal. *)
Theorem recorded_transparent verify report nonce log
    (Ho : forall l, exists u, open_log R l = Ok u)
    (Hn : exists b, encode_utf8 nonce = Ok b) (Hk : exists b, encode_utf8 (public_key report) = Ok b) :
  exists start line rest,
    recorded R verify report nonce log = (log ++ [start; line] ++ rest, verify report nonce) /\
    (exists h, EndReceipt R "peer_quote_verification"
       (operation_values R log [(py "nonce_sha256", JStr h)]) (log ++ [start]) (verify report nonce) line) /\
    match verify report nonce with
    | Ok m => exists vs l, rest = [l] /\ accepted_values report nonce m = Ok vs /\
        Receipt R (log ++ [start; line]) "peer_appraisal" vs l
    | Err e =>
        if is_ca2a AttestationFailed e
        then exists l, rest = [l] /\ Receipt R (log ++ [start; line]) "peer_appraisal" [(py "accepted", JBool false)] l
        else rest = []
    end.
Proof.
  destruct Hn as [bn Hn], Hk as [bk Hk]. apply nonce_hash_ok in Hn, Hk.
  destruct (span_transparent R "peer_quote_verification" [(py "nonce_sha256", JStr (sha256_hex bn))]
    (verify report nonce) log Ho eq_refl) as (start & line & _ & Hend & Hspan).
  exists start, line. unfold recorded.
  erewrite (logged_bind_pass (unlogged (_nonce_hash nonce)));
    [|by apply unlogged_ok|exact Hspan].
  destruct (verify report nonce) as [m|e].
  - destruct (receipt_exists R (log ++ [start; line]) "peer_appraisal"
      [(py "accepted", JBool true); (py "measurement", JStr m);
       (py "report_sha256", JStr (sha256_hex (default [] (raw_evidence report))));
       (py "channel_key_sha256", JStr (sha256_hex bk)); (py "nonce_sha256", JStr (sha256_hex bn))]) as [l Hl]; [done|done|].
    exists [l]. split_and!; [|by eexists|].
    + eapply logged_bind_pass; [by apply unlogged_ok|]. eapply logged_bind_pass; [by apply unlogged_ok|].
      eapply logged_bind_pass; [by apply receipt_written|]. unfold mret, logged_ret. by rewrite <-app_assoc.
    + eexists _, l. split_and!; [done| |exact Hl]. unfold accepted_values. rewrite Hk. cbn [mbind result_bind].
      by rewrite Hn.
  - destruct (is_ca2a AttestationFailed e).
    + destruct (receipt_exists R (log ++ [start; line]) "peer_appraisal" [(py "accepted", JBool false)]) as [l Hl]; [done|done|].
      exists [l]. split_and!; [|by eexists|by exists l].
      eapply logged_bind_pass; [by apply receipt_written|]. unfold unlogged. by rewrite <-app_assoc.
    + exists []. split_and!; [done|by eexists|done].
Qed.

(** The observed provider collects exactly what the provider does. *)
Theorem observed_attest_transparent inner key nonce role_ log
    (Ho : forall l, exists u, open_log R l = Ok u) (Hn : exists b, encode_utf8 nonce = Ok b) :
  (observed_attest R inner key nonce role_ log).2 = attest inner key nonce role_.
Proof.
  destruct Hn as [b Hn]. apply nonce_hash_ok in Hn. unfold observed_attest.
  destruct (span_transparent R "local_quote_collection" [(py "nonce_sha256", JStr (sha256_hex b))]
    (if bool_decide (role_ = ROLE_CALLEE) then attest inner key nonce ROLE_CALLEE else attest inner key nonce role_)
    log Ho eq_refl) as (start & line & _ & _ & Hs).
  erewrite logged_bind_pass; [|by apply unlogged_ok|exact Hs]. cbn [snd]. by case_bool_decide as Hr; [rewrite Hr|].
Qed.

Lemma mapM_any_str l k : mapM any_str l = Some k -> l = map JStr k.
Proof.
  intros H. apply mapM_Some in H. induction H as [|v t l k Hv _ IH]; [done|].
  apply any_str_Some in Hv as ->. cbn [map]. by rewrite IH.
Qed.
Lemma platform_policy_ok v l : platform_policy v = Ok l -> v = JArr (map JStr l).
Proof.
  unfold platform_policy. rewrite or_raise_ok. intros (k & ->%any_list_Some & H)%bind_Some. f_equal.
  by apply mapM_any_str.
Qed.

(** What the configuration pins. *)
Record Pinned (fs : FileSystem) (config : json) (base : path) (roots chain : list cert) (expected : bytes) (svn : Z)
    (required forbidden : list pystr) (reject : bool) : Prop := {
  pn_roots : exists p pem, subscript config (py "trusted_roots") = Ok (JStr p) /\
    fs_read_bytes fs (joinpath base (Path p)) = Ok pem /\ load_pem_x509_certificates pem = Ok roots /\ roots <> [];
  pn_chain : exists p pem, subscript config (py "vcek_chain") = Ok (JStr p) /\
    fs_read_bytes fs (joinpath base (Path p)) = Ok pem /\ load_pem_x509_certificates pem = Ok chain /\ chain <> [];
  pn_measurement : exists t, subscript config (py "expected_measurement") = Ok (JStr t) /\ fromhex t = Ok expected;
  pn_svn : subscript config (py "min_guest_svn") = Ok (JInt svn);
  pn_required : subscript config (py "require_platform") = Ok (JArr (map JStr required));
  pn_forbidden : subscript config (py "forbid_platform") = Ok (JArr (map JStr forbidden));
  pn_reject : subscript config (py "reject_unrecognized_platform_bits") = Ok (JBool reject)
}.

Lemma read_below_ok fs base v b :
  read_below fs base v = Ok b -> exists p, v = JStr p /\ fs_read_bytes fs (joinpath base (Path p)) = Ok b.
Proof. unfold read_below. intros (p & ->%or_raise_ok%any_str_Some & H)%bind_ok. by exists p. Qed.

Lemma pinned_verifier_ok fingerprint fs config base v policy :
  pinned_verifier fingerprint fs config base = Ok (v, policy) ->
  exists roots chain expected svn required forbidden reject,
    Pinned fs config base roots chain expected svn required forbidden reject /\
    v = snp_verify chain roots expected svn (list_to_set required) (list_to_set forbidden) reject.
Proof.
  unfold pinned_verifier.
  intros (rp & Hrp & (rpem & (p1 & -> & Hrb)%read_below_ok & (roots & Hroots%value_error_ok & H)%bind_ok)%bind_ok)%bind_ok.
  apply bind_ok in H as (cp & Hcp & (cpem & (p2 & -> & Hcb)%read_below_ok & (chain & Hchain%value_error_ok & H)%bind_ok)%bind_ok).
  apply seq_ok in H as [[_ Hne%raise_if_ok] H]. apply orb_false_iff in Hne as [Hr0 Hc0]. bool_to_prop.
  apply bind_ok in H as (rq & Hrq & (fb & Hfb & (required & ->%platform_policy_ok & H)%bind_ok)%bind_ok).
  apply bind_ok in H as (forbidden & ->%platform_policy_ok & (rj & Hrj & (reject & Hb%or_raise_ok & H)%bind_ok)%bind_ok).
  assert (rj = JBool reject) as -> by (destruct rj; congruence).
  apply bind_ok in H as (ex & Hex & (t & ->%or_raise_ok%any_str_Some & (expected & Hx%value_error_ok & H)%bind_ok)%bind_ok).
  apply bind_ok in H as (sv & Hsv & (ver & (_ & Hrange & ->)%sev_snp_verifier_ok & [= <- _])%bind_ok).
  destruct sv as [| |svn| | | |]; try lia.
  exists roots, chain, expected, svn, required, forbidden, reject. split; [|done].
  split; try done; [exists p1, rpem|exists p2, cpem|by exists t]; (split_and!; [done..|by intros ->]).
Qed.

(** An observed node offers exactly what the node offers. *)
Theorem observed_offer_transparent `{C : Crypto} {Pol} (n : node.PeerNode (Pol := Pol)) nonce log
    (Ho : forall l, exists u, open_log R l = Ok u) (Hn : exists b, encode_utf8 nonce = Ok b) :
  (observed_offer R n nonce log).2 = node.offer n nonce.
Proof.
  pose proof Hn as [b Hb]. apply nonce_hash_ok in Hb. unfold observed_offer.
  erewrite logged_bind_pass; [|by apply unlogged_ok|reflexivity].
  destruct (span_outcome R "receiver_offer" [(py "nonce_sha256", JStr (sha256_hex b))]
    (observed_attest_channel R (node.provider n) (node.channel_public_key n) nonce ROLE_CALLEE) log Ho eq_refl)
    as [start ->].
  unfold observed_attest_channel, node.offer, attest_channel.
  pose proof (observed_attest_transparent (node.provider n) (node.channel_public_key n) nonce ROLE_CALLEE
    (log ++ [start]) Ho Hn) as Ha.
  unfold mbind at 1, logged_bind. destruct (observed_attest _ _ _ _ _ _) as [log1 [report|e]]; cbn [snd] in Ha;
    rewrite <-Ha; [|by case_bool_decide]. by case_bool_decide.
Qed.

(** C21: trust is never discovered from peer evidence.  Whatever an observed verifier
    accepts was signed under the roots and chain of the operator's files, with the
    configured measurement, version floor and platform policy, committing the report's
    own key and nonce; and the policy was written to the log before the verifier existed. *)
Theorem acceptance_pins fingerprint fs config base log log1 v report nonce log2 log3 m
    (Hv : build_verifier R fingerprint fs config base log = (log1, Ok v))
    (Hm : v report nonce log2 = (log3, Ok m)) :
  (exists roots chain expected svn required forbidden reject,
    Pinned fs config base roots chain expected svn required forbidden reject /\
    SnpReportOk chain roots expected svn (list_to_set required) (list_to_set forbidden) reject report nonce m) /\
  exists policy line, Receipt R log "verification_policy" policy line /\ log1 = log ++ [line].
Proof.
  unfold build_verifier in Hv. apply logged_bind_ok in Hv as (l1 & [ver pol] & [-> Hp]%unlogged_ok & Hv).
  apply logged_bind_ok in Hv as (l2 & [] & (line & Hline & ->)%write_ok & [= <- <-]).
  apply recorded_ok in Hm as [Hm _].
  apply pinned_verifier_ok in Hp as (roots & chain & ex & svn & rq & fb & rj & Hpin & ->).
  split; [|by exists pol, line]. exists roots, chain, ex, svn, rq, fb, rj. split; [done|]. by apply snp_verify_ok.
Qed.
End laws.

(** ** A concrete run *)
Module AcceptanceExample.
Import AsciiOnly Toy TpmExample TsmExample SevSnpExample.

Definition recorder : Recorder :=
  {| run_id := py "run"; now_text _ := py "2025-01-01T00:00:00+00:00"; elapsed_seconds _ := py "0.5";
     operation_id _ := py "00"; open_log _ := Ok tt |}.
Lemma recorder_open l : exists u, open_log recorder l = Ok u.
Proof. by exists tt. Qed.

Definition pins : json :=
  JObj [(py "trusted_roots", JStr (py "roots.pem")); (py "vcek_chain", JStr (py "roots.pem"));
        (py "require_platform", JArr []); (py "forbid_platform", JArr []);
        (py "reject_unrecognized_platform_bits", JBool true);
        (py "expected_measurement", JStr (hex launch)); (py "min_guest_svn", JInt 1)].
Definition pem_disk : FileSystem :=
  {| fs_is_file _ := true; fs_read_text _ := Err (PyExc OSError []); fs_read_bytes _ := Ok vcek |}.
Definition here : path := Path (py "/etc").
Definition fingerprint_ (c : cert) : bytes := c.
Definition verifier_ : Verifier := snp_verify [vcek] [vcek] launch 1 (list_to_set []) (list_to_set []) true.
Definition policy_receipt : dict :=
  [(py "expected_measurement", JStr (hex launch)); (py "min_guest_svn", JInt 1); (py "debug_allowed", JBool false);
   (py "required_vmpl", JInt 0); (py "root_sha256", JArr [JStr (hex vcek)]); (py "require_platform", JArr []);
   (py "forbid_platform", JArr []); (py "reject_unrecognized_platform_bits", JBool true)].

Lemma pinned : pinned_verifier fingerprint_ pem_disk pins here = Ok (verifier_, policy_receipt).
Proof.
  unfold pinned_verifier. do 6 (eapply bind_pass; [reflexivity|]). apply guard_pass; [reflexivity|].
  do 7 (eapply bind_pass; [reflexivity|]). eapply bind_pass; [reflexivity|].
  eapply bind_pass; [by rewrite fromhex_hex|]. eapply bind_pass; [reflexivity|].
  eapply bind_pass; [|reflexivity]. apply sev_snp_verifier_ok. split_and!; [done|done|done|reflexivity].
Qed.
Definition policy_line : pystr :=
  get_ok [] (dumps (sort_keys (JObj (entry recorder [] "verification_policy" policy_receipt)))) ++ [10%N].
Lemma built : build_verifier recorder fingerprint_ pem_disk pins here [] = ([policy_line], Ok (recorded recorder verifier_)).
Proof.
  unfold build_verifier. eapply logged_bind_pass; [apply unlogged_ok; split; [reflexivity|exact pinned]|].
  eapply logged_bind_pass; [|reflexivity]. apply (receipt_written recorder "verification_policy" policy_receipt []).
  split; [by exists tt|]. eexists. split; [|reflexivity]. apply get_ok_spec. vm_compute. reflexivity.
Qed.
Lemma nonce_text : exists b, encode_utf8 (py "nonce") = Ok b.
Proof. eexists. reflexivity. Qed.
Lemma key_text : exists b, encode_utf8 (public_key snp_report) = Ok b.
Proof. exists (get_ok [] (encode_utf8 (public_key snp_report))). apply get_ok_spec. vm_compute. reflexivity. Qed.
Lemma appraised log :
  exists log', recorded recorder verifier_ snp_report (py "nonce") log = (log', Ok (measurement snp_report)).
Proof.
  destruct (recorded_transparent recorder verifier_ snp_report (py "nonce") log recorder_open nonce_text key_text)
    as (start & line & rest & -> & _). assert (verifier_ snp_report (py "nonce") = Ok (measurement snp_report)) as ->.
  { exact snp_verified. }
  by eexists.
Qed.

Lemma acceptance_pins_witness :
  exists roots chain expected svn required forbidden reject,
    Pinned pem_disk pins here roots chain expected svn required forbidden reject /\
    SnpReportOk chain roots expected svn (list_to_set required) (list_to_set forbidden) reject snp_report
      (py "nonce") (measurement snp_report).
Proof.
  destruct (appraised [policy_line]) as [log' H].
  exact (proj1 (acceptance_pins recorder fingerprint_ pem_disk pins here [] [policy_line]
    (recorded recorder verifier_) snp_report (py "nonce") [policy_line] log' (measurement snp_report) built H)).
Defined.
End AcceptanceExample.
