(* ===== verification/Benchmarks.v ===== *)
(** * The delegation benchmark ([ca2a_runtime.benchmarks])

    The chain the benchmark delegates hop by hop and verifies; its timing and its floats
    are left out. *)
From S2P Require Export Chain.

Module benchmarks.

Definition scope : gset pystr := list_to_set (map (fun i => py "cap:" ++ str_N (N.of_nat i)) (seq 0 16)).

Section build.
Context `{U : Unidata, C : Crypto}.

(** The credential of one iteration, unsigned; [keys] are the generated key pairs. *)
Definition hop_credential (keys : nat -> ed_priv) (depth : nat) (parent_id : option pystr) : DelegationCredential :=
  {| credential_id := py "cred-" ++ str_N (N.of_nat depth);
     issuer := ed_public_hex (keys depth); subject := ed_public_hex (keys (S depth));
     credential.scope := scope; credential.depth := Z.of_nat depth; parent_id := parent_id;
     credential.signature := []; not_before := None; not_after := None |}.

(** The loop, from a depth on. *)
Fixpoint build_from (keys : nat -> ed_priv) (depth : nat) (parent_id : option pystr) (hops : nat) :
    res (list DelegationCredential) :=
  match hops with
  | 0 => Ok []
  | S hops =>
      cred ← post_init (hop_credential keys depth parent_id);
      cred ← sign cred (keys depth);
      chain ← build_from keys (S depth) (Some (credential_id cred)) hops;
      Ok (cred :: chain)
  end.

Definition _build_chain (keys : nat -> ed_priv) (hops : nat) : res (list DelegationCredential) :=
  build_from keys 0 None hops.

(** One iteration of [run]: a chain of two hops, verified. *)
Definition run_once (clock : Z) (keys : nat -> ed_priv) : res revocation.RevocationStatus :=
  chain ← _build_chain keys 2;
  root ← or_raise (head chain) (PyExc IndexError (py "list index out of range"));
  verify_chain clock chain 64 {[issuer root]} None None None.
End build.
End benchmarks.
Import benchmarks.

(** ** Honest delegation is accepted *)
Section laws.
Context `{U : Unidata, C : Crypto, L : !CryptoLaws C}.

Lemma is_ascii_scalars s : is_ascii s = true -> scalars s = true.
Proof.
  unfold is_ascii, scalars. rewrite !forallb_forall. intros H c Hc%H. apply scalar_spec. bool_to_prop. lia.
Qed.
Lemma is_ascii_app s t : is_ascii (s ++ t) = is_ascii s && is_ascii t.
Proof. unfold is_ascii. apply forallb_app. Qed.
Lemma str_N_is_ascii n : is_ascii (str_N n) = true.
Proof.
  unfold is_ascii. apply forallb_Forall. eapply Forall_impl; [apply str_N_digits|]. intros c Hc.
  unfold is_digit in Hc. bool_to_prop. apply N.ltb_lt. lia.
Qed.
Lemma hex_is_ascii bs : is_ascii (hex bs) = true.
Proof. apply lower_hex_ascii, hex_lower. Qed.

(** The name of a hop. *)
Definition hop_id (depth : nat) : pystr := py "cred-" ++ str_N (N.of_nat depth).
Lemma hop_id_inj i j : hop_id i = hop_id j -> i = j.
Proof. intros H%app_inv_head%str_N_inj. lia. Qed.
Lemma hop_id_scalars i : scalars (hop_id i) = true.
Proof. apply is_ascii_scalars. unfold hop_id. by rewrite is_ascii_app, str_N_is_ascii. Qed.

Lemma scope_domain : in_domain (JArr (map JStr (sorted_set scope))) = true.
Proof. vm_compute. reflexivity. Qed.

#[local] Opaque scope.
Lemma hop_domain keys depth parent :
  (Z.of_nat depth <= _MAX_SAFE_INTEGER)%Z -> from_option scalars true parent = true ->
  in_domain (JObj (body (hop_credential keys depth parent))) = true.
Proof.
  intros Hd Hp. unfold body, hop_credential. cbn [credential_id issuer subject credential.scope credential.depth
    parent_id not_before not_after app].
  pose proof scope_domain as Hs. revert Hs. generalize (JArr (map JStr (sorted_set scope))). intros sc Hs.
  cbn [in_domain forallb fst snd]. fold (hop_id depth). rewrite hop_id_scalars, Hs.
  unfold ed_public_hex. rewrite !(is_ascii_scalars _ (hex_is_ascii _)).
  assert (in_domain (opt_str parent) = true) as -> by (by destruct parent).
  assert ((- _MAX_SAFE_INTEGER <=? Z.of_nat depth)%Z && (Z.of_nat depth <=? _MAX_SAFE_INTEGER)%Z = true) as ->.
  { apply andb_true_iff. split; apply Z.leb_le; [unfold _MAX_SAFE_INTEGER; lia|done]. }
  reflexivity.
Qed.

(** Signing a hop succeeds, keeps its fields and gives a signature that verifies. *)
Lemma hop_signed keys depth parent :
  (Z.of_nat depth <= _MAX_SAFE_INTEGER)%Z -> from_option scalars true parent = true ->
  exists c, sign (hop_credential keys depth parent) (keys depth) = Ok c /\
    c = with_signature (signature c) (hop_credential keys depth parent) /\ verify_signature c = Ok tt.
Proof.
  intros Hd Hp. assert (window_ok (hop_credential keys depth parent)) as Hw.
  { split; [intros z [=]|]. split; [intros z [=]|]. intros b a [=]. }
  pose proof (sign_verify _ (keys depth) Hw (hop_domain keys depth parent Hd Hp)) as H.
  rewrite bool_decide_true in H by done. destruct H as (c & Hc & _). exists c. split; [done|].
  by apply sign_verifies in Hc as (? & _ & _ & ?).
Qed.

(** The hops issued so far, ready for the next one. *)
Record Issued (keys : nat -> ed_priv) (pre : list DelegationCredential) : Prop := {
  is_ids : credential_id <$> pre = hop_id <$> seq 0 (length pre);
  is_last : forall p, last pre = Some p ->
    subject p = ed_public_hex (keys (length pre)) /\ credential.scope p = scope /\
    (credential.depth p + 1 = Z.of_nat (length pre))%Z
}.

Lemma issued_next keys pre c s :
  Issued keys pre ->
  c = with_signature s (hop_credential keys (length pre) (credential_id <$> last pre)) -> Issued keys (pre ++ [c]).
Proof.
  intros [Hids _] ->. split.
  - rewrite length_app, Nat.add_1_r, seq_S, !fmap_app, Hids. done.
  - intros p. rewrite last_snoc, length_app, Nat.add_1_r. intros [= <-]. split_and!; [done|done|]. cbn. lia.
Qed.

Lemma issued_link keys pre s :
  Issued keys pre -> link_ok (last pre) (with_signature s (hop_credential keys (length pre) (credential_id <$> last pre))).
Proof.
  intros [_ Hl]. destruct (last pre) as [p|] eqn:E.
  - destruct (Hl p eq_refl) as (H1 & H2 & H3). split_and!; [done|done|cbn; lia|]. cbn. by rewrite H2.
  - apply last_None in E as ->. split; done.
Qed.

Lemma build_from_ok now max_depth keys hops pre :
  Issued keys pre -> ChainOk now max_depth pre ->
  (Z.of_nat (length pre + hops) <= max_depth + 1)%Z -> (Z.of_nat (length pre + hops) <= _MAX_SAFE_INTEGER)%Z ->
  exists chain, build_from keys (length pre) (credential_id <$> last pre) hops = Ok chain /\
    length chain = hops /\ Issued keys (pre ++ chain) /\ ChainOk now max_depth (pre ++ chain).
Proof.
  revert pre. induction hops as [|hops IH]; intros pre Hi Hc Hm Hs.
  { exists []. rewrite app_nil_r. by split_and!. }
  assert (from_option scalars true (credential_id <$> last pre) = true) as Hp.
  { destruct (last pre) as [p|] eqn:E; [|done]. cbn. apply last_lookup_Some in E as [q Hq].
    pose proof (is_ids _ _ Hi) as Hids. rewrite Hq, length_app, Nat.add_1_r, seq_S, !fmap_app in Hids.
    apply app_inj_tail in Hids as [_ ->]. apply hop_id_scalars. }
  destruct (hop_signed keys (length pre) (credential_id <$> last pre)) as (c & Hsign & Hshape & Hv); [lia|done|].
  pose proof (issued_next _ _ _ _ Hi Hshape) as Hi'.
  assert (ChainOk now max_depth (pre ++ [c])) as Hc'.
  { apply ChainOk_snoc. split_and!; [done|done| | | |].
    - rewrite Hshape. split; intros b [=].
    - rewrite elem_of_list_to_set, (is_ids _ _ Hi), Hshape. intros (i & Hid & Hin)%list_elem_of_fmap.
      apply hop_id_inj in Hid as <-. apply elem_of_seq in Hin. lia.
    - rewrite Hshape. cbn. lia.
    - rewrite Hshape. by apply issued_link. }
  destruct (IH (pre ++ [c])) as (chain & Hb & Hlen & Hi2 & Hc2); try (rewrite length_app; cbn; lia); [done|done|].
  exists (c :: chain). rewrite <-app_assoc in Hi2, Hc2. split_and!; [|by cbn; rewrite Hlen|done|done].
  cbn [build_from]. eapply bind_pass; [reflexivity|]. eapply bind_pass; [exact Hsign|].
  eapply bind_pass; [|reflexivity]. rewrite length_app, last_snoc, Nat.add_1_r in Hb. exact Hb.
Qed.

(** C12: honest delegation always succeeds.  For every number of hops a verifier's depth
    limit admits, the chain built hop by hop, each signed by the key the hop above named,
    is built and verifies under its root, with revocation reported as not checked, and
    its last subject is the last key generated. *)
Theorem built_chain_accepted clock max_depth keys hops
    (Hne : 0 < hops) (Hm : (Z.of_nat hops <= max_depth + 1)%Z) (Hs : (Z.of_nat hops <= _MAX_SAFE_INTEGER)%Z) :
  exists chain leaf, _build_chain keys hops = Ok chain /\ length chain = hops /\
    last chain = Some leaf /\ subject leaf = ed_public_hex (keys hops) /\
    verify_chain clock chain max_depth {[ed_public_hex (keys 0)]} None None None =
      Ok revocation.REVOCATION_NOT_CHECKED.
Proof.
  destruct (build_from_ok clock max_depth keys hops []) as (chain & Hb & Hlen & Hi & Hc); [|apply ChainOk_nil|done|done|].
  { split; [done|]. by intros p. }
  cbn [app] in Hi, Hc. destruct (last chain) as [leaf|] eqn:Hl.
  2: { apply last_None in Hl as ->. cbn in Hlen. lia. }
  exists chain, leaf. split_and!; [done|done|done| |].
  { destruct (is_last _ _ Hi leaf Hl) as [-> _]. by rewrite Hlen. }
  apply verify_chain_ok; [by intros ?|]. split_and!; [split; by intros ?| |exact Hc|done].
  destruct hops as [|hops]; [lia|]. cbn [build_from length last fmap option_fmap option_map] in Hb.
  apply bind_ok in Hb as (c0 & Hc0 & (c1 & Hc1 & (rest & _ & <-%ok_inj)%bind_ok)%bind_ok).
  apply ok_inj in Hc0 as <-. apply sign_verifies in Hc1 as (-> & Hiss & _).
  exists (with_signature (signature c1) (hop_credential keys 0 None)), rest. split; [done|].
  cbn. by apply elem_of_singleton.
Qed.

(** The benchmark's own verification cannot fail. *)
Lemma run_once_ok clock keys : run_once clock keys = Ok revocation.REVOCATION_NOT_CHECKED.
Proof.
  destruct (built_chain_accepted clock 64 keys 2) as (chain & leaf & Hb & Hlen & _ & _ & Hv); [lia|lia|done|].
  unfold run_once. eapply bind_pass; [exact Hb|]. destruct chain as [|root chain]; [done|].
  eapply bind_pass; [reflexivity|]. pose proof Hv as ((r & rest & [= <- <-] & Ht) & _)%verify_chain_hops.
  apply elem_of_singleton in Ht as ->. exact Hv.
Qed.
End laws.

(** ** A concrete chain *)
Module BenchmarksExample.
Import AsciiOnly Toy.
Definition keys (i : nat) : ed_priv := N.of_nat i.
Lemma built_chain_accepted_witness :
  exists chain leaf, _build_chain keys 9 = Ok chain /\ length chain = 9 /\ last chain = Some leaf /\
    subject leaf = ed_public_hex (keys 9).
Proof.
  destruct (built_chain_accepted 150 8 keys 9 ltac:(lia) ltac:(lia) ltac:(unfold _MAX_SAFE_INTEGER; lia)) as (chain & leaf & H1 & H2 & H3 & H4 & _).
  exists chain, leaf. exact (conj H1 (conj H2 (conj H3 H4))).
Defined.
End BenchmarksExample.
